(* ===== verification/_CoqProject ===== *)
-Q . S2P
Prelude.v
Effects.v
Octets.v
Packet.v
OMap.v
SoftFloat.v
RangeBuf.v
RecvBuf.v
RecvQueue.v
SendBuf.v
Recovery.v
RecoveryV1.v
Connection.v
AckPath.v
DataPath.v
Ingest.v
CAddr.v
Ffi.v
Sender.v
Receiver.v
System.v
Transfer.v
Forged.v
Driver.v
Flow.v
Progress.v
Reading.v
Pipeline.v
Relate.v
Interleaved.v
