(* ===== verification/Prelude.v ===== *)
(** * Verification of dmludp, a partially reliable transport over UDP

    dmludp (src/src, a Rust crate) carries the gradients of a distributed
    learning job.  The data are cut into 1024-byte blocks; the squared norm of a
    block gives it a priority from 1 to 3, and the priority says how often a lost
    block is sent again before the sender gives it up.  This library models the
    crate in Rocq and proves what the protocol and its buffers guarantee.

    ** The program and how its parts interact

    - An application loads the text of a model with [Connection::data_send],
      which stores the bytes and the block norms ([process_string]).
    - [Connection::send_all] opens a round: it asks [Recovery] for the congestion
      window ([cwnd], or [rollback] when too many high-priority packets were
      lost), and [SendBuf::write] drops what was acknowledged and takes new data
      up to the window.
    - [Connection::send_data] produces one packet per call: [write_pkt_type]
      chooses its type; a data packet carries the next chunk of [SendBuf::emit];
      after at most eight of them an [ElictAck] lists their offsets.
    - [Connection::recv_slice] handles a packet: data go to [RecvBuf::write], an
      [ElictAck] is answered by an ACK with a verdict per offset ([check_loss]),
      an ACK marks chunks for removal ([process_ack]) and moves the window
      ([Recovery::update_win]).
    - The receiving application reads with [Connection::read] ([RecvBuf::emit]),
      which skips the gaps left by chunks that were given up.

    ** Files

    - [Prelude]: machine-integer bounds, list slices, big-endian bytes, the
      tactics and hint databases shared by all files.
    - [Effects]: [Error] and [to_c] of lib.rs; the state, error and panic monad
      [M] in which every method is written; arithmetic with the overflow
      behaviour of the two build profiles ([Profile]); the total logic [wp] (the
      call returns) and the partial one [wlp] (whatever it returns).
    - [Octets]: the byte cursor of the third-party crate [octets], an interface
      ([OctetsOps]) with its documented laws ([OctetsSpec]) and a list instance
      that satisfies them.
    - [OMap], [SoftFloat]: the ordered maps and the [f32]/[f64] arithmetic of
      the Rust standard library, executable.
    - [Packet]: packet.rs: packet types, the 26-byte header, [PktNumWindow].
    - [RangeBuf], [RecvBuf], [SendBuf]: the stream buffers of lib.rs.
    - [RecvQueue]: reading the receive buffer in several calls.
    - [Recovery]: recovery/mod.rs, recovery/NewCubic.rs and [Config] of lib.rs.
    - [RecoveryV1]: recovery/modv1.rs, the congestion control before that, and
      how the two compare.
    - [Connection]: the state and every method of [Connection] except the two
      that load data.  The readings of [Instant::now()] are arguments; the
      iteration order of a [HashMap] is an interface ([HashOrder]).
    - [Ingest]: [data_send] and [process_string], with the grammar of
      [f32::from_str].
    - [AckPath], [DataPath]: what the methods of [Connection] do to the wire and
      to the peer, packet by packet.
    - [Sender], [Receiver]: an invariant of each end that every method keeps.
    - [System]: two connections and a network that loses, repeats and reorders
      packets, as a step relation; the end-to-end theorems; a complete run.
    - [Transfer]: the contract of a transfer, without packets, windows or
      buffers, and that [System] implements it.
    - [Forged]: a sender that gets any bytes at any time, and what they cannot
      do to it.
    - [CAddr], [Ffi]: ffi.rs: the conversion of socket addresses, over an
      interface of the [libc] structures ([LibcOps], [LibcSpec]), and the entry
      points of the C interface on a heap of pointers ([Allocator]); sessions
      of calls.
    - [Driver]: an executable application around two connections, with a
      network that loses any data packets it likes; the loop [flush_egress] of
      client.cc and server.cc over the C interface.
    - [Flow], [Progress]: the invariant of such a transfer, and that it ends.
    - [Reading]: what the receiving application then reads.
    - [Pipeline]: connections made with [accept] and [connect], a model loaded
      with [data_send], and its transfer.
    - [Relate]: a relational logic for [M], and that two connections that differ
      only in what reading changes go through the same calls.
    - [Interleaved]: the application of [Driver] with reads during the transfer;
      what reads cannot influence, and what they give without losses.

    Names follow the source.  A struct is a record whose fields carry a short
    prefix, a method is a definition of the same name (a long method is split
    along its [if] blocks, and the parts are composed in the order of the code).

    ** What the theorems show

    - End to end ([System], [Transfer], [Progress]): C1 a transfer that ends
      has delivered every chunk or used up its transmissions; C2 every run
      is a run of the contract; C3 the application brings every transfer to
      its end whatever data packets are lost, and C5 repeats only what was
      lost; C4 the same from the text of a model on ([Pipeline]); C6
      every transfer can complete, with every byte delivered; C7 reading
      during a transfer does not influence it ([Relate], [Interleaved]);
      C8 no chunk is forgotten in between; C9 what is received is what
      was sent; C10, C11 packets in flight are truthful and well formed; C12
      the sender keeps its invariant.
    - Any input ([Forged]): C13 forged packets do not corrupt what a sender
      sends or keeps.
    - C interface ([CAddr], [Ffi]): C14 a session goes through the histories of
      the methods; C21 addresses survive the conversion; C22 forged
      lengths.
    - Exchanges ([DataPath]): C15 one round of ElictAck and ACK; C16 a data
      packet; C32 the handshake.  These are total: every call involved
      returns.
    - Send buffer: C17, C18.  Header: C19, C20.  Congestion
      control: C23, and against the earlier version C24, C25.
      Receive buffer: C27.  Packet window: C33.  Loading: C34.
    - Behaviour of the code that its users have to know, or that departs from
      its comments: C26 (a roll-back has no history to go back to), C28
      (what a read returns after a transfer), C29 (and during one), C30 (a
      chunk read in two calls), C31 (reads after a late retransmission),
      C35 (loading), C36 (the loop of the example
      programs does not end), C37 (reports without offsets grow the window),
      C38 (retransmission budget), C39, C40 (malformed control packets).
      Theorems of the components say more: [acked_chunk_is_dropped] and
      [clear_keeps_stale_flags] of [SendBuf], [cwnd_floor] of [Recovery],
      [reload_is_not_sent] of [Ingest], [emit_overwrites_contiguous] of [RecvBuf],
      [header_start_ack_aliases_fin] of [Packet],
      [v1_rollback_restores_clean_window] of [RecoveryV1].

    ** Bounds and fuel

    Integers are [Z] values kept in the range of their Rust type; an operation
    that leaves the range panics when [overflow_checks] is set and wraps when it
    is not.  [usize] has 64 bits.  Three loops carry fuel: [process_ack_loop]
    and [check_loss_loop] get the length of the buffer, and consume 16 and 8
    bytes of it per iteration; [chunks] gets the length of its input and takes at
    least one byte per piece.  All others recurse on the data they consume.  The
    buffers handed to [send_data] in [System] have room for a header and a full
    chunk ([datagram]), as the 1350-byte buffers of client.cc and server.cc have.
    The application of [Driver] gets [enough D] turns, 64 per byte of data and 6
    more, which [turn_progresses] shows to be enough: every turn lowers a
    [measure] that starts below that.  It is stated for data below 2^47 bytes
    ([max_transfer] of [Flow]): at most four packets are sent per byte, and the
    window counters grow by at most 19176 per packet, so that they stay within
    64 bits.

    ** Not modelled

    - [println!], [Debug] and [Display] output: it has no effect on the state,
      and the formatting of [Duration] and floats is the standard library's.
    - Of ffi.rs: [std_time_to_c] (a copy of the private memory of [Instant]), the
      structures [Stats], [PathStats] and [AppData], which nothing fills, and the
      code for windows and macos.  The file does not type-check as it stands;
      [Ffi] says what the model does at these places.
    - The struct [Acked] of recovery/mod.rs and modv1.rs, which nothing uses.
    - The C++ programs and the header dmludp.h, except the loop [flush_egress]:
      the other callbacks are sockets and event loops around functions that
      ffi.rs does not define.
    - The getters [loss_detection_timer] and [app_limited] of [Recovery] are the
      fields of the same name.
    - NaN payloads, and allocation failure. *)
From stdpp Require Export base numbers list sorting gmap.
From Stdlib Require Export Lia ZArith.
#[global] Open Scope Z_scope.

(** ** Bounds of the machine integers of the source *)

Definition u8_bound : Z := 2 ^ 8.
Definition u64_bound : Z := 2 ^ 64.

(** [usize] is 64 bits wide on the targets of the repository. *)
Abbreviation usize_bound := u64_bound.

Definition is_u8 (z : Z) : Prop := 0 <= z < u8_bound.
Definition is_u64 (z : Z) : Prop := 0 <= z < u64_bound.
Definition wrap64 (z : Z) : Z := z mod u64_bound.

#[export] Instance is_u8_dec z : Decision (is_u8 z).
Proof. unfold is_u8. apply _. Defined.
#[export] Instance is_u64_dec z : Decision (is_u64 z).
Proof. unfold is_u64. apply _. Defined.

(** ** Notations: lengths and slices in [Z], as the source counts them *)

Declare Scope dml_scope.
Delimit Scope dml_scope with dml.
#[global] Open Scope dml_scope.

Definition zlen {A} (l : list A) : Z := Z.of_nat (length l).
Notation "'♯' l" := (zlen l) (at level 9, l at level 9, format "♯ l") : dml_scope.

(** [&l[a..b]]: [None] where Rust panics. *)
Definition slice {A} (l : list A) (a b : Z) : option (list A) :=
  if (0 <=? a) && (a <=? b) && (b <=? ♯l)
  then Some (take (Z.to_nat (b - a)) (drop (Z.to_nat a) l)) else None.

(** [&l[a..]]. *)
Definition slice_from {A} (l : list A) (a : Z) : option (list A) :=
  slice l a (♯l).

(** [l[i]]. *)
Definition index {A} (l : list A) (i : Z) : option A :=
  if 0 <=? i then l !! Z.to_nat i else None.

(** [out[a..a+src.len()].copy_from_slice(src)]: [None] where it panics. *)
Definition blit (out : list Z) (a : Z) (src : list Z) : option (list Z) :=
  if (0 <=? a) && (a + ♯src <=? ♯out)
  then Some (take (Z.to_nat a) out ++ src ++ drop (Z.to_nat (a + ♯src)) out)
  else None.

(** ** Big-endian and little-endian integers *)

Fixpoint le_bytes (n : nat) (z : Z) : list Z :=
  match n with
  | O => []
  | S n' => z mod 256 :: le_bytes n' (z / 256)
  end.
Definition be_bytes (n : nat) (z : Z) : list Z := reverse (le_bytes n z).

Fixpoint le_value (l : list Z) : Z :=
  match l with
  | [] => 0
  | b :: l' => b + 256 * le_value l'
  end.
Definition be_value (l : list Z) : Z := le_value (reverse l).

(** ** Tactics and hint databases *)

Create Rewrite HintDb zlen.
Create HintDb dml.

Lemma zlen_nil {A} : ♯(@nil A) = 0.
Proof. done. Qed.
Lemma zlen_cons {A} (x : A) l : ♯(x :: l) = 1 + ♯l.
Proof. unfold zlen. simpl. lia. Qed.
Lemma zlen_app {A} (l k : list A) : ♯(l ++ k) = ♯l + ♯k.
Proof. unfold zlen. rewrite length_app. lia. Qed.
Lemma zlen_nonneg {A} (l : list A) : 0 <= ♯l.
Proof. unfold zlen. lia. Qed.
Lemma zlen_take {A} (l : list A) n : ♯(take n l) = Z.min (Z.of_nat n) (♯l).
Proof. unfold zlen. rewrite length_take. lia. Qed.
Lemma zlen_drop {A} (l : list A) n : ♯(drop n l) = Z.max 0 (♯l - Z.of_nat n).
Proof. unfold zlen. rewrite length_drop. lia. Qed.
Lemma zlen_fmap {A B} (f : A → B) (l : list A) : ♯(f <$> l) = ♯l.
Proof. unfold zlen. by rewrite length_fmap. Qed.
Lemma zlen_reverse {A} (l : list A) : ♯(reverse l) = ♯l.
Proof. unfold zlen. by rewrite length_reverse. Qed.
Lemma zlen_replicate {A} n (x : A) : ♯(replicate n x) = Z.of_nat n.
Proof. unfold zlen. by rewrite length_replicate. Qed.
Lemma zlen_0 {A} (l : list A) : ♯l = 0 → l = [].
Proof. destruct l; [done|]. rewrite zlen_cons. pose proof (zlen_nonneg l). lia. Qed.

#[export] Hint Rewrite @zlen_nil @zlen_cons @zlen_app @zlen_take @zlen_drop
  @zlen_fmap @zlen_reverse @zlen_replicate : zlen.

(** Normalise lengths, add their non-negativity and call [lia]. *)
Ltac pose_len :=
  repeat match goal with
  | |- context [zlen ?l] =>
      lazymatch goal with
      | _ : 0 <= zlen l |- _ => fail
      | _ => pose proof (zlen_nonneg l)
      end
  | _ : context [zlen ?l] |- _ =>
      lazymatch goal with
      | _ : 0 <= zlen l |- _ => fail
      | _ => pose proof (zlen_nonneg l)
      end
  end.
Ltac zlia :=
  autorewrite with zlen in *; pose_len; lia.

(** Split the boolean tests of the source into linear facts. *)
Ltac bool_cases :=
  repeat match goal with
  | |- context [?a <=? ?b] => destruct (Z.leb_spec a b)
  | |- context [?a <? ?b] => destruct (Z.ltb_spec a b)
  | |- context [?a =? ?b] => destruct (Z.eqb_spec a b)
  end; simpl.

(** ** Generic lemmas *)

Lemma slice_Some {A} (l : list A) a b :
  0 <= a → a <= b → b <= ♯l →
  slice l a b = Some (take (Z.to_nat (b - a)) (drop (Z.to_nat a) l)).
Proof. intros. unfold slice. bool_cases; try lia. done. Qed.

Lemma slice_None {A} (l : list A) a b :
  a < 0 ∨ b < a ∨ ♯l < b → slice l a b = None.
Proof. intros. unfold slice. bool_cases; try lia; done. Qed.

Lemma slice_from_Some {A} (l : list A) a :
  0 <= a → a <= ♯l → slice_from l a = Some (drop (Z.to_nat a) l).
Proof.
  intros. unfold slice_from. rewrite slice_Some by zlia.
  f_equal. apply take_ge. rewrite length_drop. unfold zlen in *. lia.
Qed.

Lemma slice_from_None {A} (l : list A) a : ♯l < a → slice_from l a = None.
Proof. intros. unfold slice_from. apply slice_None. lia. Qed.

Lemma slice_prefix {A} (l : list A) n :
  0 <= n → n <= ♯l → slice l 0 n = Some (take (Z.to_nat n) l).
Proof. intros. rewrite slice_Some by lia. rewrite drop_0. do 2 f_equal. lia. Qed.

Lemma index_Some {A} (l : list A) i :
  0 <= i → i < ♯l → ∃ x, index l i = Some x.
Proof.
  intros. unfold index. bool_cases; [|lia].
  apply lookup_lt_is_Some_2. unfold zlen in *. lia.
Qed.

Lemma index_None {A} (l : list A) i : ♯l <= i → index l i = None.
Proof.
  intros. unfold index. bool_cases; [|done].
  apply lookup_ge_None_2. unfold zlen in *. lia.
Qed.

Lemma index_lt {A} (l : list A) i x : index l i = Some x → 0 <= i < ♯l.
Proof.
  unfold index. bool_cases; [|done]. intros ?%lookup_lt_Some. unfold zlen. lia.
Qed.

Lemma Forall_filter_2 {A} (Q Pr : A → Prop) `{!∀ x, Decision (Pr x)} l :
  Forall Q l → Forall Q (filter Pr l).
Proof.
  rewrite !Forall_forall. intros Hl x [_ Hx]%list_elem_of_filter. by apply Hl.
Qed.

Lemma filter_agree {A} (f g : A → Prop)
    `{Hf : ∀ x, Decision (f x)} `{Hg : ∀ x, Decision (g x)} (xs : list A) :
  (∀ x, x ∈ xs → (f x ↔ g x)) → filter f xs = filter g xs.
Proof.
  induction xs as [|x xs IH]; intros Hfg; [done|].
  rewrite !filter_cons, IH by (intros y Hy; apply Hfg; by constructor).
  pose proof (Hfg x ltac:(by constructor)). repeat case_decide; tauto.
Qed.

Lemma filter_all {A} (Pr : A → Prop) `{!∀ x, Decision (Pr x)} (l : list A) :
  Forall Pr l → filter Pr l = l.
Proof. induction 1 as [|x l Hx _ IH]; [done|]. by rewrite filter_cons_True, IH. Qed.

Lemma blit_Some out a src :
  0 <= a → a + ♯src <= ♯out →
  blit out a src =
    Some (take (Z.to_nat a) out ++ src ++ drop (Z.to_nat (a + ♯src)) out).
Proof. intros. unfold blit. bool_cases; try lia. done. Qed.

Lemma blit_0 out src :
  ♯src <= ♯out → blit out 0 src = Some (src ++ drop (length src) out).
Proof.
  intros. rewrite blit_Some by lia. simpl. do 3 f_equal.
  unfold zlen. lia.
Qed.

Lemma blit_zlen out a src out' : blit out a src = Some out' → ♯out' = ♯out.
Proof.
  unfold blit. bool_cases; intros [= <-]. zlia.
Qed.

(** *** Bytes *)

Lemma le_bytes_length n z : length (le_bytes n z) = n.
Proof. revert z. induction n; simpl; intros; [done|]. by rewrite IHn. Qed.

Lemma be_bytes_length n z : length (be_bytes n z) = n.
Proof. unfold be_bytes. by rewrite length_reverse, le_bytes_length. Qed.

Lemma zlen_be_bytes n z : ♯(be_bytes n z) = Z.of_nat n.
Proof. unfold zlen. by rewrite be_bytes_length. Qed.
Lemma zlen_le_bytes n z : ♯(le_bytes n z) = Z.of_nat n.
Proof. unfold zlen. by rewrite le_bytes_length. Qed.
#[export] Hint Rewrite zlen_be_bytes zlen_le_bytes : zlen.

Lemma le_bytes_u8 n z : Forall is_u8 (le_bytes n z).
Proof.
  revert z. induction n; intros z; simpl; constructor; [|apply IHn].
  unfold is_u8, u8_bound. pose proof (Z.mod_pos_bound z 256). lia.
Qed.

Lemma be_bytes_u8 n z : Forall is_u8 (be_bytes n z).
Proof. unfold be_bytes. rewrite Forall_reverse. apply le_bytes_u8. Qed.

Lemma le_value_bytes n z :
  0 <= z < 256 ^ Z.of_nat n → le_value (le_bytes n z) = z.
Proof.
  revert z. induction n as [|n IH]; intros z Hz.
  - simpl in *. lia.
  - rewrite Nat2Z.inj_succ, Z.pow_succ_r in Hz by lia.
    cbn [le_bytes le_value]. rewrite IH.
    + pose proof (Z.div_mod z 256). lia.
    + split; [apply Z.div_pos; lia | apply Z.div_lt_upper_bound; lia].
Qed.

Lemma be_value_bytes n z :
  0 <= z < 256 ^ Z.of_nat n → be_value (be_bytes n z) = z.
Proof.
  intros. unfold be_value, be_bytes. rewrite reverse_involutive.
  by apply le_value_bytes.
Qed.

Lemma be_value_bytes_u64 z : is_u64 z → be_value (be_bytes 8 z) = z.
Proof. intros H. apply be_value_bytes. exact H. Qed.

Lemma le_value_bound l : Forall is_u8 l → 0 <= le_value l < 256 ^ ♯l.
Proof.
  unfold is_u8, u8_bound.
  induction 1 as [|b l Hb _ IH]; [done|].
  rewrite zlen_cons, Z.pow_add_r by zlia. simpl le_value. change (256 ^ 1) with 256. nia.
Qed.

Lemma be_value_u64 l : Forall is_u8 l → length l = 8%nat → is_u64 (be_value l).
Proof.
  intros Hl Hn. unfold be_value.
  pose proof (le_value_bound (reverse l)) as Hb.
  rewrite Forall_reverse in Hb. specialize (Hb Hl).
  rewrite zlen_reverse in Hb. unfold zlen in Hb. rewrite Hn in Hb. exact Hb.
Qed.

Lemma le_bytes_value l : Forall is_u8 l → le_bytes (length l) (le_value l) = l.
Proof.
  unfold is_u8, u8_bound.
  induction 1 as [|b l Hb _ IH]; [done|].
  cbn [length le_bytes le_value].
  replace ((b + 256 * le_value l) mod 256) with b.
  2:{ symmetry. rewrite (Z.mul_comm 256), Z.mod_add by lia. apply Z.mod_small. lia. }
  replace ((b + 256 * le_value l) / 256) with (le_value l); [by rewrite IH|].
  rewrite (Z.mul_comm 256), Z.div_add by lia. rewrite Z.div_small by lia. lia.
Qed.

Lemma be_bytes_value_length l : Forall is_u8 l → be_bytes (length l) (be_value l) = l.
Proof.
  intros Hl. unfold be_bytes, be_value. rewrite <-(length_reverse l).
  rewrite le_bytes_value by (by rewrite Forall_reverse). apply reverse_involutive.
Qed.

Lemma be_bytes_value l :
  Forall is_u8 l → length l = 8%nat → be_bytes 8 (be_value l) = l.
Proof. intros Hl <-. by apply be_bytes_value_length. Qed.

(** [swap_bytes] of an [n]-byte integer. *)
Definition swap_bytes (n : nat) (z : Z) : Z := be_value (le_bytes n z).

Lemma swap_bytes_involutive n z :
  0 <= z < 256 ^ Z.of_nat n → swap_bytes n (swap_bytes n z) = z.
Proof.
  intros Hz. unfold swap_bytes. unfold be_value at 2.
  pose proof (le_bytes_value (reverse (le_bytes n z))) as Hv.
  rewrite Forall_reverse, length_reverse, le_bytes_length in Hv.
  rewrite Hv by apply le_bytes_u8. unfold be_value. rewrite reverse_involutive.
  by apply le_value_bytes.
Qed.
