(* ===== verification/Effects.v ===== *)
(** * Effects: the error type of the crate and the effects of its methods

    [Error] is the enum of src/src/lib.rs with its C encoding [to_c].  A method
    [fn m(&mut self, ..) -> Result<A>] is an element of [M Self A]: it maps the
    state to an [Ok] value, to an [Err] (the state changes made before the
    [return Err(..)] or [?] are kept, as in the code), or to a [Panicked]
    outcome.  Arithmetic on [u64]/[usize] is checked or wrapping according to
    the build profile, which is a parameter of the whole development. *)
From S2P Require Import Prelude.

(** ** Error codes *)

Inductive Error :=
| Done
| BufferTooShort
| UnknownVersion
| InvalidFrame
| InvalidPacket
| InvalidState
| InvalidStreamState (id : Z)
| InvalidTransportParam
| CryptoFail
| TlsFail
| FlowControl
| StreamLimit
| StreamStopped (code : Z)
| StreamReset (code : Z)
| FinalSize
| CongestionControl
| IdLimit
| OutOfIdentifiers
| Stopped.

#[export] Instance Error_eq_dec : EqDecision Error.
Proof. solve_decision. Defined.

Definition to_c (e : Error) : Z :=
  match e with
  | Done => -1
  | BufferTooShort => -2
  | UnknownVersion => -3
  | InvalidFrame => -4
  | InvalidPacket => -5
  | InvalidState => -6
  | InvalidStreamState _ => -7
  | InvalidTransportParam => -8
  | CryptoFail => -9
  | TlsFail => -10
  | FlowControl => -11
  | StreamLimit => -12
  | FinalSize => -13
  | CongestionControl => -14
  | StreamStopped _ => -15
  | StreamReset _ => -16
  | IdLimit => -17
  | OutOfIdentifiers => -18
  | Stopped => -19
  end.

(** ** The build: overflow checks (on in debug, off in release) and the byte
    order of the target, which [to_ne_bytes] depends on. *)

Class Profile := {
  overflow_checks : bool;
  little_endian : bool;
}.
Definition debug_x86 : Profile := {| overflow_checks := true; little_endian := true |}.
Definition release_x86 : Profile := {| overflow_checks := false; little_endian := true |}.

(** ** Outcomes *)

Inductive panic :=
| ArithmeticOverflow   (* attempt to add/subtract/multiply with overflow *)
| OutOfBounds          (* index or slice out of range *)
| UnwrapFailed         (* unwrap() on None or Err *)
| AssertionFailed      (* assert!(..) *)
| ExplicitPanic.       (* panic!(..), unimplemented!(..) *)

#[export] Instance panic_eq_dec : EqDecision panic.
Proof. solve_decision. Defined.

Inductive outcome (S A : Type) :=
| Ok (a : A) (s : S)
| Err (e : Error) (s : S)
| Panicked (p : panic).
Arguments Ok {S A} _ _.
Arguments Err {S A} _ _.
Arguments Panicked {S A} _.

Definition M (S A : Type) : Type := S → outcome S A.

#[export] Instance M_ret S : MRet (M S) := λ A a s, Ok a s.
#[export] Instance M_bind S : MBind (M S) := λ A B k m s,
  match m s with
  | Ok a s' => k a s'
  | Err e s' => Err e s'
  | Panicked p => Panicked p
  end.

Definition get {S} : M S S := λ s, Ok s s.
Definition modify {S} (f : S → S) : M S unit := λ s, Ok tt (f s).
Definition fail {S A} (e : Error) : M S A := λ s, Err e s.
Definition panicking {S A} (p : panic) : M S A := λ _, Panicked p.
Definition or_panic {S A} (p : panic) (o : option A) : M S A :=
  match o with Some a => mret a | None => panicking p end.

(** [.unwrap()] on a [Result]. *)
Definition unwrap {S A} (m : M S A) : M S A := λ s,
  match m s with
  | Ok a s' => Ok a s'
  | Err _ _ => Panicked UnwrapFailed
  | Panicked p => Panicked p
  end.

(** Calling a method of a field (or of a local value) of the state. *)
Definition zoom {S T A} (proj : S → T) (inj : T → S → S) (m : M T A) : M S A := λ s,
  match m (proj s) with
  | Ok a t => Ok a (inj t s)
  | Err e t => Err e (inj t s)
  | Panicked p => Panicked p
  end.

(** Running a method on a local value: its final state is returned. *)
Definition local {S T A} (t : T) (m : M T A) : M S (A * T) := λ s,
  match m t with
  | Ok a t' => Ok (a, t') s
  | Err e _ => Err e s
  | Panicked p => Panicked p
  end.

Definition outcome_panics {S A} (o : outcome S A) : Prop :=
  match o with Panicked _ => True | _ => False end.

(** ** Machine arithmetic *)

Section Arith.
Context {P : Profile} {S : Type}.

Definition checked (z : Z) : M S Z :=
  if decide (is_u64 z) then mret z
  else if overflow_checks then panicking ArithmeticOverflow
  else mret (wrap64 z).

Definition uadd (a b : Z) : M S Z := checked (a + b).
Definition usub (a b : Z) : M S Z := checked (a - b).
Definition umul (a b : Z) : M S Z := checked (a * b).

Lemma checked_ok z (s : S) : is_u64 z → checked z s = Ok z s.
Proof. intros. unfold checked. by rewrite decide_True. Qed.

Lemma checked_overflow z (s : S) :
  ~ is_u64 z → overflow_checks = true → checked z s = Panicked ArithmeticOverflow.
Proof. intros ? Ho. unfold checked. rewrite decide_False by done. by rewrite Ho. Qed.

Lemma checked_wraps z (s : S) :
  overflow_checks = false → checked z s = Ok (wrap64 z) s.
Proof.
  intros Ho. unfold checked. case_decide as Hz; rewrite ?Ho; [|done].
  unfold wrap64. by rewrite Z.mod_small.
Qed.

End Arith.

(** The outcome of checked arithmetic does not depend on the state. *)
Lemma checked_cases {P : Profile} z :
  (∃ v, ∀ S (s : S), checked z s = Ok v s) ∨ (∃ p, ∀ S (s : S), checked z s = Panicked p).
Proof.
  unfold checked. case_decide; [left; by eexists|].
  destruct overflow_checks; [right|left]; by eexists.
Qed.

Section Range.
Context {P : Profile} {S : Type}.

Lemma checked_range z (s s' : S) v : checked z s = Ok v s' → is_u64 v ∧ s' = s.
Proof.
  unfold checked. case_decide; [by intros [= <- <-]|].
  destruct overflow_checks; [done|]. intros [= <- <-]. split; [|done].
  unfold is_u64, wrap64. by apply Z.mod_pos_bound.
Qed.
End Range.

(** ** Reasoning about [M]: total correctness *)

(** [wp m s Q QE]: run from [s], [m] does not panic, and its result satisfies
    [Q] (an [Ok]) or [QE] (an [Err]). *)
Definition wp {S A} (m : M S A) (s : S)
    (Q : A → S → Prop) (QE : Error → S → Prop) : Prop :=
  match m s with
  | Ok a s' => Q a s'
  | Err e s' => QE e s'
  | Panicked _ => False
  end.

(** [m] returns [Ok] with a result satisfying [Q]. *)
Abbreviation returns m s Q := (wp m s Q (λ _ _, False)).

Section Wp.
Context {S : Type}.

Lemma wp_bind {A B} (m : M S A) (k : A → M S B) s Q QE :
  wp m s (λ a s', wp (k a) s' Q QE) QE → wp (m ≫= k) s Q QE.
Proof. unfold wp, mbind, M_bind. by destruct (m s). Qed.

Lemma wp_mono {A} (m : M S A) s (Q Q' : A → S → Prop) (QE QE' : Error → S → Prop) :
  wp m s Q QE → (∀ a s', Q a s' → Q' a s') → (∀ e s', QE e s' → QE' e s') →
  wp m s Q' QE'.
Proof. unfold wp. destruct (m s); auto. Qed.

Lemma wp_bind_mono {A B} (m : M S A) (k : A → M S B) s (R : A → S → Prop) Q QE :
  wp m s R QE → (∀ a s', R a s' → wp (k a) s' Q QE) → wp (m ≫= k) s Q QE.
Proof. intros Hm Hk. apply wp_bind. by eapply wp_mono; [exact Hm| |]. Qed.

Lemma returns_Ok {A} (m : M S A) s (Q : A → S → Prop) :
  returns m s Q ↔ ∃ a s', m s = Ok a s' ∧ Q a s'.
Proof.
  unfold wp. destruct (m s); (split; [by eauto|]); intros (? & ? & He & ?); try done.
  by inversion He; subst.
Qed.

Lemma bind_Ok {A B} (m : M S A) (k : A → M S B) s a s' :
  m s = Ok a s' → (m ≫= k) s = k a s'.
Proof. intros H. unfold mbind, M_bind. by rewrite H. Qed.

Lemma bind_Err {A B} (m : M S A) (k : A → M S B) s e s' :
  m s = Err e s' → (m ≫= k) s = Err e s'.
Proof. intros H. unfold mbind, M_bind. by rewrite H. Qed.

Lemma bind_Panicked {A B} (m : M S A) (k : A → M S B) s p :
  m s = Panicked p → (m ≫= k) s = Panicked p.
Proof. intros H. unfold mbind, M_bind. by rewrite H. Qed.

Lemma bind_inv_Ok {A B} (m : M S A) (k : A → M S B) s b s2 :
  (m ≫= k) s = Ok b s2 → ∃ a s1, m s = Ok a s1 ∧ k a s1 = Ok b s2.
Proof. unfold mbind, M_bind. destruct (m s); [eauto|done|done]. Qed.

Lemma get_bind {B} (k : S → M S B) s : (get ≫= k) s = k s s.
Proof. done. Qed.
Lemma modify_bind {B} f (k : unit → M S B) s : (modify f ≫= k) s = k tt (f s).
Proof. done. Qed.
Lemma ret_bind {A B} (a : A) (k : A → M S B) s : (mret a ≫= k) s = k a s.
Proof. done. Qed.
Lemma some_bind {A B} p (a : A) (k : A → M S B) s : (or_panic p (Some a) ≫= k) s = k a s.
Proof. done. Qed.
Lemma checked_bind {P : Profile} {B} z (k : Z → M S B) s :
  is_u64 z → (checked z ≫= k) s = k z s.
Proof. intros Hz. by rewrite (bind_Ok _ _ _ _ _ (checked_ok z s Hz)). Qed.

Lemma zoom_Ok {T A} (proj : S → T) inj (m : M T A) s a t :
  m (proj s) = Ok a t → zoom proj inj m s = Ok a (inj t s).
Proof. intros H. unfold zoom. by rewrite H. Qed.
End Wp.

(** *** Safety: what holds whenever [m] does not panic *)

(** [wlp m s Q E]: if [m] run from [s] returns, its result satisfies [Q], and if
    it fails, the state it leaves satisfies [E]. *)
Definition wlp {S A} (m : M S A) (s : S) (Q : A → S → Prop) (E : S → Prop) : Prop :=
  match m s with
  | Ok a s' => Q a s'
  | Err _ s' => E s'
  | Panicked _ => True
  end.

Section Wlp.
Context {S : Type}.
Implicit Types s : S.

Lemma wlp_Ok_inv {A} (m : M S A) s Q E a s' : wlp m s Q E → m s = Ok a s' → Q a s'.
Proof. unfold wlp. intros H Hm. by rewrite Hm in H. Qed.
Lemma wlp_Err_inv {A} (m : M S A) s Q E e s' : wlp m s Q E → m s = Err e s' → E s'.
Proof. unfold wlp. intros H Hm. by rewrite Hm in H. Qed.
Lemma wlp_of_Ok {A} (m : M S A) s (Q : A → S → Prop) E a s' :
  m s = Ok a s' → Q a s' → wlp m s Q E.
Proof. unfold wlp. by intros ->. Qed.
Lemma wlp_of_eq {A} (m m' : M S A) s s1 Q E : m s = m' s1 → wlp m' s1 Q E → wlp m s Q E.
Proof. unfold wlp. by intros ->. Qed.

Lemma wlp_bind {A B} (m : M S A) (k : A → M S B) s Q E :
  wlp m s (λ a s', wlp (k a) s' Q E) E → wlp (m ≫= k) s Q E.
Proof. unfold wlp, mbind, M_bind. by destruct (m s). Qed.
Lemma wlp_mono {A} (m : M S A) s (Q Q' : A → S → Prop) (E E' : S → Prop) :
  wlp m s Q E → (∀ a s', Q a s' → Q' a s') → (∀ s', E s' → E' s') → wlp m s Q' E'.
Proof. unfold wlp. destruct (m s); auto. Qed.
Lemma wlp_bind_mono {A B} (m : M S A) (k : A → M S B) s (R : A → S → Prop) (F : S → Prop) Q E :
  wlp m s R F → (∀ a s', R a s' → wlp (k a) s' Q E) → (∀ s', F s' → E s') →
  wlp (m ≫= k) s Q E.
Proof. intros Hm Hk HE. apply wlp_bind. by eapply wlp_mono. Qed.

Lemma wlp_ret {A} (a : A) s (Q : A → S → Prop) E : Q a s → wlp (mret a) s Q E.
Proof. done. Qed.
Lemma wlp_fail {A} e s (Q : A → S → Prop) (E : S → Prop) : E s → wlp (fail e) s Q E.
Proof. done. Qed.
Lemma wlp_panicking {A} p s (Q : A → S → Prop) E : wlp (panicking p) s Q E.
Proof. done. Qed.
Lemma wlp_get s (Q : S → S → Prop) E : Q s s → wlp get s Q E.
Proof. done. Qed.
Lemma wlp_modify f s (Q : unit → S → Prop) E : Q tt (f s) → wlp (modify f) s Q E.
Proof. done. Qed.
Lemma wlp_or_panic {A} p (o : option A) s (Q : A → S → Prop) E :
  (∀ a, o = Some a → Q a s) → wlp (or_panic p o) s Q E.
Proof. intros H. destruct o; [by apply H|done]. Qed.
Lemma wlp_checked {P : Profile} z s (Q : Z → S → Prop) E :
  (∀ v, is_u64 v → v = wrap64 z → (is_u64 z → v = z) → Q v s) → wlp (checked z) s Q E.
Proof.
  intros H. unfold checked. case_decide as Hz.
  - apply wlp_ret, H; [done| |done]. unfold wrap64. by rewrite Z.mod_small.
  - destruct overflow_checks; [done|]. apply wlp_ret, H; [|done|done].
    unfold is_u64, wrap64. by apply Z.mod_pos_bound.
Qed.
Lemma wlp_unwrap {A} (m : M S A) s (Q : A → S → Prop) E :
  wlp m s Q (λ _, True) → wlp (unwrap m) s Q E.
Proof. unfold wlp, unwrap. by destruct (m s). Qed.
Lemma wlp_zoom {T A} (proj : S → T) inj (m : M T A) s (Q : A → S → Prop) (E : S → Prop) :
  wlp m (proj s) (λ a t, Q a (inj t s)) (λ t, E (inj t s)) → wlp (zoom proj inj m) s Q E.
Proof. unfold wlp, zoom. by destruct (m (proj s)). Qed.
Lemma wlp_local {T A} (t : T) (m : M T A) s (Q : A * T → S → Prop) (E : S → Prop) :
  wlp m t (λ a t', Q (a, t') s) (λ _, E s) → wlp (local t m) s Q E.
Proof. unfold wlp, local. by destruct (m t). Qed.
End Wlp.

(** The call returned, leaving the state [s']. *)
Definition leaves {S A} (m : M S A) (s s' : S) : Prop :=
  (∃ a, m s = Ok a s') ∨ (∃ e, m s = Err e s').

Lemma wlp_leaves {S A} (m : M S A) s s' (Q : A → S → Prop) (E : S → Prop) :
  wlp m s Q E → leaves m s s' → (∃ a, Q a s') ∨ E s'.
Proof.
  unfold wlp. intros H [[a Hm]|[e Hm]]; rewrite Hm in H; [left; by exists a|by right].
Qed.

(** One step of a safety proof, by the head of the computation. *)
Ltac wlp_step :=
  lazymatch goal with
  | |- wlp (mbind _ _) _ _ _ => apply wlp_bind
  | |- wlp (mret _) _ _ _ => apply wlp_ret
  | |- wlp get _ _ _ => apply wlp_get
  | |- wlp (modify _) _ _ _ => apply wlp_modify
  | |- wlp (fail _) _ _ _ => apply wlp_fail
  | |- wlp (panicking _) _ _ _ => exact I
  | |- wlp (or_panic _ _) _ _ _ => apply wlp_or_panic; intros
  | |- wlp (checked _) _ _ _ => apply wlp_checked; intros
  | |- wlp (uadd _ _) _ _ _ => unfold uadd; apply wlp_checked; intros
  | |- wlp (usub _ _) _ _ _ => unfold usub; apply wlp_checked; intros
  | |- wlp (umul _ _) _ _ _ => unfold umul; apply wlp_checked; intros
  | |- wlp (unwrap _) _ _ _ => apply wlp_unwrap
  | |- wlp (zoom _ _ _) _ _ _ => apply wlp_zoom
  | |- wlp (local _ _) _ _ _ => apply wlp_local
  end.
Ltac wlp_steps := repeat (wlp_step; cbv beta).

(** Evaluate the monadic plumbing in the goal, leaving calls to named methods. *)
Ltac msimpl :=
  cbv beta iota delta [mbind mret M_bind M_ret get modify fail panicking or_panic
    unwrap local zoom].
Ltac msimpl_in H :=
  cbv beta iota delta [mbind mret M_bind M_ret get modify fail panicking or_panic
    unwrap local zoom] in H.

(** Run the leading state accesses of a computation, one at a time. *)
Ltac mrun := rewrite ?get_bind, ?modify_bind, ?ret_bind, ?some_bind.

(** Discharge checked arithmetic whose result is in range. *)
Ltac arith_ok :=
  repeat first
    [ rewrite checked_ok by (unfold is_u64, u64_bound in *; zlia)
    | progress (unfold uadd, usub, umul)
    | progress msimpl ].
