(* ===== verification/Octets.v ===== *)
(** * Octets: the byte cursor of the third-party [octets] crate

    [octets::OctetsMut] is not part of the repository.  The development uses it
    through an interface: [OctetsOps] has the operations the source calls and
    [OctetsSpec] states their documented behaviour (a cursor over a borrowed
    slice; reads and writes are big-endian, advance the offset and fail with
    [BufferTooShortError] when fewer bytes are left).  [ListOctets] is a
    concrete implementation of the interface, used to evaluate the model. *)
From S2P Require Import Prelude Effects.

Class OctetsOps := {
  OctetsMut : Type;
  with_slice : list Z → OctetsMut;
  (** the borrowed slice, as seen when the borrow ends *)
  o_buf : OctetsMut → list Z;
  o_off : OctetsMut → Z;
  o_cap : OctetsMut → Z;
  (** [None] is [Err(BufferTooShortError)] *)
  o_get_u8 : OctetsMut → option (Z * OctetsMut);
  o_get_u64 : OctetsMut → option (Z * OctetsMut);
  o_put_u8 : OctetsMut → Z → option OctetsMut;
  o_put_u64 : OctetsMut → Z → option OctetsMut;
}.

(** What a read of [n] bytes and a write of the bytes [bs] do to a cursor. *)
Definition reads `{OctetsOps} (n : nat) (o : OctetsMut) (r : option (Z * OctetsMut)) : Prop :=
  if o_cap o <? Z.of_nat n then r = None
  else ∃ o', r = Some (be_value (take n (drop (Z.to_nat (o_off o)) (o_buf o))), o') ∧
             o_buf o' = o_buf o ∧ o_off o' = o_off o + Z.of_nat n.

Definition writes `{OctetsOps} (bs : list Z) (o : OctetsMut) (r : option OctetsMut) : Prop :=
  if o_cap o <? ♯bs then r = None
  else ∃ o', r = Some o' ∧ o_off o' = o_off o + ♯bs ∧
             o_buf o' = take (Z.to_nat (o_off o)) (o_buf o) ++ bs ++
                        drop (Z.to_nat (o_off o + ♯bs)) (o_buf o).

Class OctetsSpec (O : OctetsOps) : Prop := {
  with_slice_buf l : o_buf (with_slice l) = l;
  with_slice_off l : o_off (with_slice l) = 0;
  o_cap_eq o : 0 <= o_off o → o_off o <= ♯(o_buf o) → o_cap o = ♯(o_buf o) - o_off o;
  get_u8_spec o : reads 1 o (o_get_u8 o);
  get_u64_spec o : reads 8 o (o_get_u64 o);
  put_u8_spec o v : writes (be_bytes 1 v) o (o_put_u8 o v);
  put_u64_spec o v : writes (be_bytes 8 v) o (o_put_u64 o v);
}.

(** The calls as methods: [?] turns [BufferTooShortError] into
    [Error::BufferTooShort] (src/src/lib.rs, [impl From]). *)
Section Methods.
Context {O : OctetsOps}.
Definition get_u8 : M OctetsMut Z := λ o,
  match o_get_u8 o with Some (v, o') => Ok v o' | None => Err BufferTooShort o end.
Definition get_u64 : M OctetsMut Z := λ o,
  match o_get_u64 o with Some (v, o') => Ok v o' | None => Err BufferTooShort o end.
Definition put_u8 (v : Z) : M OctetsMut unit := λ o,
  match o_put_u8 o v with Some o' => Ok tt o' | None => Err BufferTooShort o end.
Definition put_u64 (v : Z) : M OctetsMut unit := λ o,
  match o_put_u64 o v with Some o' => Ok tt o' | None => Err BufferTooShort o end.
End Methods.

(** ** The cursor seen as the bytes already passed and the bytes still ahead *)

Section Cursor.
Context {O : OctetsOps} {HO : OctetsSpec O}.

(** [at_cursor o l r]: the slice is [l ++ r], the cursor stands between. *)
Definition at_cursor (o : OctetsMut) (l r : list Z) : Prop :=
  o_buf o = l ++ r ∧ o_off o = ♯l.

Lemma at_cursor_cap o l r : at_cursor o l r → o_cap o = ♯r.
Proof. intros [Hb Ho]. rewrite o_cap_eq; rewrite ?Hb, ?Ho; zlia. Qed.

Lemma at_cursor_buf o l r : at_cursor o l r → o_buf o = l ++ r.
Proof. by intros [? _]. Qed.

Lemma at_cursor_with_slice l : at_cursor (with_slice l) [] l.
Proof. split; [apply with_slice_buf | apply with_slice_off]. Qed.

Lemma reads_at n o l x r res :
  reads n o res → at_cursor o l (x ++ r) → length x = n →
  ∃ o', res = Some (be_value x, o') ∧ at_cursor o' (l ++ x) r.
Proof.
  unfold reads. intros Hr Hc Hx. pose proof (at_cursor_cap _ _ _ Hc) as Hcap.
  destruct Hc as [Hb Ho]. rewrite Hcap, Hb, Ho in Hr.
  destruct (Z.ltb_spec (♯(x ++ r)) (Z.of_nat n)) as [Hlt|_].
  { rewrite zlen_app in Hlt. unfold zlen in Hlt. lia. }
  destruct Hr as (o' & -> & Hb' & Ho').
  exists o'. unfold zlen at 1. rewrite Nat2Z.id, drop_app_length, <-Hx, take_app_length.
  split; [done|]. split; [by rewrite Hb', <-app_assoc|].
  rewrite Ho', zlen_app. unfold zlen. lia.
Qed.

Lemma reads_short n o l r res :
  reads n o res → at_cursor o l r → (length r < n)%nat → res = None.
Proof.
  unfold reads. intros Hr Hc Hn. rewrite (at_cursor_cap _ _ _ Hc) in Hr.
  destruct (Z.ltb_spec (♯r) (Z.of_nat n)); [done|]. unfold zlen in *. lia.
Qed.

Lemma writes_at bs o l x r res :
  writes bs o res → at_cursor o l (x ++ r) → length x = length bs →
  ∃ o', res = Some o' ∧ at_cursor o' (l ++ bs) r.
Proof.
  unfold writes. intros Hr Hc Hx. pose proof (at_cursor_cap _ _ _ Hc) as Hcap.
  destruct Hc as [Hb Ho]. rewrite Hcap, Hb, Ho in Hr.
  destruct (Z.ltb_spec (♯(x ++ r)) (♯bs)) as [Hlt|_].
  { rewrite zlen_app in Hlt. unfold zlen in Hlt. lia. }
  destruct Hr as (o' & -> & Ho' & Hb'). exists o'. split; [done|]. split; [|by rewrite Ho', zlen_app].
  rewrite Hb'. replace (Z.to_nat (♯l + ♯bs)) with (length (l ++ x))
    by (rewrite length_app; unfold zlen; lia).
  unfold zlen. rewrite Nat2Z.id, take_app_length, app_assoc, (app_assoc l x), drop_app_length.
  done.
Qed.

Lemma writes_short bs o l r res :
  writes bs o res → at_cursor o l r → (length r < length bs)%nat → res = None.
Proof.
  unfold writes. intros Hr Hc Hn. rewrite (at_cursor_cap _ _ _ Hc) in Hr.
  destruct (Z.ltb_spec (♯r) (♯bs)); [done|]. unfold zlen in *. lia.
Qed.

(** *** The methods at a cursor *)

Lemma get_u8_at o l b r :
  at_cursor o l (b :: r) → ∃ o', get_u8 o = Ok b o' ∧ at_cursor o' (l ++ [b]) r.
Proof.
  intros Hc. destruct (reads_at 1 o l [b] r _ (get_u8_spec o) Hc eq_refl) as (o' & He & Hc').
  exists o'. unfold get_u8. rewrite He. split; [|done]. f_equal. unfold be_value. simpl. lia.
Qed.

Lemma get_u64_at o l x r :
  at_cursor o l (x ++ r) → length x = 8%nat →
  ∃ o', get_u64 o = Ok (be_value x) o' ∧ at_cursor o' (l ++ x) r.
Proof.
  intros Hc Hx. destruct (reads_at 8 o l x r _ (get_u64_spec o) Hc Hx) as (o' & He & Hc').
  exists o'. unfold get_u64. by rewrite He.
Qed.

Lemma get_u8_short o l : at_cursor o l [] → get_u8 o = Err BufferTooShort o.
Proof.
  intros Hc. unfold get_u8.
  rewrite (reads_short 1 o l [] _ (get_u8_spec o) Hc); [done|simpl; lia].
Qed.

Lemma get_u64_short o l r :
  at_cursor o l r → (length r < 8)%nat → get_u64 o = Err BufferTooShort o.
Proof.
  intros Hc Hr. unfold get_u64. by rewrite (reads_short 8 o l r _ (get_u64_spec o) Hc Hr).
Qed.

Lemma put_u8_at o l b r v :
  at_cursor o l (b :: r) → is_u8 v →
  ∃ o', put_u8 v o = Ok tt o' ∧ at_cursor o' (l ++ [v]) r.
Proof.
  intros Hc Hv. destruct (writes_at (be_bytes 1 v) o l [b] r _ (put_u8_spec o v) Hc eq_refl)
    as (o' & He & Hc').
  exists o'. unfold put_u8. rewrite He. split; [done|].
  replace [v] with (be_bytes 1 v); [done|].
  unfold be_bytes. simpl. by rewrite Z.mod_small.
Qed.

Lemma put_u64_at o l x r v :
  at_cursor o l (x ++ r) → length x = 8%nat →
  ∃ o', put_u64 v o = Ok tt o' ∧ at_cursor o' (l ++ be_bytes 8 v) r.
Proof.
  intros Hc Hx. destruct (writes_at (be_bytes 8 v) o l x r _ (put_u64_spec o v) Hc)
    as (o' & He & Hc'); [by rewrite be_bytes_length|].
  exists o'. unfold put_u64. by rewrite He.
Qed.

Lemma put_u8_short o l v : at_cursor o l [] → put_u8 v o = Err BufferTooShort o.
Proof.
  intros Hc. unfold put_u8.
  rewrite (writes_short (be_bytes 1 v) o l [] _ (put_u8_spec o v) Hc); [done|].
  rewrite be_bytes_length. simpl. lia.
Qed.

Lemma put_u64_short o l r v :
  at_cursor o l r → (length r < 8)%nat → put_u64 v o = Err BufferTooShort o.
Proof.
  intros Hc Hr. unfold put_u64.
  rewrite (writes_short (be_bytes 8 v) o l r _ (put_u64_spec o v) Hc); [done|].
  by rewrite be_bytes_length.
Qed.
End Cursor.

(** ** A concrete implementation *)

Module ListOctets.
Record cursor := { buf : list Z; off : Z }.
Definition cap (o : cursor) : Z := ♯(buf o) - off o.
Definition get (n : nat) (o : cursor) : option (Z * cursor) :=
  if cap o <? Z.of_nat n then None
  else Some (be_value (take n (drop (Z.to_nat (off o)) (buf o))),
             {| buf := buf o; off := off o + Z.of_nat n |}).
Definition put (bs : list Z) (o : cursor) : option cursor :=
  if cap o <? ♯bs then None
  else Some {| buf := take (Z.to_nat (off o)) (buf o) ++ bs ++
                      drop (Z.to_nat (off o + ♯bs)) (buf o);
               off := off o + ♯bs |}.

#[export] Instance ops : OctetsOps := {|
  OctetsMut := cursor;
  with_slice l := {| buf := l; off := 0 |};
  o_buf := buf; o_off := off; o_cap := cap;
  o_get_u8 := get 1; o_get_u64 := get 8;
  o_put_u8 o v := put (be_bytes 1 v) o;
  o_put_u64 o v := put (be_bytes 8 v) o;
|}.

Lemma get_reads n o : reads n o (get n o).
Proof. unfold reads, get. simpl. destruct (_ <? _); naive_solver. Qed.
Lemma put_writes bs o : writes bs o (put bs o).
Proof. unfold writes, put. simpl. destruct (_ <? _); naive_solver. Qed.

#[export] Instance spec : OctetsSpec ops.
Proof.
  split; try done; intros.
  - apply (get_reads 1).
  - apply (get_reads 8).
  - apply put_writes.
  - apply put_writes.
Qed.
End ListOctets.
