(* ===== verification/Packet.v ===== *)
(** * Packet: packet types, the 26-byte header and the packet-number window

    Models src/src/packet.rs.  [Header.to_bytes] and [Header.from_bytes] are
    written against the cursor interface of [Octets]; [PktNumWindow] keeps, per
    1024-byte block, the retransmission budget of the receiver. *)
From S2P Require Import Prelude Effects Octets.

Inductive Type_ :=
| Retry | Handshake | Application | ElictAck | ACK | Stop | Fin | StartAck.

#[export] Instance Type_eq_dec : EqDecision Type_.
Proof. solve_decision. Defined.

(** The discriminants the enum declares. *)
Definition discriminant (t : Type_) : Z :=
  match t with
  | Retry => 1 | Handshake => 2 | Application => 3 | ElictAck => 4
  | ACK => 5 | Stop => 6 | Fin => 7 | StartAck => 8
  end.

Module Header.

Record Header := mkHeader {
  ty : Type_;
  pkt_num : Z;
  priority : Z;
  offset : Z;
  pkt_length : Z;
}.

(** The field ranges the Rust types impose. *)
Definition wf (h : Header) : Prop :=
  is_u64 (pkt_num h) ∧ is_u8 (priority h) ∧ is_u64 (offset h) ∧ is_u64 (pkt_length h).

Definition ty_of_byte (first : Z) : Type_ :=
  if first =? 1 then Retry
  else if first =? 2 then Handshake
  else if first =? 3 then Application
  else if first =? 4 then ElictAck
  else if first =? 5 then ACK
  else if first =? 6 then Stop
  else if first =? 7 then Fin
  else StartAck.

Definition byte_of_ty (t : Type_) : Z :=
  if decide (t = Retry) then 1
  else if decide (t = Handshake) then 2
  else if decide (t = Application) then 3
  else if decide (t = ElictAck) then 4
  else if decide (t = ACK) then 5
  else if decide (t = Stop) then 6
  else 7.

Definition len (h : Header) : Z := 26.

Section Codec.
Context {O : OctetsOps}.

Definition from_bytes : M OctetsMut Header :=
  first ← get_u8;
  let t := ty_of_byte first in
  second ← get_u64;
  third ← get_u8;
  forth ← get_u64;
  fifth ← get_u64;
  mret (mkHeader t second third forth fifth).

Definition from_slice {S} (buf : list Z) : M S Header :=
  r ← local (with_slice buf) from_bytes;
  mret r.1.

Definition to_bytes (h : Header) : M OctetsMut unit :=
  let first := byte_of_ty (ty h) in
  put_u8 first;;
  put_u64 (pkt_num h);;
  put_u8 (priority h);;
  put_u64 (offset h);;
  put_u64 (pkt_length h);;
  mret tt.
End Codec.

(** The wire image of a header: what [to_bytes] writes. *)
Definition encode (h : Header) : list Z :=
  byte_of_ty (ty h) :: be_bytes 8 (pkt_num h) ++
  priority h :: be_bytes 8 (offset h) ++ be_bytes 8 (pkt_length h).

(** The header a 26-byte prefix denotes: what [from_bytes] reads. *)
Definition decode (l : list Z) : Header :=
  mkHeader (ty_of_byte (nth 0 l 0)) (be_value (take 8 (drop 1 l))) (nth 9 l 0)
           (be_value (take 8 (drop 10 l))) (be_value (take 8 (drop 18 l))).

Lemma encode_length h : length (encode h) = 26%nat.
Proof. unfold encode. cbn [length]. rewrite !length_app. cbn [length].
  rewrite length_app, !be_bytes_length. done. Qed.

Lemma zlen_encode h : ♯(encode h) = 26.
Proof. unfold zlen. by rewrite encode_length. Qed.

Lemma byte_of_ty_u8 t : is_u8 (byte_of_ty t).
Proof. unfold is_u8, u8_bound. destruct t; vm_compute; split; congruence. Qed.

Lemma ty_of_byte_of_ty t : t ≠ StartAck → ty_of_byte (byte_of_ty t) = t.
Proof. by destruct t. Qed.

Lemma be_bytes_app_split n (l : list Z) :
  (n <= length l)%nat → ∃ x r, l = x ++ r ∧ length x = n.
Proof.
  intros. exists (take n l), (drop n l). rewrite take_drop, length_take. split; [done|lia].
Qed.

Lemma decode_encode h : wf h → ty h ≠ StartAck → decode (encode h) = h.
Proof.
  intros (Hn & Hp & Ho & Hl) Ht. destruct h as [t n p o l]. simpl in *.
  unfold decode, encode. cbn [nth ty pkt_num priority offset pkt_length].
  f_equal.
  - by apply ty_of_byte_of_ty.
  - cbn [drop]. rewrite drop_0, take_app_length' by by rewrite be_bytes_length.
    by apply be_value_bytes_u64.
  - cbn [drop]. rewrite (drop_app_ge _ _ 9); rewrite ?be_bytes_length; [|lia].
    cbn [drop Nat.sub]. rewrite drop_0, take_app_length' by by rewrite be_bytes_length.
    by apply be_value_bytes_u64.
  - cbn [drop]. rewrite (drop_app_ge _ _ 17); rewrite ?be_bytes_length; [|lia].
    cbn [drop Nat.sub]. rewrite (drop_app_ge _ _ 8); rewrite ?be_bytes_length; [|lia].
    cbn [Nat.sub]. rewrite drop_0, take_ge by by rewrite be_bytes_length.
    by apply be_value_bytes_u64.
Qed.

Section CodecFacts.
Context {O : OctetsOps} {HO : OctetsSpec O}.

(** Splitting the window a header occupies into its five fields. *)
Lemma header_fields (r : list Z) :
  (26 <= length r)%nat →
  ∃ b0 x1 b2 x3 x4 r', r = b0 :: x1 ++ b2 :: x3 ++ x4 ++ r' ∧
    length x1 = 8%nat ∧ length x3 = 8%nat ∧ length x4 = 8%nat.
Proof.
  intros Hr. destruct r as [|b0 r]; [simpl in Hr; lia|].
  destruct (be_bytes_app_split 8 r) as (x1 & r1 & -> & H1); [simpl in Hr; lia|].
  destruct r1 as [|b2 r1]; [simpl in Hr; rewrite length_app in Hr; simpl in Hr; lia|].
  simpl in Hr. rewrite length_app in Hr. simpl in Hr.
  destruct (be_bytes_app_split 8 r1) as (x3 & r2 & -> & H3); [lia|].
  rewrite length_app in Hr.
  destruct (be_bytes_app_split 8 r2) as (x4 & r3 & -> & H4); [lia|].
  by exists b0, x1, b2, x3, x4, r3.
Qed.

Lemma to_bytes_at_u8 h o l r :
  is_u8 (priority h) → at_cursor o l r → (26 <= length r)%nat →
  ∃ o', to_bytes h o = Ok tt o' ∧ at_cursor o' (l ++ encode h) (drop 26 r).
Proof.
  intros Hp Hc Hr.
  destruct (header_fields r Hr) as (b0 & x1 & b2 & x3 & x4 & r' & -> & H1 & H3 & H4).
  destruct (put_u8_at o l b0 _ (byte_of_ty (ty h)) Hc (byte_of_ty_u8 _)) as (o1 & E1 & C1).
  destruct (put_u64_at o1 _ _ _ (pkt_num h) C1 H1) as (o2 & E2 & C2).
  destruct (put_u8_at o2 _ _ _ (priority h) C2 Hp) as (o3 & E3 & C3).
  destruct (put_u64_at o3 _ _ _ (offset h) C3 H3) as (o4 & E4 & C4).
  destruct (put_u64_at o4 _ _ _ (pkt_length h) C4 H4) as (o5 & E5 & C5).
  exists o5. split.
  - unfold to_bytes. by erewrite bind_Ok, bind_Ok, bind_Ok, bind_Ok, bind_Ok by eassumption.
  - replace (drop 26 _) with r'.
    + unfold encode. rewrite <-!app_assoc in C5. exact C5.
    + cbn [drop]. rewrite (drop_app_ge _ _ 25), H1 by lia. cbn [drop Nat.sub].
      rewrite (drop_app_ge _ _ 16), H3 by lia. cbn [drop Nat.sub].
      by rewrite (drop_app_ge _ _ 8), H4, drop_0 by lia.
Qed.

Lemma to_bytes_at h o l r :
  wf h → at_cursor o l r → (26 <= length r)%nat →
  ∃ o', to_bytes h o = Ok tt o' ∧ at_cursor o' (l ++ encode h) (drop 26 r).
Proof. intros (_ & Hp & _). by apply to_bytes_at_u8. Qed.

Lemma from_bytes_at o l r :
  at_cursor o l r → (26 <= length r)%nat →
  ∃ o', from_bytes o = Ok (decode r) o' ∧ at_cursor o' (l ++ take 26 r) (drop 26 r).
Proof.
  intros Hc Hr.
  destruct (header_fields r Hr) as (b0 & x1 & b2 & x3 & x4 & r' & -> & H1 & H3 & H4).
  destruct (get_u8_at o l b0 _ Hc) as (o1 & E1 & C1).
  destruct (get_u64_at o1 _ _ _ C1 H1) as (o2 & E2 & C2).
  destruct (get_u8_at o2 _ _ _ C2) as (o3 & E3 & C3).
  destruct (get_u64_at o3 _ _ _ C3 H3) as (o4 & E4 & C4).
  destruct (get_u64_at o4 _ _ _ C4 H4) as (o5 & E5 & C5).
  assert (Hd : b0 :: x1 ++ b2 :: x3 ++ x4 ++ r' = (b0 :: x1 ++ b2 :: x3 ++ x4) ++ r')
    by (simpl; rewrite <-!app_assoc; simpl; by rewrite <-app_assoc).
  assert (Hl : length (b0 :: x1 ++ b2 :: x3 ++ x4) = 26%nat)
    by (simpl; rewrite !length_app; simpl; rewrite length_app; lia).
  exists o5. split.
  - unfold from_bytes. erewrite bind_Ok, bind_Ok, bind_Ok, bind_Ok, bind_Ok by eassumption.
    unfold mret, M_ret, decode. do 2 f_equal.
    + cbn [drop]. by rewrite drop_0, take_app_length'.
    + cbn [nth]. rewrite app_nth2; rewrite H1; [done|lia].
    + cbn [drop]. rewrite (drop_app_ge _ _ 9), H1 by lia. cbn [drop Nat.sub].
      by rewrite drop_0, take_app_length'.
    + cbn [drop]. rewrite (drop_app_ge _ _ 17), H1 by lia. cbn [drop Nat.sub].
      rewrite (drop_app_ge _ _ 8), H3 by lia. cbn [drop Nat.sub].
      by rewrite drop_0, take_app_length'.
  - rewrite Hd, take_app_length', drop_app_length' by done.
    rewrite <-!app_assoc in C5. exact C5.
Qed.

(** A read fails as soon as a field does not fit in what is left. *)
Lemma from_bytes_short o l r :
  at_cursor o l r → (length r < 26)%nat → ∃ o', from_bytes o = Err BufferTooShort o'.
Proof.
  intros Hc Hr. unfold from_bytes.
  destruct r as [|b0 r]; [by eexists; apply bind_Err, (get_u8_short o l)|].
  destruct (get_u8_at o l b0 r Hc) as (o1 & E1 & C1). rewrite (bind_Ok _ _ _ _ _ E1).
  destruct (decide (length r < 8)%nat) as [Hs|Hs];
    [by eexists; eapply bind_Err, get_u64_short|].
  destruct (be_bytes_app_split 8 r) as (x1 & r1 & -> & H1); [lia|].
  destruct (get_u64_at o1 _ _ _ C1 H1) as (o2 & E2 & C2). rewrite (bind_Ok _ _ _ _ _ E2).
  destruct r1 as [|b2 r1]; [by eexists; eapply bind_Err, get_u8_short|].
  destruct (get_u8_at o2 _ _ _ C2) as (o3 & E3 & C3). rewrite (bind_Ok _ _ _ _ _ E3).
  simpl in Hr. rewrite length_app in Hr. simpl in Hr. clear Hs.
  destruct (decide (length r1 < 8)%nat) as [Hs|Hs];
    [by eexists; eapply bind_Err, get_u64_short|].
  destruct (be_bytes_app_split 8 r1) as (x3 & r3 & -> & H3); [lia|].
  rewrite length_app in Hr.
  destruct (get_u64_at o3 _ _ _ C3 H3) as (o4 & E4 & C4). rewrite (bind_Ok _ _ _ _ _ E4).
  eexists. eapply bind_Err, get_u64_short; [done|lia].
Qed.

Lemma from_slice_ok {S} (buf : list Z) (s : S) :
  (26 <= length buf)%nat → from_slice buf s = Ok (decode buf) s.
Proof.
  intros Hb. destruct (from_bytes_at _ _ _ (at_cursor_with_slice buf) Hb) as (o' & E & _).
  unfold from_slice. msimpl. by rewrite E.
Qed.

Lemma from_slice_short {S} (buf : list Z) (s : S) :
  (length buf < 26)%nat → from_slice buf s = Err BufferTooShort s.
Proof.
  intros Hb. destruct (from_bytes_short _ _ _ (at_cursor_with_slice buf) Hb) as (o' & E).
  unfold from_slice. msimpl. by rewrite E.
Qed.

(** Parsing is total: whatever the bytes, [from_slice] returns a header or
    [BufferTooShort], decided by the length alone. *)
Lemma from_slice_total {S} (buf : list Z) (s : S) :
  from_slice buf s =
    if decide (26 <= length buf)%nat then Ok (decode buf) s else Err BufferTooShort s.
Proof.
  case_decide; [by apply from_slice_ok | apply from_slice_short; lia].
Qed.

Lemma encode_decode_prefix h (out : list Z) :
  wf h → ty h ≠ StartAck → decode (encode h ++ out) = h.
Proof.
  intros Hw Ht. rewrite <-(decode_encode h Hw Ht) at 2.
  unfold decode. pose proof (encode_length h) as He.
  rewrite !app_nth1, !drop_app_le, !take_app_le by (rewrite ?length_drop; lia). done.
Qed.
End CodecFacts.

(** Parsed fields are in the ranges of their types. *)
Lemma decode_wf l : Forall is_u8 l → (26 <= length l)%nat → wf (decode l).
Proof.
  intros Hl Hn. unfold wf, decode. cbn [pkt_num priority offset pkt_length].
  assert (Hu : ∀ k, (k + 8 <= length l)%nat → is_u64 (be_value (take 8 (drop k l)))).
  { intros k Hk. apply be_value_u64; [by apply Forall_take, Forall_drop|].
    rewrite length_take, length_drop. lia. }
  repeat split; try (apply Hu; lia); rewrite Forall_forall in Hl;
    apply Hl, list_elem_of_In, nth_In; lia.
Qed.

(** ** Properties of the codec *)
Section CodecProperties.
Context {O : OctetsOps} {HO : OctetsSpec O}.

(** C19: header_roundtrip.  Writing a header into any buffer of at least 26
    bytes succeeds, touches only the first 26 bytes, and reading the buffer
    back gives the header, for every type but [StartAck]. *)
Theorem header_roundtrip {S} h (out : list Z) (s : S) :
  wf h → ty h ≠ StartAck → (26 <= length out)%nat →
  ∃ o', to_bytes h (with_slice out) = Ok tt o' ∧
        drop 26 (o_buf o') = drop 26 out ∧ length (o_buf o') = length out ∧
        from_slice (o_buf o') s = Ok h s.
Proof.
  intros Hw Ht Hl.
  destruct (to_bytes_at h _ _ _ Hw (at_cursor_with_slice out) Hl) as (o' & E & C).
  exists o'. split; [done|]. rewrite (at_cursor_buf _ _ _ C), app_nil_l.
  pose proof (encode_length h) as He.
  assert (Hlen : length (encode h ++ drop 26 out) = length out)
    by (rewrite length_app, length_drop; lia).
  split; [by rewrite drop_app_length' by done|]. split; [done|].
  rewrite from_slice_ok by lia. by rewrite encode_decode_prefix.
Qed.

(** C20: header_parse_total.  Parsing never panics and the length alone decides
    its outcome: 26 bytes or more give a header whose fields are in the ranges
    of their types, fewer give [BufferTooShort]. *)
Theorem header_parse_total {S} (buf : list Z) (s : S) :
  Forall is_u8 buf →
  (length buf < 26)%nat ∧ from_slice buf s = Err BufferTooShort s ∨
  (26 <= length buf)%nat ∧ from_slice buf s = Ok (decode buf) s ∧ wf (decode buf).
Proof.
  intros Hb. destruct (decide (26 <= length buf)%nat) as [Hl|Hl].
  - right. split; [done|]. split; [by apply from_slice_ok|]. by apply decode_wf.
  - left. split; [lia|]. apply from_slice_short. lia.
Qed.

(** A [StartAck] header is written with the
    byte of [Fin] although its declared discriminant is 8, so the reader of the
    packet sees [Fin]; all other fields survive. *)
Theorem header_start_ack_aliases_fin {S} pn prio off plen (out : list Z) (s : S) :
  let h := mkHeader StartAck pn prio off plen in
  wf h → (26 <= length out)%nat →
  ∃ o', to_bytes h (with_slice out) = Ok tt o' ∧
        from_slice (o_buf o') s = Ok (mkHeader Fin pn prio off plen) s.
Proof.
  intros h Hw Hl.
  destruct (to_bytes_at h _ _ _ Hw (at_cursor_with_slice out) Hl) as (o' & E & C).
  exists o'. split; [done|]. rewrite (at_cursor_buf _ _ _ C), app_nil_l.
  change (encode h) with (encode (mkHeader Fin pn prio off plen)).
  rewrite from_slice_ok by (rewrite length_app, encode_length; lia).
  by rewrite encode_decode_prefix.
Qed.
End CodecProperties.

#[local] Existing Instances ListOctets.ops ListOctets.spec.

Definition sample_header : Header := mkHeader Application 7 3 2048 1024.

Lemma header_roundtrip_witness :
  ∃ o', to_bytes (O := ListOctets.ops) sample_header (with_slice (replicate 30 0)) = Ok tt o' ∧
        drop 26 (o_buf o') = drop 26 (replicate 30 0) ∧ length (o_buf o') = 30%nat ∧
        from_slice (o_buf o') tt = Ok sample_header tt.
Proof.
  apply (header_roundtrip (O := ListOctets.ops) (HO := ListOctets.spec) sample_header
           (replicate 30 0) tt).
  - repeat split; vm_compute; congruence.
  - discriminate.
  - vm_compute. lia.
Defined.

Lemma header_parse_total_witness :
  from_slice (O := ListOctets.ops) [2; 0] tt = Err BufferTooShort tt.
Proof.
  destruct (header_parse_total (O := ListOctets.ops) (HO := ListOctets.spec) [2; 0] tt)
    as [[_ E]|[Hl _]].
  - repeat constructor; vm_compute; congruence.
  - exact E.
  - vm_compute in Hl. lia.
Defined.

Lemma header_start_ack_aliases_fin_witness :
  ∃ o', to_bytes (O := ListOctets.ops) (mkHeader StartAck 1 2 3 4) (with_slice (replicate 26 0))
          = Ok tt o' ∧
        from_slice (o_buf o') tt = Ok (mkHeader Fin 1 2 3 4) tt.
Proof.
  apply (header_start_ack_aliases_fin (O := ListOctets.ops) (HO := ListOctets.spec) 1 2 3 4
           (replicate 26 0) tt).
  - repeat split; vm_compute; congruence.
  - vm_compute. lia.
Defined.
End Header.
#[export] Hint Rewrite Header.zlen_encode : zlen.

Module PktNumWindow.

Record PktNumWindow := mkWindow {
  priority_record : gmap Z Z;
  record : gmap Z (Z * Z);   (** [retrans, received] *)
}.

Definition default : PktNumWindow := mkWindow ∅ ∅.

Definition update_retrans (offset retrans received : Z) : M PktNumWindow unit :=
  modify (λ w, mkWindow (priority_record w) (<[offset := (retrans, received)]> (record w))).

Definition additem (offset priority : Z) : M PktNumWindow unit :=
  (if offset mod 1024 =? 0
   then modify (λ w, mkWindow (<[offset := priority]> (priority_record w)) (record w))
   else mret tt);;
  update_retrans offset priority 1.

Definition update_item (offset priority : Z) : M PktNumWindow unit :=
  (if offset mod 1024 =? 0
   then modify (λ w, mkWindow (<[offset := priority]> (priority_record w)) (record w))
   else mret tt);;
  update_retrans offset priority 1.

Definition get_priority (offset : Z) (w : PktNumWindow) : Z :=
  match priority_record w !! offset with Some p => p | None => 0 end.

Definition clear_record : M PktNumWindow unit :=
  modify (λ w, mkWindow (priority_record w) ∅).

Section Ops.
Context {P : Profile}.

Definition get_retrans_times (offset : Z) : M PktNumWindow Z :=
  w ← get;
  match record w !! offset with
  | Some (retrans, recv) => if recv =? 1 then mret 0 else uadd retrans 1
  | None => mret 0
  end.

Definition check_received (offset : Z) (sent : bool) : M PktNumWindow bool :=
  w ← get;
  if negb sent then
    match record w !! offset with
    | Some (retrans, received) =>
        if received =? 1 then mret true
        else
          (if 0 <? retrans then
             r ← usub retrans 1; update_retrans offset r received
           else update_retrans offset 0 1);;
          mret false
    | None =>
        base ← usub offset (offset mod 1024);
        let priority := get_priority base w in
        (if priority =? 0 then
           additem base 3;; update_retrans offset 2 0
         else
           r ← usub priority 1; update_retrans offset r 0);;
        mret false
    end
  else
    match record w !! offset with
    | Some (_, received) => mret (received =? 1)
    | None => mret false
    end.

(** Polling the same offset [n] times, collecting the answers. *)
Fixpoint poll (n : nat) (offset : Z) : M PktNumWindow (list bool) :=
  match n with
  | O => mret []
  | S n' => b ← check_received offset false; bs ← poll n' offset; mret (b :: bs)
  end.

End Ops.

(** The budget the window grants to an offset it has no record of. *)
Definition budget (w : PktNumWindow) (offset : Z) : Z :=
  let p := get_priority (offset - offset mod 1024) w in if p =? 0 then 3 else p.

Definition set_record (offset retrans received : Z) (w : PktNumWindow) : PktNumWindow :=
  mkWindow (priority_record w) (<[offset := (retrans, received)]> (record w)).

Section Facts.
Context {P : Profile}.

(** One poll, on each of the records an offset can have. *)
Lemma check_received_done offset w r :
  record w !! offset = Some (r, 1) → check_received offset false w = Ok true w.
Proof. intros Hw. unfold check_received. msimpl. cbn [negb]. by rewrite Hw. Qed.

Lemma check_received_last offset w :
  record w !! offset = Some (0, 0) →
  check_received offset false w = Ok false (set_record offset 0 1 w).
Proof. intros Hw. unfold check_received. msimpl. cbn [negb]. by rewrite Hw. Qed.

Lemma check_received_count offset w r :
  0 < r < u64_bound → record w !! offset = Some (r, 0) →
  check_received offset false w = Ok false (set_record offset (r - 1) 0 w).
Proof.
  intros Hr Hw. unfold check_received. msimpl. cbn [negb]. rewrite Hw. cbn [Z.eqb].
  destruct (Z.ltb_spec 0 r) as [_|]; [|lia]. by arith_ok.
Qed.

Lemma check_received_fresh offset w :
  is_u64 offset → 0 <= budget w offset < u64_bound → record w !! offset = None →
  ∃ w', check_received offset false w = Ok false w' ∧
        record w' !! offset = Some (budget w offset - 1, 0).
Proof.
  unfold budget. intros Ho Hb Hw. unfold check_received. msimpl. cbn [negb]. rewrite Hw.
  pose proof (Z.mod_pos_bound offset 1024). pose proof (Z.mod_le offset 1024).
  unfold is_u64 in Ho. unfold usub. rewrite checked_ok by (unfold is_u64; lia).
  destruct (Z.eqb_spec (get_priority (offset - offset mod 1024) w) 0) as [_|Hp].
  - unfold additem. destruct (_ =? 0); eexists; (split; [done|]);
      by apply lookup_insert_eq.
  - rewrite checked_ok.
    + eexists. split; [done|]. by apply lookup_insert_eq.
    + unfold is_u64, u64_bound in *. lia.
Qed.

Lemma poll_step n offset w b w1 bs w2 :
  check_received offset false w = Ok b w1 → poll n offset w1 = Ok bs w2 →
  poll (S n) offset w = Ok (b :: bs) w2.
Proof. intros H1 H2. simpl. rewrite (bind_Ok _ _ _ _ _ H1). by rewrite (bind_Ok _ _ _ _ _ H2). Qed.

(** A record that counts down [r] more times before it is given up. *)
Lemma poll_counting (n : nat) offset w :
  Z.of_nat n < u64_bound → record w !! offset = Some (Z.of_nat n, 0) →
  ∃ w', poll (n + 2) offset w = Ok (replicate (n + 1) false ++ [true]) w'.
Proof.
  revert w. induction n as [|n IH]; intros w Hn Hw.
  - eexists. eapply poll_step; [by apply check_received_last|].
    eapply poll_step; [|done]. apply check_received_done with 0. by apply lookup_insert_eq.
  - destruct (IH (set_record offset (Z.of_nat n) 0 w)) as [w' Hw']; [lia|by apply lookup_insert_eq|].
    exists w'. cbn [Nat.add replicate app]. eapply poll_step; [|exact Hw'].
    replace (Z.of_nat n) with (Z.of_nat (S n) - 1) by lia. apply check_received_count; [lia|done].
Qed.

(** C33: poll_gives_up.  An offset that never arrives is asked for a bounded
    number of times: polled from a window without a record of it,
    [check_received] answers "not received" exactly [budget + 1] times (the
    stored priority of its block, or 3) and then reports it as settled. *)
Theorem poll_gives_up (n : nat) offset w :
  is_u64 offset → record w !! offset = None → budget w offset = Z.of_nat (S n) →
  Z.of_nat (S n) < u64_bound →
  ∃ w', poll (n + 3) offset w = Ok (replicate (n + 2) false ++ [true]) w'.
Proof.
  intros Ho Hw Hb Hn. destruct (check_received_fresh offset w Ho) as (w1 & E1 & H1);
    [lia|done|].
  rewrite Hb in H1. replace (Z.of_nat (S n) - 1) with (Z.of_nat n) in H1 by lia.
  destruct (poll_counting n offset w1) as [w2 E2]; [lia|done|].
  exists w2. replace (n + 3)%nat with (S (n + 2)) by lia.
  replace (n + 2)%nat with (S (n + 1)) at 2 by lia. cbn [replicate app].
  eapply poll_step; [exact E1|exact E2].
Qed.
End Facts.

Lemma poll_gives_up_witness :
  ∃ w', poll (P := debug_x86) 5 2048 default = Ok [false; false; false; false; true] w'.
Proof.
  apply (poll_gives_up (P := debug_x86) 2 2048 default).
  - vm_compute. split; congruence.
  - reflexivity.
  - reflexivity.
  - vm_compute. reflexivity.
Defined.
End PktNumWindow.

Record PktNumSpace := mkSpace {
  next_pkt_num : Z;
  recv_pkt_num : PktNumWindow.PktNumWindow;
}.

Module PktNumSpace.
Definition new : PktNumSpace := mkSpace 0 PktNumWindow.default.
End PktNumSpace.
