(* ===== verification/OMap.v ===== *)
(** * OMap: ordered maps

    [std::collections::BTreeMap<u64, V>] and [BTreeSet<usize>] as association
    lists sorted by key: the order in which [values()], [retain],
    [first_entry], [last_key_value] and [pop_last] visit the entries matters to
    the source, so it is kept in the representation. *)
From S2P Require Import Prelude.

Abbreviation omap V := (list (Z * V)).

Section Ops.
Context {V : Type}.

Fixpoint om_insert (k : Z) (v : V) (m : omap V) : omap V :=
  match m with
  | [] => [(k, v)]
  | (k', v') :: m' =>
      if k <? k' then (k, v) :: m
      else if k =? k' then (k, v) :: m'
      else (k', v') :: om_insert k v m'
  end.

Fixpoint om_get (k : Z) (m : omap V) : option V :=
  match m with
  | [] => None
  | (k', v') :: m' => if k =? k' then Some v' else om_get k m'
  end.

(** Updating the value of a key that is present, through [get_mut]. *)
Fixpoint om_alter (f : V → V) (k : Z) (m : omap V) : omap V :=
  match m with
  | [] => []
  | (k', v') :: m' => if k =? k' then (k', f v') :: m' else (k', v') :: om_alter f k m'
  end.

Definition om_keys (m : omap V) : list Z := m.*1.
Definition om_values (m : omap V) : list V := m.*2.
#[local] Arguments om_keys : simpl never.

Definition om_sorted (m : omap V) : Prop := StronglySorted Z.lt (om_keys m).

Lemma om_get_alter f k k' m :
  om_get k' (om_alter f k m) = if k' =? k then f <$> om_get k m else om_get k' m.
Proof.
  induction m as [|[k1 v1] m IH]; simpl; [by destruct (k' =? k)|].
  destruct (Z.eqb_spec k k1); simpl; destruct (Z.eqb_spec k' k1), (Z.eqb_spec k' k);
    subst; try done; by rewrite IH.
Qed.

Lemma om_keys_alter f k m : om_keys (om_alter f k m) = om_keys m.
Proof.
  unfold om_keys in *. induction m as [|[k1 v1] m IH]; [done|]. simpl.
  destruct (k =? k1); [done|]. rewrite !fmap_cons. by rewrite IH.
Qed.

Lemma om_alter_const_idem (x : V) k m :
  om_alter (λ _, x) k (om_alter (λ _, x) k m) = om_alter (λ _, x) k m.
Proof.
  induction m as [|[k1 v1] m IH]; simpl; [done|].
  destruct (Z.eqb_spec k k1) as [->|]; simpl.
  - by rewrite Z.eqb_refl.
  - destruct (Z.eqb_spec k k1); [done|]. by rewrite IH.
Qed.

Lemma om_keys_cons k v m : om_keys ((k, v) :: m) = k :: om_keys m.
Proof. done. Qed.

Lemma om_keys_app m1 m2 : om_keys (m1 ++ m2) = om_keys m1 ++ om_keys m2.
Proof. apply fmap_app. Qed.

Lemma om_insert_last k v m :
  Forall (λ k', k' < k) (om_keys m) → om_insert k v m = m ++ [(k, v)].
Proof.
  induction m as [|[k1 v1] m IH]; [done|]. rewrite om_keys_cons.
  inversion_clear 1 as [|? ? Hk Hm]. simpl.
  destruct (Z.ltb_spec k k1), (Z.eqb_spec k k1); try lia. by rewrite IH.
Qed.

Lemma om_keys_insert k v m k' :
  k' ∈ om_keys (om_insert k v m) ↔ k' = k ∨ k' ∈ om_keys m.
Proof.
  induction m as [|[k1 v1] m IH]; simpl.
  { rewrite om_keys_cons, elem_of_cons. tauto. }
  destruct (k <? k1); [|destruct (Z.eqb_spec k k1) as [->|]];
    rewrite !om_keys_cons, !elem_of_cons, ?IH; tauto.
Qed.

Lemma om_sorted_insert k v m : om_sorted m → om_sorted (om_insert k v m).
Proof.
  unfold om_sorted. induction m as [|[k1 v1] m IH]; simpl; [by repeat constructor|].
  rewrite om_keys_cons. inversion_clear 1 as [|? ? Hs Hm].
  destruct (Z.ltb_spec k k1); [|destruct (Z.eqb_spec k k1) as [->|]].
  - rewrite !om_keys_cons. constructor; [by constructor|]. constructor; [done|].
    eapply Forall_impl; [exact Hm|]. simpl. lia.
  - rewrite om_keys_cons. by constructor.
  - rewrite om_keys_cons. constructor; [by apply IH|].
    apply Forall_forall. intros x Hx%om_keys_insert. rewrite Forall_forall in Hm.
    destruct Hx as [->|Hx]; [lia|by apply Hm].
Qed.

Lemma om_get_None k m : om_get k m = None ↔ k ∉ om_keys m.
Proof.
  induction m as [|[k1 v1] m IH]; simpl; [by split; [intros _ ?%elem_of_nil|]|].
  rewrite om_keys_cons, not_elem_of_cons.
  destruct (Z.eqb_spec k k1); [split; [done|tauto]|]. rewrite IH. tauto.
Qed.

Lemma om_get_elem k v m : om_sorted m → (k, v) ∈ m ↔ om_get k m = Some v.
Proof.
  unfold om_sorted. induction m as [|[k1 v1] m IH]; [by split; [intros ?%elem_of_nil|]|].
  rewrite om_keys_cons. inversion_clear 1 as [|? ? Hs Hm]. simpl.
  rewrite elem_of_cons. destruct (Z.eqb_spec k k1) as [->|Hne].
  - split; [|intros [= ->]; by left]. intros [[= ->]|Hin]; [done|].
    rewrite Forall_forall in Hm. specialize (Hm k1).
    assert (k1 < k1); [|lia]. apply Hm. by apply (list_elem_of_fmap_2 fst _ (k1, v)).
  - rewrite <-IH by done. split; [intros [[= ? ?]|]; [done|done]|by right].
Qed.

Lemma om_get_insert k v m k' :
  om_sorted m → om_get k' (om_insert k v m) = if k' =? k then Some v else om_get k' m.
Proof.
  unfold om_sorted. induction m as [|[k1 v1] m IH]; [done|]. rewrite om_keys_cons.
  inversion_clear 1 as [|? ? Hs Hm]. simpl.
  destruct (Z.ltb_spec k k1); [done|]. destruct (Z.eqb_spec k k1) as [->|]; simpl.
  - by destruct (Z.eqb_spec k' k1).
  - rewrite IH by done. destruct (Z.eqb_spec k' k1), (Z.eqb_spec k' k); subst; done.
Qed.

Lemma om_Forall_insert (Pr : Z * V → Prop) k v m :
  Pr (k, v) → Forall Pr m → Forall Pr (om_insert k v m).
Proof.
  intros Hk. induction 1 as [|[k1 v1] m H1 Hm IH]; simpl; [by constructor|].
  destruct (_ <? _); [by repeat constructor|]. destruct (_ =? _); by constructor.
Qed.

Lemma om_sorted_alter f k m : om_sorted m → om_sorted (om_alter f k m).
Proof. unfold om_sorted. by rewrite om_keys_alter. Qed.

Lemma om_sorted_filter (Pr : Z * V → Prop) `{!∀ x, Decision (Pr x)} m :
  om_sorted m → om_sorted (filter Pr m).
Proof.
  unfold om_sorted. induction m as [|[k1 v1] m IH]; [done|]. rewrite om_keys_cons.
  inversion_clear 1 as [|? ? Hs Hm]. rewrite filter_cons. case_decide; [|by apply IH].
  rewrite om_keys_cons. constructor; [by apply IH|]. rewrite Forall_forall in *.
  intros x Hx. apply Hm. unfold om_keys in *.
  apply list_elem_of_fmap in Hx as (y & -> & Hy). apply list_elem_of_filter in Hy as [_ Hy].
  by apply list_elem_of_fmap_2.
Qed.
End Ops.

(** ** [BTreeSet<usize>] *)

Fixpoint os_insert (k : Z) (s : list Z) : list Z :=
  match s with
  | [] => [k]
  | k' :: s' => if k <? k' then k :: s else if k =? k' then s else k' :: os_insert k s'
  end.

(** [pop_last]: the largest element and the rest. *)
Definition os_pop_last (s : list Z) : option (Z * list Z) :=
  match reverse s with
  | [] => None
  | k :: s' => Some (k, reverse s')
  end.

Lemma os_insert_elem k s x : x ∈ os_insert k s ↔ x = k ∨ x ∈ s.
Proof.
  induction s as [|k' s IH]; simpl; [by rewrite elem_of_cons|].
  destruct (k <? k'); [|destruct (Z.eqb_spec k k') as [->|]];
    rewrite !elem_of_cons, ?IH; tauto.
Qed.

Lemma os_pop_last_elem s k s' :
  os_pop_last s = Some (k, s') → s = s' ++ [k].
Proof.
  unfold os_pop_last. destruct (reverse s) as [|x r] eqn:Hr; [done|]. intros [= -> <-].
  by rewrite <-(reverse_involutive s), Hr, reverse_cons.
Qed.
