(* ===== verification/SoftFloat.v ===== *)
(** * SoftFloat: the [f32] and [f64] operations of the source

    IEEE 754 binary32 and binary64 with round-to-nearest-even, computed by the
    Standard Library's executable specification ([SpecFloat]), so that window
    updates and priorities evaluate to the values the program computes.
    NaN payloads are not distinguished.  [powi] with a constant exponent 2 or 3
    is the product [x*x] or [x*x*x]. *)
From S2P Require Import Prelude.
From Stdlib Require Import SpecFloat.

Abbreviation f32 := spec_float.
Abbreviation f64 := spec_float.

Definition f32_add : f32 → f32 → f32 := SFadd 24 128.
Definition f32_mul : f32 → f32 → f32 := SFmul 24 128.
Definition f64_add : f64 → f64 → f64 := SFadd 53 1024.
Definition f64_sub : f64 → f64 → f64 := SFsub 53 1024.
Definition f64_mul : f64 → f64 → f64 := SFmul 53 1024.
Definition f64_div : f64 → f64 → f64 := SFdiv 53 1024.

(** [x as f64] of an integer, [x as f64] of an [f32] (exact). *)
Definition f64_of_Z (z : Z) : f64 := binary_normalize 53 1024 z 0 false.
Definition f32_of_Z (z : Z) : f32 := binary_normalize 24 128 z 0 false.
Definition f64_of_f32 (x : f32) : f64 :=
  match x with
  | S754_finite s m e => binary_round 53 1024 s m e
  | _ => x
  end.

(** The literal [m / 10^k], correctly rounded. *)
Definition f64_lit (m k : Z) : f64 :=
  match m with
  | Z0 => S754_zero false
  | Zpos p => let '(q, e, l) := SFdiv_core_binary 53 1024 (Zpos p) 0 (10 ^ k) 0 in
              binary_round_aux 53 1024 false q e l
  | Zneg p => let '(q, e, l) := SFdiv_core_binary 53 1024 (Zpos p) 0 (10 ^ k) 0 in
              binary_round_aux 53 1024 true q e l
  end.
Definition f32_lit (m k : Z) : f32 :=
  match m with
  | Z0 => S754_zero false
  | Zpos p => let '(q, e, l) := SFdiv_core_binary 24 128 (Zpos p) 0 (10 ^ k) 0 in
              binary_round_aux 24 128 false q e l
  | Zneg p => let '(q, e, l) := SFdiv_core_binary 24 128 (Zpos p) 0 (10 ^ k) 0 in
              binary_round_aux 24 128 true q e l
  end.

Definition powi2 (x : f64) : f64 := f64_mul x x.
Definition powi3 (x : f64) : f64 := f64_mul (f64_mul x x) x.

(** Comparisons: false on NaN, except [!=]. *)
Definition f_lt (x y : spec_float) : bool := SFltb x y.
Definition f_gt (x y : spec_float) : bool := SFltb y x.
Definition f_ne (x y : spec_float) : bool := negb (SFeqb x y).

(** [x as usize]: truncation, saturating, 0 on NaN. *)
Definition f64_as_usize (x : f64) : Z :=
  match x with
  | S754_finite false m e =>
      Z.min (usize_bound - 1) (if 0 <=? e then Zpos m * 2 ^ e else Zpos m / 2 ^ (- e))
  | S754_infinity false => usize_bound - 1
  | _ => 0
  end.

Lemma f64_as_usize_u64 x : is_u64 (f64_as_usize x).
Proof.
  unfold is_u64, f64_as_usize, u64_bound. destruct x as [?|[]| |[] m e]; try lia.
  split; [|lia]. apply Z.min_glb; [lia|]. destruct (Z.leb_spec 0 e).
  - pose proof (Z.pow_pos_nonneg 2 e). nia.
  - apply Z.div_pos; [lia|]. apply Z.pow_pos_nonneg; lia.
Qed.

(** The literals of the source, against their known bit patterns. *)
Example f32_lit_02 : f32_lit 2 1 = S754_finite false 13421773 (-26).
Proof. reflexivity. Qed.
Example f64_lit_001 : f64_lit 1 2 = S754_finite false 5764607523034235 (-59).
Proof. reflexivity. Qed.
