(* ===== verification/RangeBuf.v ===== *)
(** * RangeBuf: a chunk of stream data (src/src/lib.rs, [RangeBuf]) *)
From S2P Require Import Prelude Effects.

Record RangeBuf := mkRangeBuf {
  rg_data : list Z;
  rg_start : Z;
  rg_pos : Z;
  rg_len : Z;
  rg_off : Z;
}.

(** [RangeBuf::from] *)
Definition from (buf : list Z) (off : Z) : RangeBuf := mkRangeBuf buf 0 0 (♯buf) off.

Section Ops.
Context {P : Profile}.

Definition off {S} (b : RangeBuf) : M S Z :=
  x ← usub (rg_off b) (rg_start b); uadd x (rg_pos b).

Definition len {S} (b : RangeBuf) : M S Z := usub (rg_len b) (rg_pos b).

Definition max_off {S} (b : RangeBuf) : M S Z :=
  x ← off b; l ← len b; uadd x l.

Definition is_empty {S} (b : RangeBuf) : M S bool :=
  l ← len b; mret (l =? 0).

Definition consume (count : Z) : M RangeBuf unit :=
  b ← get;
  p ← uadd (rg_pos b) count;
  modify (λ b, mkRangeBuf (rg_data b) (rg_start b) p (rg_len b) (rg_off b)).

(** [Deref]: the bytes still to be read. *)
Definition deref {S} (b : RangeBuf) : M S (list Z) :=
  e ← uadd (rg_start b) (rg_len b);
  or_panic OutOfBounds (slice (rg_data b) (rg_pos b) e).

Definition split_off (at_ : Z) : M RangeBuf RangeBuf :=
  b ← get;
  if negb (at_ <=? rg_len b) then panicking AssertionFailed else
  tail ← or_panic OutOfBounds (slice_from (rg_data b) at_);
  l ← usub (rg_len b) at_;
  o ← uadd (rg_off b) at_;
  e ← uadd (rg_start b) at_;
  modify (λ b, mkRangeBuf (rg_data b) (rg_start b) (Z.min (rg_pos b) e) at_ (rg_off b));;
  mret (mkRangeBuf tail 0 0 l o).
End Ops.

(** [PartialEq]: chunks are equal when their offsets are. *)
Definition eqb (a b : RangeBuf) : bool := rg_off a =? rg_off b.

(** The lexicographic order of byte slices. *)
Fixpoint slice_cmp (x y : list Z) : comparison :=
  match x, y with
  | [], [] => Eq
  | [], _ :: _ => Lt
  | _ :: _, [] => Gt
  | a :: x', b :: y' => match a ?= b with Eq => slice_cmp x' y' | c => c end
  end.

(** [PartialOrd]: [self.cmp(other)] resolves, through [Deref], to the order of
    the byte slices. *)
Definition partial_cmp {P : Profile} {S} (a b : RangeBuf) : M S (option comparison) :=
  x ← deref a; y ← deref b; mret (Some (slice_cmp x y)).

(** ** Well-formed chunks

    Every chunk the program builds holds exactly [len] bytes from [start = 0];
    [fresh] chunks have not been consumed. *)
Definition wf (b : RangeBuf) : Prop :=
  rg_start b = 0 ∧ 0 <= rg_pos b <= rg_len b ∧ rg_len b = ♯(rg_data b) ∧
  0 <= rg_off b ∧ rg_off b + rg_len b < u64_bound.

Definition fresh (b : RangeBuf) : Prop := wf b ∧ rg_pos b = 0.

(** First offset after the chunk. *)
Definition chunk_end (b : RangeBuf) : Z := rg_off b + rg_len b.

Section Facts.
Context {P : Profile}.

Lemma from_fresh buf o : 0 <= o → o + ♯buf < u64_bound → fresh (from buf o).
Proof. intros. repeat split; simpl; zlia. Qed.

Lemma deref_from {S} buf o (s : S) : ♯buf < u64_bound → deref (from buf o) s = Ok buf s.
Proof.
  intros H. unfold deref. cbn. arith_ok. rewrite slice_Some by zlia. rewrite drop_0.
  rewrite take_ge; [done|]. unfold zlen. lia.
Qed.

Lemma slice_cmp_refl l : slice_cmp l l = Eq.
Proof. induction l as [|x l IH]; [done|]. cbn. by rewrite Z.compare_refl. Qed.

Lemma off_wf {S} b (s : S) : wf b → off b s = Ok (rg_off b + rg_pos b) s.
Proof.
  intros (Hs & ? & Hl & ? & ?). unfold off. rewrite Hs. arith_ok. do 2 f_equal. lia.
Qed.

Lemma len_wf {S} b (s : S) : wf b → len b s = Ok (rg_len b - rg_pos b) s.
Proof. intros (Hs & ? & Hl & ? & ?). unfold len. by arith_ok. Qed.

Lemma max_off_wf {S} b (s : S) : wf b → max_off b s = Ok (chunk_end b) s.
Proof.
  intros Hw. unfold max_off. rewrite (bind_Ok _ _ _ _ _ (off_wf b s Hw)).
  rewrite (bind_Ok _ _ _ _ _ (len_wf b s Hw)).
  destruct Hw as (Hs & ? & Hl & ? & ?). arith_ok. unfold chunk_end. f_equal. lia.
Qed.

Lemma is_empty_wf {S} b (s : S) : wf b → is_empty b s = Ok (rg_len b =? rg_pos b) s.
Proof.
  intros Hw. unfold is_empty. rewrite (bind_Ok _ _ _ _ _ (len_wf b s Hw)). unfold mret, M_ret.
  f_equal. destruct (Z.eqb_spec (rg_len b - rg_pos b) 0), (Z.eqb_spec (rg_len b) (rg_pos b)); lia.
Qed.

Lemma deref_wf {S} b (s : S) :
  wf b → deref b s = Ok (drop (Z.to_nat (rg_pos b)) (rg_data b)) s.
Proof.
  intros (Hs & ? & Hl & ? & ?). unfold deref. rewrite Hs. arith_ok.
  rewrite slice_Some by lia. f_equal. apply take_ge.
  rewrite length_drop. unfold zlen in *. lia.
Qed.

Lemma consume_wf b n :
  wf b → 0 <= n <= rg_len b - rg_pos b →
  ∃ b', consume n b = Ok tt b' ∧ wf b' ∧ rg_off b' = rg_off b ∧ rg_len b' = rg_len b ∧
        rg_data b' = rg_data b ∧ rg_pos b' = rg_pos b + n.
Proof.
  intros (Hs & ? & Hl & ? & ?) Hn. unfold consume. arith_ok.
  eexists. split; [done|]. repeat split; simpl; lia.
Qed.

(** Splitting a chunk at [n], at or after its read
    position, partitions its unread bytes and its offset range: the left part
    keeps the bytes up to [n], the right part is a fresh chunk with the rest,
    and the right part begins where the left part ends. *)
Theorem split_off_partition {S} b n (s : S) :
  wf b → rg_pos b <= n <= rg_len b →
  ∃ l r xl xr x, split_off n b = Ok r l ∧ fresh r ∧
    off l s = off b s ∧ max_off l s = Ok (rg_off r) s ∧ max_off r s = max_off b s ∧
    deref l s = Ok xl s ∧ deref r s = Ok xr s ∧ deref b s = Ok x s ∧ xl ++ xr = x.
Proof.
  intros Hw Hn. rewrite (max_off_wf b s Hw), (deref_wf b s Hw), (off_wf b s Hw).
  pose proof Hw as (Hs & Hp & Hl & Ho & Hb). unfold split_off. msimpl.
  destruct (Z.leb_spec n (rg_len b)); [|lia]. cbn [negb]. rewrite slice_from_Some by lia.
  unfold usub, uadd. rewrite Hs, !checked_ok by (unfold is_u64, u64_bound in *; lia).
  replace (Z.min (rg_pos b) (0 + n)) with (rg_pos b) by lia.
  set (r := mkRangeBuf _ 0 0 _ _).
  assert (Hr : fresh r) by (repeat split; simpl; zlia).
  eexists _, r, _, _, _. split; [done|]. split; [done|].
  rewrite (max_off_wf r s (proj1 Hr)), (deref_wf r s (proj1 Hr)).
  unfold max_off, off, len, deref, chunk_end, usub, uadd. cbn. msimpl.
  rewrite !checked_ok by (unfold is_u64, u64_bound in *; lia).
  rewrite slice_Some by lia. rewrite drop_0.
  rewrite Hs. repeat split; try (f_equal; lia).
  rewrite take_drop_commute. replace (Z.to_nat (rg_pos b) + Z.to_nat (0 + n - rg_pos b))%nat
    with (Z.to_nat n) by lia.
  rewrite <-(take_drop (Z.to_nat n) (rg_data b)) at 3. rewrite drop_app_le; [done|].
  rewrite length_take. unfold zlen in *. lia.
Qed.
End Facts.

#[local] Existing Instance debug_x86.

Lemma split_off_partition_witness :
  ∃ l r xl xr x, split_off (P := debug_x86) 3 (mkRangeBuf [7; 8; 9; 10] 0 1 4 100) = Ok r l ∧
    fresh r ∧ off l tt = off (mkRangeBuf [7; 8; 9; 10] 0 1 4 100) tt ∧
    max_off l tt = Ok (rg_off r) tt ∧ max_off r tt = max_off (mkRangeBuf [7; 8; 9; 10] 0 1 4 100) tt ∧
    deref l tt = Ok xl tt ∧ deref r tt = Ok xr tt ∧
    deref (mkRangeBuf [7; 8; 9; 10] 0 1 4 100) tt = Ok x tt ∧ xl ++ xr = x.
Proof.
  apply (split_off_partition (P := debug_x86) (mkRangeBuf [7; 8; 9; 10] 0 1 4 100) 3 tt).
  - repeat split; vm_compute; congruence.
  - vm_compute. split; congruence.
Defined.

(** [PartialOrd] compares bytes while
    [PartialEq] compares offsets, in both build profiles: chunks at the same
    offset are equal whatever their bytes, yet ordered strictly as soon as their
    first bytes differ; copies of the same bytes at different offsets are unequal
    and yet compare as equal. *)
Theorem range_order_disagrees_with_eq (P : Profile) x y xs ys o o' :
  x < y → o ≠ o' → ♯(x :: xs) < u64_bound → ♯(y :: ys) < u64_bound →
  let a := from (x :: xs) o in let b := from (y :: ys) o in let a' := from (x :: xs) o' in
  eqb a b = true ∧ partial_cmp a b tt = Ok (Some Lt) tt ∧
  eqb a a' = false ∧ partial_cmp a a' tt = Ok (Some Eq) tt.
Proof.
  intros Hxy Ho Hx Hy a b a'. unfold partial_cmp, a, b, a'.
  rewrite !(bind_Ok _ _ _ _ _ (deref_from _ _ _ Hx)), (bind_Ok _ _ _ _ _ (deref_from _ _ _ Hy)).
  cbn [slice_cmp]. rewrite (proj2 (Z.compare_lt_iff x y)) by done.
  rewrite Z.compare_refl, slice_cmp_refl. unfold eqb. cbn.
  by rewrite Z.eqb_refl, (proj2 (Z.eqb_neq o o')).
Qed.

Lemma range_order_disagrees_with_eq_witness :
  eqb (from [1; 9] 0) (from [2] 0) = true ∧
  partial_cmp (P := debug_x86) (from [1; 9] 0) (from [2] 0) tt = Ok (Some Lt) tt ∧
  eqb (from [1; 9] 0) (from [1; 9] 1024) = false ∧
  partial_cmp (P := debug_x86) (from [1; 9] 0) (from [1; 9] 1024) tt = Ok (Some Eq) tt.
Proof. by apply (range_order_disagrees_with_eq debug_x86 1 2 [9] [] 0 1024). Defined.
