(* ===== verification/RecvBuf.v ===== *)
(** * RecvBuf: the receive-side stream buffer (src/src/lib.rs, [RecvBuf])

    Chunks wait in a [BTreeMap] keyed by their end offset until the application
    reads them with [emit], which skips over the gaps of lost packets. *)
From S2P Require Import Prelude Effects OMap RangeBuf.

Record RecvBuf := mkRecvBuf {
  rb_data : omap RangeBuf;
  rb_off : Z;
  rb_len : Z;
  rb_last_maxoff : Z;
  rb_max_recv_off : Z;
}.

Definition set_rb_data d r :=
  mkRecvBuf d (rb_off r) (rb_len r) (rb_last_maxoff r) (rb_max_recv_off r).
Definition set_rb_off o r :=
  mkRecvBuf (rb_data r) o (rb_len r) (rb_last_maxoff r) (rb_max_recv_off r).
Definition set_rb_last_maxoff m r :=
  mkRecvBuf (rb_data r) (rb_off r) (rb_len r) m (rb_max_recv_off r).
Definition set_rb_max_recv_off m r :=
  mkRecvBuf (rb_data r) (rb_off r) (rb_len r) (rb_last_maxoff r) m.

Definition new : RecvBuf := mkRecvBuf [] 0 0 0 0.

Definition ready (r : RecvBuf) : bool :=
  match rb_data r with [] => false | _ => true end.

Definition max_ack (r : RecvBuf) : Z := rb_max_recv_off r.

Definition off_front (r : RecvBuf) : Z := rb_off r.

Definition shutdown : M RecvBuf unit := modify (set_rb_data []).

Section Ops.
Context {P : Profile}.

Definition write (out : list Z) (out_off : Z) : M RecvBuf unit :=
  let buf := from out out_off in
  buf_len ← RangeBuf.len buf;
  mo ← max_off buf;
  tmp_off ← usub mo buf_len;
  r ← get;
  match last (rb_data r) with
  | Some (k, _) => if k =? tmp_off then modify (set_rb_max_recv_off tmp_off) else mret tt
  | None => mret tt
  end;;
  k ← max_off buf;
  modify (λ r, set_rb_data (om_insert k buf (rb_data r)) r).

(** The body of the [while cap > 0 && self.ready()] loop of [emit].
    [entries] is the content of [self.data] when the iteration starts; every
    iteration that does not leave the loop removes its first entry. *)
Fixpoint emit_loop (entries : omap RangeBuf) (cap len : Z) (out : list Z)
    : M RecvBuf (Z * list Z) :=
  match entries with
  | [] => mret (len, out)
  | (k, buf) :: rest =>
      if negb (0 <? cap) then mret (len, out) else
      mo ← max_off buf;
      data_len ← RangeBuf.len buf;
      r ← get;
      d ← usub mo (rb_last_maxoff r);
      zero_len ← (if negb (d =? data_len)
                  then d' ← usub mo (rb_last_maxoff r); usub d' data_len
                  else mret 0);
      if zero_len <? cap then
        cap' ← usub cap zero_len;
        len' ← uadd len zero_len;
        m1 ← uadd (rb_last_maxoff r) zero_len;
        modify (set_rb_last_maxoff m1);;
        bl ← RangeBuf.len buf;
        let buf_len := Z.min bl cap' in
        e ← uadd len' buf_len;
        src ← or_panic OutOfBounds (slice (rg_data buf) 0 buf_len);
        out' ← or_panic OutOfBounds (blit out len' src);
        m2 ← uadd m1 buf_len;
        modify (set_rb_last_maxoff m2);;
        bl2 ← RangeBuf.len buf;
        if buf_len <? bl2 then
          c ← local buf (consume buf_len);
          modify (set_rb_data ((k, c.2) :: rest));;
          mret (len', out')
        else
          modify (set_rb_data rest);;
          emit_loop rest cap' len' out'
      else if zero_len =? cap then
        m1 ← uadd (rb_last_maxoff r) zero_len;
        modify (set_rb_last_maxoff m1);;
        len' ← uadd len zero_len;
        mret (len', out)
      else
        m1 ← uadd (rb_last_maxoff r) cap;
        modify (set_rb_last_maxoff m1);;
        mret (len, out)
  end.

(** Returns the count and the new contents of the caller's buffer. *)
Definition emit (out : list Z) : M RecvBuf (Z * list Z) :=
  r ← get;
  if negb (ready r) then fail Done
  else emit_loop (rb_data r) (♯out) 0 out.

Definition reset (final_size : Z) : M RecvBuf Z :=
  r ← get;
  if final_size <? rb_len r then fail FinalSize else
  max_data_delta ← usub final_size (rb_len r);
  modify (set_rb_off final_size);;
  modify (set_rb_data []);;
  mret max_data_delta.
End Ops.

(** ** Invariant *)

(** The map is sorted, each chunk is filed under its end offset. *)
Definition wf (r : RecvBuf) : Prop :=
  om_sorted (rb_data r) ∧
  Forall (λ e, RangeBuf.wf e.2 ∧ e.1 = chunk_end e.2) (rb_data r).

(** Unread chunks lie beyond [lm] and do not overlap, so that every gap is a
    non-negative number of bytes. *)
Fixpoint ordered_from (lm : Z) (es : omap RangeBuf) : Prop :=
  match es with
  | [] => True
  | (_, b) :: es' => lm <= rg_off b ∧ ordered_from (chunk_end b) es'
  end.

(** The end of the last chunk, and the number of payload bytes. *)
Fixpoint span_end (lm : Z) (es : omap RangeBuf) : Z :=
  match es with [] => lm | (_, b) :: es' => span_end (chunk_end b) es' end.
Fixpoint payload (es : omap RangeBuf) : Z :=
  match es with [] => 0 | (_, b) :: es' => rg_len b + payload es' end.

(** Chunks as [write] files them. *)
Definition entries_ok (es : omap RangeBuf) : Prop :=
  Forall (λ e, fresh e.2 ∧ 0 < rg_len e.2) es.

Lemma span_end_ge lm es : entries_ok es → ordered_from lm es → lm <= span_end lm es.
Proof.
  intros Hes. revert lm. induction Hes as [|[k b] es [_ Hp] _ IH]; intros lm; simpl; [lia|].
  intros [Hb Ho]. apply IH in Ho. simpl in Hp.
  assert (rg_off b < chunk_end b) by (unfold chunk_end; lia). lia.
Qed.

(** Where [emit] puts the bytes: each chunk goes to the sum of the gaps before
    it, whatever was put there by the chunks before it. *)
Fixpoint placed (lm len : Z) (es : omap RangeBuf) (out : list Z) : list Z :=
  match es with
  | [] => out
  | (_, b) :: es' =>
      let p := len + (rg_off b - lm) in
      placed (chunk_end b) p es'
        (take (Z.to_nat p) out ++ rg_data b ++ drop (Z.to_nat (p + ♯(rg_data b))) out)
  end.

Section Facts.
Context {P : Profile}.

Lemma recv_write_Ok out o r :
  0 <= o → o + ♯out < u64_bound →
  write out o r = Ok tt
    (set_rb_data (om_insert (o + ♯out) (from out o) (rb_data r))
      (match last (rb_data r) with
       | Some (k, _) => if k =? o then set_rb_max_recv_off o r else r
       | None => r
       end)).
Proof.
  intros Ho Hb. pose proof (from_fresh out o Ho Hb) as [Hw _]. unfold write.
  rewrite (bind_Ok _ _ _ _ _ (len_wf _ r Hw)).
  rewrite (bind_Ok _ _ _ _ _ (max_off_wf _ r Hw)).
  unfold chunk_end. cbn [rg_len rg_pos rg_off from]. arith_ok.
  replace (o + ♯out - (♯out - 0)) with o by lia.
  destruct (last (rb_data r)) as [[k b]|]; [destruct (k =? o)|];
    by rewrite (max_off_wf _ _ Hw).
Qed.

Lemma wf_insert out o r :
  0 <= o → o + ♯out < u64_bound → wf r →
  wf (set_rb_data (om_insert (o + ♯out) (from out o) (rb_data r)) r).
Proof.
  intros Ho Hb [Hs Hf]. split; simpl; [by apply om_sorted_insert|].
  destruct (from_fresh out o Ho Hb) as [Hw _]. by apply om_Forall_insert.
Qed.

(** One iteration: the chunk lies [g] bytes after the read position and fits. *)
Lemma emit_loop_step k b es cap len out r g :
  fresh b → g = rg_off b - rb_last_maxoff r → 0 <= g → 0 < rg_len b →
  0 <= rb_last_maxoff r → 0 <= len → g + rg_len b <= cap →
  len + cap = ♯out → ♯out < u64_bound →
  emit_loop ((k, b) :: es) cap len out r =
  emit_loop es (cap - g) (len + g)
    (take (Z.to_nat (len + g)) out ++ rg_data b ++ drop (Z.to_nat (len + g + ♯(rg_data b))) out)
    (set_rb_data es (set_rb_last_maxoff (chunk_end b) r)).
Proof.
  intros [Hw Hp0] Hgd Hg Hpos Hlm Hlen Hcap Hout Hbd.
  pose proof Hw as (Hst & Hpp & Hll & Ho0 & Hob).
  assert (He : chunk_end b = rb_last_maxoff r + g + rg_len b) by (unfold chunk_end; lia).
  cbn [emit_loop]. destruct (Z.ltb_spec 0 cap) as [_|]; [|lia]. cbn [negb].
  rewrite (bind_Ok _ _ _ _ _ (max_off_wf b r Hw)).
  rewrite (bind_Ok _ _ _ _ _ (len_wf b r Hw)). rewrite Hp0, Z.sub_0_r, He.
  rewrite (bind_Ok get _ _ r r eq_refl).
  assert (Hd : is_u64 (rb_last_maxoff r + g + rg_len b - rb_last_maxoff r))
    by (unfold is_u64, chunk_end in *; lia).
  unfold usub. rewrite (bind_Ok _ _ _ _ _ (checked_ok _ r Hd)).
  erewrite (bind_Ok _ _ r g r).
  2:{ replace (rb_last_maxoff r + g + rg_len b - rb_last_maxoff r) with (g + rg_len b) in * by lia.
      destruct (Z.eqb_spec (g + rg_len b) (rg_len b)); cbn [negb].
      - unfold mret, M_ret. f_equal. lia.
      - rewrite (bind_Ok _ _ _ _ _ (checked_ok _ r Hd)).
        rewrite checked_ok by (unfold is_u64 in *; lia). f_equal. lia. }
  destruct (Z.ltb_spec g cap) as [_|]; [|lia].
  unfold uadd. msimpl. rewrite !checked_ok by (unfold is_u64, chunk_end in *; zlia).
  rewrite (len_wf b _ Hw), Hp0, Z.sub_0_r.
  replace (Z.min (rg_len b) (cap - g)) with (rg_len b) by lia.
  rewrite checked_ok by (unfold is_u64; zlia).
  rewrite slice_prefix by lia. rewrite take_ge by (unfold zlen in *; lia).
  rewrite blit_Some by (rewrite <-?Hll; lia).
  rewrite checked_ok by (unfold is_u64, chunk_end in *; lia).
  rewrite (len_wf b _ Hw), Hp0, Z.sub_0_r. rewrite Z.ltb_irrefl. done.
Qed.

(** Draining: with room for the whole span, every chunk is consumed. *)
Lemma emit_loop_drains es r cap len out :
  entries_ok es → ordered_from (rb_last_maxoff r) es →
  0 <= rb_last_maxoff r → 0 <= len →
  span_end (rb_last_maxoff r) es - rb_last_maxoff r <= cap →
  len + cap = ♯out → ♯out < u64_bound → rb_data r = es →
  emit_loop es cap len out r =
    Ok (len + (span_end (rb_last_maxoff r) es - rb_last_maxoff r - payload es),
        placed (rb_last_maxoff r) len es out)
       (set_rb_data [] (set_rb_last_maxoff (span_end (rb_last_maxoff r) es) r)).
Proof.
  intros Hes. revert r cap len out.
  induction Hes as [|[k b] es [Hfr Hpos] Hes IH]; intros r cap len out Hord Hlm Hlen Hcap Hout Hbd Hr.
  - simpl. unfold mret, M_ret. destruct r. simpl in *. subst.
    unfold set_rb_data, set_rb_last_maxoff. simpl. do 3 f_equal. lia.
  - simpl in Hord, Hcap, Hfr, Hpos. destruct Hord as [Hb Hord].
    pose proof (span_end_ge _ _ Hes Hord) as Hse.
    pose proof Hfr as [(Hst & Hpp & Hll & Ho0 & Hob) _].
    assert (Hce : chunk_end b = rg_off b + rg_len b) by done.
    rewrite (emit_loop_step _ _ _ _ _ _ _ _ Hfr eq_refl) by (done || lia).
    cbn [payload span_end placed]. set (g := rg_off b - rb_last_maxoff r).
    set (out2 := take _ out ++ _).
    assert (Ho2 : ♯out2 = ♯out) by (unfold out2, g; zlia).
    rewrite IH; simpl; try done; try (unfold g; lia).
    do 2 f_equal. unfold g. lia.
Qed.

Lemma emit_drains es r out :
  entries_ok es → ordered_from (rb_last_maxoff r) es → 0 <= rb_last_maxoff r → es ≠ [] →
  span_end (rb_last_maxoff r) es - rb_last_maxoff r <= ♯out → ♯out < u64_bound →
  rb_data r = es →
  emit out r =
    Ok (span_end (rb_last_maxoff r) es - rb_last_maxoff r - payload es,
        placed (rb_last_maxoff r) 0 es out)
       (set_rb_data [] (set_rb_last_maxoff (span_end (rb_last_maxoff r) es) r)).
Proof.
  intros Hes Ho Hlm Hne Hsp Hb Hr. unfold emit, ready. rewrite get_bind, Hr.
  destruct es as [|e es]; [done|]. cbn [negb].
  rewrite emit_loop_drains by (done || lia). do 2 f_equal; lia.
Qed.

(** A chunk that ends before the read position: the gap computation
    underflows. *)
Lemma emit_stale k b es r out :
  overflow_checks = true → rb_data r = (k, b) :: es → RangeBuf.wf b →
  chunk_end b < rb_last_maxoff r → 0 < ♯out →
  emit out r = Panicked ArithmeticOverflow.
Proof.
  intros Ho Hr Hw Hlt Hout. unfold emit, ready. rewrite get_bind, Hr. cbn [negb emit_loop].
  destruct (Z.ltb_spec 0 (♯out)); [|lia]. cbn [negb].
  rewrite (bind_Ok _ _ _ _ _ (max_off_wf b r Hw)), (bind_Ok _ _ _ _ _ (len_wf b r Hw)), get_bind.
  unfold usub. rewrite (bind_Panicked _ _ _ ArithmeticOverflow); [done|].
  apply checked_overflow; [|done]. unfold is_u64. lia.
Qed.

(** ** Properties *)

(** Storing a packet's payload never fails, keeps
    the buffer sorted with every chunk under its end offset, stores exactly
    the payload, and leaves the chunks filed under other ends alone. *)
Theorem recv_write_files_chunk out o r :
  0 <= o → o + ♯out < u64_bound → wf r →
  ∃ r', write out o r = Ok tt r' ∧ wf r' ∧ rb_last_maxoff r' = rb_last_maxoff r ∧
    ∀ k, om_get k (rb_data r') =
         if k =? o + ♯out then Some (from out o) else om_get k (rb_data r).
Proof.
  intros Ho Hb Hw. rewrite recv_write_Ok by done. eexists. split; [done|].
  assert (Hw' : ∀ r1, rb_data r1 = rb_data r →
    wf (set_rb_data (om_insert (o + ♯out) (from out o) (rb_data r)) r1)).
  { intros r1 Hr1. apply (wf_insert out o r Ho Hb Hw). }
  destruct (last (rb_data r)) as [[k b]|]; [destruct (k =? o)|];
    (split; [by apply Hw'|]; split; [done|]; intros k'; apply om_get_insert, Hw).
Qed.

(** C27: emit_drains_window.  When the buffer holds unread chunks that do not
    overlap and lie ahead of the read position, with room for everything up to
    the last chunk, [emit] empties the buffer and moves the read position to the end of the
    last chunk, skipping the gaps; the output is the one [placed] describes,
    and the count returned is the number of gap bytes, not of payload bytes. *)
Theorem emit_drains_window es r out :
  entries_ok es → ordered_from (rb_last_maxoff r) es → 0 <= rb_last_maxoff r → es ≠ [] →
  span_end (rb_last_maxoff r) es - rb_last_maxoff r <= ♯out → ♯out < u64_bound →
  rb_data r = es →
  ∃ n r', emit out r = Ok (n, placed (rb_last_maxoff r) 0 es out) r' ∧
    rb_data r' = [] ∧ rb_last_maxoff r' = span_end (rb_last_maxoff r) es ∧
    n + payload es = span_end (rb_last_maxoff r) es - rb_last_maxoff r.
Proof.
  intros. rewrite (emit_drains es) by done. eexists _, _.
  split; [done|]. repeat split. lia.
Qed.

(** Two contiguous chunks of the same length
    waiting at the read position are both taken out of the buffer, but the
    second is copied over the first and the count returned is 0: neither the
    output position nor the count is advanced by the bytes copied. *)
Theorem emit_overwrites_contiguous x y out lm r :
  0 <= lm → 0 < ♯x → ♯y = ♯x → lm + ♯x + ♯y < u64_bound → ♯x + ♯y <= ♯out →
  ♯out < u64_bound → rb_last_maxoff r = lm →
  rb_data r = [(lm + ♯x, from x lm); (lm + ♯x + ♯y, from y (lm + ♯x))] →
  ∃ r', emit out r = Ok (0, y ++ drop (length y) out) r' ∧ rb_data r' = [] ∧
        rb_last_maxoff r' = lm + ♯x + ♯y.
Proof.
  intros Hlm Hx Hy Hb Hout Hob Hl Hr.
  assert (Hyl : length x = length y) by (unfold zlen in *; lia).
  assert (Hes : entries_ok [(lm + ♯x, from x lm); (lm + ♯x + ♯y, from y (lm + ♯x))]).
  { apply Forall_cons; split; [|apply Forall_singleton]; (split; [apply from_fresh|]; cbn; lia). }
  exists (set_rb_data [] (set_rb_last_maxoff (lm + ♯x + ♯y) r)). split; [|done].
  rewrite (emit_drains _ r out Hes); try done; rewrite ?Hl;
    cbn [ordered_from span_end]; unfold chunk_end; cbn [rg_off rg_len from]; try lia.
  cbn [span_end payload placed]. unfold chunk_end. cbn [rg_off rg_len rg_data from].
  replace (lm + ♯x + ♯y - lm - (♯x + (♯y + 0))) with 0 by lia.
  replace (0 + (lm - lm)) with 0 by lia. replace (0 + (lm + ♯x - (lm + ♯x))) with 0 by lia.
  rewrite !Z.add_0_l, Hy. unfold zlen. rewrite !Nat2Z.id. change (Z.to_nat 0) with 0%nat.
  rewrite !take_0, !app_nil_l, drop_app_length, Hyl. done.
Qed.

(** A packet that is retransmitted after the
    application has read past its gap makes the next read panic when overflow
    checks are on: [y] arrives at offset [♯x], is read (skipping the gap), [x]
    arrives at offset 0, and the second read panics. *)
Theorem late_retransmission_panics x y out :
  overflow_checks = true → 0 < ♯x → 0 < ♯y → ♯x + ♯y <= ♯out → ♯out < u64_bound →
  (write y (♯x);; emit out;; write x 0;; emit out) new = Panicked ArithmeticOverflow.
Proof.
  intros Ho Hx Hy Hout Hb.
  rewrite (bind_Ok _ _ _ _ _ (recv_write_Ok y (♯x) new ltac:(lia) ltac:(lia))).
  set (es := [(♯x + ♯y, from y (♯x))]).
  assert (Hes : entries_ok es).
  { apply Forall_singleton. split; [apply from_fresh|]; cbn; lia. }
  change (om_insert _ _ (rb_data new)) with es.
  erewrite bind_Ok; [|apply (emit_drains es); try done; cbn; unfold chunk_end; cbn; lia].
  cbn [last rb_data new]. set (r1 := set_rb_data [] _).
  rewrite (bind_Ok _ _ _ _ _ (recv_write_Ok x 0 r1 ltac:(lia) ltac:(lia))).
  destruct (from_fresh x 0 ltac:(lia) ltac:(lia)) as [Hw _].
  apply (emit_stale (0 + ♯x) (from x 0) []); try done; [|lia].
  cbn. unfold chunk_end. cbn. lia.
Qed.
End Facts.

#[local] Existing Instance debug_x86.

Lemma recv_write_files_chunk_witness :
  ∃ r', write [5; 6] 1024 new = Ok tt r' ∧ wf r' ∧ rb_last_maxoff r' = 0 ∧
    ∀ k, om_get k (rb_data r') = if k =? 1026 then Some (from [5; 6] 1024) else None.
Proof.
  apply (recv_write_files_chunk [5; 6] 1024 new).
  - lia.
  - vm_compute. reflexivity.
  - split; constructor.
Defined.

(** A gap of two bytes, a chunk, a gap of one byte, a chunk. *)
Definition sample_entries : omap RangeBuf := [(4, from [1; 2] 2); (6, from [3] 5)].

Lemma emit_drains_window_witness :
  ∃ n r', emit (replicate 8 0) (mkRecvBuf sample_entries 0 0 0 0)
    = Ok (n, placed 0 0 sample_entries (replicate 8 0)) r' ∧
    rb_data r' = [] ∧ rb_last_maxoff r' = 6 ∧ n + 3 = 6 - 0.
Proof.
  apply (emit_drains_window sample_entries (mkRecvBuf sample_entries 0 0 0 0) (replicate 8 0)).
  - repeat constructor; vm_compute; congruence.
  - vm_compute. repeat split; congruence.
  - vm_compute. congruence.
  - discriminate.
  - vm_compute. congruence.
  - vm_compute. reflexivity.
  - reflexivity.
Defined.

Lemma emit_overwrites_contiguous_witness :
  ∃ r', emit [0; 0; 0; 0; 0]
          (mkRecvBuf [(2, from [1; 2] 0); (4, from [3; 4] 2)] 0 0 0 0) =
        Ok (0, [3; 4; 0; 0; 0]) r' ∧ rb_data r' = [] ∧ rb_last_maxoff r' = 4.
Proof.
  apply (emit_overwrites_contiguous [1; 2] [3; 4] [0; 0; 0; 0; 0] 0
           (mkRecvBuf [(2, from [1; 2] 0); (4, from [3; 4] 2)] 0 0 0 0));
    vm_compute; congruence.
Defined.

Lemma late_retransmission_panics_witness :
  (write [3; 4] 2;; emit [0; 0; 0; 0];; write [1; 2] 0;; emit [0; 0; 0; 0]) new =
    Panicked ArithmeticOverflow.
Proof.
  apply (late_retransmission_panics [1; 2] [3; 4] [0; 0; 0; 0]); vm_compute; congruence.
Defined.
