(* ===== verification/RecvQueue.v ===== *)
(** * RecvQueue: reading the receive buffer in several calls

    [RecvBuf] shows what one read with room for everything does.  Here the
    application reads any number of times, into buffers of any size, while
    chunks arrive in order ([queue]): no read panics, and none reports a byte.
    Without overflow checks no read panics, whatever arrived ([emit_wraps]).
    Two effects of reading in several calls are made precise: the rest of a
    chunk that was read in part ([partial_read_repeats_bytes]), and a chunk that
    arrives behind the read position ([late_retransmission_stops_reading]). *)
From S2P Require Import Prelude Effects OMap RangeBuf RecvBuf.

(** [es] holds the stream from [lm] to [m] without a gap; its first chunk may
    have been read in part. *)
Fixpoint queue (lm m : Z) (es : omap RangeBuf) : Prop :=
  match es with
  | [] => lm = m
  | (k, b) :: es' =>
      RangeBuf.wf b ∧ rg_pos b < rg_len b ∧ k = chunk_end b ∧ rg_off b + rg_pos b = lm ∧
      queue (chunk_end b) m es'
  end.

(** The unread part of the stream ends at [m]. *)
Definition queued (m : Z) (r : RecvBuf) : Prop :=
  0 <= rb_last_maxoff r ∧ m < u64_bound ∧ queue (rb_last_maxoff r) m (rb_data r).

Lemma queue_le lm m es : queue lm m es → lm <= m.
Proof.
  revert lm. induction es as [|[k b] es IH]; intros lm; cbn; [lia|].
  intros (_ & Hp & _ & <- & Hq). specialize (IH _ Hq). unfold chunk_end in *. lia.
Qed.

Lemma queue_entry lm m es k b :
  queue lm m es → (k, b) ∈ es → RangeBuf.wf b ∧ k = chunk_end b ∧ chunk_end b <= m ∧ lm <= rg_off b + rg_pos b.
Proof.
  revert lm. induction es as [|[k' b'] es IH]; intros lm; cbn; [by intros _ ?%elem_of_nil|].
  intros (Hw & Hp & Hk & <- & Hq) [[= -> ->]|Hin]%elem_of_cons.
  - pose proof (queue_le _ _ _ Hq). split_and!; done.
  - destruct (IH _ Hq Hin) as (? & ? & ? & ?). unfold chunk_end in *. split_and!; try done. lia.
Qed.

(** Some chunk holds every unread byte. *)
Lemma queue_at lm m es p :
  queue lm m es → lm <= p < m → ∃ k b, (k, b) ∈ es ∧ rg_off b <= p < chunk_end b.
Proof.
  revert lm. induction es as [|[k b] es IH]; intros lm; cbn; [lia|].
  intros (Hw & Hp & Hk & <- & Hq) Hr. destruct (decide (p < chunk_end b)) as [Hlt|Hge].
  - exists k, b. split; [by left|]. destruct Hw as (_ & ? & _). lia.
  - destruct (IH _ Hq) as (k' & b' & Hin & ?); [lia|]. exists k', b'. split; [by right|done].
Qed.

Lemma queue_app lm m es b :
  queue lm m es → fresh b → 0 < rg_len b → rg_off b = m → queue lm (chunk_end b) (es ++ [(chunk_end b, b)]).
Proof.
  intros Hq [Hw Hp] Hl Ho. revert lm Hq. induction es as [|[k b'] es IH]; intros lm; cbn.
  - intros <-. split_and!; try done; lia.
  - intros (? & ? & ? & ? & ?). split_and!; try done. by apply IH.
Qed.

Section Facts.
Context {P : Profile}.

(** A chunk that arrives in order joins the queue. *)
Lemma write_queued data m r :
  queued m r → 0 < ♯data → m + ♯data < u64_bound →
  ∃ r', write data m r = Ok tt r' ∧ queued (m + ♯data) r'.
Proof.
  intros (Hlm & Hm & Hq) Hd Hb. pose proof (queue_le _ _ _ Hq) as Hle.
  rewrite recv_write_Ok by lia. eexists. split; [done|].
  rewrite om_insert_last.
  2:{ apply Forall_forall. intros k (e & -> & He)%list_elem_of_fmap. destruct e as [k b].
      destruct (queue_entry _ _ _ _ _ Hq He) as (_ & ? & ? & _). cbn. lia. }
  assert (Hf : fresh (from data m)) by (apply from_fresh; lia).
  pose proof (queue_app _ _ _ (from data m) Hq Hf Hd eq_refl) as Hq'.
  unfold queued. destruct (last (rb_data r)) as [[k b]|]; [destruct (k =? m)|]; cbn; done.
Qed.

(** The chunk [b] after [n] more of its bytes were read. *)
Definition read_on (n : Z) (b : RangeBuf) : RangeBuf :=
  mkRangeBuf (rg_data b) (rg_start b) (rg_pos b + n) (rg_len b) (rg_off b).

(** One round of [emit] on a queue: nothing is skipped, and the first bytes of
    the chunk, whatever was read of it before, are copied to the front of the
    output. *)
Lemma emit_loop_queue_step k b es out r :
  RangeBuf.wf b → rg_pos b < rg_len b → rg_off b + rg_pos b = rb_last_maxoff r → 0 < ♯out < u64_bound →
  let n := Z.min (rg_len b - rg_pos b) (♯out) in
  let out1 := take (Z.to_nat n) (rg_data b) ++ drop (Z.to_nat n) out in
  let r1 := set_rb_last_maxoff (rb_last_maxoff r + n) r in
  emit_loop ((k, b) :: es) (♯out) 0 out r =
    if n <? rg_len b - rg_pos b then Ok (0, out1) (set_rb_data ((k, read_on n b) :: es) r1)
    else emit_loop es (♯out) 0 out1 (set_rb_data es r1).
Proof.
  intros Hw Hp Hoff Ho n out1 r1. pose proof Hw as (Hst & Hpp & Hll & Ho0 & Hob). cbn [emit_loop].
  destruct (Z.ltb_spec 0 (♯out)) as [_|]; [|lia]. cbn [negb].
  rewrite (bind_Ok _ _ _ _ _ (max_off_wf b r Hw)), (bind_Ok _ _ _ _ _ (len_wf b r Hw)), get_bind.
  unfold usub. replace (chunk_end b - rb_last_maxoff r) with (rg_len b - rg_pos b) by (unfold chunk_end; lia).
  rewrite checked_bind by (unfold is_u64; lia). rewrite Z.eqb_refl. cbn [negb].
  rewrite ret_bind. destruct (Z.ltb_spec 0 (♯out)) as [_|]; [|lia].
  rewrite checked_bind by (unfold is_u64; lia). unfold uadd.
  do 2 rewrite checked_bind by (unfold is_u64; lia). rewrite modify_bind.
  rewrite (bind_Ok _ _ _ _ _ (len_wf b _ Hw)), !Z.sub_0_r, !Z.add_0_l, Z.add_0_r. fold n.
  assert (Hn : 0 < n <= rg_len b - rg_pos b) by (unfold n; lia).
  rewrite checked_bind by (unfold is_u64; lia). rewrite slice_prefix, some_bind by (rewrite <-?Hll; lia).
  rewrite blit_Some by zlia. rewrite some_bind.
  assert (Eo : take (Z.to_nat 0) out ++ take (Z.to_nat n) (rg_data b) ++
    drop (Z.to_nat (0 + ♯(take (Z.to_nat n) (rg_data b)))) out = out1).
  { unfold out1. change (Z.to_nat 0) with 0%nat. rewrite take_0. cbn [app]. do 2 f_equal. zlia. }
  rewrite Eo. rewrite checked_bind by (unfold is_u64; lia). rewrite modify_bind, (bind_Ok _ _ _ _ _ (len_wf b _ Hw)).
  destruct (n <? _); [|by rewrite modify_bind].
  assert (Ec : consume n b = Ok tt (read_on n b)).
  { unfold consume, uadd. by rewrite get_bind, checked_bind by (unfold is_u64; lia). }
  erewrite bind_Ok by (unfold local; by rewrite Ec). done.
Qed.

Lemma emit_loop_queue m es out r :
  rb_data r = es → queued m r → 0 < ♯out < u64_bound →
  ∃ out' r', emit_loop es (♯out) 0 out r = Ok (0, out') r' ∧ queued m r'.
Proof.
  intros Hr (Hlm & Hm & Hq) Ho. rewrite Hr in Hq.
  revert out r Hr Hlm Hq Ho. induction es as [|[k b] es IH]; intros out r Hr Hlm Hq Ho.
  { exists out, r. split; [done|]. split; [done|]. by rewrite Hr. }
  cbn in Hq. destruct Hq as (Hw & Hp & Hk & Hoff & Hq). pose proof (queue_le _ _ _ Hq) as Hle.
  pose proof Hw as (Hst & Hpp & Hll & Ho0 & Hob).
  rewrite (emit_loop_queue_step k b es out r Hw Hp Hoff Ho).
  set (n := Z.min (rg_len b - rg_pos b) (♯out)). assert (Hn : 0 < n <= rg_len b - rg_pos b) by (unfold n; lia).
  set (out1 := _ ++ _). assert (Ho1 : ♯out1 = ♯out) by (unfold out1; zlia).
  destruct (Z.ltb_spec n (rg_len b - rg_pos b)) as [Hlt|Hge].
  - eexists _, _. split; [reflexivity|]. split; [cbn; lia|]. split; [done|]. cbn. unfold chunk_end in *.
    unfold RangeBuf.wf in *. cbn. split_and!; try done; lia.
  - rewrite <-Ho1. apply IH; [done|cbn; lia| |lia].
    cbn. replace (rb_last_maxoff r + n) with (chunk_end b) by (unfold chunk_end; lia). done.
Qed.

(** Whatever the size of the buffer, a read in order does not panic, and
    reports 0 bytes or [Done]. *)
Lemma emit_queued m out r :
  queued m r → ♯out < u64_bound →
  match emit out r with
  | Ok (n, _) r' => n = 0 ∧ queued m r'
  | Err e r' => e = Done ∧ r' = r
  | Panicked _ => False
  end.
Proof.
  intros Hq Ho. unfold emit, ready. rewrite get_bind. destruct (rb_data r) as [|e es] eqn:Er; [done|]. cbn [negb].
  destruct (Z.eqb_spec (♯out) 0) as [H0|H0].
  { cbn [emit_loop]. destruct e as [k b]. rewrite H0. cbn. done. }
  pose proof (zlen_nonneg out). destruct (emit_loop_queue m (e :: es) out r Er Hq ltac:(lia)) as (out' & r' & -> & ?). done.
Qed.

(** ** Any buffer, without overflow checks *)

(** The read position of every chunk is within its data; the offsets may be
    anything. *)
Definition readable (r : RecvBuf) : Prop :=
  Forall (λ e, 0 <= rg_pos e.2 <= rg_len e.2 ∧ rg_len e.2 = ♯(rg_data e.2)) (rb_data r).

Lemma wrap64_le z : 0 <= wrap64 z ∧ (0 <= z → wrap64 z <= z).
Proof.
  unfold wrap64. split; [by apply Z.mod_pos_bound|]. intros Hz. by apply Z.mod_le.
Qed.

Lemma wp_wraps {S} z (s : S) (Q : Z → S → Prop) QE :
  overflow_checks = false → (∀ v, 0 <= v → (0 <= z → v <= z) → Q v s) → wp (checked z) s Q QE.
Proof. intros Ho Hk. unfold wp. rewrite (checked_wraps z s Ho). apply Hk; apply wrap64_le. Qed.

(** One step of a computation that wraps around. *)
Ltac wraps_step :=
  lazymatch goal with
  | |- wp (mbind _ _) _ _ _ => apply wp_bind
  | |- wp (checked _) _ _ _ => apply wp_wraps; [done|intros ? ? ?]
  | |- wp (mret _) _ _ _ => unfold wp at 1; cbn [mret M_ret]
  | |- wp get _ _ _ => unfold wp at 1; cbn [get]
  | |- wp (modify _) _ _ _ => unfold wp at 1; cbn [modify]
  | |- wp (or_panic _ (Some _)) _ _ _ => unfold wp at 1; cbn [or_panic mret M_ret]
  end.
Ltac wraps_steps := repeat (wraps_step; cbv beta).

Lemma write_readable data o r E : readable r → wlp (write data o) r (λ _ r', readable r') E.
Proof.
  intros Hr. unfold write, max_off, RangeBuf.off, RangeBuf.len. wlp_steps.
  assert (Hf : ∀ k r', readable r' → readable (set_rb_data (om_insert k (from data o) (rb_data r')) r')).
  { intros k r' Hr'. apply om_Forall_insert; [|done]. cbn. pose proof (zlen_nonneg data). lia. }
  repeat case_match; wlp_steps; by apply Hf.
Qed.

Lemma emit_loop_wraps es cap n out r :
  overflow_checks = false → Forall (λ e, 0 <= rg_pos e.2 <= rg_len e.2 ∧ rg_len e.2 = ♯(rg_data e.2)) es →
  readable r → 0 <= cap → 0 <= n → n + cap <= ♯out →
  wp (emit_loop es cap n out) r (λ _ r', readable r') (λ _ _, False).
Proof.
  intros Ho Hes. revert cap n out r. induction Hes as [|[k b] es [Hb Hl] Hes IH]; intros cap n out r Hr Hcap Hn Hout;
    cbn [emit_loop]; [done|]. cbn in Hb, Hl.
  destruct (negb (0 <? cap)); [done|]. unfold max_off, RangeBuf.off, RangeBuf.len, usub, uadd. wraps_steps.
  apply (wp_mono _ _ (λ z r', 0 <= z ∧ r' = r) _ (λ _ _, False)); [|clear -Ho IH Hes Hb Hl Hr Hcap Hn Hout|done].
  { case_match; wraps_steps; done. }
  intros z ? [Hz ->]. destruct (Z.ltb_spec z cap) as [Hzc|Hzc].
  2:{ case_match; wraps_steps; done. }
  wraps_steps. match goal with |- context [slice _ 0 ?x] => set (bn := x) in * end.
  rewrite slice_prefix by lia. wraps_steps. rewrite blit_Some by zlia. wraps_steps. case_match.
  - unfold local, consume, wp, uadd. rewrite get_bind, (bind_Ok _ _ _ _ _ (checked_wraps _ _ Ho)). cbn.
    pose proof (wrap64_le (rg_pos b + bn)). constructor; [cbn; lia|done].
  - wraps_steps. apply IH; [done|lia|lia|zlia].
Qed.

(** No read panics, whatever is in the buffer. *)
Lemma emit_wraps out r :
  overflow_checks = false → readable r → wp (emit out) r (λ _ r', readable r') (λ _ r', readable r').
Proof.
  intros Ho Hr. unfold emit, wp, ready. rewrite get_bind. destruct (negb _) eqn:E; [done|].
  pose proof (zlen_nonneg out) as H0.
  pose proof (emit_loop_wraps (rb_data r) (♯out) 0 out r Ho Hr Hr H0 ltac:(lia) ltac:(lia)) as H. unfold wp in H.
  by destruct (emit_loop _ _ _ _ r).
Qed.

(** ** Properties *)

Lemma emit_single b out r :
  rb_data r = [(chunk_end b, b)] → RangeBuf.wf b → rg_pos b < rg_len b →
  rg_off b + rg_pos b = rb_last_maxoff r → 0 < ♯out < u64_bound →
  let n := Z.min (rg_len b - rg_pos b) (♯out) in
  emit out r = Ok (0, take (Z.to_nat n) (rg_data b) ++ drop (Z.to_nat n) out)
    (set_rb_data (if n <? rg_len b - rg_pos b then [(chunk_end b, read_on n b)] else [])
      (set_rb_last_maxoff (rb_last_maxoff r + n) r)).
Proof.
  intros Hr Hw Hp Hoff Ho n. unfold emit, ready. rewrite get_bind, Hr. cbn [negb].
  rewrite (emit_loop_queue_step (chunk_end b) b [] out r Hw Hp Hoff Ho). fold n. by destruct (n <? _).
Qed.

(** C30: partial_read_repeats_bytes.  A chunk that does not fit into the buffer
    of the application is read in two calls.  Both report 0 bytes, and the
    second one delivers the first bytes of the chunk again instead of its rest:
    [emit] copies from the start of [data], whatever [pos] says. *)
Theorem partial_read_repeats_bytes x out1 out2 :
  0 < ♯out1 < ♯x → ♯x < u64_bound → ♯x - ♯out1 <= ♯out2 < u64_bound →
  let left := (length x - length out1)%nat in
  ∃ r1 r2 r3, write x 0 new = Ok tt r1 ∧ emit out1 r1 = Ok (0, take (length out1) x) r2 ∧
    emit out2 r2 = Ok (0, take left x ++ drop left out2) r3 ∧ rb_data r3 = [].
Proof.
  intros H1 Hx H2 left. pose proof (from_fresh x 0 ltac:(lia) ltac:(lia)) as [Hw _].
  eexists _, _, _. split; [apply recv_write_Ok; lia|]. cbn [rb_data new om_insert last].
  set (r1 := set_rb_data _ _). pose proof (emit_single (from x 0) out1 r1 eq_refl Hw) as E1.
  cbn [from rg_len rg_pos rg_off rg_data] in E1. rewrite Z.sub_0_r, Z.min_r in E1 by lia.
  destruct (Z.ltb_spec (♯out1) (♯x)) as [_|]; [|lia]. rewrite E1 by (done || lia).
  split; [unfold zlen; by rewrite Nat2Z.id, drop_all, app_nil_r|].
  set (b := read_on (♯out1) (from x 0)). set (r2 := set_rb_data _ _).
  assert (Hwb : RangeBuf.wf b) by (unfold b, RangeBuf.wf in *; cbn in Hw |- *; split_and!; (done || lia)).
  pose proof (emit_single b out2 r2 eq_refl Hwb) as E2. cbn [b read_on from rg_len rg_pos rg_off rg_data] in E2.
  rewrite Z.add_0_l, Z.min_l, Z.ltb_irrefl in E2 by lia. rewrite E2 by (lia || done).
  replace (Z.to_nat (♯x - ♯out1)) with left by (unfold left, zlen; lia). split; [reflexivity|done].
Qed.

(** [n] reads into the same buffer, and the counts they report. *)
Fixpoint read_again (n : nat) (out : list Z) : M RecvBuf (list Z) :=
  match n with
  | 0%nat => mret []
  | S n' => g ← emit out; l ← read_again n' out; mret (g.1 :: l)
  end.

(** Without overflow checks, a chunk behind the read position blocks the
    buffer: the gap wraps around to a number larger than any buffer. *)
Lemma emit_stale_wraps k b es r out :
  overflow_checks = false → rb_data r = (k, b) :: es → fresh b →
  chunk_end b < rb_last_maxoff r → rb_last_maxoff r + ♯out + rg_len b < u64_bound → 0 < ♯out →
  emit out r = Ok (0, out) (set_rb_last_maxoff (rb_last_maxoff r + ♯out) r).
Proof.
  intros Ho Hr [Hw Hp0] Hlt Hb Hout. pose proof Hw as (Hst & Hpp & Hll & Ho0 & Hob).
  unfold emit, ready. rewrite get_bind, Hr. cbn [negb emit_loop].
  destruct (Z.ltb_spec 0 (♯out)); [|lia]. cbn [negb].
  rewrite (bind_Ok _ _ _ _ _ (max_off_wf b r Hw)), (bind_Ok _ _ _ _ _ (len_wf b r Hw)), get_bind.
  rewrite Hp0, Z.sub_0_r. set (d := chunk_end b - rb_last_maxoff r).
  assert (Hd : wrap64 d = u64_bound + d).
  { unfold wrap64. rewrite <-(Z.mod_add d 1), Z.mod_small by (unfold d, chunk_end, u64_bound in *; lia). lia. }
  unfold usub. fold d. rewrite (bind_Ok _ _ _ _ _ (checked_wraps d r Ho)), Hd.
  destruct (Z.eqb_spec (u64_bound + d) (rg_len b)) as [He|_]; [unfold d, chunk_end in *; lia|]. cbn [negb].
  erewrite (bind_Ok _ _ r (u64_bound + d - rg_len b)).
  2:{ rewrite (bind_Ok _ _ _ _ _ (checked_wraps d r Ho)), Hd. apply checked_ok.
      unfold is_u64, d, chunk_end in *. lia. }
  destruct (Z.ltb_spec (u64_bound + d - rg_len b) (♯out)) as [|_]; [unfold d, chunk_end in *; lia|].
  destruct (Z.eqb_spec (u64_bound + d - rg_len b) (♯out)) as [|_]; [unfold d, chunk_end in *; lia|].
  unfold uadd. rewrite checked_bind by (unfold is_u64, chunk_end in *; lia). by rewrite modify_bind.
Qed.

Lemma read_again_stale n k b es r out :
  overflow_checks = false → rb_data r = (k, b) :: es → fresh b →
  chunk_end b < rb_last_maxoff r → rb_last_maxoff r + Z.of_nat n * ♯out + rg_len b < u64_bound → 0 < ♯out →
  ∃ r', read_again n out r = Ok (replicate n 0) r' ∧ rb_data r' = rb_data r.
Proof.
  intros Ho. revert r. induction n as [|n IH]; intros r Hr Hf Hlt Hb Hout; cbn [read_again replicate]; [by exists r|].
  rewrite (bind_Ok _ _ _ _ _ (emit_stale_wraps k b es r out Ho Hr Hf Hlt ltac:(nia) Hout)).
  destruct (IH (set_rb_last_maxoff (rb_last_maxoff r + ♯out) r)) as (r' & E & Hr'); try done; [cbn; lia|cbn; lia|].
  exists r'. by rewrite (bind_Ok _ _ _ _ _ E).
Qed.

(** C31: late_retransmission_stops_reading.  A packet that is retransmitted
    after the application has read past its gap: [y] arrives at offset [♯x], is
    read (skipping the gap), and [x] arrives at offset 0.  With overflow checks
    the next read panics.  Without, every further read returns 0 bytes and
    takes nothing out of the buffer: [x] and the chunk [z] that arrives behind
    it stay there, however often the application reads into its buffer. *)
Theorem late_retransmission_stops_reading x y z out n :
  0 < ♯x → 0 < ♯y → 0 < ♯z → ♯x + ♯y + ♯z < u64_bound → ♯x + ♯y <= ♯out → (0 < n)%nat →
  2 * ♯x + ♯y + Z.of_nat n * ♯out < u64_bound →
  let run := write y (♯x);; emit out;; write x 0;; write z (♯x + ♯y);; read_again n out in
  if overflow_checks then run new = Panicked ArithmeticOverflow
  else ∃ r, run new = Ok (replicate n 0) r ∧
    rb_data r = [(♯x, from x 0); (♯x + ♯y + ♯z, from z (♯x + ♯y))].
Proof.
  intros Hx Hy Hz Hb Hout Hn Hnb run.
  assert (Hob : ♯out < u64_bound) by nia.
  set (r3 := set_rb_data [(♯x, from x 0); (♯x + ♯y + ♯z, from z (♯x + ♯y))]
               (set_rb_last_maxoff (♯x + ♯y) new)).
  assert (E : run new = read_again n out r3).
  { unfold run. rewrite (bind_Ok _ _ _ _ _ (recv_write_Ok y (♯x) new ltac:(lia) ltac:(lia))).
    set (es := [(♯x + ♯y, from y (♯x))]).
    assert (Hes : entries_ok es) by (apply Forall_singleton; split; [apply from_fresh; lia|cbn; lia]).
    change (om_insert _ _ (rb_data new)) with es.
    erewrite bind_Ok; [|apply (emit_drains es); try done; cbn; unfold chunk_end; cbn; lia].
    cbn [last rb_data new]. rewrite (bind_Ok _ _ _ _ _ (recv_write_Ok x 0 _ ltac:(lia) ltac:(lia))).
    rewrite (bind_Ok _ _ _ _ _ (recv_write_Ok z (♯x + ♯y) _ ltac:(lia) ltac:(lia))).
    f_equal. cbn [om_insert last rb_data set_rb_data]. rewrite Z.add_0_l.
    destruct (Z.ltb_spec (♯x + ♯y + ♯z) (♯x)); [lia|]. destruct (Z.eqb_spec (♯x + ♯y + ♯z) (♯x)); [lia|].
    destruct (Z.eqb_spec (♯x) (♯x + ♯y)); [lia|]. reflexivity. }
  destruct (from_fresh x 0 ltac:(lia) ltac:(lia)) as [Hw Hp]. rewrite E. clear E run. destruct overflow_checks eqn:Ho.
  - destruct n as [|n]; [lia|]. cbn [read_again]. apply bind_Panicked.
    apply (emit_stale (♯x) (from x 0) [(♯x + ♯y + ♯z, from z (♯x + ♯y))]); try done; [|lia]. unfold chunk_end. cbn. lia.
  - destruct (read_again_stale n (♯x) (from x 0) [(♯x + ♯y + ♯z, from z (♯x + ♯y))] r3 out) as (r' & Er & Hr'); try done.
    + unfold chunk_end. cbn. lia.
    + cbn [r3 rb_last_maxoff set_rb_data set_rb_last_maxoff from rg_len]. lia.
    + lia.
    + by exists r'.
Qed.
End Facts.

(** ** Witnesses *)

Module QueueSamples.
#[local] Existing Instance release_x86.

(** The chunk 1, 2, 3 is delivered as 1, 2 and 1. *)
Lemma partial_read_repeats_bytes_witness :
  ∃ r1 r2 r3, write [1; 2; 3] 0 new = Ok tt r1 ∧ emit [0; 0] r1 = Ok (0, [1; 2]) r2 ∧
    emit [0; 0] r2 = Ok (0, [1; 0]) r3 ∧ rb_data r3 = [].
Proof. apply (partial_read_repeats_bytes [1; 2; 3] [0; 0] [0; 0]); vm_compute; repeat split; congruence. Defined.

(** Ten reads, and the buffer is as full as before. *)
Lemma late_retransmission_stops_reading_witness :
  ∃ r, (write [3; 4] 2;; emit [0; 0; 0; 0];; write [1; 2] 0;; write [5] 4;; read_again 10 [0; 0; 0; 0]) new =
    Ok (replicate 10 0) r ∧ rb_data r = [(2, from [1; 2] 0); (5, from [5] 4)].
Proof.
  refine (late_retransmission_stops_reading (P := release_x86) [1; 2] [3; 4] [5] [0; 0; 0; 0] 10 _ _ _ _ _ _ _);
    first [lia | vm_compute; congruence].
Defined.
End QueueSamples.
