(* ===== verification/SendBuf.v ===== *)
(** * SendBuf: the send-side stream buffer (src/src/lib.rs, [SendBuf])

    [write] drops the acknowledged chunks and cuts new data into chunks of at
    most 1024 bytes; [emit] hands out one chunk per call until the congestion
    window is used up; [ack_and_drop] marks a chunk for removal. *)
From S2P Require Import Prelude Effects OMap RangeBuf.

Definition SEND_BUFFER_SIZE : Z := 1024.

Record SendBuf := mkSendBuf {
  sb_data : list RangeBuf;
  sb_pos : Z;
  sb_off : Z;
  sb_len : Z;
  sb_max_data : Z;
  sb_error : option Z;
  sb_used_length : Z;
  sb_offset_recv : omap bool;
  sb_removed : Z;
  sb_sent : Z;
}.

Definition set_sb_data v b := mkSendBuf v (sb_pos b) (sb_off b) (sb_len b) (sb_max_data b)
  (sb_error b) (sb_used_length b) (sb_offset_recv b) (sb_removed b) (sb_sent b).
Definition set_sb_pos v b := mkSendBuf (sb_data b) v (sb_off b) (sb_len b) (sb_max_data b)
  (sb_error b) (sb_used_length b) (sb_offset_recv b) (sb_removed b) (sb_sent b).
Definition set_sb_off v b := mkSendBuf (sb_data b) (sb_pos b) v (sb_len b) (sb_max_data b)
  (sb_error b) (sb_used_length b) (sb_offset_recv b) (sb_removed b) (sb_sent b).
Definition set_sb_len v b := mkSendBuf (sb_data b) (sb_pos b) (sb_off b) v (sb_max_data b)
  (sb_error b) (sb_used_length b) (sb_offset_recv b) (sb_removed b) (sb_sent b).
Definition set_sb_max_data v b := mkSendBuf (sb_data b) (sb_pos b) (sb_off b) (sb_len b) v
  (sb_error b) (sb_used_length b) (sb_offset_recv b) (sb_removed b) (sb_sent b).
Definition set_sb_used_length v b := mkSendBuf (sb_data b) (sb_pos b) (sb_off b) (sb_len b)
  (sb_max_data b) (sb_error b) v (sb_offset_recv b) (sb_removed b) (sb_sent b).
Definition set_sb_offset_recv v b := mkSendBuf (sb_data b) (sb_pos b) (sb_off b) (sb_len b)
  (sb_max_data b) (sb_error b) (sb_used_length b) v (sb_removed b) (sb_sent b).
Definition set_sb_removed v b := mkSendBuf (sb_data b) (sb_pos b) (sb_off b) (sb_len b)
  (sb_max_data b) (sb_error b) (sb_used_length b) (sb_offset_recv b) v (sb_sent b).
Definition set_sb_sent v b := mkSendBuf (sb_data b) (sb_pos b) (sb_off b) (sb_len b)
  (sb_max_data b) (sb_error b) (sb_used_length b) (sb_offset_recv b) (sb_removed b) v.

Definition new (max_data : Z) : SendBuf := mkSendBuf [] 0 0 0 max_data None 0 [] 0 0.

(** [slice::chunks(n)]: pieces of [n] elements, the last one possibly shorter.
    [fuel] bounds the number of pieces; [length l] pieces are always enough. *)
Fixpoint chunks_fuel (fuel : nat) (n : nat) (l : list Z) : list (list Z) :=
  match fuel, l with
  | O, _ | _, [] => []
  | S fuel', _ => take n l :: chunks_fuel fuel' n (drop n l)
  end.
Definition chunks (n : Z) (l : list Z) : list (list Z) :=
  chunks_fuel (length l) (Z.to_nat n) l.

(** [retain] on a deque, driven by an iterator of flags: [None] when the
    iterator runs out first ([next().unwrap()]). *)
Fixpoint retain_flags {A} (flags : list bool) (l : list A) : option (list A) :=
  match l, flags with
  | [], _ => Some []
  | _ :: _, [] => None
  | x :: l', f :: fs => (λ r, if f then x :: r else r) <$> retain_flags fs l'
  end.

Definition is_empty (b : SendBuf) : bool :=
  match sb_data b with [] => true | _ => false end.
Definition ready (b : SendBuf) : bool := negb (is_empty b).
Definition off_back (b : SendBuf) : Z := sb_off b.
Definition max_off (b : SendBuf) : Z := sb_max_data b.
Definition is_stopped (b : SendBuf) : bool := bool_decide (is_Some (sb_error b)).
Definition update_max_data (max_data : Z) : M SendBuf unit := modify (set_sb_max_data max_data).

Section Ops.
Context {P : Profile}.

(** [len()] sums the sizes of the buffered chunks. *)
Fixpoint len_loop {S} (l : list RangeBuf) (length_ : Z) : M S Z :=
  match l with
  | [] => mret length_
  | item :: l' => n ← uadd length_ (♯(rg_data item)); len_loop l' n
  end.
Definition len {S} (b : SendBuf) : M S Z :=
  if is_empty b then mret 0 else len_loop (sb_data b) 0.

Definition cap : M SendBuf Z :=
  b ← get;
  match sb_error b with
  | Some e => fail (StreamStopped e)
  | None =>
      n ← len b;
      modify (set_sb_used_length n);;
      usub (sb_max_data b) n
  end.

Definition recv_and_drop (_max_ack : Z) : M SendBuf unit :=
  b ← get;
  if is_empty b then mret tt else
  let recv_drop := om_values (sb_offset_recv b) in
  data ← or_panic UnwrapFailed (retain_flags recv_drop (sb_data b));
  modify (set_sb_data data);;
  modify (λ b, set_sb_offset_recv (filter (λ e, e.2 = true) (sb_offset_recv b)) b).

Definition ack_and_drop (offset : Z) : M SendBuf unit :=
  modify (λ b, set_sb_offset_recv (om_alter (λ _, false) offset (sb_offset_recv b)) b).

(** Appending one chunk, as the three pushes of [write] do. *)
Definition push_chunk (chunk : list Z) (len_ : Z) : M SendBuf Z :=
  b ← get;
  let buf := from chunk (sb_off b) in
  modify (λ b, set_sb_offset_recv (om_insert (sb_off b) true (sb_offset_recv b)) b);;
  modify (λ b, set_sb_data (sb_data b ++ [buf]) b);;
  o ← uadd (sb_off b) (♯chunk);
  modify (set_sb_off o);;
  l ← uadd (sb_len b) (♯chunk);
  modify (set_sb_len l);;
  u ← uadd (sb_used_length b) (♯chunk);
  modify (set_sb_used_length u);;
  uadd len_ (♯chunk).

Fixpoint push_chunks (cs : list (list Z)) (len_ : Z) : M SendBuf Z :=
  match cs with
  | [] => mret len_
  | c :: cs' => n ← push_chunk c len_; push_chunks cs' n
  end.

(** The part of [write] that cuts the accepted [data] and appends it. *)
Definition write_pieces (data : list Z) (off_len : Z) : M SendBuf Z :=
  if 0 <? off_len then
    if off_len <? ♯data then
      n ← push_chunk (take (Z.to_nat off_len) data) 0;
      rest ← or_panic OutOfBounds (slice_from data off_len);
      push_chunks (chunks SEND_BUFFER_SIZE rest) n
    else push_chunk data 0
  else
    rest ← or_panic OutOfBounds (slice_from data off_len);
    push_chunks (chunks SEND_BUFFER_SIZE rest) 0.

Definition write (data : list Z) (window_size off_len max_ack : Z) : M SendBuf Z :=
  recv_and_drop max_ack;;
  modify (set_sb_max_data window_size);;
  modify (set_sb_removed 0);;
  modify (set_sb_sent 0);;
  b ← get;
  l ← len b;
  modify (set_sb_len l);;
  modify (set_sb_used_length l);;
  if window_size <=? l then mret 0 else
  if ♯data =? 0 then mret 0 else
  capacity ← cap;
  let data := if capacity <? ♯data then take (Z.to_nat capacity) data else data in
  if ♯data =? 0 then mret (♯data) else
  write_pieces data off_len.

(** [off_front]: the offset of the first non-empty chunk from [pos] on. *)
Fixpoint off_front_loop {S} (l : list RangeBuf) (default : Z) : M S Z :=
  match l with
  | [] => mret default
  | x :: l' =>
      e ← RangeBuf.is_empty x;
      if negb e then RangeBuf.off x else off_front_loop l' default
  end.
Definition off_front {S} (b : SendBuf) : M S Z :=
  off_front_loop (drop (Z.to_nat (sb_pos b)) (sb_data b)) (sb_off b).

(** The loop of [emit]; [l] is [data[pos..]].  Returns [out_len] and [out]. *)
Fixpoint emit_loop (l : list RangeBuf) (out_len : Z) (out : list Z)
    : M SendBuf (Z * list Z) :=
  b ← get;
  if negb ((SEND_BUFFER_SIZE <=? out_len) && ready b) then mret (out_len, out) else
  match l with
  | [] => mret (out_len, out)
  | buf :: l' =>
      e ← RangeBuf.is_empty buf;
      if (e : bool) then
        p ← uadd (sb_pos b) 1;
        modify (set_sb_pos p);;
        emit_loop l' out_len out
      else
        bl ← RangeBuf.len buf;
        let buf_len := Z.min bl out_len in
        bl2 ← RangeBuf.len buf;
        let partial := buf_len <=? bl2 in
        src ← or_panic OutOfBounds (slice (rg_data buf) 0 buf_len);
        out' ← or_panic OutOfBounds (blit out 0 src);
        n ← usub (sb_len b) buf_len;
        modify (set_sb_len n);;
        u ← usub (sb_used_length b) buf_len;
        modify (set_sb_used_length u);;
        p ← uadd (sb_pos b) 1;
        modify (set_sb_pos p);;
        if partial then mret (buf_len, out')
        else emit_loop l' buf_len out'
  end.

(** Returns [(out_len, out_off, stop)] and the caller's buffer. *)
Definition emit (out : list Z) : M SendBuf (Z * Z * bool * list Z) :=
  b ← get;
  out_off ← off_front b;
  r ← emit_loop (drop (Z.to_nat (sb_pos b)) (sb_data b)) (♯out) out;
  let '(out_len, out') := r in
  b ← get;
  s ← uadd (sb_sent b) out_len;
  modify (set_sb_sent s);;
  stop1 ← (if sb_max_data b <=? s then modify (set_sb_pos 0);; mret true else mret false);
  b ← get;
  stop2 ← (if sb_pos b =? ♯(sb_data b) then modify (set_sb_pos 0);; mret true
           else mret stop1);
  mret (out_len, out_off, stop2, out').

Definition reset : M SendBuf Z :=
  b ← get;
  unsent_off ← off_front b;
  unsent_len ← usub (off_back b) unsent_off;
  modify (set_sb_data []);;
  modify (set_sb_pos 0);;
  modify (set_sb_len 0);;
  modify (set_sb_off unsent_off);;
  mret unsent_len.

Definition clear : M SendBuf unit :=
  modify (set_sb_data []);;
  modify (set_sb_pos 0);;
  modify (set_sb_off 0).
End Ops.

(** ** Invariant *)

Definition chunk_ok (c : RangeBuf) : Prop := fresh c ∧ 0 < rg_len c <= SEND_BUFFER_SIZE.

(** Chunks in increasing, non-overlapping offset ranges within [lo, hi). *)
Fixpoint laid_out (lo : Z) (l : list RangeBuf) (hi : Z) : Prop :=
  match l with
  | [] => lo <= hi
  | c :: l' => lo <= rg_off c ∧ laid_out (chunk_end c) l' hi
  end.

(** [offset_recv] has one entry per buffered chunk, in the same order. *)
Definition wf (b : SendBuf) : Prop :=
  Forall chunk_ok (sb_data b) ∧ laid_out 0 (sb_data b) (sb_off b) ∧
  om_keys (sb_offset_recv b) = rg_off <$> sb_data b ∧
  sb_off b < u64_bound ∧ sb_error b = None.

Definition total (l : list RangeBuf) : Z := foldr (λ c n, rg_len c + n) 0 l.

(** The chunks that are not marked as acknowledged. *)
Definition kept (b : SendBuf) : list RangeBuf :=
  filter (λ c, om_get (rg_off c) (sb_offset_recv b) = Some true) (sb_data b).

Lemma total_app l k : total (l ++ k) = total l + total k.
Proof. induction l as [|c l IH]; simpl; [done|]. unfold total in *. simpl. rewrite IH. lia. Qed.

Lemma total_nonneg l : Forall chunk_ok l → 0 <= total l.
Proof.
  induction 1 as [|c l [_ Hc] _ IH]; simpl; [done|]. unfold total in *. simpl. lia.
Qed.

Lemma laid_out_le lo l hi : Forall chunk_ok l → laid_out lo l hi → lo + total l <= hi.
Proof.
  intros Hl. revert lo. induction Hl as [|c l [_ Hc] _ IH]; intros lo; simpl; [lia|].
  intros [Ho Hr]. apply IH in Hr. unfold chunk_end in Hr. lia.
Qed.

Lemma laid_out_app lo l hi k hi' :
  laid_out lo l hi → laid_out hi k hi' → Forall chunk_ok k → laid_out lo (l ++ k) hi'.
Proof.
  revert lo. induction l as [|c l IH]; intros lo Hl Hk Hok; simpl in *.
  - destruct k as [|c k]; simpl in *; [lia|]. destruct Hk as [? ?]. split; [lia|done].
  - destruct Hl as [? ?]. split; [done|]. by apply IH.
Qed.

Lemma laid_out_lb lo l hi : Forall chunk_ok l → laid_out lo l hi → Forall (λ c, lo <= rg_off c) l.
Proof.
  intros Hl. revert lo. induction Hl as [|c l [_ Hc] _ IH]; intros lo; [by constructor|].
  intros [Ho Hr]. constructor; [done|]. eapply Forall_impl; [apply (IH _ Hr)|].
  simpl. unfold chunk_end. lia.
Qed.

Lemma laid_out_ub lo l hi : Forall chunk_ok l → laid_out lo l hi → Forall (λ c, rg_off c < hi) l.
Proof.
  intros Hl. revert lo. induction Hl as [|c l Hc Hl IH]; intros lo; [by constructor|].
  intros [Ho Hr]. constructor; [|by eapply IH].
  apply laid_out_le in Hr; [|done]. pose proof (total_nonneg _ Hl). destruct Hc as [_ ?].
  unfold chunk_end in Hr. lia.
Qed.

Lemma laid_out_sorted lo l hi :
  Forall chunk_ok l → laid_out lo l hi → StronglySorted Z.lt (rg_off <$> l).
Proof.
  intros Hl. revert lo. induction Hl as [|c l Hc Hl IH]; intros lo; [by constructor|].
  intros [Ho Hr]. rewrite fmap_cons. constructor; [by eapply IH|].
  apply laid_out_lb in Hr; [|done]. apply Forall_fmap. eapply Forall_impl; [exact Hr|].
  simpl. destruct Hc as [_ ?]. unfold chunk_end. lia.
Qed.

Lemma laid_out_weaken lo lo' l hi :
  lo' <= lo → Forall chunk_ok l → laid_out lo l hi → laid_out lo' l hi.
Proof. intros. destruct l; simpl in *; [lia|]. destruct H1. split; [lia|done]. Qed.

Lemma laid_out_filter (Pr : RangeBuf → Prop) `{!∀ x, Decision (Pr x)} lo l hi :
  Forall chunk_ok l → laid_out lo l hi → laid_out lo (filter Pr l) hi.
Proof.
  intros Hl. revert lo. induction Hl as [|c l Hc Hl IH]; intros lo; [done|].
  intros [Ho Hr]. rewrite filter_cons. case_decide; [simpl; split; [done|by apply IH]|].
  apply laid_out_weaken with (chunk_end c); [|by apply Forall_filter_2|by apply IH].
  destruct Hc as [_ ?]. unfold chunk_end. lia.
Qed.

Lemma wf_sorted b : wf b → om_sorted (sb_offset_recv b).
Proof.
  intros (Hc & Hl & Hk & _). unfold om_sorted. rewrite Hk. by eapply laid_out_sorted.
Qed.

(** ** Cutting data into chunks *)

(** Consecutive chunks holding the byte strings [cs] from offset [o] on. *)
Fixpoint lay (o : Z) (cs : list (list Z)) : list RangeBuf :=
  match cs with [] => [] | c :: cs' => from c o :: lay (o + ♯c) cs' end.

(** How [write] cuts [data] when the stream stands [off_len] bytes before a
    1024-byte boundary. *)
Definition pieces (off_len : Z) (data : list Z) : list (list Z) :=
  if 0 <? off_len then
    if off_len <? ♯data
    then take (Z.to_nat off_len) data :: chunks SEND_BUFFER_SIZE (drop (Z.to_nat off_len) data)
    else [data]
  else chunks SEND_BUFFER_SIZE data.

Lemma chunks_fuel_concat fuel n l :
  (0 < n)%nat → (length l <= fuel)%nat → concat (chunks_fuel fuel n l) = l.
Proof.
  revert l. induction fuel as [|fuel IH]; intros l Hn Hl.
  - destruct l; [done|simpl in Hl; lia].
  - destruct l as [|x l]; [done|]. cbn [chunks_fuel concat].
    rewrite IH; [apply take_drop|done|]. rewrite length_drop. simpl in *. lia.
Qed.

Lemma chunks_concat l : concat (chunks SEND_BUFFER_SIZE l) = l.
Proof. apply chunks_fuel_concat; [vm_compute; lia|done]. Qed.

Definition piece_ok (c : list Z) : Prop := 0 < ♯c <= SEND_BUFFER_SIZE.

Lemma chunks_fuel_ok fuel l :
  Forall piece_ok (chunks_fuel fuel (Z.to_nat SEND_BUFFER_SIZE) l).
Proof.
  revert l. induction fuel as [|fuel IH]; intros [|x l]; cbn [chunks_fuel]; try by constructor.
  constructor; [|apply IH]. unfold piece_ok. rewrite zlen_take, zlen_cons.
  unfold SEND_BUFFER_SIZE. zlia.
Qed.

Lemma pieces_ok off_len data :
  off_len <= SEND_BUFFER_SIZE → 0 < ♯data → Forall piece_ok (pieces off_len data).
Proof.
  intros Ho Hd. unfold pieces. destruct (Z.ltb_spec 0 off_len); [|apply chunks_fuel_ok].
  destruct (Z.ltb_spec off_len (♯data)).
  - constructor; [unfold piece_ok; zlia|apply chunks_fuel_ok].
  - repeat constructor; unfold piece_ok; lia.
Qed.

Lemma pieces_concat off_len data : concat (pieces off_len data) = data.
Proof.
  unfold pieces. destruct (0 <? off_len); [|apply chunks_concat].
  destruct (off_len <? ♯data); simpl; [|apply app_nil_r].
  rewrite chunks_concat. apply take_drop.
Qed.

Lemma lay_app o cs ds : lay o (cs ++ ds) = lay o cs ++ lay (o + ♯(concat cs)) ds.
Proof.
  revert o. induction cs as [|c cs IH]; intros o; simpl; [by rewrite Z.add_0_r|].
  rewrite IH, zlen_app, Z.add_assoc. done.
Qed.

Lemma lay_ok o cs :
  0 <= o → Forall piece_ok cs → o + ♯(concat cs) < u64_bound →
  Forall chunk_ok (lay o cs) ∧ laid_out o (lay o cs) (o + ♯(concat cs)).
Proof.
  intros Ho Hc. revert o Ho. induction Hc as [|c cs Hc Hcs IH]; intros o Ho Hb; simpl in *.
  - split; [by constructor|]. zlia.
  - rewrite zlen_app in *. unfold piece_ok in Hc. pose proof (zlen_nonneg (concat cs)).
    destruct (IH (o + ♯c)) as [H1 H2]; [lia|lia|]. split.
    + constructor; [|done]. split; [apply from_fresh; lia|simpl; lia].
    + split; [lia|]. unfold chunk_end. simpl. by rewrite Z.add_assoc.
Qed.

Lemma lay_total o cs : total (lay o cs) = ♯(concat cs).
Proof.
  revert o. induction cs as [|c cs IH]; intros o; simpl; [done|].
  unfold total in *. simpl. rewrite IH. zlia.
Qed.

Lemma lay_length_le o cs : Forall piece_ok cs → Z.of_nat (length (lay o cs)) <= ♯(concat cs).
Proof.
  intros Hc. revert o. induction Hc as [|c cs Hc _ IH]; intros o; cbn [lay length]; [done|].
  specialize (IH (o + ♯c)). unfold piece_ok in Hc. cbn [concat]. zlia.
Qed.

Lemma lay_data o cs : concat (rg_data <$> lay o cs) = concat cs.
Proof.
  revert o. induction cs as [|c cs IH]; intros o; [done|].
  cbn [lay]. rewrite fmap_cons. simpl. by rewrite IH.
Qed.

(** *** Blocks: the chunks of a write never straddle a 1024-byte boundary *)

Definition in_block (c : RangeBuf) : Prop :=
  rg_off c / SEND_BUFFER_SIZE = (chunk_end c - 1) / SEND_BUFFER_SIZE.

(** The distance to the next boundary, 0 on a boundary. *)
Definition pad (o : Z) : Z :=
  if o mod SEND_BUFFER_SIZE =? 0 then 0 else SEND_BUFFER_SIZE - o mod SEND_BUFFER_SIZE.

Lemma pad_range o : 0 <= pad o < SEND_BUFFER_SIZE.
Proof.
  unfold pad, SEND_BUFFER_SIZE. pose proof (Z.mod_pos_bound o 1024).
  destruct (Z.eqb_spec (o mod 1024) 0); lia.
Qed.

Lemma pad_aligned o : (o + pad o) mod SEND_BUFFER_SIZE = 0.
Proof.
  unfold pad, SEND_BUFFER_SIZE. destruct (Z.eqb_spec (o mod 1024) 0) as [E|E].
  - by rewrite Z.add_0_r.
  - pose proof (Z.div_mod o 1024 ltac:(lia)) as Hd.
    replace (o + (1024 - o mod 1024)) with ((o / 1024 + 1) * 1024) by lia.
    by rewrite Z.mod_mul.
Qed.

Lemma from_in_block x o :
  0 < ♯x <= (if o mod SEND_BUFFER_SIZE =? 0 then SEND_BUFFER_SIZE else pad o) →
  in_block (from x o).
Proof.
  unfold in_block, chunk_end, pad, SEND_BUFFER_SIZE. cbn [rg_off rg_len from]. intros Hx.
  pose proof (Z.div_mod o 1024 ltac:(lia)). pose proof (Z.mod_pos_bound o 1024).
  apply Z.div_unique with (o mod 1024 + ♯x - 1); destruct (Z.eqb_spec (o mod 1024) 0); lia.
Qed.

Lemma lay_chunks_in_block fuel o l :
  o mod SEND_BUFFER_SIZE = 0 →
  Forall in_block (lay o (chunks_fuel fuel (Z.to_nat SEND_BUFFER_SIZE) l)).
Proof.
  revert o l. induction fuel as [|fuel IH]; intros o l Ho; [by constructor|].
  destruct l as [|x l]; [by constructor|]. cbn [chunks_fuel lay].
  set (n := Z.to_nat SEND_BUFFER_SIZE). assert (Hn : Z.of_nat n = 1024) by done.
  constructor.
  - apply from_in_block. rewrite Ho, zlen_take, zlen_cons, Hn.
    unfold SEND_BUFFER_SIZE. simpl. pose_len. lia.
  - destruct (decide (n < length (x :: l))%nat) as [Hl|Hl].
    + apply IH. rewrite zlen_take, Hn, Z.min_l by (unfold zlen; lia).
      rewrite Zplus_mod, Ho. done.
    + rewrite drop_ge by lia. destruct fuel; constructor.
Qed.

Lemma pieces_in_block o data :
  0 < ♯data → Forall in_block (lay o (pieces (pad o) data)).
Proof.
  intros Hd. pose proof (pad_range o) as Hr. pose proof (pad_aligned o) as Ha.
  assert (Hp : 0 < pad o → (o mod SEND_BUFFER_SIZE =? 0) = false).
  { unfold pad. by destruct (o mod SEND_BUFFER_SIZE =? 0). }
  unfold pieces. destruct (Z.ltb_spec 0 (pad o)) as [H0|H0].
  - specialize (Hp H0). destruct (Z.ltb_spec (pad o) (♯data)); cbn [lay].
    + constructor; [apply from_in_block; rewrite Hp; zlia|].
      apply lay_chunks_in_block. rewrite zlen_take, Z.min_l by zlia.
      by rewrite Z2Nat.id by lia.
    + constructor; [|constructor]. apply from_in_block. rewrite Hp. lia.
  - apply lay_chunks_in_block. by replace (o + pad o) with o in Ha by lia.
Qed.

(** ** Dropping acknowledged chunks *)

(** With one flag per chunk, filed under its offset, the positional [retain]
    is the selection by offset. *)
Lemma retain_flags_filter (m : omap bool) (l : list RangeBuf) :
  om_sorted m → om_keys m = rg_off <$> l →
  retain_flags (om_values m) l = Some (filter (λ c, om_get (rg_off c) m = Some true) l) ∧
  om_keys (filter (λ e, e.2 = true) m) =
    rg_off <$> filter (λ c, om_get (rg_off c) m = Some true) l.
Proof.
  revert l. induction m as [|[k v] m IH]; intros l Hs Hk.
  { destruct l; [done|]. discriminate Hk. }
  destruct l as [|c l]; [discriminate Hk|]. rewrite om_keys_cons, fmap_cons in Hk.
  injection Hk as -> Hk. unfold om_sorted in Hs. rewrite om_keys_cons in Hs.
  inversion_clear Hs as [|? ? Hs' Hm]. destruct (IH l Hs' Hk) as [IH1 IH2]. clear IH.
  assert (Hf : filter (λ c0, om_get (rg_off c0) ((rg_off c, v) :: m) = Some true) l =
               filter (λ c0, om_get (rg_off c0) m = Some true) l).
  { apply filter_agree. intros x Hx.
    rewrite Hk, Forall_fmap, Forall_forall in Hm. specialize (Hm x Hx). simpl in *.
    destruct (Z.eqb_spec (rg_off x) (rg_off c)); [lia|done]. }
  change (om_values ((rg_off c, v) :: m)) with (v :: om_values m).
  cbn [retain_flags]. rewrite IH1. rewrite !filter_cons, Hf. simpl om_get.
  rewrite Z.eqb_refl. cbn [snd fmap option_fmap option_map].
  destruct v; cbn [snd]; split; repeat case_decide; try done; try congruence.
  rewrite om_keys_cons, fmap_cons. by rewrite IH2.
Qed.

Lemma om_get_filter_true (m : omap bool) k :
  om_sorted m → om_get k (filter (λ e, e.2 = true) m) = Some true ↔ om_get k m = Some true.
Proof.
  intros Hs. rewrite <-!om_get_elem by auto using om_sorted_filter.
  rewrite list_elem_of_filter. simpl. tauto.
Qed.

Section Facts.
Context {P : Profile}.

(** The buffer after [recv_and_drop]. *)
Definition dropped (b : SendBuf) : SendBuf :=
  set_sb_offset_recv (filter (λ e, e.2 = true) (sb_offset_recv b)) (set_sb_data (kept b) b).

Lemma recv_and_drop_Ok b ma : wf b → recv_and_drop ma b = Ok tt (dropped b).
Proof.
  intros Hw. pose proof (wf_sorted b Hw) as Hs. destruct Hw as (Hc & Hl & Hk & Ho & He).
  unfold recv_and_drop, is_empty. msimpl. destruct (sb_data b) as [|c l] eqn:Hd.
  - unfold dropped, kept. rewrite Hd. destruct b; simpl in *. subst.
    destruct sb_offset_recv0; [done|]. discriminate Hk.
  - destruct (retain_flags_filter (sb_offset_recv b) (c :: l) Hs Hk) as [-> _].
    unfold dropped, kept. by rewrite Hd.
Qed.

Lemma dropped_wf b : wf b → wf (dropped b).
Proof.
  intros Hw. pose proof (wf_sorted b Hw) as Hs. destruct Hw as (Hc & Hl & Hk & Ho & He).
  split; [by apply Forall_filter_2|]. split; [by apply laid_out_filter|].
  split; [|done]. apply (retain_flags_filter (sb_offset_recv b) (sb_data b) Hs Hk).
Qed.

Lemma dropped_kept b : wf b → kept (dropped b) = kept b.
Proof.
  intros Hw. pose proof (wf_sorted b Hw) as Hs. unfold kept. simpl. unfold kept.
  rewrite list_filter_filter. apply list_filter_iff. intros x.
  rewrite om_get_filter_true by done. tauto.
Qed.

Lemma kept_nothing_acked b :
  Forall (λ c, om_get (rg_off c) (sb_offset_recv b) = Some true) (sb_data b) →
  kept b = sb_data b.
Proof. apply filter_all. Qed.

(** ** Lengths and capacity *)

Lemma len_loop_Ok {S} l n (s : S) :
  Forall chunk_ok l → 0 <= n → n + total l < u64_bound → len_loop l n s = Ok (n + total l) s.
Proof.
  intros Hl. revert n. induction Hl as [|c l Hc Hl IH]; intros n Hn Hb; simpl.
  - unfold mret, M_ret, total. simpl. f_equal. lia.
  - pose proof (total_nonneg _ Hl). destruct Hc as [[(Hst & Hp & Hlen & Ho & Hu) _] Hc].
    unfold total in *. simpl in *. rewrite <-Hlen. unfold uadd.
    rewrite (bind_Ok _ _ _ _ _ (checked_ok (n + rg_len c) s ltac:(unfold is_u64; lia))).
    rewrite IH by lia. f_equal. lia.
Qed.

Lemma wf_total b : wf b → 0 <= total (sb_data b) < u64_bound.
Proof.
  intros (Hc & Hl & _ & Ho & _). split; [by apply total_nonneg|].
  apply laid_out_le in Hl; [lia|done].
Qed.

Lemma len_Ok {S} b (s : S) : wf b → len b s = Ok (total (sb_data b)) s.
Proof.
  intros Hw. pose proof (wf_total b Hw) as Ht. destruct Hw as (Hc & _).
  unfold len, is_empty. destruct (sb_data b) eqn:Hd; [done|].
  rewrite len_loop_Ok; [done|done|done|]. rewrite Z.add_0_l. lia.
Qed.

Lemma cap_Ok b :
  wf b → total (sb_data b) <= sb_max_data b < u64_bound →
  cap b = Ok (sb_max_data b - total (sb_data b)) (set_sb_used_length (total (sb_data b)) b).
Proof.
  intros Hw Hm. pose proof (wf_total b Hw). unfold cap. msimpl.
  destruct Hw as (? & ? & ? & ? & He). rewrite He. rewrite len_Ok by done.
  unfold usub. rewrite checked_ok by (unfold is_u64; lia). done.
Qed.

(** ** Appending *)

Definition pushed (cs : list (list Z)) (b : SendBuf) : SendBuf :=
  mkSendBuf (sb_data b ++ lay (sb_off b) cs) (sb_pos b) (sb_off b + ♯(concat cs))
    (sb_len b + ♯(concat cs)) (sb_max_data b) (sb_error b)
    (sb_used_length b + ♯(concat cs))
    (sb_offset_recv b ++ ((λ c, (rg_off c, true)) <$> lay (sb_off b) cs))
    (sb_removed b) (sb_sent b).

(** The counters can take [n] more bytes. *)
Definition room (b : SendBuf) (n : Z) : Prop :=
  0 <= sb_off b ∧ 0 <= sb_len b ∧ 0 <= sb_used_length b ∧
  sb_off b + n < u64_bound ∧ sb_len b + n < u64_bound ∧ sb_used_length b + n < u64_bound.

Lemma push_chunk_Ok c n b :
  wf b → room b (♯c) → 0 <= n → n + ♯c < u64_bound →
  push_chunk c n b = Ok (n + ♯c) (pushed [c] b).
Proof.
  intros (Hc & Hl & Hk & Ho & He) (R1 & R2 & R3 & R4 & R5 & R6) Hn Hb.
  unfold push_chunk, uadd. msimpl. rewrite !checked_ok by (unfold is_u64; zlia).
  unfold pushed. simpl. rewrite app_nil_r. f_equal.
  unfold set_sb_used_length, set_sb_len, set_sb_off, set_sb_data, set_sb_offset_recv. simpl.
  f_equal. apply om_insert_last. rewrite Hk, Forall_fmap.
  eapply Forall_impl; [by eapply laid_out_ub|]. done.
Qed.

Lemma pushed_wf cs b :
  wf b → Forall piece_ok cs → 0 <= sb_off b → sb_off b + ♯(concat cs) < u64_bound →
  wf (pushed cs b).
Proof.
  intros (Hc & Hl & Hk & Ho & He) Hcs Hz Hb.
  destruct (lay_ok (sb_off b) cs Hz Hcs Hb) as [H1 H2].
  split; [by apply Forall_app|]. split; [by eapply laid_out_app|].
  split; [|done]. simpl. rewrite om_keys_app, fmap_app, Hk. f_equal.
  unfold om_keys. rewrite <-list_fmap_compose. done.
Qed.

Lemma pushed_nil b : pushed [] b = b.
Proof. unfold pushed. simpl. rewrite !zlen_nil, !app_nil_r, !Z.add_0_r. by destruct b. Qed.

Lemma pushed_app cs ds b : pushed ds (pushed cs b) = pushed (cs ++ ds) b.
Proof.
  unfold pushed. simpl. rewrite concat_app, !lay_app, fmap_app, zlen_app, <-!app_assoc.
  f_equal; lia.
Qed.

Lemma room_pushed c cs b : room b (♯(concat (c :: cs))) → room (pushed [c] b) (♯(concat cs)).
Proof.
  unfold room. simpl. rewrite app_nil_r, zlen_app. pose_len. intros. lia.
Qed.

Lemma room_le b n n' : n' <= n → room b n → room b n'.
Proof. unfold room. lia. Qed.

Lemma push_chunks_Ok cs n b :
  wf b → Forall piece_ok cs → room b (♯(concat cs)) → 0 <= n → n + ♯(concat cs) < u64_bound →
  push_chunks cs n b = Ok (n + ♯(concat cs)) (pushed cs b).
Proof.
  intros Hw Hcs. revert n b Hw. induction Hcs as [|c cs Hc Hcs IH]; intros n b Hw Hr Hn Hb.
  - rewrite pushed_nil. simpl. unfold mret, M_ret. by rewrite zlen_nil, Z.add_0_r.
  - simpl in Hb. rewrite zlen_app in Hb. pose proof (zlen_nonneg (concat cs)).
    pose proof (zlen_nonneg c). cbn [push_chunks].
    assert (Hr1 : room b (♯c)) by (eapply room_le; [|exact Hr]; simpl; zlia).
    rewrite (bind_Ok _ _ _ _ _ (push_chunk_Ok c n b Hw Hr1 Hn ltac:(lia))).
    assert (Hw' : wf (pushed [c] b)).
    { apply pushed_wf; [done|by constructor|apply Hr1|].
      simpl. rewrite app_nil_r. unfold room in Hr1. lia. }
    rewrite IH; [|done|by apply room_pushed|lia|lia].
    rewrite (pushed_app [c] cs b). simpl. rewrite zlen_app. f_equal. lia.
Qed.

(** ** [write] *)

(** How many of the [n] offered bytes fit under the window. *)
Definition accepted (b : SendBuf) (window n : Z) : Z :=
  Z.max 0 (Z.min n (window - total (kept b))).

(** The buffer once the window is opened and acknowledged chunks are gone. *)
Definition opened (window : Z) (b : SendBuf) : SendBuf :=
  let t := total (kept b) in
  set_sb_used_length t (set_sb_len t (set_sb_sent 0 (set_sb_removed 0
    (set_sb_max_data window (dropped b))))).

Lemma opened_wf window b : wf b → wf (opened window b).
Proof. exact (dropped_wf b). Qed.

Lemma write_pieces_Ok data off_len b :
  wf b → room b (♯data) → 0 <= off_len <= SEND_BUFFER_SIZE → 0 < ♯data < u64_bound →
  write_pieces data off_len b = Ok (♯data) (pushed (pieces off_len data) b).
Proof.
  intros Hw Hr Hol Hd.
  assert (Hpk : Forall piece_ok (pieces off_len data)) by (apply pieces_ok; lia).
  pose proof (push_chunks_Ok (pieces off_len data) 0 b Hw Hpk) as Hpush.
  rewrite pieces_concat, Z.add_0_l in Hpush. rewrite <-Hpush by (done || lia).
  unfold write_pieces, pieces. destruct (Z.ltb_spec 0 off_len) as [Hp|Hp].
  - destruct (Z.ltb_spec off_len (♯data)); cbn [push_chunks]; msimpl.
    + destruct (push_chunk _ 0 b); try done. by rewrite slice_from_Some by lia.
    + by destruct (push_chunk data 0 b).
  - replace off_len with 0 by lia. by rewrite slice_from_Some by lia.
Qed.

(** Truncating the input to the capacity. *)
Lemma truncate_accepted b window (data : list Z) :
  total (kept b) < window →
  (if window - total (kept b) <? ♯data
   then take (Z.to_nat (window - total (kept b))) data else data)
  = take (Z.to_nat (accepted b window (♯data))) data.
Proof.
  intros Hw. pose proof (zlen_nonneg data). unfold accepted.
  destruct (Z.ltb_spec (window - total (kept b)) (♯data)).
  - f_equal. lia.
  - symmetry. apply take_ge. unfold zlen in *. lia.
Qed.

Lemma send_write_Ok data window off_len ma b :
  wf b → 0 <= window < u64_bound → 0 <= sb_off b → 0 <= off_len <= SEND_BUFFER_SIZE →
  sb_off b + ♯data < u64_bound →
  let n := accepted b window (♯data) in
  write data window off_len ma b =
    Ok n (pushed (if n =? 0 then [] else pieces off_len (take (Z.to_nat n) data)) (opened window b)).
Proof.
  intros Hw Hwin Hz Hol Hb n. pose proof (zlen_nonneg data).
  pose proof (opened_wf window b Hw) as Hwo. pose proof (wf_total _ Hwo) as Ht.
  change (sb_data (opened window b)) with (kept b) in Ht.
  assert (Hn0 : n = 0 → Ok 0 (opened window b) = Ok n (pushed (if n =? 0 then [] else
    pieces off_len (take (Z.to_nat n) data)) (opened window b))).
  { intros ->. by rewrite Z.eqb_refl, pushed_nil. }
  unfold write. rewrite (bind_Ok _ _ _ _ _ (recv_and_drop_Ok b ma Hw)).
  msimpl. rewrite len_Ok by apply (dropped_wf b Hw).
  change (set_sb_used_length _ _) with (opened window b).
  change (sb_data _) with (kept b).
  destruct (Z.leb_spec window (total (kept b))) as [Hle|Hlt].
  { apply Hn0. unfold n, accepted. lia. }
  destruct (Z.eqb_spec (♯data) 0) as [H0|H0].
  { apply Hn0. unfold n, accepted. lia. }
  assert (Hn : 0 < n) by (unfold n, accepted; lia).
  rewrite cap_Ok by (done || (simpl; lia)).
  change (sb_max_data _) with window. change (sb_data _) with (kept b).
  change (set_sb_used_length _ _) with (opened window b).
  rewrite truncate_accepted by done. fold n.
  assert (Hdn : ♯(take (Z.to_nat n) data) = n) by (unfold n, accepted in *; zlia).
  rewrite Hdn. destruct (Z.eqb_spec n 0) as [|_]; [lia|].
  rewrite write_pieces_Ok; rewrite ?Hdn; try done.
  - unfold room. simpl. unfold n, accepted in *. lia.
  - unfold n, accepted. lia.
Qed.

(** ** [emit] *)

(** Whether the chunk [c] is the last one of the window, and the buffer after
    it was handed out. *)
Definition last_of_window (c : RangeBuf) (b : SendBuf) : bool :=
  (sb_max_data b <=? sb_sent b + rg_len c) || (sb_pos b + 1 =? ♯(sb_data b)).

Definition emitted (c : RangeBuf) (b : SendBuf) : SendBuf :=
  mkSendBuf (sb_data b) (if last_of_window c b then 0 else sb_pos b + 1) (sb_off b)
    (sb_len b - rg_len c) (sb_max_data b) (sb_error b) (sb_used_length b - rg_len c)
    (sb_offset_recv b) (sb_removed b) (sb_sent b + rg_len c).

(** The accounting [emit] relies on: the chunks still to be handed out are
    covered by [len] and [used_length]. *)
Definition accounted (b : SendBuf) : Prop :=
  0 <= sb_pos b < u64_bound - 1 ∧ 0 <= sb_sent b ∧
  sb_sent b + total (drop (Z.to_nat (sb_pos b)) (sb_data b)) < u64_bound ∧
  total (drop (Z.to_nat (sb_pos b)) (sb_data b)) <= sb_len b < u64_bound ∧
  total (drop (Z.to_nat (sb_pos b)) (sb_data b)) <= sb_used_length b < u64_bound.

Lemma next_chunk_ok b c l :
  wf b → drop (Z.to_nat (sb_pos b)) (sb_data b) = c :: l → chunk_ok c.
Proof.
  intros (Hc & _) Hd. apply (Forall_drop _ (Z.to_nat (sb_pos b))) in Hc.
  rewrite Hd in Hc. by inversion Hc.
Qed.

Lemma off_front_Ok {S} b c l (s : S) :
  drop (Z.to_nat (sb_pos b)) (sb_data b) = c :: l → chunk_ok c →
  off_front b s = Ok (rg_off c) s.
Proof.
  intros Hd [[Hw Hp] Hl]. unfold off_front. rewrite Hd. cbn [off_front_loop].
  rewrite (bind_Ok _ _ _ _ _ (is_empty_wf c s Hw)), Hp.
  destruct (Z.eqb_spec (rg_len c) 0); [lia|]. cbn [negb].
  rewrite off_wf by done. rewrite Hp. f_equal. lia.
Qed.

Lemma emit_loop_Ok b c l out :
  drop (Z.to_nat (sb_pos b)) (sb_data b) = c :: l → chunk_ok c →
  SEND_BUFFER_SIZE <= ♯out → 0 <= sb_pos b < u64_bound - 1 →
  rg_len c <= sb_len b < u64_bound → rg_len c <= sb_used_length b < u64_bound →
  emit_loop (c :: l) (♯out) out b =
    Ok (rg_len c, rg_data c ++ drop (length (rg_data c)) out)
       (set_sb_pos (sb_pos b + 1) (set_sb_used_length (sb_used_length b - rg_len c)
         (set_sb_len (sb_len b - rg_len c) b))).
Proof.
  intros Hd [[Hw Hp0] Hc] Ho Hp Hl Hu.
  assert (Hne : is_empty b = false).
  { unfold is_empty. destruct (sb_data b); [|done]. rewrite drop_nil in Hd. done. }
  pose proof Hw as (Hs & _ & Hlen & _).
  cbn [emit_loop]. rewrite (bind_Ok get _ b b b eq_refl). unfold ready. rewrite Hne.
  destruct (Z.leb_spec SEND_BUFFER_SIZE (♯out)) as [_|]; [|lia]. cbn [negb andb].
  rewrite (bind_Ok _ _ _ _ _ (is_empty_wf c b Hw)), Hp0.
  destruct (Z.eqb_spec (rg_len c) 0); [lia|].
  rewrite (bind_Ok _ _ _ _ _ (len_wf c b Hw)), Hp0, Z.sub_0_r.
  rewrite (bind_Ok _ _ _ _ _ (len_wf c b Hw)), Hp0, Z.sub_0_r.
  replace (Z.min (rg_len c) (♯out)) with (rg_len c) by lia.
  rewrite slice_prefix, take_ge by (unfold zlen in *; lia).
  msimpl. rewrite blit_0 by lia. unfold usub, uadd.
  rewrite !checked_ok by (unfold is_u64; lia). by rewrite Z.leb_refl.
Qed.

Lemma emit_Ok b c l out :
  wf b → accounted b → drop (Z.to_nat (sb_pos b)) (sb_data b) = c :: l →
  SEND_BUFFER_SIZE <= ♯out →
  emit out b = Ok (rg_len c, rg_off c, last_of_window c b,
                   rg_data c ++ drop (length (rg_data c)) out) (emitted c b).
Proof.
  intros (Hc & _) (A1 & A2 & A3 & A4 & A5) Hd Ho.
  assert (Hok : Forall chunk_ok (c :: l)) by (rewrite <-Hd; by apply Forall_drop).
  inversion_clear Hok as [|? ? Hcok Hl]. rewrite Hd in *.
  pose proof (total_nonneg _ Hl). unfold total in *. simpl in *. fold (total l) in *.
  pose proof (proj2 Hcok) as Hlen.
  assert (Hpos : sb_pos b < ♯(sb_data b)).
  { apply (f_equal length) in Hd. rewrite length_drop in Hd. simpl in Hd. unfold zlen. lia. }
  unfold emit. rewrite (bind_Ok get _ b b b eq_refl).
  rewrite (bind_Ok _ _ _ _ _ (off_front_Ok b c l b Hd Hcok)). rewrite Hd.
  rewrite (bind_Ok _ _ _ _ _ (emit_loop_Ok b c l out Hd Hcok Ho ltac:(lia) ltac:(lia) ltac:(lia))).
  unfold uadd. msimpl. cbn [sb_sent set_sb_pos set_sb_used_length set_sb_len].
  rewrite checked_ok by (unfold is_u64; lia).
  cbn [sb_max_data set_sb_pos set_sb_used_length set_sb_len].
  unfold emitted, last_of_window.
  destruct (sb_max_data b <=? sb_sent b + rg_len c); cbn [sb_pos sb_data set_sb_pos set_sb_sent
    set_sb_used_length set_sb_len orb].
  - destruct (Z.eqb_spec 0 (♯(sb_data b))); [lia|]. done.
  - by destruct (sb_pos b + 1 =? ♯(sb_data b)).
Qed.

Lemma emitted_accounted b c l :
  wf b → accounted b → drop (Z.to_nat (sb_pos b)) (sb_data b) = c :: l →
  last_of_window c b = false →
  accounted (emitted c b) ∧
  drop (Z.to_nat (sb_pos (emitted c b))) (sb_data (emitted c b)) = l.
Proof.
  intros (Hc & Hlo & _ & Hoff & _) (A1 & A2 & A3 & A4 & A5) Hd Hlast.
  assert (Hok : Forall chunk_ok (c :: l)) by (rewrite <-Hd; by apply Forall_drop).
  inversion_clear Hok as [|? ? Hcok Hl]. rewrite Hd in *. pose proof (total_nonneg _ Hl).
  unfold total in A3, A4, A5. simpl in A3, A4, A5. fold (total l) in *.
  assert (Hdl : drop (Z.to_nat (sb_pos b + 1)) (sb_data b) = l).
  { replace (Z.to_nat (sb_pos b + 1)) with (Z.to_nat (sb_pos b) + 1)%nat by lia.
    by rewrite <-drop_drop, Hd. }
  unfold accounted, emitted. simpl. rewrite Hlast, Hdl.
  destruct Hcok as [_ ?]. unfold last_of_window in Hlast. apply orb_false_iff in Hlast as [_ Hp].
  assert (sb_pos b < ♯(sb_data b)).
  { apply (f_equal length) in Hd. rewrite length_drop in Hd. simpl in Hd. unfold zlen. lia. }
  assert (♯(sb_data b) <= total (sb_data b)).
  { clear -Hc. induction Hc as [|x xs [_ Hx] _ IH]; [done|]. rewrite zlen_cons.
    unfold total in *. simpl. lia. }
  apply laid_out_le in Hlo; [|done]. repeat split; try lia.
Qed.

(** *** Safety of [emit], without the accounting *)

(** The chunks are untouched, and what is handed out is a buffered chunk,
    unless the read position is past the last one. *)
Definition same_chunks (b b' : SendBuf) : Prop :=
  sb_data b' = sb_data b ∧ sb_offset_recv b' = sb_offset_recv b ∧
  sb_off b' = sb_off b ∧ sb_error b' = sb_error b ∧ 0 <= sb_pos b'.

Lemma same_chunks_wf b b' : same_chunks b b' → wf b → wf b'.
Proof. unfold same_chunks, wf. intros (-> & -> & -> & -> & _). done. Qed.
Lemma same_chunks_kept b b' : same_chunks b b' → kept b' = kept b.
Proof. unfold same_chunks, kept. by intros (-> & -> & _). Qed.

Definition handed_out (b : SendBuf) (out : list Z) (r : Z * list Z) : Prop :=
  drop (Z.to_nat (sb_pos b)) (sb_data b) = [] ∨
  ∃ ch l, drop (Z.to_nat (sb_pos b)) (sb_data b) = ch :: l ∧
          r = (rg_len ch, rg_data ch ++ drop (length (rg_data ch)) out).

Lemma emit_loop_safe b out :
  wf b → 0 <= sb_pos b → SEND_BUFFER_SIZE <= ♯out →
  wlp (emit_loop (drop (Z.to_nat (sb_pos b)) (sb_data b)) (♯out) out) b
    (λ r b', same_chunks b b' ∧ handed_out b out r) (λ _, False).
Proof.
  intros Hwf Hp Ho. unfold handed_out.
  destruct (drop (Z.to_nat (sb_pos b)) (sb_data b)) as [|c l] eqn:Hd.
  { cbn [emit_loop]. wlp_steps. destruct (negb _); by wlp_steps; split; [|left]. }
  destruct (next_chunk_ok b c l Hwf Hd) as [[Hw Hp0] Hc]. pose proof Hw as (_ & _ & Hlen & _).
  cbn [emit_loop]. wlp_steps. destruct (negb _) eqn:Hn.
  { exfalso. unfold ready, is_empty in Hn. destruct (sb_data b); [by rewrite drop_nil in Hd|].
    destruct (Z.leb_spec SEND_BUFFER_SIZE (♯out)); [done|lia]. }
  apply wlp_bind, (wlp_of_Ok _ _ _ _ _ _ (is_empty_wf c b Hw)). rewrite Hp0.
  destruct (Z.eqb_spec (rg_len c) 0); [lia|].
  do 2 (apply wlp_bind, (wlp_of_Ok _ _ _ _ _ _ (len_wf c b Hw)); rewrite Hp0, Z.sub_0_r).
  replace (Z.min (rg_len c) (♯out)) with (rg_len c) by lia.
  rewrite slice_prefix, take_ge by (unfold zlen in *; lia).
  wlp_steps. rewrite Z.leb_refl. wlp_steps.
  simplify_eq. match goal with H : blit _ _ _ = Some _ |- _ => rewrite blit_0 in H by lia end.
  simplify_eq. split; [|right; by eexists _, _].
  repeat split; try done. cbn. unfold is_u64 in *. lia.
Qed.

Lemma emit_safe b out :
  wf b → 0 <= sb_pos b → SEND_BUFFER_SIZE <= ♯out →
  wlp (emit out) b
    (λ r b', let '(n, off, stop, out') := r in same_chunks b b' ∧
      (off = sb_off b ∨
       ∃ ch, ch ∈ sb_data b ∧ chunk_ok ch ∧ off = rg_off ch ∧ n = rg_len ch ∧
             out' = rg_data ch ++ drop (length (rg_data ch)) out)) (λ _, False).
Proof.
  intros Hwf Hp Ho. unfold emit. wlp_steps.
  destruct (drop (Z.to_nat (sb_pos b)) (sb_data b)) as [|c l] eqn:Hd.
  - apply (wlp_of_Ok _ _ _ _ (sb_off b) b); [unfold off_front; by rewrite Hd|].
    rewrite <-Hd. apply wlp_bind. eapply wlp_mono; [by apply emit_loop_safe| |done].
    intros [n out'] b1 [Hs _]. wlp_steps.
    assert (∀ v, same_chunks b (set_sb_sent v b1)) as Hs' by (intros; exact Hs).
    destruct (_ <=? _); wlp_steps; destruct (_ =? _); wlp_steps; (split; [|by left]);
      unfold same_chunks in *; cbn in *; repeat split; (tauto || lia).
  - pose proof (next_chunk_ok b c l Hwf Hd) as Hok.
    apply (wlp_of_Ok _ _ _ _ _ _ (off_front_Ok b c l b Hd Hok)). rewrite <-Hd.
    apply wlp_bind. eapply wlp_mono; [by apply emit_loop_safe| |done].
    intros [n out'] b1 [Hs [Hh|(ch & l' & Hh & Hr)]]; [by rewrite Hd in Hh|].
    rewrite Hd in Hh. injection Hh as <- <-. injection Hr as -> ->.
    assert (Hin : c ∈ sb_data b).
    { rewrite <-(take_drop (Z.to_nat (sb_pos b)) (sb_data b)), Hd. set_solver. }
    wlp_steps.
    destruct (_ <=? _); wlp_steps; destruct (_ =? _); wlp_steps;
      (split; [|right; by exists c]);
      unfold same_chunks in *; cbn in *; repeat split; (tauto || lia).
Qed.

(** ** A whole window *)

(** The shortest prefix that uses up [budget] bytes, or everything. *)
Fixpoint window_of (budget : Z) (l : list RangeBuf) : list RangeBuf :=
  match l with
  | [] => []
  | c :: l' => c :: (if budget <=? rg_len c then [] else window_of (budget - rg_len c) l')
  end.

(** Calling [emit] until it reports [stop]; [None] if it has not after [n] calls. *)
Fixpoint emit_until_stop (n : nat) (out : list Z) : M SendBuf (option (list (Z * Z * list Z))) :=
  match n with
  | O => mret None
  | S n' =>
      r ← emit out;
      let '(l, o, stop, out') := r in
      if (stop : bool) then mret (Some [(l, o, take (Z.to_nat l) out')])
      else k ← emit_until_stop n' out; mret ((λ t, (l, o, take (Z.to_nat l) out') :: t) <$> k)
  end.

Definition as_packet (c : RangeBuf) : Z * Z * list Z := (rg_len c, rg_off c, rg_data c).

Lemma emit_until_stop_Ok n b l out :
  wf b → accounted b → drop (Z.to_nat (sb_pos b)) (sb_data b) = l → l ≠ [] →
  (length l <= n)%nat → SEND_BUFFER_SIZE <= ♯out →
  ∃ b', emit_until_stop n out b =
          Ok (Some (as_packet <$> window_of (sb_max_data b - sb_sent b) l)) b' ∧
        sb_pos b' = 0 ∧ sb_data b' = sb_data b ∧ sb_offset_recv b' = sb_offset_recv b ∧ wf b'.
Proof.
  revert b l. induction n as [|n IH]; intros b l Hw Ha Hd Hne Hn Ho.
  { destruct l; [done|simpl in Hn; lia]. }
  destruct l as [|c l]; [done|]. clear Hne.
  pose proof (next_chunk_ok b c l Hw Hd) as Hcok.
  assert (Htk : take (Z.to_nat (rg_len c)) (rg_data c ++ drop (length (rg_data c)) out) = rg_data c).
  { destruct Hcok as [[(_ & _ & Hl & _) _] _]. rewrite Hl. unfold zlen.
    by rewrite Nat2Z.id, take_app_length. }
  assert (Hwe : wf (emitted c b)) by exact Hw.
  cbn [emit_until_stop]. rewrite (bind_Ok _ _ _ _ _ (emit_Ok b c l out Hw Ha Hd Ho)).
  cbn [window_of]. rewrite fmap_cons, Htk.
  destruct (last_of_window c b) eqn:Hlast.
  - exists (emitted c b). split; [|by split; [unfold emitted; simpl; rewrite Hlast|]].
    unfold mret, M_ret. do 3 f_equal. unfold last_of_window in Hlast.
    destruct (Z.leb_spec (sb_max_data b - sb_sent b) (rg_len c)); [done|].
    destruct (Z.leb_spec (sb_max_data b) (sb_sent b + rg_len c)); [lia|].
    simpl in Hlast. apply Z.eqb_eq in Hlast.
    apply (f_equal length) in Hd. rewrite length_drop in Hd. simpl in Hd. destruct Ha as (? & _).
    destruct l; [done|]. unfold zlen in Hlast. simpl in Hd. lia.
  - destruct (emitted_accounted b c l Hw Ha Hd Hlast) as [Ha' Hd'].
    unfold last_of_window in Hlast. apply orb_false_iff in Hlast as [Hmax Hpos].
    apply Z.leb_gt in Hmax. apply Z.eqb_neq in Hpos.
    destruct (IH (emitted c b) l) as (b' & He & Hp' & Hdt & Hrv & Hw'); try done.
    { intros ->. apply (f_equal length) in Hd. rewrite length_drop in Hd. simpl in Hd.
      destruct Ha as (? & _). unfold zlen in Hpos. lia. }
    { simpl in Hn. lia. }
    exists b'. rewrite (bind_Ok _ _ _ _ _ He). split; [|done]. unfold mret, M_ret.
    cbn [fmap option_fmap option_map]. do 3 f_equal.
    destruct (Z.leb_spec (sb_max_data b - sb_sent b) (rg_len c)); [lia|].
    simpl. by rewrite Z.sub_add_distr.
Qed.

(** What a window hands out: a prefix of the buffer, all of it unless the
    window is used up, and less than one chunk over the window. *)
Lemma window_of_spec w l :
  0 < w → Forall chunk_ok l →
  window_of w l `prefix_of` l ∧ total (window_of w l) < w + SEND_BUFFER_SIZE ∧
  (window_of w l = l ∨ w <= total (window_of w l)).
Proof.
  intros Hw Hl. revert w Hw. induction Hl as [|c l [_ Hc] Hl IH]; intros w Hw.
  - split; [done|]. split; [unfold SEND_BUFFER_SIZE; simpl; lia|by left].
  - cbn [window_of]. destruct (Z.leb_spec w (rg_len c)).
    + split; [by apply prefix_cons, prefix_nil|]. unfold total. simpl.
      split; [lia|right; lia].
    + destruct (IH (w - rg_len c)) as (I1 & I2 & I3); [lia|]. unfold total in *. simpl.
      split; [by apply prefix_cons|]. split; [lia|].
      destruct I3 as [->|?]; [by left|right; lia].
Qed.

Lemma wf_off_nonneg b : wf b → 0 <= sb_off b.
Proof.
  intros (Hc & Hl & _). apply laid_out_le in Hl; [|done]. pose proof (total_nonneg _ Hc). lia.
Qed.

(** With no flag cleared, nothing would be dropped. *)
Lemma kept_all b :
  wf b → Forall (λ e, e.2 = true) (sb_offset_recv b) → kept b = sb_data b.
Proof.
  intros Hw Ht. pose proof (wf_sorted b Hw) as Hs. destruct Hw as (_ & _ & Hk & _).
  apply kept_nothing_acked, Forall_forall. intros c Hc.
  destruct (om_get (rg_off c) (sb_offset_recv b)) as [v|] eqn:E.
  - apply om_get_elem in E; [|done]. rewrite Forall_forall in Ht. by rewrite <-(Ht _ E).
  - apply om_get_None in E. destruct E. rewrite Hk. by apply list_elem_of_fmap_2.
Qed.

(** The pieces a write appends to the kept chunks. *)
Definition appended (data : list Z) (window off_len : Z) (b : SendBuf) : list (list Z) :=
  let n := accepted b window (♯data) in
  if n =? 0 then [] else pieces off_len (take (Z.to_nat n) data).

Lemma appended_ok data window off_len b :
  off_len <= SEND_BUFFER_SIZE →
  Forall piece_ok (appended data window off_len b) ∧
  concat (appended data window off_len b) = take (Z.to_nat (accepted b window (♯data))) data ∧
  ♯(concat (appended data window off_len b)) = accepted b window (♯data).
Proof.
  intros Hol. unfold appended. set (n := accepted b window (♯data)).
  assert (Hn : 0 <= n <= ♯data) by (unfold n, accepted; pose_len; lia).
  assert (Hdn : ♯(take (Z.to_nat n) data) = n) by zlia.
  destruct (Z.eqb_spec n 0) as [->|Hn0].
  - split; [constructor|]. by rewrite take_0.
  - rewrite pieces_concat. split; [apply pieces_ok; lia|done].
Qed.

Definition after_write (data : list Z) (window off_len : Z) (b : SendBuf) : SendBuf :=
  pushed (appended data window off_len b) (opened window b).

Lemma after_write_wf data window off_len b :
  wf b → off_len <= SEND_BUFFER_SIZE → sb_off b + ♯data < u64_bound →
  wf (after_write data window off_len b).
Proof.
  intros Hw Hol Hb. destruct (appended_ok data window off_len b Hol) as (A1 & _ & A3).
  apply pushed_wf; [by apply opened_wf|done|by apply (wf_off_nonneg b)|]. rewrite A3.
  unfold accepted. cbn. pose_len. pose proof (wf_off_nonneg b Hw). lia.
Qed.

Lemma after_write_unmarked data window off_len b :
  Forall (λ e, e.2 = true) (sb_offset_recv (after_write data window off_len b)).
Proof.
  cbn. apply Forall_app. split; [|by apply Forall_fmap, Forall_forall].
  apply Forall_forall. intros e. by rewrite list_elem_of_filter; intros [? _].
Qed.

Lemma after_write_accounted data window off_len b :
  wf b → off_len <= SEND_BUFFER_SIZE → sb_off b + ♯data < u64_bound → sb_pos b = 0 →
  accounted (after_write data window off_len b).
Proof.
  intros Hw Hol Hb Hp. pose proof (after_write_wf data window off_len b Hw Hol Hb) as Hw'.
  pose proof (wf_total _ Hw') as Ht. unfold accounted. cbn in *. rewrite Hp, drop_0.
  rewrite total_app, lay_total in *. unfold u64_bound in *. lia.
Qed.

(** ** Properties *)

(** C17: send_write_accepts.  [write] drops exactly the chunks marked as
    acknowledged, then accepts as many bytes as the window leaves room for:
    the new chunks carry exactly the first [n] bytes of the input, continue
    the offsets of the stream, are at most 1024 bytes long and the invariant
    holds again.  Nothing is marked afterwards, and the buffer exceeds the
    window only by what was already in it. *)
Theorem send_write_accepts data window off_len ma b :
  wf b → 0 <= window < u64_bound → 0 <= off_len <= SEND_BUFFER_SIZE →
  sb_off b + ♯data < u64_bound →
  let n := accepted b window (♯data) in
  ∃ b' new, write data window off_len ma b = Ok n b' ∧ wf b' ∧
    sb_data b' = kept b ++ new ∧ concat (rg_data <$> new) = take (Z.to_nat n) data ∧
    laid_out (sb_off b) new (sb_off b') ∧ sb_off b' = sb_off b + n ∧
    kept b' = sb_data b' ∧ total (sb_data b') <= Z.max window (total (kept b)).
Proof.
  intros Hw Hwin Hol Hb n. pose proof (wf_off_nonneg b Hw) as H0.
  destruct (appended_ok data window off_len b (proj2 Hol)) as (A1 & A2 & A3).
  pose proof (after_write_wf data window off_len b Hw (proj2 Hol) Hb) as Hw'.
  exists (after_write data window off_len b), (lay (sb_off b) (appended data window off_len b)).
  split; [by apply send_write_Ok|]. split; [done|]. split; [done|].
  split; [by rewrite lay_data|].
  assert (Hn : 0 <= n <= ♯data) by (unfold n, accepted; pose_len; lia).
  split; [apply (lay_ok (sb_off b)); rewrite ?A3; fold n; (done || lia)|].
  split; [cbn; by rewrite A3|].
  split; [apply kept_all; [done|apply after_write_unmarked]|].
  cbn. rewrite total_app, lay_total, A3. unfold accepted. lia.
Qed.

(** When [write] is told the distance to the
    next 1024-byte boundary, as [Connection::write] does, no chunk ever
    straddles a boundary, so that one block norm decides its priority. *)
Theorem send_write_block_aligned data window ma b :
  wf b → 0 <= window < u64_bound → sb_off b + ♯data < u64_bound →
  Forall in_block (sb_data b) →
  ∃ n b', write data window (pad (sb_off b)) ma b = Ok n b' ∧ Forall in_block (sb_data b').
Proof.
  intros Hw Hwin Hb Hin. pose proof (pad_range (sb_off b)).
  eexists _, (after_write data window (pad (sb_off b)) b).
  split; [apply send_write_Ok; try done; [by apply wf_off_nonneg|lia]|].
  cbn. apply Forall_app. split; [by apply Forall_filter_2|]. unfold appended.
  destruct (Z.eqb_spec (accepted b window (♯data)) 0) as [|Hn]; [constructor|].
  apply pieces_in_block. unfold accepted in *. zlia.
Qed.

(** Marking an offset as acknowledged and then
    dropping removes the chunk at that offset, if there is one, and no other
    unmarked chunk. *)
Theorem acked_chunk_is_dropped o ma b :
  wf b →
  ∃ b', (ack_and_drop o;; recv_and_drop ma) b = Ok tt b' ∧ wf b' ∧
        sb_data b' = filter (λ c, rg_off c ≠ o) (kept b).
Proof.
  intros Hw. set (b1 := set_sb_offset_recv (om_alter (λ _, false) o (sb_offset_recv b)) b).
  assert (Hw1 : wf b1).
  { destruct Hw as (? & ? & Hk & ?). split; [done|]. split; [done|].
    unfold b1. cbn [sb_offset_recv set_sb_offset_recv]. by rewrite om_keys_alter. }
  exists (dropped b1). rewrite (bind_Ok (ack_and_drop o) _ b tt b1 eq_refl).
  split; [by apply recv_and_drop_Ok|]. split; [by apply dropped_wf|].
  unfold dropped, kept. cbn. rewrite list_filter_filter. apply list_filter_iff. intros c.
  rewrite om_get_alter. destruct (Z.eqb_spec (rg_off c) o) as [->|Hne].
  - split; [|by intros [[] _]]. by destruct (om_get o (sb_offset_recv b)).
  - split; [by intros|by intros [_ ?]].
Qed.

(** C18: window_transmission.  After a refill of a well-formed buffer with a
    positive window and something to send, calling [emit] until it reports
    [stop] terminates within one call per buffered chunk and hands out a
    prefix of the buffer, in order and byte for byte: everything, unless the
    window is used up, and less than one chunk more than the window.  The
    buffer keeps every chunk for retransmission. *)
Theorem window_transmission data window off_len ma b n out :
  wf b → sb_pos b = 0 → 0 < window < u64_bound → 0 <= off_len <= SEND_BUFFER_SIZE →
  sb_off b + ♯data < u64_bound → 0 < total (kept b) + ♯data →
  (length (kept b) + length data <= n)%nat → SEND_BUFFER_SIZE <= ♯out →
  ∃ w b1 b' sent, write data window off_len ma b = Ok w b1 ∧
    emit_until_stop n out b1 = Ok (Some (as_packet <$> sent)) b' ∧
    sent `prefix_of` sb_data b1 ∧ total sent < window + SEND_BUFFER_SIZE ∧
    (sent = sb_data b1 ∨ window <= total sent) ∧
    sb_data b' = sb_data b1 ∧ sb_pos b' = 0 ∧ wf b'.
Proof.
  intros Hw Hp Hwin Hol Hb Hne Hn Ho.
  pose proof (after_write_wf data window off_len b Hw (proj2 Hol) Hb) as Hw1.
  pose proof (after_write_accounted data window off_len b Hw (proj2 Hol) Hb Hp) as Ha1.
  destruct (appended_ok data window off_len b (proj2 Hol)) as (A1 & A2 & A3).
  set (b1 := after_write data window off_len b) in *.
  assert (Hd : sb_data b1 = kept b ++ lay (sb_off b) (appended data window off_len b)) by done.
  assert (Ht : 0 < total (sb_data b1)).
  { rewrite Hd, total_app, lay_total, A3. unfold accepted. pose_len.
    pose proof (total_nonneg (kept b) ltac:(apply Forall_filter_2, Hw)). lia. }
  assert (Hlen : (length (sb_data b1) <= n)%nat).
  { rewrite Hd, length_app. enough (length (lay (sb_off b) (appended data window off_len b))
      <= length data)%nat by lia.
    pose proof (lay_length_le (sb_off b) _ A1). rewrite A3 in *. unfold accepted, zlen in *. lia. }
  destruct (emit_until_stop_Ok n b1 (sb_data b1) out) as (b' & E & P1 & P2 & _ & P4); try done.
  { change (sb_pos b1) with (sb_pos b). by rewrite Hp. }
  { intros E. by rewrite E in Ht. }
  destruct (window_of_spec window (sb_data b1)) as (W1 & W2 & W3); [lia|apply Hw1|].
  exists (accepted b window (♯data)), b1, b', (window_of window (sb_data b1)).
  split; [apply send_write_Ok; try done; [lia|by apply wf_off_nonneg]|].
  split; [rewrite E; change (sb_max_data b1 - sb_sent b1) with (window - 0); by rewrite Z.sub_0_r|].
  done.
Qed.
End Facts.

(** [clear] empties the chunks and rewinds the
    offset but keeps the acknowledgement flags.  Here chunk 1 of a first use is
    acknowledged, the buffer is cleared and reused with chunks at 0 and 2; the
    stale flag of offset 1 then makes the next write drop the chunk at 2, which
    was never acknowledged. *)
Theorem clear_keeps_stale_flags (P : Profile) :
  ∃ b b', (write [10; 11] 9600 1 0;; ack_and_drop 1;; clear;; write [20; 21; 22] 9600 2 0)
            (new 9600) = Ok 3 b ∧
    sb_data b = [from [20; 21] 0; from [22] 2] ∧ om_get 2 (sb_offset_recv b) = Some true ∧
    write [] 9600 0 0 b = Ok 0 b' ∧ sb_data b' = [from [20; 21] 0].
Proof. do 2 eexists. split; [vm_compute; reflexivity|]. repeat split; vm_compute; reflexivity. Qed.

#[local] Existing Instance debug_x86.

(** Two chunks, the second one acknowledged. *)
Definition sample : SendBuf :=
  mkSendBuf [from [1; 2] 0; from [3] 2] 0 3 3 9600 None 3 [(0, true); (2, false)] 0 0.

Lemma sample_wf : wf sample.
Proof.
  split; [repeat constructor; vm_compute; congruence|].
  repeat split; vm_compute; congruence.
Qed.

Lemma send_write_accepts_witness :
  ∃ b' new, write [7; 8; 9; 10] 5 1 0 sample = Ok 3 b' ∧ wf b' ∧
    sb_data b' = kept sample ++ new ∧ concat (rg_data <$> new) = [7; 8; 9] ∧
    laid_out 3 new (sb_off b') ∧ sb_off b' = 6 ∧ kept b' = sb_data b' ∧ total (sb_data b') <= 5.
Proof.
  apply (send_write_accepts [7; 8; 9; 10] 5 1 0 sample); [apply sample_wf| | |];
    vm_compute; try split; congruence.
Defined.

Lemma send_write_block_aligned_witness :
  ∃ n b', write [7; 8; 9; 10] 5 (pad 3) 0 sample = Ok n b' ∧ Forall in_block (sb_data b').
Proof.
  apply (send_write_block_aligned [7; 8; 9; 10] 5 0 sample); [apply sample_wf| | |].
  - vm_compute; split; congruence.
  - vm_compute. reflexivity.
  - repeat constructor.
Defined.

Lemma acked_chunk_is_dropped_witness :
  ∃ b', (ack_and_drop 0;; recv_and_drop 0) sample = Ok tt b' ∧ wf b' ∧
        sb_data b' = filter (λ c, rg_off c ≠ 0) (kept sample).
Proof. apply (acked_chunk_is_dropped 0 0 sample), sample_wf. Defined.

Lemma window_transmission_witness :
  ∃ w b1 b' sent, write [7; 8; 9; 10] 5 1 0 sample = Ok w b1 ∧
    emit_until_stop 5 (replicate 1024 0) b1 = Ok (Some (as_packet <$> sent)) b' ∧
    sent `prefix_of` sb_data b1 ∧ total sent < 5 + SEND_BUFFER_SIZE ∧
    (sent = sb_data b1 ∨ 5 <= total sent) ∧
    sb_data b' = sb_data b1 ∧ sb_pos b' = 0 ∧ wf b'.
Proof.
  apply (window_transmission [7; 8; 9; 10] 5 1 0 sample 5 (replicate 1024 0));
    [apply sample_wf|reflexivity| | | | | |].
  - vm_compute; split; congruence.
  - vm_compute; split; congruence.
  - vm_compute. reflexivity.
  - vm_compute. reflexivity.
  - vm_compute. lia.
  - vm_compute. congruence.
Defined.
