(* ===== verification/Recovery.v ===== *)
(** * Recovery: congestion control

    Models src/src/recovery/mod.rs and src/src/recovery/NewCubic.rs together
    with [Config] of src/src/lib.rs, from which a [Recovery] is built.  The
    window arithmetic is done on exact [f32]/[f64] values ([SoftFloat]).  Time
    ([Duration], [Instant]) is counted in nanoseconds. *)
From Stdlib Require Import SpecFloat String.
From S2P Require Import Prelude Effects OMap SoftFloat.

(** ** Algorithm selection and configuration *)

Inductive CongestionControlAlgorithm := NEWCUBIC.

(** [FromStr for CongestionControlAlgorithm] *)
Definition from_str (name : string) : Error + CongestionControlAlgorithm :=
  if String.eqb name "newcubic"%string then inr NEWCUBIC else inl CongestionControl.

Record Config := mkConfig {
  cfg_cc_algorithm : CongestionControlAlgorithm;
  cfg_max_send_udp_payload_size : Z;
  cfg_max_idle_timeout : Z;
}.

Module Config.
Definition MAX_SEND_UDP_PAYLOAD_SIZE : Z := 1350.

Definition new : Config := mkConfig NEWCUBIC MAX_SEND_UDP_PAYLOAD_SIZE 5000.

Definition set_max_idle_timeout (v : Z) : M Config unit :=
  modify (λ c, mkConfig (cfg_cc_algorithm c) (cfg_max_send_udp_payload_size c) v).

Definition set_cc_algorithm (algo : CongestionControlAlgorithm) : M Config unit :=
  modify (λ c, mkConfig algo (cfg_max_send_udp_payload_size c) (cfg_max_idle_timeout c)).

Definition set_cc_algorithm_name (name : string) : M Config unit :=
  match from_str name with
  | inr algo => set_cc_algorithm algo
  | inl e => fail e
  end.
End Config.

(** ** State *)

Definition INITIAL_RTT : Z := 333 * 10 ^ 6.
Definition INITIAL_WINDOW_PACKETS : Z := 8.
Definition ELICT_ACK_CONSTANT : Z := 8.
Definition MINIMUM_WINDOW_PACKETS : Z := 2.
Definition INI_WIN : Z := 1200 * 8.
Definition PACKET_SIZE : Z := 1200.

(** [NewCubic::PriorState] and [NewCubic::State] *)
Record PriorState := mkPrior {
  prior_congestion_window : Z;
  prior_w_max : f64;
  prior_k : f64;
  prior_lost_count : Z;
}.
Record State := mkState {
  st_k : f64;
  st_w_max : f64;
  st_prior : PriorState;
}.
Definition State_default : State :=
  mkState (S754_zero false) (S754_zero false) (mkPrior 0 (S754_zero false) (S754_zero false) 0).

Record Recovery := mkRecovery {
  loss_detection_timer : option Z;
  cubic_state : State;
  latest_rtt : Z;
  smoothed_rtt : option Z;
  rttvar : Z;
  min_rtt : Z;
  loss_time : list (option Z);
  lost_count : Z;
  loss_probes : list Z;
  in_flight_count : list Z;
  app_limited : bool;
  cc_ops : CongestionControlAlgorithm;
  congestion_window : Z;
  bytes_in_flight : Z;
  max_datagram_size : Z;
  rec_k : f64;
  incre_win : Z;
  decre_win : Z;
  former_win_vecter : list Z;
  roll_back_flag : bool;
}.

Definition set_congestion_window v r := mkRecovery (loss_detection_timer r) (cubic_state r)
  (latest_rtt r) (smoothed_rtt r) (rttvar r) (min_rtt r) (loss_time r) (lost_count r)
  (loss_probes r) (in_flight_count r) (app_limited r) (cc_ops r) v (bytes_in_flight r)
  (max_datagram_size r) (rec_k r) (incre_win r) (decre_win r) (former_win_vecter r) (roll_back_flag r).
Definition set_cubic_state v r := mkRecovery (loss_detection_timer r) v
  (latest_rtt r) (smoothed_rtt r) (rttvar r) (min_rtt r) (loss_time r) (lost_count r)
  (loss_probes r) (in_flight_count r) (app_limited r) (cc_ops r) (congestion_window r)
  (bytes_in_flight r) (max_datagram_size r) (rec_k r) (incre_win r) (decre_win r)
  (former_win_vecter r) (roll_back_flag r).
Definition set_in_flight_count v r := mkRecovery (loss_detection_timer r) (cubic_state r)
  (latest_rtt r) (smoothed_rtt r) (rttvar r) (min_rtt r) (loss_time r) (lost_count r)
  (loss_probes r) v (app_limited r) (cc_ops r) (congestion_window r) (bytes_in_flight r)
  (max_datagram_size r) (rec_k r) (incre_win r) (decre_win r) (former_win_vecter r) (roll_back_flag r).
Definition set_app_limited v r := mkRecovery (loss_detection_timer r) (cubic_state r)
  (latest_rtt r) (smoothed_rtt r) (rttvar r) (min_rtt r) (loss_time r) (lost_count r)
  (loss_probes r) (in_flight_count r) v (cc_ops r) (congestion_window r) (bytes_in_flight r)
  (max_datagram_size r) (rec_k r) (incre_win r) (decre_win r) (former_win_vecter r) (roll_back_flag r).
Definition set_incre_win v r := mkRecovery (loss_detection_timer r) (cubic_state r)
  (latest_rtt r) (smoothed_rtt r) (rttvar r) (min_rtt r) (loss_time r) (lost_count r)
  (loss_probes r) (in_flight_count r) (app_limited r) (cc_ops r) (congestion_window r)
  (bytes_in_flight r) (max_datagram_size r) (rec_k r) v (decre_win r) (former_win_vecter r) (roll_back_flag r).
Definition set_decre_win v r := mkRecovery (loss_detection_timer r) (cubic_state r)
  (latest_rtt r) (smoothed_rtt r) (rttvar r) (min_rtt r) (loss_time r) (lost_count r)
  (loss_probes r) (in_flight_count r) (app_limited r) (cc_ops r) (congestion_window r)
  (bytes_in_flight r) (max_datagram_size r) (rec_k r) (incre_win r) v (former_win_vecter r) (roll_back_flag r).
Definition set_former_win_vecter v r := mkRecovery (loss_detection_timer r) (cubic_state r)
  (latest_rtt r) (smoothed_rtt r) (rttvar r) (min_rtt r) (loss_time r) (lost_count r)
  (loss_probes r) (in_flight_count r) (app_limited r) (cc_ops r) (congestion_window r)
  (bytes_in_flight r) (max_datagram_size r) (rec_k r) (incre_win r) (decre_win r) v (roll_back_flag r).
Definition set_roll_back_flag v r := mkRecovery (loss_detection_timer r) (cubic_state r)
  (latest_rtt r) (smoothed_rtt r) (rttvar r) (min_rtt r) (loss_time r) (lost_count r)
  (loss_probes r) (in_flight_count r) (app_limited r) (cc_ops r) (congestion_window r)
  (bytes_in_flight r) (max_datagram_size r) (rec_k r) (incre_win r) (decre_win r)
  (former_win_vecter r) v.

(** ** The congestion-control operations of NewCubic *)

Module NewCubic.
Section Ops.
Context {P : Profile}.

Definition on_init : M Recovery unit := mret tt.

Definition reset : M Recovery unit := modify (set_cubic_state State_default).

Definition collapse_cwnd : M Recovery unit :=
  r ← get;
  modify (λ r, set_cubic_state
    (mkState (st_k (cubic_state r)) (f64_of_Z (congestion_window r)) (st_prior (cubic_state r))) r);;
  w ← umul (max_datagram_size r) MINIMUM_WINDOW_PACKETS;
  modify (set_congestion_window w).

Definition checkpoint : M Recovery unit :=
  modify (λ r, set_cubic_state
    (mkState (st_k (cubic_state r)) (st_w_max (cubic_state r))
       (mkPrior (congestion_window r) (st_w_max (cubic_state r)) (st_k (cubic_state r))
                (lost_count r))) r).

Definition rollback : M Recovery bool :=
  modify (λ r, set_congestion_window (prior_congestion_window (st_prior (cubic_state r))) r);;
  modify (λ r, set_cubic_state
    (mkState (prior_k (st_prior (cubic_state r))) (prior_w_max (st_prior (cubic_state r)))
       (st_prior (cubic_state r))) r);;
  mret true.

Definition has_custom_pacing : bool := false.
End Ops.
End NewCubic.

(** [CongestionControlOps] and the table [NEWCUBIC]; [debug_fmt] only prints. *)
Record CongestionControlOps := mkOps {
  op_on_init : M Recovery unit;
  op_reset : M Recovery unit;
  op_collapse_cwnd : M Recovery unit;
  op_checkpoint : M Recovery unit;
  op_rollback : M Recovery bool;
  op_has_custom_pacing : bool;
}.

Definition NEWCUBIC_ops {P : Profile} : CongestionControlOps :=
  mkOps NewCubic.on_init NewCubic.reset NewCubic.collapse_cwnd NewCubic.checkpoint
        NewCubic.rollback NewCubic.has_custom_pacing.

(** [impl From<CongestionControlAlgorithm> for &'static CongestionControlOps] *)
Definition ops_of {P : Profile} (algo : CongestionControlAlgorithm) : CongestionControlOps :=
  match algo with NEWCUBIC => NEWCUBIC_ops end.

(** ** [RecoveryConfig] and [Recovery] *)

Record RecoveryConfig := mkRecoveryConfig {
  rc_max_send_udp_payload_size : Z;
  rc_max_ack_delay : Z;
  rc_cc_ops : CongestionControlAlgorithm;
}.
Definition from_config (c : Config) : RecoveryConfig :=
  mkRecoveryConfig (cfg_max_send_udp_payload_size c) 0 (cfg_cc_algorithm c).

(** The two branches of the window polynomial, [weights] already widened. *)
Definition winadd_outer (w : f64) : f64 :=
  f64_add (f64_sub (f64_add (f64_mul (f64_lit (-2294) 2) (powi3 w))
                            (f64_mul (f64_lit 6583 2) (powi2 w)))
                   (f64_mul (f64_lit 5189 2) w))
          (f64_lit 8 0).
Definition winadd_inner (w : f64) : f64 :=
  f64_add (f64_sub (f64_sub (f64_mul (f64_lit (-1587) 4) (powi3 w))
                            (f64_mul (f64_lit 4658 4) (powi2 w)))
                   (f64_mul (f64_lit 4538 4) w))
          (f64_lit 1535 4).
Definition winadd (weights : f32) (mds : Z) : f64 :=
  if f_lt weights (f32_lit 2 1) || f_gt weights (f32_lit 18 1)
  then f64_mul (winadd_outer (f64_of_f32 weights)) (f64_of_Z mds)
  else f64_mul (winadd_inner (f64_of_f32 weights)) (f64_of_Z mds).

Section Ops.
Context {P : Profile}.

Definition new_with_config {S} (c : RecoveryConfig) : M S Recovery :=
  initial_congestion_window ← umul (rc_max_send_udp_payload_size c) INITIAL_WINDOW_PACKETS;
  mret (mkRecovery None State_default 0 None (INITIAL_RTT / 2) 0 [None; None; None] 0
          [0; 0; 0] [0; 0; 0] false (rc_cc_ops c) initial_congestion_window 0 PACKET_SIZE
          (f64_lit 1 0) 0 0 [] false).

Definition new {S} (config : Config) : M S Recovery := new_with_config (from_config config).

Definition on_init : M Recovery unit := r ← get; op_on_init (ops_of (cc_ops r)).

Definition reset : M Recovery unit :=
  r ← get;
  w ← umul (max_datagram_size r) INITIAL_WINDOW_PACKETS;
  modify (set_congestion_window w);;
  modify (set_in_flight_count [0; 0; 0]);;
  op_reset (ops_of (cc_ops r)).

Definition update_win (weights : f32) (num : f64) : M Recovery unit :=
  r ← get;
  let w := winadd weights (max_datagram_size r) in
  (if f_ne w num then modify (set_roll_back_flag true) else mret tt);;
  if f_gt w (S754_zero false) then
    i ← uadd (incre_win r) (f64_as_usize w);
    modify (set_incre_win i)
  else
    d ← uadd (decre_win r) (f64_as_usize (SFopp w));
    modify (set_decre_win d).

Definition should_elicit_ack (pkt_num : Z) : bool := pkt_num mod ELICT_ACK_CONSTANT =? 0.

Definition cwnd : M Recovery Z :=
  r ← get;
  i2 ← umul 2 (incre_win r);
  tmp_win ← (if decre_win r <? i2
             then i2' ← umul 2 (incre_win r); usub i2' (decre_win r)
             else mret 0);
  (if negb (roll_back_flag r)
   then modify (set_former_win_vecter (os_insert tmp_win (former_win_vecter r)))
   else mret tt);;
  modify (set_congestion_window tmp_win);;
  modify (set_incre_win 0);;
  modify (set_decre_win 0);;
  if PACKET_SIZE * INITIAL_WINDOW_PACKETS <=? tmp_win then mret tmp_win
  else
    modify (set_congestion_window (PACKET_SIZE * INITIAL_WINDOW_PACKETS));;
    mret (PACKET_SIZE * INITIAL_WINDOW_PACKETS).

(** [saturating_sub] *)
Definition cwnd_available (r : Recovery) : Z :=
  Z.max 0 (congestion_window r - bytes_in_flight r).

Definition collapse_cwnd : M Recovery unit := r ← get; op_collapse_cwnd (ops_of (cc_ops r)).

Definition update_app_limited (v : bool) : M Recovery unit := modify (set_app_limited v).

Definition rollback : M Recovery Z :=
  r ← get;
  match os_pop_last (former_win_vecter r) with
  | None =>
      modify (set_congestion_window INI_WIN);; mret INI_WIN
  | Some (w, rest) =>
      modify (set_former_win_vecter rest);;
      modify (set_congestion_window w);; mret w
  end.
End Ops.

(** ** Facts: the window arithmetic *)

(** The weight a lost packet of priority [p] adds in [process_ack]. *)
Definition weight_of (p : Z) (w : f32) : f32 :=
  if p =? 1 then f32_add w (f32_lit 15 2)
  else if p =? 2 then f32_add w (f32_lit 2 1)
  else if p =? 3 then f32_add w (f32_lit 25 2) else w.

(** The recovery state after an update, when no counter overflows. *)
Definition win_updated (weights : f32) (num : f64) (r : Recovery) : Recovery :=
  let w := winadd weights (max_datagram_size r) in
  let r1 := if f_ne w num then set_roll_back_flag true r else r in
  if f_gt w (S754_zero false) then set_incre_win (incre_win r + f64_as_usize w) r1
  else set_decre_win (decre_win r + f64_as_usize (SFopp w)) r1.

Section Facts.
Context {P : Profile}.

Lemma update_win_Ok weights num r :
  0 <= incre_win r → 0 <= decre_win r →
  incre_win r + f64_as_usize (winadd weights (max_datagram_size r)) < u64_bound →
  decre_win r + f64_as_usize (SFopp (winadd weights (max_datagram_size r))) < u64_bound →
  update_win weights num r = Ok tt (win_updated weights num r).
Proof.
  intros Hi Hd H1 H2. unfold update_win, win_updated, uadd. msimpl.
  set (w := winadd weights (max_datagram_size r)) in *.
  pose proof (f64_as_usize_u64 w) as U1. pose proof (f64_as_usize_u64 (SFopp w)) as U2.
  unfold is_u64 in U1, U2.
  destruct (f_ne w num), (f_gt w (S754_zero false));
    by rewrite checked_ok by (unfold is_u64; lia).
Qed.

(** What [cwnd] computes: the balance of the interval, at least 8 packets. *)
Definition balance (r : Recovery) : Z := Z.max 0 (2 * incre_win r - decre_win r).

Definition cwnd_state (r : Recovery) : Recovery :=
  let r1 := if roll_back_flag r then r
            else set_former_win_vecter (os_insert (balance r) (former_win_vecter r)) r in
  set_congestion_window (Z.max (PACKET_SIZE * INITIAL_WINDOW_PACKETS) (balance r))
    (set_decre_win 0 (set_incre_win 0 r1)).

Lemma cwnd_Ok r :
  0 <= incre_win r → 2 * incre_win r < u64_bound → 0 <= decre_win r →
  cwnd r = Ok (Z.max (PACKET_SIZE * INITIAL_WINDOW_PACKETS) (balance r)) (cwnd_state r).
Proof.
  intros Hi H2 Hd. unfold cwnd, umul, usub. rewrite (bind_Ok get _ r r r eq_refl).
  rewrite (bind_Ok _ _ _ _ _ (checked_ok (2 * incre_win r) r ltac:(unfold is_u64; lia))).
  rewrite (bind_Ok _ _ r (balance r) r).
  2:{ unfold balance. destruct (Z.ltb_spec (decre_win r) (2 * incre_win r)).
      - rewrite (bind_Ok _ _ _ _ _ (checked_ok (2 * incre_win r) r ltac:(unfold is_u64; lia))).
        rewrite checked_ok by (unfold is_u64; lia). f_equal. lia.
      - unfold mret, M_ret. f_equal. lia. }
  unfold cwnd_state, PACKET_SIZE, INITIAL_WINDOW_PACKETS.
  destruct (roll_back_flag r) eqn:Hf; cbn [negb]; msimpl;
    destruct (Z.leb_spec (1200 * 8) (balance r));
    rewrite ?Z.max_l, ?Z.max_r by lia; by destruct r.
Qed.
End Facts.

(** *** One ACK batch

    An [ElictAck] is sent every 8 packets, so the ACK that answers it reports
    at most 8 losses.  The finitely many weight sums they can add up to (in
    any order, since [f32] addition is not associative) are checked one by
    one. *)

Definition batch_ok (losses : nat) (w : f32) : bool :=
  let a := winadd w PACKET_SIZE in
  (if (losses <=? 1)%nat
   then f_gt a (S754_zero false) && (0 <? f64_as_usize a) && (f64_as_usize a <=? 9600)
        && (f64_as_usize (SFopp a) =? 0)
   else negb (f_gt a (S754_zero false)) && (0 <? f64_as_usize (SFopp a))
        && (f64_as_usize (SFopp a) <=? 19176) && (f64_as_usize a =? 0)) &&
  forallb (λ k, f_ne a (f64_of_Z (Z.of_nat k))) (seq 0 9).

Definition batch_weight (ps : list Z) : f32 := foldl (λ w p, weight_of p w) (S754_zero false) ps.

(** The distinct sums of [d] weights. *)
#[local] Instance spec_float_eq_dec : EqDecision spec_float.
Proof. solve_decision. Defined.

Definition add_new (w : f32) (l : list f32) : list f32 :=
  if existsb (λ x, bool_decide (x = w)) l then l else w :: l.
Definition next_sums (l : list f32) : list f32 :=
  foldr (λ w acc, add_new (weight_of 1 w) (add_new (weight_of 2 w) (add_new (weight_of 3 w) acc)))
        [] l.
Fixpoint sums (d : nat) : list f32 :=
  match d with 0%nat => [S754_zero false] | S d' => next_sums (sums d') end.

Lemma elem_add_new x w l : x ∈ add_new w l ↔ x = w ∨ x ∈ l.
Proof.
  unfold add_new. destruct (existsb _ l) eqn:He; [|by rewrite elem_of_cons].
  apply existsb_exists in He as (y & Hy & Heq). apply bool_decide_eq_true in Heq as ->.
  apply list_elem_of_In in Hy. split; [by right|]. by intros [->|].
Qed.

Lemma elem_next_sums w p l : w ∈ l → 1 <= p <= 3 → weight_of p w ∈ next_sums l.
Proof.
  intros Hw Hp. assert (p = 1 ∨ p = 2 ∨ p = 3) as Hc by lia. clear Hp.
  induction l as [|x l IH]; [by apply elem_of_nil in Hw|].
  cbn [next_sums foldr]. rewrite !elem_add_new. apply elem_of_cons in Hw as [->|Hw].
  - destruct Hc as [->|[->| ->]]; tauto.
  - specialize (IH Hw). tauto.
Qed.

Lemma batch_weight_sums ps :
  Forall (λ p, 1 <= p <= 3) ps → batch_weight ps ∈ sums (length ps).
Proof.
  induction ps as [|p ps IH] using rev_ind; intros Hps; [by left|].
  apply Forall_app in Hps as [Hps Hp]. rewrite Forall_singleton in Hp.
  unfold batch_weight. rewrite foldl_app, length_app, Nat.add_1_r. cbn [foldl sums].
  apply elem_next_sums; [by apply IH|exact Hp].
Qed.

Lemma sums_checked : forallb (λ d, forallb (batch_ok d) (sums d)) (seq 0 9) = true.
Proof. vm_compute. reflexivity. Qed.

Lemma batch_checked ps :
  (length ps <= 8)%nat → Forall (λ p, 1 <= p <= 3) ps →
  batch_ok (length ps) (batch_weight ps) = true.
Proof.
  intros Hl Hp. pose proof sums_checked as Hs.
  rewrite forallb_forall in Hs. specialize (Hs (length ps)). rewrite in_seq in Hs.
  specialize (Hs ltac:(lia)). rewrite forallb_forall in Hs. apply Hs.
  by apply list_elem_of_In, batch_weight_sums.
Qed.

(** The bounds [batch_ok] checks, as propositions. *)
Lemma batch_bounds ps :
  (length ps <= 8)%nat → Forall (λ p, 1 <= p <= 3) ps →
  let a := winadd (batch_weight ps) PACKET_SIZE in
  0 <= f64_as_usize a <= 9600 ∧ 0 <= f64_as_usize (SFopp a) <= 19176 ∧
  f_gt a (S754_zero false) = (length ps <=? 1)%nat ∧
  (if (length ps <=? 1)%nat then 0 < f64_as_usize a else 0 < f64_as_usize (SFopp a)).
Proof.
  intros Hl Hp a. pose proof (batch_checked ps Hl Hp) as Hb. unfold batch_ok in Hb. fold a in Hb.
  apply andb_prop in Hb as [Hb _].
  destruct (length ps <=? 1)%nat; repeat (apply andb_prop in Hb as [Hb ?]).
  - rewrite Hb. apply Z.eqb_eq in H. repeat split; lia.
  - apply negb_true_iff in Hb. rewrite Hb. apply Z.eqb_eq in H. repeat split; lia.
Qed.

Lemma batch_ne_count ps (n : nat) :
  (length ps <= 8)%nat → Forall (λ p, 1 <= p <= 3) ps → (n <= 8)%nat →
  f_ne (winadd (batch_weight ps) PACKET_SIZE) (f64_of_Z (Z.of_nat n)) = true.
Proof.
  intros Hl Hp Hn. pose proof (batch_checked ps Hl Hp) as Hb. unfold batch_ok in Hb.
  apply andb_prop in Hb as [_ Hb]. rewrite forallb_forall in Hb. apply Hb, in_seq. lia.
Qed.

(** ** Properties *)

(** What happens to a [Recovery] during a transfer: ACKs, with any weights and
    any number of packets, and the two ways [Connection::write] obtains its
    window. *)
Inductive rec_event :=
| AckReceived (weights : f32) (num : f64)
| WindowOpened
| RolledBack.

(** A history of events; returns the windows that were handed out. *)
Fixpoint replay {P : Profile} (es : list rec_event) : M Recovery (list Z) :=
  match es with
  | [] => mret []
  | AckReceived weights num :: es' => update_win weights num;; replay es'
  | WindowOpened :: es' => w ← cwnd; ws ← replay es'; mret (w :: ws)
  | RolledBack :: es' => w ← rollback; ws ← replay es'; mret (w :: ws)
  end.

(** The first ACK of a history reports at most 8 packets, the lost ones with
    priorities 1 to 3: it answers one [ElictAck]. *)
Fixpoint starts_small (es : list rec_event) : Prop :=
  match es with
  | [] => True
  | AckReceived weights num :: _ =>
      ∃ ps (n : nat), (length ps <= 8)%nat ∧ Forall (λ p, 1 <= p <= 3) ps ∧ (n <= 8)%nat ∧
        weights = batch_weight ps ∧ num = f64_of_Z (Z.of_nat n)
  | _ :: es' => starts_small es'
  end.

(** Before the first ACK there is no window to remember, after it the flag
    keeps windows from being remembered. *)
Definition untouched (r : Recovery) : Prop :=
  max_datagram_size r = PACKET_SIZE ∧ Forall (λ w, w = 0) (former_win_vecter r) ∧
  incre_win r = 0 ∧ decre_win r = 0.
Definition flagged (r : Recovery) : Prop :=
  Forall (λ w, w = 0) (former_win_vecter r) ∧ roll_back_flag r = true.

Section History.
Context {P : Profile}.

Lemma cwnd_flagged w r r' :
  roll_back_flag r = true → cwnd r = Ok w r' →
  max_datagram_size r' = max_datagram_size r ∧
  former_win_vecter r' = former_win_vecter r ∧ roll_back_flag r' = true.
Proof.
  intros Hf H. unfold cwnd in H. rewrite get_bind in H.
  apply bind_inv_Ok in H as (i2 & r1 & H1 & H). apply checked_range in H1 as [_ ->].
  apply bind_inv_Ok in H as (t & r1 & H1 & H).
  assert (r1 = r) as ->.
  { destruct (_ <? _); [|by inversion H1].
    apply bind_inv_Ok in H1 as (? & ? & H2 & H3). apply checked_range in H2 as [_ ->].
    by apply checked_range in H3 as [_ ->]. }
  rewrite Hf in H. cbn [negb] in H. msimpl_in H.
  destruct (_ <=? t); inversion H; by subst.
Qed.

Lemma update_win_flag weights num r r' :
  update_win weights num r = Ok tt r' →
  former_win_vecter r' = former_win_vecter r ∧
  roll_back_flag r' = (if f_ne (winadd weights (max_datagram_size r)) num then true else roll_back_flag r).
Proof.
  unfold update_win. rewrite get_bind. destruct (f_ne _ num); [rewrite modify_bind|rewrite ret_bind];
    (destruct (f_gt _ _); intros H; apply bind_inv_Ok in H as (? & ? & [_ ->]%checked_range & H2);
     injection H2 as <-; done).
Qed.

Lemma rollback_windows w r r' :
  Forall (λ w, w = 0) (former_win_vecter r) → rollback r = Ok w r' →
  (w = INI_WIN ∨ w = 0) ∧ Forall (λ w, w = 0) (former_win_vecter r') ∧
  roll_back_flag r' = roll_back_flag r ∧ max_datagram_size r' = max_datagram_size r ∧
  incre_win r' = incre_win r ∧ decre_win r' = decre_win r.
Proof.
  intros Hv H. unfold rollback in H. rewrite get_bind in H.
  destruct (os_pop_last (former_win_vecter r)) as [[k rest]|] eqn:Ho; injection H as <- <-.
  - rewrite (os_pop_last_elem _ _ _ Ho), Forall_app, Forall_singleton in Hv. destruct Hv as [Hv ->].
    split; [by right|]. done.
  - split; [by left|]. done.
Qed.

Lemma cwnd_untouched w r r' : untouched r → cwnd r = Ok w r' → untouched r'.
Proof.
  intros (Hm & Hv & Hi & Hd) H. rewrite cwnd_Ok in H by (unfold u64_bound; lia). injection H as <- <-.
  unfold untouched, cwnd_state, balance. rewrite Hi, Hd. destruct (roll_back_flag r); [done|].
  split; [done|]. split; [|done]. cbn. apply Forall_forall. intros x [->|Hx]%os_insert_elem; [done|].
  by rewrite Forall_forall in Hv; apply Hv.
Qed.

Lemma replay_flagged es ws r r' : flagged r → replay es r = Ok ws r' → flagged r'.
Proof.
  revert ws r. induction es as [|e es IH]; intros ws r Hf H; [by injection H as _ <-|].
  destruct e as [weights num| |]; cbn [replay] in H; apply bind_inv_Ok in H as (a & r1 & H1 & H).
  - destruct a. destruct (update_win_flag _ _ _ _ H1) as [E1 E2]. destruct Hf as [Hv Hb].
    eapply IH; [|exact H]. split; [by rewrite E1|]. rewrite E2, Hb. by destruct (f_ne _ _).
  - apply bind_inv_Ok in H as (? & ? & H & Hret). injection Hret as _ <-. destruct Hf as [Hv Hb].
    destruct (cwnd_flagged _ _ _ Hb H1) as (_ & E2 & E3). eapply IH; [|exact H]. split; [by rewrite E2|done].
  - apply bind_inv_Ok in H as (? & ? & H & Hret). injection Hret as _ <-. destruct Hf as [Hv Hb].
    destruct (rollback_windows _ _ _ Hv H1) as (_ & Hv' & E & _). eapply IH; [|exact H]. split; [done|congruence].
Qed.

Lemma replay_history es ws r r' :
  untouched r → starts_small es → replay es r = Ok ws r' → Forall (λ w, w = 0) (former_win_vecter r').
Proof.
  revert ws r. induction es as [|e es IH]; intros ws r Hu Hs H; [injection H as _ <-; apply Hu|].
  destruct e as [weights num| |]; cbn [replay starts_small] in H, Hs; apply bind_inv_Ok in H as (a & r1 & H1 & H).
  - destruct a. destruct Hs as (ps & n & Hl & Hp & Hn & -> & ->). destruct Hu as (Hm & Hv & _).
    destruct (update_win_flag _ _ _ _ H1) as [E1 E2]. rewrite Hm, (batch_ne_count ps n Hl Hp Hn) in E2.
    eapply replay_flagged; [|exact H]. split; [by rewrite E1|done].
  - apply bind_inv_Ok in H as (? & ? & H & Hret). injection Hret as _ <-.
    eapply IH; [by eapply cwnd_untouched|done|exact H].
  - apply bind_inv_Ok in H as (? & ? & H & Hret). injection Hret as _ <-. pose proof Hu as (Hm & Hv & Hi & Hd).
    destruct (rollback_windows _ _ _ Hv H1) as (_ & Hv' & _ & E1 & E2 & E3).
    eapply IH; [|done|exact H]. split_and!; congruence.
Qed.

Lemma new_untouched {S} cfg (s s' : S) r : new cfg s = Ok r s' → untouched r.
Proof.
  unfold new, new_with_config. intros H. apply bind_inv_Ok in H as (w & s1 & _ & H).
  injection H as <- _. repeat split; cbn; by try constructor.
Qed.

(** C23: ack_batch_moves_window.  An ACK that answers one [ElictAck] (at most 8
    packets), while the counters are not within 19176 bytes of 2^64, never
    panics and moves exactly one of the two: at most
    one loss adds 1 to 9600 bytes to the growth of the window, two losses or
    more add 1 to 19176 bytes to its reduction, whatever the priorities of
    the lost packets and their order. *)
Theorem ack_batch_moves_window ps num r :
  (length ps <= 8)%nat → Forall (λ p, 1 <= p <= 3) ps →
  max_datagram_size r = PACKET_SIZE →
  0 <= incre_win r < u64_bound - 9600 → 0 <= decre_win r < u64_bound - 19176 →
  ∃ r', update_win (batch_weight ps) num r = Ok tt r' ∧
    (if (length ps <=? 1)%nat
     then incre_win r < incre_win r' <= incre_win r + 9600 ∧ decre_win r' = decre_win r
     else decre_win r < decre_win r' <= decre_win r + 19176 ∧ incre_win r' = incre_win r).
Proof.
  intros Hl Hp Hm Hi Hd. destruct (batch_bounds ps Hl Hp) as (B1 & B2 & B3 & B4).
  exists (win_updated (batch_weight ps) num r). split; [apply update_win_Ok; rewrite ?Hm; lia|].
  unfold win_updated. rewrite Hm. unfold f_gt in *. cbv zeta. rewrite B3.
  destruct (length ps <=? 1)%nat; destruct (f_ne _ num); cbn; lia.
Qed.

(** [cwnd] returns twice the growth less the reduction of the
    interval, but never less than 8 packets of 1200 bytes, records it as the
    congestion window and starts a new interval. *)
Theorem cwnd_floor r :
  0 <= incre_win r → 2 * incre_win r < u64_bound → 0 <= decre_win r →
  ∃ w r', cwnd r = Ok w r' ∧ w = Z.max 9600 (2 * incre_win r - decre_win r) ∧
    congestion_window r' = w ∧ incre_win r' = 0 ∧ decre_win r' = 0.
Proof.
  intros Hi H2 Hd. eexists _, _. split; [by apply cwnd_Ok|].
  unfold PACKET_SIZE, INITIAL_WINDOW_PACKETS, cwnd_state, balance.
  split; [lia|]. by destruct (roll_back_flag r).
Qed.

(** C26: rollback_has_no_history.  A connection whose first ACK answers one
    [ElictAck] (at most 8 packets) never has a window to go back to: whatever
    ACKs, with any weights and any number of packets, whatever windows and
    roll-backs follow, rolling back yields the initial window of 9600 bytes or a
    window of 0 bytes, never a window the congestion control arrived at.
    [update_win] sets the flag that keeps [cwnd] from remembering windows, and
    nothing resets it. *)
Theorem rollback_has_no_history {S} cfg (s s' : S) r0 es ws r w r' :
  new cfg s = Ok r0 s' → starts_small es → replay es r0 = Ok ws r → rollback r = Ok w r' →
  w = INI_WIN ∨ w = 0.
Proof.
  intros H0 Hs Hr Hw. pose proof (replay_history es ws r0 r (new_untouched _ _ _ _ H0) Hs Hr) as Hv.
  apply (rollback_windows _ _ _ Hv Hw).
Qed.

(** Whatever changed the window and the cubic
    parameters since a checkpoint, [NewCubic::rollback] restores the values of
    the checkpoint, as long as the saved state itself was not overwritten. *)
Theorem cubic_rollback_restores r r1 w st :
  NewCubic.checkpoint r = Ok tt r1 → st_prior st = st_prior (cubic_state r1) →
  ∃ r2, NewCubic.rollback (set_congestion_window w (set_cubic_state st r1)) = Ok true r2 ∧
    congestion_window r2 = congestion_window r ∧
    st_k (cubic_state r2) = st_k (cubic_state r) ∧
    st_w_max (cubic_state r2) = st_w_max (cubic_state r).
Proof.
  intros H Hst. injection H as <-. cbn in Hst. eexists. split; [done|]. cbn.
  by rewrite Hst.
Qed.

(** The algorithm name is matched exactly: ["newcubic"]
    selects NewCubic, any other name, ["NEWCUBIC"] included, is refused with
    [CongestionControl] and leaves the configuration unchanged. *)
Theorem cc_name_selects name c :
  Config.set_cc_algorithm_name name c =
    if String.eqb name "newcubic" then Ok tt (mkConfig NEWCUBIC
      (cfg_max_send_udp_payload_size c) (cfg_max_idle_timeout c))
    else Err CongestionControl c.
Proof.
  unfold Config.set_cc_algorithm_name, from_str. by destruct (String.eqb name "newcubic").
Qed.

(** Rolling back right after the first window of a
    connection sets the congestion window to 0 bytes: the only window ever
    remembered is the empty balance of the first call of [cwnd]. *)
Theorem rollback_closes_window {S} cfg (s s' : S) r0 :
  new cfg s = Ok r0 s' →
  ∃ r, (cwnd;; rollback) r0 = Ok 0 r ∧ congestion_window r = 0.
Proof.
  unfold new, new_with_config. intros H. apply bind_inv_Ok in H as (w & s1 & _ & H).
  injection H as <- _. erewrite bind_Ok; [|apply cwnd_Ok; by try (vm_compute; congruence)].
  by eexists.
Qed.
End History.

#[local] Existing Instance debug_x86.

Definition fresh_recovery : Recovery :=
  mkRecovery None State_default 0 None (INITIAL_RTT / 2) 0 [None; None; None] 0
    [0; 0; 0] [0; 0; 0] false NEWCUBIC 10800 0 PACKET_SIZE (f64_lit 1 0) 0 0 [] false.

Lemma ack_batch_moves_window_witness :
  ∃ r', update_win (batch_weight [1; 3]) (f64_of_Z 8) fresh_recovery = Ok tt r' ∧
    (0 < decre_win r' <= 0 + 19176 ∧ incre_win r' = 0).
Proof.
  apply (ack_batch_moves_window [1; 3] (f64_of_Z 8) fresh_recovery).
  - simpl. lia.
  - repeat constructor; lia.
  - reflexivity.
  - vm_compute. split; congruence.
  - vm_compute. split; congruence.
Defined.

Lemma cwnd_floor_witness :
  ∃ w r', cwnd fresh_recovery = Ok w r' ∧ w = Z.max 9600 (2 * 0 - 0) ∧
    congestion_window r' = w ∧ incre_win r' = 0 ∧ decre_win r' = 0.
Proof. apply (cwnd_floor fresh_recovery); vm_compute; congruence. Defined.

(** Two loss-free batches open a window of 38400 bytes; after an ACK for 2000
    packets and losses, the roll-back goes to 0 bytes. *)
Definition good_times : list rec_event :=
  [WindowOpened; AckReceived (batch_weight []) (f64_of_Z 8); AckReceived (batch_weight []) (f64_of_Z 8); WindowOpened;
   AckReceived (batch_weight []) (f64_of_Z 2000); AckReceived (batch_weight [3; 3; 3]) (f64_of_Z 8)].

Lemma rollback_has_no_history_witness :
  ∃ r w r', replay good_times fresh_recovery = Ok [9600; 38400] r ∧ rollback r = Ok w r' ∧
    congestion_window r = 38400 ∧ congestion_window r' = 0 ∧ (w = INI_WIN ∨ w = 0).
Proof.
  assert (E : ∃ r w r', replay good_times fresh_recovery = Ok [9600; 38400] r ∧ rollback r = Ok w r' ∧
    congestion_window r = 38400 ∧ congestion_window r' = 0)
    by (eexists _, _, _; split; [vm_compute; reflexivity|]; split; [reflexivity|]; split; reflexivity).
  destruct E as (r & w & r' & E1 & E2 & E3 & E4). exists r, w, r'.
  split; [exact E1|]. split; [exact E2|]. split; [exact E3|]. split; [exact E4|].
  apply (rollback_has_no_history Config.new tt tt fresh_recovery good_times [9600; 38400] r w r').
  - reflexivity.
  - exists [], 8%nat. repeat split; (simpl; lia) || constructor.
  - exact E1.
  - exact E2.
Defined.

Lemma cubic_rollback_restores_witness :
  ∃ r2, NewCubic.rollback (set_congestion_window 2400 (set_cubic_state
      (mkState (f64_lit 5 1) (f64_lit 7 0)
        (mkPrior 10800 (S754_zero false) (S754_zero false) 0)) fresh_recovery)) = Ok true r2 ∧
    congestion_window r2 = 10800 ∧ st_k (cubic_state r2) = S754_zero false ∧
    st_w_max (cubic_state r2) = S754_zero false.
Proof.
  apply (cubic_rollback_restores fresh_recovery
    (set_cubic_state (mkState (S754_zero false) (S754_zero false)
        (mkPrior 10800 (S754_zero false) (S754_zero false) 0)) fresh_recovery) 2400
    (mkState (f64_lit 5 1) (f64_lit 7 0) (mkPrior 10800 (S754_zero false) (S754_zero false) 0)));
    reflexivity.
Defined.

Lemma rollback_closes_window_witness :
  ∃ r, (cwnd;; rollback) fresh_recovery = Ok 0 r ∧ congestion_window r = 0.
Proof. apply (rollback_closes_window Config.new tt tt fresh_recovery). reflexivity. Defined.
