(* ===== verification/RecoveryV1.v ===== *)
(** * RecoveryV1: the earlier congestion control (src/src/recovery/modv1.rs)

    The repository keeps the version of [Recovery] that came before
    recovery/mod.rs.  It differs in the window polynomial, which depends on the
    number of packets of the batch, and in its memory: one former window, taken
    from the last interval without a reduction, instead of a set of windows.
    This file models it and relates it to the current version ([Recovery]).
    The definitions the two files share word for word ([RecoveryConfig],
    [CongestionControlAlgorithm], the constants and [NewCubic::State]) are taken
    from [Recovery]. *)
From Stdlib Require Import SpecFloat.
From S2P Require Import Prelude Effects OMap SoftFloat Recovery.

Module V1.

Record Recovery := mkRecovery {
  loss_detection_timer : option Z;
  cubic_state : State;
  latest_rtt : Z;
  smoothed_rtt : option Z;
  rttvar : Z;
  min_rtt : Z;
  loss_time : list (option Z);
  lost_count : Z;
  loss_probes : list Z;
  in_flight_count : list Z;
  app_limited : bool;
  cc_ops : CongestionControlAlgorithm;
  congestion_window : Z;
  bytes_in_flight : Z;
  max_datagram_size : Z;
  k : f64;
  incre_win : Z;
  decre_win : Z;
  former_win : Z;
}.

Definition set_cubic_state v r := mkRecovery (loss_detection_timer r) v (latest_rtt r)
  (smoothed_rtt r) (rttvar r) (min_rtt r) (loss_time r) (lost_count r) (loss_probes r)
  (in_flight_count r) (app_limited r) (cc_ops r) (congestion_window r) (bytes_in_flight r)
  (max_datagram_size r) (k r) (incre_win r) (decre_win r) (former_win r).
Definition set_in_flight_count v r := mkRecovery (loss_detection_timer r) (cubic_state r)
  (latest_rtt r) (smoothed_rtt r) (rttvar r) (min_rtt r) (loss_time r) (lost_count r)
  (loss_probes r) v (app_limited r) (cc_ops r) (congestion_window r) (bytes_in_flight r)
  (max_datagram_size r) (k r) (incre_win r) (decre_win r) (former_win r).
Definition set_app_limited v r := mkRecovery (loss_detection_timer r) (cubic_state r)
  (latest_rtt r) (smoothed_rtt r) (rttvar r) (min_rtt r) (loss_time r) (lost_count r)
  (loss_probes r) (in_flight_count r) v (cc_ops r) (congestion_window r) (bytes_in_flight r)
  (max_datagram_size r) (k r) (incre_win r) (decre_win r) (former_win r).
Definition set_congestion_window v r := mkRecovery (loss_detection_timer r) (cubic_state r)
  (latest_rtt r) (smoothed_rtt r) (rttvar r) (min_rtt r) (loss_time r) (lost_count r)
  (loss_probes r) (in_flight_count r) (app_limited r) (cc_ops r) v (bytes_in_flight r)
  (max_datagram_size r) (k r) (incre_win r) (decre_win r) (former_win r).
Definition set_incre_win v r := mkRecovery (loss_detection_timer r) (cubic_state r)
  (latest_rtt r) (smoothed_rtt r) (rttvar r) (min_rtt r) (loss_time r) (lost_count r)
  (loss_probes r) (in_flight_count r) (app_limited r) (cc_ops r) (congestion_window r)
  (bytes_in_flight r) (max_datagram_size r) (k r) v (decre_win r) (former_win r).
Definition set_decre_win v r := mkRecovery (loss_detection_timer r) (cubic_state r)
  (latest_rtt r) (smoothed_rtt r) (rttvar r) (min_rtt r) (loss_time r) (lost_count r)
  (loss_probes r) (in_flight_count r) (app_limited r) (cc_ops r) (congestion_window r)
  (bytes_in_flight r) (max_datagram_size r) (k r) (incre_win r) v (former_win r).
Definition set_former_win v r := mkRecovery (loss_detection_timer r) (cubic_state r)
  (latest_rtt r) (smoothed_rtt r) (rttvar r) (min_rtt r) (loss_time r) (lost_count r)
  (loss_probes r) (in_flight_count r) (app_limited r) (cc_ops r) (congestion_window r)
  (bytes_in_flight r) (max_datagram_size r) (k r) (incre_win r) (decre_win r) v.

(** The operations of NewCubic on this version of the state. *)
Record CongestionControlOps := mkOps {
  op_on_init : M Recovery unit;
  op_reset : M Recovery unit;
  op_collapse_cwnd : M Recovery unit;
  op_checkpoint : M Recovery unit;
  op_rollback : M Recovery bool;
  op_has_custom_pacing : bool;
}.

(** The polynomial of [update_win]: [num] packets in the batch. *)
Definition winadd (k_ : f64) (weights : f32) (num : f64) (mds : Z) : f64 :=
  let centre := f64_div (f64_mul k_ num) (f64_of_Z 8) in
  f64_mul (f64_div (f64_mul (SFopp num) (powi3 (f64_sub (f64_of_f32 weights) centre)))
                   (powi3 centre))
          (f64_of_Z mds).

Section Ops.
Context {P : Profile}.

Definition cubic_reset : M Recovery unit := modify (set_cubic_state State_default).

Definition cubic_collapse_cwnd : M Recovery unit :=
  r ← get;
  modify (λ r, set_cubic_state
    (mkState (st_k (cubic_state r)) (f64_of_Z (congestion_window r)) (st_prior (cubic_state r))) r);;
  w ← umul (max_datagram_size r) MINIMUM_WINDOW_PACKETS;
  modify (set_congestion_window w).

Definition cubic_checkpoint : M Recovery unit :=
  modify (λ r, set_cubic_state
    (mkState (st_k (cubic_state r)) (st_w_max (cubic_state r))
       (mkPrior (congestion_window r) (st_w_max (cubic_state r)) (st_k (cubic_state r))
                (lost_count r))) r).

Definition cubic_rollback : M Recovery bool :=
  modify (λ r, set_congestion_window (prior_congestion_window (st_prior (cubic_state r))) r);;
  modify (λ r, set_cubic_state
    (mkState (prior_k (st_prior (cubic_state r))) (prior_w_max (st_prior (cubic_state r)))
       (st_prior (cubic_state r))) r);;
  mret true.

Definition ops_of (algo : CongestionControlAlgorithm) : CongestionControlOps :=
  match algo with
  | NEWCUBIC => mkOps (mret tt) cubic_reset cubic_collapse_cwnd cubic_checkpoint cubic_rollback
                      false
  end.

Definition new_with_config {S} (c : RecoveryConfig) : M S Recovery :=
  initial_congestion_window ← umul (rc_max_send_udp_payload_size c) INITIAL_WINDOW_PACKETS;
  mret (mkRecovery None State_default 0 None (INITIAL_RTT / 2) 0 [None; None; None] 0
          [0; 0; 0] [0; 0; 0] false (rc_cc_ops c) initial_congestion_window 0 PACKET_SIZE
          (f64_lit 12 1) 0 0 INI_WIN).

Definition new {S} (config : Config) : M S Recovery := new_with_config (from_config config).

Definition on_init : M Recovery unit := r ← get; op_on_init (ops_of (cc_ops r)).

Definition reset : M Recovery unit :=
  r ← get;
  w ← umul (max_datagram_size r) INITIAL_WINDOW_PACKETS;
  modify (set_congestion_window w);;
  modify (set_in_flight_count [0; 0; 0]);;
  op_reset (ops_of (cc_ops r)).

Definition update_win (weights : f32) (num : f64) : M Recovery unit :=
  r ← get;
  let w := winadd (k r) weights num (max_datagram_size r) in
  if f_gt w (S754_zero false) then
    i ← uadd (incre_win r) (f64_as_usize w);
    modify (set_incre_win i)
  else
    d ← uadd (decre_win r) (f64_as_usize (SFopp w));
    modify (set_decre_win d).

Definition should_elicit_ack (pkt_num : Z) : bool := pkt_num mod ELICT_ACK_CONSTANT =? 0.

Definition cwnd : M Recovery Z :=
  r ← get;
  i2 ← umul 2 (incre_win r);
  tmp_win ← (if decre_win r <? i2
             then i2' ← umul 2 (incre_win r); usub i2' (decre_win r)
             else mret 0);
  modify (set_congestion_window tmp_win);;
  (if decre_win r =? 0 then modify (set_former_win tmp_win) else mret tt);;
  modify (set_incre_win 0);;
  modify (set_decre_win 0);;
  if PACKET_SIZE * INITIAL_WINDOW_PACKETS <=? tmp_win then mret tmp_win
  else
    modify (set_congestion_window (PACKET_SIZE * INITIAL_WINDOW_PACKETS));;
    mret (PACKET_SIZE * INITIAL_WINDOW_PACKETS).

Definition cwnd_available (r : Recovery) : Z :=
  Z.max 0 (congestion_window r - bytes_in_flight r).

Definition collapse_cwnd : M Recovery unit := r ← get; op_collapse_cwnd (ops_of (cc_ops r)).

Definition update_app_limited (v : bool) : M Recovery unit := modify (set_app_limited v).

Definition rollback : M Recovery Z :=
  r ← get;
  modify (set_congestion_window (former_win r));;
  mret (former_win r).
End Ops.
End V1.

(** ** One batch of eight packets, in both versions *)

(** The two versions have recorded the same growth and reduction. *)
Definition same_counters (r : Recovery) (r1 : V1.Recovery) : Prop :=
  incre_win r = V1.incre_win r1 ∧ decre_win r = V1.decre_win r1.

(** The current version has grown at most as much, and shrunk at least as much. *)
Definition dominated (r : Recovery) (r1 : V1.Recovery) : Prop :=
  incre_win r <= V1.incre_win r1 ∧ V1.decre_win r1 <= decre_win r.

(** The parameters both constructors set. *)
Definition tuned (r : Recovery) (r1 : V1.Recovery) : Prop :=
  max_datagram_size r = PACKET_SIZE ∧ V1.max_datagram_size r1 = PACKET_SIZE ∧
  V1.k r1 = f64_lit 12 1.

Definition v1_winadd (w : f32) : f64 := V1.winadd (f64_lit 12 1) w (f64_of_Z 8) PACKET_SIZE.

Definition batch_dominated (losses : nat) (w : f32) : bool :=
  let a := winadd w PACKET_SIZE in let a1 := v1_winadd w in
  (f64_as_usize a <=? f64_as_usize a1) && (f64_as_usize (SFopp a1) <=? f64_as_usize (SFopp a)) &&
  (f64_as_usize a1 <=? 9600) && (f64_as_usize (SFopp a1) <=? 2844) &&
  (if (losses <=? 5)%nat then f_gt a1 (S754_zero false) || (f64_as_usize (SFopp a1) =? 0) else true) &&
  (if f_gt a1 (S754_zero false) then f64_as_usize (SFopp a1) =? 0 else f64_as_usize a1 =? 0) &&
  (if (losses =? 0)%nat then (f64_as_usize a =? 9600) && (f64_as_usize a1 =? 9600) else true).

Lemma sums_dominated : forallb (λ d, forallb (batch_dominated d) (sums d)) (seq 0 9) = true.
Proof. vm_compute. reflexivity. Qed.

Lemma batch_dominated_checked ps :
  (length ps <= 8)%nat → Forall (λ p, 1 <= p <= 3) ps →
  batch_dominated (length ps) (batch_weight ps) = true.
Proof.
  intros Hl Hp. pose proof sums_dominated as Hs.
  rewrite forallb_forall in Hs. specialize (Hs (length ps)). rewrite in_seq in Hs.
  specialize (Hs ltac:(lia)). rewrite forallb_forall in Hs.
  by apply Hs, list_elem_of_In, batch_weight_sums.
Qed.

(** The effect of a batch of eight packets on the counters of the earlier version. *)
Lemma v1_batch_bounds ps :
  (length ps <= 8)%nat → Forall (λ p, 1 <= p <= 3) ps →
  let a := winadd (batch_weight ps) PACKET_SIZE in let a1 := v1_winadd (batch_weight ps) in
  f64_as_usize a <= f64_as_usize a1 <= 9600 ∧
  f64_as_usize (SFopp a1) <= f64_as_usize (SFopp a) ∧ f64_as_usize (SFopp a1) <= 2844 ∧
  (if f_gt a1 (S754_zero false) then f64_as_usize (SFopp a1) = 0 else f64_as_usize a1 = 0) ∧
  ((length ps <= 5)%nat → f64_as_usize (SFopp a1) = 0) ∧
  (ps = [] → f64_as_usize a = 9600 ∧ f64_as_usize a1 = 9600).
Proof.
  intros Hl Hp a a1. pose proof (batch_dominated_checked ps Hl Hp) as Hb.
  unfold batch_dominated in Hb. fold a a1 in Hb.
  repeat (apply andb_prop in Hb as [Hb ?]).
  assert (Hs : if f_gt a1 (S754_zero false) then f64_as_usize (SFopp a1) = 0
               else f64_as_usize a1 = 0) by (destruct (f_gt a1 _); lia).
  split; [lia|]. split; [lia|]. split; [lia|]. split; [done|]. split.
  - intros Hle. apply Nat.leb_le in Hle. rewrite Hle in *.
    destruct (f_gt a1 _); [done|]. cbn in *. lia.
  - intros ->. cbn in *. lia.
Qed.

Section Facts.
Context {P : Profile}.

Lemma v1_update_win_Ok weights num r :
  is_u64 (V1.incre_win r) → is_u64 (V1.decre_win r) →
  let w := V1.winadd (V1.k r) weights num (V1.max_datagram_size r) in
  V1.incre_win r + f64_as_usize w < u64_bound →
  V1.decre_win r + f64_as_usize (SFopp w) < u64_bound →
  V1.update_win weights num r =
    Ok tt (if f_gt w (S754_zero false) then V1.set_incre_win (V1.incre_win r + f64_as_usize w) r
           else V1.set_decre_win (V1.decre_win r + f64_as_usize (SFopp w)) r).
Proof.
  intros [? _] [? _] w H1 H2. unfold V1.update_win, uadd. msimpl. fold w.
  pose proof (f64_as_usize_u64 w) as [? _]. pose proof (f64_as_usize_u64 (SFopp w)) as [? _].
  destruct (f_gt w _); by rewrite checked_ok by (unfold is_u64; lia).
Qed.

(** What [cwnd] of the earlier version computes. *)
Definition v1_balance (r : V1.Recovery) : Z := Z.max 0 (2 * V1.incre_win r - V1.decre_win r).
Definition v1_cwnd_state (r : V1.Recovery) : V1.Recovery :=
  V1.set_congestion_window (Z.max 9600 (v1_balance r))
    (V1.set_decre_win 0 (V1.set_incre_win 0
      (if V1.decre_win r =? 0 then V1.set_former_win (v1_balance r) r else r))).

Lemma v1_cwnd_Ok r :
  0 <= V1.incre_win r → 2 * V1.incre_win r < u64_bound → 0 <= V1.decre_win r →
  V1.cwnd r = Ok (Z.max 9600 (v1_balance r)) (v1_cwnd_state r).
Proof.
  intros Hi H2 Hd. unfold V1.cwnd, umul, usub. rewrite get_bind.
  rewrite checked_bind by (unfold is_u64; lia).
  rewrite (bind_Ok _ _ r (v1_balance r) r).
  2:{ unfold v1_balance. destruct (Z.ltb_spec (V1.decre_win r) (2 * V1.incre_win r)).
      - rewrite checked_bind by (unfold is_u64; lia).
        rewrite checked_ok by (unfold is_u64; lia). f_equal. lia.
      - unfold mret, M_ret. f_equal. lia. }
  unfold v1_cwnd_state, PACKET_SIZE, INITIAL_WINDOW_PACKETS.
  destruct (V1.decre_win r =? 0); msimpl;
    destruct (Z.leb_spec (1200 * 8) (v1_balance r));
    rewrite ?Z.max_l, ?Z.max_r by lia; by destruct r.
Qed.
End Facts.

(** ** Properties *)

(** An interval between two windows: the ACKs of [bs], each with the priorities
    of the packets a batch of eight lost, and then the window. *)
Fixpoint interval {P : Profile} (bs : list (list Z)) : M Recovery Z :=
  match bs with
  | [] => cwnd
  | ps :: bs' => update_win (batch_weight ps) (f64_of_Z 8);; interval bs'
  end.
Fixpoint v1_interval {P : Profile} (bs : list (list Z)) : M V1.Recovery Z :=
  match bs with
  | [] => V1.cwnd
  | ps :: bs' => V1.update_win (batch_weight ps) (f64_of_Z 8);; v1_interval bs'
  end.

Definition batches (bs : list (list Z)) : Prop :=
  Forall (λ ps, (length ps <= 8)%nat ∧ Forall (λ p, 1 <= p <= 3) ps) bs.

(** The counters leave room for [n] more batches. *)
Definition headroom (n : nat) (r : Recovery) (r1 : V1.Recovery) : Prop :=
  0 <= incre_win r ∧ 0 <= V1.decre_win r1 ∧
  2 * (V1.incre_win r1 + 9600 * Z.of_nat n) < u64_bound ∧
  decre_win r + 19176 * Z.of_nat n < u64_bound.

(** The steps of the earlier version during a transfer; the label says whether
    the step took a window from an interval without a reduction. *)
Inductive v1_step {P : Profile} : bool → V1.Recovery → V1.Recovery → Prop :=
| v1_ack weights num r r' : V1.update_win weights num r = Ok tt r' → v1_step false r r'
| v1_cwnd w r r' : V1.cwnd r = Ok w r' → v1_step (V1.decre_win r =? 0) r r'
| v1_rollback w r r' : V1.rollback r = Ok w r' → v1_step false r r'.
Definition v1_any {P : Profile} (r r' : V1.Recovery) : Prop := ∃ clean, v1_step clean r r'.

Section Properties.
Context {P : Profile}.

(** One batch keeps the relation of the two versions. *)
Lemma batch_step n ps r r1 :
  (length ps <= 8)%nat → Forall (λ p, 1 <= p <= 3) ps →
  tuned r r1 → dominated r r1 → headroom (S n) r r1 →
  ∃ r' r1', update_win (batch_weight ps) (f64_of_Z 8) r = Ok tt r' ∧
    V1.update_win (batch_weight ps) (f64_of_Z 8) r1 = Ok tt r1' ∧
    tuned r' r1' ∧ dominated r' r1' ∧ headroom n r' r1' ∧
    (ps = [] → same_counters r r1 → same_counters r' r1').
Proof.
  intros Hl Hp (T1 & T2 & T3) [D1 D2] (R1 & R2 & R3 & R4). unfold headroom, u64_bound in *.
  destruct (batch_bounds ps Hl Hp) as (B1 & B2 & B3 & B4).
  destruct (v1_batch_bounds ps Hl Hp) as (C1 & C2 & C3 & C4 & _ & C6).
  pose proof (f64_as_usize_u64 (SFopp (v1_winadd (batch_weight ps)))) as [Hu _].
  set (a := winadd (batch_weight ps) PACKET_SIZE) in *.
  set (a1 := v1_winadd (batch_weight ps)) in *.
  eexists _, _. split; [apply update_win_Ok; rewrite ?T1; fold a; unfold u64_bound; lia|].
  split; [apply v1_update_win_Ok; rewrite ?T2, ?T3; fold (v1_winadd (batch_weight ps)); fold a1;
          unfold is_u64, u64_bound; lia|].
  unfold win_updated, same_counters. rewrite T1, T2, T3. fold (v1_winadd (batch_weight ps)). fold a a1. cbv zeta.
  rewrite B3. clearbody a a1.
  assert (Hn : ps = [] → (length ps <=? 1)%nat = true) by (by intros ->).
  destruct (length ps <=? 1)%nat, (f_gt a1 _), (f_ne a _); cbn;
    (split; [done|]); (split; [split; cbn; lia|]); (split; [lia|]);
    intros Hps [S1 S2]; specialize (Hn Hps); destruct (C6 Hps); (done || lia).
Qed.

(** C24: v1_window_dominates.  The earlier version opens at least the window of the current one.  Started
    with the same packet size and counters so ordered, with room in the counters,
    and fed the same ACKs of full batches, both return, the current window is at most the
    earlier one, and without losses they are the same. *)
Theorem v1_window_dominates bs r r1 :
  batches bs → tuned r r1 → dominated r r1 → headroom (length bs) r r1 →
  ∃ w w1 r' r1', interval bs r = Ok w r' ∧ v1_interval bs r1 = Ok w1 r1' ∧
    9600 <= w <= w1 ∧ tuned r' r1' ∧ dominated r' r1' ∧
    (Forall (λ ps, ps = []) bs → same_counters r r1 → w = w1).
Proof.
  intros Hb. revert r r1.
  induction Hb as [|ps bs [Hl Hp] _ IH]; intros r r1 Ht Hd Hr.
  - destruct Hd as [D1 D2]. destruct Hr as (R1 & R2 & R3 & R4). cbn [interval v1_interval].
    eexists _, _, _, _. split; [apply cwnd_Ok; lia|]. split; [apply v1_cwnd_Ok; lia|].
    unfold PACKET_SIZE, INITIAL_WINDOW_PACKETS, balance, v1_balance.
    split; [lia|]. split; [|split].
    + destruct Ht as (? & ? & ?). unfold tuned, cwnd_state, v1_cwnd_state.
      by destruct (roll_back_flag r), (V1.decre_win r1 =? 0).
    + unfold dominated, cwnd_state, v1_cwnd_state.
      by destruct (roll_back_flag r), (V1.decre_win r1 =? 0).
    + intros _ [-> ->]. lia.
  - destruct (batch_step (length bs) ps r r1 Hl Hp Ht Hd Hr) as (r2 & r3 & E1 & E2 & Ht' & Hd' & Hr' & Hs).
    destruct (IH r2 r3 Ht' Hd' Hr') as (w & w1 & r' & r1' & F1 & F2 & Hw & Ht2 & Hd2 & Hsame).
    exists w, w1, r', r1'. cbn [interval v1_interval].
    rewrite (bind_Ok _ _ _ _ _ E1), (bind_Ok _ _ _ _ _ E2).
    do 5 (split; [done|]). intros [Hn Hall]%Forall_cons Hc. by apply Hsame, Hs.
Qed.

(** The balance both versions compute does not depend on the rest of the state. *)
Lemma tmp_win_cases i d v :
  (∃ t, ∀ S (s : S), (if d <? v then i2 ← umul 2 i; usub i2 d else mret 0 : M S Z) s = Ok t s) ∨
  (∃ p, ∀ S (s : S), (if d <? v then i2 ← umul 2 i; usub i2 d else mret 0 : M S Z) s = Panicked p).
Proof.
  destruct (d <? v); [|left; by exists 0]. unfold umul, usub.
  destruct (checked_cases (2 * i)) as [[x Hx]|[p Hp]].
  - destruct (checked_cases (x - d)) as [[y Hy]|[p Hp]]; [left; exists y|right; exists p];
      intros S s; by rewrite (bind_Ok _ _ _ _ _ (Hx S s)).
  - right. exists p. intros S s. by rewrite (bind_Panicked _ _ _ _ (Hp S s)).
Qed.

(** C25: v1_cwnd_equivalent.  For the same recorded growth and reduction both versions compute the same
    window, or both panic, overflow and wrap-around included, and afterwards
    they agree again, on the congestion window too. *)
Theorem v1_cwnd_equivalent r r1 :
  same_counters r r1 →
  match cwnd r, V1.cwnd r1 with
  | Ok w r', Ok w1 r1' =>
      w = w1 ∧ same_counters r' r1' ∧ congestion_window r' = V1.congestion_window r1'
  | Panicked p, Panicked p1 => p = p1
  | _, _ => False
  end.
Proof.
  intros [Hi Hd]. unfold cwnd, V1.cwnd, umul, usub. rewrite !get_bind, Hi, Hd.
  destruct (checked_cases (2 * V1.incre_win r1)) as [[v Hv]|[p Hp]].
  2:{ by rewrite (bind_Panicked _ _ _ _ (Hp _ r)), (bind_Panicked _ _ _ _ (Hp _ r1)). }
  rewrite (bind_Ok _ _ _ _ _ (Hv _ r)), (bind_Ok _ _ _ _ _ (Hv _ r1)).
  destruct (tmp_win_cases (V1.incre_win r1) (V1.decre_win r1) v) as [[u Hu]|[p Hp]].
  2:{ by rewrite (bind_Panicked _ _ _ _ (Hp _ r)), (bind_Panicked _ _ _ _ (Hp _ r1)). }
  rewrite (bind_Ok _ _ _ _ _ (Hu _ r)), (bind_Ok _ _ _ _ _ (Hu _ r1)).
  destruct (roll_back_flag r), (V1.decre_win r1 =? 0); msimpl; cbn [negb];
    destruct (_ <=? u); by repeat split.
Qed.

(** The former window and what [cwnd] makes of it. *)
Lemma v1_cwnd_former w r r' :
  V1.cwnd r = Ok w r' →
  if V1.decre_win r =? 0 then w = Z.max 9600 (V1.former_win r')
  else V1.former_win r' = V1.former_win r.
Proof.
  unfold V1.cwnd. rewrite get_bind. intros H.
  apply bind_inv_Ok in H as (i2 & r1 & H1 & H). apply checked_range in H1 as [_ ->].
  apply bind_inv_Ok in H as (t & r1 & H1 & H).
  assert (r1 = r) as ->.
  { destruct (_ <? _); [|by inversion H1].
    apply bind_inv_Ok in H1 as (? & ? & H2 & H3). apply checked_range in H2 as [_ ->].
    by apply checked_range in H3 as [_ ->]. }
  unfold PACKET_SIZE, INITIAL_WINDOW_PACKETS in H.
  destruct (V1.decre_win r =? 0); msimpl_in H; destruct (Z.leb_spec (1200 * 8) t);
    injection H as <- <-; cbn; lia.
Qed.

Lemma v1_step_former r r' : v1_step false r r' → V1.former_win r' = V1.former_win r.
Proof.
  intros H. remember false as b eqn:Hb. destruct H as [w n r r' H|w r r' H|w r r' H].
  - unfold V1.update_win in H. rewrite get_bind in H.
    destruct (f_gt _ _); apply bind_inv_Ok in H as (? & ? & H1 & H2);
      apply checked_range in H1 as [_ ->]; by injection H2 as <-.
  - apply v1_cwnd_former in H. by rewrite Hb in H.
  - injection H as _ <-. done.
Qed.

(** Where the former window comes from: the initial value, or the last clean
    interval of the history. *)
Lemma v1_former_origin r0 r :
  rtc v1_any r0 r →
  (rtc (v1_step false) r0 r) ∨
  ∃ r1 r2, rtc v1_any r0 r1 ∧ V1.decre_win r1 = 0 ∧
    V1.cwnd r1 = Ok (Z.max 9600 (V1.former_win r2)) r2 ∧ rtc (v1_step false) r2 r.
Proof.
  revert r. apply rtc_ind_r; [by left; apply rtc_refl|].
  intros r r' Hr [clean Hs] IH. destruct clean.
  - right. remember true as b eqn:Hb. destruct Hs as [|w r r' H|]; [done| |done].
    exists r, r'. pose proof (v1_cwnd_former _ _ _ H) as Hf. rewrite Hb in Hf. subst w.
    split; [done|]. split; [lia|]. split; [done|apply rtc_refl].
  - destruct IH as [IH|(r1 & r2 & H1 & H2 & H3 & H4)]; [left; by eapply rtc_r|].
    right. exists r1, r2. do 3 (split; [done|]). by eapply rtc_r.
Qed.

Lemma v1_former_kept r r' : rtc (v1_step false) r r' → V1.former_win r' = V1.former_win r.
Proof. induction 1 as [|? ? ? H _ ->]; [done|by apply v1_step_former]. Qed.

(** Unlike the current version, the earlier one has a history to go back to:
    a roll-back returns the balance of the last interval without a reduction, or
    the initial window of 9600 bytes if there was none, whatever happened since.
    (The balance of an interval without ACKs is 0.) *)
Theorem v1_rollback_restores_clean_window {S} cfg (s s' : S) r0 r :
  V1.new cfg s = Ok r0 s' → rtc v1_any r0 r →
  ∃ w r', V1.rollback r = Ok w r' ∧ V1.congestion_window r' = w ∧
    ((w = INI_WIN ∧ rtc (v1_step false) r0 r) ∨
     ∃ r1 r2, rtc v1_any r0 r1 ∧ V1.decre_win r1 = 0 ∧ V1.cwnd r1 = Ok (Z.max 9600 w) r2 ∧
       rtc (v1_step false) r2 r).
Proof.
  intros H0 Hr. eexists _, _. split; [done|]. split; [done|].
  destruct (v1_former_origin r0 r Hr) as [Hc|(r1 & r2 & H1 & H2 & H3 & H4)].
  - left. split; [|done]. rewrite (v1_former_kept _ _ Hc).
    unfold V1.new, V1.new_with_config in H0. apply bind_inv_Ok in H0 as (w & s1 & _ & H0).
    by injection H0 as <- _.
  - right. exists r1, r2. rewrite (v1_former_kept _ _ H4). by do 3 (split; [done|]).
Qed.
End Properties.

#[local] Existing Instance debug_x86.

Definition v1_fresh : V1.Recovery :=
  V1.mkRecovery None State_default 0 None (INITIAL_RTT / 2) 0 [None; None; None] 0
    [0; 0; 0] [0; 0; 0] false NEWCUBIC 10800 0 PACKET_SIZE (f64_lit 12 1) 0 0 INI_WIN.

Lemma v1_window_dominates_witness :
  ∃ w w1 r' r1', interval [[]; [1; 3]; []] fresh_recovery = Ok w r' ∧
    v1_interval [[]; [1; 3]; []] v1_fresh = Ok w1 r1' ∧
    9600 <= w <= w1 ∧ tuned r' r1' ∧ dominated r' r1' ∧
    (Forall (λ ps, ps = []) [[]; [1; 3]; []] → same_counters fresh_recovery v1_fresh → w = w1).
Proof.
  apply (v1_window_dominates [[]; [1; 3]; []] fresh_recovery v1_fresh).
  - repeat constructor; simpl; lia.
  - by repeat split.
  - by split.
  - unfold headroom. cbn. unfold u64_bound. lia.
Defined.

Lemma v1_cwnd_equivalent_witness :
  match cwnd fresh_recovery, V1.cwnd v1_fresh with
  | Ok w r', Ok w1 r1' =>
      w = w1 ∧ same_counters r' r1' ∧ congestion_window r' = V1.congestion_window r1'
  | Panicked p, Panicked p1 => p = p1
  | _, _ => False
  end.
Proof. apply (v1_cwnd_equivalent fresh_recovery v1_fresh). by split. Defined.

(** A history with one lossless batch and its window of 19200 bytes, and then a
    heavy loss: the roll-back goes back to 19200. *)
Definition v1_grown : V1.Recovery :=
  V1.set_congestion_window 19200 (V1.set_former_win 19200 v1_fresh).
Definition v1_shrunk : V1.Recovery := V1.set_decre_win 2844 v1_grown.

Lemma v1_rollback_restores_clean_window_witness :
  ∃ w r', V1.rollback v1_shrunk = Ok w r' ∧ V1.congestion_window r' = w ∧
    ((w = INI_WIN ∧ rtc (v1_step false) v1_fresh v1_shrunk) ∨
     ∃ r1 r2, rtc v1_any v1_fresh r1 ∧ V1.decre_win r1 = 0 ∧ V1.cwnd r1 = Ok (Z.max 9600 w) r2 ∧
       rtc (v1_step false) r2 v1_shrunk).
Proof.
  apply (v1_rollback_restores_clean_window Config.new tt tt v1_fresh v1_shrunk).
  - reflexivity.
  - eapply rtc_l.
    { exists false. apply (v1_ack (batch_weight []) (f64_of_Z 8)). vm_compute. reflexivity. }
    eapply rtc_l.
    { eexists. eapply (v1_cwnd 19200). vm_compute. reflexivity. }
    eapply rtc_l; [|apply rtc_refl]. exists false.
    apply (v1_ack (batch_weight [3; 3; 3; 3; 3; 3; 3; 3]) (f64_of_Z 8)).
    vm_compute. reflexivity.
Defined.
