(* ===== verification/Connection.v ===== *)
(** * Connection: an endpoint of the protocol (src/src/lib.rs, [Connection])

    State and methods of a connection.  The side that calls [accept] is the
    sender of the application data ([is_server]); the other side receives it,
    records what arrived and answers every [ElictAck] with an [ACK].  The
    readings of [Instant::now()] are arguments of the methods that take them,
    in nanoseconds; the [println!] traces are left out.  The order in which a
    [HashMap] is iterated is unspecified and is a parameter ([HashOrder]). *)
From Stdlib Require Import SpecFloat.
From S2P Require Import Prelude Effects Octets Packet OMap SoftFloat RangeBuf RecvBuf SendBuf Recovery.

Inductive SocketAddr :=
| V4 (ip : list Z) (port : Z)
| V6 (ip : list Z) (port flowinfo scope_id : Z).

Record RecvInfo := mkRecvInfo { recv_from : SocketAddr; recv_to : SocketAddr }.
Record SendInfo := mkSendInfo { info_from : SocketAddr; info_to : SocketAddr }.

(** [HashMap::iter]: every entry once, in an unspecified order. *)
Class HashOrder := { hash_iter : gmap Z Z → list (Z * Z) }.
Class HashOrderSpec (H : HashOrder) : Prop :=
  { hash_iter_perm m : hash_iter m ≡ₚ map_to_list m }.

Definition map_order : HashOrder := {| hash_iter := map_to_list |}.
Lemma map_order_spec : HashOrderSpec map_order.
Proof. by split. Qed.

Definition HEADER_LENGTH : Z := 26.
Definition ELICT_FLAG : Z := 8.
Definition CONGESTION_THREAHOLD : f64 := f64_lit 1 2.
Definition MIN_CLIENT_INITIAL_LEN : Z := 1350.

Record Connection := mkConnection {
  c_recv_count : Z;
  c_sent_count : Z;
  c_draining_timer : option Z;
  c_is_server : bool;
  c_handshake_completed : bool;
  c_handshake_confirmed : bool;
  c_closed : bool;
  c_timed_out : bool;
  c_server : bool;
  c_localaddr : SocketAddr;
  c_peeraddr : SocketAddr;
  c_recovery : Recovery;
  c_pkt_num_spaces : PktNumSpace * PktNumSpace;
  c_rtt : Z;
  c_handshake : Z;
  c_send_buffer : SendBuf;
  c_rec_buffer : RecvBuf;
  c_written_data : Z;
  c_stop_flag : bool;
  c_stop_ack : bool;
  c_prioritydic : gmap Z Z;
  c_sent_pkt : list Z;
  c_recv_dic : gmap Z Z;
  c_low_split_point : f32;
  c_high_split_point : f32;
  c_send_data : list Z;
  c_norm2_vec : list f32;
  c_total_offset : Z;
  c_recv_flag : bool;
  c_recv_hashmap : gmap Z Z;
  c_feed_back : bool;
  c_ack_point : Z;
  c_max_off : Z;
  c_send_num : Z;
  c_high_priority : Z;
  c_sent_number : Z;
  c_recv_pkt_sent_num : list Z;
  c_sent_dic : gmap Z Z;
}.

Definition set_recv_count v c := mkConnection v (c_sent_count c) (c_draining_timer c) (c_is_server
  c) (c_handshake_completed c) (c_handshake_confirmed c) (c_closed c) (c_timed_out c) (c_server c)
  (c_localaddr c) (c_peeraddr c) (c_recovery c) (c_pkt_num_spaces c) (c_rtt c) (c_handshake c)
  (c_send_buffer c) (c_rec_buffer c) (c_written_data c) (c_stop_flag c) (c_stop_ack c)
  (c_prioritydic c) (c_sent_pkt c) (c_recv_dic c) (c_low_split_point c) (c_high_split_point c)
  (c_send_data c) (c_norm2_vec c) (c_total_offset c) (c_recv_flag c) (c_recv_hashmap c) (c_feed_back
  c) (c_ack_point c) (c_max_off c) (c_send_num c) (c_high_priority c) (c_sent_number c)
  (c_recv_pkt_sent_num c) (c_sent_dic c).
Definition set_sent_count v c := mkConnection (c_recv_count c) v (c_draining_timer c) (c_is_server
  c) (c_handshake_completed c) (c_handshake_confirmed c) (c_closed c) (c_timed_out c) (c_server c)
  (c_localaddr c) (c_peeraddr c) (c_recovery c) (c_pkt_num_spaces c) (c_rtt c) (c_handshake c)
  (c_send_buffer c) (c_rec_buffer c) (c_written_data c) (c_stop_flag c) (c_stop_ack c)
  (c_prioritydic c) (c_sent_pkt c) (c_recv_dic c) (c_low_split_point c) (c_high_split_point c)
  (c_send_data c) (c_norm2_vec c) (c_total_offset c) (c_recv_flag c) (c_recv_hashmap c) (c_feed_back
  c) (c_ack_point c) (c_max_off c) (c_send_num c) (c_high_priority c) (c_sent_number c)
  (c_recv_pkt_sent_num c) (c_sent_dic c).
Definition set_handshake_completed v c := mkConnection (c_recv_count c) (c_sent_count c)
  (c_draining_timer c) (c_is_server c) v (c_handshake_confirmed c) (c_closed c) (c_timed_out c)
  (c_server c) (c_localaddr c) (c_peeraddr c) (c_recovery c) (c_pkt_num_spaces c) (c_rtt c)
  (c_handshake c) (c_send_buffer c) (c_rec_buffer c) (c_written_data c) (c_stop_flag c) (c_stop_ack
  c) (c_prioritydic c) (c_sent_pkt c) (c_recv_dic c) (c_low_split_point c) (c_high_split_point c)
  (c_send_data c) (c_norm2_vec c) (c_total_offset c) (c_recv_flag c) (c_recv_hashmap c) (c_feed_back
  c) (c_ack_point c) (c_max_off c) (c_send_num c) (c_high_priority c) (c_sent_number c)
  (c_recv_pkt_sent_num c) (c_sent_dic c).
Definition set_handshake_confirmed v c := mkConnection (c_recv_count c) (c_sent_count c)
  (c_draining_timer c) (c_is_server c) (c_handshake_completed c) v (c_closed c) (c_timed_out c)
  (c_server c) (c_localaddr c) (c_peeraddr c) (c_recovery c) (c_pkt_num_spaces c) (c_rtt c)
  (c_handshake c) (c_send_buffer c) (c_rec_buffer c) (c_written_data c) (c_stop_flag c) (c_stop_ack
  c) (c_prioritydic c) (c_sent_pkt c) (c_recv_dic c) (c_low_split_point c) (c_high_split_point c)
  (c_send_data c) (c_norm2_vec c) (c_total_offset c) (c_recv_flag c) (c_recv_hashmap c) (c_feed_back
  c) (c_ack_point c) (c_max_off c) (c_send_num c) (c_high_priority c) (c_sent_number c)
  (c_recv_pkt_sent_num c) (c_sent_dic c).
Definition set_recovery v c := mkConnection (c_recv_count c) (c_sent_count c) (c_draining_timer c)
  (c_is_server c) (c_handshake_completed c) (c_handshake_confirmed c) (c_closed c) (c_timed_out c)
  (c_server c) (c_localaddr c) (c_peeraddr c) v (c_pkt_num_spaces c) (c_rtt c) (c_handshake c)
  (c_send_buffer c) (c_rec_buffer c) (c_written_data c) (c_stop_flag c) (c_stop_ack c)
  (c_prioritydic c) (c_sent_pkt c) (c_recv_dic c) (c_low_split_point c) (c_high_split_point c)
  (c_send_data c) (c_norm2_vec c) (c_total_offset c) (c_recv_flag c) (c_recv_hashmap c) (c_feed_back
  c) (c_ack_point c) (c_max_off c) (c_send_num c) (c_high_priority c) (c_sent_number c)
  (c_recv_pkt_sent_num c) (c_sent_dic c).
Definition set_pkt_num_spaces v c := mkConnection (c_recv_count c) (c_sent_count c)
  (c_draining_timer c) (c_is_server c) (c_handshake_completed c) (c_handshake_confirmed c) (c_closed
  c) (c_timed_out c) (c_server c) (c_localaddr c) (c_peeraddr c) (c_recovery c) v (c_rtt c)
  (c_handshake c) (c_send_buffer c) (c_rec_buffer c) (c_written_data c) (c_stop_flag c) (c_stop_ack
  c) (c_prioritydic c) (c_sent_pkt c) (c_recv_dic c) (c_low_split_point c) (c_high_split_point c)
  (c_send_data c) (c_norm2_vec c) (c_total_offset c) (c_recv_flag c) (c_recv_hashmap c) (c_feed_back
  c) (c_ack_point c) (c_max_off c) (c_send_num c) (c_high_priority c) (c_sent_number c)
  (c_recv_pkt_sent_num c) (c_sent_dic c).
Definition set_rtt v c := mkConnection (c_recv_count c) (c_sent_count c) (c_draining_timer c)
  (c_is_server c) (c_handshake_completed c) (c_handshake_confirmed c) (c_closed c) (c_timed_out c)
  (c_server c) (c_localaddr c) (c_peeraddr c) (c_recovery c) (c_pkt_num_spaces c) v (c_handshake c)
  (c_send_buffer c) (c_rec_buffer c) (c_written_data c) (c_stop_flag c) (c_stop_ack c)
  (c_prioritydic c) (c_sent_pkt c) (c_recv_dic c) (c_low_split_point c) (c_high_split_point c)
  (c_send_data c) (c_norm2_vec c) (c_total_offset c) (c_recv_flag c) (c_recv_hashmap c) (c_feed_back
  c) (c_ack_point c) (c_max_off c) (c_send_num c) (c_high_priority c) (c_sent_number c)
  (c_recv_pkt_sent_num c) (c_sent_dic c).
Definition set_handshake v c := mkConnection (c_recv_count c) (c_sent_count c) (c_draining_timer c)
  (c_is_server c) (c_handshake_completed c) (c_handshake_confirmed c) (c_closed c) (c_timed_out c)
  (c_server c) (c_localaddr c) (c_peeraddr c) (c_recovery c) (c_pkt_num_spaces c) (c_rtt c) v
  (c_send_buffer c) (c_rec_buffer c) (c_written_data c) (c_stop_flag c) (c_stop_ack c)
  (c_prioritydic c) (c_sent_pkt c) (c_recv_dic c) (c_low_split_point c) (c_high_split_point c)
  (c_send_data c) (c_norm2_vec c) (c_total_offset c) (c_recv_flag c) (c_recv_hashmap c) (c_feed_back
  c) (c_ack_point c) (c_max_off c) (c_send_num c) (c_high_priority c) (c_sent_number c)
  (c_recv_pkt_sent_num c) (c_sent_dic c).
Definition set_send_buffer v c := mkConnection (c_recv_count c) (c_sent_count c) (c_draining_timer
  c) (c_is_server c) (c_handshake_completed c) (c_handshake_confirmed c) (c_closed c) (c_timed_out
  c) (c_server c) (c_localaddr c) (c_peeraddr c) (c_recovery c) (c_pkt_num_spaces c) (c_rtt c)
  (c_handshake c) v (c_rec_buffer c) (c_written_data c) (c_stop_flag c) (c_stop_ack c)
  (c_prioritydic c) (c_sent_pkt c) (c_recv_dic c) (c_low_split_point c) (c_high_split_point c)
  (c_send_data c) (c_norm2_vec c) (c_total_offset c) (c_recv_flag c) (c_recv_hashmap c) (c_feed_back
  c) (c_ack_point c) (c_max_off c) (c_send_num c) (c_high_priority c) (c_sent_number c)
  (c_recv_pkt_sent_num c) (c_sent_dic c).
Definition set_rec_buffer v c := mkConnection (c_recv_count c) (c_sent_count c) (c_draining_timer c)
  (c_is_server c) (c_handshake_completed c) (c_handshake_confirmed c) (c_closed c) (c_timed_out c)
  (c_server c) (c_localaddr c) (c_peeraddr c) (c_recovery c) (c_pkt_num_spaces c) (c_rtt c)
  (c_handshake c) (c_send_buffer c) v (c_written_data c) (c_stop_flag c) (c_stop_ack c)
  (c_prioritydic c) (c_sent_pkt c) (c_recv_dic c) (c_low_split_point c) (c_high_split_point c)
  (c_send_data c) (c_norm2_vec c) (c_total_offset c) (c_recv_flag c) (c_recv_hashmap c) (c_feed_back
  c) (c_ack_point c) (c_max_off c) (c_send_num c) (c_high_priority c) (c_sent_number c)
  (c_recv_pkt_sent_num c) (c_sent_dic c).
Definition set_written_data v c := mkConnection (c_recv_count c) (c_sent_count c) (c_draining_timer
  c) (c_is_server c) (c_handshake_completed c) (c_handshake_confirmed c) (c_closed c) (c_timed_out
  c) (c_server c) (c_localaddr c) (c_peeraddr c) (c_recovery c) (c_pkt_num_spaces c) (c_rtt c)
  (c_handshake c) (c_send_buffer c) (c_rec_buffer c) v (c_stop_flag c) (c_stop_ack c) (c_prioritydic
  c) (c_sent_pkt c) (c_recv_dic c) (c_low_split_point c) (c_high_split_point c) (c_send_data c)
  (c_norm2_vec c) (c_total_offset c) (c_recv_flag c) (c_recv_hashmap c) (c_feed_back c) (c_ack_point
  c) (c_max_off c) (c_send_num c) (c_high_priority c) (c_sent_number c) (c_recv_pkt_sent_num c)
  (c_sent_dic c).
Definition set_stop_flag v c := mkConnection (c_recv_count c) (c_sent_count c) (c_draining_timer c)
  (c_is_server c) (c_handshake_completed c) (c_handshake_confirmed c) (c_closed c) (c_timed_out c)
  (c_server c) (c_localaddr c) (c_peeraddr c) (c_recovery c) (c_pkt_num_spaces c) (c_rtt c)
  (c_handshake c) (c_send_buffer c) (c_rec_buffer c) (c_written_data c) v (c_stop_ack c)
  (c_prioritydic c) (c_sent_pkt c) (c_recv_dic c) (c_low_split_point c) (c_high_split_point c)
  (c_send_data c) (c_norm2_vec c) (c_total_offset c) (c_recv_flag c) (c_recv_hashmap c) (c_feed_back
  c) (c_ack_point c) (c_max_off c) (c_send_num c) (c_high_priority c) (c_sent_number c)
  (c_recv_pkt_sent_num c) (c_sent_dic c).
Definition set_stop_ack v c := mkConnection (c_recv_count c) (c_sent_count c) (c_draining_timer c)
  (c_is_server c) (c_handshake_completed c) (c_handshake_confirmed c) (c_closed c) (c_timed_out c)
  (c_server c) (c_localaddr c) (c_peeraddr c) (c_recovery c) (c_pkt_num_spaces c) (c_rtt c)
  (c_handshake c) (c_send_buffer c) (c_rec_buffer c) (c_written_data c) (c_stop_flag c) v
  (c_prioritydic c) (c_sent_pkt c) (c_recv_dic c) (c_low_split_point c) (c_high_split_point c)
  (c_send_data c) (c_norm2_vec c) (c_total_offset c) (c_recv_flag c) (c_recv_hashmap c) (c_feed_back
  c) (c_ack_point c) (c_max_off c) (c_send_num c) (c_high_priority c) (c_sent_number c)
  (c_recv_pkt_sent_num c) (c_sent_dic c).
Definition set_sent_pkt v c := mkConnection (c_recv_count c) (c_sent_count c) (c_draining_timer c)
  (c_is_server c) (c_handshake_completed c) (c_handshake_confirmed c) (c_closed c) (c_timed_out c)
  (c_server c) (c_localaddr c) (c_peeraddr c) (c_recovery c) (c_pkt_num_spaces c) (c_rtt c)
  (c_handshake c) (c_send_buffer c) (c_rec_buffer c) (c_written_data c) (c_stop_flag c) (c_stop_ack
  c) (c_prioritydic c) v (c_recv_dic c) (c_low_split_point c) (c_high_split_point c) (c_send_data c)
  (c_norm2_vec c) (c_total_offset c) (c_recv_flag c) (c_recv_hashmap c) (c_feed_back c) (c_ack_point
  c) (c_max_off c) (c_send_num c) (c_high_priority c) (c_sent_number c) (c_recv_pkt_sent_num c)
  (c_sent_dic c).
Definition set_recv_dic v c := mkConnection (c_recv_count c) (c_sent_count c) (c_draining_timer c)
  (c_is_server c) (c_handshake_completed c) (c_handshake_confirmed c) (c_closed c) (c_timed_out c)
  (c_server c) (c_localaddr c) (c_peeraddr c) (c_recovery c) (c_pkt_num_spaces c) (c_rtt c)
  (c_handshake c) (c_send_buffer c) (c_rec_buffer c) (c_written_data c) (c_stop_flag c) (c_stop_ack
  c) (c_prioritydic c) (c_sent_pkt c) v (c_low_split_point c) (c_high_split_point c) (c_send_data c)
  (c_norm2_vec c) (c_total_offset c) (c_recv_flag c) (c_recv_hashmap c) (c_feed_back c) (c_ack_point
  c) (c_max_off c) (c_send_num c) (c_high_priority c) (c_sent_number c) (c_recv_pkt_sent_num c)
  (c_sent_dic c).
Definition set_low_split_point v c := mkConnection (c_recv_count c) (c_sent_count c)
  (c_draining_timer c) (c_is_server c) (c_handshake_completed c) (c_handshake_confirmed c) (c_closed
  c) (c_timed_out c) (c_server c) (c_localaddr c) (c_peeraddr c) (c_recovery c) (c_pkt_num_spaces c)
  (c_rtt c) (c_handshake c) (c_send_buffer c) (c_rec_buffer c) (c_written_data c) (c_stop_flag c)
  (c_stop_ack c) (c_prioritydic c) (c_sent_pkt c) (c_recv_dic c) v (c_high_split_point c)
  (c_send_data c) (c_norm2_vec c) (c_total_offset c) (c_recv_flag c) (c_recv_hashmap c) (c_feed_back
  c) (c_ack_point c) (c_max_off c) (c_send_num c) (c_high_priority c) (c_sent_number c)
  (c_recv_pkt_sent_num c) (c_sent_dic c).
Definition set_high_split_point v c := mkConnection (c_recv_count c) (c_sent_count c)
  (c_draining_timer c) (c_is_server c) (c_handshake_completed c) (c_handshake_confirmed c) (c_closed
  c) (c_timed_out c) (c_server c) (c_localaddr c) (c_peeraddr c) (c_recovery c) (c_pkt_num_spaces c)
  (c_rtt c) (c_handshake c) (c_send_buffer c) (c_rec_buffer c) (c_written_data c) (c_stop_flag c)
  (c_stop_ack c) (c_prioritydic c) (c_sent_pkt c) (c_recv_dic c) (c_low_split_point c) v
  (c_send_data c) (c_norm2_vec c) (c_total_offset c) (c_recv_flag c) (c_recv_hashmap c) (c_feed_back
  c) (c_ack_point c) (c_max_off c) (c_send_num c) (c_high_priority c) (c_sent_number c)
  (c_recv_pkt_sent_num c) (c_sent_dic c).
Definition set_send_data v c := mkConnection (c_recv_count c) (c_sent_count c) (c_draining_timer c)
  (c_is_server c) (c_handshake_completed c) (c_handshake_confirmed c) (c_closed c) (c_timed_out c)
  (c_server c) (c_localaddr c) (c_peeraddr c) (c_recovery c) (c_pkt_num_spaces c) (c_rtt c)
  (c_handshake c) (c_send_buffer c) (c_rec_buffer c) (c_written_data c) (c_stop_flag c) (c_stop_ack
  c) (c_prioritydic c) (c_sent_pkt c) (c_recv_dic c) (c_low_split_point c) (c_high_split_point c) v
  (c_norm2_vec c) (c_total_offset c) (c_recv_flag c) (c_recv_hashmap c) (c_feed_back c) (c_ack_point
  c) (c_max_off c) (c_send_num c) (c_high_priority c) (c_sent_number c) (c_recv_pkt_sent_num c)
  (c_sent_dic c).
Definition set_norm2_vec v c := mkConnection (c_recv_count c) (c_sent_count c) (c_draining_timer c)
  (c_is_server c) (c_handshake_completed c) (c_handshake_confirmed c) (c_closed c) (c_timed_out c)
  (c_server c) (c_localaddr c) (c_peeraddr c) (c_recovery c) (c_pkt_num_spaces c) (c_rtt c)
  (c_handshake c) (c_send_buffer c) (c_rec_buffer c) (c_written_data c) (c_stop_flag c) (c_stop_ack
  c) (c_prioritydic c) (c_sent_pkt c) (c_recv_dic c) (c_low_split_point c) (c_high_split_point c)
  (c_send_data c) v (c_total_offset c) (c_recv_flag c) (c_recv_hashmap c) (c_feed_back c)
  (c_ack_point c) (c_max_off c) (c_send_num c) (c_high_priority c) (c_sent_number c)
  (c_recv_pkt_sent_num c) (c_sent_dic c).
Definition set_total_offset v c := mkConnection (c_recv_count c) (c_sent_count c) (c_draining_timer
  c) (c_is_server c) (c_handshake_completed c) (c_handshake_confirmed c) (c_closed c) (c_timed_out
  c) (c_server c) (c_localaddr c) (c_peeraddr c) (c_recovery c) (c_pkt_num_spaces c) (c_rtt c)
  (c_handshake c) (c_send_buffer c) (c_rec_buffer c) (c_written_data c) (c_stop_flag c) (c_stop_ack
  c) (c_prioritydic c) (c_sent_pkt c) (c_recv_dic c) (c_low_split_point c) (c_high_split_point c)
  (c_send_data c) (c_norm2_vec c) v (c_recv_flag c) (c_recv_hashmap c) (c_feed_back c) (c_ack_point
  c) (c_max_off c) (c_send_num c) (c_high_priority c) (c_sent_number c) (c_recv_pkt_sent_num c)
  (c_sent_dic c).
Definition set_recv_flag v c := mkConnection (c_recv_count c) (c_sent_count c) (c_draining_timer c)
  (c_is_server c) (c_handshake_completed c) (c_handshake_confirmed c) (c_closed c) (c_timed_out c)
  (c_server c) (c_localaddr c) (c_peeraddr c) (c_recovery c) (c_pkt_num_spaces c) (c_rtt c)
  (c_handshake c) (c_send_buffer c) (c_rec_buffer c) (c_written_data c) (c_stop_flag c) (c_stop_ack
  c) (c_prioritydic c) (c_sent_pkt c) (c_recv_dic c) (c_low_split_point c) (c_high_split_point c)
  (c_send_data c) (c_norm2_vec c) (c_total_offset c) v (c_recv_hashmap c) (c_feed_back c)
  (c_ack_point c) (c_max_off c) (c_send_num c) (c_high_priority c) (c_sent_number c)
  (c_recv_pkt_sent_num c) (c_sent_dic c).
Definition set_recv_hashmap v c := mkConnection (c_recv_count c) (c_sent_count c) (c_draining_timer
  c) (c_is_server c) (c_handshake_completed c) (c_handshake_confirmed c) (c_closed c) (c_timed_out
  c) (c_server c) (c_localaddr c) (c_peeraddr c) (c_recovery c) (c_pkt_num_spaces c) (c_rtt c)
  (c_handshake c) (c_send_buffer c) (c_rec_buffer c) (c_written_data c) (c_stop_flag c) (c_stop_ack
  c) (c_prioritydic c) (c_sent_pkt c) (c_recv_dic c) (c_low_split_point c) (c_high_split_point c)
  (c_send_data c) (c_norm2_vec c) (c_total_offset c) (c_recv_flag c) v (c_feed_back c) (c_ack_point
  c) (c_max_off c) (c_send_num c) (c_high_priority c) (c_sent_number c) (c_recv_pkt_sent_num c)
  (c_sent_dic c).
Definition set_feed_back v c := mkConnection (c_recv_count c) (c_sent_count c) (c_draining_timer c)
  (c_is_server c) (c_handshake_completed c) (c_handshake_confirmed c) (c_closed c) (c_timed_out c)
  (c_server c) (c_localaddr c) (c_peeraddr c) (c_recovery c) (c_pkt_num_spaces c) (c_rtt c)
  (c_handshake c) (c_send_buffer c) (c_rec_buffer c) (c_written_data c) (c_stop_flag c) (c_stop_ack
  c) (c_prioritydic c) (c_sent_pkt c) (c_recv_dic c) (c_low_split_point c) (c_high_split_point c)
  (c_send_data c) (c_norm2_vec c) (c_total_offset c) (c_recv_flag c) (c_recv_hashmap c) v
  (c_ack_point c) (c_max_off c) (c_send_num c) (c_high_priority c) (c_sent_number c)
  (c_recv_pkt_sent_num c) (c_sent_dic c).
Definition set_ack_point v c := mkConnection (c_recv_count c) (c_sent_count c) (c_draining_timer c)
  (c_is_server c) (c_handshake_completed c) (c_handshake_confirmed c) (c_closed c) (c_timed_out c)
  (c_server c) (c_localaddr c) (c_peeraddr c) (c_recovery c) (c_pkt_num_spaces c) (c_rtt c)
  (c_handshake c) (c_send_buffer c) (c_rec_buffer c) (c_written_data c) (c_stop_flag c) (c_stop_ack
  c) (c_prioritydic c) (c_sent_pkt c) (c_recv_dic c) (c_low_split_point c) (c_high_split_point c)
  (c_send_data c) (c_norm2_vec c) (c_total_offset c) (c_recv_flag c) (c_recv_hashmap c) (c_feed_back
  c) v (c_max_off c) (c_send_num c) (c_high_priority c) (c_sent_number c) (c_recv_pkt_sent_num c)
  (c_sent_dic c).
Definition set_max_off v c := mkConnection (c_recv_count c) (c_sent_count c) (c_draining_timer c)
  (c_is_server c) (c_handshake_completed c) (c_handshake_confirmed c) (c_closed c) (c_timed_out c)
  (c_server c) (c_localaddr c) (c_peeraddr c) (c_recovery c) (c_pkt_num_spaces c) (c_rtt c)
  (c_handshake c) (c_send_buffer c) (c_rec_buffer c) (c_written_data c) (c_stop_flag c) (c_stop_ack
  c) (c_prioritydic c) (c_sent_pkt c) (c_recv_dic c) (c_low_split_point c) (c_high_split_point c)
  (c_send_data c) (c_norm2_vec c) (c_total_offset c) (c_recv_flag c) (c_recv_hashmap c) (c_feed_back
  c) (c_ack_point c) v (c_send_num c) (c_high_priority c) (c_sent_number c) (c_recv_pkt_sent_num c)
  (c_sent_dic c).
Definition set_send_num v c := mkConnection (c_recv_count c) (c_sent_count c) (c_draining_timer c)
  (c_is_server c) (c_handshake_completed c) (c_handshake_confirmed c) (c_closed c) (c_timed_out c)
  (c_server c) (c_localaddr c) (c_peeraddr c) (c_recovery c) (c_pkt_num_spaces c) (c_rtt c)
  (c_handshake c) (c_send_buffer c) (c_rec_buffer c) (c_written_data c) (c_stop_flag c) (c_stop_ack
  c) (c_prioritydic c) (c_sent_pkt c) (c_recv_dic c) (c_low_split_point c) (c_high_split_point c)
  (c_send_data c) (c_norm2_vec c) (c_total_offset c) (c_recv_flag c) (c_recv_hashmap c) (c_feed_back
  c) (c_ack_point c) (c_max_off c) v (c_high_priority c) (c_sent_number c) (c_recv_pkt_sent_num c)
  (c_sent_dic c).
Definition set_high_priority v c := mkConnection (c_recv_count c) (c_sent_count c) (c_draining_timer
  c) (c_is_server c) (c_handshake_completed c) (c_handshake_confirmed c) (c_closed c) (c_timed_out
  c) (c_server c) (c_localaddr c) (c_peeraddr c) (c_recovery c) (c_pkt_num_spaces c) (c_rtt c)
  (c_handshake c) (c_send_buffer c) (c_rec_buffer c) (c_written_data c) (c_stop_flag c) (c_stop_ack
  c) (c_prioritydic c) (c_sent_pkt c) (c_recv_dic c) (c_low_split_point c) (c_high_split_point c)
  (c_send_data c) (c_norm2_vec c) (c_total_offset c) (c_recv_flag c) (c_recv_hashmap c) (c_feed_back
  c) (c_ack_point c) (c_max_off c) (c_send_num c) v (c_sent_number c) (c_recv_pkt_sent_num c)
  (c_sent_dic c).
Definition set_sent_number v c := mkConnection (c_recv_count c) (c_sent_count c) (c_draining_timer
  c) (c_is_server c) (c_handshake_completed c) (c_handshake_confirmed c) (c_closed c) (c_timed_out
  c) (c_server c) (c_localaddr c) (c_peeraddr c) (c_recovery c) (c_pkt_num_spaces c) (c_rtt c)
  (c_handshake c) (c_send_buffer c) (c_rec_buffer c) (c_written_data c) (c_stop_flag c) (c_stop_ack
  c) (c_prioritydic c) (c_sent_pkt c) (c_recv_dic c) (c_low_split_point c) (c_high_split_point c)
  (c_send_data c) (c_norm2_vec c) (c_total_offset c) (c_recv_flag c) (c_recv_hashmap c) (c_feed_back
  c) (c_ack_point c) (c_max_off c) (c_send_num c) (c_high_priority c) v (c_recv_pkt_sent_num c)
  (c_sent_dic c).
Definition set_sent_dic v c := mkConnection (c_recv_count c) (c_sent_count c) (c_draining_timer c)
  (c_is_server c) (c_handshake_completed c) (c_handshake_confirmed c) (c_closed c) (c_timed_out c)
  (c_server c) (c_localaddr c) (c_peeraddr c) (c_recovery c) (c_pkt_num_spaces c) (c_rtt c)
  (c_handshake c) (c_send_buffer c) (c_rec_buffer c) (c_written_data c) (c_stop_flag c) (c_stop_ack
  c) (c_prioritydic c) (c_sent_pkt c) (c_recv_dic c) (c_low_split_point c) (c_high_split_point c)
  (c_send_data c) (c_norm2_vec c) (c_total_offset c) (c_recv_flag c) (c_recv_hashmap c) (c_feed_back
  c) (c_ack_point c) (c_max_off c) (c_send_num c) (c_high_priority c) (c_sent_number c)
  (c_recv_pkt_sent_num c) v.

(** ** [std::time::Duration], in nanoseconds *)

Definition duration_bound : Z := 2 ^ 64 * 10 ^ 9.
Definition duration_since (now earlier : Z) : Z := Z.max 0 (now - earlier).
(** [Duration * u32] and [Duration + Duration] panic on overflow in every profile. *)
Definition duration_checked {S} (d : Z) : M S Z :=
  if d <? duration_bound then mret d else panicking ArithmeticOverflow.

(** ** Small accessors *)

Definition max_send_udp_payload_size (c : Connection) : Z := MIN_CLIENT_INITIAL_LEN.
Definition is_established (c : Connection) : bool := c_handshake_completed c.
Definition is_draining (c : Connection) : bool := bool_decide (is_Some (c_draining_timer c)).
Definition is_closed (c : Connection) : bool := c_closed c.
Definition is_timed_out (c : Connection) : bool := c_timed_out c.
Definition is_stopped (c : Connection) : bool := c_stop_flag c && c_stop_ack c.
Definition send_ack (c : Connection) : bool := c_feed_back c.
Definition is_ack (now : Z) (c : Connection) : bool :=
  c_rtt c <? duration_since now (c_handshake c).
Definition max_ack (c : Connection) : Z := RecvBuf.max_ack (c_rec_buffer c).
Definition set_handshake_now (now : Z) : M Connection unit := modify (set_handshake now).

Definition findweight (unack : Z) (c : Connection) : outcome Connection Z :=
  or_panic UnwrapFailed (c_prioritydic c !! unack) c.

(** Calls into the components. *)
Definition on_recovery {A} : M Recovery A → M Connection A := zoom c_recovery set_recovery.
Definition on_send_buffer {A} : M SendBuf A → M Connection A := zoom c_send_buffer set_send_buffer.
Definition on_rec_buffer {A} : M RecvBuf A → M Connection A := zoom c_rec_buffer set_rec_buffer.

Section Ops.
Context {P : Profile} {O : OctetsOps} {H : HashOrder}.

(** ** Construction *)

(** The state [Connection::new] builds before [on_init], at time [now]. *)
Definition initial (local_ peer : SocketAddr) (r : Recovery) (is_server : bool) (now : Z)
    : Connection :=
  mkConnection 0 0 None is_server false true false false is_server local_ peer r
    (PktNumSpace.new, PktNumSpace.new) 0 now (SendBuf.new (MIN_CLIENT_INITIAL_LEN * 8))
    RecvBuf.new 0 false false ∅ [] ∅ (S754_zero false) (S754_zero false) [] [] 0 false ∅ false
    0 0 0 0 0 [] ∅.

Definition new (local_ peer : SocketAddr) (is_server : bool) (now : Z) : M Config Connection :=
  config ← get;
  r ← Recovery.new config;
  c ← local (initial local_ peer r is_server now) (on_recovery Recovery.on_init);
  mret c.2.

Definition accept (local_ peer : SocketAddr) (now : Z) : M Config Connection :=
  new local_ peer true now.
Definition connect (local_ peer : SocketAddr) (now : Z) : M Config Connection :=
  new local_ peer false now.

(** ** Round-trip time *)

Definition update_rtt (now : Z) : M Connection unit :=
  c ← get;
  if c_rtt c =? 0 then modify (set_rtt (duration_since now (c_handshake c)))
  else
    d ← duration_checked (17 * duration_since now (c_handshake c));
    modify (set_rtt (d / 16)).

Definition new_rtt (last : Z) : M Connection unit :=
  c ← get;
  d ← duration_checked (3 * last);
  s ← duration_checked (c_rtt c / 4 + d / 4);
  modify (set_rtt s).

(** ** Priorities *)

Definition priority_calculation (off : Z) : M Connection Z :=
  c ← get;
  let real_index := off / 1024 in
  n ← or_panic OutOfBounds (index (c_norm2_vec c) real_index);
  mret (if f_lt n (c_low_split_point c) then 1
        else if f_lt n (c_high_split_point c) then 2 else 3).

(** ** Receiving *)

Definition be_u64_at {S} (l : list Z) (a b : Z) : M S Z :=
  x ← or_panic OutOfBounds (slice l a b);
  mret (be_value x).

(** One entry of an ACK: the offset and the receiver's verdict, 0 (received)
    or 1 (missing).  Returns the new weight sum. *)
Definition process_ack_entry (unack priority : Z) (weights : f32) : M Connection f32 :=
  c ← get;
  (match c_sent_dic c !! unack with
   | Some received =>
       if received =? 0 then on_send_buffer (ack_and_drop unack) else mret tt
   | None => mret tt
   end);;
  priority ← (if negb (priority =? 0) then priority_calculation unack else mret priority);
  weights ← (if priority =? 1 then mret (f32_add weights (f32_lit 15 2))
             else if priority =? 2 then mret (f32_add weights (f32_lit 2 1))
             else if priority =? 3 then mret (f32_add weights (f32_lit 25 2))
             else on_send_buffer (ack_and_drop unack);; mret weights);
  real_priority ← priority_calculation unack;
  (if negb (priority =? 0) && (real_priority =? 3) then
     c ← get;
     h ← uadd (c_high_priority c) 1;
     modify (set_high_priority h)
   else mret tt);;
  mret weights.

(** The [while start < len] loop; [start] grows by 16 per iteration, so
    [length unackbuf] iterations are enough. *)
Fixpoint process_ack_loop (fuel : nat) (unackbuf : list Z) (start : Z) (weights : f32)
    : M Connection f32 :=
  match fuel with
  | 0%nat => mret weights
  | S fuel' =>
      if negb (start <? ♯unackbuf) then mret weights else
      unack ← be_u64_at unackbuf start (start + 8);
      priority ← be_u64_at unackbuf (start + 8) (start + 16);
      weights ← process_ack_entry unack priority weights;
      process_ack_loop fuel' unackbuf (start + 16) weights
  end.

Definition process_ack (buf : list Z) : M Connection unit :=
  unackbuf ← or_panic OutOfBounds (slice_from buf 26);
  max_ack ← be_u64_at unackbuf 0 8;
  c ← get;
  (if c_max_off c <? max_ack then modify (set_max_off max_ack) else mret tt);;
  weights ← process_ack_loop (length unackbuf) unackbuf 8 (S754_zero false);
  on_recovery (update_win weights (f64_of_Z (♯unackbuf / (8 * 2)))).

(** The [while b.cap() > 0] loop; a read takes 8 bytes, so [length recv_buf]
    iterations are enough. *)
Fixpoint check_loss_loop (fuel : nat) (b : OctetsMut) : M Connection unit :=
  match fuel with
  | 0%nat => mret tt
  | S fuel' =>
      if negb (0 <? o_cap b) then mret tt else
      r ← local b (unwrap get_u64);
      let offset := r.1 in
      c ← get;
      (if bool_decide (is_Some (c_recv_dic c !! offset))
       then modify (λ c, set_recv_hashmap (<[offset := 0]> (c_recv_hashmap c)) c)
       else modify (λ c, set_recv_hashmap (<[offset := 1]> (c_recv_hashmap c)) c));;
      check_loss_loop fuel' r.2
  end.
Definition check_loss (recv_buf : list Z) : M Connection unit :=
  check_loss_loop (length recv_buf) (with_slice recv_buf).

Definition recv_elict (buf : list Z) : M Connection unit :=
  modify (set_recv_flag true);;
  n ← be_u64_at buf 1 9;
  modify (set_send_num n);;
  body ← or_panic OutOfBounds (slice_from buf 26);
  check_loss body;;
  modify (set_feed_back true).

Definition recv_application (buf : list Z) (hdr : Header.Header) : M Connection Z :=
  c ← get;
  n ← uadd (c_recv_count c) 1;
  modify (set_recv_count n);;
  body ← or_panic OutOfBounds (slice_from buf 26);
  unwrap (on_rec_buffer (RecvBuf.write body (Header.offset hdr)));;
  modify (λ c, set_recv_dic (<[Header.offset hdr := Header.priority hdr]> (c_recv_dic c)) c);;
  mret (Header.pkt_length hdr).

(** The handling of a packet by its type. *)
Definition recv_dispatch (buf : list Z) (hdr : Header.Header) (now : Z) : M Connection Z :=
  c ← get;
  let ty := Header.ty hdr in
  (if bool_decide (ty = Handshake) && c_is_server c
   then update_rtt now;; modify (set_handshake_completed true) else mret tt);;
  (if bool_decide (ty = Handshake) && negb (c_is_server c)
   then modify (set_handshake_confirmed false);; modify (set_feed_back true) else mret tt);;
  (if bool_decide (ty = ACK) && c_is_server c then process_ack buf else mret tt);;
  (if bool_decide (ty = ElictAck) then recv_elict buf else mret tt);;
  read ← (if bool_decide (ty = Application) then recv_application buf hdr else mret 0);
  if bool_decide (ty = Stop) then fail Stopped else mret read.

Definition recv_slice (buf : list Z) (now : Z) : M Connection Z :=
  if ♯buf =? 0 then fail BufferTooShort else
  c ← get;
  n ← uadd (c_recv_count c) 1;
  modify (set_recv_count n);;
  hdr ← Header.from_slice buf;
  recv_dispatch buf hdr now.

Definition read (out : list Z) : M Connection (Z * list Z) :=
  on_rec_buffer (RecvBuf.emit out).

(** ** Writing new data into the window *)

Definition write : M Connection Z :=
  c ← get;
  let toffset := c_total_offset c mod 1024 in
  let off_len := if negb (toffset mod 1024 =? 0) then 1024 - c_total_offset c mod 1024 else 0 in
  let high_ratio := f64_div (f64_of_Z (c_high_priority c)) (f64_of_Z (c_sent_number c)) in
  modify (set_high_priority 0);;
  modify (set_sent_number 0);;
  congestion_window ← (if f_gt high_ratio CONGESTION_THREAHOLD
                       then on_recovery rollback else on_recovery cwnd);
  data ← or_panic OutOfBounds (slice_from (c_send_data c) (c_written_data c));
  on_send_buffer (SendBuf.write data congestion_window off_len (c_max_off c)).

(** The two statements after [write] in both branches of [send_all]. *)
Definition write_and_count : M Connection unit :=
  w ← unwrap write;
  c ← get;
  wd ← uadd (c_written_data c) w;
  modify (set_written_data wd);;
  t ← uadd (c_total_offset c) w;
  modify (set_total_offset t).

Definition send_all (now : Z) : M Connection bool :=
  modify (set_stop_flag false);;
  modify (set_stop_ack false);;
  set_handshake_now now;;
  c ← get;
  if c_written_data c <? ♯(c_send_data c) then write_and_count;; mret true
  else if SendBuf.is_empty (c_send_buffer c) then mret false
  else write_and_count;; mret true.

Definition reset : M Connection unit :=
  modify (set_norm2_vec []);;
  on_send_buffer SendBuf.clear.

(** ** Choosing and sending a packet *)

Definition write_pkt_type : M Connection Type_ :=
  c ← get;
  if (c_rtt c =? 0) && c_is_server c then
    modify (set_handshake_completed true);; mret Handshake
  else if negb (c_handshake_confirmed c) && negb (c_is_server c) then
    modify (set_handshake_confirmed true);; mret Handshake
  else if ((c_sent_count c mod ELICT_FLAG =? 0) && (0 <? c_sent_count c)) || c_stop_flag c then
    modify (set_sent_count 0);; mret ElictAck
  else if c_recv_flag c then
    modify (set_recv_flag false);; mret ACK
  else if negb (c_rtt c =? 0) then mret Application
  else if SendBuf.is_empty (c_send_buffer c) then mret Stop
  else fail Done.

(** [send_data] runs on the connection and the caller's buffer [out]. *)
Abbreviation Sending := (Connection * list Z)%type.
Definition on_conn {A} : M Connection A → M Sending A := zoom fst (λ c s, (c, s.2)).
(** A cursor over [out] ([OctetsMut::with_slice(out)]). *)
Definition on_out {A} : M OctetsMut A → M Sending A :=
  zoom (λ s, with_slice s.2) (λ o s, (s.1, o_buf o)).

Definition put_header (h : Header.Header) : M Sending unit := on_out (Header.to_bytes h).

Definition send_handshake_server (now : Z) : M Sending unit :=
  put_header (Header.mkHeader Handshake 0 0 0 0);;
  on_conn (set_handshake_now now).

Definition send_handshake_client : M Sending unit :=
  put_header (Header.mkHeader Handshake 0 0 0 0);;
  on_conn (modify (set_feed_back false)).

Fixpoint put_pairs (l : list (Z * Z)) : M OctetsMut unit :=
  match l with
  | [] => mret tt
  | (k, v) :: l' => put_u64 k;; put_u64 v;; put_pairs l'
  end.
Fixpoint put_u64s (l : list Z) : M OctetsMut unit :=
  match l with [] => mret tt | x :: l' => put_u64 x;; put_u64s l' end.

Definition send_ack_packet : M Sending Z :=
  on_conn (modify (set_feed_back false));;
  s ← get;
  let c := s.1 in
  n ← umul (Z.of_nat (size (c_recv_hashmap c))) 8;
  n ← umul n 2;
  psize ← uadd n 8;
  on_out (Header.to_bytes (Header.mkHeader ACK (c_send_num c) 0 0 psize);;
          put_u64 (max_ack c);;
          put_pairs (hash_iter (c_recv_hashmap c)));;
  on_conn (modify (set_recv_hashmap ∅));;
  mret psize.

Definition send_elict_packet : M Sending Z :=
  s ← get;
  let pn := next_pkt_num (c_pkt_num_spaces s.1).2 in
  pn' ← uadd pn 1;
  on_conn (modify (λ c, set_pkt_num_spaces
    ((c_pkt_num_spaces c).1, mkSpace pn' (recv_pkt_num (c_pkt_num_spaces c).2)) c));;
  s ← get;
  let c := s.1 in
  if c_stop_flag c then
    res ← or_panic OutOfBounds (slice_from (c_sent_pkt c) (c_ack_point c));
    pkt_counter ← usub (♯(c_sent_pkt c)) (c_ack_point c);
    psize ← umul pkt_counter 8;
    on_out (unwrap (Header.to_bytes (Header.mkHeader ElictAck pn 0 0 psize));; put_u64s res);;
    on_conn (modify (set_ack_point (♯(c_sent_pkt c))));;
    on_conn (modify (set_stop_ack true));;
    mret psize
  else
    res ← or_panic OutOfBounds (slice_from (c_sent_pkt c) (c_ack_point c));
    on_out (unwrap (Header.to_bytes (Header.mkHeader ElictAck pn 0 0 64));; put_u64s res);;
    on_conn (modify (set_ack_point (♯(c_sent_pkt c))));;
    mret 64.

(** Bookkeeping of one transmission of the chunk at [off]: the first one
    stores the chunk's priority, each later one takes one off. *)
Definition note_sent (off priority : Z) : M Connection unit :=
  c ← get;
  match c_sent_dic c !! off with
  | Some x => x' ← usub x 1; modify (set_sent_dic (<[off := x']> (c_sent_dic c)))
  | None => modify (set_sent_dic (<[off := priority]> (c_sent_dic c)))
  end.

Definition send_application : M Sending Z :=
  s ← get;
  tail ← or_panic OutOfBounds (slice_from s.2 26);
  e ← on_conn (on_send_buffer (SendBuf.emit tail));
  let '(result_len, off, stop, tail') := e in
  modify (λ s, (s.1, take 26 s.2 ++ tail'));;
  s ← get;
  if c_written_data s.1 <=? off then fail Done else
  n ← uadd (c_sent_count s.1) 1;
  on_conn (modify (set_sent_count n));;
  n ← uadd (c_sent_number s.1) 1;
  on_conn (modify (set_sent_number n));;
  let pn := next_pkt_num (c_pkt_num_spaces s.1).1 in
  priority ← on_conn (priority_calculation off);
  pn' ← uadd pn 1;
  on_conn (modify (λ c, set_pkt_num_spaces
    (mkSpace pn' (recv_pkt_num (c_pkt_num_spaces c).1), (c_pkt_num_spaces c).2) c));;
  on_conn (note_sent off priority);;
  put_header (Header.mkHeader Application pn priority off result_len);;
  (if (stop : bool) then on_conn (modify (set_stop_flag true)) else mret tt);;
  on_conn (modify (λ c, set_sent_pkt (c_sent_pkt c ++ [off]) c));;
  mret result_len.

Definition send_stop_packet (psize : Z) (info : SendInfo) : M Sending (Z * SendInfo) :=
  put_header (Header.mkHeader Stop 0 0 0 psize);;
  total_len ← uadd HEADER_LENGTH psize;
  mret (total_len, info).

(** The end of [send_data], for all types but [ElictAck] and [Stop]. *)
Definition finish_send (psize : Z) (info : SendInfo) (now2 : Z) : M Sending (Z * SendInfo) :=
  s ← get;
  if is_stopped s.1 then fail Done else
  on_conn (modify (set_handshake now2));;
  total_len ← uadd HEADER_LENGTH psize;
  mret (total_len, info).

(** [now1] and [now2] are the two clock readings of the method. *)
Definition send_data (now1 now2 : Z) : M Sending (Z * SendInfo) :=
  s ← get;
  if ♯(s.2) =? 0 then fail BufferTooShort else
  ty ← on_conn write_pkt_type;
  let info := mkSendInfo (c_localaddr s.1) (c_peeraddr s.1) in
  (if bool_decide (ty = Handshake) && c_server s.1
   then send_handshake_server now1 else mret tt);;
  (if bool_decide (ty = Handshake) && negb (c_server s.1)
   then send_handshake_client else mret tt);;
  psize ← (if bool_decide (ty = ACK) then send_ack_packet else mret 0);
  if bool_decide (ty = ElictAck) then
    psize ← send_elict_packet;
    total_len ← uadd HEADER_LENGTH psize;
    mret (total_len, info)
  else
  psize ← (if bool_decide (ty = Application) then send_application else mret psize);
  if bool_decide (ty = Stop) then send_stop_packet psize info
  else finish_send psize info now2.
End Ops.

(** ** Dispatch on the packet type *)

(** Evaluate the comparisons with a known packet type. *)
Ltac decide_types :=
  repeat first [ rewrite bool_decide_eq_true_2 by reflexivity
               | rewrite bool_decide_eq_false_2 by discriminate ]; cbn [andb].

Section Dispatch.
Context {P : Profile} {O : OctetsOps} {HI : HashOrder}.

Lemma on_conn_Ok {A B} (m : M Connection A) (k : A → M _ B) c c' out a :
  m c = Ok a c' → (on_conn m ≫= k) (c, out) = k a (c', out).
Proof. intros E. unfold on_conn, mbind, M_bind, zoom. simpl. by rewrite E. Qed.

Lemma on_conn_modify {B} f (k : unit → M _ B) c out :
  (on_conn (modify f) ≫= k) (c, out) = k tt (f c, out).
Proof. done. Qed.

Lemma on_out_Ok {A B} (m : M OctetsMut A) (k : A → M _ B) c out a o' :
  m (with_slice out) = Ok a o' → (on_out m ≫= k) (c, out) = k a (c, o_buf o').
Proof. intros E. unfold on_out, mbind, M_bind, zoom. simpl. by rewrite E. Qed.

Lemma recv_dispatch_elict buf h now c :
  Header.ty h = ElictAck → recv_dispatch buf h now c = (recv_elict buf;; mret 0) c.
Proof.
  intros Ht. unfold recv_dispatch. rewrite Ht. decide_types. msimpl.
  by destruct (recv_elict buf c).
Qed.

Lemma recv_dispatch_ack buf h now c :
  Header.ty h = ACK → c_is_server c = true →
  recv_dispatch buf h now c = (process_ack buf;; mret 0) c.
Proof.
  intros Ht Hs. unfold recv_dispatch. rewrite Ht. decide_types. msimpl. rewrite Hs.
  by destruct (process_ack buf c).
Qed.

Lemma recv_dispatch_application buf h now c :
  Header.ty h = Application → recv_dispatch buf h now c = recv_application buf h c.
Proof.
  intros Ht. unfold recv_dispatch. rewrite Ht. decide_types. msimpl.
  by destruct (recv_application buf h c).
Qed.

Lemma recv_dispatch_stop buf h now c :
  Header.ty h = Stop → recv_dispatch buf h now c = Err Stopped c.
Proof. intros Ht. unfold recv_dispatch. rewrite Ht. by decide_types. Qed.
End Dispatch.
