(* ===== verification/AckPath.v ===== *)
(** * AckPath: the elicit / acknowledge exchange

    An [ElictAck] packet lists the offsets sent since the last one; the receiver
    answers with an [ACK] that says for each of them whether it arrived; the
    sender marks the arrived chunks, and those whose retransmission budget is
    used up, for removal.  This file gives the wire images of the two bodies and
    shows what each end does with them, up to the composition of the exchange. *)
From Stdlib Require Import SpecFloat.
From S2P Require Import Prelude Effects Octets Packet OMap SoftFloat RangeBuf RecvBuf SendBuf Recovery Connection.

(** ** Wire images *)

Definition enc_u64s (l : list Z) : list Z := l ≫= be_bytes 8.
Definition enc_pairs (l : list (Z * Z)) : list Z := l ≫= λ e, be_bytes 8 e.1 ++ be_bytes 8 e.2.

Lemma enc_pairs_cons k v l :
  enc_pairs ((k, v) :: l) = be_bytes 8 k ++ be_bytes 8 v ++ enc_pairs l.
Proof. unfold enc_pairs. rewrite bind_cons. by rewrite <-app_assoc. Qed.
Lemma enc_u64s_cons x l : enc_u64s (x :: l) = be_bytes 8 x ++ enc_u64s l.
Proof. done. Qed.

Lemma zlen_enc_u64s l : ♯(enc_u64s l) = 8 * ♯l.
Proof. induction l; [done|]. rewrite enc_u64s_cons. zlia. Qed.
Lemma zlen_enc_pairs l : ♯(enc_pairs l) = 16 * ♯l.
Proof. induction l as [|[k v] l IH]; [done|]. rewrite enc_pairs_cons. zlia. Qed.
#[export] Hint Rewrite zlen_enc_u64s zlen_enc_pairs : zlen.

Section Wire.
Context {P : Profile} {O : OctetsOps} {HO : OctetsSpec O} {HI : HashOrder}.

Lemma put_u64s_at l o pre r :
  at_cursor o pre r → 8 * ♯l <= ♯r →
  ∃ o', put_u64s l o = Ok tt o' ∧ at_cursor o' (pre ++ enc_u64s l) (drop (8 * length l) r).
Proof.
  revert o pre r. induction l as [|x l IH]; intros o pre r Hc Hr.
  - exists o. split; [done|]. cbn [length]. by rewrite Nat.mul_0_r, drop_0, app_nil_r.
  - rewrite zlen_cons in Hr. pose_len.
    destruct (Header.be_bytes_app_split 8 r) as (x1 & r1 & -> & Hl1); [unfold zlen in *; lia|].
    destruct (put_u64_at o _ _ _ x Hc Hl1) as (o1 & E1 & C1).
    destruct (IH o1 _ _ C1) as (o2 & E2 & C2).
    { unfold zlen in *. rewrite length_app in *. lia. }
    exists o2. cbn [put_u64s]. rewrite (bind_Ok _ _ _ _ _ E1). split; [done|].
    rewrite enc_u64s_cons, app_assoc. replace (8 * length (x :: l))%nat with (8 + 8 * length l)%nat
      by (simpl; lia). rewrite <-drop_drop, drop_app_length' by done. done.
Qed.

Lemma put_pairs_at l o pre r :
  at_cursor o pre r → 16 * ♯l <= ♯r →
  ∃ o', put_pairs l o = Ok tt o' ∧ at_cursor o' (pre ++ enc_pairs l) (drop (16 * length l) r).
Proof.
  revert o pre r. induction l as [|[k v] l IH]; intros o pre r Hc Hr.
  - exists o. split; [done|]. cbn [length]. by rewrite Nat.mul_0_r, drop_0, app_nil_r.
  - rewrite zlen_cons in Hr. pose_len.
    destruct (Header.be_bytes_app_split 8 r) as (x1 & r1 & -> & Hl1); [unfold zlen in *; lia|].
    destruct (Header.be_bytes_app_split 8 r1) as (x2 & r2 & -> & Hl2).
    { unfold zlen in *. rewrite length_app in *. lia. }
    destruct (put_u64_at o _ _ _ k Hc Hl1) as (o1 & E1 & C1).
    destruct (put_u64_at o1 _ _ _ v C1 Hl2) as (o2 & E2 & C2).
    destruct (IH o2 _ _ C2) as (o3 & E3 & C3).
    { unfold zlen in *. rewrite !length_app in *. lia. }
    exists o3. cbn [put_pairs]. rewrite (bind_Ok _ _ _ _ _ E1), (bind_Ok _ _ _ _ _ E2).
    split; [done|]. rewrite enc_pairs_cons, !app_assoc.
    replace (16 * length ((k, v) :: l))%nat with (8 + (8 + 16 * length l))%nat by (simpl; lia).
    rewrite <-!drop_drop, <-!app_assoc, drop_app_length' by done.
    rewrite drop_app_length' by done. by rewrite !app_assoc in *.
Qed.

Lemma be_u64_at_app {S} pre v post (s : S) a :
  is_u64 v → a = ♯pre → be_u64_at (pre ++ be_bytes 8 v ++ post) a (a + 8) s = Ok v s.
Proof.
  intros Hv ->. unfold be_u64_at. rewrite slice_Some by zlia.
  replace (Z.to_nat (♯pre)) with (length pre) by (unfold zlen; lia).
  rewrite drop_app_length. replace (Z.to_nat (♯pre + 8 - ♯pre)) with 8%nat by lia.
  rewrite take_app_length' by by rewrite be_bytes_length. msimpl.
  by rewrite be_value_bytes_u64.
Qed.
End Wire.

(** ** The receiver: [check_loss] *)

(** The verdicts the receiver records for the offsets [os]. *)
Definition verdict (c : Connection) (o : Z) : Z :=
  if bool_decide (is_Some (c_recv_dic c !! o)) then 0 else 1.
Definition verdicts (c : Connection) (os : list Z) (m : gmap Z Z) : gmap Z Z :=
  foldl (λ m o, <[o := verdict c o]> m) m os.

Lemma verdicts_lookup c os m o :
  verdicts c os m !! o = if bool_decide (o ∈ os) then Some (verdict c o) else m !! o.
Proof.
  unfold verdicts. revert m. induction os as [|x os IH]; intros m; cbn [foldl].
  { rewrite bool_decide_eq_false_2; [done|apply not_elem_of_nil]. }
  rewrite IH. destruct (decide (o ∈ os)) as [Hin|Hin].
  - rewrite !bool_decide_eq_true_2; [done|by right|done].
  - rewrite (bool_decide_eq_false_2 (o ∈ os)) by done. destruct (decide (o = x)) as [->|Hne].
    + rewrite bool_decide_eq_true_2 by left. by rewrite lookup_insert_eq.
    + rewrite bool_decide_eq_false_2 by (rewrite elem_of_cons; tauto).
      by rewrite lookup_insert_ne.
Qed.

Section CheckLoss.
Context {O : OctetsOps} {HO : OctetsSpec O}.

Lemma check_loss_loop_Ok fuel os b pre c :
  Forall is_u64 os → (length os <= fuel)%nat → at_cursor b pre (enc_u64s os) →
  check_loss_loop fuel b c =
    Ok tt (set_recv_hashmap (verdicts c os (c_recv_hashmap c)) c).
Proof.
  intros Hos. revert fuel b pre c.
  induction Hos as [|x os Hx Hos IH]; intros fuel b pre c Hf Hb.
  - replace (set_recv_hashmap _ c) with c by by destruct c. destruct fuel; [done|].
    cbn [check_loss_loop]. rewrite (at_cursor_cap _ _ _ Hb). done.
  - destruct fuel as [|fuel]; [simpl in Hf; lia|]. cbn [check_loss_loop].
    rewrite (at_cursor_cap _ _ _ Hb). rewrite zlen_enc_u64s, zlen_cons. pose_len.
    destruct (Z.ltb_spec 0 (8 * (1 + ♯os))) as [_|]; [|lia]. cbn [negb].
    destruct (get_u64_at b _ _ _ Hb (be_bytes_length 8 x)) as (b' & E & C).
    rewrite be_value_bytes_u64 in E by done. msimpl. rewrite E. cbn [fst snd].
    set (c1 := set_recv_hashmap (<[x := verdict c x]> (c_recv_hashmap c)) c).
    transitivity (check_loss_loop fuel b' c1).
    { unfold c1, verdict. by case_bool_decide. }
    rewrite (IH fuel b' _ c1 ltac:(simpl in Hf; lia) C). done.
Qed.

Lemma check_loss_Ok os c :
  Forall is_u64 os →
  check_loss (enc_u64s os) c = Ok tt (set_recv_hashmap (verdicts c os (c_recv_hashmap c)) c).
Proof.
  intros Hos. unfold check_loss. eapply check_loss_loop_Ok; [done| |apply at_cursor_with_slice].
  pose proof (zlen_enc_u64s os). unfold zlen in *. lia.
Qed.
End CheckLoss.

(** ** The sender: [process_ack] *)

(** Marking the chunks at the offsets [os] for removal. *)
Definition mark (os : list Z) (b : SendBuf) : SendBuf :=
  set_sb_offset_recv (foldl (λ m o, om_alter (λ _, false) o m) (sb_offset_recv b) os) b.

(** An ACK entry settles its chunk when the receiver has it or when the
    retransmission budget of the chunk is used up. *)
Definition settles (c : Connection) (e : Z * Z) : bool :=
  (e.2 =? 0) || bool_decide (c_sent_dic c !! e.1 = Some 0).
Definition settled (c : Connection) (l : list (Z * Z)) : list Z :=
  (filter (λ e, settles c e = true) l).*1.

(** The priority of the block an offset lies in; 0 when there is none. *)
Definition priority_of (c : Connection) (off : Z) : Z :=
  match index (c_norm2_vec c) (off / 1024) with
  | Some n => if f_lt n (c_low_split_point c) then 1
              else if f_lt n (c_high_split_point c) then 2 else 3
  | None => 0
  end.

(** The weight an ACK adds up: one term per missing packet, in order. *)
Definition loss_weight (c : Connection) (l : list (Z * Z)) (w : f32) : f32 :=
  foldl (λ w e, if e.2 =? 0 then w else weight_of (priority_of c e.1) w) w l.

(** Missing packets of the highest priority. *)
Definition high_losses (c : Connection) (l : list (Z * Z)) : Z :=
  ♯(filter (λ e, e.2 ≠ 0 ∧ priority_of c e.1 = 3) l).

(** Offsets that lie in the data whose norms were computed. *)
Definition in_data (c : Connection) (o : Z) : Prop := is_u64 o ∧ o / 1024 < ♯(c_norm2_vec c).

Lemma mark_app os ps b : mark ps (mark os b) = mark (os ++ ps) b.
Proof. unfold mark. simpl. by rewrite foldl_app. Qed.

Lemma mark_twice o b : mark [o] (mark [o] b) = mark [o] b.
Proof. unfold mark. simpl. by rewrite om_alter_const_idem. Qed.

Lemma mark_get os b o :
  om_get o (sb_offset_recv (mark os b)) =
    if bool_decide (o ∈ os) then (λ _, false) <$> om_get o (sb_offset_recv b)
    else om_get o (sb_offset_recv b).
Proof.
  unfold mark. simpl. generalize (sb_offset_recv b) as m. clear b.
  induction os as [|x os IH]; intros m; cbn [foldl].
  { rewrite bool_decide_eq_false_2; [done|apply not_elem_of_nil]. }
  rewrite IH, om_get_alter. destruct (Z.eqb_spec o x) as [->|Hne].
  - rewrite (bool_decide_eq_true_2 (x ∈ x :: os)) by left.
    case_bool_decide; [|done]. by destruct (om_get x m).
  - replace (bool_decide (o ∈ x :: os)) with (bool_decide (o ∈ os)); [done|].
    apply bool_decide_ext. rewrite elem_of_cons. tauto.
Qed.

Lemma mark_keys os b : om_keys (sb_offset_recv (mark os b)) = om_keys (sb_offset_recv b).
Proof.
  unfold mark. simpl. generalize (sb_offset_recv b) as m.
  induction os as [|x os IH]; intros m; [done|]. cbn [foldl]. by rewrite IH, om_keys_alter.
Qed.

Lemma mark_wf os b : SendBuf.wf b → SendBuf.wf (mark os b).
Proof.
  intros (Hc & Hl & Hk & Ho). do 2 (split; [done|]). split; [|done]. by rewrite mark_keys.
Qed.

(** What stays buffered after marking [os]. *)
Lemma mark_kept os b : kept (mark os b) = filter (λ c, rg_off c ∉ os) (kept b).
Proof.
  unfold kept. change (sb_data (mark os b)) with (sb_data b). rewrite list_filter_filter.
  apply list_filter_iff. intros x. rewrite mark_get. case_bool_decide as Hin.
  - split; [|tauto]. by destruct (om_get (rg_off x) (sb_offset_recv b)).
  - tauto.
Qed.

Section ProcessAck.
Context {P : Profile}.

Lemma priority_calculation_Ok off c :
  in_data c off → priority_calculation off c = Ok (priority_of c off) c ∧
                  1 <= priority_of c off <= 3.
Proof.
  intros [Ho Hi]. unfold is_u64 in Ho. destruct (index_Some (c_norm2_vec c) (off / 1024)) as [n Hn];
    [apply Z.div_pos; lia|done|].
  unfold priority_calculation, priority_of. msimpl. rewrite Hn. split; [done|].
  destruct (f_lt n _); [lia|]. destruct (f_lt n _); lia.
Qed.

(** The state after one entry: the chunk is marked if the entry settles it,
    and a high-priority loss is counted. *)
Definition after_entry (e : Z * Z) (c : Connection) : Connection :=
  set_high_priority (c_high_priority c +
      (if bool_decide (e.2 ≠ 0 ∧ priority_of c e.1 = 3) then 1 else 0))
    (set_send_buffer (if settles c e then mark [e.1] (c_send_buffer c) else c_send_buffer c) c).

Lemma process_ack_entry_Ok e w c :
  in_data c e.1 → 0 <= c_high_priority c < u64_bound - 1 →
  process_ack_entry e.1 e.2 w c =
    Ok (if e.2 =? 0 then w else weight_of (priority_of c e.1) w) (after_entry e c).
Proof.
  intros Hin Hhp. destruct e as [o v]. cbn [fst snd] in *.
  unfold process_ack_entry. rewrite (bind_Ok get _ c c c eq_refl).
  set (c1 := if bool_decide (c_sent_dic c !! o = Some 0)
             then set_send_buffer (mark [o] (c_send_buffer c)) c else c).
  rewrite (bind_Ok _ _ c tt c1).
  2:{ unfold c1. destruct (c_sent_dic c !! o) as [x|]; [|done].
      destruct (Z.eqb_spec x 0) as [->|Hne]; [done|].
      rewrite bool_decide_eq_false_2 by (intros [= ?]; done). done. }
  assert (Hin1 : in_data c1 o) by (unfold c1; by case_bool_decide).
  assert (Hpr : priority_of c1 o = priority_of c o) by (unfold c1; by case_bool_decide).
  destruct (priority_calculation_Ok o c1 Hin1) as [Hpc Hrange]. rewrite Hpr in Hpc, Hrange.
  assert (Hhp1 : c_high_priority c1 = c_high_priority c) by (unfold c1; by case_bool_decide).
  unfold after_entry, settles. cbn [fst snd].
  destruct (Z.eqb_spec v 0) as [->|Hv]; cbn [negb orb].
  - rewrite (bind_Ok (mret 0) _ c1 0 c1 eq_refl). cbn [Z.eqb]. cbn [Pos.eqb].
    set (c2 := set_send_buffer (mark [o] (c_send_buffer c)) c).
    rewrite (bind_Ok _ _ c1 w c2).
    2:{ unfold c1, c2. msimpl. unfold on_send_buffer, zoom, ack_and_drop. msimpl.
        case_bool_decide; [|done]. unfold set_send_buffer. cbn. f_equal. f_equal.
        apply mark_twice. }
    destruct (priority_calculation_Ok o c2 Hin) as [Hpc2 _].
    rewrite (bind_Ok _ _ _ _ _ Hpc2). rewrite bool_decide_eq_false_2 by tauto. msimpl.
    rewrite Z.add_0_r. by destruct c.
  - rewrite (bind_Ok _ _ _ _ _ Hpc).
    rewrite (bind_Ok _ _ c1 (weight_of (priority_of c o) w) c1).
    2:{ unfold weight_of. repeat case_match; try done. lia. }
    rewrite (bind_Ok _ _ _ _ _ Hpc).
    destruct (Z.eqb_spec (priority_of c o) 0) as [|_]; [lia|]. cbn [negb andb].
    destruct (Z.eqb_spec (priority_of c o) 3) as [H3|H3].
    + rewrite bool_decide_eq_true_2 by done. unfold uadd. msimpl. rewrite Hhp1.
      rewrite checked_ok by (unfold is_u64; lia). unfold c1. by case_bool_decide.
    + rewrite bool_decide_eq_false_2 by tauto. msimpl. rewrite Z.add_0_r. unfold c1.
      case_bool_decide; by destruct c.
Qed.

(** All entries of an ACK, one after the other. *)
Fixpoint process_entries (l : list (Z * Z)) (w : f32) : M Connection f32 :=
  match l with
  | [] => mret w
  | e :: l' => w ← process_ack_entry e.1 e.2 w; process_entries l' w
  end.

Lemma process_ack_loop_entries fuel pre l w c :
  Forall (λ e, is_u64 e.1 ∧ is_u64 e.2) l → (length l <= fuel)%nat →
  process_ack_loop fuel (pre ++ enc_pairs l) (♯pre) w c = process_entries l w c.
Proof.
  intros Hl. revert fuel pre w c. induction Hl as [|[k v] l [Hk Hv] Hl IH]; intros fuel pre w c Hf.
  - destruct fuel; [done|]. cbn [process_ack_loop]. rewrite zlen_app, zlen_enc_pairs, (@zlen_nil (Z * Z)).
    destruct (Z.ltb_spec (♯pre) (♯pre + 16 * 0)); [lia|done].
  - destruct fuel as [|fuel]; [simpl in Hf; lia|]. cbn [process_ack_loop].
    rewrite zlen_app, zlen_enc_pairs, zlen_cons. pose_len.
    destruct (Z.ltb_spec (♯pre) (♯pre + 16 * (1 + ♯l))) as [_|]; [|lia]. cbn [negb].
    rewrite enc_pairs_cons. cbn [fst snd] in *.
    rewrite (bind_Ok _ _ _ _ _ (be_u64_at_app pre k _ c (♯pre) Hk eq_refl)).
    replace (♯pre + 16) with (♯pre + 8 + 8) by lia. rewrite app_assoc.
    rewrite (bind_Ok _ _ _ _ _ (be_u64_at_app (pre ++ be_bytes 8 k) v _ c (♯pre + 8) Hv
      ltac:(zlia))).
    cbn [process_entries fst snd]. unfold mbind, M_bind.
    destruct (process_ack_entry k v w c); try done. rewrite app_assoc.
    rewrite <-(IH fuel ((pre ++ be_bytes 8 k) ++ be_bytes 8 v)) by (simpl in Hf; lia).
    f_equal. zlia.
Qed.

Lemma settled_cons c e l b :
  mark (settled c (e :: l)) b = mark (settled c l) (if settles c e then mark [e.1] b else b).
Proof.
  unfold settled. rewrite filter_cons. destruct (settles c e); [|done].
  rewrite decide_True, fmap_cons by done. by rewrite mark_app.
Qed.

Lemma high_losses_cons c e l :
  high_losses c (e :: l) =
    (if bool_decide (e.2 ≠ 0 ∧ priority_of c e.1 = 3) then 1 else 0) + high_losses c l.
Proof.
  unfold high_losses. rewrite filter_cons. case_bool_decide; case_decide; try tauto; zlia.
Qed.

Lemma process_entries_Ok l w c :
  Forall (λ e, in_data c e.1) l → 0 <= c_high_priority c → c_high_priority c + ♯l < u64_bound →
  process_entries l w c =
    Ok (loss_weight c l w)
       (set_high_priority (c_high_priority c + high_losses c l)
         (set_send_buffer (mark (settled c l) (c_send_buffer c)) c)).
Proof.
  revert w c. induction l as [|e l IH]; intros w c Hl Hz Hhp.
  - change (high_losses c []) with 0. rewrite Z.add_0_r.
    by destruct c as [? ? ? ? ? ? ? ? ? ? ? ? ? ? ? []].
  - inversion_clear Hl as [|? ? He Hl']. rewrite zlen_cons in Hhp. pose_len.
    cbn [process_entries].
    rewrite (bind_Ok _ _ _ _ _ (process_ack_entry_Ok e w c He ltac:(lia))).
    rewrite IH; [|exact Hl'|simpl; case_bool_decide; lia|simpl; case_bool_decide; lia].
    cbn [loss_weight foldl].
    change (loss_weight (after_entry e c) l) with (loss_weight c l).
    change (settled (after_entry e c) l) with (settled c l).
    change (high_losses (after_entry e c) l) with (high_losses c l).
    f_equal. rewrite settled_cons, high_losses_cons, Z.add_assoc. unfold after_entry.
    by destruct (settles c e).
Qed.
End ProcessAck.

(** ** Whole packets *)

Definition elict_packet (pn plen : Z) (os : list Z) : list Z :=
  Header.encode (Header.mkHeader ElictAck pn 0 0 plen) ++ enc_u64s os.
Definition ack_packet (pn plen mx : Z) (l : list (Z * Z)) : list Z :=
  Header.encode (Header.mkHeader ACK pn 0 0 plen) ++ be_bytes 8 mx ++ enc_pairs l.

Section Packets.
Context {P : Profile} {O : OctetsOps} {HO : OctetsSpec O} {HI : HashOrder}.

Lemma zero_u64 : is_u64 0.
Proof. unfold is_u64, u64_bound. lia. Qed.
Lemma zero_u8 : is_u8 0.
Proof. unfold is_u8, u8_bound. lia. Qed.

Lemma parse_packet {S} h body (s : S) :
  Header.wf h → Header.ty h ≠ StartAck →
  Header.from_slice (Header.encode h ++ body) s = Ok h s.
Proof.
  intros Hw Ht. rewrite Header.from_slice_ok.
  - by rewrite Header.encode_decode_prefix.
  - rewrite length_app, Header.encode_length. lia.
Qed.

Lemma packet_body h body : slice_from (Header.encode h ++ body) 26 = Some body.
Proof.
  rewrite slice_from_Some by zlia.
  by rewrite drop_app_length' by by rewrite Header.encode_length.
Qed.

Lemma packet_nonempty h body : ♯(Header.encode h ++ body) ≠ 0.
Proof. zlia. Qed.

Lemma packet_num_field {S} h body (s : S) :
  is_u64 (Header.pkt_num h) →
  be_u64_at (Header.encode h ++ body) 1 9 s = Ok (Header.pkt_num h) s.
Proof.
  intros Hn. unfold Header.encode. rewrite <-app_comm_cons, <-app_assoc.
  apply (be_u64_at_app [Header.byte_of_ty (Header.ty h)] (Header.pkt_num h) _ s 1 Hn eq_refl).
Qed.

Lemma recv_slice_Ok h body now c :
  Header.wf h → Header.ty h ≠ StartAck → 0 <= c_recv_count c < u64_bound - 1 →
  recv_slice (Header.encode h ++ body) now c =
    recv_dispatch (Header.encode h ++ body) h now (set_recv_count (c_recv_count c + 1) c).
Proof.
  intros Hw Ht Hrc. unfold recv_slice.
  destruct (Z.eqb_spec (♯(Header.encode h ++ body)) 0) as [E|_];
    [by apply packet_nonempty in E|].
  rewrite (bind_Ok get _ c c c eq_refl). unfold uadd.
  rewrite (bind_Ok _ _ _ _ _ (checked_ok (c_recv_count c + 1) c ltac:(unfold is_u64; lia))).
  rewrite (bind_Ok (modify _) _ c tt _ eq_refl).
  by rewrite (bind_Ok _ _ _ _ _ (parse_packet h body _ Hw Ht)).
Qed.

Lemma control_hdr_wf t pn plen : is_u64 pn → is_u64 plen → Header.wf (Header.mkHeader t pn 0 0 plen).
Proof. intros. split; [done|]. split; [apply zero_u8|]. split; [apply zero_u64|done]. Qed.

(** The receiver after an [ElictAck] naming the offsets [os]. *)
Definition after_elict (pn : Z) (os : list Z) (c : Connection) : Connection :=
  set_feed_back true (set_recv_hashmap (verdicts c os (c_recv_hashmap c))
    (set_send_num pn (set_recv_flag true (set_recv_count (c_recv_count c + 1) c)))).

Lemma recv_elict_Ok pn plen os c now :
  is_u64 pn → is_u64 plen → Forall is_u64 os → 0 <= c_recv_count c < u64_bound - 1 →
  recv_slice (elict_packet pn plen os) now c = Ok 0 (after_elict pn os c).
Proof.
  intros Hpn Hpl Hos Hrc. unfold elict_packet. rewrite recv_slice_Ok;
    [|by apply control_hdr_wf|done|done].
  rewrite recv_dispatch_elict by done. unfold recv_elict.
  rewrite (bind_Ok _ _ _ tt (after_elict pn os c)); [done|].
  rewrite (bind_Ok (modify _) _ _ tt _ eq_refl).
  rewrite (bind_Ok _ _ _ _ _ (packet_num_field (Header.mkHeader ElictAck pn 0 0 plen) _ _ Hpn)).
  rewrite modify_bind, packet_body, some_bind.
  by rewrite (bind_Ok _ _ _ _ _ (check_loss_Ok os _ Hos)).
Qed.

(** *** Answering: the ACK packet *)

(** The receiver is due to answer: nothing else has precedence. *)
Definition ack_due (c : Connection) : Prop :=
  c_is_server c = false ∧ c_server c = false ∧ c_handshake_confirmed c = true ∧
  c_sent_count c = 0 ∧ c_stop_flag c = false ∧ c_recv_flag c = true.

Definition after_ack (now : Z) (c : Connection) : Connection :=
  set_handshake now (set_recv_hashmap ∅ (set_feed_back false (set_recv_flag false c))).

Lemma write_pkt_type_ack c : ack_due c → write_pkt_type c = Ok ACK (set_recv_flag false c).
Proof.
  intros (H1 & H2 & H3 & H4 & H5 & H6). unfold write_pkt_type. msimpl.
  by rewrite H1, H3, H4, H5, H6, andb_false_r.
Qed.

Lemma ack_body_at pn plen mx l out :
  34 + 16 * ♯l <= ♯out →
  ∃ o', (Header.to_bytes (Header.mkHeader ACK pn 0 0 plen);; put_u64 mx;; put_pairs l)
          (with_slice out) = Ok tt o' ∧
        at_cursor o' (ack_packet pn plen mx l) (drop (Z.to_nat (34 + 16 * ♯l)) out).
Proof.
  intros Hout. pose proof (zlen_nonneg l).
  destruct (Header.to_bytes_at_u8 (Header.mkHeader ACK pn 0 0 plen) _ _ _ ltac:(done)
    (at_cursor_with_slice out)) as (o1 & E1 & C1); [unfold zlen in *; lia|].
  destruct (Header.be_bytes_app_split 8 (drop 26 out)) as (x & r & Hx & Hlx);
    [rewrite length_drop; unfold zlen in *; lia|]. rewrite Hx in C1.
  destruct (put_u64_at o1 _ _ _ mx C1 Hlx) as (o2 & E2 & C2).
  assert (Hr : r = drop 34 out).
  { change 34%nat with (26 + 8)%nat. rewrite <-drop_drop, Hx.
    by rewrite drop_app_length' by done. }
  destruct (put_pairs_at l o2 _ _ C2) as (o3 & E3 & C3); [rewrite Hr; zlia|].
  exists o3. rewrite (bind_Ok _ _ _ _ _ E1), (bind_Ok _ _ _ _ _ E2). split; [done|].
  unfold ack_packet. rewrite app_nil_l, <-app_assoc in C3. rewrite Hr, drop_drop in C3.
  replace (Z.to_nat (34 + 16 * ♯l)) with (34 + 16 * length l)%nat by (unfold zlen; lia). done.
Qed.

Lemma send_ack_Ok c out now1 now2 :
  ack_due c → is_u64 (c_send_num c) →
  let l := hash_iter (c_recv_hashmap c) in
  length l = size (c_recv_hashmap c) → 34 + 16 * ♯l <= ♯out → ♯out < u64_bound →
  send_data now1 now2 (c, out) =
    Ok (34 + 16 * ♯l, mkSendInfo (c_localaddr c) (c_peeraddr c))
       (after_ack now2 c,
        ack_packet (c_send_num c) (16 * ♯l + 8) (max_ack c) l ++
        drop (Z.to_nat (34 + 16 * ♯l)) out).
Proof.
  intros Hdue Hsn l Hsz Hout Hb. pose proof (zlen_nonneg l).
  assert (Hl : Z.of_nat (size (c_recv_hashmap c)) = ♯l) by (unfold zlen; lia).
  unfold send_data, send_stop_packet, finish_send. rewrite (bind_Ok get _ (c, out) _ _ eq_refl). cbn [snd fst].
  destruct (Z.eqb_spec (♯out) 0); [lia|].
  rewrite (on_conn_Ok _ _ _ _ _ _ (write_pkt_type_ack c Hdue)).
  destruct Hdue as (_ & _ & _ & _ & Hst & _). decide_types.
  rewrite !ret_bind.
  set (c1 := set_feed_back false (set_recv_flag false c)).
  set (pkt := ack_packet (c_send_num c) (16 * ♯l + 8) (max_ack c) l).
  rewrite (bind_Ok _ _ _ (16 * ♯l + 8)
    (set_recv_hashmap ∅ c1, pkt ++ drop (Z.to_nat (34 + 16 * ♯l)) out)).
  - msimpl. cbn [fst]. unfold is_stopped. cbn. rewrite Hst. unfold uadd, HEADER_LENGTH. cbn [andb].
    rewrite checked_ok by (unfold is_u64; lia).
    replace (26 + (16 * ♯l + 8)) with (34 + 16 * ♯l) by lia. done.
  - unfold send_ack_packet. rewrite on_conn_modify, get_bind. cbn [fst].
    fold c1. change (c_recv_hashmap c1) with (c_recv_hashmap c).
    rewrite Hl. unfold umul, uadd. rewrite !checked_bind by (unfold is_u64; lia).
    replace (♯l * 8 * 2 + 8) with (16 * ♯l + 8) by lia.
    destruct (ack_body_at (c_send_num c) (16 * ♯l + 8) (max_ack c) l out) as (o' & E & C); [done|].
    rewrite (on_out_Ok _ _ _ _ _ _ E). rewrite on_conn_modify. unfold mret, M_ret.
    do 2 f_equal. by rewrite (at_cursor_buf _ _ _ C).
Qed.
(** *** The sender receives the ACK *)

Definition missing_priorities (c : Connection) (l : list (Z * Z)) : list Z :=
  (λ e, priority_of c e.1) <$> filter (λ e, e.2 ≠ 0) l.

Lemma loss_weight_batch c l w :
  loss_weight c l w = foldl (λ w p, weight_of p w) w (missing_priorities c l).
Proof.
  unfold loss_weight, missing_priorities. revert w.
  induction l as [|e l IH]; intros w; [done|]. cbn [foldl]. rewrite filter_cons.
  destruct (Z.eqb_spec e.2 0) as [->|Hne]; [by rewrite decide_False by tauto|].
  rewrite decide_True by done. rewrite fmap_cons. apply IH.
Qed.

Lemma missing_priorities_ok c l :
  Forall (λ e, in_data c e.1) l → Forall (λ p, 1 <= p <= 3) (missing_priorities c l) ∧
  (length (missing_priorities c l) <= length l)%nat.
Proof.
  intros Hl. unfold missing_priorities. rewrite Forall_fmap, length_fmap. split.
  - apply Forall_filter_2. eapply Forall_impl; [exact Hl|]. intros e He. simpl.
    apply (priority_calculation_Ok _ _ He).
  - apply length_filter.
Qed.

(** The sender after an ACK with the entries [l]. *)
Definition after_ack_received (mx : Z) (l : list (Z * Z)) (c : Connection) : Connection :=
  set_recovery (win_updated (loss_weight c l (S754_zero false)) (f64_of_Z (♯l)) (c_recovery c))
    (set_high_priority (c_high_priority c + high_losses c l)
      (set_send_buffer (mark (settled c l) (c_send_buffer c))
        (set_max_off (Z.max (c_max_off c) mx) (set_recv_count (c_recv_count c + 1) c)))).

(** The counters of the sender have room for one more ACK. *)
Definition sender_ready (c : Connection) (n : Z) : Prop :=
  c_is_server c = true ∧ 0 <= c_recv_count c < u64_bound - 1 ∧
  0 <= c_high_priority c ∧ c_high_priority c + n < u64_bound ∧
  max_datagram_size (c_recovery c) = PACKET_SIZE ∧
  0 <= incre_win (c_recovery c) < u64_bound - 9600 ∧
  0 <= decre_win (c_recovery c) < u64_bound - 19176.

Lemma recv_ack_Ok pn plen mx l c now :
  is_u64 pn → is_u64 plen → is_u64 mx → (length l <= 8)%nat →
  Forall (λ e, in_data c e.1 ∧ is_u64 e.2) l → sender_ready c (♯l) →
  recv_slice (ack_packet pn plen mx l) now c = Ok 0 (after_ack_received mx l c).
Proof.
  intros Hpn Hpl Hmx Hlen Hl (Hs & Hrc & Hhp & Hhp' & Hmds & Hi & Hd).
  assert (Hin : Forall (λ e, in_data c e.1) l) by (eapply Forall_impl; [exact Hl|]; by intros ? [? ?]).
  assert (Hu : Forall (λ e, is_u64 e.1 ∧ is_u64 e.2) l)
    by (eapply Forall_impl; [exact Hl|]; intros ? [[? ?] ?]; done).
  unfold ack_packet. rewrite recv_slice_Ok; [|by apply control_hdr_wf|done|done].
  rewrite recv_dispatch_ack by done. set (c1 := set_recv_count (c_recv_count c + 1) c).
  rewrite (bind_Ok _ _ _ tt (after_ack_received mx l c)); [done|].
  unfold process_ack. rewrite packet_body, some_bind.
  rewrite (bind_Ok _ _ _ _ _ (be_u64_at_app [] mx (enc_pairs l) c1 0 Hmx eq_refl)), get_bind.
  rewrite (bind_Ok _ _ c1 tt (set_max_off (Z.max (c_max_off c) mx) c1)).
  2:{ change (c_max_off c1) with (c_max_off c). destruct (Z.ltb_spec (c_max_off c) mx).
      - by rewrite Z.max_r by lia.
      - rewrite Z.max_l by lia. unfold c1. by destruct c. }
  set (c2 := set_max_off _ c1).
  rewrite (bind_Ok _ _ c2 (loss_weight c l (S754_zero false))
    (set_high_priority (c_high_priority c + high_losses c l)
      (set_send_buffer (mark (settled c l) (c_send_buffer c)) c2))).
  2:{ replace 8 with (♯(be_bytes 8 mx)) by zlia. rewrite process_ack_loop_entries; [|done|].
      - exact (process_entries_Ok l (S754_zero false) c2 Hin Hhp Hhp').
      - rewrite length_app. pose proof (zlen_enc_pairs l). unfold zlen in *. lia. }
  replace (♯(be_bytes 8 mx ++ enc_pairs l) / (8 * 2)) with (♯l).
  2:{ rewrite zlen_app, zlen_be_bytes, zlen_enc_pairs. change (Z.of_nat 8) with 8.
      replace (8 + 16 * ♯l) with (♯l * 16 + 8) by lia. change (8 * 2) with 16.
      rewrite Z.div_add_l by lia. change (8 / 16) with 0. lia. }
  destruct (missing_priorities_ok c l Hin) as [Hp Hpl'].
  destruct (batch_bounds (missing_priorities c l) ltac:(lia) Hp) as (B1 & B2 & _).
  unfold batch_weight in B1, B2. rewrite <-loss_weight_batch in B1, B2.
  unfold on_recovery. apply (zoom_Ok c_recovery). apply update_win_Ok; cbn;
    rewrite ?Hmds; lia.
Qed.
End Packets.

(** ** The exchange *)

Section Exchange.
Context {P : Profile} {O : OctetsOps} {HO : OctetsSpec O} {HI : HashOrder} {HIS : HashOrderSpec HI}.

Lemma hash_iter_elem (m : gmap Z Z) k v : (k, v) ∈ hash_iter m ↔ m !! k = Some v.
Proof. by rewrite hash_iter_perm, elem_of_map_to_list. Qed.

Lemma hash_iter_length (m : gmap Z Z) : length (hash_iter m) = size m.
Proof. by rewrite hash_iter_perm, length_map_to_list. Qed.

Lemma verdict_entries c os k v :
  (k, v) ∈ hash_iter (verdicts c os ∅) ↔ k ∈ os ∧ v = verdict c k.
Proof.
  rewrite hash_iter_elem, verdicts_lookup, lookup_empty.
  case_bool_decide; split; [by intros [= <-]|by intros [_ ->]|done|by intros [? _]].
Qed.

Lemma verdicts_size c os : (size (verdicts c os ∅) <= length os)%nat.
Proof.
  rewrite <-length_map_to_list, <-(length_fmap fst).
  apply submseteq_length, NoDup_submseteq; [apply NoDup_fst_map_to_list|].
  intros k ([k' v] & -> & Hin)%list_elem_of_fmap. apply elem_of_map_to_list in Hin.
  rewrite verdicts_lookup, lookup_empty in Hin. by case_bool_decide.
Qed.

Lemma verdict_u64 c o : is_u64 (verdict c o).
Proof. unfold verdict, is_u64, u64_bound. case_bool_decide; lia. Qed.

(** The entries settle exactly the offsets asked about that were received or
    have no retransmission left. *)
Definition is_settled (s r : Connection) (o : Z) : Prop :=
  is_Some (c_recv_dic r !! o) ∨ c_sent_dic s !! o = Some 0.
#[local] Instance is_settled_dec s r o : Decision (is_settled s r o) := _.

Lemma elem_settled s r os o :
  o ∈ settled s (hash_iter (verdicts r os ∅)) ↔ o ∈ os ∧ is_settled s r o.
Proof.
  unfold settled, is_settled. rewrite list_elem_of_fmap. split.
  - intros ([k v] & -> & [Hs Hin]%list_elem_of_filter). apply verdict_entries in Hin as [Hin ->].
    split; [done|]. unfold settles in Hs. simpl in *. apply orb_prop in Hs as [Hs|Hs].
    + left. unfold verdict in Hs. by case_bool_decide.
    + right. by apply bool_decide_eq_true in Hs.
  - intros [Hin Hs]. exists (o, verdict r o). split; [done|]. apply list_elem_of_filter.
    split; [|by apply verdict_entries]. unfold settles. simpl. apply orb_true_iff.
    destruct Hs as [Hs|Hs]; [left|right; by apply bool_decide_eq_true].
    unfold verdict. by rewrite bool_decide_eq_true_2.
Qed.

(** A receiver that has nothing more urgent to send than an answer. *)
Definition receiver_idle (r : Connection) : Prop :=
  c_is_server r = false ∧ c_server r = false ∧ c_handshake_confirmed r = true ∧
  c_sent_count r = 0 ∧ c_stop_flag r = false ∧ c_recv_hashmap r = ∅ ∧
  0 <= c_recv_count r < u64_bound - 1 ∧ is_u64 (max_ack r).

Lemma exchange_Ok s r pn plen os out t0 t1 t2 t3 :
  receiver_idle r → sender_ready s 8 → is_u64 pn → is_u64 plen →
  (length os <= 8)%nat → Forall (in_data s) os →
  34 + 16 * ♯os <= ♯out → ♯out < u64_bound →
  let m := verdicts r os ∅ in
  let l := hash_iter m in
  let r1 := after_elict pn os r in
  recv_slice (elict_packet pn plen os) t0 r = Ok 0 r1 ∧
  (∃ out', send_data t1 t2 (r1, out) =
     Ok (34 + 16 * ♯l, mkSendInfo (c_localaddr r) (c_peeraddr r)) (after_ack t2 r1, out') ∧
     take (Z.to_nat (34 + 16 * ♯l)) out' = ack_packet pn (16 * ♯l + 8) (max_ack r) l) ∧
  recv_slice (ack_packet pn (16 * ♯l + 8) (max_ack r) l) t3 s =
    Ok 0 (after_ack_received (max_ack r) l s).
Proof.
  intros (I1 & I2 & I3 & I4 & I5 & I6 & I7 & I8) Hsr Hpn Hpl Hos Hin Hout Hb m l r1.
  assert (Hll : length l = size m) by apply hash_iter_length.
  pose proof (verdicts_size r os) as Hsz. fold m in Hsz.
  assert (Hos64 : Forall is_u64 os) by (eapply Forall_impl; [exact Hin|]; by intros ? [? ?]).
  assert (Hr1 : c_recv_hashmap r1 = m) by (unfold r1; cbn; by rewrite I6).
  assert (Hn : 34 + 16 * ♯l <= ♯out) by (unfold zlen in *; lia).
  split; [by apply recv_elict_Ok|]. split.
  - pose proof (send_ack_Ok r1 out t1 t2) as E. cbv zeta in E. rewrite Hr1 in E. fold l in E.
    eexists. split.
    + apply E; done.
    + apply take_app_length'. pose proof (zlen_nonneg l). apply Nat2Z.inj.
      rewrite Z2Nat.id by lia.
      change (Z.of_nat (length ?x)) with (zlen x). unfold ack_packet. rewrite !zlen_app,
        Header.zlen_encode, zlen_be_bytes, zlen_enc_pairs. lia.
  - apply recv_ack_Ok; try done.
    + unfold is_u64. unfold zlen in *. lia.
    + lia.
    + apply Forall_forall. intros [k v] Hkv. apply verdict_entries in Hkv as [Hk ->].
      rewrite Forall_forall in Hin. split; [by apply Hin|apply verdict_u64].
    + destruct Hsr as (? & ? & ? & ? & ?). repeat split; try tauto; unfold zlen; lia.
Qed.
End Exchange.

(** ** Malformed control packets *)

Section Malformed.
Context {P : Profile} {O : OctetsOps} {HO : OctetsSpec O}.

(** A list of offsets that ends in the middle of an entry. *)
Lemma check_loss_loop_ragged fuel os tail b pre c :
  Forall is_u64 os → (length os < fuel)%nat → 0 < ♯tail < 8 →
  at_cursor b pre (enc_u64s os ++ tail) →
  check_loss_loop fuel b c = Panicked UnwrapFailed.
Proof.
  intros Hos. revert fuel b pre c.
  induction Hos as [|x os Hx Hos IH]; intros fuel b pre c Hf Ht Hb;
    (destruct fuel as [|fuel]; [simpl in Hf; lia|]); cbn [check_loss_loop];
    rewrite (at_cursor_cap _ _ _ Hb).
  - change (enc_u64s [] ++ tail) with tail in *.
    destruct (Z.ltb_spec 0 (♯tail)) as [_|]; [|lia]. cbn [negb]. msimpl.
    rewrite (get_u64_short _ _ _ Hb); [done|unfold zlen in *; lia].
  - rewrite zlen_app, zlen_enc_u64s, zlen_cons. pose_len.
    destruct (Z.ltb_spec 0 (8 * (1 + ♯os) + ♯tail)) as [_|]; [|lia]. cbn [negb].
    rewrite enc_u64s_cons, <-app_assoc in Hb.
    destruct (get_u64_at b _ _ _ Hb (be_bytes_length 8 x)) as (b' & E & C). msimpl. rewrite E.
    cbn [fst snd]. case_bool_decide; eapply IH; try done; simpl in Hf; lia.
Qed.

Lemma process_ack_entry_unknown o v w c :
  ♯(c_norm2_vec c) <= o / 1024 → process_ack_entry o v w c = Panicked OutOfBounds.
Proof.
  intros Hi.
  assert (Hpc : ∀ c1, c_norm2_vec c1 = c_norm2_vec c →
    priority_calculation o c1 = Panicked OutOfBounds).
  { intros c1 Hc1. unfold priority_calculation. rewrite get_bind, Hc1, index_None by done. done. }
  unfold process_ack_entry. rewrite get_bind.
  set (m := match c_sent_dic c !! o with Some _ => _ | None => _ end).
  assert (∃ c1, m c = Ok tt c1 ∧ c_norm2_vec c1 = c_norm2_vec c) as (c1 & E1 & H1).
  { unfold m. destruct (c_sent_dic c !! o) as [x|]; [destruct (x =? 0)|]; by eexists. }
  rewrite (bind_Ok _ _ _ _ _ E1). destruct (Z.eqb_spec v 0) as [->|Hv]; cbn [negb].
  - rewrite ret_bind. cbn [Z.eqb]. set (c2 := set_send_buffer
      (set_sb_offset_recv (om_alter (λ _, false) o (sb_offset_recv (c_send_buffer c1)))
        (c_send_buffer c1)) c1).
    rewrite (bind_Ok _ _ c1 w c2) by done. by rewrite (bind_Panicked _ _ _ _ (Hpc c2 H1)).
  - by rewrite (bind_Panicked _ _ _ _ (Hpc c1 H1)).
Qed.

(** C39: ack_unknown_offset_panics.  An ACK whose first entry names an offset
    beyond the blocks of the data being sent aborts the sender with an
    out-of-bounds access, whatever the verdict. *)
Theorem ack_unknown_offset_panics pn plen mx o v l c now :
  is_u64 pn → is_u64 plen → is_u64 mx → Forall (λ e, is_u64 e.1 ∧ is_u64 e.2) ((o, v) :: l) →
  c_is_server c = true → 0 <= c_recv_count c < u64_bound - 1 →
  ♯(c_norm2_vec c) <= o / 1024 →
  recv_slice (ack_packet pn plen mx ((o, v) :: l)) now c = Panicked OutOfBounds.
Proof.
  intros Hpn Hpl Hmx Hl Hs Hrc Hi. unfold ack_packet.
  rewrite recv_slice_Ok; [|by apply control_hdr_wf|done|done].
  rewrite recv_dispatch_ack by done. apply bind_Panicked. unfold process_ack.
  rewrite packet_body, some_bind.
  rewrite (bind_Ok _ _ _ _ _ (be_u64_at_app [] mx (enc_pairs ((o, v) :: l)) _ 0 Hmx eq_refl)), get_bind.
  set (m := if _ <? mx then _ else _). set (c0 := set_recv_count _ c).
  assert (∃ c1, m c0 = Ok tt c1 ∧ c_norm2_vec c1 = c_norm2_vec c) as (c1 & E1 & H1).
  { unfold m. destruct (_ <? mx); by eexists. }
  rewrite (bind_Ok _ _ _ _ _ E1). apply bind_Panicked.
  replace 8 with (♯(be_bytes 8 mx)) at 3 by zlia. rewrite process_ack_loop_entries; [|done|].
  - cbn [process_entries fst snd]. apply bind_Panicked, process_ack_entry_unknown. by rewrite H1.
  - rewrite length_app. pose proof (zlen_enc_pairs ((o, v) :: l)). unfold zlen in *. lia.
Qed.

(** C40: truncated_control_packets_panic.  A control packet cut short after its
    header aborts the endpoint instead of being rejected: an ACK without its
    8-byte maximum, and an [ElictAck] whose list of offsets is not a whole
    number of entries. *)
Theorem truncated_control_packets_panic h body g os tail c d now :
  Header.wf h → Header.ty h = ACK → ♯body < 8 → c_is_server c = true →
  0 <= c_recv_count c < u64_bound - 1 →
  Header.wf g → Header.ty g = ElictAck → Forall is_u64 os → 0 < ♯tail < 8 →
  0 <= c_recv_count d < u64_bound - 1 →
  recv_slice (Header.encode h ++ body) now c = Panicked OutOfBounds ∧
  recv_slice (Header.encode g ++ enc_u64s os ++ tail) now d = Panicked UnwrapFailed.
Proof.
  intros Hw Hty Hb Hs Hrc Hwg Htg Hos Ht Hrd. split.
  - rewrite recv_slice_Ok; [|done|congruence|done].
    rewrite recv_dispatch_ack by done. apply bind_Panicked. unfold process_ack.
    rewrite packet_body, some_bind. apply bind_Panicked. unfold be_u64_at.
    by rewrite slice_None by lia.
  - rewrite recv_slice_Ok; [|done|congruence|done].
    rewrite recv_dispatch_elict by done. apply bind_Panicked. unfold recv_elict.
    rewrite modify_bind. destruct Hwg as (Hpn & _).
    rewrite (bind_Ok _ _ _ _ _ (packet_num_field g _ _ Hpn)).
    rewrite modify_bind, packet_body, some_bind. apply bind_Panicked.
    eapply check_loss_loop_ragged; [done| |done|apply at_cursor_with_slice].
    rewrite length_app. pose proof (zlen_enc_u64s os). unfold zlen in *. lia.
Qed.
End Malformed.
