(* ===== verification/DataPath.v ===== *)
(** * DataPath: from the send buffer of one end to the receive buffer of the other

    What [send_data] puts on the wire for a data packet and for an [ElictAck],
    what the peer does with a data packet, and how [send_all] refills the
    window. *)
From Stdlib Require Import SpecFloat.
From S2P Require Import Prelude Effects Octets Packet OMap SoftFloat RangeBuf RecvBuf SendBuf Recovery Connection AckPath.

(** ** Elicitation *)

(** The offsets sent since the last [ElictAck]. *)
Definition unreported (c : Connection) : list Z := drop (Z.to_nat (c_ack_point c)) (c_sent_pkt c).

(** The batch accounting of the sender: [sent_count] counts the unreported
    packets, and never passes 8. *)
Definition batch_inv (c : Connection) : Prop :=
  0 <= c_ack_point c <= ♯(c_sent_pkt c) ∧
  c_sent_count c = ♯(c_sent_pkt c) - c_ack_point c ∧ c_sent_count c <= ELICT_FLAG.

Definition elict_due (c : Connection) : Prop :=
  (c_rtt c ≠ 0 ∨ c_is_server c = false) ∧ (c_handshake_confirmed c = true ∨ c_is_server c = true) ∧
  (c_sent_count c = 8 ∨ c_stop_flag c = true).

Definition after_elict_sent (c : Connection) : Connection :=
  let c1 := set_ack_point (♯(c_sent_pkt c)) (set_pkt_num_spaces
    ((c_pkt_num_spaces c).1,
     mkSpace (next_pkt_num (c_pkt_num_spaces c).2 + 1) (recv_pkt_num (c_pkt_num_spaces c).2))
    (set_sent_count 0 c)) in
  if c_stop_flag c then set_stop_ack true c1 else c1.

Section Elicit.
Context {P : Profile} {O : OctetsOps} {HO : OctetsSpec O} {HI : HashOrder}.

Lemma zlen_unreported c : batch_inv c → ♯(unreported c) = c_sent_count c.
Proof. intros (? & ? & ?). unfold unreported. zlia. Qed.

Lemma write_pkt_type_elict c :
  elict_due c → write_pkt_type c = Ok ElictAck (set_sent_count 0 c).
Proof.
  intros (H1 & H2 & H3). unfold write_pkt_type. msimpl.
  assert ((c_rtt c =? 0) && c_is_server c = false) as ->.
  { destruct H1 as [H1| ->]; [|by rewrite andb_false_r].
    by destruct (Z.eqb_spec (c_rtt c) 0). }
  assert (negb (c_handshake_confirmed c) && negb (c_is_server c) = false) as ->.
  { destruct H2 as [-> | ->]; [done|]. by rewrite andb_false_r. }
  destruct H3 as [-> | ->]; [done|]. by rewrite orb_true_r.
Qed.

Lemma elict_body_at pn plen os out :
  is_u64 pn → is_u64 plen → 26 + 8 * ♯os <= ♯out →
  ∃ o', (unwrap (Header.to_bytes (Header.mkHeader ElictAck pn 0 0 plen));; put_u64s os)
          (with_slice out) = Ok tt o' ∧
        at_cursor o' (elict_packet pn plen os) (drop (Z.to_nat (26 + 8 * ♯os)) out).
Proof.
  intros Hpn Hpl Hout. pose proof (zlen_nonneg os).
  destruct (Header.to_bytes_at _ _ _ _ (control_hdr_wf ElictAck pn plen Hpn Hpl)
    (at_cursor_with_slice out)) as (o1 & E1 & C1); [unfold zlen in *; lia|].
  destruct (put_u64s_at os o1 _ _ C1) as (o2 & E2 & C2); [zlia|].
  exists o2. rewrite (bind_Ok _ _ _ tt o1) by (unfold unwrap; by rewrite E1). split; [done|].
  unfold elict_packet. rewrite app_nil_l in C2. rewrite drop_drop in C2.
  replace (Z.to_nat (26 + 8 * ♯os)) with (26 + 8 * length os)%nat by (unfold zlen; lia). done.
Qed.

Lemma send_elict_Ok c out now1 now2 :
  elict_due c → batch_inv c → is_u64 (next_pkt_num (c_pkt_num_spaces c).2 + 1) →
  0 <= next_pkt_num (c_pkt_num_spaces c).2 →
  let os := unreported c in
  let pn := next_pkt_num (c_pkt_num_spaces c).2 in
  26 + 8 * ♯os <= ♯out →
  send_data now1 now2 (c, out) =
    Ok (26 + 8 * ♯os, mkSendInfo (c_localaddr c) (c_peeraddr c))
       (after_elict_sent c, elict_packet pn (8 * ♯os) os ++ drop (Z.to_nat (26 + 8 * ♯os)) out).
Proof.
  intros Hdue Hinv Hpn' Hpn0 os pn Hout.
  pose proof (zlen_unreported c Hinv) as Hu. fold os in Hu.
  destruct Hinv as (Hap & Hsc & Hle). pose proof (zlen_nonneg os).
  assert (Hpn : is_u64 pn) by (unfold is_u64, pn in *; lia).
  assert (Hps : is_u64 (8 * ♯os)) by (unfold is_u64, u64_bound, ELICT_FLAG in *; lia).
  assert (Hbd : is_u64 (♯os)) by (unfold is_u64, u64_bound, ELICT_FLAG in *; lia).
  assert (Htot : is_u64 (26 + 8 * ♯os)) by (unfold is_u64, u64_bound, ELICT_FLAG in *; lia).
  unfold send_data, send_stop_packet, finish_send. rewrite get_bind. cbn [snd fst]. destruct (Z.eqb_spec (♯out) 0); [lia|].
  rewrite (on_conn_Ok _ _ _ _ _ _ (write_pkt_type_elict c Hdue)). decide_types.
  rewrite !ret_bind.
  destruct (elict_body_at pn (8 * ♯os) os out Hpn Hps Hout) as (o' & E & C).
  rewrite (bind_Ok _ _ _ (8 * ♯os) (after_elict_sent c,
    elict_packet pn (8 * ♯os) os ++ drop (Z.to_nat (26 + 8 * ♯os)) out)).
  { unfold uadd, HEADER_LENGTH. by rewrite checked_bind. }
  unfold send_elict_packet. rewrite get_bind. unfold uadd. rewrite checked_bind by done.
  rewrite on_conn_modify, get_bind. cbn [fst].
  set (c1 := set_pkt_num_spaces _ (set_sent_count 0 c)).
  change (c_stop_flag c1) with (c_stop_flag c). change (c_sent_pkt c1) with (c_sent_pkt c).
  change (c_ack_point c1) with (c_ack_point c).
  rewrite slice_from_Some by lia. fold (unreported c). fold os.
  unfold after_elict_sent. destruct (c_stop_flag c) eqn:Hst.
  - rewrite some_bind. unfold usub, umul.
    replace (♯(c_sent_pkt c) - c_ack_point c) with (♯os) by lia.
    rewrite checked_bind by done. rewrite (Z.mul_comm _ 8), checked_bind by done.
    rewrite (on_out_Ok _ _ _ _ _ _ E), !on_conn_modify. unfold mret, M_ret.
    by rewrite (at_cursor_buf _ _ _ C).
  - assert (H8 : ♯os = 8).
    { destruct Hdue as (_ & _ & [H8|?]); [lia|congruence]. }
    assert (H64 : 8 * ♯os = 64) by lia. rewrite H64 in *. rewrite some_bind.
    rewrite (on_out_Ok _ _ _ _ _ _ E), !on_conn_modify. unfold mret, M_ret.
    by rewrite (at_cursor_buf _ _ _ C).
Qed.

Lemma after_elict_sent_inv c : batch_inv c → batch_inv (after_elict_sent c).
Proof.
  intros (? & ? & ?). unfold batch_inv, after_elict_sent, ELICT_FLAG.
  destruct (c_stop_flag c); cbn; lia.
Qed.
End Elicit.

(** ** Data packets *)

Definition data_packet (pn prio off : Z) (data : list Z) : list Z :=
  Header.encode (Header.mkHeader Application pn prio off (♯data)) ++ data.

(** The sender is due to send data. *)
Definition data_due (c : Connection) : Prop :=
  c_rtt c ≠ 0 ∧ c_is_server c = true ∧ 0 <= c_sent_count c < 8 ∧
  c_stop_flag c = false ∧ c_recv_flag c = false.

(** What remains of the retransmission budget of [off] after one more
    transmission: the first one grants the priority. *)
Definition budget_after (c : Connection) (off : Z) : Z :=
  match c_sent_dic c !! off with Some x => x - 1 | None => priority_of c off end.

Definition after_data_sent (now : Z) (ch : RangeBuf) (c : Connection) : Connection :=
  let c1 := set_sent_dic (<[rg_off ch := budget_after c (rg_off ch)]> (c_sent_dic c))
    (set_pkt_num_spaces
      (mkSpace (next_pkt_num (c_pkt_num_spaces c).1 + 1) (recv_pkt_num (c_pkt_num_spaces c).1),
       (c_pkt_num_spaces c).2)
      (set_sent_number (c_sent_number c + 1) (set_sent_count (c_sent_count c + 1)
        (set_send_buffer (emitted ch (c_send_buffer c)) c)))) in
  let c2 := if last_of_window ch (c_send_buffer c) then set_stop_flag true c1 else c1 in
  set_handshake now (set_sent_pkt (c_sent_pkt c ++ [rg_off ch]) c2).

(** The counters a transmission advances, and its budget. *)
Definition can_send (c : Connection) (off : Z) : Prop :=
  is_u64 (next_pkt_num (c_pkt_num_spaces c).1 + 1) ∧ 0 <= next_pkt_num (c_pkt_num_spaces c).1 ∧
  0 <= c_sent_number c < u64_bound - 1 ∧
  match c_sent_dic c !! off with Some x => 0 < x < u64_bound | None => True end.

Section Data.
Context {P : Profile} {O : OctetsOps} {HO : OctetsSpec O} {HI : HashOrder}.

Lemma write_pkt_type_data c : data_due c → write_pkt_type c = Ok Application c.
Proof.
  intros (H1 & H2 & H3 & H4 & H5). unfold write_pkt_type. msimpl.
  rewrite H2, H4, H5, !andb_false_r, orb_false_r.
  destruct (Z.eqb_spec (c_rtt c) 0); [done|]. cbn [andb negb].
  destruct (Z.ltb_spec 0 (c_sent_count c)); [|by rewrite andb_false_r].
  unfold ELICT_FLAG. rewrite Z.mod_small by lia.
  destruct (Z.eqb_spec (c_sent_count c) 0); [lia|done].
Qed.

Lemma note_sent_Ok off c :
  match c_sent_dic c !! off with Some x => 0 < x < u64_bound | None => True end →
  note_sent off (priority_of c off) c =
    Ok tt (set_sent_dic (<[off := budget_after c off]> (c_sent_dic c)) c).
Proof.
  intros Hb. unfold note_sent, budget_after. rewrite get_bind.
  destruct (c_sent_dic c !! off) as [x|]; [|done]. unfold usub.
  rewrite checked_bind by (unfold is_u64; lia). done.
Qed.

(** Placing the chunk behind the header. *)
Lemma data_packet_buffer h ch out :
  Header.wf h → 26 + ♯ch <= ♯out →
  ∃ o', Header.to_bytes h (with_slice (take 26 out ++ ch ++ drop (length ch) (drop 26 out))) =
          Ok tt o' ∧
        o_buf o' = (Header.encode h ++ ch) ++ drop (Z.to_nat (26 + ♯ch)) out.
Proof.
  intros Hw Hout. destruct (Header.to_bytes_at h _ _ _ Hw
    (at_cursor_with_slice (take 26 out ++ ch ++ drop (length ch) (drop 26 out))))
    as (o' & E & C).
  { rewrite !length_app, length_take. pose proof (zlen_nonneg ch). unfold zlen in *. lia. }
  exists o'. split; [done|]. rewrite (at_cursor_buf _ _ _ C), app_nil_l.
  rewrite drop_app_length' by (rewrite length_take; pose proof (zlen_nonneg ch); unfold zlen in *; lia).
  rewrite drop_drop, <-app_assoc. do 3 f_equal. unfold zlen. lia.
Qed.

(** The part of [send_application] after the packet number was taken. *)
Definition finish_data (pn prio off len : Z) (stop : bool) : M (Connection * list Z) Z :=
  on_conn (note_sent off prio);;
  put_header (Header.mkHeader Application pn prio off len);;
  (if stop then on_conn (modify (set_stop_flag true)) else mret tt);;
  on_conn (modify (λ c, set_sent_pkt (c_sent_pkt c ++ [off]) c));;
  mret len.

Definition counted (ch : RangeBuf) (c : Connection) : Connection :=
  let c2 := set_sent_number (c_sent_number c + 1) (set_sent_count (c_sent_count c + 1)
    (set_send_buffer (emitted ch (c_send_buffer c)) c)) in
  set_pkt_num_spaces
    (mkSpace (next_pkt_num (c_pkt_num_spaces c).1 + 1) (recv_pkt_num (c_pkt_num_spaces c2).1),
     (c_pkt_num_spaces c2).2) c2.

Lemma send_application_start c ch l out :
  SendBuf.wf (c_send_buffer c) → accounted (c_send_buffer c) →
  drop (Z.to_nat (sb_pos (c_send_buffer c))) (sb_data (c_send_buffer c)) = ch :: l →
  rg_off ch < c_written_data c → in_data c (rg_off ch) → 0 <= c_sent_count c < 8 →
  is_u64 (next_pkt_num (c_pkt_num_spaces c).1 + 1) → 0 <= c_sent_number c < u64_bound - 1 →
  26 + SEND_BUFFER_SIZE <= ♯out →
  send_application (c, out) =
    finish_data (next_pkt_num (c_pkt_num_spaces c).1) (priority_of c (rg_off ch)) (rg_off ch)
      (rg_len ch) (last_of_window ch (c_send_buffer c))
      (counted ch c, take 26 out ++ rg_data ch ++ drop (length (rg_data ch)) (drop 26 out)).
Proof.
  intros Hwf Hacc Hd Hwd Hin Hsc Hpn Hsn Hout. unfold SEND_BUFFER_SIZE in Hout.
  unfold send_application. rewrite get_bind. cbn [snd]. rewrite slice_from_Some, some_bind by lia.
  erewrite on_conn_Ok.
  2:{ unfold on_send_buffer. apply (zoom_Ok c_send_buffer).
      apply (emit_Ok _ ch l (drop 26 out) Hwf Hacc Hd). unfold SEND_BUFFER_SIZE. zlia. }
  cbv beta iota. rewrite modify_bind, get_bind. cbn [fst snd].
  set (c1 := set_send_buffer (emitted ch (c_send_buffer c)) c).
  change (c_written_data c1) with (c_written_data c).
  change (c_sent_count c1) with (c_sent_count c). change (c_sent_number c1) with (c_sent_number c).
  destruct (Z.leb_spec (c_written_data c) (rg_off ch)); [lia|].
  unfold uadd. rewrite checked_bind by (unfold is_u64, u64_bound; lia).
  rewrite on_conn_modify, checked_bind by (unfold is_u64, u64_bound in *; lia).
  rewrite on_conn_modify. set (c2 := set_sent_number _ _).
  destruct (priority_calculation_Ok (rg_off ch) c2 Hin) as [Hpc _].
  rewrite (on_conn_Ok _ _ _ _ _ _ Hpc). change (priority_of c2) with (priority_of c).
  rewrite checked_bind by done. rewrite on_conn_modify. reflexivity.
Qed.

Lemma send_application_Ok c ch l out :
  SendBuf.wf (c_send_buffer c) → accounted (c_send_buffer c) →
  drop (Z.to_nat (sb_pos (c_send_buffer c))) (sb_data (c_send_buffer c)) = ch :: l →
  rg_off ch < c_written_data c → in_data c (rg_off ch) → 0 <= c_sent_count c < 8 →
  can_send c (rg_off ch) → 26 + SEND_BUFFER_SIZE <= ♯out → ∀ now,
  ∃ c', send_application (c, out) =
    Ok (rg_len ch) (c',
      data_packet (next_pkt_num (c_pkt_num_spaces c).1) (priority_of c (rg_off ch))
        (rg_off ch) (rg_data ch) ++ drop (Z.to_nat (26 + rg_len ch)) out) ∧
    set_handshake now c' = after_data_sent now ch c.
Proof.
  intros Hwf Hacc Hd Hwd Hin Hsc (Hpn' & Hpn0 & Hsn & Hbud) Hout now.
  destruct (next_chunk_ok _ _ _ Hwf Hd) as [[(_ & _ & Hlen & Ho0 & Hob) _] Hsz].
  destruct (priority_calculation_Ok _ _ Hin) as [_ Hpr].
  rewrite (send_application_start c ch l) by done. unfold finish_data, SEND_BUFFER_SIZE in *.
  rewrite (on_conn_Ok _ _ _ _ _ _ (note_sent_Ok (rg_off ch) (counted ch c) Hbud)).
  set (c4 := set_sent_dic _ (counted ch c)).
  destruct (data_packet_buffer (Header.mkHeader Application (next_pkt_num (c_pkt_num_spaces c).1)
    (priority_of c (rg_off ch)) (rg_off ch) (rg_len ch)) (rg_data ch) out) as (o' & E & Hbuf).
  { repeat split; simpl; unfold is_u8, u8_bound, is_u64, u64_bound in *; lia. }
  { lia. }
  unfold put_header. rewrite (on_out_Ok _ _ _ _ _ _ E), Hbuf.
  set (c5 := if last_of_window ch (c_send_buffer c) then set_stop_flag true c4 else c4).
  set (out' := (_ ++ rg_data ch) ++ _).
  rewrite (bind_Ok _ _ _ tt (c5, out')) by (unfold c5; by destruct (last_of_window _ _)).
  rewrite on_conn_modify. eexists. split.
  - unfold mret, M_ret, out', data_packet. rewrite <-Hlen. done.
  - unfold after_data_sent, c5. by destruct (last_of_window _ _).
Qed.

Lemma send_data_Ok c ch l out now1 now2 :
  data_due c → c_stop_ack c = false →
  SendBuf.wf (c_send_buffer c) → accounted (c_send_buffer c) →
  drop (Z.to_nat (sb_pos (c_send_buffer c))) (sb_data (c_send_buffer c)) = ch :: l →
  rg_off ch < c_written_data c → in_data c (rg_off ch) → can_send c (rg_off ch) →
  26 + SEND_BUFFER_SIZE <= ♯out →
  send_data now1 now2 (c, out) =
    Ok (26 + rg_len ch, mkSendInfo (c_localaddr c) (c_peeraddr c))
       (after_data_sent now2 ch c,
        data_packet (next_pkt_num (c_pkt_num_spaces c).1) (priority_of c (rg_off ch))
          (rg_off ch) (rg_data ch) ++ drop (Z.to_nat (26 + rg_len ch)) out).
Proof.
  intros Hdue Hsa Hwf Hacc Hd Hwd Hin Hcs Hout.
  pose proof (next_chunk_ok _ _ _ Hwf Hd) as Hck.
  destruct (send_application_Ok c ch l out Hwf Hacc Hd Hwd Hin (proj1 (proj2 (proj2 Hdue)))
    Hcs Hout now2) as (c' & E & Hc').
  assert (Hnst : is_stopped c' = false).
  { change (is_stopped c') with (is_stopped (set_handshake now2 c')). rewrite Hc'.
    unfold is_stopped, after_data_sent. destruct (last_of_window _ _); cbn; rewrite Hsa;
      by rewrite ?andb_false_r. }
  unfold send_data, send_stop_packet, finish_send. rewrite get_bind. cbn [snd fst].
  destruct (Z.eqb_spec (♯out) 0); [unfold SEND_BUFFER_SIZE in *; lia|].
  rewrite (on_conn_Ok _ _ _ _ _ _ (write_pkt_type_data c Hdue)). decide_types.
  rewrite !ret_bind. rewrite (bind_Ok _ _ _ _ _ E), get_bind. cbn [fst]. rewrite Hnst.
  rewrite on_conn_modify, Hc'. unfold uadd, HEADER_LENGTH.
  rewrite checked_bind; [done|]. destruct Hck as [_ Hsz]. unfold is_u64, u64_bound, SEND_BUFFER_SIZE in *. lia.
Qed.

(** *** Delivery *)

Definition after_data_received (pn prio off : Z) (data : list Z) (c : Connection) : Connection :=
  let rb := c_rec_buffer c in
  let rb' := match last (rb_data rb) with
             | Some (k, _) => if k =? off then set_rb_max_recv_off off rb else rb
             | None => rb
             end in
  set_recv_dic (<[off := prio]> (c_recv_dic c))
    (set_rec_buffer (set_rb_data (om_insert (off + ♯data) (from data off) (rb_data rb)) rb')
      (set_recv_count (c_recv_count c + 2) c)).

(** The length a data packet announces is returned as it is, whatever the
    length of its payload. *)
Lemma recv_announced_Ok pn prio off plen data c now :
  is_u64 pn → is_u8 prio → is_u64 off → is_u64 plen → off + ♯data < u64_bound →
  0 <= c_recv_count c < u64_bound - 2 →
  recv_slice (Header.encode (Header.mkHeader Application pn prio off plen) ++ data) now c =
    Ok plen (after_data_received pn prio off data c).
Proof.
  intros Hpn Hpr Hoff Hpl Hb Hrc. pose proof (zlen_nonneg data).
  rewrite recv_slice_Ok; [|done|done|lia].
  rewrite recv_dispatch_application by done. unfold recv_application.
  rewrite get_bind. unfold uadd. cbn [c_recv_count set_recv_count].
  rewrite checked_bind by (unfold is_u64; lia). rewrite modify_bind.
  rewrite packet_body, some_bind. cbn [Header.offset].
  assert (E : unwrap (on_rec_buffer (RecvBuf.write data off))
    (set_recv_count (c_recv_count c + 1 + 1) (set_recv_count (c_recv_count c + 1) c)) =
    Ok tt (set_rec_buffer (set_rb_data (om_insert (off + ♯data) (from data off)
      (rb_data (c_rec_buffer c))) (match last (rb_data (c_rec_buffer c)) with
             | Some (k, _) => if k =? off then set_rb_max_recv_off off (c_rec_buffer c)
                              else c_rec_buffer c
             | None => c_rec_buffer c
             end)) (set_recv_count (c_recv_count c + 2) c))).
  { unfold unwrap, on_rec_buffer, zoom. cbn [c_rec_buffer set_recv_count].
    rewrite recv_write_Ok by (unfold is_u64 in *; lia).
    replace (c_recv_count c + 2) with (c_recv_count c + 1 + 1) by lia. done. }
  by rewrite (bind_Ok _ _ _ _ _ E).
Qed.

Lemma recv_data_Ok pn prio off data c now :
  is_u64 pn → is_u8 prio → is_u64 off → off + ♯data < u64_bound →
  0 <= c_recv_count c < u64_bound - 2 →
  recv_slice (data_packet pn prio off data) now c =
    Ok (♯data) (after_data_received pn prio off data c).
Proof.
  intros. pose proof (zlen_nonneg data).
  apply recv_announced_Ok; try done. unfold is_u64 in *. lia.
Qed.
End Data.

(** ** Handshake *)

Definition handshake_packet : list Z := Header.encode (Header.mkHeader Handshake 0 0 0 0).

Section Hello.
Context {P : Profile} {O : OctetsOps} {HO : OctetsSpec O} {HI : HashOrder}.

Lemma handshake_bytes out :
  26 <= ♯out → ∃ o', Header.to_bytes (Header.mkHeader Handshake 0 0 0 0) (with_slice out) = Ok tt o' ∧
                     o_buf o' = handshake_packet ++ drop 26 out.
Proof.
  intros Ho. destruct (Header.to_bytes_at _ _ _ _ (control_hdr_wf Handshake 0 0 zero_u64 zero_u64)
    (at_cursor_with_slice out)) as (o' & E & C); [unfold zlen in *; lia|].
  exists o'. split; [done|]. by rewrite (at_cursor_buf _ _ _ C).
Qed.

Lemma send_hello_server c out t1 t2 :
  c_rtt c = 0 → c_is_server c = true → c_server c = true → c_stop_flag c = false → 26 <= ♯out →
  send_data t1 t2 (c, out) =
    Ok (26, mkSendInfo (c_localaddr c) (c_peeraddr c))
       (set_handshake t2 (set_handshake_completed true c), handshake_packet ++ drop 26 out).
Proof.
  intros Hr Hi Hs Hf Ho. unfold send_data, send_stop_packet, finish_send. rewrite get_bind. cbn [snd fst].
  destruct (Z.eqb_spec (♯out) 0); [lia|].
  rewrite (on_conn_Ok _ _ c (set_handshake_completed true c) out Handshake).
  2:{ unfold write_pkt_type. rewrite get_bind, Hr, Hi. done. }
  decide_types. rewrite Hs. cbn [negb]. destruct (handshake_bytes out Ho) as (o' & E & Hb).
  rewrite (bind_Ok _ _ _ tt (set_handshake t1 (set_handshake_completed true c),
    handshake_packet ++ drop 26 out)).
  2:{ unfold send_handshake_server, put_header. by rewrite (on_out_Ok _ _ _ _ _ _ E), Hb. }
  rewrite !ret_bind, get_bind. unfold is_stopped. cbn [fst c_stop_flag set_handshake
    set_handshake_completed]. rewrite Hf. cbn [andb]. rewrite on_conn_modify. done.
Qed.

Lemma send_hello_client c out t1 t2 :
  c_is_server c = false → c_server c = false → c_handshake_confirmed c = false →
  c_stop_flag c = false → 26 <= ♯out →
  send_data t1 t2 (c, out) =
    Ok (26, mkSendInfo (c_localaddr c) (c_peeraddr c))
       (set_handshake t2 (set_feed_back false (set_handshake_confirmed true c)),
        handshake_packet ++ drop 26 out).
Proof.
  intros Hi Hs Hc Hf Ho. unfold send_data, send_stop_packet, finish_send. rewrite get_bind. cbn [snd fst].
  destruct (Z.eqb_spec (♯out) 0); [lia|].
  rewrite (on_conn_Ok _ _ c (set_handshake_confirmed true c) out Handshake).
  2:{ unfold write_pkt_type. rewrite get_bind, Hi, Hc, andb_false_r. done. }
  decide_types. rewrite Hs. cbn [negb]. rewrite !ret_bind.
  destruct (handshake_bytes out Ho) as (o' & E & Hb).
  rewrite (bind_Ok _ _ _ tt (set_feed_back false (set_handshake_confirmed true c),
    handshake_packet ++ drop 26 out)).
  2:{ unfold send_handshake_client, put_header. by rewrite (on_out_Ok _ _ _ _ _ _ E), Hb. }
  rewrite !ret_bind, get_bind. unfold is_stopped. cbn [fst c_stop_flag set_feed_back
    set_handshake_confirmed]. rewrite Hf. cbn [andb]. rewrite on_conn_modify. done.
Qed.

Lemma recv_hello c now :
  0 <= c_recv_count c < u64_bound - 1 →
  recv_slice handshake_packet now c =
    (if c_is_server c then update_rtt now;; modify (set_handshake_completed true);; mret 0
     else modify (set_handshake_confirmed false);; modify (set_feed_back true);; mret 0)
    (set_recv_count (c_recv_count c + 1) c).
Proof.
  intros Hrc. unfold handshake_packet.
  rewrite <-(app_nil_r (Header.encode _)) at 1.
  rewrite recv_slice_Ok; [|by apply control_hdr_wf; apply zero_u64|done|done].
  unfold recv_dispatch. rewrite get_bind. cbn [Header.ty c_is_server set_recv_count].
  decide_types. destruct (c_is_server c); cbn [negb]; [|done]. msimpl.
  by destruct (update_rtt now _).
Qed.
End Hello.

(** ** Properties *)

Section Properties.
Context {P : Profile} {O : OctetsOps} {HO : OctetsSpec O} {HI : HashOrder} {HIS : HashOrderSpec HI}.

Lemma take_packet (p rest : list Z) n : n = ♯p → take (Z.to_nat n) (p ++ rest) = p.
Proof. intros ->. apply take_app_length'. unfold zlen. lia. Qed.

(** C15: elict_ack_cycle.  One round of acknowledgement, from wire to wire: the
    sender reports the offsets sent since the last round, the receiver answers,
    and after the answer the sender keeps for retransmission exactly the
    chunks that were not reported, or that the receiver does not have and that
    still have retransmissions left.  Every step succeeds, both ends are ready
    for the next round, and nothing remains unreported. *)
Theorem elict_ack_cycle s r out1 out2 t1 t2 t3 t4 t5 t6 :
  elict_due s → batch_inv s → 0 <= next_pkt_num (c_pkt_num_spaces s).2 < u64_bound - 1 →
  sender_ready s 8 → Forall (in_data s) (unreported s) → receiver_idle r →
  90 <= ♯out1 → 162 <= ♯out2 < u64_bound →
  ∃ n1 i1 s1 o1 r1 n2 i2 r2 o2 s2,
    send_data t1 t2 (s, out1) = Ok (n1, i1) (s1, o1) ∧
    recv_slice (take (Z.to_nat n1) o1) t3 r = Ok 0 r1 ∧
    send_data t4 t5 (r1, out2) = Ok (n2, i2) (r2, o2) ∧
    recv_slice (take (Z.to_nat n2) o2) t6 s1 = Ok 0 s2 ∧
    kept (c_send_buffer s2) =
      filter (λ c, ¬ (rg_off c ∈ unreported s ∧ is_settled s r (rg_off c)))
             (kept (c_send_buffer s)) ∧
    unreported s2 = [] ∧ batch_inv s2 ∧ c_recv_hashmap r2 = ∅.
Proof.
  intros Hdue Hinv Hpn Hrd Hin Hidle Ho1 Ho2. set (os := unreported s) in *.
  pose proof (zlen_unreported s Hinv) as Hu. pose proof Hinv as (Hap & Hsc & Hle).
  fold os in Hu. unfold ELICT_FLAG in Hle. pose_len.
  set (pn := next_pkt_num (c_pkt_num_spaces s).2) in *.
  assert (Hpn64 : is_u64 pn) by (unfold is_u64; lia).
  assert (Hpl : is_u64 (8 * ♯os)) by (unfold is_u64, u64_bound; lia).
  pose proof (send_elict_Ok s out1 t1 t2 Hdue Hinv ltac:(unfold is_u64; lia) ltac:(lia)
    ltac:(fold os; lia)) as E1. cbv zeta in E1. fold os pn in E1.
  set (s1 := after_elict_sent s) in *.
  assert (Hsame : c_send_buffer s1 = c_send_buffer s ∧ c_sent_dic s1 = c_sent_dic s ∧
    sender_ready s1 8 ∧ Forall (in_data s1) os).
  { unfold s1, after_elict_sent. destruct (c_stop_flag s); by repeat split; try apply Hrd. }
  destruct Hsame as (Hb1 & Hd1 & Hrd1 & Hin1).
  destruct (exchange_Ok s1 r pn (8 * ♯os) os out2 t3 t4 t5 t6 Hidle Hrd1 Hpn64 Hpl)
    as (E2 & (o2 & E3 & Ht) & E4); [unfold zlen in *; lia|done|lia|lia|].
  set (l := hash_iter (verdicts r os ∅)) in *.
  do 10 eexists. split; [exact E1|].
  split. { rewrite take_packet; [exact E2|]. unfold elict_packet. zlia. }
  split; [exact E3|]. split; [by rewrite Ht|].
  split.
  { unfold after_ack_received. cbn [c_send_buffer set_recovery set_high_priority set_send_buffer].
    rewrite mark_kept. rewrite Hb1. apply list_filter_iff. intros c.
    unfold l. rewrite elem_settled. unfold is_settled. by rewrite Hd1. }
  assert (Hu1 : unreported s1 = []).
  { unfold s1, unreported, after_elict_sent. destruct (c_stop_flag s); cbn;
      apply drop_ge; unfold zlen; lia. }
  split; [done|]. split; [by apply (after_elict_sent_inv s)|done].
Qed.

(** C16: data_packet_delivered.  A data packet carries the next chunk of the
    window with its offset, priority and length; handing its bytes to the peer
    stores exactly that chunk in the peer's receive buffer and records the
    offset as received. *)
Theorem data_packet_delivered s r ch l out t1 t2 t3 :
  data_due s → c_stop_ack s = false → SendBuf.wf (c_send_buffer s) →
  accounted (c_send_buffer s) →
  drop (Z.to_nat (sb_pos (c_send_buffer s))) (sb_data (c_send_buffer s)) = ch :: l →
  rg_off ch < c_written_data s → in_data s (rg_off ch) → can_send s (rg_off ch) →
  26 + SEND_BUFFER_SIZE <= ♯out → RecvBuf.wf (c_rec_buffer r) →
  0 <= c_recv_count r < u64_bound - 2 →
  ∃ n info s1 o1 r1,
    send_data t1 t2 (s, out) = Ok (n, info) (s1, o1) ∧
    recv_slice (take (Z.to_nat n) o1) t3 r = Ok (rg_len ch) r1 ∧
    om_get (chunk_end ch) (rb_data (c_rec_buffer r1)) = Some ch ∧
    c_recv_dic r1 = <[rg_off ch := priority_of s (rg_off ch)]> (c_recv_dic r) ∧
    c_sent_pkt s1 = c_sent_pkt s ++ [rg_off ch] ∧
    c_sent_dic s1 !! rg_off ch = Some (budget_after s (rg_off ch)).
Proof.
  intros Hdue Hsa Hwf Hacc Hd Hwd Hin Hcs Hout [Hsort _] Hrc.
  destruct (next_chunk_ok _ _ _ Hwf Hd) as [[(Hst & _ & Hlen & Ho0 & Hob) Hp0] Hsz].
  pose proof (send_data_Ok s ch l out t1 t2 Hdue Hsa Hwf Hacc Hd Hwd Hin Hcs Hout) as E1.
  destruct Hcs as (Hpn & Hpn0 & _). destruct (priority_calculation_Ok _ _ Hin) as [_ Hpr].
  do 5 eexists. split; [exact E1|].
  split.
  { rewrite take_packet by (unfold data_packet; zlia).
    rewrite recv_data_Ok, Hlen; [done|..]; unfold is_u64, is_u8, u8_bound in *; lia. }
  unfold after_data_received, after_data_sent.
  split.
  { cbn [c_rec_buffer set_recv_dic set_rec_buffer rb_data set_rb_data].
    rewrite om_get_insert by done. unfold chunk_end. rewrite Hlen, Z.eqb_refl.
    f_equal. destruct ch; cbn in *; unfold from; congruence. }
  split; [done|]. destruct (last_of_window ch (c_send_buffer s)); cbn;
    (split; [done|]; by rewrite lookup_insert_eq).
Qed.

(** C32: handshake_sets_rtt.  The opening exchange: a sender without a round-trip
    time sends a handshake, the receiver answers it with a handshake, and the
    sender takes the time between sending and receiving as its round-trip
    time and considers the connection established. *)
Theorem handshake_sets_rtt s r out1 out2 t1 t2 t3 t4 t5 t6 :
  c_rtt s = 0 → c_is_server s = true → c_server s = true → c_stop_flag s = false →
  c_is_server r = false → c_server r = false → c_stop_flag r = false →
  0 <= c_recv_count s < u64_bound - 1 → 0 <= c_recv_count r < u64_bound - 1 →
  26 <= ♯out1 → 26 <= ♯out2 →
  ∃ n1 i1 s1 o1 r1 n2 i2 r2 o2 s2,
    send_data t1 t2 (s, out1) = Ok (n1, i1) (s1, o1) ∧
    recv_slice (take (Z.to_nat n1) o1) t3 r = Ok 0 r1 ∧ send_ack r1 = true ∧
    send_data t4 t5 (r1, out2) = Ok (n2, i2) (r2, o2) ∧ send_ack r2 = false ∧
    recv_slice (take (Z.to_nat n2) o2) t6 s1 = Ok 0 s2 ∧
    c_rtt s2 = duration_since t6 t2 ∧ is_established s2 = true.
Proof.
  intros S1 S2 S3 S4 R1 R2 R3 Hs Hr Ho1 Ho2.
  assert (Hp : ♯handshake_packet = 26) by done.
  do 10 eexists. split; [by apply send_hello_server|].
  rewrite take_packet by done. split; [rewrite recv_hello, R1 by done; done|]. split; [done|].
  split; [by apply send_hello_client|]. split; [done|].
  rewrite take_packet by done. split.
  - rewrite recv_hello by done. cbn [c_is_server set_handshake set_handshake_completed].
    rewrite S2. unfold update_rtt. msimpl.
    cbn [c_rtt set_recv_count set_handshake set_handshake_completed]. rewrite S1. done.
  - done.
Qed.

(** C38: exhausted_budget_panics.  With overflow checks on, transmitting a chunk
    once more after its retransmission budget reached 0 (the ACK that would
    have dropped it was lost) panics: the budget is decremented unchecked. *)
Theorem exhausted_budget_panics s ch l out t1 t2 :
  overflow_checks = true →
  data_due s → SendBuf.wf (c_send_buffer s) → accounted (c_send_buffer s) →
  drop (Z.to_nat (sb_pos (c_send_buffer s))) (sb_data (c_send_buffer s)) = ch :: l →
  rg_off ch < c_written_data s → in_data s (rg_off ch) →
  is_u64 (next_pkt_num (c_pkt_num_spaces s).1 + 1) → 0 <= c_sent_number s < u64_bound - 1 →
  26 + SEND_BUFFER_SIZE <= ♯out → c_sent_dic s !! rg_off ch = Some 0 →
  send_data t1 t2 (s, out) = Panicked ArithmeticOverflow.
Proof.
  intros Hoc Hdue Hwf Hacc Hd Hwd Hin Hpn Hsn Hout Hz.
  unfold send_data, send_stop_packet, finish_send. rewrite get_bind. cbn [snd fst].
  destruct (Z.eqb_spec (♯out) 0); [unfold SEND_BUFFER_SIZE in *; lia|].
  rewrite (on_conn_Ok _ _ _ _ _ _ (write_pkt_type_data s Hdue)). decide_types.
  rewrite !ret_bind. apply bind_Panicked.
  rewrite (send_application_start s ch l) by (try apply Hdue; unfold SEND_BUFFER_SIZE; done).
  apply bind_Panicked.
  unfold on_conn, zoom, note_sent. cbn [fst]. rewrite get_bind.
  change (c_sent_dic (counted ch s)) with (c_sent_dic s). rewrite Hz.
  unfold usub. rewrite (bind_Panicked _ _ _ ArithmeticOverflow); [done|].
  apply checked_overflow; [|done]. unfold is_u64. lia.
Qed.
End Properties.

(** ** Witnesses: a sender with two chunks of one block, and a fresh receiver *)

Module Samples.
#[local] Existing Instances debug_x86 ListOctets.ops ListOctets.spec map_order map_order_spec.

Definition here : SocketAddr := V4 [127; 0; 0; 1] 4433.
Definition there : SocketAddr := V4 [127; 0; 0; 1] 4434.

(** Chunks at 0 (acknowledged) and 2; one block of norm 1, above both split
    points; round-trip time 1. *)
Definition sender : Connection :=
  set_rtt 1 (set_norm2_vec [f32_of_Z 1] (set_written_data 3 (set_total_offset 3
    (set_send_data [1; 2; 3] (set_send_buffer SendBuf.sample
      (initial here there fresh_recovery true 0)))))).

(** The same sender after both chunks were sent. *)
Definition reporting : Connection :=
  set_stop_flag true (set_sent_count 2 (set_sent_pkt [0; 2]
    (set_sent_dic {[0 := 3; 2 := 3]} sender))).

Definition receiver : Connection := initial there here fresh_recovery false 0.

Lemma elict_ack_cycle_witness :
  ∃ n1 i1 s1 o1 r1 n2 i2 r2 o2 s2,
    send_data 1 2 (reporting, replicate 1350 0) = Ok (n1, i1) (s1, o1) ∧
    recv_slice (take (Z.to_nat n1) o1) 3 receiver = Ok 0 r1 ∧
    send_data 4 5 (r1, replicate 1350 0) = Ok (n2, i2) (r2, o2) ∧
    recv_slice (take (Z.to_nat n2) o2) 6 s1 = Ok 0 s2 ∧
    kept (c_send_buffer s2) =
      filter (λ c, ¬ (rg_off c ∈ unreported reporting ∧ is_settled reporting receiver (rg_off c)))
             (kept (c_send_buffer reporting)) ∧
    unreported s2 = [] ∧ batch_inv s2 ∧ c_recv_hashmap r2 = ∅.
Proof.
  apply (elict_ack_cycle reporting receiver (replicate 1350 0) (replicate 1350 0) 1 2 3 4 5 6).
  - vm_compute. repeat split; auto; left; congruence.
  - vm_compute. repeat split; congruence.
  - vm_compute. split; congruence.
  - vm_compute. repeat split; congruence.
  - repeat constructor; vm_compute; congruence.
  - repeat split; vm_compute; congruence.
  - rewrite zlen_replicate. lia.
  - rewrite zlen_replicate. unfold u64_bound. lia.
Defined.

Lemma data_packet_delivered_witness :
  ∃ n info s1 o1 r1,
    send_data 1 2 (sender, replicate 1350 0) = Ok (n, info) (s1, o1) ∧
    recv_slice (take (Z.to_nat n) o1) 3 receiver = Ok 2 r1 ∧
    om_get 2 (rb_data (c_rec_buffer r1)) = Some (from [1; 2] 0) ∧
    c_recv_dic r1 = <[0 := priority_of sender 0]> ∅ ∧ c_sent_pkt s1 = [0] ∧
    c_sent_dic s1 !! 0 = Some (budget_after sender 0).
Proof.
  apply (data_packet_delivered sender receiver (from [1; 2] 0) [from [3] 2] (replicate 1350 0) 1 2 3);
    [..|by repeat constructor|].
  - vm_compute. repeat split; congruence.
  - reflexivity.
  - apply SendBuf.sample_wf.
  - vm_compute. repeat split; congruence.
  - reflexivity.
  - vm_compute. reflexivity.
  - vm_compute. repeat split; congruence.
  - vm_compute. repeat split; congruence.
  - rewrite zlen_replicate. unfold SEND_BUFFER_SIZE. lia.
  - vm_compute. split; congruence.
Defined.

Lemma handshake_sets_rtt_witness :
  ∃ n1 i1 s1 o1 r1 n2 i2 r2 o2 s2,
    send_data 10 11 (set_rtt 0 sender, replicate 26 0) = Ok (n1, i1) (s1, o1) ∧
    recv_slice (take (Z.to_nat n1) o1) 30 receiver = Ok 0 r1 ∧ send_ack r1 = true ∧
    send_data 40 41 (r1, replicate 26 0) = Ok (n2, i2) (r2, o2) ∧ send_ack r2 = false ∧
    recv_slice (take (Z.to_nat n2) o2) 60 s1 = Ok 0 s2 ∧
    c_rtt s2 = 49 ∧ is_established s2 = true.
Proof.
  apply (handshake_sets_rtt (set_rtt 0 sender) receiver (replicate 26 0) (replicate 26 0)
           10 11 30 40 41 60); try reflexivity; vm_compute; try split; congruence.
Defined.

Lemma exhausted_budget_panics_witness :
  send_data 1 2 (set_sent_dic {[0 := 0]} sender, replicate 1350 0) = Panicked ArithmeticOverflow.
Proof.
  apply (exhausted_budget_panics (set_sent_dic {[0 := 0]} sender) (from [1; 2] 0) [from [3] 2]).
  - reflexivity.
  - vm_compute. repeat split; congruence.
  - apply SendBuf.sample_wf.
  - vm_compute. repeat split; congruence.
  - reflexivity.
  - vm_compute. reflexivity.
  - vm_compute. repeat split; congruence.
  - vm_compute. split; congruence.
  - vm_compute. split; congruence.
  - rewrite zlen_replicate. unfold SEND_BUFFER_SIZE. lia.
  - reflexivity.
Defined.

Lemma ack_unknown_offset_panics_witness :
  recv_slice (ack_packet 0 24 0 [(4096, 1)]) 7 sender = Panicked OutOfBounds.
Proof.
  apply (ack_unknown_offset_panics 0 24 0 4096 1 [] sender 7);
    try (repeat constructor); vm_compute; try split; congruence.
Defined.

Lemma truncated_control_packets_panic_witness :
  recv_slice (Header.encode (Header.mkHeader ACK 0 0 0 3) ++ [1; 2; 3]) 7 sender
    = Panicked OutOfBounds ∧
  recv_slice (Header.encode (Header.mkHeader ElictAck 0 0 0 9) ++ enc_u64s [1024] ++ [9]) 7 receiver
    = Panicked UnwrapFailed.
Proof.
  apply (truncated_control_packets_panic (Header.mkHeader ACK 0 0 0 3) [1; 2; 3]
           (Header.mkHeader ElictAck 0 0 0 9) [1024] [9] sender receiver 7);
    try reflexivity; try (repeat constructor); vm_compute; try split; congruence.
Defined.
End Samples.
