(* ===== verification/Ingest.v ===== *)
(** * Ingest: loading the data to send (src/src/lib.rs, [data_send], [process_string])

    The application hands over text: tensors [..[ f f f .. ].. >] whose numbers
    are parsed as [f32], appended to [send_data] as native-endian bytes, and
    summarised by one squared norm per run of floats.  The norms and their 30 %
    and 70 % quantiles later give each 1024-byte block its priority.  A Rust
    [String] is its UTF-8 bytes ([list ascii]); all separators are ASCII. *)
From Stdlib Require Import SpecFloat Ascii String.
From S2P Require Import Prelude Effects Octets Packet OMap SoftFloat RangeBuf RecvBuf SendBuf Recovery Connection AckPath DataPath.

Abbreviation str := (list ascii).

(** ** [str] methods *)

(** [replace(c, "")] for a one-character pattern. *)
Definition remove_char (c : ascii) (l : str) : str := filter (λ x, x ≠ c) l.

(** [split(c).collect()]: never empty. *)
Fixpoint split_char (c : ascii) (l : str) : list str :=
  match l with
  | [] => [[]]
  | x :: l' =>
      if Ascii.eqb x c then [] :: split_char c l'
      else match split_char c l' with
           | [] => [[x]]
           | w :: ws => (x :: w) :: ws
           end
  end.

Definition byte (c : ascii) : Z := Z.of_nat (nat_of_ascii c).
Definition is_digit (c : ascii) : bool := (48 <=? byte c) && (byte c <=? 57).

(** ASCII lower case. *)
Definition lower (c : ascii) : ascii :=
  if (65 <=? byte c) && (byte c <=? 90) then ascii_of_nat (nat_of_ascii c + 32) else c.

(** ** [f32::from_str]: the bit pattern of the parsed number *)

(** The longest run of digits: its value, its length and the rest. *)
Fixpoint digits (l : str) (v : Z) (n : Z) : Z * Z * str :=
  match l with
  | c :: l' => if is_digit c then digits l' (10 * v + (byte c - 48)) (n + 1) else (v, n, l)
  | [] => (v, n, l)
  end.

Definition sign_of (l : str) : bool * str :=
  match l with
  | "-"%char :: l' => (true, l')
  | "+"%char :: l' => (false, l')
  | _ => (false, l)
  end.

(** [m * 10^e], correctly rounded. *)
Definition f32_of_decimal (m e : Z) : f32 :=
  if 0 <=? e then f32_of_Z (m * 10 ^ e) else f32_lit m (- e).

Definition f32_bits (x : f32) : Z :=
  let sgn (s : bool) := if s then 2 ^ 31 else 0 in
  match x with
  | S754_zero s => sgn s
  | S754_infinity s => sgn s + 255 * 2 ^ 23
  | S754_nan => 255 * 2 ^ 23 + 2 ^ 22
  | S754_finite s m e =>
      if Zpos m <? 2 ^ 23 then sgn s + Zpos m
      else sgn s + (e + 150) * 2 ^ 23 + (Zpos m - 2 ^ 23)
  end.

Definition f32_of_bits (b : Z) : f32 :=
  let s := 2 ^ 31 <=? b in
  let e := (b / 2 ^ 23) mod 256 in
  let f := b mod 2 ^ 23 in
  if e =? 255 then (if f =? 0 then S754_infinity s else S754_nan)
  else if e =? 0 then
    match f with Zpos m => S754_finite s m (-149) | _ => S754_zero s end
  else match f + 2 ^ 23 with Zpos m => S754_finite s m (e - 150) | _ => S754_nan end.

(** The number after the sign: [None] is a parse error. *)
Definition parse_number (l : str) : option f32 :=
  let '(m1, n1, l1) := digits l 0 0 in
  let '(m2, n2, l2) := match l1 with
                       | "."%char :: l' => digits l' m1 0
                       | _ => (m1, 0, l1)
                       end in
  if n1 + n2 =? 0 then None else
  match l2 with
  | [] => Some (f32_of_decimal m2 (- n2))
  | c :: l3 =>
      if Ascii.eqb (lower c) "e"%char then
        let '(neg, l4) := sign_of l3 in
        let '(x, nx, l5) := digits l4 0 0 in
        if nx =? 0 then None else
        match l5 with
        | [] => Some (f32_of_decimal m2 ((if neg then - x else x) - n2))
        | _ => None
        end
      else None
  end.

Definition parse_f32 (l : str) : option Z :=
  let '(neg, l1) := sign_of l in
  let low := lower <$> l1 in
  let sgn := if neg : bool then 2 ^ 31 else 0 in
  if bool_decide (low = list_ascii_of_string "nan") then Some (sgn + f32_bits S754_nan)
  else if bool_decide (low = list_ascii_of_string "inf") ||
          bool_decide (low = list_ascii_of_string "infinity")
  then Some (sgn + f32_bits (S754_infinity false))
  else (λ x, sgn + f32_bits x) <$> parse_number l1.

Example parse_tenth : parse_f32 (list_ascii_of_string "0.1") = Some 1036831949.
Proof. reflexivity. Qed.
Example parse_exponent : parse_f32 (list_ascii_of_string "-1.5e3") = Some 3300622336.
Proof. reflexivity. Qed.
Example parse_subnormal : parse_f32 (list_ascii_of_string "1.4e-45") = Some 1.
Proof. reflexivity. Qed.
Example parse_bad : parse_f32 (list_ascii_of_string "1.2.3") = None.
Proof. reflexivity. Qed.

(** ** The methods *)

(** [to_ne_bytes] *)
Definition ne_bytes {P : Profile} (bits : Z) : list Z :=
  if little_endian then le_bytes 4 bits else be_bytes 4 bits.

(** [i32] addition. *)
Definition i32_add {P : Profile} {S} (a b : Z) : M S Z :=
  if (- 2 ^ 31 <=? a + b) && (a + b <? 2 ^ 31) then mret (a + b)
  else if overflow_checks then panicking ArithmeticOverflow
  else mret ((a + b + 2 ^ 31) mod 2 ^ 32 - 2 ^ 31).

(** [sort_by(|a, b| a.partial_cmp(b).unwrap())]: every element of a list of two
    or more is compared, so a NaN panics. *)
Definition f_le (x y : f32) : Prop := SFleb x y = true.
#[export] Instance f_le_dec : RelDecision f_le.
Proof. intros x y. unfold f_le. apply _. Defined.
Definition sort_norms {S} (l : list f32) : M S (list f32) :=
  if bool_decide (2 <= length l)%nat && existsb (λ x, negb (SFeqb x x)) l
  then panicking UnwrapFailed
  else mret (merge_sort f_le l).

Section Ops.
Context {P : Profile}.

(** The loop of [process_string]; the state is the connection and [norm2_tmp]. *)
Fixpoint process_items (items : list str) (norm2 : f32) (it : Z)
    : M (Connection * list f32) unit :=
  match items with
  | [] => mret tt
  | item :: items' =>
      it ← i32_add it 1;
      bits ← or_panic UnwrapFailed (parse_f32 item);
      let my_float := f32_of_bits bits in
      let norm2 := f32_add norm2 (f32_mul my_float my_float) in
      modify (λ s, (set_send_data (c_send_data s.1 ++ ne_bytes bits) s.1, s.2));;
      if Z.rem it 256 =? 255 then
        modify (λ s, (s.1, s.2 ++ [norm2]));;
        modify (λ s, (set_norm2_vec (c_norm2_vec s.1 ++ [norm2]) s.1, s.2));;
        process_items items' (S754_zero false) it
      else process_items items' norm2 it
  end.

Definition process_string (test_data : str) : M (Connection * list f32) unit :=
  let collection := split_char "["%char test_data in
  data ← or_panic OutOfBounds (index collection 1);
  let collection := split_char "]"%char data in
  array_string ← or_panic OutOfBounds (index collection 0);
  let single_data := filter (λ x, x ≠ []) (split_char " "%char array_string) in
  process_items single_data (S754_zero false) 0.

Fixpoint process_parts (parts : list str) : M (Connection * list f32) unit :=
  match parts with
  | [] => mret tt
  | part :: parts' =>
      if bool_decide (part = []) then mret tt
      else process_string part;; process_parts parts'
  end.

(** Running the loop with an empty local [norm2_tmp], and returning it. *)
Definition with_norms (m : M (Connection * list f32) unit) : M Connection (list f32) := λ c,
  match m (c, []) with
  | Ok _ s => Ok s.2 s.1
  | Err e s => Err e s.1
  | Panicked p => Panicked p
  end.

Definition data_send (str_buf : str) : M Connection unit :=
  let output := remove_char "010"%char str_buf in
  let output := remove_char "034"%char output in
  let output := remove_char "013"%char output in
  let new_parts := split_char ">"%char output in
  modify (set_norm2_vec []);;
  modify (set_send_data []);;
  modify (set_low_split_point (S754_zero false));;
  modify (set_high_split_point (S754_zero false));;
  norm2_tmp ← with_norms (process_parts new_parts);
  sorted ← sort_norms norm2_tmp;
  n ← umul (♯sorted) 3;
  low ← or_panic OutOfBounds (index sorted (n / 10));
  modify (set_low_split_point low);;
  n ← umul (♯sorted) 7;
  high ← or_panic OutOfBounds (index sorted (n / 10));
  modify (set_high_split_point high).
End Ops.

(** ** What the loop computes *)

(** The squared norms of the runs of floats: a run ends where the counter is
    255 modulo 256, an unfinished run has none. *)
Fixpoint run_norms (bits : list Z) (norm2 : f32) (it : Z) : list f32 :=
  match bits with
  | [] => []
  | b :: bits' =>
      let norm2 := f32_add norm2 (f32_mul (f32_of_bits b) (f32_of_bits b)) in
      if (it + 1) mod 256 =? 255 then norm2 :: run_norms bits' (S754_zero false) (it + 1)
      else run_norms bits' norm2 (it + 1)
  end.

Definition norms_of (bits : list Z) : list f32 := run_norms bits (S754_zero false) 0.

(** The floats of a tensor, as [process_string] extracts them. *)
Definition floats_of (part : str) : option (list Z) :=
  data ← index (split_char "["%char part) 1;
  array_string ← index (split_char "]"%char data) 0;
  mapM parse_f32 (filter (λ x, x ≠ []) (split_char " "%char array_string)).

Lemma run_norms_length bits norm2 it :
  0 <= it → ♯(run_norms bits norm2 it) = (it + ♯bits + 1) / 256 - (it + 1) / 256.
Proof.
  revert norm2 it. induction bits as [|b bits IH]; intros norm2 it Hit.
  - cbn [run_norms]. unfold zlen. cbn [length Z.of_nat]. rewrite Z.add_0_r. lia.
  - cbn [run_norms]. rewrite zlen_cons.
    replace (it + (1 + ♯bits) + 1) with (it + 1 + ♯bits + 1) by lia.
    assert (Hd : (it + 1 + 1) / 256 = (it + 1) / 256 + (if (it + 1) mod 256 =? 255 then 1 else 0)).
    { pose proof (Z.div_mod (it + 1) 256 ltac:(lia)). pose proof (Z.mod_pos_bound (it + 1) 256).
      destruct (Z.eqb_spec ((it + 1) mod 256) 255); symmetry.
      - apply Z.div_unique with 0; lia.
      - apply Z.div_unique with ((it + 1) mod 256 + 1); lia. }
    destruct (_ =? 255); rewrite ?zlen_cons, IH by lia; lia.
Qed.

Lemma norms_of_length bits : ♯(norms_of bits) = (♯bits + 1) / 256.
Proof. unfold norms_of. rewrite run_norms_length by lia. change ((0 + 1) / 256) with 0. by rewrite Z.sub_0_r, Z.add_0_l. Qed.

(** The parts up to the first empty one. *)
Fixpoint until_empty (parts : list str) : list str :=
  match parts with
  | [] => []
  | p :: parts' => if bool_decide (p = []) then [] else p :: until_empty parts'
  end.

(** Replacing the data and the norms of a connection. *)
Definition loaded (d : list Z) (n : list f32) (c : Connection) : Connection :=
  set_norm2_vec n (set_send_data d c).

Section Facts.
Context {P : Profile}.

Lemma zlen_ne_bytes b : ♯(ne_bytes b) = 4.
Proof. unfold ne_bytes. destruct little_endian; zlia. Qed.

Lemma zlen_all_bytes bits : ♯(bits ≫= ne_bytes) = 4 * ♯bits.
Proof.
  induction bits as [|b bits IH]; [done|]. rewrite bind_cons, zlen_app, zlen_ne_bytes, zlen_cons. lia.
Qed.

Lemma process_items_Ok items bits norm2 it c tmp :
  mapM parse_f32 items = Some bits → 0 <= it → it + ♯bits < 2 ^ 31 →
  process_items items norm2 it (c, tmp) =
    Ok tt (loaded (c_send_data c ++ bits ≫= ne_bytes) (c_norm2_vec c ++ run_norms bits norm2 it) c,
           tmp ++ run_norms bits norm2 it).
Proof.
  revert bits norm2 it c tmp. induction items as [|item items IH]; intros bits norm2 it c tmp Hm Hit Hb.
  - injection Hm as <-. cbn. unfold mret, M_ret. rewrite !app_nil_r. by destruct c.
  - apply mapM_Some_1, Forall2_cons_inv_l in Hm as (b & bits' & Hp & Hm & ->).
    apply mapM_Some_2 in Hm. rewrite zlen_cons in Hb. pose_len.
    cbn [process_items run_norms]. unfold i32_add.
    destruct (Z.leb_spec (-2 ^ 31) (it + 1)); [|lia]. destruct (Z.ltb_spec (it + 1) (2 ^ 31)); [|lia].
    cbn [andb]. rewrite ret_bind, Hp, some_bind, modify_bind. cbn [fst snd].
    rewrite Z.rem_mod_nonneg by lia. rewrite bind_cons.
    destruct (_ =? 255).
    + rewrite !modify_bind. cbn [fst snd]. rewrite (IH bits') by (done || lia).
      cbn [c_send_data c_norm2_vec set_norm2_vec set_send_data]. by rewrite <-!app_assoc.
    + rewrite (IH bits') by (done || lia).
      cbn [c_send_data c_norm2_vec set_norm2_vec set_send_data]. by rewrite <-!app_assoc.
Qed.

Lemma process_string_Ok part bits c tmp :
  floats_of part = Some bits → ♯bits < 2 ^ 31 →
  process_string part (c, tmp) =
    Ok tt (loaded (c_send_data c ++ bits ≫= ne_bytes) (c_norm2_vec c ++ norms_of bits) c,
           tmp ++ norms_of bits).
Proof.
  unfold floats_of, process_string. intros Hf Hb.
  destruct (index (split_char "["%char part) 1) as [data|]; [|done]. rewrite some_bind. cbn [mbind option_bind] in Hf.
  destruct (index (split_char "]"%char data) 0) as [a|]; [|done]. rewrite some_bind.
  by apply process_items_Ok.
Qed.

Lemma process_parts_Ok parts bss c tmp :
  Forall2 (λ p bs, floats_of p = Some bs ∧ ♯bs < 2 ^ 31) (until_empty parts) bss →
  process_parts parts (c, tmp) =
    Ok tt (loaded (c_send_data c ++ concat bss ≫= ne_bytes)
                  (c_norm2_vec c ++ (bss ≫= norms_of)) c,
           tmp ++ (bss ≫= norms_of)).
Proof.
  revert bss c tmp. induction parts as [|p parts IH]; intros bss c tmp Hps.
  - inversion Hps. cbn. unfold mret, M_ret. rewrite !app_nil_r. by destruct c.
  - cbn [until_empty process_parts] in *. case_bool_decide as Hp.
    + inversion Hps. cbn. unfold mret, M_ret. rewrite !app_nil_r. by destruct c.
    + apply Forall2_cons_inv_l in Hps as (bs & bss' & [Hf Hb] & Hps & ->).
      rewrite (bind_Ok _ _ _ _ _ (process_string_Ok p bs c tmp Hf Hb)), (IH bss') by done.
      cbn [c_send_data c_norm2_vec loaded set_norm2_vec set_send_data concat].
      rewrite bind_cons, bind_app, <-!app_assoc. done.
Qed.

(** Sorting the norms compares a NaN, which panics: there are two norms or more
    and one of them is a NaN. *)
Definition unsortable (l : list f32) : bool :=
  bool_decide (2 <= length l)%nat && existsb (λ x, negb (SFeqb x x)) l.

Lemma no_nan_sortable l : Forall (λ x, SFeqb x x = true) l → unsortable l = false.
Proof.
  intros Hl. unfold unsortable. replace (existsb _ l) with false; [by rewrite andb_false_r|].
  induction Hl as [|x l Hx _ IH]; [done|]. cbn. by rewrite Hx.
Qed.

Lemma sort_norms_Ok {S} l (s : S) :
  unsortable l = false → ∃ l', sort_norms l s = Ok l' s ∧ l' ≡ₚ l.
Proof.
  intros Hl. exists (merge_sort f_le l). split; [|apply merge_sort_Permutation].
  unfold sort_norms. fold (unsortable l). by rewrite Hl.
Qed.

(** The tensors of an input. *)
Definition tensors (input : str) : list str :=
  until_empty (split_char ">"%char (remove_char "013"%char (remove_char "034"%char
    (remove_char "010"%char input)))).

Lemma with_norms_Ok m c c' l : m (c, []) = Ok tt (c', l) → with_norms m c = Ok l c'.
Proof. intros H. unfold with_norms. by rewrite H. Qed.

(** [data_send] touches only the data, the norms and the split points. *)
Lemma process_items_frame items norm2 it c tmp :
  wlp (process_items items norm2 it) (c, tmp)
    (λ _ s, ∃ d n, s.1 = loaded d n c) (λ _, False).
Proof.
  revert norm2 it c tmp. induction items as [|item items IH]; intros norm2 it c tmp; cbn [process_items].
  - wlp_steps. exists (c_send_data c), (c_norm2_vec c). by destruct c.
  - wlp_steps. unfold i32_add. destruct (_ && _); [|destruct overflow_checks]; wlp_steps; cbn [fst snd];
      (destruct (_ =? 255); wlp_steps; cbn [fst snd];
       (eapply wlp_mono; [apply IH| |done]; intros [] s (d & n & E); by exists d, n)).
Qed.

Lemma process_parts_frame parts c tmp :
  wlp (process_parts parts) (c, tmp) (λ _ s, ∃ d n, s.1 = loaded d n c) (λ _, False).
Proof.
  revert c tmp. induction parts as [|p parts IH]; intros c tmp; cbn [process_parts].
  - wlp_steps. exists (c_send_data c), (c_norm2_vec c). by destruct c.
  - case_bool_decide; wlp_steps; [exists (c_send_data c), (c_norm2_vec c); by destruct c|].
    unfold process_string. wlp_steps. eapply wlp_mono; [apply process_items_frame| |done].
    intros [] [c1 t1] (d & n & E1). cbn [fst] in E1. subst c1.
    eapply wlp_mono; [apply IH| |done]. intros [] s (d' & n' & E2). by exists d', n'.
Qed.

Lemma data_send_frame input c :
  wlp (data_send input) c
    (λ _ c', c_written_data c' = c_written_data c ∧ c_send_buffer c' = c_send_buffer c) (λ _, False).
Proof.
  unfold data_send. wlp_steps. set (c0 := set_high_split_point _ _).
  apply (wlp_mono _ _ (λ _ c', ∃ d n, c' = loaded d n c0) _ (λ _, False)); [| |done].
  { pose proof (process_parts_frame (split_char ">"%char (remove_char "013"%char
      (remove_char "034"%char (remove_char "010"%char input)))) c0 []) as H.
    unfold wlp, with_norms in *. by destruct (process_parts _ _) as [[] [c1 t1]| |]. }
  intros l ? (d & n & ->). unfold sort_norms. wlp_steps.
  destruct (_ && _); wlp_steps. done.
Qed.
End Facts.

(** ** Properties *)

Section Properties.
Context {P : Profile}.

(** The parse of an input: the floats of each tensor. *)
Definition parses (input : str) (bss : list (list Z)) : Prop :=
  Forall2 (λ p bs, floats_of p = Some bs ∧ ♯bs < 2 ^ 31) (tensors input) bss.

(** The connection after the data and the norms were stored. *)
Definition stored (bss : list (list Z)) (c : Connection) : Connection :=
  loaded (concat bss ≫= ne_bytes) (bss ≫= norms_of)
    (set_high_split_point (S754_zero false) (set_low_split_point (S754_zero false) c)).

Lemma data_send_stores input bss c :
  parses input bss →
  data_send input c =
    (sorted ← sort_norms (bss ≫= norms_of);
     n ← umul (♯sorted) 3;
     low ← or_panic OutOfBounds (index sorted (n / 10));
     modify (set_low_split_point low);;
     n ← umul (♯sorted) 7;
     high ← or_panic OutOfBounds (index sorted (n / 10));
     modify (set_high_split_point high)) (stored bss c).
Proof.
  intros Hp. unfold data_send. rewrite !modify_bind.
  rewrite (bind_Ok _ _ _ _ _ (with_norms_Ok _ _ _ _ (process_parts_Ok _ bss _ [] Hp))). done.
Qed.

Lemma data_send_result input bss c :
  parses input bss → (bss ≫= norms_of) ≠ [] → unsortable (bss ≫= norms_of) = false →
  ♯(bss ≫= norms_of) * 7 < u64_bound →
  ∃ low high, low ∈ bss ≫= norms_of ∧ high ∈ bss ≫= norms_of ∧
    data_send input c = Ok tt (set_high_split_point high (set_low_split_point low (stored bss c))).
Proof.
  intros Hp Hne Hnan Hsz. rewrite (data_send_stores _ _ _ Hp).
  destruct (sort_norms_Ok _ (stored bss c) Hnan) as (l & E & Hperm).
  rewrite (bind_Ok _ _ _ _ _ E). assert (Hl : ♯l = ♯(bss ≫= norms_of)) by (unfold zlen; by rewrite Hperm).
  assert (0 < ♯l).
  { rewrite Hl. destruct (bss ≫= norms_of); [done|]. rewrite zlen_cons. pose_len. lia. }
  assert (Hi : ∀ k, 0 <= k <= 7 → ∃ x, index l (♯l * k / 10) = Some x ∧ x ∈ bss ≫= norms_of).
  { intros k Hk. destruct (index_Some l (♯l * k / 10)) as [x Hx];
      [apply Z.div_pos; nia|apply Z.div_lt_upper_bound; nia|].
    exists x. split; [done|]. rewrite <-Hperm. unfold index in Hx.
    destruct (0 <=? _); [|done]. by apply list_elem_of_lookup_2 in Hx. }
  destruct (Hi 3 ltac:(lia)) as (low & El & Hlow). destruct (Hi 7 ltac:(lia)) as (high & Eh & Hhigh).
  exists low, high. split; [done|]. split; [done|].
  unfold umul. rewrite checked_bind by (unfold is_u64; lia). rewrite El, some_bind, modify_bind.
  rewrite checked_bind by (unfold is_u64; lia). by rewrite Eh, some_bind.
Qed.

(** C34: data_send_loads.  What [data_send] does with any input whose tensors
    parse.  A tensor of [n] floats contributes [(n + 1) / 256] norms.  When
    there is no norm at all, the call panics (index out of bounds); when there
    are two or more and one is a NaN, sorting them panics.  Otherwise the input
    is loaded in full: the data is the concatenation of the floats'
    native-endian bytes, four per float, in order, the norms are stored, the
    split points are two of them, and the position already written and the
    send buffer are left alone. *)
Theorem data_send_loads input bss c :
  parses input bss → ♯(bss ≫= norms_of) * 7 < u64_bound →
  Forall (λ bs, ♯(norms_of bs) = (♯bs + 1) / 256) bss ∧
  if decide (bss ≫= norms_of = []) then data_send input c = Panicked OutOfBounds
  else if unsortable (bss ≫= norms_of) then data_send input c = Panicked UnwrapFailed
  else ∃ c', data_send input c = Ok tt c' ∧
    c_send_data c' = concat bss ≫= ne_bytes ∧ ♯(c_send_data c') = 4 * ♯(concat bss) ∧
    c_norm2_vec c' = bss ≫= norms_of ∧
    c_low_split_point c' ∈ c_norm2_vec c' ∧ c_high_split_point c' ∈ c_norm2_vec c' ∧
    c_written_data c' = c_written_data c ∧ c_send_buffer c' = c_send_buffer c.
Proof.
  intros Hp Hsz. split; [apply Forall_forall; intros; apply norms_of_length|]. case_decide as Hne.
  { rewrite (data_send_stores _ _ _ Hp), Hne. done. }
  destruct (unsortable _) eqn:Hu.
  { rewrite (data_send_stores _ _ _ Hp). unfold sort_norms. fold (unsortable (bss ≫= norms_of)).
    by rewrite Hu. }
  destruct (data_send_result _ _ c Hp Hne Hu Hsz) as (low & high & Hlow & Hhigh & ->).
  eexists. split; [done|]. split; [done|]. split; [apply zlen_all_bytes|]. by repeat split.
Qed.

(** What a successful load leaves. *)
Lemma data_send_leaves input bss c c' :
  parses input bss → data_send input c = Ok tt c' →
  c_send_data c' = concat bss ≫= ne_bytes ∧ c_norm2_vec c' = bss ≫= norms_of.
Proof.
  intros Hp Hd. rewrite (data_send_stores _ _ _ Hp) in Hd.
  apply bind_inv_Ok in Hd as (l & c1 & E & Hd). unfold sort_norms in E.
  destruct (_ && _); [done|]. injection E as _ <-.
  apply bind_inv_Ok in Hd as (n & ? & [_ ->]%checked_range & Hd).
  apply bind_inv_Ok in Hd as (low & ? & Hlow & Hd). unfold or_panic in Hlow.
  destruct (index l _); [|done]. injection Hlow as _ <-. rewrite modify_bind in Hd.
  apply bind_inv_Ok in Hd as (n' & ? & [_ ->]%checked_range & Hd).
  apply bind_inv_Ok in Hd as (high & ? & Hhigh & Hd). unfold or_panic in Hhigh.
  destruct (index l _); [|done]. injection Hhigh as _ <-. by injection Hd as <-.
Qed.

(** The norms of tensors none of which ends one float before a block: one for
    every full block of a tensor. *)
Lemma norms_of_full bss :
  Forall (λ bs, ♯bs mod 256 ≠ 255) bss →
  256 * ♯(bss ≫= norms_of) <= ♯(concat bss) ∧
  (Exists (λ bs, ♯bs mod 256 ≠ 0) bss → 256 * ♯(bss ≫= norms_of) < ♯(concat bss)).
Proof.
  induction 1 as [|bs bss Hb _ [IH1 IH2]]; [split; [done|by intros ?%Exists_nil]|].
  rewrite bind_cons. cbn [concat]. rewrite !zlen_app, norms_of_length.
  pose proof (Z.div_mod (♯bs) 256 ltac:(lia)) as Hdm. pose proof (Z.mod_pos_bound (♯bs) 256 ltac:(lia)) as Hm.
  replace ((♯bs + 1) / 256) with (♯bs / 256) by (apply Z.div_unique with (♯bs mod 256 + 1); lia).
  split; [lia|]. intros [Hne|He]%Exists_cons; [lia|]. specialize (IH2 He). lia.
Qed.

(** C35: unfinished_block_has_no_norm.  After a load, the priority of a block of
    the data can be computed exactly if the block is below the number of
    norms; computing it for any other block, which every transmission of the
    block does, is an out-of-bounds access.  There is such a block whenever no
    tensor ends one float before a 256-float block and some tensor does not
    end at one. *)
Theorem unfinished_block_has_no_norm input bss c c' :
  parses input bss → data_send input c = Ok tt c' →
  let norms := ♯(bss ≫= norms_of) in
  (∀ off, 0 <= off < u64_bound → off < ♯(c_send_data c') →
     if off <? 1024 * norms then ∃ p, priority_calculation off c' = Ok p c' ∧ 1 <= p <= 3
     else priority_calculation off c' = Panicked OutOfBounds) ∧
  (Forall (λ bs, ♯bs mod 256 ≠ 255) bss → Exists (λ bs, ♯bs mod 256 ≠ 0) bss →
     1024 * norms < ♯(c_send_data c')).
Proof.
  intros Hp Hd norms. destruct (data_send_leaves _ _ _ _ Hp Hd) as [Ed En]. split.
  - intros off Ho _. destruct (Z.ltb_spec off (1024 * norms)) as [Hlt|Hge].
    + exists (priority_of c' off). apply priority_calculation_Ok. split; [done|]. rewrite En.
      apply Z.div_lt_upper_bound; [lia|done].
    + unfold priority_calculation. rewrite get_bind, En, index_None; [done|].
      apply Z.div_le_lower_bound; [lia|exact Hge].
  - intros H255 H0. rewrite Ed, zlen_all_bytes. destruct (norms_of_full bss H255) as [_ Hlt].
    specialize (Hlt H0). unfold norms. lia.
Qed.

(** Loading an input whose tensors all have fewer
    than 255 floats panics after the data was stored: there is no norm to take
    the split points from. *)
Theorem short_tensors_panic input bss c :
  parses input bss → Forall (λ bs, ♯bs < 255) bss →
  data_send input c = Panicked OutOfBounds.
Proof.
  intros Hp Hs. rewrite (data_send_stores _ _ _ Hp).
  assert (Hn : bss ≫= norms_of = []).
  { clear Hp. induction Hs as [|bs bss Hb _ IH]; [done|]. rewrite bind_cons, IH, app_nil_r.
    apply zlen_0. rewrite norms_of_length. apply Z.div_small. pose_len. lia. }
  rewrite Hn. done.
Qed.

(** [data_send] does not rewind the position already
    written: once a transfer is complete, a new input that is not longer than
    the old one is never sent, [send_all] reports at once that nothing is
    left. *)
Theorem reload_is_not_sent input c c' now :
  SendBuf.is_empty (c_send_buffer c) = true → data_send input c = Ok tt c' →
  ♯(c_send_data c') <= c_written_data c →
  ∃ c2, send_all now c' = Ok false c2 ∧ c_send_data c2 = c_send_data c' ∧
        c_sent_pkt c2 = c_sent_pkt c'.
Proof.
  intros He Hd Hl.
  destruct (wlp_Ok_inv _ _ _ _ _ _ (data_send_frame input c) Hd) as [Hw Hb].
  unfold send_all, set_handshake_now. rewrite !modify_bind, get_bind.
  cbn [c_written_data c_send_data c_send_buffer set_handshake set_stop_ack set_stop_flag].
  rewrite Hw, Hb, He. destruct (Z.ltb_spec (c_written_data c) (♯(c_send_data c'))); [lia|].
  by eexists.
Qed.
End Properties.

Module IngestSamples.
#[local] Existing Instance debug_x86.

(** [n] ones, as text. *)
Definition ones (n : nat) : str :=
  list_ascii_of_string "[" ++ concat (replicate n (list_ascii_of_string "1 ")) ++
  list_ascii_of_string "]>".

Definition one : Z := 1065353216.
Definition fresh_sender : Connection :=
  initial Samples.here Samples.there fresh_recovery true 0.

Lemma ones_parse : parses (ones 257) [replicate 257 one].
Proof. constructor; [|constructor]. split; vm_compute; reflexivity. Qed.

Lemma data_send_loads_witness :
  ∃ c', data_send (ones 257) fresh_sender = Ok tt c' ∧
    c_send_data c' = concat [replicate 257 one] ≫= ne_bytes ∧
    ♯(c_send_data c') = 4 * ♯(concat [replicate 257 one]) ∧
    c_norm2_vec c' = [replicate 257 one] ≫= norms_of ∧
    c_low_split_point c' ∈ c_norm2_vec c' ∧ c_high_split_point c' ∈ c_norm2_vec c' ∧
    c_written_data c' = 0 ∧ c_send_buffer c' = c_send_buffer fresh_sender.
Proof.
  destruct (data_send_loads (ones 257) [replicate 257 one] fresh_sender ones_parse) as [_ H].
  - vm_compute. reflexivity.
  - rewrite decide_False in H by (vm_compute; congruence).
    replace (unsortable _) with false in H by (vm_compute; reflexivity). exact H.
Defined.

(** Tensors of 257 and 300 floats: three blocks, two norms. *)
Definition two_tensors : str := ones 257 ++ ones 300.

Lemma unfinished_block_has_no_norm_witness :
  ∃ c', data_send two_tensors fresh_sender = Ok tt c' ∧ 2048 < ♯(c_send_data c') ∧
        (∃ p, priority_calculation 2047 c' = Ok p c' ∧ 1 <= p <= 3) ∧
        priority_calculation 2048 c' = Panicked OutOfBounds.
Proof.
  assert (E : ∃ c', data_send two_tensors fresh_sender = Ok tt c').
  { eexists. vm_compute. reflexivity. }
  destruct E as [c' E]. exists c'. split; [exact E|].
  assert (Hp : parses two_tensors [replicate 257 one; replicate 300 one])
    by (repeat constructor; vm_compute; reflexivity).
  destruct (unfinished_block_has_no_norm two_tensors _ fresh_sender c' Hp E) as [H1 H2].
  replace (♯([replicate 257 one; replicate 300 one] ≫= norms_of)) with 2 in H1, H2 by (vm_compute; reflexivity).
  assert (H3 : 1024 * 2 < ♯(c_send_data c')).
  { apply H2; [repeat constructor; vm_compute; congruence|left; vm_compute; congruence]. }
  split; [exact H3|]. split.
  - apply (H1 2047); [split; vm_compute; congruence|lia].
  - apply (H1 2048); [split; vm_compute; congruence|lia].
Defined.

Lemma short_tensors_panic_witness :
  data_send (ones 2) fresh_sender = Panicked OutOfBounds.
Proof.
  apply (short_tensors_panic (ones 2) [replicate 2 one] fresh_sender).
  - constructor; [|constructor]. split; vm_compute; reflexivity.
  - repeat constructor; vm_compute; reflexivity.
Defined.

Lemma reload_is_not_sent_witness :
  ∃ c' c2, data_send (ones 257) (set_written_data 2000 fresh_sender) = Ok tt c' ∧
    send_all 5 c' = Ok false c2 ∧ c_send_data c2 = c_send_data c' ∧ c_sent_pkt c2 = c_sent_pkt c'.
Proof.
  assert (E : ∃ c', data_send (ones 257) (set_written_data 2000 fresh_sender) = Ok tt c' ∧
                    ♯(c_send_data c') <= 2000).
  { eexists. split; [vm_compute; reflexivity|]. vm_compute. congruence. }
  destruct E as (c' & E & Hl).
  destruct (reload_is_not_sent (ones 257) (set_written_data 2000 fresh_sender) c' 5 eq_refl E Hl)
    as (c2 & H). exists c', c2. split; [exact E|exact H].
Defined.
End IngestSamples.
