(* ===== verification/CAddr.v ===== *)
(** * CAddr: socket addresses at the C boundary (src/src/ffi.rs)

    [std_addr_from_c] and [std_addr_to_c] convert between [SocketAddr] and the
    [sockaddr] structures of the [libc] crate, which is not part of the
    repository: its structures, constants and memory layout are an interface
    ([LibcOps], [LibcSpec]) with the Linux layout as an instance.  The code
    under [cfg(windows)] and the [sin_len] fields of the BSD targets are left
    out. *)
From S2P Require Import Prelude Effects Connection.

(** ** Byte order of the target: [from_be], [to_be], [from_ne_bytes] *)

Section Endian.
Context {P : Profile}.
Definition from_be (n : nat) (z : Z) : Z := if little_endian then swap_bytes n z else z.
Definition to_be (n : nat) (z : Z) : Z := if little_endian then swap_bytes n z else z.
Definition from_ne_bytes (l : list Z) : Z := if little_endian then le_value l else be_value l.
Definition to_ne_bytes (n : nat) (z : Z) : list Z :=
  if little_endian then le_bytes n z else be_bytes n z.

Lemma from_to_be n z : 0 <= z < 256 ^ Z.of_nat n → from_be n (to_be n z) = z.
Proof.
  intros. unfold from_be, to_be. destruct little_endian; [|done]. by apply swap_bytes_involutive.
Qed.

Lemma from_be_ne_bytes l :
  Forall is_u8 l → be_bytes (length l) (from_be (length l) (from_ne_bytes l)) = l.
Proof.
  intros Hl. unfold from_be, from_ne_bytes, swap_bytes.
  destruct little_endian; rewrite ?le_bytes_value by done; by apply be_bytes_value_length.
Qed.

Lemma ne_bytes_value l : Forall is_u8 l → to_ne_bytes (length l) (from_ne_bytes l) = l.
Proof.
  intros. unfold to_ne_bytes, from_ne_bytes.
  destruct little_endian; [by apply le_bytes_value|by apply be_bytes_value_length].
Qed.
Lemma ne_value_bytes n z : 0 <= z < 256 ^ Z.of_nat n → from_ne_bytes (to_ne_bytes n z) = z.
Proof.
  intros. unfold to_ne_bytes, from_ne_bytes.
  destruct little_endian; [by apply le_value_bytes|by apply be_value_bytes].
Qed.
Lemma ne_bytes_length n z : length (to_ne_bytes n z) = n.
Proof. unfold to_ne_bytes. destruct little_endian; by rewrite ?le_bytes_length, ?be_bytes_length. Qed.
End Endian.

(** ** The structures of [libc] *)

Record sockaddr_in := mkIn {
  sin_family : Z; sin_port : Z; sin_addr : Z; sin_zero : list Z;
}.
Record sockaddr_in6 := mkIn6 {
  sin6_family : Z; sin6_port : Z; sin6_flowinfo : Z; sin6_addr : list Z; sin6_scope_id : Z;
}.

(** [mem] is the memory a [sockaddr] reference or a [sockaddr_storage] covers. *)
Class LibcOps := {
  AF_INET : Z;
  AF_INET6 : Z;
  size_of_in : Z;
  size_of_in6 : Z;
  mem : Type;
  sa_family : mem → Z;
  read_in : mem → sockaddr_in;
  read_in6 : mem → sockaddr_in6;
  write_in : sockaddr_in → mem → mem;
  write_in6 : sockaddr_in6 → mem → mem;
}.

Definition is_u16 (z : Z) : Prop := 0 <= z < 2 ^ 16.
Definition is_u32 (z : Z) : Prop := 0 <= z < 2 ^ 32.

Definition in_ok (r : sockaddr_in) : Prop :=
  is_u16 (sin_family r) ∧ is_u16 (sin_port r) ∧ is_u32 (sin_addr r) ∧ sin_zero r = replicate 8 0.
Definition in6_ok (r : sockaddr_in6) : Prop :=
  is_u16 (sin6_family r) ∧ is_u16 (sin6_port r) ∧ is_u32 (sin6_flowinfo r) ∧
  Forall is_u8 (sin6_addr r) ∧ length (sin6_addr r) = 16%nat ∧ is_u32 (sin6_scope_id r).

(** A structure that was written can be read back, by either type's family field. *)
Class LibcSpec (L : LibcOps) : Prop := {
  families_u16 : is_u16 AF_INET ∧ is_u16 AF_INET6;
  families_differ : AF_INET ≠ AF_INET6;
  sizes_u32 : is_u32 size_of_in ∧ is_u32 size_of_in6;
  read_write_in r m : in_ok r → read_in (write_in r m) = r;
  family_write_in r m : in_ok r → sa_family (write_in r m) = sin_family r;
  read_write_in6 r m : in6_ok r → read_in6 (write_in6 r m) = r;
  family_write_in6 r m : in6_ok r → sa_family (write_in6 r m) = sin6_family r;
}.

(** ** The conversions *)

Section Conversions.
Context {P : Profile} {L : LibcOps}.

Definition std_addr_from_c {S} (addr : mem) (addr_len : Z) : M S SocketAddr :=
  if sa_family addr =? AF_INET then
    if negb (addr_len =? size_of_in) then panicking AssertionFailed else
    let in4 := read_in addr in
    let ip_addr := be_bytes 4 (from_be 4 (sin_addr in4)) in
    let port := from_be 2 (sin_port in4) in
    mret (V4 ip_addr port)
  else if sa_family addr =? AF_INET6 then
    if negb (addr_len =? size_of_in6) then panicking AssertionFailed else
    let in6 := read_in6 addr in
    let ip_addr := sin6_addr in6 in
    let port := from_be 2 (sin6_port in6) in
    mret (V6 ip_addr port (sin6_flowinfo in6) (sin6_scope_id in6))
  else panicking ExplicitPanic.

(** Returns the length and the new contents of [out]. *)
Definition std_addr_to_c (addr : SocketAddr) (out : mem) : Z * mem :=
  match addr with
  | V4 ip port =>
      let s_addr := from_ne_bytes ip in
      (size_of_in, write_in (mkIn AF_INET (to_be 2 port) s_addr (replicate 8 0)) out)
  | V6 ip port flowinfo scope_id =>
      (size_of_in6, write_in6 (mkIn6 AF_INET6 (to_be 2 port) flowinfo ip scope_id) out)
  end.

(** A [SocketAddr] with its fields in the ranges of their types. *)
Definition addr_ok (a : SocketAddr) : Prop :=
  match a with
  | V4 ip port => Forall is_u8 ip ∧ length ip = 4%nat ∧ is_u16 port
  | V6 ip port flowinfo scope_id =>
      Forall is_u8 ip ∧ length ip = 16%nat ∧ is_u16 port ∧ is_u32 flowinfo ∧ is_u32 scope_id
  end.
End Conversions.

Section RoundTrip.
Context {P : Profile}.

Lemma be_value_bound l : Forall is_u8 l → 0 <= be_value l < 256 ^ ♯l.
Proof.
  intros. unfold be_value. rewrite <-zlen_reverse. apply le_value_bound. by rewrite Forall_reverse.
Qed.

Lemma from_ne_bytes_bound l : Forall is_u8 l → 0 <= from_ne_bytes l < 256 ^ ♯l.
Proof.
  intros. unfold from_ne_bytes. destruct little_endian; [by apply le_value_bound|by apply be_value_bound].
Qed.

Lemma to_be_u16 z : is_u16 z → is_u16 (to_be 2 z).
Proof.
  intros Hz. unfold to_be. destruct little_endian; [|done].
  pose proof (be_value_bound (le_bytes 2 z) (le_bytes_u8 2 z)) as Hb.
  rewrite zlen_le_bytes in Hb. exact Hb.
Qed.

(** C21: addr_roundtrip.  An address written for C and read back is the same address, on targets of
    either byte order and for every layout of the [libc] structures: address
    bytes, port, flow information and scope survive, and the length returned is
    the one the reader asserts. *)
Theorem addr_roundtrip {L : LibcOps} {LS : LibcSpec L} {S} (a : SocketAddr) (out : mem) (s : S) :
  addr_ok a →
  std_addr_from_c (std_addr_to_c a out).2 (std_addr_to_c a out).1 s = Ok a s.
Proof.
  destruct families_u16 as [F4 F6]. pose proof families_differ as Hne.
  unfold std_addr_from_c. destruct a as [ip port|ip port fl sc]; cbn [std_addr_to_c fst snd].
  - intros (Hip & Hl & Hp).
    assert (Hok : in_ok (mkIn AF_INET (to_be 2 port) (from_ne_bytes ip) (replicate 8 0))).
    { split; [done|]. split; [by apply to_be_u16|]. split; [|done].
      pose proof (from_ne_bytes_bound ip Hip) as Hb. unfold zlen in Hb. by rewrite Hl in Hb. }
    rewrite (family_write_in _ _ Hok), (read_write_in _ _ Hok). cbn [sin_family sin_addr sin_port].
    rewrite !Z.eqb_refl. cbn [negb].
    pose proof (from_be_ne_bytes ip Hip) as Hr. rewrite Hl in Hr.
    unfold mret, M_ret. by rewrite from_to_be, Hr.
  - intros (Hip & Hl & Hp & Hfl & Hsc).
    assert (Hok : in6_ok (mkIn6 AF_INET6 (to_be 2 port) fl ip sc)).
    { split; [done|]. split; [by apply to_be_u16|]. by do 3 (split; [done|]). }
    rewrite (family_write_in6 _ _ Hok), (read_write_in6 _ _ Hok). cbn.
    rewrite (proj2 (Z.eqb_neq AF_INET6 AF_INET)), !Z.eqb_refl by done. cbn.
    by rewrite from_to_be.
Qed.
End RoundTrip.

(** ** The Linux layout *)

Module LinuxLibc.
Section Layout.
Context {P : Profile}.

Definition field (a n : nat) (m : list Z) : Z := from_ne_bytes (take n (drop a m)).

Definition image_in (r : sockaddr_in) : list Z :=
  to_ne_bytes 2 (sin_family r) ++ to_ne_bytes 2 (sin_port r) ++ to_ne_bytes 4 (sin_addr r) ++
  sin_zero r.
Definition image_in6 (r : sockaddr_in6) : list Z :=
  to_ne_bytes 2 (sin6_family r) ++ to_ne_bytes 2 (sin6_port r) ++ to_ne_bytes 4 (sin6_flowinfo r) ++
  sin6_addr r ++ to_ne_bytes 4 (sin6_scope_id r).

#[export] Instance ops : LibcOps := {|
  AF_INET := 2; AF_INET6 := 10; size_of_in := 16; size_of_in6 := 28;
  mem := list Z;
  sa_family := field 0 2;
  read_in m := mkIn (field 0 2 m) (field 2 2 m) (field 4 4 m) (take 8 (drop 8 m));
  read_in6 m := mkIn6 (field 0 2 m) (field 2 2 m) (field 4 4 m) (take 16 (drop 8 m)) (field 24 4 m);
  write_in r m := image_in r ++ drop 16 m;
  write_in6 r m := image_in6 r ++ drop 28 m;
|}.

(** A field that lies between two parts of a memory. *)
Lemma field_at (pre post : list Z) n z a :
  length pre = a → 0 <= z < 256 ^ Z.of_nat n → field a n (pre ++ to_ne_bytes n z ++ post) = z.
Proof.
  intros <- Hz. unfold field. rewrite drop_app_length.
  rewrite take_app_length' by (by rewrite ne_bytes_length). by apply ne_value_bytes.
Qed.

#[export] Instance spec : LibcSpec ops.
Proof.
  split; try done; intros r m Hok.
  - destruct r as [f p ad z], Hok as (Hf & Hp & Ha & Hz). cbn in *. unfold image_in. cbn. subst z.
    rewrite <-!(assoc_L (++)). f_equal.
    + by apply (field_at []).
    + by apply (field_at (to_ne_bytes 2 f)); [apply ne_bytes_length|].
    + rewrite (assoc_L (++) (to_ne_bytes 2 f)).
      apply field_at; [|done]. by rewrite length_app, !ne_bytes_length.
    + rewrite !(assoc_L (++) (to_ne_bytes 2 f)), (assoc_L (++) _ (to_ne_bytes 4 ad)).
      rewrite drop_app_length'; [done|]. by rewrite !length_app, !ne_bytes_length.
  - destruct r, Hok as (Hf & _). cbn in *. unfold image_in. rewrite <-!(assoc_L (++)).
    by apply (field_at []).
  - destruct r as [f p fl ip sc], Hok as (Hf & Hp & Hfl & Hip & Hl & Hsc). cbn in *.
    unfold image_in6. cbn. rewrite <-!(assoc_L (++)). f_equal.
    + by apply (field_at []).
    + by apply (field_at (to_ne_bytes 2 f)); [apply ne_bytes_length|].
    + rewrite (assoc_L (++) (to_ne_bytes 2 f)).
      apply field_at; [|done]. by rewrite length_app, !ne_bytes_length.
    + rewrite !(assoc_L (++) (to_ne_bytes 2 f)), (assoc_L (++) _ (to_ne_bytes 4 fl)).
      rewrite drop_app_length' by (by rewrite !length_app, !ne_bytes_length).
      by rewrite take_app_length'.
    + rewrite !(assoc_L (++) (to_ne_bytes 2 f)), (assoc_L (++) _ (to_ne_bytes 4 fl)),
        (assoc_L (++) _ ip).
      apply field_at; [|done]. by rewrite !length_app, !ne_bytes_length, Hl.
  - destruct r, Hok as (Hf & _). cbn in *. unfold image_in6. rewrite <-!(assoc_L (++)).
    by apply (field_at []).
Qed.
End Layout.
End LinuxLibc.

#[local] Existing Instance debug_x86.
#[local] Existing Instances LinuxLibc.ops LinuxLibc.spec.

Lemma addr_roundtrip_witness :
  let a := V6 (replicate 15 0 ++ [1]) 4433 7 2 in
  let out : mem (LibcOps := LinuxLibc.ops) := replicate 128 255 in
  std_addr_from_c (std_addr_to_c a out).2 (std_addr_to_c a out).1 tt = Ok a tt.
Proof.
  intros a out. apply (addr_roundtrip a out tt).
  repeat split; try (vm_compute; congruence). repeat constructor; vm_compute; congruence.
Defined.
