(* ===== verification/Ffi.v ===== *)
(** * Ffi: the C interface (src/src/ffi.rs)

    A C program holds configurations and connections as pointers made by
    [Box::into_raw].  [Heap] maps the live pointers to the values behind them;
    an entry point is an element of [C]: it returns a C value and the new heap,
    aborts (a panic does not cross [extern fn]), or is undefined (a pointer that
    is not live, a string without terminator).

    ffi.rs is compiled only with the feature "ffi" and is not accepted by the
    compiler as it stands: the [match] of [quiche_header_info] has no arm for
    [Stop], [Fin] and [StartAck]; [quiche_dada_send] passes a [String] where
    [data_send] takes [&mut String]; and [quiche_conn_send] reads a field [at]
    that neither [SendInfo] has.  The model gives the first no result on these
    types, passes the string, and leaves the missing field out. *)
From Stdlib Require Import SpecFloat Ascii String.
From S2P Require Import Prelude Effects Octets Packet OMap SoftFloat RangeBuf RecvBuf SendBuf Recovery Connection AckPath DataPath Ingest CAddr.

(** ** Pointers and calls *)

Record Heap := mkHeap { h_configs : gmap Z Config; h_conns : gmap Z Connection }.
Definition set_config p c h := mkHeap (<[p := c]> (h_configs h)) (h_conns h).
Definition set_conn p c h := mkHeap (h_configs h) (<[p := c]> (h_conns h)).

(** [Box::into_raw(Box::new(..))]: the allocator chooses a pointer that is
    neither live nor null. *)
Class Allocator := { alloc : gset Z → Z }.
Class AllocatorSpec (A : Allocator) : Prop := {
  alloc_fresh X : alloc X ∉ X;
  alloc_non_null X : alloc X ≠ 0;
}.
Definition fresh_ptr {A : Allocator} (h : Heap) : Z := alloc (dom (h_configs h) ∪ dom (h_conns h)).

(** A bump allocator. *)
Definition bump : Allocator := {| alloc X := 1 + foldr Z.max 0 (elements X) |}.
Lemma bump_spec : AllocatorSpec bump.
Proof.
  assert (Hm : ∀ l, 0 <= foldr Z.max 0 l) by (intros l; induction l; cbn; lia).
  split; intros X; cbn; [|pose proof (Hm (elements X)); lia].
  rewrite <-elem_of_elements. generalize (elements X). intros l Hl.
  assert (Hb : Forall (λ x, x <= foldr Z.max 0 l) l).
  { clear Hl. induction l as [|y l IH]; constructor; cbn; [lia|].
    eapply Forall_impl; [exact IH|]. intros; cbn in *; lia. }
  rewrite Forall_forall in Hb. specialize (Hb _ Hl). lia.
Qed.

Inductive c_outcome (A : Type) :=
| Returned (a : A) (h : Heap)
| Aborted (p : panic)
| Undefined.
Arguments Returned {A} _ _.
Arguments Aborted {A} _.
Arguments Undefined {A}.

Definition C (A : Type) : Type := Heap → c_outcome A.

#[export] Instance C_ret : MRet C := λ A a h, Returned a h.
#[export] Instance C_bind : MBind C := λ A B k m h,
  match m h with
  | Returned a h' => k a h'
  | Aborted p => Aborted p
  | Undefined => Undefined
  end.

(** A method called through a pointer ([&mut Connection], [&mut Config]). *)
Definition through {T A R} (look : Heap → option T) (put : T → Heap → Heap)
    (m : M T A) (ok : A → R) (err : Error → R) : C R := λ h,
  match look h with
  | None => Undefined
  | Some t =>
      match m t with
      | Ok a t' => Returned (ok a) (put t' h)
      | Err e t' => Returned (err e) (put t' h)
      | Panicked p => Aborted p
      end
  end.
Definition on_conn_ptr {A R} (p : Z) : M Connection A → (A → R) → (Error → R) → C R :=
  through (λ h, h_conns h !! p) (set_conn p).
Definition on_config_ptr {A R} (p : Z) : M Config A → (A → R) → (Error → R) → C R :=
  through (λ h, h_configs h !! p) (set_config p).

(** A computation that may only panic. *)
Definition lift {A} (m : M unit A) : C A := λ h,
  match m tt with Ok a _ => Returned a h | Err _ _ => Undefined | Panicked p => Aborted p end.

(** ** C integers and strings *)

Definition ssize_max : Z := 2 ^ 63 - 1.
(** [v as ssize_t] of a [usize]. *)
Definition as_ssize (v : Z) : Z := if v <=? ssize_max then v else v - 2 ^ 64.

(** [CStr::from_ptr]: the bytes before the terminator. *)
Fixpoint c_str (l : list Z) : option (list Z) :=
  match l with
  | [] => None
  | b :: l' => if b =? 0 then Some [] else (b ::.) <$> c_str l'
  end.

(** [CStr::to_str]: UTF-8 validation. *)
Definition cont (b : Z) : bool := (128 <=? b) && (b <=? 191).
Definition between (a b z : Z) : bool := (a <=? z) && (z <=? b).
Fixpoint utf8 (l : list Z) : bool :=
  match l with
  | [] => true
  | b0 :: r0 =>
      if b0 <? 128 then utf8 r0 else
      match r0 with
      | [] => false
      | b1 :: r1 =>
          if between 194 223 b0 then cont b1 && utf8 r1 else
          match r1 with
          | [] => false
          | b2 :: r2 =>
              if between 224 239 b0 then
                (if b0 =? 224 then between 160 191 b1
                 else if b0 =? 237 then between 128 159 b1 else cont b1) &&
                cont b2 && utf8 r2
              else
              match r2 with
              | [] => false
              | b3 :: r3 =>
                  between 240 244 b0 &&
                  (if b0 =? 240 then between 144 191 b1
                   else if b0 =? 244 then between 128 143 b1 else cont b1) &&
                  cont b2 && cont b3 && utf8 r3
              end
          end
      end
  end.

Definition str_of (l : list Z) : str := (λ b, ascii_of_nat (Z.to_nat b)) <$> l.

(** [CStr::from_ptr(s).to_str().unwrap()] *)
Definition c_to_str (s : list Z) : C str := λ h,
  match c_str s with
  | None => Undefined
  | Some l => if utf8 l then Returned (str_of l) h else Aborted UnwrapFailed
  end.

Example utf8_ok : utf8 [110; 195; 169; 226; 130; 172; 240; 159; 152; 128] = true.
Proof. reflexivity. Qed.
Example utf8_surrogate : utf8 [237; 160; 128] = false.
Proof. reflexivity. Qed.
Example utf8_overlong : utf8 [192; 128] = false.
Proof. reflexivity. Qed.

(** ** The C structures *)

Record CSendInfo {L : LibcOps} := mkCSendInfo {
  ci_from : mem; ci_from_len : Z; ci_to : mem; ci_to_len : Z;
}.
Record CRecvInfo {L : LibcOps} := mkCRecvInfo {
  ri_from : mem; ri_from_len : Z; ri_to : mem; ri_to_len : Z;
}.

Arguments mkCSendInfo {L} _ _ _ _.
Arguments mkCRecvInfo {L} _ _ _ _.

(** ** The entry points *)

Section EntryPoints.
Context {P : Profile} {O : OctetsOps} {H : HashOrder} {L : LibcOps} {A : Allocator}.

Definition quiche_config_new : C Z := λ h,
  let p := fresh_ptr h in Returned p (set_config p Config.new h).

Definition quiche_config_set_cc_algorithm_name (config : Z) (name : list Z) : C Z :=
  name ← c_to_str name;
  on_config_ptr config (Config.set_cc_algorithm_name (string_of_list_ascii name)) (λ _, 0) to_c.

Definition quiche_config_set_cc_algorithm (config : Z) (algo : CongestionControlAlgorithm)
    : C unit :=
  on_config_ptr config (Config.set_cc_algorithm algo) (λ _, tt) (λ _, tt).

Definition quiche_config_free (config : Z) : C unit := λ h,
  match h_configs h !! config with
  | None => Undefined
  | Some _ => Returned tt (mkHeap (delete config (h_configs h)) (h_conns h))
  end.

(** The code written to [*ty]; [None] where the [match] has no arm. *)
Definition type_code (t : Type_) : option Z :=
  match t with
  | Retry => Some 1
  | Handshake => Some 2
  | Application => Some 3
  | ElictAck => Some 4
  | ACK => Some 5
  | Stop | Fin | StartAck => None
  end.

(** Returns the status and what [*ty] holds afterwards ([ty] before). *)
Definition quiche_header_info (buf : list Z) (ty : Z) : C (Z * Z) := λ h,
  match Header.from_slice buf tt with
  | Ok hdr _ => match type_code (Header.ty hdr) with
                | Some t => Returned (0, t) h
                | None => Undefined
                end
  | Err e _ => Returned (to_c e, ty) h
  | Panicked p => Aborted p
  end.

Definition box_conn (c : Connection) : C Z := λ h,
  let p := fresh_ptr h in Returned p (set_conn p c h).

(** [accept] and [connect] differ in the constructor they call. *)
Definition new_conn (make : SocketAddr → SocketAddr → Z → M Config Connection)
    (local_ : mem) (local_len : Z) (peer : mem) (peer_len config now : Z) : C Z :=
  l ← lift (std_addr_from_c local_ local_len);
  r ← lift (std_addr_from_c peer peer_len);
  c ← on_config_ptr config (make l r now) Some (λ _, None);
  match c with Some c => box_conn c | None => mret 0 end.
Definition quiche_accept := new_conn accept.
Definition quiche_connect := new_conn connect.

Definition quiche_dada_send (conn : Z) (buf : list Z) : C unit :=
  s ← c_to_str buf;
  on_conn_ptr conn (data_send s) (λ _, tt) (λ _, tt).

Definition quiche_conn_send_all (conn now : Z) : C Z :=
  on_conn_ptr conn (send_all now) Z.b2z to_c.

Definition recv_info (info : CRecvInfo) : C RecvInfo :=
  f ← lift (std_addr_from_c (ri_from info) (ri_from_len info));
  t ← lift (std_addr_from_c (ri_to info) (ri_to_len info));
  mret (mkRecvInfo f t).

Definition quiche_conn_recv (conn : Z) (buf : list Z) (info : CRecvInfo) (now : Z) : C Z :=
  if ssize_max <? ♯buf then λ _, Aborted ExplicitPanic else
  on_conn_ptr conn (recv_slice buf now) as_ssize to_c.

(** Returns the result, the buffer [out] and [out_info]. *)
Definition quiche_conn_send (conn : Z) (out : list Z) (out_info : CSendInfo) (now1 now2 : Z)
    : C (Z * list Z * CSendInfo) := λ h,
  if ssize_max <? ♯out then Aborted ExplicitPanic else
  match h_conns h !! conn with
  | None => Undefined
  | Some c =>
      match send_data now1 now2 (c, out) with
      | Ok (v, info) (c', out') =>
          let f := std_addr_to_c (info_from info) (ci_from out_info) in
          let t := std_addr_to_c (info_to info) (ci_to out_info) in
          Returned (as_ssize v, out', mkCSendInfo f.2 f.1 t.2 t.1) (set_conn conn c' h)
      | Err e (c', out') => Returned (to_c e, out', out_info) (set_conn conn c' h)
      | Panicked p => Aborted p
      end
  end.

Definition quiche_conn_is_closed (conn : Z) : C bool := λ h,
  match h_conns h !! conn with Some c => Returned (is_closed c) h | None => Undefined end.
Definition quiche_conn_is_timed_out (conn : Z) : C bool := λ h,
  match h_conns h !! conn with Some c => Returned (is_timed_out c) h | None => Undefined end.

Definition quiche_conn_free (conn : Z) : C unit := λ h,
  match h_conns h !! conn with
  | None => Undefined
  | Some _ => Returned tt (mkHeap (h_configs h) (delete conn (h_conns h)))
  end.
End EntryPoints.

(** ** Sessions: sequences of calls *)

(** The calls of a C program, with the results of its clock readings. *)
Inductive call {L : LibcOps} :=
| CConfigNew
| CConfigName (config : Z) (name : list Z)
| CConfigAlgo (config : Z) (algo : CongestionControlAlgorithm)
| CConfigFree (config : Z)
| CHeaderInfo (buf : list Z) (ty : Z)
| CAccept (local_ : mem) (local_len : Z) (peer : mem) (peer_len config now : Z)
| CConnect (local_ : mem) (local_len : Z) (peer : mem) (peer_len config now : Z)
| CDataSend (conn : Z) (buf : list Z)
| CSendAll (conn now : Z)
| CRecv (conn : Z) (buf : list Z) (info : CRecvInfo) (now : Z)
| CSend (conn : Z) (out : list Z) (out_info : CSendInfo) (now1 now2 : Z)
| CIsClosed (conn : Z)
| CIsTimedOut (conn : Z)
| CConnFree (conn : Z).

(** What a call returns to the C program. *)
Inductive reply {L : LibcOps} :=
| RUnit
| RInt (z : Z)
| RHeader (status ty : Z)
| RSend (status : Z) (out : list Z) (info : CSendInfo).

Section Sessions.
Context {P : Profile} {O : OctetsOps} {H : HashOrder} {L : LibcOps} {A : Allocator}.

Definition exec (k : call) : C reply :=
  match k with
  | CConfigNew => p ← quiche_config_new; mret (RInt p)
  | CConfigName config name => z ← quiche_config_set_cc_algorithm_name config name; mret (RInt z)
  | CConfigAlgo config algo => quiche_config_set_cc_algorithm config algo;; mret RUnit
  | CConfigFree config => quiche_config_free config;; mret RUnit
  | CHeaderInfo buf ty => r ← quiche_header_info buf ty; mret (RHeader r.1 r.2)
  | CAccept l ll p pl config now => z ← quiche_accept l ll p pl config now; mret (RInt z)
  | CConnect l ll p pl config now => z ← quiche_connect l ll p pl config now; mret (RInt z)
  | CDataSend conn buf => quiche_dada_send conn buf;; mret RUnit
  | CSendAll conn now => z ← quiche_conn_send_all conn now; mret (RInt z)
  | CRecv conn buf info now => z ← quiche_conn_recv conn buf info now; mret (RInt z)
  | CSend conn out info t1 t2 =>
      r ← quiche_conn_send conn out info t1 t2; mret (RSend r.1.1 r.1.2 r.2)
  | CIsClosed conn => b ← quiche_conn_is_closed conn; mret (RInt (Z.b2z b))
  | CIsTimedOut conn => b ← quiche_conn_is_timed_out conn; mret (RInt (Z.b2z b))
  | CConnFree conn => quiche_conn_free conn;; mret RUnit
  end.

Fixpoint session (ks : list call) : C (list reply) :=
  match ks with
  | [] => mret []
  | k :: ks' => r ← exec k; rs ← session ks'; mret (r :: rs)
  end.

(** The connection a call goes to. *)
Definition target (k : call) : option Z :=
  match k with
  | CDataSend p _ | CSendAll p _ | CRecv p _ _ _ | CSend p _ _ _ _
  | CIsClosed p | CIsTimedOut p | CConnFree p => Some p
  | _ => None
  end.

(** *** The Rust side: what the calls on one connection mean *)

(** The Rust value a call produces. *)
Inductive result :=
| VUnit
| VBool (b : bool)
| VLen (r : Error + Z)
| VAll (r : Error + bool)
| VPacket (r : Error + (Z * SendInfo)) (out : list Z).

Definition run_method {S B} (m : M S B) (s : S) : option ((Error + B) * S) :=
  match m s with
  | Ok b s' => Some (inr b, s')
  | Err e s' => Some (inl e, s')
  | Panicked _ => None
  end.

(** The method behind a call on a connection; [None] when it panics, or when
    the call is not one on a connection that stays alive. *)
Definition method (k : call) (c : Connection) : option (result * Connection) :=
  match k with
  | CDataSend _ buf =>
      l ← c_str buf;
      if utf8 l then r ← run_method (data_send (str_of l)) c; Some (VUnit, r.2) else None
  | CSendAll _ now => r ← run_method (send_all now) c; Some (VAll r.1, r.2)
  | CRecv _ buf _ now => r ← run_method (recv_slice buf now) c; Some (VLen r.1, r.2)
  | CSend _ out _ t1 t2 =>
      r ← run_method (send_data t1 t2) (c, out); Some (VPacket r.1 r.2.2, r.2.1)
  | CIsClosed _ => Some (VBool (is_closed c), c)
  | CIsTimedOut _ => Some (VBool (is_timed_out c), c)
  | _ => None
  end.

(** How a Rust value appears to C. *)
Definition encode (k : call) (v : result) : reply :=
  match k, v with
  | _, VUnit => RUnit
  | _, VBool b => RInt (Z.b2z b)
  | _, VLen (inr n) => RInt (as_ssize n)
  | _, VAll (inr b) => RInt (Z.b2z b)
  | _, (VLen (inl e) | VAll (inl e)) => RInt (to_c e)
  | CSend _ _ info _ _, VPacket (inr (n, i)) out =>
      let f := std_addr_to_c (info_from i) (ci_from info) in
      let t := std_addr_to_c (info_to i) (ci_to info) in
      RSend (as_ssize n) out (mkCSendInfo f.2 f.1 t.2 t.1)
  | CSend _ _ info _ _, VPacket (inl e) out => RSend (to_c e) out info
  | _, VPacket _ _ => RUnit
  end.

(** The history of one connection: its methods in order, and their values. *)
Inductive history : list call → Connection → list result → Connection → Prop :=
| history_nil c : history [] c [] c
| history_cons k ks v vs c c1 c2 :
    method k c = Some (v, c1) → history ks c1 vs c2 → history (k :: ks) c (v :: vs) c2.
End Sessions.

Section Facts.
Context {P : Profile} {O : OctetsOps} {H : HashOrder} {L : LibcOps} {A : Allocator}
  {AS : AllocatorSpec A}.

Lemma C_bind_inv {X Y} (m : C X) (f : X → C Y) h y h2 :
  (m ≫= f) h = Returned y h2 → ∃ x h1, m h = Returned x h1 ∧ f x h1 = Returned y h2.
Proof. unfold mbind, C_bind. destruct (m h); [eauto|done|done]. Qed.

Lemma C_ret_inv {X} (x y : X) (h h' : Heap) :
  (mret x : C X) h = Returned y h' → y = x ∧ h' = h.
Proof. by intros [= <- <-]. Qed.

Lemma fresh_ptr_conns h p c : h_conns h !! p = Some c → fresh_ptr h ≠ p.
Proof.
  intros Hp <-. apply (alloc_fresh (dom (h_configs h) ∪ dom (h_conns h))).
  apply elem_of_union. right. by apply elem_of_dom_2 in Hp.
Qed.

Lemma through_inv {T B R} (look : Heap → option T) put (m : M T B) (ok : B → R) err h r h' :
  through look put m ok err h = Returned r h' →
  ∃ t v t', look h = Some t ∧ run_method m t = Some (v, t') ∧ h' = put t' h ∧
    r = match v with inr b => ok b | inl e => err e end.
Proof.
  unfold through, run_method. destruct (look h) as [t|]; [|done].
  destruct (m t) as [b t'|e t'|] eqn:E; [| |done]; intros [= <- <-].
  - exists t, (inr b), t'. by rewrite E.
  - exists t, (inl e), t'. by rewrite E.
Qed.

Lemma config_ptr_conns {B R} p (m : M Config B) (ok : B → R) err h r h' :
  on_config_ptr p m ok err h = Returned r h' → h_conns h' = h_conns h.
Proof. unfold on_config_ptr. by intros (t & v & t' & _ & _ & -> & _)%through_inv. Qed.

Lemma conn_ptr_other {B R} p q (m : M Connection B) (ok : B → R) err h r h' :
  p ≠ q → on_conn_ptr q m ok err h = Returned r h' → h_conns h' !! p = h_conns h !! p.
Proof.
  unfold on_conn_ptr. intros Hne (t & v & t' & _ & _ & -> & _)%through_inv.
  by apply lookup_insert_ne.
Qed.

Lemma conn_ptr_own {B R} p (m : M Connection B) (ok : B → R) err h r h' c :
  h_conns h !! p = Some c → on_conn_ptr p m ok err h = Returned r h' →
  ∃ v c', run_method m c = Some (v, c') ∧ h_conns h' !! p = Some c' ∧
    r = match v with inr b => ok b | inl e => err e end.
Proof.
  unfold on_conn_ptr. intros Hc (t & v & t' & Ht & Hm & -> & ->)%through_inv. rewrite Hc in Ht. injection Ht as <-.
  exists v, t'. split; [done|]. split; [apply lookup_insert_eq|done].
Qed.

Lemma c_to_str_inv s h x h' :
  c_to_str s h = Returned x h' → ∃ l, c_str s = Some l ∧ utf8 l = true ∧ x = str_of l ∧ h' = h.
Proof.
  unfold c_to_str. destruct (c_str s) as [l|]; [|done]. destruct (utf8 l) eqn:E; [|done].
  intros [= <- <-]. by exists l.
Qed.

Lemma lift_inv {X} (m : M unit X) h x h' : lift m h = Returned x h' → h' = h.
Proof. unfold lift. destruct (m tt); by intros [= _ <-]. Qed.

(** Take a computation that returned apart. *)
Ltac c_inv H :=
  repeat match type of H with
  | (_ ≫= _) _ = Returned _ _ =>
      let x := fresh "x" in let h := fresh "h" in let E := fresh "E" in
      apply C_bind_inv in H as (x & h & E & H)
  | mret _ _ = Returned _ _ => apply C_ret_inv in H as [-> ->]
  end.

(** A new connection leaves the live ones alone. *)
Lemma new_conn_others make l ll r rl config now h z h' p c :
  new_conn make l ll r rl config now h = Returned z h' → h_conns h !! p = Some c →
  h_conns h' !! p = Some c.
Proof.
  unfold new_conn. intros E Hp. c_inv E.
  apply lift_inv in E0 as ->. apply lift_inv in E1 as ->.
  apply config_ptr_conns in E2. destruct x1 as [c1|].
  - injection E as <- <-. cbn. rewrite lookup_insert_ne; [by rewrite E2|].
    apply (fresh_ptr_conns _ _ c). by rewrite E2.
  - injection E as <- <-. by rewrite E2.
Qed.

(** A call that does not go to [p] leaves the connection behind [p] alone. *)
Lemma exec_other k h r h' p c :
  target k ≠ Some p → exec k h = Returned r h' → h_conns h !! p = Some c →
  h_conns h' !! p = Some c.
Proof.
  intros Ht E Hp. destruct k; cbn [exec target] in *; c_inv E;
    repeat match goal with
    | E : c_to_str _ _ = _ |- _ => apply c_to_str_inv in E as (? & ? & ? & ? & ->)
    end.
  - injection E0 as _ <-. done.
  - unfold quiche_config_set_cc_algorithm_name in E0. c_inv E0.
    apply c_to_str_inv in E as (? & _ & _ & _ & ->). by rewrite (config_ptr_conns _ _ _ _ _ _ _ E0).
  - by rewrite (config_ptr_conns _ _ _ _ _ _ _ E0).
  - unfold quiche_config_free in E0. destruct (_ !! _); [|done]. by injection E0 as _ <-.
  - unfold quiche_header_info in E0. destruct (Header.from_slice _ _) as [hdr|e|]; [|by injection E0 as _ <-|done].
    destruct (type_code _); [|done]. by injection E0 as _ <-.
  - by eapply new_conn_others.
  - by eapply new_conn_others.
  - unfold quiche_dada_send in E0. c_inv E0. apply c_to_str_inv in E as (? & _ & _ & _ & ->).
    rewrite (conn_ptr_other p conn _ _ _ _ _ _ ltac:(congruence) E0). done.
  - by rewrite (conn_ptr_other p conn _ _ _ _ _ _ ltac:(congruence) E0).
  - unfold quiche_conn_recv in E0. destruct (_ <? _); [done|].
    by rewrite (conn_ptr_other p conn _ _ _ _ _ _ ltac:(congruence) E0).
  - unfold quiche_conn_send in E0. destruct (_ <? _); [done|].
    destruct (h_conns h !! conn); [|done].
    destruct (send_data _ _ _) as [[v i] [c' o']|e [c' o']|]; [| |done]; injection E0 as _ <-;
      cbn; rewrite lookup_insert_ne; congruence.
  - unfold quiche_conn_is_closed in E0. destruct (_ !! _); [|done]. by injection E0 as _ <-.
  - unfold quiche_conn_is_timed_out in E0. destruct (_ !! _); [|done]. by injection E0 as _ <-.
  - unfold quiche_conn_free in E0. destruct (_ !! _); [|done]. injection E0 as _ <-. cbn.
    rewrite lookup_delete_ne; congruence.
Qed.

(** A call that goes to [p] runs the method behind it. *)
Lemma exec_own k h r h' p c :
  target k = Some p → k ≠ CConnFree p → exec k h = Returned r h' → h_conns h !! p = Some c →
  ∃ v c', method k c = Some (v, c') ∧ r = encode k v ∧ h_conns h' !! p = Some c'.
Proof.
  intros Ht Hk E Hp. destruct k; cbn [exec target method] in *; try done; injection Ht as ->;
    c_inv E.
  - unfold quiche_dada_send in E0. c_inv E0. apply c_to_str_inv in E as (l & El & Eu & -> & ->).
    destruct (conn_ptr_own _ _ _ _ _ _ _ _ Hp E0) as (v & c' & Em & Hc' & _).
    exists VUnit, c'. rewrite El. cbn. rewrite Eu, Em. done.
  - destruct (conn_ptr_own _ _ _ _ _ _ _ _ Hp E0) as (v & c' & Em & Hc' & ->).
    exists (VAll v), c'. rewrite Em. by destruct v.
  - unfold quiche_conn_recv in E0. destruct (_ <? _); [done|].
    destruct (conn_ptr_own _ _ _ _ _ _ _ _ Hp E0) as (v & c' & Em & Hc' & ->).
    exists (VLen v), c'. rewrite Em. by destruct v.
  - unfold quiche_conn_send in E0. destruct (_ <? _); [done|]. rewrite Hp in E0.
    unfold run_method.
    destruct (send_data _ _ _) as [[v i] [c' o']|e [c' o']|]; [| |done]; injection E0 as <- <-;
      eexists _, c'; (split; [done|]); (split; [done|]); apply lookup_insert_eq.
  - unfold quiche_conn_is_closed in E0. rewrite Hp in E0. injection E0 as <- <-.
    by exists (VBool (is_closed c)), c.
  - unfold quiche_conn_is_timed_out in E0. rewrite Hp in E0. injection E0 as <- <-.
    by exists (VBool (is_timed_out c)), c.
  - done.
Qed.

(** The calls of a session that go to [p], and the replies to them. *)
Definition calls_on (p : Z) (ks : list call) : list call := filter (λ k, target k = Some p) ks.
Definition replies_on (p : Z) (ks : list call) (rs : list reply) : list reply :=
  (filter (λ kr : call * reply, target kr.1 = Some p) (zip ks rs)).*2.

(** C14: session_refines_methods.  The C interface refines the Rust one: in a session of any calls on any
    pointers, a connection that stays alive goes through exactly the history of
    its own method calls, whatever is done to other connections and
    configurations in between, and the C program sees the encoded results. *)
Theorem session_refines_methods ks rs h h' p c :
  session ks h = Returned rs h' → h_conns h !! p = Some c → CConnFree p ∉ ks →
  ∃ vs c', history (calls_on p ks) c vs c' ∧ h_conns h' !! p = Some c' ∧
    replies_on p ks rs = zip_with encode (calls_on p ks) vs.
Proof.
  revert rs h c. induction ks as [|k ks IH]; intros rs h c E Hp Hf; cbn [session] in E; c_inv E.
  { exists [], c. split; [constructor|]. done. }
  apply not_elem_of_cons in Hf as [Hk Hf]. unfold calls_on, replies_on. cbn [zip_with zip].
  rewrite !filter_cons. cbn [fst]. destruct (decide (target k = Some p)) as [Ht|Ht].
  - destruct (exec_own k _ _ _ p c Ht ltac:(done) E0 Hp) as (v & c1 & Hm & -> & Hp1).
    destruct (IH _ _ _ E1 Hp1 Hf) as (vs & c' & Hh & Hp' & Hr).
    exists (v :: vs), c'. split; [by econstructor|]. split; [done|]. cbn. by f_equal.
  - destruct (IH _ _ _ E1 (exec_other k _ _ _ p c Ht E0 Hp) Hf) as (vs & c' & Hh & Hp' & Hr).
    by exists vs, c'.
Qed.

Lemma to_c_range e : -19 <= to_c e <= -1.
Proof. destruct e; cbn; lia. Qed.

(** C22: forged_length_reads_as_error.  What [quiche_conn_recv] returns for a data packet is the length its header
    announces, taken as a signed number.  Below 2^63 that is the length; but a
    packet that announces [2^64 - k] reads as the error code [-k] although it was
    received: for every error there is a packet that is stored and reported as
    that error. *)
Theorem forged_length_reads_as_error {HO : OctetsSpec O} p h c pn prio off data info now plen :
  h_conns h !! p = Some c → is_u64 pn → is_u8 prio → is_u64 off → is_u64 plen →
  off + ♯data < u64_bound → 26 + ♯data <= ssize_max → 0 <= c_recv_count c < u64_bound - 2 →
  let buf := Header.encode (Header.mkHeader Application pn prio off plen) ++ data in
  ∃ z h' c', quiche_conn_recv p buf info now h = Returned z h' ∧
    recv_slice buf now c = Ok plen c' ∧ h_conns h' !! p = Some c' ∧
    c_recv_dic c' !! off = Some prio ∧
    (plen < 2 ^ 63 → z = plen) ∧ (∀ e, plen = 2 ^ 64 + to_c e → z = to_c e).
Proof.
  intros Hp Hpn Hpr Hoff Hpl Hb Hsz Hrc buf.
  pose proof (recv_announced_Ok pn prio off plen data c now Hpn Hpr Hoff Hpl Hb Hrc) as E.
  exists (as_ssize plen), (set_conn p (after_data_received pn prio off data c) h),
    (after_data_received pn prio off data c).
  split.
  { unfold quiche_conn_recv. destruct (Z.ltb_spec ssize_max (♯buf)) as [Hl|_].
    - unfold buf in Hl. rewrite zlen_app, Header.zlen_encode in Hl. lia.
    - unfold on_conn_ptr, through. rewrite Hp. unfold buf. by rewrite E. }
  split; [done|]. split; [apply lookup_insert_eq|]. split; [apply lookup_insert_eq|].
  unfold as_ssize, ssize_max. split.
  - intros Hl. destruct (Z.leb_spec plen (2 ^ 63 - 1)); lia.
  - intros e ->. pose proof (to_c_range e). destruct (Z.leb_spec (2 ^ 64 + to_c e) (2 ^ 63 - 1)); lia.
Qed.
End Facts.

(** ** Witnesses *)

Module FfiSamples.
#[local] Existing Instances debug_x86 ListOctets.ops ListOctets.spec map_order map_order_spec.
#[local] Existing Instances LinuxLibc.ops LinuxLibc.spec bump bump_spec.

Definition store : mem (LibcOps := LinuxLibc.ops) := replicate 128 0.
Definition local_c := std_addr_to_c Samples.here store.
Definition peer_c := std_addr_to_c Samples.there store.
Definition no_info : CSendInfo := mkCSendInfo store 0 store 0.
Definition from_peer : CRecvInfo := mkCRecvInfo peer_c.2 peer_c.1 local_c.2 local_c.1.

(** Two connections of one configuration: 2 sends, 3 receives. *)
Definition opening : list call :=
  [CConfigNew; CAccept local_c.2 local_c.1 peer_c.2 peer_c.1 1 0;
   CConnect peer_c.2 peer_c.1 local_c.2 local_c.1 1 0].
Definition h0 : Heap := mkHeap ∅ ∅.
Definition opened : Heap :=
  match session opening h0 with Returned _ h => h | _ => h0 end.
Definition sender_conn : Connection :=
  match h_conns opened !! 2 with Some c => c | None => Samples.receiver end.
Definition hello : list Z := Header.encode (Header.mkHeader Handshake 0 0 0 0).

Definition steps : list call :=
  [CSend 2 (replicate 64 0) no_info 1 2; CRecv 3 hello from_peer 3;
   CSend 3 (replicate 64 0) no_info 4 5; CRecv 2 hello from_peer 10;
   CConfigFree 1; CConnFree 3; CIsClosed 2].
Definition final : Heap := match session steps opened with Returned _ h => h | _ => h0 end.
Definition replies : list reply := match session steps opened with Returned rs _ => rs | _ => [] end.
Definition receiver_conn : Connection :=
  match h_conns opened !! 3 with Some c => c | None => Samples.receiver end.

(** Only the shape of a result is evaluated. *)
Definition returned {A} (o : c_outcome A) : bool := match o with Returned _ _ => true | _ => false end.
Lemma returned_Returned {A} (o : c_outcome A) d e :
  returned o = true →
  o = Returned (match o with Returned a _ => a | _ => d end)
               (match o with Returned _ h => h | _ => e end).
Proof. by destruct o. Qed.
Lemma live_Some {A} (o : option A) d :
  bool_decide (is_Some o) = true → o = Some (match o with Some a => a | None => d end).
Proof. destruct o; [done|]. intros H%bool_decide_eq_true. by destruct H. Qed.

(** The handshake through the C interface: both ends send 26 bytes. *)
Example session_replies : (λ r, match r with RInt z => z | RSend z _ _ => z | _ => -1 end) <$>
  replies = [26; 0; 26; 0; -1; -1; 0].
Proof. vm_compute. reflexivity. Qed.

Lemma session_refines_methods_witness :
  ∃ vs c', history (calls_on 2 steps) sender_conn vs c' ∧ h_conns final !! 2 = Some c' ∧
    replies_on 2 steps replies = zip_with encode (calls_on 2 steps) vs.
Proof.
  apply (session_refines_methods steps replies opened final 2 sender_conn).
  - apply returned_Returned. vm_compute. reflexivity.
  - apply live_Some. vm_compute. reflexivity.
  - unfold steps. intros H. repeat (apply elem_of_cons in H as [H|H]; [discriminate H|]).
    by apply elem_of_nil in H.
Defined.

Lemma forged_length_reads_as_error_witness :
  let buf := Header.encode (Header.mkHeader Application 0 3 0 (2 ^ 64 - 1)) ++ [7] in
  ∃ z h' c', quiche_conn_recv 3 buf from_peer 3 opened = Returned z h' ∧
    recv_slice buf 3 receiver_conn = Ok (2 ^ 64 - 1) c' ∧ h_conns h' !! 3 = Some c' ∧
    c_recv_dic c' !! 0 = Some 3 ∧
    (2 ^ 64 - 1 < 2 ^ 63 → z = 2 ^ 64 - 1) ∧ (∀ e, 2 ^ 64 - 1 = 2 ^ 64 + to_c e → z = to_c e).
Proof.
  apply (forged_length_reads_as_error 3 opened receiver_conn 0 3 0 [7] from_peer 3 (2 ^ 64 - 1)).
  - apply live_Some. vm_compute. reflexivity.
  - vm_compute. split; congruence.
  - vm_compute. split; congruence.
  - vm_compute. split; congruence.
  - vm_compute. split; congruence.
  - vm_compute. reflexivity.
  - vm_compute. congruence.
  - vm_compute. split; congruence.
Defined.
End FfiSamples.
