(* ===== verification/Sender.v ===== *)
(** * Sender: the invariant of the sending end

    What holds of a sending [Connection] while it transmits the data [D], in
    every state its methods can reach, whatever the build profile: the send
    buffer holds pieces of [D] at their own offsets, the counters of the batch
    match the packets sent, and the ledger of all chunks ever written accounts
    for each of them: it is still kept for retransmission, or the receiver has
    it, or its retransmission budget was used up.  The last clause is claimed of
    a sender whose peer is the crate's own receiver ([Peer], [honest]); the
    others hold among forged packets too ([Forged]). *)
From Stdlib Require Import SpecFloat.
From S2P Require Import Prelude Effects Octets Packet OMap SoftFloat RangeBuf RecvBuf SendBuf Recovery Connection AckPath DataPath.

(** ** Pieces of the data *)

(** [c] holds the bytes of [D] at its offset. *)
Definition chunk_of (D : list Z) (c : RangeBuf) : Prop :=
  chunk_ok c ∧ chunk_end c <= ♯D ∧
  rg_data c = take (Z.to_nat (rg_len c)) (drop (Z.to_nat (rg_off c)) D).

(** [l] covers the range from [lo] to [hi] without gap or overlap. *)
Fixpoint tiles (lo : Z) (l : list RangeBuf) (hi : Z) : Prop :=
  match l with
  | [] => lo = hi
  | c :: l' => rg_off c = lo ∧ tiles (chunk_end c) l' hi
  end.

Lemma tiles_app lo l mid k hi : tiles lo l mid → tiles mid k hi → tiles lo (l ++ k) hi.
Proof.
  revert lo. induction l as [|c l IH]; intros lo Hl Hk; simpl in *; [by subst|].
  destruct Hl. split; [done|]. by apply IH.
Qed.

Lemma tiles_app_inv lo l k hi : tiles lo (l ++ k) hi → ∃ mid, tiles lo l mid ∧ tiles mid k hi.
Proof.
  revert lo. induction l as [|c l IH]; intros lo Ht; [by exists lo|]. destruct Ht as [<- Ht].
  destruct (IH _ Ht) as (mid & ? & ?). by exists mid.
Qed.

Lemma lay_tiles o cs : tiles o (lay o cs) (o + ♯(concat cs)).
Proof.
  revert o. induction cs as [|c cs IH]; intros o; simpl; [zlia|].
  split; [done|]. rewrite zlen_app, Z.add_assoc. apply IH.
Qed.

Lemma lay_chunk_of D o cs :
  0 <= o → ♯D < u64_bound → Forall piece_ok cs → o + ♯(concat cs) <= ♯D →
  concat cs = take (length (concat cs)) (drop (Z.to_nat o) D) →
  Forall (chunk_of D) (lay o cs).
Proof.
  intros Ho HD Hcs. revert o Ho. induction Hcs as [|c cs Hc Hcs IH]; intros o Ho Hb Heq; [constructor|].
  cbn [lay concat] in *. rewrite zlen_app in Hb. pose_len. unfold piece_ok in Hc.
  rewrite length_app in Heq.
  assert (Hcd : c = take (length c) (drop (Z.to_nat o) D)).
  { apply (f_equal (take (length c))) in Heq. rewrite take_app_length, take_take in Heq.
    by rewrite Nat.min_l in Heq by lia. }
  assert (Hrest : concat cs = take (length (concat cs)) (drop (Z.to_nat (o + ♯c)) D)).
  { apply (f_equal (drop (length c))) in Heq. rewrite drop_app_length in Heq.
    rewrite skipn_firstn_comm, drop_drop in Heq.
    replace (Z.to_nat (o + ♯c)) with (Z.to_nat o + length c)%nat by (unfold zlen; lia).
    rewrite Heq at 1. f_equal. lia. }
  constructor; [|by apply IH; [lia|lia|]].
  split; [split; [apply from_fresh; lia|simpl; lia]|]. split; [unfold chunk_end; simpl; lia|].
  simpl. unfold zlen. rewrite Nat2Z.id. exact Hcd.
Qed.

(** Chunks that tile a prefix of the data carry exactly that prefix. *)
Lemma tiles_concat D lo l hi :
  0 <= lo → Forall (chunk_of D) l → tiles lo l hi →
  concat (rg_data <$> l) = take (Z.to_nat (hi - lo)) (drop (Z.to_nat lo) D) ∧ lo <= hi.
Proof.
  intros Hlo Hl. revert lo Hlo. induction Hl as [|c l [[_ Hlen] [Hend Hdata]] _ IH]; intros lo Hlo Ht.
  - simpl in Ht. subst. rewrite Z.sub_diag. by split.
  - destruct Ht as [<- Ht]. destruct (IH (chunk_end c)) as [IH1 IH2]; [unfold chunk_end; lia|done|].
    rewrite fmap_cons. cbn [concat]. rewrite IH1, Hdata. unfold chunk_end in *. split; [|lia].
    replace (Z.to_nat (hi - rg_off c)) with
      (Z.to_nat (rg_len c) + Z.to_nat (hi - (rg_off c + rg_len c)))%nat by lia.
    rewrite <-take_take_drop, drop_drop. do 3 f_equal. lia.
Qed.

(** ** The invariant *)

(** How often the chunk at [o] was transmitted. *)
Definition transmissions (c : Connection) (o : Z) : Z := ♯(filter (λ x, x = o) (c_sent_pkt c)).

(** Whether the packets a sender gets are those of the receiver, or may be
    anything.  Only a forged [ElictAck] makes a sender answer with an ACK. *)
Class Peer := { honest : bool }.

Record sender_inv {Pe : Peer} (D : list Z) (c : Connection) : Prop := {
  si_role : c_is_server c = true ∧ c_server c = true;
  si_data : c_send_data c = D;
  si_size : ♯D < u64_bound;
  si_buf : SendBuf.wf (c_send_buffer c);
  si_pos : 0 <= sb_pos (c_send_buffer c);
  si_off : sb_off (c_send_buffer c) = c_written_data c;
  si_total : c_total_offset c = c_written_data c;
  si_written : c_written_data c <= ♯D;
  si_blocks : Forall in_block (sb_data (c_send_buffer c));
  si_batch : batch_inv c;
  si_sent : Forall is_u64 (c_sent_pkt c);
  si_hist : Forall is_u64 (former_win_vecter (c_recovery c));
  si_pn : is_u64 (next_pkt_num (c_pkt_num_spaces c).1) ∧ is_u64 (next_pkt_num (c_pkt_num_spaces c).2);
  si_recv : honest = true → c_recv_flag c = false;
  si_budget o : match c_sent_dic c !! o with
                | Some x => x = wrap64 (priority_of c o + 1 - transmissions c o) ∧
                            1 <= priority_of c o <= 3
                | None => transmissions c o = 0
                end;
}.

(** A chunk the sender may forget: received (an offset in [R]), or transmitted
    once more than its priority. *)
Definition may_forget (R : gmap Z Z) (c : Connection) (ch : RangeBuf) : Prop :=
  is_Some (R !! rg_off ch) ∨ priority_of c (rg_off ch) + 1 <= transmissions c (rg_off ch).

(** [all]: every chunk written so far, in order. *)
Record ledger (D : list Z) (R : gmap Z Z) (all : list RangeBuf) (c : Connection) : Prop := {
  le_chunks : Forall (chunk_of D) all;
  le_tiles : tiles 0 all (c_written_data c);
  le_buffered : ∀ ch, ch ∈ sb_data (c_send_buffer c) → ch ∈ all;
  le_accounted : ∀ ch, ch ∈ all → ch ∈ kept (c_send_buffer c) ∨ may_forget R c ch;
}.

Definition sender_ok {Pe : Peer} D R all c : Prop := sender_inv D c ∧ ledger D R all c.

(** The chunks of [all] that were transmitted at least once. *)
Definition transmitted (c : Connection) (all : list RangeBuf) : list RangeBuf :=
  filter (λ ch, rg_off ch ∈ c_sent_pkt c) all.

(** The norms and split points, which give the priorities, are the same. *)
Definition same_rules (c c' : Connection) : Prop :=
  c_norm2_vec c' = c_norm2_vec c ∧ c_low_split_point c' = c_low_split_point c ∧
  c_high_split_point c' = c_high_split_point c.

(** [c'] has the buffer of [c] and sent at most one more packet, a chunk of it. *)
Definition sends_from (c c' : Connection) : Prop :=
  sb_data (c_send_buffer c') = sb_data (c_send_buffer c) ∧ same_rules c c' ∧
  (c_sent_pkt c' = c_sent_pkt c ∨
   ∃ ch, ch ∈ sb_data (c_send_buffer c) ∧ c_sent_pkt c' = c_sent_pkt c ++ [rg_off ch]).

(** [c'] keeps what it buffers of [c] and adds only the chunks [new]. *)
Definition refills (new : list RangeBuf) (c c' : Connection) : Prop :=
  c_sent_pkt c' = c_sent_pkt c ∧ same_rules c c' ∧
  ∀ ch, ch ∈ sb_data (c_send_buffer c') → ch ∈ sb_data (c_send_buffer c) ∨ ch ∈ new.

Lemma sends_from_same c c' :
  sb_data (c_send_buffer c') = sb_data (c_send_buffer c) → same_rules c c' →
  c_sent_pkt c' = c_sent_pkt c → sends_from c c'.
Proof. intros. split; [done|]. split; [done|]. by left. Qed.

Lemma same_rules_priority c c' o : same_rules c c' → priority_of c' o = priority_of c o.
Proof. intros (E1 & E2 & E3). unfold priority_of. by rewrite E1, E2, E3. Qed.

(** Updates of fields the invariant does not mention. *)
Ltac frame := match goal with
  | H : sender_ok _ _ _ ?c |- sender_ok _ _ _ _ =>
      destruct H as [[] []]; split; constructor; assumption
  end.

Lemma sender_ok_stop_flag {Pe : Peer} f D R all c : sender_ok D R all c → sender_ok D R all (set_stop_flag f c).
Proof. intros H. frame. Qed.
Lemma sender_ok_handshake {Pe : Peer} t D R all c : sender_ok D R all c → sender_ok D R all (set_handshake t c).
Proof. intros H. frame. Qed.
Lemma sender_ok_recv_count {Pe : Peer} n D R all c : sender_ok D R all c → sender_ok D R all (set_recv_count n c).
Proof. intros H. frame. Qed.

Lemma sender_ok_weaken {Pe : Peer} D R R' all c :
  (∀ o, is_Some (R !! o) → is_Some (R' !! o)) → sender_ok D R all c → sender_ok D R' all c.
Proof.
  intros HR [Hi []]. split; [done|]. constructor; try done. intros ch Hch.
  destruct (le_accounted0 ch Hch) as [?|[?|?]]; [by left|right; left; auto|right; by right].
Qed.

(** ** The window *)

Section Window.
Context {P : Profile}.

Lemma cwnd_safe r :
  Forall is_u64 (former_win_vecter r) →
  wlp cwnd r (λ w r', is_u64 w ∧ Forall is_u64 (former_win_vecter r')) (λ _, False).
Proof.
  intros Hf. unfold cwnd. wlp_steps.
  apply (wlp_mono _ _ (λ w r', is_u64 w ∧ r' = r) _ (λ _, False)); [| |done].
  { destruct (_ <? _); wlp_steps; (split; [|done]); [done|]. unfold is_u64, u64_bound. lia. }
  intros w ? [Hw ->]. wlp_steps.
  apply (wlp_mono _ _ (λ _ r', Forall is_u64 (former_win_vecter r')) _ (λ _, False)); [| |done].
  { destruct (negb _); wlp_steps; [|done]. cbn. apply Forall_forall.
    intros x [->|Hx]%os_insert_elem; [done|]. rewrite Forall_forall in Hf. by apply Hf. }
  intros _ r' Hf'. wlp_steps. destruct (_ <=? _); wlp_steps; (split; [|done]); [done|].
  vm_compute. split; congruence.
Qed.

Lemma rollback_safe r :
  Forall is_u64 (former_win_vecter r) →
  wlp rollback r (λ w r', is_u64 w ∧ Forall is_u64 (former_win_vecter r')) (λ _, False).
Proof.
  intros Hf. unfold rollback. wlp_steps.
  destruct (os_pop_last (former_win_vecter r)) as [[w rest]|] eqn:Ho; wlp_steps.
  - rewrite (os_pop_last_elem _ _ _ Ho), Forall_app, Forall_singleton in Hf. cbn. tauto.
  - split; [|done]. vm_compute. split; congruence.
Qed.

Lemma update_win_safe w n r :
  wlp (update_win w n) r (λ _ r', former_win_vecter r' = former_win_vecter r) (λ _, False).
Proof.
  unfold update_win. wlp_steps.
  apply (wlp_mono _ _ (λ _ r', former_win_vecter r' = former_win_vecter r) _ (λ _, False)); [| |done].
  { destruct (f_ne _ _); by wlp_steps. }
  intros _ r' Hr'. destruct (f_gt _ _); by wlp_steps.
Qed.
End Window.

(** ** Refilling the window *)

Section Refill.
Context {P : Profile} {Pe : Peer}.

Definition refilled (D : list Z) (w : Z) (r : Recovery) (c : Connection) : Connection :=
  set_send_buffer (after_write (drop (Z.to_nat (c_written_data c)) D) w (pad (c_written_data c))
                     (c_send_buffer c))
    (set_recovery r (set_sent_number 0 (set_high_priority 0 c))).

Lemma written_nonneg D c : sender_inv D c → 0 <= c_written_data c.
Proof. intros H. rewrite <-(si_off _ _ H). by apply wf_off_nonneg, (si_buf _ _ H). Qed.

(** The part of [write] that follows the choice of the window [w]. *)
Definition write_rest (c : Connection) (w : Z) : M Connection Z :=
  data ← or_panic OutOfBounds (slice_from (c_send_data c) (c_written_data c));
  on_send_buffer (SendBuf.write data w (pad (c_total_offset c)) (c_max_off c)).

Lemma write_eq c :
  Connection.write c =
  (congestion_window ← (if f_gt (f64_div (f64_of_Z (c_high_priority c)) (f64_of_Z (c_sent_number c)))
                             CONGESTION_THREAHOLD
                        then on_recovery rollback else on_recovery cwnd);
   write_rest c congestion_window) (set_sent_number 0 (set_high_priority 0 c)).
Proof.
  unfold Connection.write, write_rest. rewrite get_bind, !modify_bind.
  assert ((if negb (c_total_offset c mod 1024 mod 1024 =? 0)
           then 1024 - c_total_offset c mod 1024 else 0) = pad (c_total_offset c)) as ->; [|done].
  rewrite Zmod_mod. unfold pad, SEND_BUFFER_SIZE. by destruct (c_total_offset c mod 1024 =? 0).
Qed.

Lemma write_rest_Ok D c w r' :
  sender_inv D c → is_u64 w →
  write_rest c w (set_recovery r' (set_sent_number 0 (set_high_priority 0 c))) =
    Ok (accepted (c_send_buffer c) w (♯D - c_written_data c)) (refilled D w r' c).
Proof.
  intros H Hw. pose proof (written_nonneg D c H) as Hw0. pose proof (si_written _ _ H) as Hw1.
  unfold write_rest. rewrite (si_data _ _ H), slice_from_Some, some_bind, (si_total _ _ H) by lia.
  set (rest := drop (Z.to_nat (c_written_data c)) D).
  assert (Hrest : ♯rest = ♯D - c_written_data c) by (unfold rest; zlia).
  pose proof (pad_range (c_written_data c)) as Hpr. unfold on_send_buffer.
  erewrite zoom_Ok; [|apply send_write_Ok; [apply (si_buf _ _ H)|done| |lia|];
    cbn; rewrite (si_off _ _ H), ?Hrest; pose proof (si_size _ _ H); lia].
  cbn [c_send_buffer set_recovery set_sent_number set_high_priority]. by rewrite <-Hrest.
Qed.

Lemma write_safe D c :
  sender_inv D c →
  wlp Connection.write c
    (λ n c', ∃ w r', is_u64 w ∧ Forall is_u64 (former_win_vecter r') ∧ c' = refilled D w r' c ∧
       n = accepted (c_send_buffer c) w (♯D - c_written_data c)) (λ _, False).
Proof.
  intros H. eapply wlp_of_eq; [apply write_eq|]. set (c1 := set_sent_number 0 (set_high_priority 0 c)).
  wlp_steps. apply (wlp_mono _ _ (λ w c', is_u64 w ∧ ∃ r', Forall is_u64 (former_win_vecter r') ∧
    c' = set_recovery r' c1) _ (λ _, False)); [| |done].
  { pose proof (si_hist _ _ H) as Hh. unfold on_recovery.
    destruct (f_gt _ _); apply wlp_zoom;
      (eapply wlp_mono; [by first [apply rollback_safe | apply cwnd_safe]| |done]);
      intros w r' [? ?]; (split; [done|by exists r']). }
  intros w ? (Hw & r' & Hr' & ->). eapply wlp_of_Ok; [by apply write_rest_Ok|]. by exists w, r'.
Qed.

(** The chunks a refill adds. *)
Definition added (D : list Z) (w : Z) (c : Connection) : list RangeBuf :=
  lay (c_written_data c)
    (appended (drop (Z.to_nat (c_written_data c)) D) w (pad (c_written_data c)) (c_send_buffer c)).

Lemma added_ok D w c :
  sender_inv D c →
  let n := accepted (c_send_buffer c) w (♯D - c_written_data c) in
  0 <= n <= ♯D - c_written_data c ∧ Forall (chunk_of D) (added D w c) ∧
  tiles (c_written_data c) (added D w c) (c_written_data c + n).
Proof.
  intros H n. pose proof (written_nonneg D c H) as Hw0. pose proof (si_written _ _ H) as Hw1.
  set (rest := drop (Z.to_nat (c_written_data c)) D).
  assert (Hrest : ♯rest = ♯D - c_written_data c) by (unfold rest; zlia).
  pose proof (pad_range (c_written_data c)) as Hpr.
  destruct (appended_ok rest w (pad (c_written_data c)) (c_send_buffer c)) as (A1 & A2 & A3); [lia|].
  rewrite Hrest in A2, A3. fold n in A2, A3.
  assert (Hn : 0 <= n <= ♯D - c_written_data c) by (unfold n, accepted; lia).
  split; [done|]. unfold added. fold rest. split.
  - apply lay_chunk_of; [done|apply (si_size _ _ H)|done|lia|].
    rewrite A2 at 1. fold rest. f_equal. unfold zlen in A3. lia.
  - rewrite <-A3. apply lay_tiles.
Qed.

Lemma refilled_ok D R all w r' c :
  sender_ok D R all c → is_u64 w → Forall is_u64 (former_win_vecter r') →
  let n := accepted (c_send_buffer c) w (♯D - c_written_data c) in
  sender_ok D R (all ++ added D w c)
    (set_total_offset (c_total_offset c + n)
      (set_written_data (c_written_data c + n) (refilled D w r' c))).
Proof.
  intros [H L] Hw Hr' n. pose proof (written_nonneg D c H) as Hw0.
  destruct (added_ok D w c H) as (Hn & Hch & Hti). fold n in Hn, Hti.
  pose proof (pad_range (c_written_data c)) as Hpr.
  set (rest := drop (Z.to_nat (c_written_data c)) D).
  assert (Hrest : ♯rest = ♯D - c_written_data c) by (unfold rest; pose proof (si_written _ _ H); zlia).
  set (b := c_send_buffer c). set (b' := after_write rest w (pad (c_written_data c)) b).
  assert (Hwf : SendBuf.wf b').
  { apply after_write_wf; [apply (si_buf _ _ H)|lia|]. unfold b. rewrite (si_off _ _ H), Hrest.
    pose proof (si_size _ _ H). lia. }
  assert (Hdata : sb_data b' = kept b ++ added D w c).
  { unfold b', added, after_write. cbn. unfold b. by rewrite (si_off _ _ H). }
  assert (Hkept : kept b' = kept b ++ added D w c).
  { rewrite <-Hdata. apply kept_all; [done|apply after_write_unmarked]. }
  assert (Hoff : sb_off b' = c_written_data c + n).
  { unfold b', after_write. cbn. destruct (appended_ok rest w (pad (c_written_data c)) b) as (_ & _ & A3);
      [lia|]. rewrite A3, Hrest. unfold b. by rewrite (si_off _ _ H). }
  split.
  - destruct H. constructor; try done; cbn.
    + lia.
    + lia.
    + change (Forall in_block (sb_data b')). rewrite Hdata. apply Forall_app. split; [by apply Forall_filter_2|].
      unfold added, appended. destruct (_ =? 0) eqn:E; [constructor|]. apply Z.eqb_neq in E.
      apply pieces_in_block. fold rest in E |- *. unfold accepted in *. zlia.
  - destruct L as [L1 L2 L3 L4]. constructor; cbn.
    + by apply Forall_app.
    + by apply (tiles_app _ _ _ _ _ L2).
    + change (∀ ch, ch ∈ sb_data b' → ch ∈ all ++ added D w c). rewrite Hdata.
      intros ch. rewrite !elem_of_app. intros [[_ Hk]%list_elem_of_filter|?]; [left; by apply L3|by right].
    + change (∀ ch, ch ∈ all ++ added D w c → ch ∈ kept b' ∨ may_forget R c ch). rewrite Hkept.
      intros ch. rewrite !elem_of_app. intros [Ha|?]; [|left; by right].
      destruct (L4 ch Ha); [left; by left|by right].
Qed.

Lemma write_and_count_safe D R all c :
  sender_ok D R all c →
  wlp write_and_count c (λ _ c', ∃ new, sender_ok D R (all ++ new) c' ∧ refills new c c')
    (λ _, False).
Proof.
  intros Hok. unfold write_and_count. wlp_steps.
  eapply wlp_mono; [apply (write_safe D c (proj1 Hok))| |done].
  intros n ? (w & r' & Hw & Hr' & -> & ->). wlp_steps.
  destruct (added_ok D w c (proj1 Hok)) as (Hn & _ & _).
  set (n := accepted (c_send_buffer c) w (♯D - c_written_data c)) in *.
  assert (Hb : is_u64 (c_written_data c + n)).
  { pose proof (written_nonneg D c (proj1 Hok)). pose proof (si_size _ _ (proj1 Hok)).
    unfold is_u64. lia. }
  exists (added D w c). pose proof (refilled_ok D R all w r' c Hok Hw Hr') as Hres. fold n in Hres.
  pose proof (si_total _ _ (proj1 Hok)) as Htot. cbn in *.
  repeat match goal with H : is_u64 _ → _ = _ |- _ => rewrite H by (rewrite ?Htot; done); clear H end.
  split; [done|]. split; [done|]. split; [done|].
  intros ch. cbn. rewrite elem_of_app. unfold added. rewrite (si_off _ _ (proj1 Hok)).
  intros [[_ Hk]%list_elem_of_filter|?]; [by left|by right].
Qed.

(** [send_all] keeps the invariant; the ledger grows at its end. *)
Lemma send_all_safe D R all now c :
  sender_ok D R all c →
  wlp (send_all now) c
    (λ more c', ∃ new, sender_ok D R (all ++ new) c' ∧ refills new c c' ∧
       (more = false → new = [] ∧ c_written_data c' = ♯D ∧ sb_data (c_send_buffer c') = []))
    (λ _, False).
Proof.
  intros Hok. unfold send_all, set_handshake_now. wlp_steps. cbn [c_written_data c_send_data
    c_send_buffer set_handshake set_stop_ack set_stop_flag].
  set (c1 := set_handshake now (set_stop_ack false (set_stop_flag false c))).
  assert (H1 : sender_ok D R all c1) by frame.
  assert (Hmore : wlp (write_and_count;; mret true) c1
    (λ more c', ∃ new, sender_ok D R (all ++ new) c' ∧ refills new c c' ∧
       (more = false → new = [] ∧ c_written_data c' = ♯D ∧ sb_data (c_send_buffer c') = []))
    (λ _, False)).
  { apply wlp_bind. eapply wlp_mono; [by apply (write_and_count_safe D R all)| |done].
    intros _ c' (new & Hn & Href). wlp_steps. by exists new. }
  rewrite (si_data _ _ (proj1 Hok)).
  destruct (Z.ltb_spec (c_written_data c) (♯D)) as [|Hge]; [done|].
  destruct (SendBuf.is_empty (c_send_buffer c)) eqn:He; [|done]. wlp_steps.
  exists []. rewrite app_nil_r. split; [done|].
  split; [split; [done|]; split; [done|]; by left|]. intros _. split; [done|].
  pose proof (si_written _ _ (proj1 Hok)). cbn. split; [lia|].
  unfold SendBuf.is_empty in He. by destruct (sb_data (c_send_buffer c)).
Qed.
End Refill.

(** ** Sending a packet *)

(** What a sender with the ledger [all] puts on the wire. *)
Definition sender_packet (all : list RangeBuf) (p : list Z) : Prop :=
  p = handshake_packet ∨
  (∃ pn os, is_u64 pn ∧ Forall is_u64 os ∧ (length os <= 8)%nat ∧ p = elict_packet pn (8 * ♯os) os) ∨
  (∃ pn prio ch, is_u64 pn ∧ is_u8 prio ∧ ch ∈ all ∧ p = data_packet pn prio (rg_off ch) (rg_data ch)).

(** The sender after a transmission of the chunk at [off], with the buffer [b'],
    the packet-number space [pns], the budget [x] and the stop flag [f], in the
    order in which [send_application] makes the updates. *)
Definition sent_chunk (off : Z) (b' : SendBuf) (pns : PktNumSpace) (cnt n x : Z) (f : bool)
    (c : Connection) : Connection :=
  let c3 := set_pkt_num_spaces (pns, (c_pkt_num_spaces c).2)
    (set_sent_number n (set_sent_count cnt (set_send_buffer b' c))) in
  let c4 := set_stop_flag f (set_sent_dic (<[off := x]> (c_sent_dic c3)) c3) in
  set_sent_pkt (c_sent_pkt c4 ++ [off]) c4.

Lemma transmissions_snoc c c' off o :
  c_sent_pkt c' = c_sent_pkt c ++ [off] →
  transmissions c' o = transmissions c o + (if bool_decide (off = o) then 1 else 0).
Proof.
  intros Hp. unfold transmissions. rewrite Hp, filter_app, zlen_app, filter_cons, filter_nil.
  case_decide; case_bool_decide; try done; zlia.
Qed.

(** What it puts on the wire when its peer may be forging packets. *)
Definition sent_packet {Pe : Peer} (all : list RangeBuf) (p : list Z) : Prop :=
  sender_packet all p ∨ honest = false ∧ ∃ pn plen mx l, p = ack_packet pn plen mx l.

Section Send.
Context {P : Profile} {Pe : Peer} {O : OctetsOps} {HO : OctetsSpec O} {HI : HashOrder} {HIS : HashOrderSpec HI}.

Lemma write_pkt_type_safe D c :
  sender_inv D c →
  wlp write_pkt_type c
    (λ ty c', (ty = Handshake ∧ c' = set_handshake_completed true c) ∨
      (ty = ElictAck ∧ c' = set_sent_count 0 c ∧ (c_sent_count c = 8 ∨ c_stop_flag c = true)) ∨
      (ty = Application ∧ c' = c ∧ 0 <= c_sent_count c < 8) ∨
      (ty = ACK ∧ c' = set_recv_flag false c ∧ honest = false)) (λ _, False).
Proof.
  intros H. destruct (si_role _ _ H) as [Hr _]. destruct (si_batch _ _ H) as (B1 & B2 & B3).
  pose proof (si_recv _ _ H) as Hf. unfold ELICT_FLAG in B3.
  unfold write_pkt_type. wlp_steps. rewrite Hr. cbn [negb]. rewrite !andb_true_r, andb_false_r.
  destruct (Z.eqb_spec (c_rtt c) 0); [wlp_steps; by left|]. cbn [negb].
  destruct ((c_sent_count c mod ELICT_FLAG =? 0) && (0 <? c_sent_count c)) eqn:E8; cbn [orb].
  { wlp_steps. right; left. split; [done|]. split; [done|]. left.
    apply andb_prop in E8 as [E1%Z.eqb_eq E2%Z.ltb_lt]. unfold ELICT_FLAG in E1.
    destruct (decide (c_sent_count c = 8)); [done|].
    rewrite Z.mod_small in E1 by lia. lia. }
  destruct (c_stop_flag c) eqn:Hs; [wlp_steps; right; left; tauto|].
  destruct (c_recv_flag c); wlp_steps; right; right; [right|left].
  { split; [done|]. split; [done|]. destruct honest; [by specialize (Hf eq_refl)|done]. }
  split; [done|]. split; [done|]. split; [lia|].
  destruct (decide (c_sent_count c = 8)) as [E|]; [|lia]. by rewrite E in E8.
Qed.

Lemma priority_calculation_safe off c :
  wlp (priority_calculation off) c
    (λ p c', c' = c ∧ p = priority_of c off ∧ 1 <= p <= 3) (λ _, False).
Proof.
  unfold priority_calculation, priority_of. wlp_steps. rewrite H.
  split; [done|]. split; [done|]. destruct (f_lt _ _); [lia|]. destruct (f_lt _ _); lia.
Qed.

(** Replacing the buffer by one with the same chunks. *)
Lemma sender_ok_same_chunks D R all c b' :
  same_chunks (c_send_buffer c) b' → sender_ok D R all c →
  sender_ok D R all (set_send_buffer b' c).
Proof.
  intros Hs [[] []]. pose proof Hs as (E1 & E2 & E3 & E4 & E5).
  pose proof (same_chunks_kept _ _ Hs) as Ek. split; constructor; try done; cbn.
  - by eapply same_chunks_wf.
  - by rewrite E3.
  - by rewrite E1.
  - by rewrite E1.
  - rewrite Ek. done.
Qed.

Lemma note_sent_safe D off c1 c :
  sender_inv D c → c_sent_dic c1 = c_sent_dic c → 1 <= priority_of c off <= 3 →
  wlp (note_sent off (priority_of c off)) c1
    (λ _ c', c' = set_sent_dic (<[off := wrap64 (priority_of c off - transmissions c off)]>
                                  (c_sent_dic c1)) c1) (λ _, False).
Proof.
  intros H Hd Hp. unfold note_sent. wlp_steps. pose proof (si_budget _ _ H off) as Hb.
  rewrite Hd. destruct (c_sent_dic c !! off) as [x|]; wlp_steps.
  - destruct Hb as [-> _]. do 2 f_equal. rewrite H1. unfold wrap64.
    rewrite Zminus_mod_idemp_l. f_equal. lia.
  - rewrite Hb. do 2 f_equal. unfold wrap64, u64_bound. rewrite Z.mod_small; lia.
Qed.

(** A transmission of a buffered chunk. *)
Lemma sent_chunk_ok D R all c off b' pns n f :
  sender_ok D R all c → same_chunks (c_send_buffer c) b' →
  is_u64 off → 1 <= priority_of c off <= 3 → 0 <= c_sent_count c < 8 →
  is_u64 (next_pkt_num pns) →
  sender_ok D R all
    (sent_chunk off b' pns (c_sent_count c + 1) n
       (wrap64 (priority_of c off - transmissions c off)) f c).
Proof.
  intros Hok Hs Hoff Hp Hsc Hpn. set (c' := sent_chunk _ _ _ _ _ _ _ c).
  apply (sender_ok_same_chunks _ _ _ _ _ Hs) in Hok as [[] []].
  assert (Htr : ∀ o, transmissions c' o =
    transmissions c o + (if bool_decide (off = o) then 1 else 0))
    by (intros; by apply transmissions_snoc).
  split; constructor; try assumption.
  - destruct si_batch0 as (B1 & B2 & B3). unfold batch_inv, ELICT_FLAG in *. cbn in *.
    rewrite zlen_app. change (♯[off]) with 1. lia.
  - cbn. apply Forall_app. split; [done|]. by apply Forall_singleton.
  - split; [done|]. apply si_pn0.
  - intros o. rewrite Htr. change (priority_of c' o) with (priority_of c o).
    change (c_sent_dic c') with (<[off := wrap64 (priority_of c off - transmissions c off)]>
      (c_sent_dic c)). destruct (decide (off = o)) as [<-|Hne].
    + rewrite lookup_insert_eq, bool_decide_eq_true_2 by done. split; [f_equal; lia|done].
    + rewrite lookup_insert_ne, bool_decide_eq_false_2, Z.add_0_r by done. apply (si_budget0 o).
  - intros ch' Hch'. destruct (le_accounted0 ch' Hch') as [Hk|[?|Hf]]; [by left|right; by left|].
    right; right. rewrite Htr. unfold transmissions, priority_of in *. cbn in *.
    case_bool_decide; lia.
Qed.

Lemma wlp_on_conn {A} (m : M Connection A) c out (Q : A → _ → Prop) E :
  wlp m c (λ a c', Q a (c', out)) (λ c', E (c', out)) → wlp (on_conn m) (c, out) Q E.
Proof. intros H. unfold on_conn. by apply wlp_zoom. Qed.

(** Writing more entries than fit fails. *)
Lemma put_pairs_short l o pre r :
  at_cursor o pre r → ♯r < 16 * ♯l → ∃ o', put_pairs l o = Err BufferTooShort o'.
Proof.
  revert o pre r. induction l as [|[k v] l IH]; intros o pre r Hc Hr.
  { rewrite (@zlen_nil (Z * Z)) in Hr. pose_len. lia. }
  rewrite zlen_cons in Hr. cbn [put_pairs].
  destruct (decide (length r < 8)%nat) as [Hs|Hs];
    [eexists; by eapply bind_Err, put_u64_short|].
  destruct (Header.be_bytes_app_split 8 r) as (x1 & r1 & -> & Hl1); [lia|].
  destruct (put_u64_at o _ _ _ k Hc Hl1) as (o1 & E1 & C1). rewrite (bind_Ok _ _ _ _ _ E1).
  destruct (decide (length r1 < 8)%nat) as [Hs1|Hs1];
    [eexists; by eapply bind_Err, put_u64_short|].
  destruct (Header.be_bytes_app_split 8 r1) as (x2 & r2 & -> & Hl2); [lia|].
  destruct (put_u64_at o1 _ _ _ v C1 Hl2) as (o2 & E2 & C2). rewrite (bind_Ok _ _ _ _ _ E2).
  apply (IH o2 _ _ C2). unfold zlen in *. rewrite !length_app in Hr. lia.
Qed.

(** The body of an ACK: written if it fits, refused otherwise. *)
Lemma ack_body_fits pn plen mx l out :
  34 <= ♯out →
  wlp (Header.to_bytes (Header.mkHeader ACK pn 0 0 plen);; put_u64 mx;; put_pairs l)
    (with_slice out)
    (λ _ o', 34 + 16 * ♯l <= ♯out ∧
      o_buf o' = ack_packet pn plen mx l ++ drop (Z.to_nat (34 + 16 * ♯l)) out) (λ _, True).
Proof.
  intros Ho. destruct (decide (34 + 16 * ♯l <= ♯out)) as [Hf|Hf].
  - destruct (ack_body_at pn plen mx l out Hf) as (o' & E & C).
    eapply wlp_of_Ok; [exact E|]. split; [done|]. exact (at_cursor_buf _ _ _ C).
  - destruct (Header.to_bytes_at_u8 (Header.mkHeader ACK pn 0 0 plen) _ _ _ ltac:(done)
      (at_cursor_with_slice out)) as (o1 & E1 & C1); [unfold zlen in *; lia|].
    destruct (Header.be_bytes_app_split 8 (drop 26 out)) as (x & r & Hx & Hlx);
      [rewrite length_drop; unfold zlen in *; lia|]. rewrite Hx in C1.
    destruct (put_u64_at o1 _ _ _ mx C1 Hlx) as (o2 & E2 & C2).
    destruct (put_pairs_short l o2 _ _ C2) as (o3 & E3).
    { apply (f_equal length) in Hx. rewrite length_drop, length_app in Hx. unfold zlen in *. lia. }
    unfold wlp. rewrite (bind_Ok _ _ _ _ _ E1), (bind_Ok _ _ _ _ _ E2), E3. done.
Qed.

(** An ACK of a sender, if it fits. *)
Lemma sender_ack_safe D R all c out :
  sender_ok D R all c → 34 <= ♯out < u64_bound →
  wlp send_ack_packet (c, out)
    (λ n s, sender_ok D R all s.1 ∧ sends_from c s.1 ∧ 0 <= n < u64_bound - 26 ∧
            ∃ pn plen mx l, take (Z.to_nat (26 + n)) s.2 = ack_packet pn plen mx l)
    (λ s, sender_ok D R all s.1 ∧ sends_from c s.1).
Proof.
  intros Hok Ho. unfold send_ack_packet. wlp_steps. apply wlp_on_conn. wlp_steps. cbn [fst snd].
  cbn [c_recv_hashmap c_send_num set_feed_back]. rename v into n1, v0 into n2, v1 into psize.
  set (l := hash_iter (c_recv_hashmap c)).
  assert (Hl : Z.of_nat (size (c_recv_hashmap c)) = ♯l) by (unfold zlen, l; by rewrite hash_iter_length).
  unfold on_out. apply wlp_zoom. cbn [fst snd].
  eapply wlp_mono; [apply ack_body_fits; lia| |].
  2:{ intros o' _. cbn. split; [frame|by apply sends_from_same]. }
  intros [] o' [Hf Hb]. wlp_steps. apply wlp_on_conn. wlp_steps. cbn [fst snd]. rewrite Hb.
  assert (Hps : psize = 16 * ♯l + 8).
  { cbn [fst c_recv_hashmap set_feed_back] in *. rewrite Hl in *. pose_len.
    repeat match goal with H : is_u64 ?x → _ = ?x |- _ => specialize (H ltac:(unfold is_u64; lia)) end. lia. }
  split; [frame|]. split; [by apply sends_from_same|]. split; [pose_len; lia|].
  eexists _, _, _, _. apply take_packet. rewrite Hps. unfold ack_packet. zlia.
Qed.

Lemma put_data_header pn prio off len (ch out : list Z) c (Q : unit → _ → Prop) E :
  is_u64 pn → is_u8 prio → is_u64 off → is_u64 len → len = ♯ch → 26 + ♯ch <= ♯out →
  Q tt (c, data_packet pn prio off ch ++ drop (Z.to_nat (26 + len)) out) →
  wlp (put_header (Header.mkHeader Application pn prio off len))
    (c, take 26 out ++ ch ++ drop (length ch) (drop 26 out)) Q E.
Proof.
  intros H1 H2 H3 H4 -> Ho HQ.
  destruct (data_packet_buffer (Header.mkHeader Application pn prio off (♯ch)) ch out)
    as (o' & E' & Hb); [done|done|].
  unfold put_header, on_out. apply wlp_zoom. cbn [snd fst].
  eapply wlp_of_Ok; [exact E'|]. by rewrite Hb.
Qed.

(** The end of a window raises the stop flag, or leaves it as it is. *)
Lemma raise_stop (stop : bool) c out :
  wlp (if stop then on_conn (modify (set_stop_flag true)) else mret tt) (c, out)
    (λ _ s, ∃ f, s = (set_stop_flag f c, out)) (λ _, False).
Proof.
  destruct stop; wlp_steps; [apply wlp_on_conn; wlp_steps|]; eexists; [done|].
  instantiate (1 := c_stop_flag c). by destruct c.
Qed.

(** The batch counter does not wrap. *)
Lemma next_count c cnt :
  0 <= c_sent_count c < 8 → (is_u64 (c_sent_count c + 1) → cnt = c_sent_count c + 1) →
  cnt = c_sent_count c + 1.
Proof. intros H Hc. apply Hc. unfold is_u64, u64_bound. lia. Qed.

Lemma send_application_safe D R all c out :
  sender_ok D R all c → 0 <= c_sent_count c < 8 → 26 + SEND_BUFFER_SIZE <= ♯out →
  wlp send_application (c, out)
    (λ n s, sender_ok D R all s.1 ∧ sends_from c s.1 ∧ 0 <= n <= SEND_BUFFER_SIZE ∧
            sender_packet (transmitted s.1 all) (take (Z.to_nat (26 + n)) s.2))
    (λ s, sender_ok D R all s.1 ∧ sends_from c s.1).
Proof.
  intros Hok Hsc Hout. pose proof Hok as [Hi Hl]. unfold send_application. wlp_steps. cbn [snd] in *.
  unfold SEND_BUFFER_SIZE in Hout. rewrite slice_from_Some in H by lia. injection H as <-.
  apply wlp_on_conn. unfold on_send_buffer. apply wlp_zoom.
  eapply wlp_mono; [apply emit_safe; [apply (si_buf _ _ Hi)|apply (si_pos _ _ Hi)|]| |done].
  { unfold SEND_BUFFER_SIZE. zlia. }
  intros [[[n off] stop] tail'] b' [Hs Hcase]. wlp_steps. cbn [fst snd].
  set (c1 := set_send_buffer b' c).
  assert (Hok1 : sender_ok D R all c1) by by apply sender_ok_same_chunks.
  change (c_written_data c1) with (c_written_data c).
  assert (Hd1 : sb_data b' = sb_data (c_send_buffer c)) by apply Hs.
  destruct (Z.leb_spec (c_written_data c) off) as [|Hlt].
  { wlp_steps. split; [done|]. by apply sends_from_same. }
  destruct Hcase as [->|(ch & Hin & Hck & -> & -> & ->)]; [rewrite (si_off _ _ Hi) in Hlt; lia|].
  destruct Hck as [[(_ & _ & Hlen & Ho0 & Hob) _] Hsz]. unfold SEND_BUFFER_SIZE in Hsz.
  wlp_steps. rename v into cnt. apply wlp_on_conn. wlp_steps. rename v into num.
  apply wlp_on_conn. wlp_steps. apply wlp_on_conn.
  eapply wlp_mono; [apply priority_calculation_safe| |done]. intros p c2 (-> & Hp & Hp3).
  wlp_steps. rename v into pn'. apply wlp_on_conn. wlp_steps. apply wlp_on_conn.
  set (c3 := set_pkt_num_spaces _ _).
  assert (Hp' : p = priority_of c (rg_off ch)) by exact Hp. clear Hp. subst p. rename Hp3 into Hp4.
  eapply wlp_mono; [by apply (note_sent_safe D (rg_off ch) c3 c)| |done].
  intros _ c4 ->. wlp_steps.
  pose proof (si_pn _ _ Hi) as [Hpn _].
  apply put_data_header; [done|unfold is_u8, u8_bound; lia|unfold is_u64; lia| |done|lia|].
  { unfold is_u64, u64_bound. lia. }
  cbv beta. wlp_steps.
  eapply wlp_mono; [apply raise_stop| |done].
  intros _ s (f & ->). wlp_steps. apply wlp_on_conn. wlp_steps. cbn [fst snd]. split.
  - pose proof (sent_chunk_ok D R all c (rg_off ch) b'
      (mkSpace pn' (recv_pkt_num (c_pkt_num_spaces c).1)) num f Hok Hs) as Hsc'.
    assert (Hcnt : cnt = c_sent_count c + 1) by (by apply next_count).
    specialize (Hsc' ltac:(unfold is_u64; lia) Hp4 Hsc ltac:(done)).
    rewrite <-Hcnt in Hsc'. exact Hsc'.
  - split; [split; [done|]; split; [done|]; right; by exists ch|].
    split; [unfold SEND_BUFFER_SIZE; lia|]. rewrite take_packet by (unfold data_packet; zlia).
    right; right. exists (next_pkt_num (c_pkt_num_spaces c).1), (priority_of c (rg_off ch)), ch.
    split; [done|]. split; [unfold is_u8, u8_bound; lia|]. split; [|done].
    apply list_elem_of_filter. split; [|by apply (le_buffered _ _ _ _ Hl)].
    cbn. apply elem_of_app. right. by left.
Qed.

(** The sender after reporting its unreported packets. *)
Definition reported (pn' : Z) (f : bool) (c : Connection) : Connection :=
  let c2 := set_pkt_num_spaces
    ((c_pkt_num_spaces c).1, mkSpace pn' (recv_pkt_num (c_pkt_num_spaces c).2))
    (set_sent_count 0 c) in
  let c3 := set_ack_point (♯(c_sent_pkt c2)) c2 in
  if f then set_stop_ack true c3 else c3.

Lemma reported_ok D R all pn' f c :
  sender_ok D R all c → is_u64 pn' → sender_ok D R all (reported pn' f c).
Proof.
  intros [[] []] Hpn. unfold reported.
  assert (Hb : batch_inv (reported pn' f c)).
  { unfold batch_inv, reported, ELICT_FLAG. destruct f; cbn; unfold zlen; lia. }
  destruct si_pn0 as [? ?].
  destruct f; split; constructor; first [assumption | exact Hb | by split].
Qed.

Lemma send_elict_safe D R all c out :
  sender_ok D R all c → (c_sent_count c = 8 ∨ c_stop_flag c = true) → 90 <= ♯out →
  wlp send_elict_packet (set_sent_count 0 c, out)
    (λ n s, sender_ok D R all s.1 ∧ sends_from c s.1 ∧ 0 <= n <= 64 ∧
            ∀ sent, sender_packet sent (take (Z.to_nat (26 + n)) s.2)) (λ _, False).
Proof.
  intros Hok Hdue Hout. pose proof Hok as [Hi _]. pose proof (si_batch _ _ Hi) as Hb.
  pose proof (zlen_unreported c Hb) as Hu. pose proof Hb as (B1 & B2 & B3).
  set (os := unreported c) in *. unfold ELICT_FLAG in B3. pose_len.
  pose proof (si_pn _ _ Hi) as [_ Hpn]. set (pn := next_pkt_num (c_pkt_num_spaces c).2) in *.
  assert (Hos : Forall is_u64 os) by apply Forall_drop, (si_sent _ _ Hi).
  assert (Hpkt : ∀ sent, sender_packet sent (elict_packet pn (8 * ♯os) os)).
  { intros sent. right; left. exists pn, os. split; [done|]. split; [done|]. split; [unfold zlen in *; lia|done]. }
  destruct (elict_body_at pn (8 * ♯os) os out Hpn) as (o' & E & C);
    [unfold is_u64, u64_bound; lia|lia|].
  unfold send_elict_packet. wlp_steps. apply wlp_on_conn. wlp_steps. cbn [fst].
  change (c_stop_flag (set_pkt_num_spaces _ _)) with (c_stop_flag c).
  cbn [c_sent_pkt c_ack_point set_pkt_num_spaces set_sent_count].
  rewrite slice_from_Some by lia. fold (unreported c). fold os.
  assert (Hfin : ∀ f n, n = 8 * ♯os → sender_ok D R all (reported v f c) ∧
    sends_from c (reported v f c) ∧ 0 <= n <= 64 ∧
    ∀ sent, sender_packet sent (take (Z.to_nat (26 + n)) (o_buf o'))).
  { intros f n ->. split; [by apply reported_ok|].
    split; [apply sends_from_same; by destruct f|]. split; [lia|].
    rewrite (at_cursor_buf _ _ _ C), take_packet; [done|]. unfold elict_packet. zlia. }
  destruct (c_stop_flag c) eqn:Hst.
  - wlp_steps. match goal with H : Some _ = Some _ |- _ => injection H as <- end.
    rename v0 into k, v1 into sz.
    assert (Hk : k = ♯os).
    { match goal with H : is_u64 (_ - _) → k = _ |- _ => rewrite H end; [lia|].
      unfold is_u64, u64_bound. lia. }
    assert (Hsz : sz = 8 * ♯os).
    { match goal with H : is_u64 (_ * 8) → sz = _ |- _ => rewrite H end; [lia|].
      unfold is_u64, u64_bound. lia. }
    rewrite Hsz. unfold on_out. apply wlp_zoom. cbn [fst snd]. eapply wlp_of_Ok; [exact E|].
    wlp_steps. apply wlp_on_conn. wlp_steps. apply wlp_on_conn. wlp_steps. cbn [fst snd].
    apply (Hfin true). lia.
  - destruct Hdue as [H8|?]; [|done]. assert (H64 : 8 * ♯os = 64) by lia. rewrite H64 in E.
    wlp_steps. match goal with H : Some _ = Some _ |- _ => injection H as <- end.
    unfold on_out. apply wlp_zoom. cbn [fst snd]. eapply wlp_of_Ok; [exact E|].
    wlp_steps. apply wlp_on_conn. wlp_steps. cbn [fst snd]. apply (Hfin false). lia.
Qed.

Lemma send_hello_safe D R all c out now :
  sender_ok D R all c → 26 <= ♯out →
  wlp (send_handshake_server now) (c, out)
    (λ _ s, sender_ok D R all s.1 ∧ sends_from c s.1 ∧ take 26 s.2 = handshake_packet)
    (λ _, False).
Proof.
  intros Hok Hout. unfold send_handshake_server, put_header, on_out. wlp_steps. cbn [fst snd].
  destruct (handshake_bytes out Hout) as (o' & E & Hb). eapply wlp_of_Ok; [exact E|].
  apply wlp_on_conn. unfold set_handshake_now. wlp_steps. cbn [fst snd].
  split; [by apply sender_ok_handshake|]. split; [by apply sends_from_same|].
  rewrite Hb. by apply (take_packet _ _ 26).
Qed.

Lemma send_data_safe D R all c out now1 now2 :
  sender_ok D R all c → 26 + SEND_BUFFER_SIZE <= ♯out < u64_bound →
  wlp (send_data now1 now2) (c, out)
    (λ r s, sender_ok D R all s.1 ∧ sends_from c s.1 ∧
            sent_packet (transmitted s.1 all) (take (Z.to_nat r.1) s.2))
    (λ s, sender_ok D R all s.1 ∧ sends_from c s.1).
Proof.
  intros Hok Hout. pose proof Hok as [Hi _]. destruct (si_role _ _ Hi) as [_ Hsrv].
  assert (Hout' : 1050 <= ♯out < u64_bound) by (unfold SEND_BUFFER_SIZE in Hout; lia).
  unfold send_data, send_stop_packet, finish_send. wlp_steps. cbn [snd fst].
  destruct (Z.eqb_spec (♯out) 0); [lia|]. apply wlp_bind, wlp_on_conn.
  eapply wlp_mono; [by apply (write_pkt_type_safe D)| |done].
  rewrite Hsrv.
  assert (Hend : ∀ c1 o1 psize, sender_ok D R all c1 → sends_from c c1 →
    0 <= psize < u64_bound - 26 →
    sent_packet (transmitted c1 all) (take (Z.to_nat (26 + psize)) o1) →
    wlp (s ← get; if is_stopped s.1 then fail Done else
         on_conn (modify (set_handshake now2));;
         total_len ← uadd HEADER_LENGTH psize;
         mret (total_len, mkSendInfo (c_localaddr c) (c_peeraddr c))) (c1, o1)
      (λ r s, sender_ok D R all s.1 ∧ sends_from c s.1 ∧
              sent_packet (transmitted s.1 all) (take (Z.to_nat r.1) s.2))
      (λ s, sender_ok D R all s.1 ∧ sends_from c s.1)).
  { intros c1 o1 psize H1 Hsf Hps Hpk. wlp_steps. destruct (is_stopped _); [by wlp_steps|].
    apply wlp_bind, wlp_on_conn. wlp_steps. cbn [fst snd].
    split; [by apply sender_ok_handshake|]. split; [exact Hsf|].
    match goal with H : is_u64 _ → v = _ |- _ => rewrite H; [done|] end. unfold HEADER_LENGTH, is_u64 in *. lia. }
  intros ty c1 [(-> & ->)|[(-> & -> & Hdue)|[(-> & -> & Hsc)|(-> & -> & Hh)]]]; decide_types.
  - apply wlp_bind. eapply wlp_mono; [apply (send_hello_safe D R all); [frame|lia]| |done].
    intros _ [c2 o2] (H2 & Hsf & Hp). cbn [fst snd] in H2, Hsf, Hp. cbn [negb]. apply wlp_bind, wlp_ret, wlp_bind, wlp_ret,
      wlp_bind, wlp_ret. apply Hend; [done|exact Hsf|unfold u64_bound; lia|].
    left; left. exact Hp.
  - apply wlp_bind, wlp_ret, wlp_bind, wlp_ret, wlp_bind, wlp_ret, wlp_bind.
    eapply wlp_mono; [apply (send_elict_safe D R all); [done|done|lia]| |done].
    intros k [c2 o2] (H2 & Hsf & Hn & Hp). wlp_steps. cbn [fst snd] in *.
    split; [done|]. split; [done|]. left.
    match goal with H : is_u64 _ → v = _ |- _ => rewrite H; [done|] end.
    unfold HEADER_LENGTH, is_u64, u64_bound in *. lia.
  - apply wlp_bind, wlp_ret, wlp_bind, wlp_ret, wlp_bind, wlp_ret, wlp_bind.
    eapply wlp_mono; [by apply (send_application_safe D R all); [..|lia]| |done].
    intros k [c2 o2] (H2 & Hsf & Hn & Hp). apply Hend; [done|done| |by left].
    unfold SEND_BUFFER_SIZE, u64_bound in *. lia.
  - apply wlp_bind, wlp_ret, wlp_bind, wlp_ret, wlp_bind. eapply wlp_mono; [apply (sender_ack_safe D R all); [|lia]| |].
    { destruct Hok as [[] []]; split; constructor; done. }
    2:{ done. }
    intros k [c2 o2] (H2 & Hsf & Hn & Hp). apply wlp_bind, wlp_ret.
    apply Hend; [done|done|done|by right].
Qed.
End Send.

(** ** Receiving a packet *)

Definition stop_packet : list Z := Header.encode (Header.mkHeader Stop 0 0 0 0).

(** What a receiver that has the offsets [R] puts on the wire: an ACK never
    claims an offset the receiver does not have. *)
Definition receiver_packet (R : gmap Z Z) (p : list Z) : Prop :=
  p = handshake_packet ∨ p = stop_packet ∨
  (∃ pn plen mx l, is_u64 pn ∧ is_u64 plen ∧ is_u64 mx ∧
     Forall (λ e, is_u64 e.1 ∧ is_u64 e.2 ∧ (e.2 = 0 → is_Some (R !! e.1))) l ∧
     p = ack_packet pn plen mx l).

Section Receive.
Context {P : Profile} {Pe : Peer} {O : OctetsOps} {HO : OctetsSpec O}.

Lemma recv_slice_safe h body now c (Q : Z → Connection → Prop) E :
  Header.wf h → Header.ty h ≠ StartAck →
  (∀ n, wlp (recv_dispatch (Header.encode h ++ body) h now) (set_recv_count n c) Q E) →
  wlp (recv_slice (Header.encode h ++ body) now) c Q E.
Proof.
  intros Hw Ht Hd. unfold recv_slice.
  destruct (Z.eqb_spec (♯(Header.encode h ++ body)) 0) as [E0|_];
    [by apply packet_nonempty in E0|].
  wlp_steps. eapply wlp_of_Ok; [by apply parse_packet|]. apply Hd.
Qed.

(** Marking a chunk that may be forgotten. *)
Lemma mark_ok D R all o c :
  sender_ok D R all c → (∀ ch, ch ∈ all → rg_off ch = o → may_forget R c ch) →
  sender_ok D R all (set_send_buffer (mark [o] (c_send_buffer c)) c).
Proof.
  intros [[] []] Hf. split; constructor; try assumption; cbn [c_send_buffer set_send_buffer].
  - by apply mark_wf.
  - intros ch Hch. rewrite mark_kept, list_elem_of_filter.
    destruct (le_accounted0 ch Hch) as [Hk|?]; [|by right].
    destruct (decide (rg_off ch = o)) as [Heq|Hne]; [right; exact (Hf ch Hch Heq)|].
    left. split; [|done]. rewrite list_elem_of_singleton. done.
Qed.

Lemma exhausted_may_forget D R all o c ch :
  sender_ok D R all c → c_sent_dic c !! o = Some 0 → rg_off ch = o → may_forget R c ch.
Proof.
  intros [Hi _] Hz <-. right. pose proof (si_budget _ _ Hi (rg_off ch)) as Hb. rewrite Hz in Hb.
  destruct Hb as [Hb Hp]. destruct (decide (priority_of c (rg_off ch) + 1 <= transmissions c (rg_off ch)))
    as [|Hn]; [done|]. unfold wrap64, transmissions in *. pose_len.
  rewrite Z.mod_small in Hb by (unfold u64_bound; lia). lia.
Qed.

Lemma process_ack_entry_safe D R all o v w c :
  sender_ok D R all c → (v = 0 → is_Some (R !! o)) →
  wlp (process_ack_entry o v w) c (λ _ c', sender_ok D R all c') (λ _, False).
Proof.
  intros Hok Hv. unfold process_ack_entry. wlp_steps.
  apply (wlp_mono _ _ (λ _ c', sender_ok D R all c') _ (λ _, False)); [| |done].
  { destruct (c_sent_dic c !! o) as [x|] eqn:Hx; [|by wlp_steps].
    destruct (Z.eqb_spec x 0) as [->|]; [|by wlp_steps].
    apply (wlp_of_Ok _ _ _ _ tt (set_send_buffer (mark [o] (c_send_buffer c)) c)); [done|].
    apply mark_ok; [done|]. intros ch _. by eapply exhausted_may_forget. }
  intros _ c1 H1. wlp_steps.
  apply (wlp_mono _ _ (λ p c', sender_ok D R all c' ∧ (p = 0 ∧ v = 0 ∨ 1 <= p <= 3)) _ (λ _, False));
    [| |done].
  { destruct (Z.eqb_spec v 0) as [->|]; cbn [negb]; [wlp_steps; tauto|].
    eapply wlp_mono; [apply priority_calculation_safe| |done]. intros p ? (-> & _ & ?).
    split; [done|]. by right. }
  intros p c2 [H2 Hp0]. wlp_steps.
  apply (wlp_mono _ _ (λ _ c', sender_ok D R all c') _ (λ _, False)); [| |done].
  { destruct (Z.eqb_spec p 1); [by wlp_steps|]. destruct (Z.eqb_spec p 2); [by wlp_steps|].
    destruct (Z.eqb_spec p 3); [by wlp_steps|].
    destruct Hp0 as [[-> Hv0]|]; [|lia].
    wlp_steps. apply (wlp_of_Ok _ _ _ _ tt (set_send_buffer (mark [o] (c_send_buffer c2)) c2)); [done|].
    wlp_steps. apply mark_ok; [done|]. intros ch _ <-. left. auto. }
  intros w' c3 H3. wlp_steps. eapply wlp_mono; [apply priority_calculation_safe| |done].
  intros rp ? (-> & _ & _). wlp_steps.
  apply (wlp_mono _ _ (λ _ c', sender_ok D R all c') _ (λ _, False)); [| |done].
  { destruct (_ && _); wlp_steps; [frame|done]. }
  intros _ c4 H4. by wlp_steps.
Qed.

Lemma process_entries_safe D R all l w c :
  sender_ok D R all c → Forall (λ e, e.2 = 0 → is_Some (R !! e.1)) l →
  wlp (process_entries l w) c (λ _ c', sender_ok D R all c') (λ _, False).
Proof.
  intros Hok Hl. revert w c Hok. induction Hl as [|e l He Hl IH]; intros w c Hok; cbn [process_entries].
  - by wlp_steps.
  - wlp_steps. eapply wlp_mono; [by apply (process_ack_entry_safe D R all)| |done].
    intros w' c' H'. by apply IH.
Qed.

Lemma sender_ok_recovery D R all r' c :
  sender_ok D R all c → former_win_vecter r' = former_win_vecter (c_recovery c) →
  sender_ok D R all (set_recovery r' c).
Proof.
  intros [[] []] Hr. split; constructor; try assumption. cbn. by rewrite Hr.
Qed.

Lemma process_ack_safe D R all h mx l c :
  sender_ok D R all c → is_u64 mx →
  Forall (λ e, is_u64 e.1 ∧ is_u64 e.2 ∧ (e.2 = 0 → is_Some (R !! e.1))) l →
  wlp (process_ack (Header.encode h ++ be_bytes 8 mx ++ enc_pairs l)) c
    (λ _ c', sender_ok D R all c') (λ _, False).
Proof.
  intros Hok Hmx Hl. unfold process_ack. rewrite packet_body. wlp_steps.
  match goal with H : Some _ = Some _ |- _ => apply (inj Some) in H as <- end.
  eapply wlp_of_Ok; [exact (be_u64_at_app [] mx (enc_pairs l) c 0 Hmx eq_refl)|]. wlp_steps.
  apply (wlp_mono _ _ (λ _ c', sender_ok D R all c') _ (λ _, False)); [| |done].
  { destruct (_ <? _); wlp_steps; [frame|done]. }
  intros _ c1 H1. wlp_steps. replace 8 with (♯(be_bytes 8 mx)) at 2 by zlia.
  eapply (wlp_of_eq _ (process_entries l (S754_zero false)) _ c1).
  { apply process_ack_loop_entries.
    - eapply Forall_impl; [exact Hl|]. by intros ? (? & ? & _).
    - rewrite length_app. pose proof (zlen_enc_pairs l). unfold zlen in *. lia. }
  eapply wlp_mono; [apply (process_entries_safe D R all); [done|]| |done].
  { eapply Forall_impl; [exact Hl|]. by intros ? (_ & _ & ?). }
  intros w c2 H2. unfold on_recovery. apply wlp_zoom.
  eapply wlp_mono; [apply update_win_safe| |done]. intros [] r' Hr'. by apply sender_ok_recovery.
Qed.

Lemma sender_recv_safe D R all p now c :
  sender_ok D R all c → receiver_packet R p →
  wlp (recv_slice p now) c (λ _ c', sender_ok D R all c') (λ c', sender_ok D R all c').
Proof.
  intros Hok Hp. destruct (si_role _ _ (proj1 Hok)) as [Hs _].
  assert (Hok' : ∀ n, sender_ok D R all (set_recv_count n c))
    by (intros; by apply sender_ok_recv_count).
  destruct Hp as [->|[->|(pn & plen & mx & l & H1 & H2 & H3 & Hl & ->)]].
  - unfold handshake_packet. rewrite <-(app_nil_r (Header.encode _)).
    apply recv_slice_safe; [by apply control_hdr_wf; apply zero_u64|done|]. intros n.
    unfold recv_dispatch. wlp_steps. cbn [Header.ty c_is_server set_recv_count].
    decide_types. rewrite Hs. cbn [negb]. wlp_steps. unfold update_rtt. wlp_steps.
    destruct (_ =? 0); wlp_steps; [specialize (Hok' n); frame|].
    unfold duration_checked. destruct (_ <? _); wlp_steps; specialize (Hok' n); frame.
  - unfold stop_packet. rewrite <-(app_nil_r (Header.encode _)).
    apply recv_slice_safe; [by apply control_hdr_wf; apply zero_u64|done|]. intros n.
    eapply (wlp_of_eq _ (fail Stopped)); [by apply recv_dispatch_stop|]. by wlp_steps.
  - unfold ack_packet. apply recv_slice_safe; [by apply control_hdr_wf|done|]. intros n.
    eapply wlp_of_eq; [by apply recv_dispatch_ack|]. wlp_steps.
    eapply wlp_mono; [by apply (process_ack_safe D R all)| |done]. intros [] c' H'. by wlp_steps.
Qed.
End Receive.

(** *** What receiving a packet leaves alone *)

(** The buffered chunks, the packets sent and the priorities are the same. *)
Definition keeps (c c' : Connection) : Prop :=
  sb_data (c_send_buffer c') = sb_data (c_send_buffer c) ∧ same_rules c c' ∧
  c_sent_pkt c' = c_sent_pkt c.

#[export] Instance keeps_refl : Reflexive keeps.
Proof. intros c. by repeat split. Qed.
#[export] Instance keeps_trans : Transitive keeps.
Proof.
  intros a b c (A1 & (A2 & A3 & A4) & A5) (B1 & (B2 & B3 & B4) & B5).
  repeat split; congruence.
Qed.

Section Keeps.
Context {P : Profile} {O : OctetsOps}.

(** A computation that keeps what its first state has. *)
Abbreviation keeping m c := (wlp m c (λ _ c', keeps c c') (λ c', keeps c c')).

Lemma keeping_bind {A B} (m : M Connection A) (k : A → M Connection B) c :
  keeping m c → (∀ a c', keeps c c' → keeping (k a) c') → keeping (m ≫= k) c.
Proof.
  intros Hm Hk. apply wlp_bind. eapply wlp_mono; [exact Hm| |done].
  intros a c' Hc. eapply wlp_mono; [by apply Hk|idtac|idtac]; cbv beta; [intros b c2 H2|intros c2 H2]; exact (keeps_trans _ _ _ Hc H2).
Qed.

Lemma process_ack_entry_keeps o v w c : keeping (process_ack_entry o v w) c.
Proof.
  assert (Hprio : ∀ c, keeping (priority_calculation o) c).
  { intros c'. eapply wlp_mono; [apply priority_calculation_safe| |done]. by intros ? ? (-> & _). }
  assert (Hmark : ∀ c, keeping (on_send_buffer (ack_and_drop o)) c) by done.
  unfold process_ack_entry. apply wlp_bind, wlp_get. apply keeping_bind.
  { destruct (_ !! _); [destruct (_ =? _)|]; [apply Hmark|wlp_steps|wlp_steps]; reflexivity. }
  intros _ c1 _. apply keeping_bind; [destruct (negb _); [apply Hprio|by wlp_steps]|].
  intros p c2 _. apply keeping_bind.
  { destruct (p =? 1); [by wlp_steps|]. destruct (p =? 2); [by wlp_steps|].
    destruct (p =? 3); by wlp_steps. }
  intros w' c3 _. apply keeping_bind; [apply Hprio|]. intros rp c4 _. apply keeping_bind.
  { destruct (_ && _); by wlp_steps. }
  intros _ c5 _. by wlp_steps.
Qed.

Lemma be_u64_at_same {S} l a b (s : S) : wlp (be_u64_at l a b) s (λ _ s', s' = s) (λ _, False).
Proof. unfold be_u64_at. by wlp_steps. Qed.

Lemma process_ack_loop_keeps fuel l start w c : keeping (process_ack_loop fuel l start w) c.
Proof.
  revert start w c. induction fuel as [|fuel IH]; intros start w c; cbn [process_ack_loop];
    [by wlp_steps|]. destruct (negb _); [by wlp_steps|].
  apply wlp_bind. eapply wlp_mono; [apply be_u64_at_same| |done]. intros u ? ->.
  apply wlp_bind. eapply wlp_mono; [apply be_u64_at_same| |done]. intros v ? ->.
  apply keeping_bind; [apply process_ack_entry_keeps|]. intros w' c' _. apply IH.
Qed.

Lemma check_loss_keeps fuel b c : keeping (check_loss_loop fuel b) c.
Proof.
  revert b c. induction fuel as [|fuel IH]; intros b c; cbn [check_loss_loop]; [by wlp_steps|].
  destruct (negb _); [by wlp_steps|].
  apply wlp_bind, wlp_local, wlp_unwrap. unfold wlp at 1. destruct (get_u64 b) as [o b'| |]; [|done|done].
  apply wlp_bind, wlp_get. apply keeping_bind; [destruct (bool_decide _); by wlp_steps|].
  intros _ c' _. apply IH.
Qed.

Lemma recv_slice_keeps p now c : keeping (recv_slice p now) c.
Proof.
  unfold recv_slice. destruct (_ =? 0); [by wlp_steps|]. wlp_steps.
  unfold Header.from_slice. wlp_steps.
  unfold wlp at 1. destruct (Header.from_bytes _) as [hdr o| |]; [|done|done].
  cbv beta. change (keeping (recv_dispatch p hdr now) (set_recv_count v c)). cbn [fst].
  set (c0 := set_recv_count v c). unfold recv_dispatch.
  apply wlp_bind, wlp_get.
  apply keeping_bind.
  { destruct (_ && _); [|by wlp_steps]. unfold update_rtt, duration_checked. wlp_steps.
    destruct (_ =? 0); wlp_steps; [done|]. destruct (_ <? _); by wlp_steps. }
  intros _ c1 _. apply keeping_bind; [destruct (_ && _); by wlp_steps|].
  intros _ c2 _. apply keeping_bind.
  { destruct (_ && _); [|by wlp_steps]. unfold process_ack. wlp_steps.
    eapply wlp_mono; [apply be_u64_at_same| |done]. intros mx ? ->.
    apply wlp_bind, wlp_get. apply keeping_bind; [destruct (_ <? _); by wlp_steps|]. intros _ c3 _.
    apply keeping_bind; [apply process_ack_loop_keeps|]. intros w c4 _. unfold on_recovery.
    apply wlp_zoom. eapply wlp_mono; [apply update_win_safe| |done]. by intros. }
  intros _ c3 _. apply keeping_bind.
  { destruct (bool_decide _); [|by wlp_steps]. unfold recv_elict. wlp_steps.
    eapply wlp_mono; [apply be_u64_at_same| |done]. intros n ? ->. wlp_steps.
    eapply wlp_mono; [apply check_loss_keeps|..]; [|by intros].
    intros [] c4 Hc. wlp_steps. exact Hc. }
  intros _ c4 _. apply keeping_bind.
  { destruct (bool_decide _); [|by wlp_steps]. unfold recv_application. wlp_steps.
    unfold on_rec_buffer. apply wlp_zoom. unfold wlp at 1.
    destruct (RecvBuf.write _ _ _); [|done|done]. by wlp_steps. }
  intros n c5 _. destruct (bool_decide _); by wlp_steps.
Qed.
End Keeps.

(** Between the two ends of a transfer. *)
#[export] Instance honest_peer : Peer := {| honest := true |}.
