(* ===== verification/Receiver.v ===== *)
(** * Receiver: the invariant of the receiving end

    What holds of a receiving [Connection] while it is sent the chunks [all]:
    everything in its receive buffer is one of those chunks, byte for byte, it
    has recorded only offsets of such chunks, and the verdicts it is about to
    acknowledge are true.  Every method keeps this, in every build profile, and
    the receiver never emits anything but handshakes, ACKs and [Stop]. *)
From Stdlib Require Import SpecFloat.
From S2P Require Import Prelude Effects Octets Packet OMap SoftFloat RangeBuf RecvBuf SendBuf Recovery Connection AckPath DataPath Sender.

(** A stored chunk is one of those the sender wrote. *)
Definition is_copy (all : list RangeBuf) (b : RangeBuf) : Prop :=
  ∃ ch, ch ∈ all ∧ rg_off b = rg_off ch ∧ rg_data b = rg_data ch.

Record receiver_inv (all : list RangeBuf) (r : Connection) : Prop := {
  ri_role : c_is_server r = false ∧ c_server r = false;
  ri_rtt : c_rtt r = 0;
  ri_count : c_sent_count r = 0;
  ri_stop : c_stop_flag r = false;
  ri_idle : sb_data (c_send_buffer r) = [];
  ri_got o : is_Some (c_recv_dic r !! o) → ∃ ch, ch ∈ all ∧ rg_off ch = o;
  ri_buffer : Forall (λ e, is_copy all e.2) (rb_data (c_rec_buffer r));
  ri_verdicts : map_Forall (λ o v, is_u64 o ∧ is_u64 v ∧ (v = 0 → is_Some (c_recv_dic r !! o)))
                  (c_recv_hashmap r);
  ri_num : is_u64 (c_send_num r);
  ri_max : is_u64 (max_ack r);
}.

(** The receiver keeps its invariant and forgets no offset. *)
Definition receiver_to (all : list RangeBuf) (r r' : Connection) : Prop :=
  receiver_inv all r' ∧ ∀ o, is_Some (c_recv_dic r !! o) → is_Some (c_recv_dic r' !! o).

Ltac rframe := match goal with
  | H : receiver_inv _ ?r |- receiver_inv _ _ => destruct H; constructor; assumption
  end.

Lemma receiver_inv_mono all all' r :
  (∀ ch, ch ∈ all → ch ∈ all') → receiver_inv all r → receiver_inv all' r.
Proof.
  intros Hsub []. constructor; try assumption.
  - intros o Ho. destruct (ri_got0 o Ho) as (ch & ? & ?). exists ch. auto.
  - eapply Forall_impl; [exact ri_buffer0|]. intros e (ch & ? & ?). exists ch. auto.
Qed.

Lemma sender_packet_mono all all' p :
  (∀ ch, ch ∈ all → ch ∈ all') → sender_packet all p → sender_packet all' p.
Proof.
  intros Hsub [?|[?|(pn & prio & ch & ? & ? & ? & ?)]]; [by left|right; by left|].
  right; right. exists pn, prio, ch. auto.
Qed.

(** Sending more packets or writing more chunks only adds transmitted chunks. *)
Lemma transmitted_refill new c c' all ch :
  c_sent_pkt c' = c_sent_pkt c → ch ∈ transmitted c all → ch ∈ transmitted c' (all ++ new).
Proof.
  unfold transmitted. intros E. rewrite E, !list_elem_of_filter, elem_of_app. tauto.
Qed.
Lemma transmitted_send c c' all ch :
  sends_from c c' → ch ∈ transmitted c all → ch ∈ transmitted c' all.
Proof.
  unfold transmitted. rewrite !list_elem_of_filter. intros (_ & _ & [E|(x & _ & E)]) [? ?];
    (split; [|done]); rewrite E, ?elem_of_app; auto.
Qed.

Lemma receiver_packet_mono (R R' : gmap Z Z) p :
  (∀ o, is_Some (R !! o) → is_Some (R' !! o)) → receiver_packet R p → receiver_packet R' p.
Proof.
  intros HR [?|[?|(pn & plen & mx & l & ? & ? & ? & Hl & ?)]]; [by left|right; by left|].
  right; right. exists pn, plen, mx, l. do 3 (split; [done|]). split; [|done].
  eapply Forall_impl; [exact Hl|]. intros e (? & ? & ?). auto.
Qed.

Section Receive.
Context {P : Profile} {O : OctetsOps} {HO : OctetsSpec O}.

(** Recording the verdicts on the offsets an [ElictAck] names. *)
Lemma verdicts_ok all os r n :
  receiver_inv all r → Forall is_u64 os → is_u64 n →
  receiver_inv all (set_recv_hashmap (verdicts r os (c_recv_hashmap r)) (set_send_num n r)).
Proof.
  intros [] Hos Hn. constructor; try assumption. cbn. intros o v. rewrite verdicts_lookup.
  case_bool_decide as Hin; [|by apply ri_verdicts0]. intros [= <-].
  rewrite Forall_forall in Hos. split; [by apply Hos|]. split; [apply verdict_u64|].
  unfold verdict. by case_bool_decide.
Qed.

Lemma recv_elict_safe all pn plen os r n now :
  receiver_inv all r → is_u64 pn → is_u64 plen → Forall is_u64 os →
  wlp (recv_dispatch (elict_packet pn plen os) (Header.mkHeader ElictAck pn 0 0 plen) now)
    (set_recv_count n r) (λ _ r', receiver_to all r r') (λ r', receiver_to all r r').
Proof.
  intros Hr Hpn Hpl Hos. eapply wlp_of_eq; [by apply recv_dispatch_elict|].
  unfold recv_elict. wlp_steps. unfold elict_packet.
  eapply wlp_of_Ok; [apply (packet_num_field (Header.mkHeader ElictAck pn 0 0 plen) _ _ Hpn)|].
  rewrite packet_body. wlp_steps.
  match goal with H : Some _ = Some _ |- _ => apply (inj Some) in H as <- end.
  eapply wlp_of_Ok; [by apply check_loss_Ok|]. wlp_steps. split; [|done].
  apply (verdicts_ok all os r pn) in Hr; [|done|done]. rframe.
Qed.

(** Storing a chunk. *)
Lemma stored_ok all ch prio r :
  receiver_inv all r → ch ∈ all → is_u64 (rg_off ch) →
  ∀ rb', rb_data rb' = om_insert (rg_off ch + ♯(rg_data ch)) (from (rg_data ch) (rg_off ch))
                         (rb_data (c_rec_buffer r)) → is_u64 (rb_max_recv_off rb') →
  receiver_to all r
    (set_recv_dic (<[rg_off ch := prio]> (c_recv_dic r)) (set_rec_buffer rb' r)).
Proof.
  intros [] Hin Hu rb' Hrb Hm.
  assert (Hgrow : ∀ o, is_Some (c_recv_dic r !! o) →
    is_Some (<[rg_off ch := prio]> (c_recv_dic r) !! o)).
  { intros o Ho. destruct (decide (rg_off ch = o)) as [->|]; [by rewrite lookup_insert_eq|].
    by rewrite lookup_insert_ne. }
  split; [|done]. constructor; try assumption.
  - cbn. intros o Ho. destruct (decide (rg_off ch = o)) as [<-|]; [by exists ch|].
    rewrite lookup_insert_ne in Ho by done. auto.
  - cbn. rewrite Hrb. apply om_Forall_insert; [|done]. by exists ch.
  - cbn. intros o v Hov. destruct (ri_verdicts0 o v Hov) as (? & ? & ?). auto.
Qed.

Lemma recv_data_safe all pn prio ch r n now :
  receiver_inv all r → ch ∈ all → chunk_ok ch →
  wlp (recv_dispatch (data_packet pn prio (rg_off ch) (rg_data ch))
         (Header.mkHeader Application pn prio (rg_off ch) (♯(rg_data ch))) now)
    (set_recv_count n r) (λ _ r', receiver_to all r r') (λ r', receiver_to all r r').
Proof.
  intros Hr Hin [[(_ & _ & Hl & Ho & Hb) _] Hsz].
  eapply wlp_of_eq; [by apply recv_dispatch_application|].
  unfold recv_application. wlp_steps.
  match goal with H : slice_from _ _ = Some _ |- _ =>
    unfold data_packet in H; rewrite packet_body in H; apply (inj Some) in H as <- end.
  unfold on_rec_buffer. apply wlp_zoom. cbn [c_rec_buffer set_recv_count Header.offset].
  eapply wlp_of_Ok; [apply recv_write_Ok; lia|]. wlp_steps.
  set (rb' := set_rb_data _ _).
  assert (Hr1 : receiver_inv all (set_recv_count v (set_recv_count n r))) by rframe.
  apply (stored_ok all ch prio _ Hr1 Hin ltac:(unfold is_u64; lia) rb').
  - done.
  - unfold rb'. cbn. pose proof (ri_max _ _ Hr) as Hm. unfold max_ack, RecvBuf.max_ack in Hm.
    destruct (last _) as [[k b]|]; [|done]. destruct (k =? _); [|done]. cbn. unfold is_u64. lia.
Qed.

Lemma receiver_recv_safe all p now r :
  receiver_inv all r → Forall chunk_ok all → sender_packet all p →
  wlp (recv_slice p now) r (λ _ r', receiver_to all r r') (λ r', receiver_to all r r').
Proof.
  intros Hr Hall [->|[(pn & os & Hpn & Hos & Hlen & ->)|(pn & prio & ch & Hpn & Hpr & Hin & ->)]].
  - unfold handshake_packet. rewrite <-(app_nil_r (Header.encode _)).
    apply recv_slice_safe; [by apply control_hdr_wf; apply zero_u64|done|]. intros n.
    unfold recv_dispatch. wlp_steps. cbn [Header.ty c_is_server set_recv_count].
    decide_types. rewrite (proj1 (ri_role _ _ Hr)). cbn [negb]. wlp_steps.
    split; [rframe|done].
  - assert (Hpl : is_u64 (8 * ♯os)) by (unfold is_u64, u64_bound, zlen; lia).
    apply recv_slice_safe; [by apply control_hdr_wf|done|]. intros n. by apply recv_elict_safe.
  - rewrite Forall_forall in Hall. pose proof (Hall ch Hin) as Hck.
    pose proof Hck as [[(_ & _ & Hl & Ho & Hb) _] Hsz].
    apply recv_slice_safe; [|done|].
    + split; [done|]. split; [done|]. cbn. unfold is_u64. lia.
    + intros n. by apply recv_data_safe.
Qed.

(** Reading only removes chunks or advances their read position. *)
Lemma emit_loop_copies all es cap len out r :
  Forall (λ e, is_copy all e.2) es → rb_data r = es →
  wlp (RecvBuf.emit_loop es cap len out) r
    (λ _ r', Forall (λ e, is_copy all e.2) (rb_data r') ∧ rb_max_recv_off r' = rb_max_recv_off r)
    (λ _, False).
Proof.
  intros Hes. revert cap len out r. induction Hes as [|[k b] es Hb Hes IH]; intros cap len out r Hr;
    cbn [RecvBuf.emit_loop]; [wlp_steps; by rewrite Hr|].
  assert (Hall : Forall (λ e, is_copy all e.2) (rb_data r)) by (rewrite Hr; by constructor).
  destruct (negb _); [by wlp_steps|].
  unfold RangeBuf.max_off, RangeBuf.off, RangeBuf.len. wlp_steps.
  apply (wlp_mono _ _ (λ _ r', r' = r) _ (λ _, False)); [by destruct (negb _); wlp_steps| |done].
  intros z ? ->. destruct (z <? cap); [|destruct (z =? cap); by wlp_steps].
  wlp_steps. destruct (_ <? _).
  - wlp_steps. unfold consume. wlp_steps. split; [|done]. constructor; [|done]. exact Hb.
  - wlp_steps. eapply wlp_mono; [by apply IH| |done]. intros [? ?] r' [? Hm]. by rewrite Hm.
Qed.

Lemma receiver_read_safe all out r :
  receiver_inv all r →
  wlp (read out) r (λ _ r', receiver_to all r r') (λ r', receiver_to all r r').
Proof.
  intros Hr. unfold read, on_rec_buffer, RecvBuf.emit. wlp_steps.
  destruct (negb _).
  - wlp_steps. split; [|done]. replace (set_rec_buffer _ r) with r by by destruct r. done.
  - eapply wlp_mono; [apply (emit_loop_copies all); [apply (ri_buffer _ _ Hr)|done]| |done].
    intros [? ?] rb' [Hc Hm]. split; [|done]. pose proof (ri_max _ _ Hr) as Hmax. destruct Hr.
    constructor; try assumption. unfold max_ack, RecvBuf.max_ack in *. cbn. by rewrite Hm.
Qed.
End Receive.

(** ** Sending *)

Section Send.
Context {P : Profile} {O : OctetsOps} {HO : OctetsSpec O} {HI : HashOrder} {HIS : HashOrderSpec HI}.

Lemma acked_entries_ok all r :
  receiver_inv all r →
  Forall (λ e, is_u64 e.1 ∧ is_u64 e.2 ∧ (e.2 = 0 → is_Some (c_recv_dic r !! e.1)))
    (hash_iter (c_recv_hashmap r)).
Proof.
  intros Hr. apply Forall_forall. intros [o v] Hin. apply hash_iter_elem in Hin.
  exact (ri_verdicts _ _ Hr o v Hin).
Qed.

Lemma send_ack_safe all r out :
  receiver_inv all r → 34 <= ♯out < u64_bound →
  wlp send_ack_packet (r, out)
    (λ n s, receiver_inv all s.1 ∧ c_recv_dic s.1 = c_recv_dic r ∧ 0 <= n < u64_bound - 26 ∧
            receiver_packet (c_recv_dic r) (take (Z.to_nat (26 + n)) s.2))
    (λ s, receiver_inv all s.1 ∧ c_recv_dic s.1 = c_recv_dic r).
Proof.
  intros Hr Ho. unfold send_ack_packet. wlp_steps. apply wlp_on_conn. wlp_steps. cbn [fst snd].
  cbn [c_recv_hashmap c_send_num set_feed_back]. rename v into n1, v0 into n2, v1 into psize.
  set (l := hash_iter (c_recv_hashmap r)).
  assert (Hl : Z.of_nat (size (c_recv_hashmap r)) = ♯l) by (unfold zlen, l; by rewrite hash_iter_length).
  unfold on_out. apply wlp_zoom. cbn [fst snd].
  eapply wlp_mono; [apply ack_body_fits; lia| |].
  2:{ intros o' _. cbn. split; [rframe|done]. }
  intros [] o' [Hf Hb]. wlp_steps. apply wlp_on_conn. wlp_steps. cbn [fst snd]. rewrite Hb.
  assert (Hps : psize = 16 * ♯l + 8).
  { cbn [fst c_recv_hashmap set_feed_back] in *. rewrite Hl in *. pose_len.
    repeat match goal with H : is_u64 ?x → _ = ?x |- _ => specialize (H ltac:(unfold is_u64; lia)) end. lia. }
  split; [|split; [done|split; [pose_len; lia|]]].
  - destruct Hr; constructor; try assumption. apply map_Forall_empty.
  - right; right. exists (c_send_num r), psize, (max_ack (set_feed_back false r)), l.
    split; [apply (ri_num _ _ Hr)|]. split; [done|]. split; [apply (ri_max _ _ Hr)|].
    split; [by apply (acked_entries_ok all)|]. apply take_packet. rewrite Hps. unfold ack_packet. zlia.
Qed.

Lemma receiver_send_safe all r out now1 now2 :
  receiver_inv all r → 34 <= ♯out < u64_bound →
  wlp (send_data now1 now2) (r, out)
    (λ res s, receiver_to all r s.1 ∧
       receiver_packet (c_recv_dic s.1) (take (Z.to_nat res.1) s.2))
    (λ s, receiver_to all r s.1).
Proof.
  intros Hr Ho. destruct (ri_role _ _ Hr) as [R1 R2].
  assert (Hsame : ∀ r', receiver_inv all r' → c_recv_dic r' = c_recv_dic r → receiver_to all r r').
  { intros r' H' E. split; [done|]. by rewrite E. }
  unfold send_data, send_stop_packet, finish_send. wlp_steps. cbn [snd fst]. destruct (Z.eqb_spec (♯out) 0); [wlp_steps; by apply Hsame|].
  apply wlp_bind, wlp_on_conn. unfold write_pkt_type. wlp_steps.
  rewrite R1, R2, (ri_rtt _ _ Hr), (ri_count _ _ Hr), (ri_stop _ _ Hr). cbn [andb negb orb Z.eqb].
  unfold SendBuf.is_empty. rewrite (ri_idle _ _ Hr).
  destruct (c_handshake_confirmed r); cbn [andb negb]; change (0 mod ELICT_FLAG =? 0) with true;
    change (0 <? 0) with false; cbn [andb orb].
  - destruct (c_recv_flag r); wlp_steps; decide_types.
    + wlp_steps. assert (Hr1 : receiver_inv all (set_recv_flag false r)) by rframe.
      eapply wlp_mono; [by apply (send_ack_safe all)| |].
      2:{ intros s [? ?]. by apply Hsame. }
      intros k [r2 o2] (H2 & E2 & Hk & Hp). cbn [fst snd] in *.
      wlp_steps. cbn [fst]. destruct (is_stopped r2); [wlp_steps; by apply Hsame|].
      apply wlp_bind, wlp_on_conn. wlp_steps. cbn [fst snd].
      split; [apply Hsame; [rframe|done]|]. cbn. rewrite E2.
      match goal with H : is_u64 _ → v = _ |- _ => rewrite H; [done|] end.
      unfold HEADER_LENGTH, is_u64. lia.
    + wlp_steps. destruct (Header.to_bytes_at _ _ _ _ (control_hdr_wf Stop 0 0 zero_u64 zero_u64)
        (at_cursor_with_slice out)) as (o' & E & C); [unfold zlen in *; lia|].
      unfold put_header, on_out. apply wlp_zoom. cbn [fst snd].
      eapply wlp_of_Ok; [exact E|]. wlp_steps. cbn [fst snd]. split; [by apply Hsame|].
      rewrite (at_cursor_buf _ _ _ C), app_nil_l. right; left. apply take_packet. rewrite H1; done.
  - wlp_steps. decide_types. wlp_steps.
    destruct (handshake_bytes out ltac:(lia)) as (o' & E & Hb).
    unfold send_handshake_client, put_header, on_out. wlp_steps. cbn [fst snd].
    eapply wlp_of_Ok; [exact E|]. apply wlp_on_conn. wlp_steps. cbn [fst snd].
    unfold is_stopped. cbn [c_stop_flag set_feed_back set_handshake_confirmed].
    rewrite (ri_stop _ _ Hr). cbn [andb]. apply wlp_bind, wlp_on_conn. wlp_steps. cbn [fst snd].
    split; [apply Hsame; [rframe|done]|]. rewrite Hb. left. apply take_packet.
    match goal with H : is_u64 _ → v = _ |- _ => rewrite H; done end.
Qed.
End Send.
