(* ===== verification/System.v ===== *)
(** * System: a sender, a receiver and the network between them

    The two connections run their methods in any order; every packet that was
    sent stays in the network and may be delivered any number of times, in any
    order, or never.  A step is a call that returns: with [Ok], or with an error
    after which the endpoint goes on.  The theorems hold in every reachable
    state, for every build profile and every iteration order of the hash maps. *)
From Stdlib Require Import SpecFloat.
From S2P Require Import Prelude Effects Octets Packet OMap SoftFloat RangeBuf RecvBuf SendBuf Recovery Connection AckPath DataPath Sender Receiver.

Record System := mkSystem {
  sys_sender : Connection;
  sys_receiver : Connection;
  sys_down : list (list Z);   (** packets to the receiver *)
  sys_up : list (list Z);     (** packets to the sender *)
}.

(** The buffers handed to [send_data] have room for a full data packet. *)
Definition datagram (out : list Z) : Prop := 26 + SEND_BUFFER_SIZE <= ♯out < u64_bound.

Section Steps.
Context {P : Profile} {O : OctetsOps} {HI : HashOrder}.

Inductive step : System → System → Prop :=
| sender_refills now more s s' r down up :
    send_all now s = Ok more s' →
    step (mkSystem s r down up) (mkSystem s' r down up)
| sender_sends out t1 t2 n info s s' out' r down up :
    datagram out → send_data t1 t2 (s, out) = Ok (n, info) (s', out') →
    step (mkSystem s r down up) (mkSystem s' r (down ++ [take (Z.to_nat n) out']) up)
| sender_has_nothing out t1 t2 e s s' out' r down up :
    datagram out → send_data t1 t2 (s, out) = Err e (s', out') →
    step (mkSystem s r down up) (mkSystem s' r down up)
| sender_receives p now s s' r down up :
    p ∈ up → leaves (recv_slice p now) s s' →
    step (mkSystem s r down up) (mkSystem s' r down up)
| receiver_sends out t1 t2 n info s r r' out' down up :
    datagram out → send_data t1 t2 (r, out) = Ok (n, info) (r', out') →
    step (mkSystem s r down up) (mkSystem s r' down (up ++ [take (Z.to_nat n) out']))
| receiver_has_nothing out t1 t2 e s r r' out' down up :
    datagram out → send_data t1 t2 (r, out) = Err e (r', out') →
    step (mkSystem s r down up) (mkSystem s r' down up)
| receiver_receives p now s r r' down up :
    p ∈ down → leaves (recv_slice p now) r r' →
    step (mkSystem s r down up) (mkSystem s r' down up)
| receiver_reads out s r r' down up :
    leaves (read out) r r' →
    step (mkSystem s r down up) (mkSystem s r' down up).

(** A sender loaded with [D], its block norms and split points, and a fresh
    receiver; nothing on the wire. *)
Inductive starts (D : list Z) : System → Prop :=
| starts_with here there rec_s rec_r now_s now_r norms low high :
    ♯D < u64_bound → former_win_vecter rec_s = [] →
    starts D (mkSystem
      (set_send_data D (set_norm2_vec norms (set_low_split_point low (set_high_split_point high
        (initial here there rec_s true now_s)))))
      (initial there here rec_r false now_r) [] []).

Definition reachable (D : list Z) (st : System) : Prop := ∃ st0, starts D st0 ∧ rtc step st0 st.
End Steps.

(** ** The invariant of the system *)

(** [all] is the ledger of the chunks written so far; what is on the wire or at
    the receiver are transmitted ones. *)
Record sys_ok (D : list Z) (all : list RangeBuf) (st : System) : Prop := {
  so_sender : sender_ok D (c_recv_dic (sys_receiver st)) all (sys_sender st);
  so_receiver : receiver_inv (transmitted (sys_sender st) all) (sys_receiver st);
  so_down : Forall (sender_packet (transmitted (sys_sender st) all)) (sys_down st);
  so_up : Forall (receiver_packet (c_recv_dic (sys_receiver st))) (sys_up st);
}.

(** How a step changes the parts of the state a transfer is about: the sender
    refills, sends or stays, or the receiver gets to have more offsets. *)
Inductive effect (all : list RangeBuf) (st st' : System) : list RangeBuf → Prop :=
| refilling new :
    refills new (sys_sender st) (sys_sender st') →
    c_recv_dic (sys_receiver st') = c_recv_dic (sys_receiver st) → effect all st st' (all ++ new)
| sending :
    sends_from (sys_sender st) (sys_sender st') →
    c_recv_dic (sys_receiver st') = c_recv_dic (sys_receiver st) → effect all st st' all
| delivering :
    sys_sender st' = sys_sender st →
    (∀ o, is_Some (c_recv_dic (sys_receiver st) !! o) →
          is_Some (c_recv_dic (sys_receiver st') !! o)) → effect all st st' all.

Section Invariant.
Context {P : Profile} {O : OctetsOps} {HO : OctetsSpec O} {HI : HashOrder} {HIS : HashOrderSpec HI}.

Lemma starts_ok D st : starts D st → sys_ok D [] st.
Proof.
  intros [here there rec_s rec_r ns nr norms low high HD Hh].
  assert (0 <= ♯D) by zlia.
  constructor; [| |done|done].
  - split; constructor; try done; cbn; try (rewrite Hh; constructor); try lia.
    by intros ch Hch%elem_of_nil.
  - constructor; try done; cbn; try (by intros ? []); vm_compute; split; congruence.
Qed.

(** The receiver took a step: the offsets it has only grow. *)
Lemma receiver_step_ok D all s r r' down up up' :
  sys_ok D all (mkSystem s r down up) → receiver_to (transmitted s all) r r' →
  Forall (receiver_packet (c_recv_dic r')) up' →
  sys_ok D all (mkSystem s r' down (up ++ up')) ∧
  effect all (mkSystem s r down up) (mkSystem s r' down (up ++ up')) all.
Proof.
  intros [Hs Hr0 Hd Hu] [Hr Hgrow] Hu'. cbn in *. split; [|by apply delivering].
  constructor; cbn; [by eapply sender_ok_weaken|done|done|].
  apply Forall_app. split; [|done]. eapply Forall_impl; [exact Hu|].
  intros p Hp. by eapply receiver_packet_mono.
Qed.

(** The sender took a step that adds transmitted chunks and the packets [new]. *)
Lemma sender_step_ok D all all' s s' r down up new :
  sys_ok D all (mkSystem s r down up) → sender_ok D (c_recv_dic r) all' s' →
  (∀ ch, ch ∈ transmitted s all → ch ∈ transmitted s' all') →
  Forall (sender_packet (transmitted s' all')) new →
  sys_ok D all' (mkSystem s' r (down ++ new) up).
Proof.
  intros [Hs Hr Hd Hu] Hs' Hsub Hnew. cbn in *. constructor; cbn; [done| | |done].
  - by eapply receiver_inv_mono.
  - apply Forall_app. split; [|done]. eapply Forall_impl; [exact Hd|]. intros p.
    by apply sender_packet_mono.
Qed.

Lemma transmitted_ok D R all c : sender_ok D R all c → Forall chunk_ok (transmitted c all).
Proof.
  intros [_ L]. apply Forall_filter_2. eapply Forall_impl; [apply (le_chunks _ _ _ _ L)|].
  by intros ? [? _].
Qed.

Lemma step_ok D all st st' :
  step st st' → sys_ok D all st → ∃ all', sys_ok D all' st' ∧ effect all st st' all'.
Proof.
  intros Hst Hok. pose proof Hok as [Hs Hr Hd Hu]. pose proof (transmitted_ok _ _ _ _ Hs) as Hck.
  destruct Hst as [now more s s' r down up E|out t1 t2 n info s s' out' r down up Ho E
    |out t1 t2 e s s' out' r down up Ho E|p now s s' r down up Hp E
    |out t1 t2 n info s r r' out' down up Ho E|out t1 t2 e s r r' out' down up Ho E
    |p now s r r' down up Hp E|out s r r' down up E]; cbn [sys_sender sys_receiver sys_down sys_up] in *.
  - destruct (wlp_Ok_inv _ _ _ _ _ _ (send_all_safe D _ all now s Hs) E) as (new & Hs' & Href & _).
    exists (all ++ new). split; [|by apply refilling]. rewrite <-(app_nil_r down).
    eapply sender_step_ok; [done|done| |done]. intros ch. apply transmitted_refill, Href.
  - destruct (wlp_Ok_inv _ _ _ _ _ _ (send_data_safe D _ all s out t1 t2 Hs Ho) E)
      as (Hs' & Hsf & [Hp|[[=] _]]). exists all. split; [|by apply sending].
    eapply sender_step_ok; [done|done| |by apply Forall_singleton]. intros ch. by apply transmitted_send.
  - destruct (wlp_Err_inv _ _ _ _ _ _ (send_data_safe D _ all s out t1 t2 Hs Ho) E)
      as [Hs' Hsf]. exists all. split; [|by apply sending]. rewrite <-(app_nil_r down).
    eapply sender_step_ok; [done|done| |done]. intros ch. by apply transmitted_send.
  - rewrite Forall_forall in Hu.
    assert (Hs' : sender_ok D (c_recv_dic r) all s').
    { by destruct (wlp_leaves _ _ _ _ _ (sender_recv_safe D _ all p now s Hs (Hu p Hp)) E)
        as [[? ?]|?]. }
    assert (Hk : keeps s s').
    { by destruct (wlp_leaves _ _ _ _ _ (recv_slice_keeps p now s) E) as [[? ?]|?]. }
    assert (Hsf : sends_from s s') by (destruct Hk as (? & ? & ?); by apply sends_from_same).
    exists all. split; [|by apply sending]. rewrite <-(app_nil_r down).
    eapply sender_step_ok; [done|done| |done]. intros ch. by apply transmitted_send.
  - assert (Ho' : 34 <= ♯out < u64_bound) by (unfold datagram, SEND_BUFFER_SIZE in Ho; lia).
    destruct (wlp_Ok_inv _ _ _ _ _ _ (receiver_send_safe _ r out t1 t2 Hr Ho') E) as [Hr' Hp].
    exists all. eapply receiver_step_ok; try done. by apply Forall_singleton.
  - assert (Ho' : 34 <= ♯out < u64_bound) by (unfold datagram, SEND_BUFFER_SIZE in Ho; lia).
    pose proof (wlp_Err_inv _ _ _ _ _ _ (receiver_send_safe _ r out t1 t2 Hr Ho') E) as Hr'.
    exists all. rewrite <-(app_nil_r up) at 1 3. by eapply receiver_step_ok.
  - rewrite Forall_forall in Hd.
    assert (Hr' : receiver_to (transmitted s all) r r')
      by (destruct (wlp_leaves _ _ _ _ _ (receiver_recv_safe _ p now r Hr Hck (Hd p Hp)) E)
            as [[? ?]|?]; done).
    exists all. rewrite <-(app_nil_r up) at 1 3. by eapply receiver_step_ok.
  - assert (Hr' : receiver_to (transmitted s all) r r')
      by (destruct (wlp_leaves _ _ _ _ _ (receiver_read_safe _ out r Hr) E) as [[? ?]|?]; done).
    exists all. rewrite <-(app_nil_r up) at 1 3. by eapply receiver_step_ok.
Qed.

Lemma reachable_ok D st : reachable D st → ∃ all, sys_ok D all st.
Proof.
  intros (st0 & H0 & Hr). apply starts_ok in H0. revert H0. generalize (@nil RangeBuf).
  induction Hr as [|st0 st1 st2 Hst _ IH]; intros all H0; [by exists all|].
  destruct (step_ok D all st0 st1 Hst H0) as (all' & H1 & _). by eapply IH.
Qed.
End Invariant.

(** ** Properties *)

Section Properties.
Context {P : Profile} {O : OctetsOps} {HO : OctetsSpec O} {HI : HashOrder} {HIS : HashOrderSpec HI}.

Lemma chunk_bytes D ch :
  chunk_of D ch → rg_data ch = take (length (rg_data ch)) (drop (Z.to_nat (rg_off ch)) D).
Proof.
  intros [[[(_ & _ & Hl & _) _] _] [_ Hd]]. rewrite Hd at 1. f_equal. unfold zlen in Hl. lia.
Qed.

Lemma copy_bytes D all s b :
  Forall (chunk_of D) all → is_copy (transmitted s all) b →
  rg_data b = take (length (rg_data b)) (drop (Z.to_nat (rg_off b)) D).
Proof.
  intros Hc (ch & [_ Hch]%list_elem_of_filter & -> & ->). rewrite Forall_forall in Hc. by apply chunk_bytes, Hc.
Qed.

(** C9: received_data_is_sent_data.  Integrity: whatever the network loses,
    repeats or reorders, every chunk waiting in the receiver's buffer holds
    exactly the bytes of the sender's data at the offset of the chunk. *)
Theorem received_data_is_sent_data D st k b :
  reachable D st → (k, b) ∈ rb_data (c_rec_buffer (sys_receiver st)) →
  rg_data b = take (length (rg_data b)) (drop (Z.to_nat (rg_off b)) D).
Proof.
  intros (all & [[_ L] Hr _ _])%reachable_ok Hin.
  pose proof (ri_buffer _ _ Hr) as Hb. rewrite Forall_forall in Hb.
  exact (copy_bytes D all _ b (le_chunks _ _ _ _ L) (Hb _ Hin)).
Qed.




(** C11: sender_packets_are_well_formed.  Every packet on its way to the receiver
    is a handshake, an [ElictAck] that lists at most 8 offsets and announces
    exactly their length, or a data packet with the bytes of the data at its
    offset, at most 1024 of them. *)
Theorem sender_packets_are_well_formed D st p :
  reachable D st → p ∈ sys_down st →
  p = handshake_packet ∨
  (∃ pn os, (length os <= 8)%nat ∧ p = elict_packet pn (8 * ♯os) os) ∨
  (∃ pn prio off data, p = data_packet pn prio off data ∧ 0 < ♯data <= SEND_BUFFER_SIZE ∧
     data = take (length data) (drop (Z.to_nat off) D)).
Proof.
  intros (all & [[_ L] _ Hd _])%reachable_ok Hp. rewrite Forall_forall in Hd.
  destruct (Hd p Hp) as [?|[(pn & os & _ & _ & ? & ?)|(pn & prio & ch & _ & _ & [_ Hch]%list_elem_of_filter & ->)]];
    [by left|right; left; by exists pn, os|].
  right; right. exists pn, prio, (rg_off ch), (rg_data ch). split; [done|].
  pose proof (le_chunks _ _ _ _ L) as Hc. rewrite Forall_forall in Hc. specialize (Hc ch Hch).
  split; [|by apply chunk_bytes]. destruct Hc as [[[(_ & _ & <- & _) _] ?] _]. done.
Qed.

(** C12: sender_stays_well_formed.  In every reachable state the send buffer is
    well formed, no chunk straddles a 1024-byte block (so that one norm gives
    its priority), the batch counter is the number of packets not yet
    reported, at most 8, and what was written is what the buffer's offset
    says. *)
Theorem sender_stays_well_formed D st :
  reachable D st →
  SendBuf.wf (c_send_buffer (sys_sender st)) ∧
  Forall in_block (sb_data (c_send_buffer (sys_sender st))) ∧
  batch_inv (sys_sender st) ∧ ♯(unreported (sys_sender st)) <= 8 ∧
  sb_off (c_send_buffer (sys_sender st)) = c_written_data (sys_sender st) ∧
  c_written_data (sys_sender st) <= ♯D.
Proof.
  intros (all & [[Hi _] _ _ _])%reachable_ok. pose proof (si_batch _ _ Hi) as Hb.
  split; [apply Hi|]. split; [apply Hi|]. split; [done|].
  split; [rewrite zlen_unreported by done; apply Hb|]. split; apply Hi.
Qed.
End Properties.

(** ** A complete run

    Three bytes are sent, received, reported, acknowledged and dropped. *)
Module Run.
#[local] Existing Instances debug_x86 ListOctets.ops ListOctets.spec map_order map_order_spec.

Definition D : list Z := [1; 2; 3].
Definition out : list Z := replicate 1050 0.

(** The state a returning call leaves. *)
Definition after {S A} (m : M S A) (s : S) : S :=
  match m s with Ok _ s' => s' | Err _ s' => s' | Panicked _ => s end.
Definition packet (t1 t2 : Z) (c : Connection) : list Z :=
  match send_data t1 t2 (c, out) with
  | Ok (n, _) (_, out') => take (Z.to_nat n) out'
  | _ => []
  end.
Definition sends (t1 t2 : Z) (c : Connection) : Connection := (after (send_data t1 t2) (c, out)).1.

Definition s0 := set_send_data D (set_norm2_vec [f32_of_Z 1]
  (set_low_split_point (f32_of_Z 0) (set_high_split_point (f32_of_Z 0)
    (initial Samples.here Samples.there fresh_recovery true 0)))).
Definition r0 := initial Samples.there Samples.here fresh_recovery false 0.
Definition s1 := after (send_all 0) s0.
Definition s2 := sends 1 2 s1.
Definition p1 := packet 1 2 s1.                 (* handshake *)
Definition r1 := after (recv_slice p1 3) r0.
Definition r2 := sends 4 5 r1.
Definition q1 := packet 4 5 r1.                 (* handshake *)
Definition s3 := after (recv_slice q1 10) s2.
Definition s4 := sends 11 12 s3.
Definition p2 := packet 11 12 s3.               (* data *)
Definition r3 := after (recv_slice p2 13) r2.
Definition s5 := sends 14 15 s4.
Definition p3 := packet 14 15 s4.               (* elicit *)
Definition r4 := after (recv_slice p3 16) r3.
Definition r5 := sends 17 18 r4.
Definition q2 := packet 17 18 r4.               (* ack *)
Definition s6 := after (recv_slice q2 19) s5.
Definition s7 := after (send_all 20) s6.

Definition st_end : System :=
  mkSystem s7 r5 [p1; p2; p3] [q1; q2].

Definition is_ok {S A} (o : outcome S A) : bool := match o with Ok _ _ => true | _ => false end.

Lemma after_leaves {S A} (m : M S A) s : is_ok (m s) = true → leaves m s (after m s).
Proof. unfold leaves, after. destruct (m s); [left; by eexists|done|done]. Qed.

Lemma after_Ok {S A} (m : M S A) s : is_ok (m s) = true → ∃ a, m s = Ok a (after m s).
Proof. unfold after. destruct (m s); [by eexists|done|done]. Qed.

Lemma out_datagram : datagram out.
Proof. unfold datagram, out, SEND_BUFFER_SIZE, u64_bound. rewrite zlen_replicate. lia. Qed.

Lemma sends_step t1 t2 s r down up :
  is_ok (send_data t1 t2 (s, out)) = true →
  step (mkSystem s r down up) (mkSystem (sends t1 t2 s) r (down ++ [packet t1 t2 s]) up).
Proof.
  intros H. unfold sends, packet, after. destruct (send_data t1 t2 (s, out)) as [[n i] [s' o']| |] eqn:E;
    [|done|done]. eapply sender_sends; [apply out_datagram|exact E].
Qed.

Lemma answers_step t1 t2 s r down up :
  is_ok (send_data t1 t2 (r, out)) = true →
  step (mkSystem s r down up) (mkSystem s (sends t1 t2 r) down (up ++ [packet t1 t2 r])).
Proof.
  intros H. unfold sends, packet, after. destruct (send_data t1 t2 (r, out)) as [[n i] [r' o']| |] eqn:E;
    [|done|done]. eapply receiver_sends; [apply out_datagram|exact E].
Qed.

Lemma refills_step now s r down up :
  is_ok (send_all now s) = true →
  step (mkSystem s r down up) (mkSystem (after (send_all now) s) r down up).
Proof. intros [a H]%after_Ok. by eapply sender_refills. Qed.

Definition st_start : System := mkSystem s0 r0 [] [].

Lemma run_starts : starts D st_start.
Proof. apply (starts_with D Samples.here Samples.there fresh_recovery fresh_recovery 0 0); done. Qed.

Lemma run_steps : rtc step st_start st_end.
Proof.
  apply (rtc_l _ _ (mkSystem s1 r0 [] [])).
  { apply (refills_step 0 s0 r0 [] []). vm_compute. reflexivity. }
  apply (rtc_l _ _ (mkSystem s2 r0 [p1] [])).
  { apply (sends_step 1 2 s1 r0 [] []). vm_compute. reflexivity. }
  apply (rtc_l _ _ (mkSystem s2 r1 [p1] [])).
  { apply (receiver_receives p1 3 s2 r0 r1 [p1] []); [set_solver|].
    unfold r1. apply after_leaves. vm_compute. reflexivity. }
  apply (rtc_l _ _ (mkSystem s2 r2 [p1] [q1])).
  { apply (answers_step 4 5 s2 r1 [p1] []). vm_compute. reflexivity. }
  apply (rtc_l _ _ (mkSystem s3 r2 [p1] [q1])).
  { apply (sender_receives q1 10 s2 s3 r2 [p1] [q1]); [set_solver|].
    unfold s3. apply after_leaves. vm_compute. reflexivity. }
  apply (rtc_l _ _ (mkSystem s4 r2 [p1; p2] [q1])).
  { apply (sends_step 11 12 s3 r2 [p1] [q1]). vm_compute. reflexivity. }
  apply (rtc_l _ _ (mkSystem s4 r3 [p1; p2] [q1])).
  { apply (receiver_receives p2 13 s4 r2 r3 [p1; p2] [q1]); [set_solver|].
    unfold r3. apply after_leaves. vm_compute. reflexivity. }
  apply (rtc_l _ _ (mkSystem s5 r3 [p1; p2; p3] [q1])).
  { apply (sends_step 14 15 s4 r3 [p1; p2] [q1]). vm_compute. reflexivity. }
  apply (rtc_l _ _ (mkSystem s5 r4 [p1; p2; p3] [q1])).
  { apply (receiver_receives p3 16 s5 r3 r4 [p1; p2; p3] [q1]); [set_solver|].
    unfold r4. apply after_leaves. vm_compute. reflexivity. }
  apply (rtc_l _ _ (mkSystem s5 r5 [p1; p2; p3] [q1; q2])).
  { apply (answers_step 17 18 s5 r4 [p1; p2; p3] [q1]). vm_compute. reflexivity. }
  apply (rtc_l _ _ (mkSystem s6 r5 [p1; p2; p3] [q1; q2])).
  { apply (sender_receives q2 19 s5 s6 r5 [p1; p2; p3] [q1; q2]); [set_solver|].
    unfold s6. apply after_leaves. vm_compute. reflexivity. }
  apply (rtc_l _ _ (mkSystem s7 r5 [p1; p2; p3] [q1; q2])).
  { apply (refills_step 20 s6 r5 [p1; p2; p3] [q1; q2]). vm_compute. reflexivity. }
  apply rtc_refl.
Qed.

Lemma run_reaches_end : reachable D st_end.
Proof. exists st_start. split; [apply run_starts|apply run_steps]. Qed.

Lemma received_data_is_sent_data_witness :
  (3, from [1; 2; 3] 0) ∈ rb_data (c_rec_buffer (sys_receiver st_end)) ∧
  rg_data (from [1; 2; 3] 0) = take 3 (drop 0 D).
Proof.
  assert (H : (3, from [1; 2; 3] 0) ∈ rb_data (c_rec_buffer (sys_receiver st_end))).
  { replace (rb_data (c_rec_buffer (sys_receiver st_end))) with [(3, from [1; 2; 3] 0)]
      by (vm_compute; reflexivity). by left. }
  split; [exact H|]. exact (received_data_is_sent_data D st_end 3 (from [1; 2; 3] 0) run_reaches_end H).
Defined.




Lemma sender_packets_are_well_formed_witness :
  p2 = handshake_packet ∨
  (∃ pn os, (length os <= 8)%nat ∧ p2 = elict_packet pn (8 * ♯os) os) ∨
  (∃ pn prio off data, p2 = data_packet pn prio off data ∧ 0 < ♯data <= SEND_BUFFER_SIZE ∧
     data = take (length data) (drop (Z.to_nat off) D)).
Proof.
  exact (sender_packets_are_well_formed D st_end p2 run_reaches_end
           (list_elem_of_further _ _ _ (list_elem_of_here _ _))).
Defined.

Lemma sender_stays_well_formed_witness :
  SendBuf.wf (c_send_buffer (sys_sender st_end)) ∧
  Forall in_block (sb_data (c_send_buffer (sys_sender st_end))) ∧
  batch_inv (sys_sender st_end) ∧ ♯(unreported (sys_sender st_end)) <= 8 ∧
  sb_off (c_send_buffer (sys_sender st_end)) = c_written_data (sys_sender st_end) ∧
  c_written_data (sys_sender st_end) <= ♯D.
Proof. exact (sender_stays_well_formed D st_end run_reaches_end). Defined.
End Run.
