(* ===== verification/Transfer.v ===== *)
(** * Transfer: the contract of a transfer, and that the system implements it

    [transfer] is what the protocol promises, without packets, windows, batches,
    acknowledgements or buffers: chunks of the data are written one after the
    other, transmitted while they are kept, delivered after they were
    transmitted, and forgotten only when they were delivered or transmitted once
    more than their priority.  [spec_reliable] draws the guarantee from the
    contract; [system_refines_transfer] shows that every run of the two
    connections and the network ([System]) is a run of the contract. *)
From Stdlib Require Import SpecFloat.
From S2P Require Import Prelude Effects Octets Packet OMap SoftFloat RangeBuf RecvBuf SendBuf Recovery Connection AckPath DataPath Sender Receiver System.

Record transfer := mkTransfer {
  t_chunks : list RangeBuf;   (** written so far, in order *)
  t_kept : gset Z;            (** offsets kept for (re)transmission *)
  t_sent : list Z;            (** offsets in the order of transmission *)
  t_got : gset Z;             (** offsets the receiver has *)
}.

Definition count (o : Z) (sent : list Z) : Z := ♯(filter (λ x, x = o) sent).

(** The steps of a transfer of [D] with the priorities [prio]. *)
Inductive tstep (D : list Z) (prio : Z → Z) : transfer → transfer → Prop :=
| t_write ch chunks kept sent got :
    chunk_of D ch → tiles 0 chunks (rg_off ch) →
    tstep D prio (mkTransfer chunks kept sent got)
      (mkTransfer (chunks ++ [ch]) ({[rg_off ch]} ∪ kept) sent got)
| t_transmit o chunks kept sent got :
    o ∈ kept →
    tstep D prio (mkTransfer chunks kept sent got) (mkTransfer chunks kept (sent ++ [o]) got)
| t_deliver o chunks kept sent got :
    o ∈ sent →
    tstep D prio (mkTransfer chunks kept sent got) (mkTransfer chunks kept sent ({[o]} ∪ got))
| t_forget o chunks kept sent got :
    o ∈ kept → o ∈ got ∨ prio o + 1 <= count o sent →
    tstep D prio (mkTransfer chunks kept sent got) (mkTransfer chunks (kept ∖ {[o]}) sent got).

Definition t_start : transfer := mkTransfer [] ∅ [] ∅.

(** What the contract guarantees of a chunk. *)
Definition accounted_for (prio : Z → Z) (t : transfer) (o : Z) : Prop :=
  o ∈ t_kept t ∨ o ∈ t_got t ∨ prio o + 1 <= count o (t_sent t).

Section Spec.
Context (D : list Z) (prio : Z → Z).

Lemma count_snoc o x sent : count o sent <= count o (sent ++ [x]).
Proof. unfold count. rewrite filter_app, zlen_app. pose_len. lia. Qed.

Definition t_inv (t : transfer) : Prop :=
  (∃ hi, tiles 0 (t_chunks t) hi) ∧ Forall (chunk_of D) (t_chunks t) ∧
  (∀ ch, ch ∈ t_chunks t → accounted_for prio t (rg_off ch)) ∧
  (∀ o, o ∈ t_kept t → ∃ ch, ch ∈ t_chunks t ∧ rg_off ch = o) ∧
  (∀ o, o ∈ t_sent t → ∃ ch, ch ∈ t_chunks t ∧ rg_off ch = o) ∧
  (∀ o, o ∈ t_got t → o ∈ t_sent t).

Lemma tstep_inv t t' : tstep D prio t t' → t_inv t → t_inv t'.
Proof.
  intros Hst (Ht & Hc & Ha & Hk & Hs & Hg).
  destruct Hst as [ch chunks kept sent got Hch Hti|o chunks kept sent got Ho
    |o chunks kept sent got Ho|o chunks kept sent got Ho Hf]; unfold t_inv, accounted_for in *;
    cbn in *.
  - split; [exists (chunk_end ch); by eapply tiles_app|].
    split; [apply Forall_app; by rewrite Forall_singleton|].
    assert (Hin : ∀ o, (∃ c, c ∈ chunks ∧ rg_off c = o) → ∃ c, c ∈ chunks ++ [ch] ∧ rg_off c = o).
    { intros o (c & ? & ?). exists c. rewrite elem_of_app. auto. }
    split; [|split; [|split; [auto|done]]].
    + intros c. rewrite elem_of_app, list_elem_of_singleton. intros [Hin'| ->].
      * destruct (Ha c Hin') as [?|?]; [left; set_solver|by right].
      * left. set_solver.
    + intros o. rewrite elem_of_union, elem_of_singleton. intros [->|?]; [|auto].
      exists ch. rewrite elem_of_app, list_elem_of_singleton. auto.
  - do 2 (split; [done|]). split.
    { intros c Hin. destruct (Ha c Hin) as [?|[?|?]]; [by left|right; by left|].
      right; right. pose proof (count_snoc (rg_off c) o sent). lia. }
    split; [done|]. split.
    + intros x. rewrite elem_of_app, list_elem_of_singleton. intros [?| ->]; auto.
    + intros x Hx. rewrite elem_of_app. auto.
  - do 2 (split; [done|]). split; [|split; [done|split; [done|]]].
    + intros c Hin. destruct (Ha c Hin) as [?|[?|?]]; [by left|right; left; set_solver|by right; right].
    + intros x. rewrite elem_of_union, elem_of_singleton. intros [->|?]; auto.
  - do 2 (split; [done|]). split; [|split; [intros x Hx; apply Hk; set_solver|done]].
    intros c Hin. destruct (decide (rg_off c = o)) as [->|Hne]; [right; exact Hf|].
    destruct (Ha c Hin) as [?|?]; [left; set_solver|by right].
Qed.

Lemma t_start_inv : t_inv t_start.
Proof.
  split; [by exists 0|]. split; [constructor|]. split; [by intros ch ?%elem_of_nil|].
  split; [set_solver|]. split; [by intros o ?%elem_of_nil|set_solver].
Qed.

Lemma transfer_inv t : rtc (tstep D prio) t_start t → t_inv t.
Proof.
  revert t. apply rtc_ind_r; [apply t_start_inv|]. intros t t' _ Hs Ht. by eapply tstep_inv.
Qed.

(** When nothing is kept, every chunk of the data written so far was received
    or its transmissions are used up, and nothing was received that was not
    transmitted. *)
Lemma spec_reliable t :
  rtc (tstep D prio) t_start t → t_kept t = ∅ →
  ∃ hi, tiles 0 (t_chunks t) hi ∧ concat (rg_data <$> t_chunks t) = take (Z.to_nat hi) D ∧
    (∀ ch, ch ∈ t_chunks t → rg_off ch ∈ t_got t ∨ prio (rg_off ch) + 1 <= count (rg_off ch) (t_sent t)) ∧
    (∀ o, o ∈ t_got t → o ∈ t_sent t).
Proof.
  intros ((hi & Ht) & Hc & Ha & _ & _ & Hg)%transfer_inv Hk. exists hi. split; [done|].
  split; [|split; [|done]].
  - destruct (tiles_concat D 0 _ _ ltac:(lia) Hc Ht) as [E _]. rewrite E. by rewrite Z.sub_0_r.
  - intros ch Hch. destruct (Ha ch Hch) as [Hin|?]; [|done]. rewrite Hk in Hin.
    by apply elem_of_empty in Hin.
Qed.
End Spec.

(** ** Sequences of steps of one kind *)

Definition offsets (l : list RangeBuf) : gset Z := list_to_set (rg_off <$> l).

Lemma elem_of_offsets o l : o ∈ offsets l ↔ ∃ ch, ch ∈ l ∧ rg_off ch = o.
Proof.
  unfold offsets. rewrite elem_of_list_to_set, list_elem_of_fmap. naive_solver.
Qed.

Section Many.
Context (D : list Z) (prio : Z → Z).

Lemma write_many chunks new kept sent got hi :
  Forall (chunk_of D) new → tiles 0 (chunks ++ new) hi →
  rtc (tstep D prio) (mkTransfer chunks kept sent got)
    (mkTransfer (chunks ++ new) (offsets new ∪ kept) sent got).
Proof.
  intros Hn. revert chunks kept. induction Hn as [|ch new Hch Hn IH]; intros chunks kept Ht.
  - rewrite app_nil_r. replace (offsets [] ∪ kept) with kept by (unfold offsets; set_solver).
    apply rtc_refl.
  - destruct (tiles_app_inv _ _ _ _ Ht) as (mid & H1 & H2 & _).
    eapply rtc_l; [apply (t_write _ _ ch); [done|by subst mid]|].
    rewrite (app_assoc chunks [ch] new : chunks ++ ch :: new = _) in Ht |- *.
    replace (offsets (ch :: new) ∪ kept) with (offsets new ∪ ({[rg_off ch]} ∪ kept))
      by (apply set_eq; intros o; rewrite !elem_of_union; unfold offsets; rewrite fmap_cons, list_to_set_cons, elem_of_union; tauto).
    by apply IH.
Qed.

Lemma deliver_many chunks kept sent got X :
  (∀ o, o ∈ X → o ∈ sent) →
  rtc (tstep D prio) (mkTransfer chunks kept sent got) (mkTransfer chunks kept sent (X ∪ got)).
Proof.
  revert got. induction X as [|o X _ IH] using set_ind_L; intros got HX.
  - rewrite union_empty_l_L. apply rtc_refl.
  - eapply rtc_r; [apply IH; set_solver|].
    rewrite <-(assoc_L (∪)). apply t_deliver. set_solver.
Qed.

Lemma forget_many chunks kept sent got X :
  X ⊆ kept → (∀ o, o ∈ X → o ∈ got ∨ prio o + 1 <= count o sent) →
  rtc (tstep D prio) (mkTransfer chunks kept sent got) (mkTransfer chunks (kept ∖ X) sent got).
Proof.
  induction X as [|o X Ho IH] using set_ind_L; intros Hsub HX.
  - rewrite difference_empty_L. apply rtc_refl.
  - eapply rtc_r; [apply IH; set_solver|].
    replace (kept ∖ ({[o]} ∪ X)) with ((kept ∖ X) ∖ {[o]}) by (rewrite difference_difference_l_L; f_equal; apply union_comm_L).
    apply t_forget; [set_solver|]. apply HX. set_solver.
Qed.
End Many.

(** ** The system implements the contract *)

(** The transfer a state of the system stands for, given its ledger. *)
Definition abs (all : list RangeBuf) (st : System) : transfer :=
  mkTransfer all (offsets (sb_data (c_send_buffer (sys_sender st))))
    (c_sent_pkt (sys_sender st)) (dom (c_recv_dic (sys_receiver st))).

Section Refinement.
Context {P : Profile} {O : OctetsOps} {HO : OctetsSpec O} {HI : HashOrder} {HIS : HashOrderSpec HI}.

Lemma received_was_sent D all st o :
  sys_ok D all st → o ∈ (dom (c_recv_dic (sys_receiver st)) : gset Z) → o ∈ c_sent_pkt (sys_sender st).
Proof.
  intros [_ Hr _ _] Ho%elem_of_dom. destruct (ri_got _ _ Hr o Ho) as (ch & Hch & <-).
  by apply list_elem_of_filter in Hch as [? _].
Qed.

(** Dropping the acknowledged chunks and writing new ones. *)
Lemma refill_simulated D all new st st' prio :
  sys_ok D all st → sys_ok D (all ++ new) st' → refills new (sys_sender st) (sys_sender st') →
  c_recv_dic (sys_receiver st') = c_recv_dic (sys_receiver st) →
  (∀ o, priority_of (sys_sender st') o = prio o) →
  rtc (tstep D prio) (abs all st) (abs (all ++ new) st').
Proof.
  intros [[_ L] _ _ _] [[_ L'] _ _ _] (Es & _ & Hsub) Er Hprio. unfold abs. rewrite Es, Er.
  set (kept := offsets (sb_data (c_send_buffer (sys_sender st)))).
  set (kept' := offsets (sb_data (c_send_buffer (sys_sender st')))).
  etrans.
  { eapply (write_many D prio all new); [|apply (le_tiles _ _ _ _ L')].
    pose proof (le_chunks _ _ _ _ L') as Hc. by apply Forall_app in Hc as [_ ?]. }
  assert (Hk : kept' ⊆ offsets new ∪ kept).
  { intros o. rewrite elem_of_union. unfold kept, kept'. rewrite !elem_of_offsets.
    intros (ch & Hch & <-). destruct (Hsub ch Hch); eauto. }
  replace kept' with ((offsets new ∪ kept) ∖ ((offsets new ∪ kept) ∖ kept')).
  2:{ apply set_eq. intros o. rewrite !elem_of_difference. specialize (Hk o).
      destruct (decide (o ∈ kept')); tauto. }
  apply forget_many; [set_solver|]. intros o [Ho Hno]%elem_of_difference.
  assert (∃ ch, ch ∈ all ++ new ∧ rg_off ch = o) as (ch & Hch & <-).
  { apply elem_of_union in Ho as [Ho|Ho]; apply elem_of_offsets in Ho as (ch & Hch & <-);
      exists ch; rewrite elem_of_app; [auto|]. split; [|done]. left. by apply (le_buffered _ _ _ _ L). }
  destruct (le_accounted _ _ _ _ L' ch Hch) as [[_ Hin]%list_elem_of_filter|[Hg|Hb]].
  - destruct Hno. unfold kept'. apply elem_of_offsets. eauto.
  - left. rewrite Er in Hg. by apply elem_of_dom.
  - right. rewrite <-Hprio. unfold count. unfold transmissions in Hb. by rewrite Es in Hb.
Qed.

Lemma step_simulated D all st st' prio :
  step st st' → sys_ok D all st → (∀ o, priority_of (sys_sender st) o = prio o) →
  ∃ all', sys_ok D all' st' ∧ (∀ o, priority_of (sys_sender st') o = prio o) ∧
    rtc (tstep D prio) (abs all st) (abs all' st').
Proof.
  intros Hst Hok Hprio. destruct (step_ok D all st st' Hst Hok) as (all' & Hok' & He).
  exists all'. split; [done|]. destruct He as [new Hr Er|Hs Er|Es Hgrow].
  - assert (Hp : ∀ o, priority_of (sys_sender st') o = prio o).
    { intros o. rewrite <-Hprio. apply same_rules_priority, Hr. }
    split; [done|]. by apply refill_simulated.
  - destruct Hs as (Ed & Hrules & Hsent).
    split; [intros o; rewrite <-Hprio; by apply same_rules_priority|].
    unfold abs. rewrite Ed, Er. destruct Hsent as [->|(ch & Hch & ->)]; [apply rtc_refl|].
    apply rtc_once, t_transmit, elem_of_offsets. eauto.
  - rewrite Es. split; [done|]. unfold abs. rewrite Es.
    replace (dom (c_recv_dic (sys_receiver st')) : gset Z) with
      (dom (c_recv_dic (sys_receiver st')) ∪ dom (c_recv_dic (sys_receiver st)) : gset Z).
    + apply deliver_many. intros o Ho. rewrite <-Es. by eapply received_was_sent.
    + apply set_eq. intros o. rewrite elem_of_union, !elem_of_dom. specialize (Hgrow o). tauto.
Qed.

(** C2: system_refines_transfer.  Every run of the system is a run of the contract: from the start, the
    chunks written, kept, transmitted and received change only by the steps of
    [tstep], whatever the network does and in every build profile. *)
Theorem system_refines_transfer D st0 st :
  starts D st0 → rtc step st0 st →
  ∃ all, rtc (tstep D (priority_of (sys_sender st0))) t_start (abs all st) ∧
    tiles 0 all (c_written_data (sys_sender st)).
Proof.
  intros H0 Hr.
  assert (∃ all, sys_ok D all st ∧
    (∀ o, priority_of (sys_sender st) o = priority_of (sys_sender st0) o) ∧
    rtc (tstep D (priority_of (sys_sender st0))) t_start (abs all st)) as (all & Hok & _ & Ha).
  { revert st Hr. apply rtc_ind_r.
    - exists []. split; [by apply starts_ok|]. split; [done|]. destruct H0. apply rtc_refl.
    - intros st st' _ Hst (all & Hok & Hp & Ha).
      destruct (step_simulated D all st st' _ Hst Hok Hp) as (all' & Hok' & Hp' & Hs).
      exists all'. split; [done|]. split; [done|]. by etrans. }
  exists all. split; [done|]. apply (le_tiles _ _ _ _ (proj2 (so_sender _ _ _ Hok))).
Qed.
End Refinement.

Module TransferSamples.
#[local] Existing Instances debug_x86 ListOctets.ops ListOctets.spec map_order map_order_spec.

Lemma system_refines_transfer_witness :
  ∃ all, rtc (tstep Run.D (priority_of (sys_sender Run.st_start))) t_start (abs all Run.st_end) ∧
    tiles 0 all 3.
Proof.
  replace 3 with (c_written_data (sys_sender Run.st_end)) by (vm_compute; reflexivity).
  exact (system_refines_transfer Run.D Run.st_start Run.st_end Run.run_starts Run.run_steps).
Defined.
End TransferSamples.
