(* ===== verification/Forged.v ===== *)
(** * Forged: a sender among packets nobody sent

    [System] connects a sender to the crate's own receiver.  Here the sender
    gets any bytes at any time: the packets of an attacker, or of a receiver
    that lies about what it has.  Such a packet can make the sender forget a
    chunk, answer with an ACK or panic, but it never corrupts what the sender
    sends ([forged_packets_do_not_corrupt]). *)
From Stdlib Require Import SpecFloat.
From S2P Require Import Prelude Effects Octets Packet OMap SoftFloat RangeBuf RecvBuf SendBuf Recovery Connection AckPath DataPath Sender Receiver System.

Section Steps.
Context {P : Profile} {O : OctetsOps} {HI : HashOrder}.

(** A sender in use, and the packets it has sent so far. *)
Inductive hears : Connection * list (list Z) → Connection * list (list Z) → Prop :=
| hears_refill now more c c' sent :
    send_all now c = Ok more c' → hears (c, sent) (c', sent)
| hears_send out t1 t2 n info c c' out' sent :
    datagram out → send_data t1 t2 (c, out) = Ok (n, info) (c', out') →
    hears (c, sent) (c', sent ++ [take (Z.to_nat n) out'])
| hears_nothing_to_send out t1 t2 e c c' out' sent :
    datagram out → send_data t1 t2 (c, out) = Err e (c', out') → hears (c, sent) (c', sent)
| hears_bytes p now c c' sent :
    leaves (recv_slice p now) c c' → hears (c, sent) (c', sent)
| hears_read out c c' sent :
    leaves (read out) c c' → hears (c, sent) (c', sent).
End Steps.

(** ** The invariant *)

#[local] Instance forger : Peer | 0 := {| honest := false |}.

(** The invariant of [Sender], for whatever the peer pretends to have. *)
Definition withstands (D : list Z) (all : list RangeBuf) (c : Connection) : Prop :=
  ∃ R, sender_ok (Pe := forger) D R all c.

(** A computation that keeps it. *)
Abbreviation withstanding D all m := (∀ c, withstands D all c → wlp m c (λ _ c', withstands D all c') (withstands D all)).

(** Updates of fields the invariant does not mention. *)
Ltac unharmed :=
  match goal with
  | H : withstands _ _ _ |- withstands _ _ _ =>
      let R := fresh "R" in destruct H as [R [[] []]]; exists R; split; constructor; first [assumption|done]
  end.

Section Forged.
Context {P : Profile} {O : OctetsOps} {HO : OctetsSpec O} {HI : HashOrder} {HIS : HashOrderSpec HI}.

Lemma withstanding_bind {A B} D all (m : M Connection A) (k : A → M Connection B) :
  withstanding D all m → (∀ a, withstanding D all (k a)) → withstanding D all (m ≫= k).
Proof. intros Hm Hk c Hc. eapply wlp_bind_mono; [by apply Hm| |done]. intros a c' H'. by apply Hk. Qed.

Lemma withstanding_same {A} D all (m : M Connection A) :
  (∀ c, wlp m c (λ _ c', c' = c) (λ _, False)) → withstanding D all m.
Proof. intros Hm c Hc. eapply wlp_mono; [apply Hm| |done]. by intros ? ? ->. Qed.

(** An entry of an ACK, true or not. *)
Lemma forged_entry D all o v w : withstanding D all (process_ack_entry o v w).
Proof.
  intros c [R H]. assert (H' : sender_ok (Pe := forger) D (<[o := 0]> R) all c).
  { eapply sender_ok_weaken; [|exact H]. intros x Hx. destruct (decide (x = o)) as [->|Hne];
      [by rewrite lookup_insert_eq|by rewrite lookup_insert_ne]. }
  eapply wlp_mono; [apply (process_ack_entry_safe D (<[o := 0]> R) all); [exact H'|]| |done].
  - intros _. by rewrite lookup_insert_eq.
  - intros ? c' Hc'. by exists (<[o := 0]> R).
Qed.

Lemma forged_entries D all fuel l start w : withstanding D all (process_ack_loop fuel l start w).
Proof.
  revert start w. induction fuel as [|fuel IH]; intros start w; cbn [process_ack_loop]; [by intros c|].
  destruct (negb _); [by intros c|].
  do 2 (apply withstanding_bind; [apply withstanding_same, be_u64_at_same|intros ?]).
  apply withstanding_bind; [apply forged_entry|intros w']. apply IH.
Qed.

Lemma forged_ack D all p : withstanding D all (process_ack p).
Proof.
  unfold process_ack. apply withstanding_bind; [intros c Hc; by wlp_steps|intros u].
  apply withstanding_bind; [apply withstanding_same, be_u64_at_same|intros mx].
  apply withstanding_bind; [intros c Hc; by wlp_steps|intros c0].
  apply withstanding_bind; [intros c Hc; destruct (_ <? _); wlp_steps; [unharmed|done]|intros _].
  apply withstanding_bind; [apply forged_entries|intros w].
  intros c [R Hc]. unfold on_recovery. apply wlp_zoom. eapply wlp_mono; [apply update_win_safe| |done].
  intros [] r' Hr'. exists R. by apply sender_ok_recovery.
Qed.

Lemma forged_loss_check D all fuel (b : OctetsMut) : withstanding D all (check_loss_loop fuel b).
Proof.
  revert b. induction fuel as [|fuel IH]; intros b; cbn [check_loss_loop]; [by intros c|].
  destruct (negb _); [by intros c|]. apply withstanding_bind.
  { intros c Hc. apply wlp_local, wlp_unwrap. unfold wlp. by destruct (get_u64 b). }
  intros [o b']. apply withstanding_bind; [intros c Hc; by wlp_steps|intros c0].
  apply withstanding_bind; [|intros _; apply IH]. intros c Hc. destruct (bool_decide _); wlp_steps; unharmed.
Qed.

Lemma forged_elict D all p : withstanding D all (recv_elict p).
Proof.
  unfold recv_elict. apply withstanding_bind; [intros c Hc; wlp_steps; unharmed|intros _].
  apply withstanding_bind; [apply withstanding_same, be_u64_at_same|intros n].
  apply withstanding_bind; [intros c Hc; wlp_steps; unharmed|intros _].
  apply withstanding_bind; [intros c Hc; by wlp_steps|intros body].
  apply withstanding_bind; [apply forged_loss_check|intros _]. intros c Hc. wlp_steps. unharmed.
Qed.

Lemma withstands_rec_buffer D all {A} (m : M RecvBuf A) : withstanding D all (on_rec_buffer m).
Proof. intros c Hc. apply wlp_zoom. unfold wlp. destruct (m _); [unharmed|unharmed|done]. Qed.

Lemma forged_data D all p h : withstanding D all (recv_application p h).
Proof.
  unfold recv_application. apply withstanding_bind; [intros c Hc; by wlp_steps|intros c0].
  apply withstanding_bind; [intros c Hc; by wlp_steps|intros n].
  apply withstanding_bind; [intros c Hc; wlp_steps; unharmed|intros _].
  apply withstanding_bind; [intros c Hc; by wlp_steps|intros body].
  apply withstanding_bind.
  { intros c Hc. apply wlp_unwrap. eapply wlp_mono; [by apply withstands_rec_buffer| |]; done. }
  intros _. apply withstanding_bind; [intros c Hc; wlp_steps; unharmed|intros _]. intros c Hc. by wlp_steps.
Qed.

Lemma forged_packet D all p now : withstanding D all (recv_slice p now).
Proof.
  unfold recv_slice. destruct (_ =? 0); [by intros c Hc|].
  apply withstanding_bind; [intros c Hc; by wlp_steps|intros c0].
  apply withstanding_bind; [intros c Hc; by wlp_steps|intros n].
  apply withstanding_bind; [intros c Hc; wlp_steps; unharmed|intros _]. apply withstanding_bind.
  { intros c Hc. unfold wlp. rewrite Header.from_slice_total. by case_decide. }
  intros h. unfold recv_dispatch. apply withstanding_bind; [intros c Hc; by wlp_steps|intros c1].
  apply withstanding_bind.
  { intros c Hc. destruct (_ && _); [|by wlp_steps]. unfold update_rtt, duration_checked. wlp_steps.
    destruct (_ =? 0); wlp_steps; [unharmed|]. destruct (_ <? _); wlp_steps; unharmed. }
  intros _. apply withstanding_bind; [intros c Hc; destruct (_ && _); wlp_steps; [unharmed|done]|intros _].
  apply withstanding_bind; [destruct (_ && _); [apply forged_ack|by intros c Hc]|intros _].
  apply withstanding_bind; [destruct (bool_decide _); [apply forged_elict|by intros c Hc]|intros _].
  apply withstanding_bind; [destruct (bool_decide _); [apply forged_data|by intros c Hc]|intros k].
  intros c Hc. by destruct (bool_decide _).
Qed.

(** ** Any use of a sender *)

(** What the sender has sent fits the ledger [all]. *)
Definition unharmed_by (D : list Z) (st : Connection * list (list Z)) : Prop :=
  ∃ all, withstands D all st.1 ∧ Forall (sent_packet (Pe := forger) all) st.2.

Lemma sent_packet_mono all all' p :
  (∀ ch, ch ∈ all → ch ∈ all') → sent_packet (Pe := forger) all p → sent_packet (Pe := forger) all' p.
Proof. intros Ha [Hp|Hp]; [left; by eapply sender_packet_mono|by right]. Qed.

Lemma hears_ok D st st' : hears st st' → unharmed_by D st → unharmed_by D st'.
Proof.
  intros Hs (all & Hc & Hp).
  destruct Hs as [now more c c' sent E|out t1 t2 n info c c' out' sent Ho E|out t1 t2 e c c' out' sent Ho E
    |p now c c' sent E|out c c' sent E]; cbn [fst snd] in Hc, Hp.
  - destruct Hc as [R Hc]. destruct (wlp_Ok_inv _ _ _ _ _ _ (send_all_safe D R all now c Hc) E) as (new & Hc' & _).
    exists (all ++ new). split; [by exists R|]. eapply Forall_impl; [exact Hp|]. intros p.
    apply sent_packet_mono. intros ch Hch. apply elem_of_app. by left.
  - destruct Hc as [R Hc]. destruct (wlp_Ok_inv _ _ _ _ _ _ (send_data_safe D R all c out t1 t2 Hc Ho) E) as (Hc' & _ & Hk).
    exists all. split; [by exists R|]. apply Forall_app. split; [done|]. apply Forall_singleton.
    eapply sent_packet_mono; [|exact Hk]. by intros ch [_ ?]%list_elem_of_filter.
  - destruct Hc as [R Hc]. destruct (wlp_Err_inv _ _ _ _ _ _ (send_data_safe D R all c out t1 t2 Hc Ho) E) as [Hc' _].
    exists all. split; [by exists R|done].
  - exists all. split; [|done]. by destruct (wlp_leaves _ _ _ _ _ (forged_packet D all p now c Hc) E) as [[_ ?]|?].
  - exists all. split; [|done]. by destruct (wlp_leaves _ _ _ _ _ (withstands_rec_buffer D all _ c Hc) E) as [[_ ?]|?].
Qed.

Lemma starts_unharmed D st : starts D st → unharmed_by D (sys_sender st, []).
Proof.
  intros H0%starts_ok. destruct H0 as [[Hi L] _ _ _]. exists []. split; [|constructor].
  exists (c_recv_dic (sys_receiver st)). split; [|done]. destruct Hi. constructor; first [assumption|done].
Qed.

(** C13: forged_packets_do_not_corrupt.  A sender loaded with the data [D] gets any
    bytes at any time, forged ACKs, [ElictAck]s and data packets included,
    between any calls of [send_all], [send_data] and [read].  As long as no call
    panics, every packet it sends is a handshake, an [ElictAck] of at most 8
    offsets that announces their length, a data packet with exactly the bytes
    of [D] at its offset, or an ACK.  Its send buffer stays well formed and
    holds chunks of [D] within one block each, what it has written is cut into
    chunks without gap or overlap, and the batch counter is the number of
    packets not yet reported. *)
Theorem forged_packets_do_not_corrupt D st c sent :
  starts D st → rtc hears (sys_sender st, []) (c, sent) →
  (∀ p, p ∈ sent →
     p = handshake_packet ∨
     (∃ pn os, (length os <= 8)%nat ∧ p = elict_packet pn (8 * ♯os) os) ∨
     (∃ pn prio off data, p = data_packet pn prio off data ∧ 0 < ♯data <= SEND_BUFFER_SIZE ∧
        data = take (length data) (drop (Z.to_nat off) D)) ∨
     (∃ pn plen mx l, p = ack_packet pn plen mx l)) ∧
  SendBuf.wf (c_send_buffer c) ∧ batch_inv c ∧
  (∀ ch, ch ∈ sb_data (c_send_buffer c) →
     in_block ch ∧ rg_data ch = take (length (rg_data ch)) (drop (Z.to_nat (rg_off ch)) D)) ∧
  ∃ all, tiles 0 all (c_written_data c) ∧ concat (rg_data <$> all) = take (Z.to_nat (c_written_data c)) D.
Proof.
  intros H0%starts_unharmed Hr.
  assert (Hu : unharmed_by D (c, sent)) by (clear -Hr H0 HO HIS; induction Hr; eauto using hears_ok).
  destruct Hu as (all & [R [Hi L]] & Hp). cbn [fst snd] in *. rewrite Forall_forall in Hp.
  pose proof (le_chunks _ _ _ _ L) as Hc. pose proof Hc as Hc'. rewrite Forall_forall in Hc'.
  split; [|split; [apply Hi|split; [apply Hi|split]]].
  - intros p Hin. destruct (Hp p Hin) as [[?|[(pn & os & _ & _ & ? & ?)|(pn & prio & ch & _ & _ & Hch & ->)]]|[_ ?]];
      [by left|right; left; by exists pn, os| |by do 3 right].
    do 2 right; left. exists pn, prio, (rg_off ch), (rg_data ch). split; [done|]. specialize (Hc' ch Hch).
    split; [|by apply chunk_bytes]. destruct Hc' as [[[(_ & _ & <- & _) _] ?] _]. done.
  - intros ch Hch. pose proof (si_blocks _ _ Hi) as Hb. rewrite Forall_forall in Hb.
    split; [by apply Hb|]. by apply chunk_bytes, Hc', (le_buffered _ _ _ _ L).
  - exists all. split; [apply L|].
    destruct (tiles_concat D 0 all _ ltac:(lia) Hc (le_tiles _ _ _ _ L)) as [E _]. by rewrite Z.sub_0_r, drop_0 in E.
Qed.
End Forged.

(** ** An attacked sender *)

Module ForgedSamples.
#[local] Existing Instances debug_x86 ListOctets.ops ListOctets.spec map_order map_order_spec.
Import Run.

(** A forged [ElictAck] about the offset 5, and a forged ACK that claims the
    data arrived. *)
Definition forged_elict : list Z := elict_packet 7 8 [5].
Definition forged_claim : list Z := ack_packet 7 24 0 [(0, 0)].

Definition f2 := sends 1 2 s1.
Definition f3 := after (recv_slice handshake_packet 10) f2.
Definition f4 := after (recv_slice forged_elict 11) f3.
Definition f5 := sends 12 13 f4.
Definition f6 := sends 14 15 f5.
Definition f7 := after (recv_slice forged_claim 16) f6.

Definition sent_to_attacker : list (list Z) := [packet 1 2 s1; packet 12 13 f4; packet 14 15 f5].

Lemma sends_hears t1 t2 c sent :
  is_ok (send_data t1 t2 (c, out)) = true → hears (c, sent) (sends t1 t2 c, sent ++ [packet t1 t2 c]).
Proof.
  unfold sends, packet, after. destruct (send_data t1 t2 (c, out)) as [[n i] [c' out']| |] eqn:E; [|done|done].
  intros _. apply (hears_send out t1 t2 n i c c' out'); [apply out_datagram|exact E].
Qed.
Lemma after_hears p now c sent :
  is_ok (recv_slice p now c) = true → hears (c, sent) (after (recv_slice p now) c, sent).
Proof. intros H. by eapply hears_bytes, after_leaves. Qed.

Lemma attacked : rtc hears (s0, []) (f7, sent_to_attacker).
Proof.
  apply (rtc_l _ _ (s1, [])).
  { destruct (after_Ok (send_all 0) s0) as [b E]; [vm_compute; reflexivity|]. by eapply hears_refill. }
  apply (rtc_l _ _ (f2, [packet 1 2 s1])); [apply (sends_hears 1 2 s1 []); vm_compute; reflexivity|].
  apply (rtc_l _ _ (f3, [packet 1 2 s1])); [apply after_hears; vm_compute; reflexivity|].
  apply (rtc_l _ _ (f4, [packet 1 2 s1])); [apply after_hears; vm_compute; reflexivity|].
  apply (rtc_l _ _ (f5, [packet 1 2 s1; packet 12 13 f4]));
    [apply (sends_hears 12 13 f4 [packet 1 2 s1]); vm_compute; reflexivity|].
  apply (rtc_l _ _ (f6, sent_to_attacker));
    [apply (sends_hears 14 15 f5 [packet 1 2 s1; packet 12 13 f4]); vm_compute; reflexivity|].
  apply rtc_once, after_hears. vm_compute. reflexivity.
Qed.

(** The sender answers the forged [ElictAck] with an ACK, sends its data, and
    marks the chunk as acknowledged when it is told so. *)
Lemma forged_packets_do_not_corrupt_witness :
  (head <$> sent_to_attacker = [Some (Header.byte_of_ty Handshake); Some (Header.byte_of_ty ACK);
     Some (Header.byte_of_ty Application)] ∧ kept (c_send_buffer f6) ≠ [] ∧ kept (c_send_buffer f7) = []) ∧
  (∀ p, p ∈ sent_to_attacker →
     p = handshake_packet ∨
     (∃ pn os, (length os <= 8)%nat ∧ p = elict_packet pn (8 * ♯os) os) ∨
     (∃ pn prio off data, p = data_packet pn prio off data ∧ 0 < ♯data <= SEND_BUFFER_SIZE ∧
        data = take (length data) (drop (Z.to_nat off) D)) ∨
     (∃ pn plen mx l, p = ack_packet pn plen mx l)) ∧ batch_inv f7.
Proof.
  split; [split; [vm_compute; reflexivity|split; [vm_compute; discriminate|vm_compute; reflexivity]]|].
  destruct (forged_packets_do_not_corrupt D st_start f7 sent_to_attacker run_starts attacked) as (H & _ & Hb & _).
  split; [exact H|exact Hb].
Defined.
End ForgedSamples.
