(* ===== verification/Driver.v ===== *)
(** * Driver: the program around a transfer

    The crate leaves it to the application to call the methods of the two ends
    in turn.  [run_transfer] is such an application, executable: it refills the
    window with [send_all], sends packets until the window is reported
    ([is_stopped]) or there is nothing to send ([Done]), and lets the receiver
    answer whenever [send_ack] says so.  The network decides about every data
    packet whether it is lost; handshakes, [ElictAck]s and ACKs arrive.  Every
    run is a run of [System] ([run_transfer_steps]).

    [flush_egress] is the loop of client.cc and server.cc that sends packets
    through the C interface ([Ffi]) until [Done]. *)
From Stdlib Require Import SpecFloat.
From S2P Require Import Prelude Effects Octets Packet OMap SoftFloat RangeBuf RecvBuf SendBuf Recovery Connection AckPath DataPath CAddr Ffi Sender Receiver System.

(** The buffers of client.cc and server.cc ([MAX_DATAGRAM_SIZE]). *)
Definition out_buf : list Z := replicate 1350 0.

Lemma zlen_out_buf : ♯out_buf = 1350.
Proof. unfold out_buf. by rewrite zlen_replicate. Qed.

Lemma sized_datagram : datagram out_buf.
Proof. unfold datagram. rewrite zlen_out_buf. unfold SEND_BUFFER_SIZE, u64_bound. lia. Qed.

(** ** A whole transfer *)

(** What the application is about to do. *)
Inductive phase := Refilling | Sending.

Inductive progress :=
| Going (ph : phase) (s r : Connection)
| Finished (s r : Connection)   (** [send_all] reports that nothing is left *)
| Stuck.                        (** a panic, or an error other than [Done] *)

(** The type byte of a packet says that it carries data. *)
Definition carries_data (p : list Z) : bool :=
  match p with b :: _ => b =? Header.byte_of_ty Application | [] => false end.

Section Driver.
Context {P : Profile} {O : OctetsOps} {HI : HashOrder}.

(** [lost i]: the network loses the data packet with the index [i] in the
    order of transmission.  [clock k j]: reading [j] of the clock in the turn
    [k] of the application. *)
Context (lost : nat → bool) (clock : nat → nat → Z).

(** The receiver answers if it has to, and the sender gets the answer. *)
Definition answer (k : nat) (s r : Connection) : option (Connection * Connection) :=
  if send_ack r then
    match send_data (clock k 3) (clock k 4) (r, out_buf) with
    | Ok (n, _) (r', out') =>
        match recv_slice (take (Z.to_nat n) out') (clock k 5) s with
        | Ok _ s' => Some (s', r')
        | _ => None
        end
    | _ => None
    end
  else Some (s, r).

(** The receiver gets a packet of the sender, unless it is lost. *)
Definition deliver (k : nat) (is_lost : bool) (p : list Z) (r : Connection) : option Connection :=
  if carries_data p && is_lost then Some r
  else match recv_slice p (clock k 2) r with Ok _ r' => Some r' | _ => None end.

Definition turn (k : nat) (ph : phase) (s r : Connection) : progress :=
  match ph with
  | Refilling =>
      match send_all (clock k 0) s with
      | Ok true s' => Going Sending s' r
      | Ok false s' => Finished s' r
      | _ => Stuck
      end
  | Sending =>
      match send_data (clock k 0) (clock k 1) (s, out_buf) with
      | Ok (n, _) (s1, out') =>
          match deliver k (lost (length (c_sent_pkt s))) (take (Z.to_nat n) out') r with
          | Some r1 =>
              match answer k s1 r1 with
              | Some (s2, r2) => Going (if is_stopped s2 then Refilling else Sending) s2 r2
              | None => Stuck
              end
          | None => Stuck
          end
      | Err Done (s1, _) => Going Refilling s1 r
      | _ => Stuck
      end
  end.

(** At most [n] turns, from the turn [k] on. *)
Fixpoint run_transfer (n k : nat) (ph : phase) (s r : Connection) : option (Connection * Connection) :=
  match n with
  | 0%nat => None
  | S n' =>
      match turn k ph s r with
      | Going ph' s' r' => run_transfer n' (S k) ph' s' r'
      | Finished s' r' => Some (s', r')
      | Stuck => None
      end
  end.

(** *** Every run is a run of the system *)

(** Whatever is on the wire, the two ends can get to [s'] and [r']. *)
Definition reach (s r s' r' : Connection) : Prop :=
  ∀ down up, ∃ down' up', rtc step (mkSystem s r down up) (mkSystem s' r' down' up').

Lemma reach_refl s r : reach s r s r.
Proof. intros down up. exists down, up. apply rtc_refl. Qed.
Lemma reach_trans s r s1 r1 s2 r2 : reach s r s1 r1 → reach s1 r1 s2 r2 → reach s r s2 r2.
Proof.
  intros H1 H2 down up. destruct (H1 down up) as (d1 & u1 & S1). destruct (H2 d1 u1) as (d2 & u2 & S2).
  exists d2, u2. by etrans.
Qed.
Lemma reach_refill s r now b s1 : send_all now s = Ok b s1 → reach s r s1 r.
Proof. intros E down up. exists down, up. by eapply rtc_once, sender_refills. Qed.

Lemma snoc_elem (p : list Z) l : p ∈ l ++ [p].
Proof. rewrite elem_of_app. right. by left. Qed.

(** A packet of the sender that the network loses or delivers. *)
Lemma deliver_reach k b s r t1 t2 n i s1 o1 r1 :
  send_data t1 t2 (s, out_buf) = Ok (n, i) (s1, o1) →
  deliver k b (take (Z.to_nat n) o1) r = Some r1 → reach s r s1 r1.
Proof.
  unfold deliver. intros E1 E2 down up.
  assert (Hs : ∃ down', take (Z.to_nat n) o1 ∈ down' ∧
    step (mkSystem s r down up) (mkSystem s1 r down' up)).
  { eexists. split; [apply snoc_elem|]. eapply sender_sends; [apply sized_datagram|exact E1]. }
  destruct Hs as (down' & Hin & Hs). exists down', up. destruct (_ && _).
  { injection E2 as <-. by apply rtc_once. }
  destruct (recv_slice _ _ r) as [v r'| |] eqn:E; [|done|done]. injection E2 as <-.
  eapply rtc_l; [exact Hs|]. eapply rtc_once, receiver_receives; [exact Hin|]. left. by exists v.
Qed.

Lemma answer_reach k s r s' r' : answer k s r = Some (s', r') → reach s r s' r'.
Proof.
  unfold answer. destruct (send_ack r); [|intros [= <- <-]; apply reach_refl].
  destruct (send_data _ _ _) as [[n i] [r1 o1]| |] eqn:E1; [|done|done].
  destruct (recv_slice _ _ s) as [v s1| |] eqn:E2; [|done|done]. intros [= <- <-] down up.
  eexists _, _. eapply rtc_l; [eapply receiver_sends; [apply sized_datagram|exact E1]|].
  eapply rtc_once, sender_receives; [apply snoc_elem|]. left. by exists v.
Qed.

Lemma turn_reach k ph s r :
  match turn k ph s r with
  | Going _ s' r' | Finished s' r' => reach s r s' r'
  | Stuck => True
  end.
Proof.
  unfold turn. destruct ph.
  { destruct (send_all _ s) as [[|] s'| |] eqn:E; try done; by eapply reach_refill. }
  destruct (send_data _ _ _) as [[n i] [s1 o1]|e [s1 o1]|] eqn:E1; [|destruct e; try done|done].
  - destruct (deliver _ _ _ r) as [r1|] eqn:E2; [|done].
    destruct (answer k s1 r1) as [[s2 r2]|] eqn:E3; [|done].
    eapply reach_trans; [by eapply deliver_reach|by eapply answer_reach].
  - intros down up. exists down, up. eapply rtc_once, sender_has_nothing; [apply sized_datagram|exact E1].
Qed.

Lemma run_transfer_steps n k ph s r s' r' :
  run_transfer n k ph s r = Some (s', r') → reach s r s' r'.
Proof.
  revert k ph s r. induction n as [|n IH]; intros k ph s r; cbn [run_transfer]; [done|].
  pose proof (turn_reach k ph s r) as Ht. destruct (turn k ph s r) as [ph1 s1 r1|s1 r1|]; [| |done].
  - intros E. eapply reach_trans; [exact Ht|by eapply IH].
  - by intros [= <- <-].
Qed.
End Driver.

(** ** Flushing *)

(** What [flush_egress] comes to; [sent] is what the socket took. *)
Inductive flush :=
| Flushed (h : Heap) (sent : list (list Z))       (** [Done]: the loop ends *)
| FlushFailed (h : Heap) (sent : list (list Z))   (** an error, or the socket refuses a packet *)
| FlushAborted (p : panic)
| FlushUndefined                                  (** the pointer is not one to a connection *)
| Flushing (h : Heap) (sent : list (list Z)).     (** still in the loop *)

Definition QUICHE_ERR_DONE : Z := -1.

Section Flush.
Context {P : Profile} {O : OctetsOps} {HI : HashOrder} {L : LibcOps}.
(** [sendto k p i]: what the socket returns in round [k] for the packet [p] and
    the addresses [i]. *)
Context (sendto : nat → list Z → CSendInfo → Z) (clock : nat → nat → Z).

(** The loop of [flush_egress], at most [n] rounds of it.  The buffer [out] is
    static: a round gets it with what the one before left in it. *)
Fixpoint flush_egress (n k : nat) (conn : Z) (out : list Z) (send_info : CSendInfo)
    (sent : list (list Z)) (h : Heap) : flush :=
  match n with
  | 0%nat => Flushing h sent
  | S n' =>
      match quiche_conn_send conn out send_info (clock k 0) (clock k 1) h with
      | Returned (written, out', send_info') h' =>
          if written =? QUICHE_ERR_DONE then Flushed h' sent else
          if written <? 0 then FlushFailed h' sent else
          let p := take (Z.to_nat written) out' in
          if negb (sendto k p send_info' =? written) then FlushFailed h' sent else
          flush_egress n' (S k) conn out' send_info' (sent ++ [p]) h'
      | Aborted p => FlushAborted p
      | Undefined => FlushUndefined
      end
  end.

(** *** A window that was reported *)

(** The window was sent and its last report went out; nothing is unreported. *)
Definition reported_window (c : Connection) : Prop :=
  is_stopped c = true ∧ c_is_server c = true ∧ c_rtt c ≠ 0 ∧ batch_inv c ∧ unreported c = [].

Lemma reported_window_due c : reported_window c → elict_due c.
Proof. intros ([Hf _]%andb_prop & Hs & Hr & _). split; [by left|]. split; by right. Qed.

Lemma reported_window_again c : reported_window c → reported_window (after_elict_sent c).
Proof.
  intros (Hst & Hs & Hr & Hb & Hu). pose proof (after_elict_sent_inv c Hb) as Hb'. pose proof Hst as [Hf _]%andb_prop.
  unfold reported_window. split_and!; try done.
  - unfold is_stopped, after_elict_sent. rewrite Hf. cbn. by rewrite Hf.
  - unfold after_elict_sent. by rewrite Hf.
  - unfold after_elict_sent. by rewrite Hf.
  - unfold unreported, after_elict_sent. rewrite Hf. cbn. apply drop_ge. unfold zlen. lia.
Qed.

Context {HO : OctetsSpec O}.

Lemma send_empty_report c out t1 t2 :
  reported_window c → 0 <= next_pkt_num (c_pkt_num_spaces c).2 < u64_bound - 1 → 26 <= ♯out →
  send_data t1 t2 (c, out) =
    Ok (26, mkSendInfo (c_localaddr c) (c_peeraddr c))
       (after_elict_sent c, elict_packet (next_pkt_num (c_pkt_num_spaces c).2) 0 [] ++ drop 26 out).
Proof.
  intros Hw Hpn Ho. pose proof (reported_window_due c Hw) as Hdue. destruct Hw as (_ & _ & _ & Hb & Hu).
  pose proof (send_elict_Ok c out t1 t2 Hdue Hb) as E. cbv zeta in E. rewrite Hu in E.
  apply E; [unfold is_u64; lia|lia|exact Ho].
Qed.

(** A round of the loop. *)
Lemma send_report_ptr conn out info t1 t2 h c :
  h_conns h !! conn = Some c → reported_window c →
  0 <= next_pkt_num (c_pkt_num_spaces c).2 < u64_bound - 1 → 26 <= ♯out <= ssize_max →
  ∃ info', quiche_conn_send conn out info t1 t2 h =
    Returned (26, elict_packet (next_pkt_num (c_pkt_num_spaces c).2) 0 [] ++ drop 26 out, info')
      (set_conn conn (after_elict_sent c) h).
Proof.
  intros Hc Hw Hp Ho. unfold quiche_conn_send. destruct (Z.ltb_spec ssize_max (♯out)) as [|_]; [lia|].
  rewrite Hc, send_empty_report by (done || lia). cbv zeta. by eexists.
Qed.

Context (takes_all : ∀ k p i, sendto k p i = ♯p).

Lemma flush_reported n k conn out info sent h c :
  h_conns h !! conn = Some c → reported_window c → 26 <= ♯out <= ssize_max →
  0 <= next_pkt_num (c_pkt_num_spaces c).2 →
  next_pkt_num (c_pkt_num_spaces c).2 + Z.of_nat n < u64_bound →
  ∃ h' c', flush_egress n k conn out info sent h =
    Flushing h' (sent ++ ((λ pn, elict_packet pn 0 []) <$> seqZ (next_pkt_num (c_pkt_num_spaces c).2) (Z.of_nat n))) ∧
    h_conns h' !! conn = Some c' ∧ reported_window c'.
Proof.
  revert k out info sent h c. induction n as [|n IH]; intros k out info sent h c Hc Hw Ho Hp0 Hp; cbn [flush_egress].
  { exists h, c. by rewrite app_nil_r. }
  destruct (send_report_ptr conn out info (clock k 0) (clock k 1) h c) as (info' & ->); [done|done|lia|done|].
  cbn -[take elict_packet]. rewrite take_packet, takes_all by done.
  set (pn := next_pkt_num (c_pkt_num_spaces c).2) in *. set (p := elict_packet pn 0 []).
  assert (Hlp : ♯p = 26) by (unfold p; vm_compute; reflexivity).
  rewrite Hlp. cbn [negb Z.eqb Pos.eqb].
  assert (Epn : next_pkt_num (c_pkt_num_spaces (after_elict_sent c)).2 = pn + 1)
    by (unfold after_elict_sent; by destruct (c_stop_flag c)).
  destruct (IH (S k) (p ++ drop 26 out) info' (sent ++ [p]) (set_conn conn (after_elict_sent c) h) (after_elict_sent c))
    as (h' & c' & E & Hw'); [apply lookup_insert_eq|by apply reported_window_again|..].
  1-3: rewrite ?zlen_app, ?zlen_drop, ?Hlp, ?Epn; lia.
  exists h', c'. split; [|done]. rewrite E, Epn, <-app_assoc. do 2 f_equal.
  rewrite (seqZ_cons pn) by lia. cbn [fmap list_fmap app]. do 2 f_equal. f_equal; lia.
Qed.
End Flush.

(** ** Properties *)

Section Properties.
Context {P : Profile} {O : OctetsOps} {HO : OctetsSpec O} {HI : HashOrder} {HIS : HashOrderSpec HI}.

(** C36: flush_egress_never_done.  Once a window was sent and reported,
    [send_data] never returns [Done] any more: the check of [is_stopped] comes
    after the return of the [ElictAck] branch.  However often the loop of
    [flush_egress] goes round, on a socket that takes every packet, it is still
    in the loop, and every packet it sent was an [ElictAck] without offsets. *)
Theorem flush_egress_never_done {L : LibcOps} sendto clock n k conn out info h c :
  h_conns h !! conn = Some c → ♯out = 1350 → (∀ k p i, sendto k p i = ♯p) →
  is_stopped c = true → c_is_server c = true → c_rtt c ≠ 0 → batch_inv c → unreported c = [] →
  0 <= next_pkt_num (c_pkt_num_spaces c).2 → next_pkt_num (c_pkt_num_spaces c).2 + Z.of_nat n < u64_bound →
  ∃ h' c', flush_egress sendto clock n k conn out info [] h =
    Flushing h' ((λ pn, elict_packet pn 0 []) <$> seqZ (next_pkt_num (c_pkt_num_spaces c).2) (Z.of_nat n)) ∧
    h_conns h' !! conn = Some c' ∧ is_stopped c' = true.
Proof.
  intros Hc Ho Ht H1 H2 H3 H4 H5 Hp0 Hp.
  destruct (flush_reported sendto clock Ht n k conn out info [] h c) as (h' & c' & E & Hc' & Hw); try done.
  { rewrite Ho. done. }
  exists h', c'. split; [exact E|]. split; [exact Hc'|apply Hw].
Qed.

(** C37: empty_report_grows_window.  An [ElictAck] without offsets that is
    answered counts as a batch without losses: the ACK has no entries, and the
    growth of the window goes up by 9600 bytes although nothing was sent. *)
Theorem empty_report_grows_window s r t1 t2 t3 t4 t5 t6 :
  is_stopped s = true → c_rtt s ≠ 0 → batch_inv s → unreported s = [] → sender_ready s 8 →
  0 <= next_pkt_num (c_pkt_num_spaces s).2 < u64_bound - 1 → receiver_idle r →
  ∃ n1 i1 s1 o1 r1 n2 i2 r2 o2 s2,
    send_data t1 t2 (s, out_buf) = Ok (n1, i1) (s1, o1) ∧
    recv_slice (take (Z.to_nat n1) o1) t3 r = Ok 0 r1 ∧
    send_data t4 t5 (r1, out_buf) = Ok (n2, i2) (r2, o2) ∧
    recv_slice (take (Z.to_nat n2) o2) t6 s1 = Ok 0 s2 ∧
    incre_win (c_recovery s2) = incre_win (c_recovery s) + 9600 ∧
    decre_win (c_recovery s2) = decre_win (c_recovery s) ∧
    c_sent_pkt s2 = c_sent_pkt s ∧ is_stopped s2 = true.
Proof.
  intros H1 H2 H3 H4 Hrd Hpn Hidle. pose proof Hrd as (Hsrv & _). set (pn := next_pkt_num (c_pkt_num_spaces s).2) in *.
  assert (Hw : reported_window s) by done. pose proof H1 as [Hf Ha]%andb_prop.
  pose proof (send_empty_report s out_buf t1 t2 Hw Hpn ltac:(by rewrite zlen_out_buf)) as E1. fold pn in E1.
  assert (Hs1 : after_elict_sent s = set_stop_ack true (set_ack_point (♯(c_sent_pkt s)) (set_pkt_num_spaces
    ((c_pkt_num_spaces s).1, mkSpace (pn + 1) (recv_pkt_num (c_pkt_num_spaces s).2)) (set_sent_count 0 s))))
    by (unfold after_elict_sent; by rewrite Hf).
  destruct (exchange_Ok (after_elict_sent s) r pn 0 [] out_buf t3 t4 t5 t6) as (E2 & (o2 & E3 & Ht) & E4); try done.
  { rewrite Hs1. exact Hrd. }
  { unfold is_u64. lia. }
  { cbn. lia. }
  do 10 eexists. split; [exact E1|]. split; [rewrite take_packet by done; exact E2|]. split; [exact E3|].
  split; [rewrite Ht; exact E4|]. rewrite Hs1.
  assert (Hl : hash_iter (verdicts r [] ∅) = []).
  { apply length_zero_iff_nil. by rewrite hash_iter_length. }
  rewrite Hl. unfold after_ack_received. cbn [c_recovery set_recovery c_sent_pkt is_stopped c_stop_flag c_stop_ack
    set_high_priority set_send_buffer set_max_off set_recv_count set_stop_ack set_ack_point set_pkt_num_spaces set_sent_count].
  destruct Hrd as (_ & _ & _ & _ & Hm & _). unfold win_updated. rewrite Hm. cbv zeta.
  change (loss_weight _ [] (S754_zero false)) with (S754_zero false : f32).
  assert (Hg : f_gt (winadd (S754_zero false) PACKET_SIZE) (S754_zero false) = true) by (vm_compute; reflexivity).
  assert (H9 : f64_as_usize (winadd (S754_zero false) PACKET_SIZE) = 9600) by (vm_compute; reflexivity).
  rewrite Hg, H9. unfold is_stopped. cbn -[f_ne winadd].
  rewrite Hf. destruct (f_ne _ _); repeat split; reflexivity.
Qed.
End Properties.

(** The end of the run of [System]: the window is sent, reported and
    acknowledged. *)
Module DriverSamples.
#[local] Existing Instances debug_x86 ListOctets.ops ListOctets.spec map_order map_order_spec.
#[local] Existing Instances LinuxLibc.ops LinuxLibc.spec.
Definition ticking (k j : nat) : Z := Z.of_nat (10 * k + j).

Definition on_heap : Heap := mkHeap ∅ {[ 7 := Run.s6 ]}.
Lemma flush_egress_never_done_witness :
  ∃ h' c', flush_egress (λ _ p _, ♯p) ticking 1000 0 7 out_buf FfiSamples.no_info [] on_heap =
    Flushing h' ((λ pn, elict_packet pn 0 []) <$> seqZ 1 1000) ∧
    h_conns h' !! 7 = Some c' ∧ is_stopped c' = true.
Proof.
  apply (flush_egress_never_done (λ _ p _, ♯p) ticking 1000 0 7 out_buf FfiSamples.no_info on_heap Run.s6).
  - reflexivity.
  - reflexivity.
  - reflexivity.
  - vm_compute. reflexivity.
  - vm_compute. reflexivity.
  - vm_compute. congruence.
  - repeat split; vm_compute; congruence.
  - vm_compute. reflexivity.
  - vm_compute. congruence.
  - vm_compute. reflexivity.
Defined.

Lemma empty_report_grows_window_witness :
  ∃ n1 i1 s1 o1 r1 n2 i2 r2 o2 s2,
    send_data 20 21 (Run.s6, out_buf) = Ok (n1, i1) (s1, o1) ∧
    recv_slice (take (Z.to_nat n1) o1) 22 Run.r5 = Ok 0 r1 ∧
    send_data 23 24 (r1, out_buf) = Ok (n2, i2) (r2, o2) ∧
    recv_slice (take (Z.to_nat n2) o2) 25 s1 = Ok 0 s2 ∧
    incre_win (c_recovery s2) = incre_win (c_recovery Run.s6) + 9600 ∧
    decre_win (c_recovery s2) = decre_win (c_recovery Run.s6) ∧
    c_sent_pkt s2 = c_sent_pkt Run.s6 ∧ is_stopped s2 = true.
Proof.
  apply (empty_report_grows_window Run.s6 Run.r5).
  - vm_compute. reflexivity.
  - vm_compute. congruence.
  - repeat split; vm_compute; congruence.
  - vm_compute. reflexivity.
  - repeat split; vm_compute; congruence.
  - vm_compute. split; congruence.
  - repeat split; vm_compute; congruence.
Defined.
End DriverSamples.
