(* ===== verification/Flow.v ===== *)
(** * Flow: the two ends while a transfer runs

    The invariant of a transfer in which the network may lose any data packet
    but delivers control packets, as [Driver] runs it: the counters stay far
    from their bounds ([counters]); a chunk is kept with a retransmission left,
    or waits for its verdict ([budgets]); what was not lost arrived, and only
    what was lost is sent again ([delivery]).  Each section shows that one kind
    of exchange succeeds and keeps the invariant: a data packet, lost or not,
    an [ElictAck] with its ACK, the handshake, and a new window. *)
From Stdlib Require Import SpecFloat.
From S2P Require Import Prelude Effects Octets Packet OMap SoftFloat RangeBuf RecvBuf SendBuf Recovery Connection AckPath DataPath Sender Receiver System Driver.

(** ** Chunks in sequence *)

Lemma tiles_bounds D lo l hi :
  Forall (chunk_of D) l → tiles lo l hi →
  lo + ♯l <= hi ∧ ∀ c, c ∈ l → lo <= rg_off c ∧ chunk_end c <= hi.
Proof.
  intros Hl. revert lo. induction Hl as [|x l [[_ Hx] _] Hl IH]; intros lo Ht.
  { cbn in Ht. subst. split; [zlia|]. by intros c ?%elem_of_nil. }
  destruct Ht as [<- Ht]. destruct (IH _ Ht) as [Hlen Hb]. pose_len. unfold chunk_end in *.
  split; [zlia|]. intros c [->|Hc]%elem_of_cons; [lia|]. destruct (Hb c Hc). lia.
Qed.

Lemma tiles_same D lo l hi c c' :
  Forall (chunk_of D) l → tiles lo l hi → c ∈ l → c' ∈ l →
  rg_off c = rg_off c' ∨ chunk_end c = chunk_end c' → c = c'.
Proof.
  intros Hl. revert lo. induction Hl as [|x l [[_ Hx] _] Hl IH]; intros lo Ht; [by intros ?%elem_of_nil|].
  destruct Ht as [<- Ht]. destruct (tiles_bounds D _ _ _ Hl Ht) as [_ Hb].
  assert (Hd : ∀ y, y ∈ l → rg_off x < rg_off y ∧ chunk_end x < chunk_end y).
  { intros y Hy. destruct (Hb y Hy). rewrite Forall_forall in Hl. destruct (Hl y Hy) as [[_ ?] _].
    unfold chunk_end in *. lia. }
  intros [->|Hc]%elem_of_cons [->|Hc']%elem_of_cons He; [done| | |by eapply IH].
  - destruct (Hd c' Hc'). lia.
  - destruct (Hd c Hc). lia.
Qed.

(** ** Sums over chunks *)

Definition sum_over (f : Z → Z) (l : list RangeBuf) : Z := foldr (λ ch n, f (rg_off ch) + n) 0 l.

Lemma sum_over_app f l k : sum_over f (l ++ k) = sum_over f l + sum_over f k.
Proof. induction l as [|c l IH]; [done|]. unfold sum_over in *. cbn. rewrite IH. lia. Qed.

Lemma sum_over_const f n l : (∀ c, c ∈ l → f (rg_off c) = n) → sum_over f l = n * ♯l.
Proof.
  induction l as [|c l IH]; intros Hf; [change (0 = n * 0); lia|]. unfold sum_over in *. cbn [foldr].
  rewrite zlen_cons, (Hf c), IH; [lia| |by left]. intros x Hx. apply Hf. by right.
Qed.

Lemma sum_over_nonneg f l : (∀ c, c ∈ l → 0 <= f (rg_off c)) → 0 <= sum_over f l.
Proof.
  induction l as [|c l IH]; intros Hf; [done|]. unfold sum_over in *. cbn.
  pose proof (Hf c ltac:(by left)). assert (∀ x, x ∈ l → 0 <= f (rg_off x)) by (intros; apply Hf; by right).
  specialize (IH ltac:(done)). lia.
Qed.

Lemma sum_over_filter f (Pr : RangeBuf → Prop) `{!∀ x, Decision (Pr x)} l :
  (∀ c, c ∈ l → 0 <= f (rg_off c)) → sum_over f (filter Pr l) <= sum_over f l.
Proof.
  induction l as [|c l IH]; intros Hf; [done|]. rewrite filter_cons.
  pose proof (Hf c ltac:(by left)). assert (∀ x, x ∈ l → 0 <= f (rg_off x)) by (intros; apply Hf; by right).
  specialize (IH ltac:(done)). unfold sum_over in *. case_decide; cbn in *; lia.
Qed.

(** Lowering one summand lowers the sum. *)
Lemma sum_over_lower f g l ch :
  (∀ o, g o <= f o) → ch ∈ l → g (rg_off ch) < f (rg_off ch) → sum_over g l < sum_over f l.
Proof.
  intros Hle Hin Hlt.
  assert (Hall : ∀ k, sum_over g k <= sum_over f k).
  { induction k as [|c k IH]; [done|]. unfold sum_over in *. cbn. specialize (Hle (rg_off c)). lia. }
  induction l as [|c l IH]; [by apply elem_of_nil in Hin|]. specialize (Hall l). specialize (Hle (rg_off c)).
  unfold sum_over in *. cbn. apply elem_of_cons in Hin as [->|Hin]; [lia|]. specialize (IH Hin). lia.
Qed.

(** ** The invariant *)

(** The bound on the data that keeps every counter within 64 bits. *)
Definition max_transfer : Z := 2 ^ 47.

(** The transmissions the chunk at [o] can still get, and those of the whole
    transfer: 4 for every byte not yet written. *)
Definition left_for (s : Connection) (o : Z) : Z :=
  match c_sent_dic s !! o with Some x => x | None => 4 end.
Definition potential (D : list Z) (s : Connection) : Z :=
  4 * (♯D - c_written_data s) + sum_over (left_for s) (kept (c_send_buffer s)).

(** 1 before the handshake, 0 after it. *)
Definition greeting (s : Connection) : Z := if c_rtt s =? 0 then 1 else 0.

Record counters (D : list Z) (s r : Connection) : Prop := {
  co_size : ♯D < max_transfer;
  co_norms : ♯D <= 1024 * ♯(c_norm2_vec s);
  co_sent : ♯(c_sent_pkt s) <= 4 * ♯D;
  co_pn1 : 0 <= next_pkt_num (c_pkt_num_spaces s).1 <= ♯(c_sent_pkt s);
  co_pn2 : 0 <= next_pkt_num (c_pkt_num_spaces s).2 <= c_ack_point s;
  co_number : 0 <= c_sent_number s <= ♯(c_sent_pkt s);
  co_recv_s : 0 <= c_recv_count s ∧ c_recv_count s + greeting s <= 1 + c_ack_point s;
  co_high : 0 <= c_high_priority s <= c_ack_point s;
  co_mds : max_datagram_size (c_recovery s) = PACKET_SIZE;
  co_incre : 0 <= incre_win (c_recovery s) <= 9600 * c_ack_point s;
  co_decre : 0 <= decre_win (c_recovery s) <= 19176 * c_ack_point s;
  co_recv_r : 0 <= c_recv_count r ∧
    c_recv_count r + greeting s <= 1 + 2 * ♯(c_sent_pkt s) + c_ack_point s;
}.

Record budgets (D : list Z) (s : Connection) : Prop := {
  bu_range o x : c_sent_dic s !! o = Some x → 0 <= x <= 3;
  bu_sent o : is_Some (c_sent_dic s !! o) → o ∈ c_sent_pkt s;
  bu_offs : Forall (λ o, 0 <= o < c_written_data s) (c_sent_pkt s);
  bu_kept ch : ch ∈ kept (c_send_buffer s) → c_sent_dic s !! rg_off ch = Some 0 →
               rg_off ch ∈ unreported s;
  bu_pot : ♯(c_sent_pkt s) + potential D s <= 4 * ♯D;
}.

(** [lost]: the data packets the network loses, by their index. *)
Record delivery (lost : nat → bool) (s r : Connection) : Prop := {
  de_got i o : c_sent_pkt s !! i = Some o → lost i = false → is_Some (c_recv_dic r !! o);
  de_again ch : ch ∈ kept (c_send_buffer s) → rg_off ch ∉ unreported s →
                c_recv_dic r !! rg_off ch = None;
  de_lost i j o : (i < j)%nat → c_sent_pkt s !! i = Some o → c_sent_pkt s !! j = Some o → lost i = true;
  de_sorted : om_sorted (rb_data (c_rec_buffer r));
  de_ends : Forall (λ e, e = (rg_off e.2 + ♯(rg_data e.2), from (rg_data e.2) (rg_off e.2)))
              (rb_data (c_rec_buffer r));
  de_unread : rb_last_maxoff (c_rec_buffer r) = 0;
  de_stored o : is_Some (c_recv_dic r !! o) →
                ∃ k b, om_get k (rb_data (c_rec_buffer r)) = Some b ∧ rg_off b = o;
}.

(** The receiver has nothing to answer. *)
Definition idle (r : Connection) : Prop :=
  c_handshake_confirmed r = true ∧ c_recv_hashmap r = ∅ ∧ c_feed_back r = false.

Record flow (lost : nat → bool) (D : list Z) (s r : Connection) : Prop := {
  fl_counters : counters D s r;
  fl_budgets : budgets D s;
  fl_delivery : delivery lost s r;
  fl_idle : idle r;
}.

(** ** Where the transfer stands *)

(** The chunks of the window that are still to be handed out. *)
Definition rest (s : Connection) : list RangeBuf :=
  drop (Z.to_nat (sb_pos (c_send_buffer s))) (sb_data (c_send_buffer s)).

Record window (s : Connection) : Prop := {
  wi_acc : accounted (c_send_buffer s);
  wi_rest : rest s ≠ [];
  wi_fresh ch : ch ∈ rest s → ch ∈ kept (c_send_buffer s) ∧ rg_off ch ∉ unreported s;
  wi_stop : c_stop_flag s = false ∧ c_stop_ack s = false;
}.

(** The last packet of the window was sent and not yet reported. *)
Definition closing (s : Connection) : Prop :=
  c_rtt s ≠ 0 ∧ c_stop_flag s = true ∧ c_stop_ack s = false ∧
  sb_pos (c_send_buffer s) = 0 ∧ 1 <= c_sent_count s ∧ sb_data (c_send_buffer s) ≠ [].

(** The window is empty and everything sent was reported. *)
Definition quiet (s : Connection) : Prop := unreported s = [] ∧ sb_pos (c_send_buffer s) = 0.

(** [send_all] found nothing to send. *)
Definition drained (s : Connection) : Prop :=
  quiet s ∧ sb_data (c_send_buffer s) = [] ∧ sb_sent (c_send_buffer s) = 0 ∧
  c_stop_flag s = false ∧ c_stop_ack s = false.

Definition at_phase (ph : phase) (s : Connection) : Prop :=
  match ph with
  | Refilling => quiet s
  | Sending => window s ∨ closing s ∨ drained s
  end.

(** What [System] knows of the two ends; [all] is the ledger of the chunks. *)
Definition ends_ok (D : list Z) (all : list RangeBuf) (s r : Connection) : Prop :=
  sender_ok D (c_recv_dic r) all s ∧ receiver_inv (transmitted s all) r.

Lemma chunk_in_data D all s r ch :
  ends_ok D all s r → counters D s r → ch ∈ all →
  in_data s (rg_off ch) ∧ 0 <= rg_off ch < c_written_data s ∧ chunk_end ch <= ♯D ∧ chunk_ok ch.
Proof.
  intros [[Hi L] _] C Hch. pose proof (le_chunks _ _ _ _ L) as Hc.
  destruct (tiles_bounds D _ _ _ Hc (le_tiles _ _ _ _ L)) as [_ Hb]. destruct (Hb ch Hch).
  rewrite Forall_forall in Hc. destruct (Hc ch Hch) as [Hok [He _]]. pose proof Hok as [_ Hlen].
  pose proof (co_size _ _ _ C). pose proof (co_norms _ _ _ C).
  unfold chunk_end, max_transfer in *. split; [|repeat split; try lia; apply Hok].
  split; [unfold is_u64, u64_bound; lia|]. apply Z.div_lt_upper_bound; lia.
Qed.

Lemma left_nonneg D s o : budgets D s → 0 <= left_for s o.
Proof. intros B. unfold left_for. destruct (_ !! _) eqn:E; [|lia]. apply (bu_range _ _ B) in E. lia. Qed.

Lemma potential_nonneg D s : budgets D s → c_written_data s <= ♯D → 0 <= potential D s.
Proof.
  intros B Hw. unfold potential.
  pose proof (sum_over_nonneg (left_for s) (kept (c_send_buffer s)) (λ c _, left_nonneg D s _ B)). lia.
Qed.

(** ** A data packet *)

Section Data.
Context (lost : nat → bool).

Lemma data_sent_fields t ch s :
  let s' := after_data_sent t ch s in let b := c_send_buffer s in
  c_rtt s' = c_rtt s ∧ c_norm2_vec s' = c_norm2_vec s ∧ c_written_data s' = c_written_data s ∧
  c_sent_pkt s' = c_sent_pkt s ++ [rg_off ch] ∧
  c_sent_dic s' = <[rg_off ch := budget_after s (rg_off ch)]> (c_sent_dic s) ∧
  c_ack_point s' = c_ack_point s ∧ c_send_buffer s' = emitted ch b ∧
  c_high_priority s' = c_high_priority s ∧
  next_pkt_num (c_pkt_num_spaces s').1 = next_pkt_num (c_pkt_num_spaces s).1 + 1 ∧
  (c_pkt_num_spaces s').2 = (c_pkt_num_spaces s).2 ∧ c_sent_number s' = c_sent_number s + 1 ∧
  c_recv_count s' = c_recv_count s ∧ c_recovery s' = c_recovery s ∧
  c_sent_count s' = c_sent_count s + 1 ∧
  c_stop_flag s' = (if last_of_window ch b then true else c_stop_flag s) ∧ c_stop_ack s' = c_stop_ack s.
Proof. unfold after_data_sent. destruct (last_of_window ch (c_send_buffer s)); repeat split; done. Qed.

Lemma data_unreported t ch s :
  batch_inv s → unreported (after_data_sent t ch s) = unreported s ++ [rg_off ch].
Proof.
  intros (Hap & _). destruct (data_sent_fields t ch s) as (_ & _ & _ & E4 & _ & E6 & _).
  unfold unreported. rewrite E4, E6. apply drop_app_le. unfold zlen in *. lia.
Qed.

(** A chunk whose turn it is has a transmission left. *)
Lemma budget_left D s ch :
  budgets D s → ch ∈ kept (c_send_buffer s) → rg_off ch ∉ unreported s →
  match c_sent_dic s !! rg_off ch with Some x => 0 < x <= 3 | None => True end.
Proof.
  intros B Hk Hu. destruct (c_sent_dic s !! rg_off ch) as [x|] eqn:E; [|done].
  pose proof (bu_range _ _ B _ _ E). destruct (decide (x = 0)) as [->|]; [|lia].
  destruct Hu. by apply (bu_kept _ _ B ch Hk).
Qed.

Lemma budget_after_range D s ch :
  budgets D s → in_data s (rg_off ch) → ch ∈ kept (c_send_buffer s) → rg_off ch ∉ unreported s →
  0 <= budget_after s (rg_off ch) <= 3 ∧ budget_after s (rg_off ch) < left_for s (rg_off ch).
Proof.
  intros B Hin Hk Hu. pose proof (budget_left D s ch B Hk Hu) as Hb.
  destruct (priority_calculation_Ok _ _ Hin) as [_ Hp]. unfold budget_after, left_for.
  destruct (c_sent_dic s !! rg_off ch); lia.
Qed.

Lemma budgets_data D s t ch :
  batch_inv s → budgets D s → in_data s (rg_off ch) → 0 <= rg_off ch < c_written_data s →
  ch ∈ kept (c_send_buffer s) → rg_off ch ∉ unreported s →
  budgets D (after_data_sent t ch s) ∧ potential D (after_data_sent t ch s) + 1 <= potential D s.
Proof.
  intros Hb B Hin Ho Hk Hu. pose proof (data_unreported t ch s Hb) as Eu.
  destruct (budget_after_range D s ch B Hin Hk Hu) as [Hr Hlt].
  destruct (data_sent_fields t ch s) as (_ & _ & E3 & E4 & E5 & _ & E7 & _).
  generalize dependent (after_data_sent t ch s). intros s' Eu E3 E4 E5 E7.
  assert (Ek : kept (c_send_buffer s') = kept (c_send_buffer s)) by (rewrite E7; done).
  assert (Hl : ∀ o, left_for s' o <= left_for s o).
  { intros o. unfold left_for at 1. rewrite E5. destruct (decide (o = rg_off ch)) as [->|].
    - rewrite lookup_insert_eq. lia.
    - rewrite lookup_insert_ne by done. done. }
  assert (Hpot : potential D s' + 1 <= potential D s).
  { unfold potential. rewrite E3, Ek.
    enough (sum_over (left_for s') (kept (c_send_buffer s)) < sum_over (left_for s) (kept (c_send_buffer s))) by lia.
    apply (sum_over_lower _ _ _ ch Hl Hk). unfold left_for at 1. by rewrite E5, lookup_insert_eq. }
  split; [|done]. destruct B. constructor; rewrite ?E3, ?E4, ?Ek.
  - intros o x. rewrite E5. destruct (decide (o = rg_off ch)) as [->|].
    + rewrite lookup_insert_eq. by intros [= <-].
    + rewrite lookup_insert_ne by done. apply bu_range0.
  - intros o. rewrite E5, elem_of_app. intros [<-|[_ H]]%lookup_insert_is_Some; [right; by left|left; auto].
  - apply Forall_app. by rewrite Forall_singleton.
  - intros c Hc. rewrite E5, Eu, elem_of_app. destruct (decide (rg_off c = rg_off ch)) as [->|];
      [right; by left|]. rewrite lookup_insert_ne by done. left. auto.
  - rewrite zlen_app. change (♯[rg_off ch]) with 1. lia.
Qed.

Lemma counters_data D s r r' t ch :
  counters D s r → ♯(c_sent_pkt s) + 1 <= 4 * ♯D →
  c_recv_count r <= c_recv_count r' <= c_recv_count r + 2 →
  counters D (after_data_sent t ch s) r'.
Proof.
  intros C HN Hr.
  destruct (data_sent_fields t ch s) as (E1 & E2 & _ & E4 & _ & E6 & _ & E8 & E9 & E10 & E11 & E12 & E13 & _).
  assert (Hlen : ♯(c_sent_pkt s ++ [rg_off ch]) = ♯(c_sent_pkt s) + 1) by (rewrite zlen_app; done).
  generalize dependent (after_data_sent t ch s). intros s' E1 E2 E4 E6 E8 E9 E10 E11 E12 E13.
  destruct C. constructor; unfold greeting in *;
    rewrite ?E1, ?E2, ?E4, ?E6, ?E8, ?E9, ?E10, ?E11, ?E12, ?E13, ?Hlen; try done; lia.
Qed.

(** The receiver after the packet went out: it has the chunk, unless the
    packet was lost. *)
Definition after_transit (i : nat) (pn prio : Z) (ch : RangeBuf) (r : Connection) : Connection :=
  if lost i then r else after_data_received pn prio (rg_off ch) (rg_data ch) r.

Lemma stored_kept D all s r pn prio ch :
  ends_ok D all s r → delivery lost s r → ch ∈ all →
  let r' := after_data_received pn prio (rg_off ch) (rg_data ch) r in
  ∀ o, is_Some (c_recv_dic r' !! o) → ∃ k b, om_get k (rb_data (c_rec_buffer r')) = Some b ∧ rg_off b = o.
Proof.
  intros [[_ L] Hr] De Hch r' o Ho. cbn in Ho.
  change (rb_data (c_rec_buffer r')) with (om_insert (rg_off ch + ♯(rg_data ch))
    (from (rg_data ch) (rg_off ch)) (rb_data (c_rec_buffer r))).
  pose proof (de_sorted _ _ _ De) as Hs.
  destruct (decide (o = rg_off ch)) as [->|Hne].
  { exists (rg_off ch + ♯(rg_data ch)), (from (rg_data ch) (rg_off ch)).
    by rewrite om_get_insert, Z.eqb_refl by done. }
  rewrite lookup_insert_ne in Ho by done. destruct (de_stored _ _ _ De o Ho) as (k & b & Hg & <-).
  exists k, b. rewrite om_get_insert by done. split; [|done].
  destruct (Z.eqb_spec k (rg_off ch + ♯(rg_data ch))) as [Hk|]; [exfalso|done].
  apply om_get_elem in Hg; [|done]. pose proof (ri_buffer _ _ Hr) as Hcp. pose proof (de_ends _ _ _ De) as He.
  rewrite Forall_forall in Hcp, He. specialize (He _ Hg). apply (f_equal fst) in He. destruct (Hcp _ Hg) as (c & [_ Hc]%list_elem_of_filter & E1 & E2).
  cbn in *. rewrite E1, E2, Hk in He.
  pose proof (le_chunks _ _ _ _ L) as Hcs. pose proof Hcs as Hcs'. rewrite Forall_forall in Hcs'.
  destruct (Hcs' c Hc) as [[[(_ & _ & F1 & _) _] _] _]. destruct (Hcs' ch Hch) as [[[(_ & _ & F2 & _) _] _] _].
  destruct Hne. rewrite E1. f_equal.
  apply (tiles_same D 0 all (c_written_data s) c ch Hcs (le_tiles _ _ _ _ L) Hc Hch).
  right. unfold chunk_end. lia.
Qed.

Lemma delivery_data D all s r t pn prio ch :
  ends_ok D all s r → batch_inv s → delivery lost s r → ch ∈ all →
  ch ∈ kept (c_send_buffer s) → rg_off ch ∉ unreported s →
  delivery lost (after_data_sent t ch s) (after_transit (length (c_sent_pkt s)) pn prio ch r).
Proof.
  intros Hok Hb De Hch Hk Hu. pose proof (data_unreported t ch s Hb) as Eu.
  destruct (data_sent_fields t ch s) as (_ & _ & _ & E4 & _ & _ & E7 & _).
  generalize dependent (after_data_sent t ch s). intros s' Eu E4 E7.
  assert (Ek : kept (c_send_buffer s') = kept (c_send_buffer s)) by (rewrite E7; done).
  pose proof (stored_kept D all s r pn prio ch Hok De Hch) as Hst.
  assert (Hidx : ∀ i o, c_sent_pkt s' !! i = Some o →
    c_sent_pkt s !! i = Some o ∨ i = length (c_sent_pkt s) ∧ o = rg_off ch).
  { intros i o. rewrite E4. intros [?|[? [? <-]%list_lookup_singleton_Some]]%lookup_app_Some; [by left|right].
    split; [|done]. lia. }
  assert (Hlost : ∀ i, c_sent_pkt s !! i = Some (rg_off ch) → lost i = true).
  { intros i Hi. destruct (lost i) eqn:El; [done|]. destruct (de_got _ _ _ De i _ Hi El) as [x Hx].
    by rewrite (de_again _ _ _ De ch Hk Hu) in Hx. }
  assert (Hd : ∀ i j o, (i < j)%nat → c_sent_pkt s' !! i = Some o → c_sent_pkt s' !! j = Some o → lost i = true).
  { intros i j o Hij Hi Hj. destruct (Hidx i o Hi) as [Hi'|[-> _]]; destruct (Hidx j o Hj) as [Hj'|[-> ->]].
    - by eapply (de_lost _ _ _ De i j).
    - by apply Hlost.
    - apply lookup_lt_Some in Hj'. lia.
    - lia. }
  unfold after_transit. destruct (lost (length (c_sent_pkt s))) eqn:El; destruct De; constructor; try done;
    rewrite ?Ek, ?Eu.
  - intros i o Hi Hn. destruct (Hidx i o Hi) as [?|[-> _]]; [eauto|congruence].
  - intros c Hc. rewrite not_elem_of_app. intros [? _]. auto.
  - intros i o Hi Hn. cbn. apply lookup_insert_is_Some'. destruct (Hidx i o Hi) as [?|[-> ->]]; [right; eauto|by left].
  - intros c Hc. rewrite not_elem_of_app, list_elem_of_singleton. intros [? ?]. cbn.
    rewrite lookup_insert_ne by done. auto.
  - by apply om_sorted_insert.
  - by apply om_Forall_insert.
  - cbn. destruct (last _) as [[k ?]|]; [by destruct (k =? _)|done].
Qed.
End Data.

Section DataTurn.
Context {P : Profile} {O : OctetsOps} {HO : OctetsSpec O} {HI : HashOrder} {HIS : HashOrderSpec HI}.
Context (lost : nat → bool) (clock : nat → nat → Z).

Lemma rest_chunk s ch l :
  SendBuf.wf (c_send_buffer s) → rest s = ch :: l →
  ch ∈ sb_data (c_send_buffer s) ∧ ∀ c, c ∈ l → rg_off c ≠ rg_off ch.
Proof.
  intros (Hc & Hl & _) Hr. pose proof (laid_out_sorted _ _ _ Hc Hl) as Hs.
  rewrite <-(take_drop (Z.to_nat (sb_pos (c_send_buffer s))) (sb_data (c_send_buffer s))) in Hs |- *.
  fold (rest s) in Hs |- *. rewrite Hr in *. split; [rewrite elem_of_app; right; by left|].
  rewrite fmap_app, fmap_cons in Hs. apply StronglySorted_app in Hs as (_ & _ & Hs).
  apply StronglySorted_cons in Hs as [Hs _]. rewrite Forall_forall in Hs. intros c Hin.
  specialize (Hs (rg_off c) (list_elem_of_fmap_2 _ _ _ Hin)). lia.
Qed.

(** A packet that was not the last of the window leaves a smaller window. *)
Lemma window_data s t ch l :
  SendBuf.wf (c_send_buffer s) → batch_inv s → c_rtt s ≠ 0 → window s → rest s = ch :: l →
  window (after_data_sent t ch s) ∨ closing (after_data_sent t ch s).
Proof.
  intros Hw Hb Hrtt W Hr. pose proof (data_unreported t ch s Hb) as Eu.
  destruct (rest_chunk s ch l Hw Hr) as [Hin Hne].
  destruct (data_sent_fields t ch s) as (E1 & _ & _ & _ & _ & _ & E7 & _ & _ & _ & _ & _ & _ & E14 & E15 & E16).
  generalize dependent (after_data_sent t ch s). intros s' Eu E1 E7 E14 E15 E16.
  destruct W as [Wa _ Wf [Ws1 Ws2]]. destruct Hb as (B1 & B2 & _).
  assert (Hc0 : 0 <= c_sent_count s) by lia.
  destruct (last_of_window ch (c_send_buffer s)) eqn:El.
  - right. unfold closing. rewrite E1, E7, E14, E15, E16. cbn [emitted sb_pos sb_data]. rewrite El.
    repeat split; try done; [lia|]. intros Hnil. rewrite Hnil in Hin. by apply elem_of_nil in Hin.
  - left. destruct (emitted_accounted _ _ _ Hw Wa Hr El) as [A1 A2].
    constructor; unfold rest; rewrite ?E7, ?A2; [done| | |by rewrite E15, E16].
    + intros ->. unfold last_of_window in El. apply orb_false_iff in El as [_ El%Z.eqb_neq]. destruct El.
      unfold rest in Hr. apply (f_equal length) in Hr. rewrite length_drop in Hr. cbn in Hr.
      destruct Wa. unfold zlen. lia.
    + intros c Hc. destruct (Wf c) as [? ?]; [rewrite Hr; by right|]. split; [done|].
      rewrite Eu, not_elem_of_app, list_elem_of_singleton. split; [done|]. by apply Hne.
Qed.

Lemma data_packet_carries pn prio off data : carries_data (data_packet pn prio off data) = true.
Proof. reflexivity. Qed.

Lemma deliver_data D all s r k pn prio ch :
  ends_ok D all s r → counters D s r → ch ∈ all → is_u64 pn → 1 <= prio <= 3 →
  deliver clock k (lost (length (c_sent_pkt s))) (data_packet pn prio (rg_off ch) (rg_data ch)) r =
    Some (after_transit lost (length (c_sent_pkt s)) pn prio ch r).
Proof.
  intros Hok C Hch Hpn Hpr. unfold deliver, after_transit. rewrite data_packet_carries, andb_true_l.
  destruct (lost _); [done|].
  destruct (chunk_in_data D all s r ch Hok C Hch) as ([Ho _] & _ & He & [[(_ & _ & Hdl & _) _] Hlen]).
  destruct Hok as [[Hi _] _]. pose proof (si_batch _ _ Hi) as (Hap & _). destruct C.
  unfold chunk_end, max_transfer in *.
  rewrite recv_data_Ok; [done|done|unfold is_u8, u8_bound; lia|done|unfold u64_bound; lia|].
  unfold greeting, u64_bound in *. destruct (_ =? 0); lia.
Qed.

(** The data packet that goes out. *)
Lemma sent_data D all s r k ch l :
  ends_ok D all s r → flow lost D s r → window s → rest s = ch :: l → c_rtt s ≠ 0 → c_sent_count s < 8 →
  let pn := next_pkt_num (c_pkt_num_spaces s).1 in let prio := priority_of s (rg_off ch) in
  (∃ n i o, send_data (clock k 0) (clock k 1) (s, out_buf) = Ok (n, i) (after_data_sent (clock k 1) ch s, o) ∧
    take (Z.to_nat n) o = data_packet pn prio (rg_off ch) (rg_data ch)) ∧
  ch ∈ all ∧ is_u64 pn ∧ 1 <= prio <= 3.
Proof.
  intros Hok [C B De Hidle] W Hr Hrtt Hsc pn prio. pose proof Hok as [[Hi L] _].
  destruct (rest_chunk s ch l (si_buf _ _ Hi) Hr) as [Hin _].
  pose proof (le_buffered _ _ _ _ L ch Hin) as Hch.
  destruct (chunk_in_data D all s r ch Hok C Hch) as (Hd & Ho & He & [_ Hlen]).
  destruct (wi_fresh _ W ch) as [Hk Hu]; [rewrite Hr; by left|].
  pose proof (budget_left D s ch B Hk Hu) as Hbud. destruct (priority_calculation_Ok _ _ Hd) as [_ Hpr].
  pose proof (si_batch _ _ Hi) as (Hap & Hb2 & _).
  destruct (wi_stop _ W) as [Ws1 Ws2].
  assert (Hcs : can_send s (rg_off ch)).
  { destruct C. unfold can_send, is_u64, u64_bound, max_transfer in *. repeat split; try lia.
    destruct (c_sent_dic s !! rg_off ch); [lia|done]. }
  assert (♯(rg_data ch) = rg_len ch) as Hdl.
  { pose proof (le_chunks _ _ _ _ L) as Hc. rewrite Forall_forall in Hc.
    by destruct (Hc ch Hch) as [[[(_ & _ & <- & _) _] _] _]. }
  pose proof (zlen_nonneg (rg_data ch)) as Hz.
  split; [|split; [done|]; split; [destruct Hcs as (Hc1 & Hc2 & _); unfold is_u64 in *; lia|done]].
  pose proof (send_data_Ok s ch l out_buf (clock k 0) (clock k 1)) as E. eexists _, _, _.
  rewrite E; try done; [|by repeat split; try apply Hi; try lia|apply Hi|apply W|lia].
  split; [done|]. apply take_packet. unfold data_packet. zlia.
Qed.

Lemma turn_data D all s r k ch l :
  ends_ok D all s r → flow lost D s r → window s → rest s = ch :: l → c_rtt s ≠ 0 → c_sent_count s < 8 →
  ∃ pn prio, turn lost clock k Sending s r =
    Going Sending (after_data_sent (clock k 1) ch s)
      (after_transit lost (length (c_sent_pkt s)) pn prio ch r).
Proof.
  intros Hok F W Hr Hrtt Hsc.
  destruct (sent_data D all s r k ch l Hok F W Hr Hrtt Hsc) as ((n & i & o & E & Ht) & Hch & Hpn & Hpr).
  set (pn := next_pkt_num (c_pkt_num_spaces s).1) in *. set (prio := priority_of s (rg_off ch)) in *.
  exists pn, prio. unfold turn. rewrite E, Ht. destruct F as [C B De (_ & _ & Hfb)].
  rewrite (deliver_data D all) by done. destruct (wi_stop _ W) as [Ws1 Ws2].
  unfold answer. assert (send_ack (after_transit lost (length (c_sent_pkt s)) pn prio ch r) = false) as ->.
  { unfold after_transit. by destruct (lost _). }
  destruct (data_sent_fields (clock k 1) ch s) as (_ & _ & _ & _ & _ & _ & _ & _ & _ & _ & _ & _ & _ & _ & _ & E16).
  unfold is_stopped. by rewrite E16, Ws2, andb_false_r.
Qed.

Lemma flow_data D all s r t pn prio ch l :
  ends_ok D all s r → flow lost D s r → window s → rest s = ch :: l →
  flow lost D (after_data_sent t ch s) (after_transit lost (length (c_sent_pkt s)) pn prio ch r) ∧
  potential D (after_data_sent t ch s) + 1 <= potential D s.
Proof.
  intros Hok [C B De Hidle] W Hr. pose proof Hok as [[Hi L] _].
  destruct (rest_chunk s ch l (si_buf _ _ Hi) Hr) as [Hin _].
  pose proof (le_buffered _ _ _ _ L ch Hin) as Hch.
  destruct (chunk_in_data D all s r ch Hok C Hch) as (Hd & Ho & _).
  destruct (wi_fresh _ W ch) as [Hk Hu]; [rewrite Hr; by left|].
  destruct (budgets_data D s t ch (si_batch _ _ Hi) B Hd Ho Hk Hu) as [B' Hp]. split; [|done].
  assert (HN : ♯(c_sent_pkt s) + 1 <= 4 * ♯D).
  { pose proof (bu_pot _ _ B'). destruct (data_sent_fields t ch s) as (_ & _ & E3 & E4 & _).
    rewrite E4, zlen_app in H. change (♯[rg_off ch]) with 1 in H.
    pose proof (potential_nonneg D _ B' ltac:(rewrite E3; apply Hi)). lia. }
  constructor; [|done|by eapply delivery_data; try done; apply Hi|].
  - eapply counters_data; [done|done|]. unfold after_transit. destruct (lost _); cbn; lia.
  - unfold after_transit. destruct (lost _); [done|]. exact Hidle.
Qed.
End DataTurn.

(** ** An [ElictAck] and its ACK *)

(** The two ends after it. *)
Section Acked.
Context {HI : HashOrder}.

Definition reports (s r : Connection) : list (Z * Z) := hash_iter (verdicts r (unreported s) ∅).
Definition acked_sender (s r : Connection) : Connection :=
  after_ack_received (max_ack r) (reports s r) (after_elict_sent s).
Definition acked_receiver (t : Z) (s r : Connection) : Connection :=
  after_ack t (after_elict (next_pkt_num (c_pkt_num_spaces s).2) (unreported s) r).

Lemma acked_sender_fields s r :
  let s' := acked_sender s r in let s1 := after_elict_sent s in let l := reports s r in
  c_rtt s' = c_rtt s ∧ c_norm2_vec s' = c_norm2_vec s ∧ c_written_data s' = c_written_data s ∧
  c_sent_pkt s' = c_sent_pkt s ∧ c_sent_dic s' = c_sent_dic s ∧ c_ack_point s' = ♯(c_sent_pkt s) ∧
  c_send_buffer s' = mark (settled s1 l) (c_send_buffer s) ∧
  c_high_priority s' = c_high_priority s + high_losses s1 l ∧
  (c_pkt_num_spaces s').1 = (c_pkt_num_spaces s).1 ∧
  next_pkt_num (c_pkt_num_spaces s').2 = next_pkt_num (c_pkt_num_spaces s).2 + 1 ∧
  c_sent_number s' = c_sent_number s ∧ c_recv_count s' = c_recv_count s + 1 ∧
  c_recovery s' = win_updated (loss_weight s1 l (S754_zero false)) (f64_of_Z (♯l)) (c_recovery s) ∧
  c_sent_count s' = 0 ∧ c_stop_flag s' = c_stop_flag s ∧
  c_stop_ack s' = (if c_stop_flag s then true else c_stop_ack s).
Proof.
  unfold acked_sender, after_ack_received, after_elict_sent. destruct (c_stop_flag s) eqn:E; cbn;
    repeat split; done.
Qed.

Lemma acked_receiver_fields t s r :
  let r' := acked_receiver t s r in
  c_handshake_confirmed r' = c_handshake_confirmed r ∧ c_recv_hashmap r' = ∅ ∧ c_feed_back r' = false ∧
  c_recv_count r' = c_recv_count r + 1 ∧ c_rec_buffer r' = c_rec_buffer r ∧ c_recv_dic r' = c_recv_dic r.
Proof. repeat split; reflexivity. Qed.
End Acked.

Section Report.
Context {P : Profile} {O : OctetsOps} {HO : OctetsSpec O} {HI : HashOrder} {HIS : HashOrderSpec HI}.
Context (lost : nat → bool) (clock : nat → nat → Z).

Lemma unreported_sent s o : o ∈ unreported s → o ∈ c_sent_pkt s.
Proof. intros Ho. rewrite <-(take_drop (Z.to_nat (c_ack_point s)) (c_sent_pkt s)), elem_of_app. by right. Qed.

Lemma unreported_in_data D s r : sender_inv D s → counters D s r → budgets D s → Forall (in_data s) (unreported s).
Proof.
  intros Hi C B. apply Forall_forall. intros o Ho%unreported_sent. pose proof (bu_offs _ _ B) as Hb.
  rewrite Forall_forall in Hb. specialize (Hb o Ho). pose proof (si_written _ _ Hi). destruct C.
  unfold max_transfer in *. split; [unfold is_u64, u64_bound; lia|]. apply Z.div_lt_upper_bound; lia.
Qed.

Lemma win_updated_bounds ps num r :
  (length ps <= 8)%nat → Forall (λ p, 1 <= p <= 3) ps → max_datagram_size r = PACKET_SIZE →
  let r' := win_updated (batch_weight ps) num r in
  max_datagram_size r' = PACKET_SIZE ∧
  incre_win r <= incre_win r' <= incre_win r + 9600 ∧
  decre_win r <= decre_win r' <= decre_win r + 19176.
Proof.
  intros Hl Hp Hm. destruct (batch_bounds ps Hl Hp) as (B1 & B2 & _). unfold win_updated.
  rewrite Hm. cbv zeta. destruct (f_ne _ _), (f_gt _ _); cbn; repeat split; (done || lia).
Qed.

(** The reports are about at most the packets of the batch. *)
Lemma reports_length s r : batch_inv s → ♯(reports s r) <= c_sent_count s.
Proof.
  intros Hb. rewrite <-(zlen_unreported s Hb). unfold reports, zlen. rewrite hash_iter_length.
  pose proof (verdicts_size r (unreported s)). lia.
Qed.

Lemma reports_win D s r :
  sender_inv D s → counters D s r → budgets D s →
  let r' := c_recovery (acked_sender s r) in
  max_datagram_size r' = PACKET_SIZE ∧
  incre_win (c_recovery s) <= incre_win r' <= incre_win (c_recovery s) + 9600 ∧
  decre_win (c_recovery s) <= decre_win r' <= decre_win (c_recovery s) + 19176.
Proof.
  intros Hi C B. destruct (acked_sender_fields s r) as (_ & _ & _ & _ & _ & _ & _ & _ & _ & _ & _ & _ & E13 & _).
  cbv zeta. rewrite E13, loss_weight_batch. fold (batch_weight (missing_priorities (after_elict_sent s) (reports s r))).
  pose proof (reports_length s r (si_batch _ _ Hi)) as Hl. pose proof (si_batch _ _ Hi) as (_ & _ & Hb3).
  destruct (missing_priorities_ok (after_elict_sent s) (reports s r)) as [M1 M2].
  { apply Forall_forall. intros [o v] [Ho _]%verdict_entries. pose proof (unreported_in_data D s r Hi C B) as Hin.
    rewrite Forall_forall in Hin. specialize (Hin o Ho). unfold after_elict_sent. by destruct (c_stop_flag s). }
  apply win_updated_bounds; [|done|apply C]. unfold ELICT_FLAG, zlen in *. lia.
Qed.

Lemma counters_report D s r t :
  sender_inv D s → counters D s r → budgets D s → 1 <= c_sent_count s → c_rtt s ≠ 0 →
  counters D (acked_sender s r) (acked_receiver t s r).
Proof.
  intros Hi C B Hsc Hrtt. pose proof (si_batch _ _ Hi) as (Hap & Hb2 & Hb3).
  pose proof (reports_length s r (si_batch _ _ Hi)) as Hl. destruct (reports_win D s r Hi C B) as (W1 & W2 & W3).
  destruct (acked_sender_fields s r) as (E1 & E2 & _ & E4 & _ & E6 & _ & E8 & E9 & E10 & E11 & E12 & _).
  assert (Hh : 0 <= high_losses (after_elict_sent s) (reports s r) <= ♯(reports s r)).
  { unfold high_losses, zlen. pose proof (length_filter (λ e, e.2 ≠ 0 ∧ priority_of (after_elict_sent s) e.1 = 3)
      (reports s r)). lia. }
  generalize dependent (acked_sender s r). intros s' W1 W2 W3 E1 E2 E4 E6 E8 E9 E10 E11 E12.
  destruct (acked_receiver_fields t s r) as (_ & _ & _ & R4 & _).
  assert (Hg : greeting s' = greeting s) by (unfold greeting; by rewrite E1).
  assert (Hg0 : greeting s = 0) by (unfold greeting; by destruct (Z.eqb_spec (c_rtt s) 0)).
  destruct C. constructor; rewrite ?Hg, ?E2, ?E4, ?E6, ?E8, ?E9, ?E10, ?E11, ?E12, ?R4; try done; lia.
Qed.

(** What is kept after the ACK: what was not reported, and what the receiver
    does not have and can be sent again. *)
Lemma acked_kept s r ch :
  ch ∈ kept (c_send_buffer (acked_sender s r)) →
  ch ∈ kept (c_send_buffer s) ∧ (rg_off ch ∈ unreported s → ¬ is_settled s r (rg_off ch)).
Proof.
  destruct (acked_sender_fields s r) as (_ & _ & _ & _ & _ & _ & -> & _).
  rewrite mark_kept. intros [Hns Hk]%list_elem_of_filter. split; [done|]. intros Hu Hs. destruct Hns.
  unfold reports. apply elem_settled. split; [done|]. unfold after_elict_sent. by destruct (c_stop_flag s).
Qed.

Lemma acked_unreported s r : unreported (acked_sender s r) = [].
Proof.
  destruct (acked_sender_fields s r) as (_ & _ & _ & E4 & _ & E6 & _).
  unfold unreported. rewrite E4, E6. apply drop_ge. unfold zlen. lia.
Qed.

Lemma budgets_report D s r :
  budgets D s → budgets D (acked_sender s r) ∧ potential D (acked_sender s r) <= potential D s.
Proof.
  intros B. pose proof (acked_kept s r) as Hk. pose proof (acked_unreported s r) as Hu.
  destruct (acked_sender_fields s r) as (_ & _ & E3 & E4 & E5 & _ & E7 & _).
  assert (Hp : potential D (acked_sender s r) <= potential D s).
  { unfold potential. rewrite E3, E7, mark_kept.
    assert (Hl : left_for (acked_sender s r) = left_for s) by (unfold left_for; by rewrite E5). rewrite Hl.
    enough (∀ l, sum_over (left_for s) (filter (λ c, rg_off c ∉ settled (after_elict_sent s) (reports s r)) l)
      <= sum_over (left_for s) l) as Hle by (specialize (Hle (kept (c_send_buffer s))); lia).
    intros l. apply sum_over_filter. intros c _. by apply (left_nonneg D). }
  split; [|done]. generalize dependent (acked_sender s r). intros s' Hk Hu E3 E4 E5 E7 Hp. destruct B.
  constructor; rewrite ?E3, ?E4, ?E5; try done; [|lia].
  intros ch Hch Hz. destruct (Hk ch Hch) as [Hin Hns]. specialize (bu_kept0 ch Hin Hz).
  destruct (Hns bu_kept0). by right.
Qed.

Lemma delivery_report s r t :
  delivery lost s r → delivery lost (acked_sender s r) (acked_receiver t s r).
Proof.
  intros De. pose proof (acked_kept s r) as Hk.
  destruct (acked_sender_fields s r) as (_ & _ & _ & E4 & _).
  destruct (acked_receiver_fields t s r) as (_ & _ & _ & _ & R5 & R6).
  generalize dependent (acked_sender s r). generalize dependent (acked_receiver t s r). intros r' R5 R6 s' Hk E4.
  destruct De. constructor; rewrite ?E4, ?R5, ?R6; try done.
  intros ch Hch _. destruct (Hk ch Hch) as [Hin Hns].
  destruct (decide (rg_off ch ∈ unreported s)) as [Hu|Hu]; [|auto].
  destruct (c_recv_dic r !! rg_off ch) as [x|] eqn:E; [|done]. destruct (Hns Hu). left. by exists x.
Qed.

Lemma flow_report D s r t :
  sender_inv D s → flow lost D s r → 1 <= c_sent_count s → c_rtt s ≠ 0 →
  flow lost D (acked_sender s r) (acked_receiver t s r) ∧ potential D (acked_sender s r) <= potential D s.
Proof.
  intros Hi [C B De (I1 & I2 & I3)] Hsc Hrtt. destruct (budgets_report D s r B) as [B' Hp]. split; [|done].
  destruct (acked_receiver_fields t s r) as (R1 & R2 & R3 & _).
  constructor; [by apply counters_report|done|by apply delivery_report|]. unfold idle. by rewrite R1.
Qed.

(** The [ElictAck] that goes out. *)
Lemma sent_report D all s r k :
  ends_ok D all s r → flow lost D s r → c_rtt s ≠ 0 → c_sent_count s = 8 ∨ c_stop_flag s = true →
  ∃ n i o, send_data (clock k 0) (clock k 1) (s, out_buf) = Ok (n, i) (after_elict_sent s, o) ∧
    take (Z.to_nat n) o = elict_packet (next_pkt_num (c_pkt_num_spaces s).2) (8 * ♯(unreported s)) (unreported s).
Proof.
  intros [[Hi _] _] [C _ _ _] Hrtt Hdue. pose proof (si_batch _ _ Hi) as Hb.
  pose proof (zlen_unreported s Hb) as Hu. pose proof Hb as (Hap & Hb2 & Hb3). unfold ELICT_FLAG in Hb3.
  destruct (si_role _ _ Hi) as [Hsrv _]. destruct C. unfold max_transfer in *.
  pose proof (send_elict_Ok s out_buf (clock k 0) (clock k 1)) as E. cbv zeta in E. rewrite zlen_out_buf in E.
  specialize (E ltac:(split; [by left|]; split; [by right|done]) Hb
    ltac:(unfold is_u64, u64_bound; lia) ltac:(lia) ltac:(lia)).
  eexists _, _, _. split; [exact E|]. apply take_packet. unfold elict_packet. zlia.
Qed.

Lemma turn_report D all s r k :
  ends_ok D all s r → flow lost D s r → 1 <= c_sent_count s → c_rtt s ≠ 0 →
  c_sent_count s = 8 ∨ c_stop_flag s = true →
  turn lost clock k Sending s r =
    Going (if is_stopped (acked_sender s r) then Refilling else Sending)
      (acked_sender s r) (acked_receiver (clock k 4) s r).
Proof.
  intros Hok F Hsc Hrtt Hdue. destruct (sent_report D all s r k Hok F Hrtt Hdue) as (n & i & o & E1 & Ht1).
  destruct Hok as [[Hi _] Hr]. destruct F as [C B De (I1 & I2 & I3)].
  pose proof (unreported_in_data D s r Hi C B) as Hin.
  pose proof (si_batch _ _ Hi) as Hb. pose proof (zlen_unreported s Hb) as Hu.
  pose proof Hb as (Hap & Hb2 & Hb3). unfold ELICT_FLAG in Hb3. set (os := unreported s) in *.
  set (pn := next_pkt_num (c_pkt_num_spaces s).2) in *. destruct (si_role _ _ Hi) as [Hsrv _].
  assert (Hg0 : greeting s = 0) by (unfold greeting; by destruct (Z.eqb_spec (c_rtt s) 0)).
  destruct C. unfold max_transfer in *. rewrite Hg0 in *.
  destruct (exchange_Ok (after_elict_sent s) r pn (8 * ♯os) os out_buf (clock k 2) (clock k 3) (clock k 4) (clock k 5))
    as (E2 & (o2 & E3 & Ht) & E4).
  { destruct Hr. unfold receiver_idle. split_and!; try done; try tauto; unfold u64_bound; lia. }
  { unfold sender_ready, after_elict_sent. destruct (c_stop_flag s); cbn; unfold u64_bound; repeat split; try done; lia. }
  { unfold is_u64, u64_bound. lia. } { unfold is_u64, u64_bound. lia. }
  { unfold zlen in *. lia. }
  { unfold after_elict_sent. by destruct (c_stop_flag s). }
  { rewrite zlen_out_buf. lia. } { done. }
  unfold turn. rewrite E1, Ht1. unfold deliver.
  replace (carries_data (elict_packet pn (8 * ♯os) os)) with false by reflexivity. cbn [andb]. rewrite E2.
  unfold answer. replace (send_ack (after_elict pn os r)) with true by reflexivity.
  rewrite E3, Ht, E4. reflexivity.
Qed.

Lemma window_report s r : window s → window (acked_sender s r).
Proof.
  intros [Wa Wr Wf [Ws Wk]]. pose proof (acked_unreported s r) as Hu.
  destruct (acked_sender_fields s r) as (_ & _ & _ & _ & _ & _ & E7 & _ & _ & _ & _ & _ & _ & _ & E15 & E16).
  constructor; unfold rest in *; rewrite ?E7, ?Hu; [done|done| |by rewrite E15, E16, Ws].
  intros ch Hch. destruct (Wf ch Hch) as [Hk Hn]. split; [|by intros ?%elem_of_nil].
  rewrite mark_kept. apply list_elem_of_filter. split; [|done]. unfold reports.
  intros [? _]%elem_settled. done.
Qed.
End Report.

(** ** The handshake *)

Section Hello.
Context {P : Profile} {O : OctetsOps} {HO : OctetsSpec O} {HI : HashOrder} {HIS : HashOrderSpec HI}.
Context (lost : nat → bool) (clock : nat → nat → Z).

Definition greeted_sender (k : nat) (s : Connection) : Connection :=
  set_handshake_completed true (set_rtt (duration_since (clock k 5) (clock k 1))
    (set_recv_count (c_recv_count s + 1) (set_handshake (clock k 1) (set_handshake_completed true s)))).
Definition greeted_receiver (k : nat) (r : Connection) : Connection :=
  set_handshake (clock k 4) (set_feed_back false (set_handshake_confirmed true
    (set_feed_back true (set_handshake_confirmed false (set_recv_count (c_recv_count r + 1) r))))).

(** The handshake packet that goes out. *)
Lemma sent_greet D all s r k :
  ends_ok D all s r → c_rtt s = 0 → c_stop_flag s = false →
  ∃ n i o, send_data (clock k 0) (clock k 1) (s, out_buf) =
      Ok (n, i) (set_handshake (clock k 1) (set_handshake_completed true s), o) ∧
    take (Z.to_nat n) o = handshake_packet.
Proof.
  intros [[Hi _] _] Hrtt Hst. destruct (si_role _ _ Hi) as [Hs1 Hs2]. pose proof zlen_out_buf as Hob.
  rewrite send_hello_server by (done || lia). eexists _, _, _. split; [done|]. by apply take_packet.
Qed.

Lemma turn_greet D all s r k :
  ends_ok D all s r → flow lost D s r → c_rtt s = 0 → c_stop_flag s = false →
  turn lost clock k Sending s r = Going Sending (greeted_sender k s) (greeted_receiver k r).
Proof.
  intros [[Hi HL] Hr] [C _ _ _] Hrtt Hst. destruct (si_role _ _ Hi) as [Hs1 Hs2]. destruct (ri_role _ _ Hr) as [Hr1 Hr2].
  pose proof (si_batch _ _ Hi) as (Hap & _). pose proof zlen_out_buf as Hob. destruct C.
  assert (Hg : greeting s = 1) by (unfold greeting; by rewrite Hrtt).
  destruct (sent_greet D all s r k (conj (conj Hi HL) Hr) Hrtt Hst) as (n & i & o & Es & Et).
  unfold turn. rewrite Es, Et. unfold deliver.
  replace (carries_data handshake_packet) with false by reflexivity. cbn [andb].
  rewrite recv_hello by (unfold u64_bound, max_transfer in *; lia). rewrite Hr1. unfold answer.
  set (r1 := set_feed_back true (set_handshake_confirmed false (set_recv_count (c_recv_count r + 1) r))).
  set (s1 := set_handshake (clock k 1) (set_handshake_completed true s)).
  change ((modify (set_handshake_confirmed false);; modify (set_feed_back true);; mret 0)
    (set_recv_count (c_recv_count r + 1) r)) with (@Ok Connection Z 0 r1). cbv iota.
  replace (send_ack r1) with true by reflexivity.
  rewrite (send_hello_client r1) by (first [done | lia | apply Hr]).
  rewrite take_packet by done.
  rewrite recv_hello by (unfold s1, u64_bound, max_transfer in *; cbn; lia).
  replace (c_is_server s1) with true by (symmetry; exact Hs1).
  assert (E : (update_rtt (clock k 5);; modify (set_handshake_completed true);; mret 0)
    (set_recv_count (c_recv_count s1 + 1) s1) = Ok 0 (greeted_sender k s)).
  { unfold update_rtt. msimpl. unfold s1. cbn [c_rtt set_recv_count set_handshake set_handshake_completed].
    rewrite Hrtt. reflexivity. }
  rewrite E. unfold is_stopped. cbn [greeted_sender c_stop_flag set_handshake_completed set_rtt set_recv_count set_handshake].
  by rewrite Hst.
Qed.

Lemma flow_greet D s r k :
  flow lost D s r → c_rtt s = 0 → clock k 1 < clock k 5 →
  flow lost D (greeted_sender k s) (greeted_receiver k r) ∧ c_rtt (greeted_sender k s) ≠ 0.
Proof.
  intros [C B De (I1 & I2 & I3)] Hrtt Hclk.
  assert (Hg : greeting s = 1) by (unfold greeting; by rewrite Hrtt).
  assert (Hrt : c_rtt (greeted_sender k s) ≠ 0) by (cbn; unfold duration_since; lia).
  assert (Hg0 : greeting (greeted_sender k s) = 0)
    by (unfold greeting; by destruct (Z.eqb_spec (c_rtt (greeted_sender k s)) 0)).
  split; [|done]. constructor.
  - destruct C. constructor; rewrite ?Hg0; cbn; try done; lia.
  - destruct B. by constructor.
  - destruct De. by constructor.
  - done.
Qed.
End Hello.

(** ** Nothing to send *)

Section Drained.
Context {P : Profile} {O : OctetsOps} {HO : OctetsSpec O} {HI : HashOrder} {HIS : HashOrderSpec HI}.
Context (lost : nat → bool) (clock : nat → nat → Z).

Lemma emit_drained b out :
  sb_data b = [] → sb_pos b = 0 → sb_sent b = 0 → ♯out < u64_bound →
  ∃ stop b', SendBuf.emit out b = Ok (♯out, sb_off b, stop, out) b' ∧ same_chunks b b' ∧ sb_pos b' = 0.
Proof.
  intros Hd Hp Hs Ho. pose proof (zlen_nonneg out). unfold SendBuf.emit, off_front. rewrite get_bind, Hd.
  rewrite drop_nil. cbn [off_front_loop emit_loop]. rewrite ret_bind.
  rewrite (bind_Ok _ _ b (♯out, out) b).
  2:{ rewrite get_bind. by destruct (negb _). }
  rewrite get_bind, Hs. unfold uadd. rewrite checked_bind by (unfold is_u64; lia). rewrite modify_bind.
  destruct (_ <=? _); msimpl; cbn [sb_data sb_pos set_sb_pos set_sb_sent]; rewrite Hd, ?Hp; msimpl;
    eexists _, _; (split; [reflexivity|]); done.
Qed.

(** No packet goes out. *)
Lemma sent_drained D all s r k :
  ends_ok D all s r → c_rtt s ≠ 0 → drained s →
  ∃ b' o, send_data (clock k 0) (clock k 1) (s, out_buf) = Err Done (set_send_buffer b' s, o) ∧
        same_chunks (c_send_buffer s) b' ∧ sb_pos b' = 0.
Proof.
  intros [[Hi _] _] Hrtt ((Hu & Hp) & Hd & Hs & Hf1 & Hf2).
  pose proof (zlen_unreported s (si_batch _ _ Hi)) as Hsc. rewrite Hu in Hsc. change (♯[]) with 0 in Hsc.
  assert (Hdue : data_due s) by (repeat split; try apply Hi; try done; lia).
  set (tail := drop 26 out_buf). assert (Ht : ♯tail = 1324) by (unfold tail; rewrite zlen_drop, zlen_out_buf; lia).
  destruct (emit_drained (c_send_buffer s) tail Hd Hp Hs) as (stop & b' & E & Hsame & Hpos);
    [rewrite Ht; done|].
  enough (∃ o, send_data (clock k 0) (clock k 1) (s, out_buf) = Err Done (set_send_buffer b' s, o)) as (o & Eo) by by exists b', o.
  unfold send_data. rewrite get_bind. cbn [snd fst]. rewrite zlen_out_buf. cbn [Z.eqb]. rewrite (on_conn_Ok _ _ _ _ _ _ (write_pkt_type_data s Hdue)). decide_types.
  rewrite !ret_bind.
  assert (Ea : ∃ o, send_application (s, out_buf) = Err Done (set_send_buffer b' s, o)).
  { eexists. unfold send_application. rewrite get_bind. cbn [snd].
    rewrite slice_from_Some, some_bind by (pose proof zlen_out_buf; lia). change (Z.to_nat 26) with 26%nat. fold tail.
    erewrite on_conn_Ok; [|unfold on_send_buffer; by apply (zoom_Ok c_send_buffer set_send_buffer)].
    cbv beta iota. rewrite modify_bind, get_bind. cbn [fst c_written_data set_send_buffer].
    rewrite (si_off _ _ Hi), Z.leb_refl. reflexivity. }
  destruct Ea as (o & Ea). exists o. by rewrite (bind_Err _ _ _ _ _ Ea).
Qed.

Lemma turn_drained D all s r k :
  ends_ok D all s r → c_rtt s ≠ 0 → drained s →
  ∃ b', turn lost clock k Sending s r = Going Refilling (set_send_buffer b' s) r ∧
        same_chunks (c_send_buffer s) b' ∧ sb_pos b' = 0.
Proof.
  intros Hok Hrtt Hd. destruct (sent_drained D all s r k Hok Hrtt Hd) as (b' & o & E & Hb). exists b'.
  split; [|done]. unfold turn. by rewrite E.
Qed.

Lemma flow_same_chunks D s r b' :
  same_chunks (c_send_buffer s) b' → flow lost D s r →
  flow lost D (set_send_buffer b' s) r ∧ potential D (set_send_buffer b' s) = potential D s.
Proof.
  intros Hs [C B De Hi]. pose proof (same_chunks_kept _ _ Hs) as Ek.
  assert (Hp : potential D (set_send_buffer b' s) = potential D s) by (unfold potential; cbn; by rewrite Ek).
  split; [|done]. constructor; [| | |done].
  - destruct C. by constructor.
  - destruct B. constructor; try done; cbn [c_send_buffer set_send_buffer]; rewrite ?Ek, ?Hp; done.
  - destruct De. constructor; try done. cbn [c_send_buffer set_send_buffer]. by rewrite Ek.
Qed.
End Drained.

(** ** A new window *)

Section Refill.
Context {P : Profile} {O : OctetsOps} {HO : OctetsSpec O} {HI : HashOrder} {HIS : HashOrderSpec HI}.
Context (lost : nat → bool) (clock : nat → nat → Z).

Lemma no_high_losses n : f_gt (f64_div (f64_of_Z 0) (f64_of_Z n)) CONGESTION_THREAHOLD = false.
Proof. destruct (f64_of_Z n); reflexivity. Qed.

(** [rec'] follows [rec] in the choice of the window [w]. *)
Record next_window (high w : Z) (rec rec' : Recovery) : Prop := {
  nw_u64 : is_u64 w;
  nw_floor : high = 0 → 9600 <= w;
  nw_mds : max_datagram_size rec' = max_datagram_size rec;
  nw_incre : 0 <= incre_win rec → 0 <= incre_win rec' <= incre_win rec;
  nw_decre : 0 <= decre_win rec → 0 <= decre_win rec' <= decre_win rec;
}.

Lemma rollback_next high rec :
  Forall is_u64 (former_win_vecter rec) → high ≠ 0 →
  ∃ w rec', rollback rec = Ok w rec' ∧ next_window high w rec rec'.
Proof.
  intros Hf Hh. unfold rollback. rewrite get_bind.
  destruct (os_pop_last (former_win_vecter rec)) as [[w rest]|] eqn:Ho; eexists _, _; (split; [reflexivity|]).
  - rewrite (os_pop_last_elem _ _ _ Ho), Forall_app, Forall_singleton in Hf. constructor; cbn; tauto || lia.
  - constructor; cbn; try done; lia.
Qed.

Lemma cwnd_next high rec :
  0 <= incre_win rec → 2 * incre_win rec < u64_bound → 0 <= decre_win rec →
  ∃ w rec', cwnd rec = Ok w rec' ∧ next_window high w rec rec'.
Proof.
  intros Hi H2 Hd. eexists _, _. split; [by apply cwnd_Ok|]. unfold cwnd_state, balance.
  constructor; [|intros _| | |]; try (destruct (roll_back_flag rec); cbn; done || lia);
    unfold is_u64, PACKET_SIZE, INITIAL_WINDOW_PACKETS, u64_bound in *; lia.
Qed.

Lemma write_Ok D s r :
  sender_inv D s → counters D s r →
  ∃ w rec', next_window (c_high_priority s) w (c_recovery s) rec' ∧
    Connection.write s = Ok (accepted (c_send_buffer s) w (♯D - c_written_data s)) (refilled D w rec' s).
Proof.
  intros Hi C. pose proof (si_batch _ _ Hi) as (Hap & _). destruct C. unfold max_transfer in *. rewrite write_eq.
  set (s1 := set_sent_number 0 (set_high_priority 0 s)).
  assert (Hc : ∃ w rec', next_window (c_high_priority s) w (c_recovery s) rec' ∧
    (if f_gt (f64_div (f64_of_Z (c_high_priority s)) (f64_of_Z (c_sent_number s))) CONGESTION_THREAHOLD
     then on_recovery rollback else on_recovery cwnd) s1 = Ok w (set_recovery rec' s1)).
  { destruct (f_gt _ _) eqn:Eh.
    - assert (Hh : c_high_priority s ≠ 0) by (intros E; by rewrite E, no_high_losses in Eh).
      destruct (rollback_next (c_high_priority s) (c_recovery s) (si_hist _ _ Hi) Hh) as (w & rec' & E & Hn).
      exists w, rec'. split; [done|]. by apply (zoom_Ok c_recovery set_recovery).
    - destruct (cwnd_next (c_high_priority s) (c_recovery s)) as (w & rec' & E & Hn); [lia|unfold u64_bound; lia|lia|].
      exists w, rec'. split; [done|]. by apply (zoom_Ok c_recovery set_recovery). }
  destruct Hc as (w & rec' & Hn & E). exists w, rec'. split; [done|]. rewrite (bind_Ok _ _ _ _ _ E).
  apply (write_rest_Ok D s w rec' Hi), Hn.
Qed.

(** The sender after [send_all] at the time [now] opened the window [w]. *)
Definition restarted (now : Z) (s : Connection) : Connection :=
  set_handshake now (set_stop_ack false (set_stop_flag false s)).
Definition reopened (D : list Z) (w : Z) (rec' : Recovery) (now : Z) (s : Connection) : Connection :=
  let n := accepted (c_send_buffer s) w (♯D - c_written_data s) in
  set_total_offset (c_written_data s + n) (set_written_data (c_written_data s + n)
    (refilled D w rec' (restarted now s))).

Lemma restarted_inv D now s : sender_inv D s → sender_inv D (restarted now s).
Proof. intros []. by constructor. Qed.
Lemma restarted_counters D now s r : counters D s r → counters D (restarted now s) r.
Proof. intros []. by constructor. Qed.

Lemma write_and_count_Ok D s r now :
  sender_inv D s → counters D s r →
  ∃ w rec', next_window (c_high_priority s) w (c_recovery s) rec' ∧
    write_and_count (restarted now s) = Ok tt (reopened D w rec' now s).
Proof.
  intros Hi C. set (c := restarted now s).
  destruct (write_Ok D c r (restarted_inv D now s Hi) (restarted_counters D now s r C)) as (w & rec' & Hn & E).
  exists w, rec'. split; [done|]. unfold write_and_count.
  erewrite bind_Ok; [|unfold unwrap; by rewrite E]. rewrite get_bind.
  change (c_send_buffer c) with (c_send_buffer s). change (c_written_data c) with (c_written_data s).
  destruct (added_ok D w s Hi) as (Hn' & _). cbv zeta in Hn'. unfold reopened. fold c.
  set (n := accepted _ _ _) in *. pose proof (written_nonneg D s Hi). pose proof (si_size _ _ Hi).
  assert (Hu : is_u64 (c_written_data s + n)) by (unfold is_u64; lia).
  unfold uadd, refilled. cbn [c_written_data set_send_buffer set_recovery set_sent_number set_high_priority].
  change (c_written_data c) with (c_written_data s). rewrite checked_bind, modify_bind by done.
  cbn [c_total_offset set_written_data set_send_buffer set_recovery set_sent_number set_high_priority].
  change (c_total_offset c) with (c_total_offset s).
  rewrite (si_total _ _ Hi), checked_bind by done. reflexivity.
Qed.

Lemma turn_refill D s r k :
  sender_inv D s → counters D s r →
  (c_written_data s = ♯D ∧ sb_data (c_send_buffer s) = [] ∧
   turn lost clock k Refilling s r = Finished (restarted (clock k 0) s) r) ∨
  ((c_written_data s < ♯D ∨ sb_data (c_send_buffer s) ≠ []) ∧
   ∃ w rec', next_window (c_high_priority s) w (c_recovery s) rec' ∧
     turn lost clock k Refilling s r = Going Sending (reopened D w rec' (clock k 0) s) r).
Proof.
  intros Hi C. destruct (write_and_count_Ok D s r (clock k 0) Hi C) as (w & rec' & Hn & E).
  pose proof (si_written _ _ Hi) as Hw. unfold turn, send_all, set_handshake_now.
  rewrite !modify_bind, get_bind. fold (restarted (clock k 0) s).
  cbn [c_written_data c_send_data c_send_buffer restarted set_handshake set_stop_ack set_stop_flag].
  fold (restarted (clock k 0) s). rewrite (si_data _ _ Hi). unfold SendBuf.is_empty.
  destruct (Z.ltb_spec (c_written_data s) (♯D)) as [|Hge].
  { right. split; [by left|]. exists w, rec'. split; [done|]. by rewrite (bind_Ok _ _ _ _ _ E). }
  destruct (sb_data (c_send_buffer s)) as [|ch l]; [left; split; [lia|done]|].
  right. split; [by right|]. exists w, rec'. split; [done|]. by rewrite (bind_Ok _ _ _ _ _ E).
Qed.

Lemma reopened_fields D w rec' now s :
  let s' := reopened D w rec' now s in
  c_rtt s' = c_rtt s ∧ c_norm2_vec s' = c_norm2_vec s ∧
  c_written_data s' = c_written_data s + accepted (c_send_buffer s) w (♯D - c_written_data s) ∧
  c_sent_pkt s' = c_sent_pkt s ∧ c_sent_dic s' = c_sent_dic s ∧ c_ack_point s' = c_ack_point s ∧
  c_send_buffer s' = after_write (drop (Z.to_nat (c_written_data s)) D) w (pad (c_written_data s))
    (c_send_buffer s) ∧
  c_high_priority s' = 0 ∧ c_pkt_num_spaces s' = c_pkt_num_spaces s ∧ c_sent_number s' = 0 ∧
  c_recv_count s' = c_recv_count s ∧ c_recovery s' = rec' ∧ c_sent_count s' = c_sent_count s ∧
  c_stop_flag s' = false ∧ c_stop_ack s' = false.
Proof. repeat split; reflexivity. Qed.

(** The buffer after the refill: what was kept, and the new chunks. *)
Lemma reopened_buffer D w rec' now s :
  sender_inv D s → sb_pos (c_send_buffer s) = 0 →
  let b' := c_send_buffer (reopened D w rec' now s) in
  sb_data b' = kept (c_send_buffer s) ++ added D w s ∧ kept b' = sb_data b' ∧
  accounted b' ∧ sb_pos b' = 0 ∧ sb_sent b' = 0.
Proof.
  intros Hi Hp. destruct (reopened_fields D w rec' now s) as (_ & _ & _ & _ & _ & _ & E7 & _). cbv zeta. rewrite E7.
  pose proof (pad_range (c_written_data s)). pose proof (written_nonneg D s Hi). pose proof (si_written _ _ Hi).
  pose proof (si_size _ _ Hi). pose proof (si_off _ _ Hi) as Hoff. set (rst := drop (Z.to_nat (c_written_data s)) D).
  assert (Hrst : ♯rst = ♯D - c_written_data s) by (unfold rst; zlia).
  split; [|split; [|split; [|done]]].
  - unfold added, after_write. fold rst. cbn [sb_data pushed opened set_sb_used_length set_sb_len set_sb_sent
      set_sb_removed set_sb_max_data dropped set_sb_offset_recv set_sb_data sb_off]. by rewrite Hoff.
  - apply kept_all; [|apply after_write_unmarked]. apply after_write_wf; [apply Hi|lia|]. lia.
  - apply after_write_accounted; [apply Hi|lia| |done]. lia.
Qed.

(** New chunks were never sent. *)
Lemma added_fresh D all w s r ch :
  ends_ok D all s r → budgets D s → ch ∈ added D w s →
  c_sent_dic s !! rg_off ch = None ∧ c_recv_dic r !! rg_off ch = None.
Proof.
  intros [[Hi _] Hr] B Hin. destruct (added_ok D w s Hi) as (_ & Hc & Ht).
  destruct (tiles_bounds D _ _ _ Hc Ht) as [_ Hb]. destruct (Hb ch Hin) as [Hlo _].
  assert (Hn : rg_off ch ∉ c_sent_pkt s).
  { intros Hs. pose proof (bu_offs _ _ B) as Ho. rewrite Forall_forall in Ho. specialize (Ho _ Hs). lia. }
  split.
  - destruct (c_sent_dic s !! rg_off ch) eqn:E; [|done]. destruct Hn. apply (bu_sent _ _ B). by eexists.
  - destruct (c_recv_dic r !! rg_off ch) eqn:E; [|done]. destruct Hn.
    destruct (ri_got _ _ Hr (rg_off ch)) as (c & [Hc' _]%list_elem_of_filter & <-); [by eexists|done].
Qed.

Lemma counters_reopened D s r w rec' now :
  sender_inv D s → counters D s r → next_window (c_high_priority s) w (c_recovery s) rec' →
  counters D (reopened D w rec' now s) r.
Proof.
  intros Hi C []. pose proof (si_batch _ _ Hi) as (Hap & _).
  destruct (reopened_fields D w rec' now s) as (E1 & E2 & _ & E4 & _ & E6 & _ & E8 & E9 & E10 & E11 & E12 & _).
  generalize dependent (reopened D w rec' now s). intros s' E1 E2 E4 E6 E8 E9 E10 E11 E12.
  destruct C. constructor; unfold greeting in *;
    rewrite ?E1, ?E2, ?E4, ?E6, ?E8, ?E9, ?E10, ?E11, ?E12; try done; try congruence; lia.
Qed.

Lemma budgets_reopened D all s r w rec' now :
  ends_ok D all s r → budgets D s → quiet s →
  budgets D (reopened D w rec' now s) ∧ potential D (reopened D w rec' now s) <= potential D s.
Proof.
  intros Hok B [Hu Hp]. pose proof Hok as [[Hi _] _]. pose proof (written_nonneg D s Hi) as Hw0.
  destruct (reopened_buffer D w rec' now s Hi Hp) as (Hd & Hk & _).
  destruct (added_ok D w s Hi) as (Hn & Hc & Ht). destruct (tiles_bounds D _ _ _ Hc Ht) as [Hlen _].
  pose proof (λ ch, added_fresh D all w s r ch Hok B) as Hf.
  destruct (reopened_fields D w rec' now s) as (_ & _ & E3 & E4 & E5 & E6 & _).
  generalize dependent (reopened D w rec' now s). intros s' Hd Hk E3 E4 E5 E6. cbv zeta in *. set (n := accepted _ _ _) in *.
  assert (El : left_for s' = left_for s) by (unfold left_for; by rewrite E5).
  assert (Hpot : potential D s' <= potential D s).
  { unfold potential. rewrite E3, El, Hk, Hd, sum_over_app, (sum_over_const _ 4 (added D w s)); [lia|].
    intros c Hin. unfold left_for. by rewrite (proj1 (Hf c Hin)). }
  split; [|done]. destruct B. constructor; rewrite ?E4, ?E5; try done; [| |lia].
  - eapply Forall_impl; [exact bu_offs0|]. cbn. lia.
  - intros ch. rewrite Hk, Hd, elem_of_app. intros [Hch|Hch] Hz.
    + specialize (bu_kept0 ch Hch Hz). rewrite Hu in bu_kept0. by apply elem_of_nil in bu_kept0.
    + by rewrite (proj1 (Hf ch Hch)) in Hz.
Qed.

Lemma delivery_reopened D all s r w rec' now :
  ends_ok D all s r → budgets D s → quiet s → delivery lost s r → delivery lost (reopened D w rec' now s) r.
Proof.
  intros Hok B [Hu Hp] De. pose proof Hok as [[Hi _] _].
  destruct (reopened_buffer D w rec' now s Hi Hp) as (Hd & Hk & _).
  destruct (reopened_fields D w rec' now s) as (_ & _ & _ & E4 & _).
  generalize dependent (reopened D w rec' now s). intros s' Hd Hk E4. cbv zeta in *.
  destruct De. constructor; rewrite ?E4; try done. intros ch. rewrite Hk, Hd, elem_of_app. intros [Hch|Hch] _.
  - apply de_again0; [done|]. rewrite Hu. by intros ?%elem_of_nil.
  - by apply (added_fresh D all w s r ch Hok B).
Qed.

Lemma flow_reopened D all s r w rec' now :
  ends_ok D all s r → flow lost D s r → quiet s → next_window (c_high_priority s) w (c_recovery s) rec' →
  let s' := reopened D w rec' now s in
  flow lost D s' r ∧ potential D s' <= potential D s ∧ at_phase Sending s' ∧
  (c_written_data s < ♯D → c_high_priority s = 0 → sb_data (c_send_buffer s') ≠ []).
Proof.
  intros Hok [C B De Hidle] Q Hnw s'. pose proof Hok as [[Hi _] _]. pose proof Q as [Hu Hp].
  destruct (budgets_reopened D all s r w rec' now Hok B Q) as [B' Hpot].
  destruct (reopened_buffer D w rec' now s Hi Hp) as (Hd & Hk & Hacc & Hpos & Hsent).
  destruct (reopened_fields D w rec' now s) as (_ & _ & _ & E4 & _ & E6 & _ & _ & _ & _ & _ & _ & _ & E14 & E15).
  fold s' in B', Hpot, Hd, Hk, Hacc, Hpos, Hsent, E4, E6, E14, E15.
  assert (Hu' : unreported s' = []) by (unfold unreported in *; by rewrite E4, E6).
  split; [constructor; [by apply counters_reopened|done|by eapply delivery_reopened|done]|].
  split; [done|]. split.
  - destruct (decide (sb_data (c_send_buffer s') = [])) as [Hnil|Hne].
    + right; right. by split_and!.
    + left. assert (Hrest : rest s' = sb_data (c_send_buffer s')) by (unfold rest; by rewrite Hpos).
      constructor; rewrite ?Hrest, ?Hu'; [done|done| |done].
      intros ch Hch. rewrite Hk. split; [done|]. by intros ?%elem_of_nil.
  - intros Hlt Hh. rewrite Hd. intros [Hkn Han]%app_eq_nil. destruct (added_ok D w s Hi) as (_ & _ & Ht).
    rewrite Han in Ht. cbn [tiles] in Ht. unfold accepted in Ht. rewrite Hkn in Ht. cbn [total foldr] in Ht.
    pose proof (nw_floor _ _ _ _ Hnw Hh). unfold total in Ht. cbn [foldr] in Ht. lia.
Qed.
End Refill.
