(* ===== verification/Progress.v ===== *)
(** * Progress: every transfer ends, whatever data packets are lost

    [System] says what never goes wrong; this file shows that something goes
    right.  The application of [Driver] brings every transfer to its end, for
    any pattern of lost data packets, without a panic or an error, in a number
    of turns that is linear in the size of the data ([every_transfer_ends]);
    each turn lowers [measure].  What was delivered then is in the receive
    buffer, and what was not was sent once more than its priority, every time
    in vain.  [only_lost_chunks_are_repeated] and [every_transfer_can_complete]
    draw the consequences for the packets sent and for a network that loses
    nothing.  ([ElictAck]s and ACKs have to arrive: [exhausted_budget_panics]
    shows what happens to a chunk that is sent again without a verdict.) *)
From Stdlib Require Import SpecFloat.
From S2P Require Import Prelude Effects Octets Packet OMap SoftFloat RangeBuf RecvBuf SendBuf Recovery Connection AckPath DataPath Sender Receiver System Driver Flow.

(** ** The measure *)

(** Transmissions weigh most, then unreported packets; the rest orders the
    phases of a round, with one extra round for a window that was closed by a
    roll-back and for the chunks that are acknowledged but still buffered. *)
Definition measure (D : list Z) (ph : phase) (s : Connection) : Z :=
  16 * potential D s + 8 * c_sent_count s +
  (if SendBuf.is_empty (c_send_buffer s) then 0 else 3) +
  (if c_high_priority s =? 0 then 0 else 2) + greeting s +
  match ph with
  | Refilling => 4
  | Sending => if SendBuf.is_empty (c_send_buffer s) then 5 else 0
  end.

Lemma is_empty_eq b : SendBuf.is_empty b = bool_decide (sb_data b = []).
Proof. unfold SendBuf.is_empty. by destruct (sb_data b). Qed.

(** What a turn has to achieve. *)
Definition progresses (lost : nat → bool) (D : list Z) (ph : phase) (s : Connection) (p : progress) : Prop :=
  match p with
  | Going ph' s' r' => flow lost D s' r' ∧ at_phase ph' s' ∧ measure D ph' s' < measure D ph s
  | Finished s' r' => flow lost D s' r' ∧ c_written_data s' = ♯D ∧ sb_data (c_send_buffer s') = []
  | Stuck => False
  end.

Section Turns.
Context {P : Profile} {O : OctetsOps} {HO : OctetsSpec O} {HI : HashOrder} {HIS : HashOrderSpec HI}.
Context (lost : nat → bool) (clock : nat → nat → Z).

Lemma measure_nonneg D ph s : sender_inv D s → budgets D s → 0 <= measure D ph s.
Proof.
  intros Hi B. pose proof (potential_nonneg D s B (si_written _ _ Hi)). pose proof (si_batch _ _ Hi) as (? & ? & _).
  unfold measure, greeting. destruct (SendBuf.is_empty _), (_ =? 0), (_ =? 0), ph; lia.
Qed.

Lemma quiet_count D s : sender_inv D s → unreported s = [] → c_sent_count s = 0.
Proof. intros Hi Hu. rewrite <-(zlen_unreported s (si_batch _ _ Hi)), Hu. done. Qed.

Lemma refill_progresses D all s r k :
  ends_ok D all s r → flow lost D s r → quiet s → progresses lost D Refilling s (turn lost clock k Refilling s r).
Proof.
  intros Hok F Q. pose proof Hok as [[Hi _] _].
  destruct (turn_refill lost clock D s r k Hi (fl_counters _ _ _ _ F))
    as [(Hw & Hd & ->)|(Hor & w & rec' & Hnw & ->)]; cbn [progresses].
  { split; [|done]. destruct F as [[] [] [] ?]. constructor; [by constructor|by constructor|by constructor|done]. }
  destruct (flow_reopened lost D all s r w rec' (clock k 0) Hok F Q Hnw) as (F' & Hp & Hph & Hne).
  split; [done|]. split; [done|].
  destruct (reopened_fields D w rec' (clock k 0) s) as (E1 & _ & _ & _ & _ & _ & _ & E8 & _ & _ & _ & _ & E13 & _).
  unfold measure, greeting. rewrite E1, E8, E13, !is_empty_eq. rewrite Z.eqb_refl.
  generalize dependent (reopened D w rec' (clock k 0) s). intros s' F' Hp Hph Hne E1 E8 E13.
  pose proof (si_written _ _ Hi).
  destruct (Z.eqb_spec (c_high_priority s) 0), (decide (sb_data (c_send_buffer s) = [])) as [Hd|Hd],
    (decide (sb_data (c_send_buffer s') = [])) as [Hd'|Hd'];
    rewrite ?(bool_decide_eq_true_2 _ Hd), ?(bool_decide_eq_false_2 _ Hd), ?(bool_decide_eq_true_2 _ Hd'),
      ?(bool_decide_eq_false_2 _ Hd'); try lia.
  destruct Hne; try done. by destruct Hor.
Qed.

Lemma greet_progresses D all s r k :
  ends_ok D all s r → flow lost D s r → c_rtt s = 0 → clock k 1 < clock k 5 → window s ∨ drained s →
  progresses lost D Sending s (turn lost clock k Sending s r).
Proof.
  intros Hok F Hrtt Hc Hph. rewrite (turn_greet lost clock D all s r k); try done.
  2:{ destruct Hph as [W|(_ & _ & _ & ? & _)]; [apply W|done]. }
  destruct (flow_greet lost clock D s r k F Hrtt Hc) as [F' Hr]. split; [done|]. split.
  - destruct Hph as [[W1 W2 W3 W4]|Hd]; [left; by constructor|right; right; exact Hd].
  - unfold measure, greeting. rewrite Hrtt.
    destruct (Z.eqb_spec (c_rtt (greeted_sender clock k s)) 0); [done|]. cbn [Z.eqb].
    change (potential D (greeted_sender clock k s)) with (potential D s). cbn. lia.
Qed.

Lemma data_progresses D all s r k :
  ends_ok D all s r → flow lost D s r → c_rtt s ≠ 0 → window s → c_sent_count s < 8 →
  progresses lost D Sending s (turn lost clock k Sending s r).
Proof.
  intros Hok F Hrtt W Hsc. pose proof Hok as [[Hi _] _].
  destruct (rest s) as [|ch l] eqn:Hr; [by destruct (wi_rest _ W)|].
  destruct (turn_data lost clock D all s r k ch l Hok F W Hr Hrtt Hsc) as (pn & prio & ->).
  destruct (flow_data lost D all s r (clock k 1) pn prio ch l Hok F W Hr) as [F' Hp].
  split; [done|]. split.
  { destruct (window_data s (clock k 1) ch l (si_buf _ _ Hi) (si_batch _ _ Hi) Hrtt W Hr); [by left|right; by left]. }
  destruct (data_sent_fields (clock k 1) ch s) as (E1 & _ & _ & _ & _ & _ & E7 & E8 & _ & _ & _ & _ & _ & E14 & _).
  unfold measure, greeting. rewrite E1, E7, E8, E14. change (SendBuf.is_empty (emitted ch (c_send_buffer s)))
    with (SendBuf.is_empty (c_send_buffer s)). lia.
Qed.

Lemma report_progresses D all s r k :
  ends_ok D all s r → flow lost D s r → c_rtt s ≠ 0 → 1 <= c_sent_count s →
  (window s ∧ c_sent_count s = 8) ∨ closing s →
  progresses lost D Sending s (turn lost clock k Sending s r).
Proof.
  intros Hok F Hrtt Hsc Hph. pose proof Hok as [[Hi _] _].
  rewrite (turn_report lost clock D all s r k); try done.
  2:{ destruct Hph as [[_ ?]|(_ & ? & _)]; [by left|by right]. }
  destruct (flow_report lost D s r (clock k 4) Hi F Hsc Hrtt) as [F' Hp].
  pose proof (acked_unreported s r) as Hu.
  destruct (acked_sender_fields s r) as (E1 & _ & _ & _ & _ & _ & E7 & _ & _ & _ & _ & _ & _ & E14 & E15 & E16).
  split; [done|]. unfold is_stopped. rewrite E15, E16.
  assert (He : SendBuf.is_empty (c_send_buffer (acked_sender s r)) = SendBuf.is_empty (c_send_buffer s))
    by (rewrite E7; done).
  unfold measure, greeting. rewrite E1, E14, He. destruct Hph as [[W H8]|(_ & Hst & Hsa & Hpos & _ & Hne)].
  - destruct (wi_stop _ W) as [-> _]. cbn [andb]. split; [left; by apply window_report|].
    destruct (SendBuf.is_empty _), (_ =? 0), (_ =? 0), (_ =? 0); lia.
  - rewrite Hst. cbn [andb]. split; [split; [done|by rewrite E7]|]. rewrite is_empty_eq, bool_decide_eq_false_2 by done.
    destruct (c_high_priority (acked_sender s r) =? 0), (c_high_priority s =? 0), (c_rtt s =? 0); lia.
Qed.

Lemma drained_progresses D all s r k :
  ends_ok D all s r → flow lost D s r → c_rtt s ≠ 0 → drained s →
  progresses lost D Sending s (turn lost clock k Sending s r).
Proof.
  intros Hok F Hrtt Hd. destruct (turn_drained lost clock D all s r k Hok Hrtt Hd) as (b' & -> & Hs & Hpos).
  destruct (flow_same_chunks lost D s r b' Hs F) as [F' Hp]. split; [done|].
  destruct Hd as ((Hu & _) & Hnil & _). split; [by split|].
  unfold measure, greeting. rewrite Hp, !is_empty_eq. cbn [c_send_buffer set_send_buffer c_high_priority c_rtt c_sent_count].
  destruct Hs as (E & _). rewrite E, bool_decide_eq_true_2 by done. lia.
Qed.

(** Every turn succeeds and lowers the measure, until the transfer is over. *)
Lemma turn_progresses D all ph s r k :
  ends_ok D all s r → flow lost D s r → at_phase ph s → clock k 1 < clock k 5 →
  progresses lost D ph s (turn lost clock k ph s r).
Proof.
  intros Hok F Hph Hc. destruct ph; [by eapply refill_progresses|].
  pose proof (si_batch _ _ (proj1 (proj1 Hok))) as (B1 & B2 & B3). unfold ELICT_FLAG in B3.
  destruct (decide (c_rtt s = 0)) as [Hr|Hr].
  { eapply greet_progresses; try done. destruct Hph as [?|[(? & _)|?]]; [by left|done|by right]. }
  destruct Hph as [W|[Hcl|Hd]]; [|by eapply report_progresses; try done; [apply Hcl|right]|by eapply drained_progresses].
  destruct (decide (c_sent_count s = 8)) as [H8|H8].
  - eapply report_progresses; try done; [lia|by left].
  - eapply data_progresses; try done. lia.
Qed.

(** ** Whole transfers *)

Lemma reachable_ends D s r down up : reachable D (mkSystem s r down up) → ∃ all, ends_ok D all s r.
Proof. intros (all & [Hs Hr _ _])%reachable_ok. exists all. by split. Qed.

Lemma reachable_reach D s r s' r' down up :
  reachable D (mkSystem s r down up) → reach s r s' r' → ∃ down' up', reachable D (mkSystem s' r' down' up').
Proof.
  intros (st0 & H0 & Hr) Hs. destruct (Hs down up) as (d & u & Hs'). exists d, u, st0. split; [done|]. by etrans.
Qed.

Lemma run_ends D n :
  (∀ k, clock k 1 < clock k 5) →
  ∀ k ph s r down up, reachable D (mkSystem s r down up) → flow lost D s r → at_phase ph s →
  measure D ph s < Z.of_nat n →
  ∃ s' r', run_transfer lost clock n k ph s r = Some (s', r') ∧ flow lost D s' r' ∧
    c_written_data s' = ♯D ∧ sb_data (c_send_buffer s') = [].
Proof.
  intros Hc. induction n as [|n IH]; intros k ph s r down up Hst F Hph Hn;
    destruct (reachable_ends D s r down up Hst) as (all & Hok).
  { pose proof (measure_nonneg D ph s (proj1 (proj1 Hok)) (fl_budgets _ _ _ _ F)). lia. }
  cbn [run_transfer]. pose proof (turn_progresses D all ph s r k Hok F Hph (Hc k)) as Ht.
  pose proof (turn_reach lost clock k ph s r) as Hr. destruct (turn lost clock k ph s r) as [ph' s' r'|s' r'|]; [| |done].
  - destruct Ht as (F' & Hph' & Hm). destruct (reachable_reach D s r s' r' down up Hst Hr) as (d & u & Hst').
    apply (IH (S k) ph' s' r' d u Hst' F' Hph'). lia.
  - destruct Ht as (F' & Hw & Hd). by exists s', r'.
Qed.
End Turns.

(** ** The beginning *)

(** What the theorems ask of the sender: the data fit, every block has a norm,
    and the congestion control is fresh. *)
Definition loaded (D : list Z) (s : Connection) : Prop :=
  ♯D < max_transfer ∧ ♯D <= 1024 * ♯(c_norm2_vec s) ∧
  max_datagram_size (c_recovery s) = PACKET_SIZE ∧
  incre_win (c_recovery s) = 0 ∧ decre_win (c_recovery s) = 0.

Lemma start_flow lost D st :
  starts D st → loaded D (sys_sender st) →
  flow lost D (sys_sender st) (sys_receiver st) ∧ quiet (sys_sender st) ∧
  measure D Refilling (sys_sender st) = 64 * ♯D + 5.
Proof.
  intros [here there rec_s rec_r ns nr norms low high HD _] (Hsz & Hno & Hm & Hin & Hde). cbn in Hno, Hm, Hin, Hde.
  cbn [sys_sender sys_receiver]. pose proof (zlen_nonneg D) as Hd0.
  assert (Hp : potential D (set_send_data D (set_norm2_vec norms (set_low_split_point low (set_high_split_point high
    (initial here there rec_s true ns))))) = 4 * ♯D) by (unfold potential; cbn; lia).
  split; [|split; [done|]].
  - constructor; [| | |done].
    + constructor; try done; try (cbn; rewrite ?Hin, ?Hde; lia). change (0 <= 4 * ♯D). lia.
    + constructor; try done; try (by intros o []); try (by intros ch ?%elem_of_nil); [].
      rewrite Hp. change (0 + 4 * ♯D <= 4 * ♯D). lia.
    + constructor; try done; try (by intros o []); try (by intros ch ?%elem_of_nil); constructor.
  - unfold measure. rewrite Hp. cbn. lia.
Qed.

(** ** The end *)

Lemma sorted_same {A} (h : A → Z) l k :
  StronglySorted Z.lt (h <$> l) → StronglySorted Z.lt (h <$> k) → (∀ x, x ∈ l ↔ x ∈ k) → l = k.
Proof.
  revert k. induction l as [|x l IH]; intros [|y k] Hl Hk Hm; [done| | |].
  - exfalso. apply (not_elem_of_nil y), Hm. by left.
  - exfalso. apply (not_elem_of_nil x), Hm. by left.
  - rewrite fmap_cons in Hl, Hk. apply StronglySorted_cons in Hl as [Hxl Hl], Hk as [Hyk Hk].
    rewrite Forall_fmap, Forall_forall in Hxl, Hyk. cbn in Hxl, Hyk.
    assert (x = y) as <-.
    { assert (Hx : x ∈ y :: k) by (apply Hm; by left). assert (Hy : y ∈ x :: l) by (apply Hm; by left).
      apply elem_of_cons in Hx as [|Hx], Hy as [|Hy]; [done..|]. specialize (Hxl y Hy). specialize (Hyk x Hx). lia. }
    f_equal. apply IH; try done. intros z. specialize (Hm z). rewrite !elem_of_cons in Hm. split; intros Hz.
    + destruct (proj1 Hm (or_intror Hz)) as [->|]; [|done]. specialize (Hxl x Hz). lia.
    + destruct (proj2 Hm (or_intror Hz)) as [->|]; [|done]. specialize (Hyk x Hz). lia.
Qed.

Lemma tiles_ends D lo l hi :
  Forall (chunk_of D) l → tiles lo l hi → StronglySorted Z.lt (chunk_end <$> l).
Proof.
  intros Hl. revert lo. induction Hl as [|x l Hx Hl IH]; intros lo Ht; [constructor|].
  destruct Ht as [<- Ht]. rewrite fmap_cons. constructor; [by eapply IH|].
  destruct (tiles_bounds D _ _ _ Hl Ht) as [_ Hb]. apply Forall_fmap, Forall_forall. intros c Hc. cbn.
  destruct (Hb c Hc). rewrite Forall_forall in Hl. destruct (Hl c Hc) as [[_ ?] _]. unfold chunk_end in *. lia.
Qed.

(** What became of a chunk: the receiver has its bytes, or it was sent once
    more than its priority and lost every time. *)
Definition stored (r : Connection) (ch : RangeBuf) : Prop :=
  ∃ k b, (k, b) ∈ rb_data (c_rec_buffer r) ∧ rg_off b = rg_off ch ∧ rg_data b = rg_data ch.
Definition given_up (lost : nat → bool) (s : Connection) (ch : RangeBuf) : Prop :=
  transmissions s (rg_off ch) = priority_of s (rg_off ch) + 1 ∧
  ∀ i, c_sent_pkt s !! i = Some (rg_off ch) → lost i = true.

Lemma transmissions_pos s o : 0 < transmissions s o ↔ o ∈ c_sent_pkt s.
Proof.
  unfold transmissions. split.
  - destruct (filter (λ x, x = o) (c_sent_pkt s)) as [|x l] eqn:Ef; [done|]. intros _.
    assert (x ∈ filter (λ x, x = o) (c_sent_pkt s)) as [<- ?]%list_elem_of_filter by (rewrite Ef; by left). done.
  - intros Ho. assert (o ∈ filter (λ x, x = o) (c_sent_pkt s)) as Hin by by apply list_elem_of_filter.
    destruct (filter _ _); [by apply elem_of_nil in Hin|]. rewrite zlen_cons. pose_len. lia.
Qed.

Section Ending.
Context (lost : nat → bool).

(** No chunk is sent more often than its budget allows. *)
Lemma transmissions_bound D all s r o :
  ends_ok D all s r → flow lost D s r → transmissions s o <= priority_of s o + 1 ∨ transmissions s o = 0.
Proof.
  intros [[Hi _] _] F. pose proof (si_budget _ _ Hi o) as Hb. destruct (c_sent_dic s !! o) as [x|] eqn:E; [|by right].
  left. destruct Hb as [Hx Hp]. pose proof (bu_range _ _ (fl_budgets _ _ _ _ F) o x E) as Hr.
  destruct (fl_counters _ _ _ _ F). unfold max_transfer in *.
  assert (Ht : 0 <= transmissions s o <= ♯(c_sent_pkt s)).
  { unfold transmissions, zlen. pose proof (length_filter (λ y, y = o) (c_sent_pkt s)). lia. }
  destruct (decide (transmissions s o <= priority_of s o + 1)) as [|Hn]; [done|]. exfalso.
  unfold wrap64, u64_bound in Hx. set (d := priority_of s o + 1 - transmissions s o) in *.
  rewrite <-(Z.mod_add d 1) in Hx by lia. rewrite Z.mod_small in Hx by lia. lia.
Qed.

Lemma received_stored D all s r ch :
  ends_ok D all s r → flow lost D s r → ch ∈ all → is_Some (c_recv_dic r !! rg_off ch) → stored r ch.
Proof.
  intros [[_ L] Hr] F Hch Hs. destruct (fl_delivery _ _ _ _ F) as [_ _ _ Hso _ _ Hstd].
  destruct (Hstd _ Hs) as (k & b & Hg & Ho). apply om_get_elem in Hg; [|done].
  pose proof (ri_buffer _ _ Hr) as Hcp. rewrite Forall_forall in Hcp.
  destruct (Hcp _ Hg) as (c & [_ Hc]%list_elem_of_filter & E1 & E2). cbn in E1, E2. exists k, b. split; [done|]. split; [done|].
  rewrite E2. f_equal. apply (tiles_same D 0 all (c_written_data s) c ch (le_chunks _ _ _ _ L) (le_tiles _ _ _ _ L) Hc Hch).
  left. congruence.
Qed.

Lemma ended D all s r :
  ends_ok D all s r → flow lost D s r → c_written_data s = ♯D → sb_data (c_send_buffer s) = [] →
  tiles 0 all (♯D) ∧ concat (rg_data <$> all) = D ∧ ∀ ch, ch ∈ all → stored r ch ∨ given_up lost s ch.
Proof.
  intros Hok F Hw Hd. pose proof Hok as [[Hi L] _]. pose proof (le_tiles _ _ _ _ L) as Ht. rewrite Hw in Ht.
  split; [done|]. split.
  - destruct (tiles_concat D 0 all _ ltac:(lia) (le_chunks _ _ _ _ L) Ht) as [-> _].
    rewrite Z.sub_0_r, drop_0. apply take_ge. unfold zlen. lia.
  - intros ch Hch. destruct (c_recv_dic r !! rg_off ch) as [x|] eqn:E.
    { left. eapply received_stored; done. }
    right. destruct (le_accounted _ _ _ _ L ch Hch) as [Hk|[[y Hy]|Hb]]; [|congruence|].
    { unfold kept in Hk. rewrite Hd in Hk. by apply elem_of_nil in Hk. }
    destruct (chunk_in_data D all s r ch Hok (fl_counters _ _ _ _ F) Hch) as (Hin & _).
    destruct (priority_calculation_Ok _ _ Hin) as [_ Hp]. split.
    + destruct (transmissions_bound D all s r (rg_off ch) Hok F); lia.
    + intros i Hs. destruct (lost i) eqn:El; [done|].
      destruct (de_got _ _ _ (fl_delivery _ _ _ _ F) i _ Hs El). congruence.
Qed.

(** When every chunk arrived, the receive buffer is the data. *)
Lemma all_stored D all s r :
  ends_ok D all s r → flow lost D s r → tiles 0 all (♯D) → (∀ ch, ch ∈ all → stored r ch) →
  (λ b, (rg_off b, rg_data b)) <$> (rb_data (c_rec_buffer r)).*2 = (λ b, (rg_off b, rg_data b)) <$> all.
Proof.
  intros [[_ L] Hr] F Ht Hst. pose proof (le_chunks _ _ _ _ L) as Hc. destruct (fl_delivery _ _ _ _ F) as [_ _ _ Hso Hen _ _].
  pose proof (ri_buffer _ _ Hr) as Hcp. rewrite Forall_forall in Hcp.
  apply (sorted_same (λ p, p.1 + ♯(p.2))).
  - unfold om_sorted in Hso. erewrite <-list_fmap_compose, <-list_fmap_compose, list_fmap_ext; [exact Hso|].
    intros i e He. cbn. apply list_elem_of_lookup_2 in He. rewrite Forall_forall in Hen. exact (eq_sym (f_equal fst (Hen e He))).
  - rewrite <-list_fmap_compose. erewrite list_fmap_ext; [by eapply tiles_ends|].
    intros i c Hl. cbn. apply list_elem_of_lookup_2 in Hl. rewrite Forall_forall in Hc.
    destruct (Hc c Hl) as [[[(_ & _ & Hlen & _) _] _] _]. unfold chunk_end. lia.
  - intros p. split.
    + intros (b & -> & (e & -> & He)%list_elem_of_fmap)%list_elem_of_fmap.
      destruct (Hcp e He) as (c & [_ Hin]%list_elem_of_filter & -> & ->).
      apply list_elem_of_fmap. by exists c.
    + intros (c & -> & Hin)%list_elem_of_fmap. destruct (Hst c Hin) as (k & b & He & <- & <-).
      apply list_elem_of_fmap. exists b. split; [done|]. apply list_elem_of_fmap. by exists (k, b).
Qed.

(** When nothing was lost, every chunk arrived. *)
Lemma none_lost_stored D all s r ch :
  (∀ i, lost i = false) → ends_ok D all s r → flow lost D s r →
  c_written_data s = ♯D → sb_data (c_send_buffer s) = [] → ch ∈ all → stored r ch.
Proof.
  intros Hnl Hok F Hw Hd Hch. destruct (ended D all s r Hok F Hw Hd) as (_ & _ & Hall).
  destruct (Hall ch Hch) as [?|[Hn Hlost]]; [done|]. exfalso.
  destruct (chunk_in_data D all s r ch Hok (fl_counters _ _ _ _ F) Hch) as (Hin & _).
  destruct (priority_calculation_Ok _ _ Hin) as [_ Hp].
  assert (rg_off ch ∈ c_sent_pkt s) as [i Hi']%list_elem_of_lookup by (apply transmissions_pos; lia).
  specialize (Hlost i Hi'). by rewrite Hnl in Hlost.
Qed.

(** When nothing was lost, the receive buffer is the data. *)
Lemma none_lost_data D all s r :
  (∀ i, lost i = false) → ends_ok D all s r → flow lost D s r →
  c_written_data s = ♯D → sb_data (c_send_buffer s) = [] →
  concat (rg_data <$> (rb_data (c_rec_buffer r)).*2) = D.
Proof.
  intros Hnl Hok F Hw Hd. destruct (ended D all s r Hok F Hw Hd) as (Ht & Hc & _).
  pose proof (λ ch, none_lost_stored D all s r ch Hnl Hok F Hw Hd) as Hst.
  rewrite <-Hc. pose proof (all_stored D all s r Hok F Ht Hst) as Heq. apply (f_equal (fmap snd)) in Heq.
  rewrite <-(list_fmap_compose _ snd all), <-(list_fmap_compose _ snd _.*2) in Heq.
  exact (f_equal (@concat Z) Heq).
Qed.
End Ending.

(** ** Properties *)

(** The sender has nothing left to send, sent every chunk once, and the
    receiver holds the data, in order and complete. *)
Definition complete {P : Profile} (D : list Z) (s r : Connection) : Prop :=
  (∀ now, ∃ s', send_all now s = Ok false s') ∧ NoDup (c_sent_pkt s) ∧
  concat (rg_data <$> (rb_data (c_rec_buffer r)).*2) = D.

(** The turns that are enough for the data [D]. *)
Definition enough (D : list Z) : nat := Z.to_nat (64 * ♯D + 6).

Section Liveness.
Context {P : Profile} {O : OctetsOps} {HO : OctetsSpec O} {HI : HashOrder} {HIS : HashOrderSpec HI}.

Lemma starts_ends lost clock D st :
  starts D st → loaded D (sys_sender st) → (∀ k, clock k 1%nat < clock k 5%nat) →
  ∃ s r all, run_transfer lost clock (enough D) 0 Refilling (sys_sender st) (sys_receiver st) = Some (s, r) ∧
    (∃ down up, rtc step st (mkSystem s r down up)) ∧ ends_ok D all s r ∧ flow lost D s r ∧
    c_written_data s = ♯D ∧ sb_data (c_send_buffer s) = [].
Proof.
  intros H0 Hl Hc. destruct (start_flow lost D st H0 Hl) as (F & Q & Hm). destruct st as [s0 r0 down up].
  assert (Hst : reachable D (mkSystem s0 r0 down up)) by (eexists; by split; [|apply rtc_refl]).
  destruct (run_ends lost clock D (enough D) Hc 0%nat Refilling s0 r0 down up Hst F Q) as (s & r & E & F' & Hw & Hd).
  { cbn in Hm. rewrite Hm. unfold enough. pose proof (zlen_nonneg D). lia. }
  pose proof (run_transfer_steps _ _ _ _ _ _ _ _ _ E) as Hr. destruct (Hr down up) as (d & u & Hs).
  destruct (reachable_reach D s0 r0 s r down up Hst Hr) as (d' & u' & Hst').
  destruct (reachable_ends D s r d' u' Hst') as (all & Hok). exists s, r, all. split; [done|].
  split; [by exists d, u|done].
Qed.

(** More turns than a run needs change nothing. *)
Lemma run_transfer_unique lost clock n m k ph s r x y :
  run_transfer lost clock n k ph s r = Some x → run_transfer lost clock m k ph s r = Some y → x = y.
Proof.
  revert m k ph s r. induction n as [|n IH]; intros [|m] k ph s r; cbn [run_transfer]; try done.
  destruct (turn lost clock k ph s r); [apply IH|congruence|done].
Qed.

(** C3: every_transfer_ends.  Whatever data packets the network loses, as long
    as handshakes, [ElictAck]s and ACKs arrive and the clock moves during the
    handshake: the application brings the transfer of data below 2^47 bytes,
    with a norm for every block, to its end after at most 64 turns per byte and
    6 more, without a panic or an error.  The data then is cut into chunks, and the
    bytes of each are in the receive buffer, or it was sent exactly once more
    than its priority (2 to 4 times) and every one of these packets was
    lost. *)
Theorem every_transfer_ends lost clock D st :
  starts D st → loaded D (sys_sender st) → (∀ k, clock k 1%nat < clock k 5%nat) →
  ∃ s r, run_transfer lost clock (enough D) 0 Refilling (sys_sender st) (sys_receiver st) = Some (s, r) ∧
    ∃ all, tiles 0 all (♯D) ∧ concat (rg_data <$> all) = D ∧
      ∀ ch, ch ∈ all → stored r ch ∨ given_up lost s ch.
Proof.
  intros H0 Hl Hc. destruct (starts_ends lost clock D st H0 Hl Hc) as (s & r & all & E & _ & Hok & F & Hw & Hd).
  exists s, r. split; [done|]. exists all. by apply ended.
Qed.

(** C5: only_lost_chunks_are_repeated.  In a transfer run by the application a
    chunk is sent again only when the packet before was lost, never more often
    than its priority plus one, and the packets sent are at most four per
    byte. *)
Theorem only_lost_chunks_are_repeated lost clock D st n s r :
  starts D st → loaded D (sys_sender st) → (∀ k, clock k 1%nat < clock k 5%nat) →
  run_transfer lost clock n 0 Refilling (sys_sender st) (sys_receiver st) = Some (s, r) →
  (∀ i j o, (i < j)%nat → c_sent_pkt s !! i = Some o → c_sent_pkt s !! j = Some o → lost i = true) ∧
  (∀ o, o ∈ c_sent_pkt s → transmissions s o <= priority_of s o + 1) ∧ ♯(c_sent_pkt s) <= 4 * ♯D.
Proof.
  intros H0 Hl Hc E. destruct (starts_ends lost clock D st H0 Hl Hc) as (s' & r' & all & E' & _ & Hok & F & _).
  pose proof (run_transfer_unique _ _ _ _ _ _ _ _ _ _ E E') as [= <- <-].
  split; [apply F|]. split; [|apply F]. intros o Ho. destruct (transmissions_bound lost D all s r o Hok F) as [|Hz]; [done|].
  apply transmissions_pos in Ho. lia.
Qed.

(** C6: every_transfer_can_complete.  Whatever the data, below 2^47 bytes and with
    a norm for every block, and whatever the build profile: from the start the
    two ends can bring the transfer to its end without a panic or an error,
    sending every chunk once, and then the receiver holds exactly the data and
    the sender has nothing left to send. *)
Theorem every_transfer_can_complete D st :
  starts D st → loaded D (sys_sender st) →
  ∃ st', rtc step st st' ∧ complete D (sys_sender st') (sys_receiver st').
Proof.
  intros H0 Hl. set (lost := λ _ : nat, false).
  destruct (starts_ends lost (λ _, Z.of_nat) D st H0 Hl (λ _, eq_refl)) as (s & r & all & _ & (d & u & Hs) & Hok & F & Hw & Hd).
  exists (mkSystem s r d u). split; [done|]. cbn [sys_sender sys_receiver].
  destruct (ended lost D all s r Hok F Hw Hd) as (Ht & Hc & Hall). pose proof Hok as [[Hi _] _].
  split; [|split].
  - intros now. eexists. unfold send_all, set_handshake_now. rewrite !modify_bind, get_bind.
    cbn [c_written_data c_send_data c_send_buffer set_handshake set_stop_ack set_stop_flag].
    rewrite (si_data _ _ Hi), Hw, Z.ltb_irrefl. unfold SendBuf.is_empty. rewrite Hd. reflexivity.
  - apply NoDup_alt. intros i j o Hi' Hj'. destruct (Nat.lt_trichotomy i j) as [H|[H|H]]; [|done|].
    + by pose proof (de_lost _ _ _ (fl_delivery _ _ _ _ F) i j o H Hi' Hj').
    + by pose proof (de_lost _ _ _ (fl_delivery _ _ _ _ F) j i o H Hj' Hi').
  - by apply (none_lost_data lost D all s r).
Qed.
End Liveness.

Module ProgressSamples.
#[local] Existing Instances debug_x86 ListOctets.ops ListOctets.spec map_order map_order_spec.

Lemma run_loaded : loaded Run.D (sys_sender Run.st_start).
Proof. repeat split; vm_compute; congruence. Qed.

(** The network loses the first two packets. *)
Definition first_two (i : nat) : bool := (i <? 2)%nat.
Definition ticking (k j : nat) : Z := Z.of_nat (10 * k + j).

Lemma every_transfer_ends_witness :
  ∃ s r, run_transfer first_two ticking (enough Run.D) 0 Refilling Run.s0 Run.r0 = Some (s, r) ∧
    ∃ all, tiles 0 all (♯Run.D) ∧ concat (rg_data <$> all) = Run.D ∧
      ∀ ch, ch ∈ all → stored r ch ∨ given_up first_two s ch.
Proof.
  apply (every_transfer_ends first_two ticking Run.D Run.st_start Run.run_starts run_loaded).
  intros k. unfold ticking. lia.
Defined.

(** The chunk goes out a third time, and arrives. *)
Example first_two_lost :
  (λ x, (c_sent_pkt x.1, rg_data <$> (rb_data (c_rec_buffer x.2)).*2)) <$>
    run_transfer first_two ticking (enough Run.D) 0 Refilling Run.s0 Run.r0 = Some ([0; 0; 0], [Run.D]).
Proof. vm_compute. reflexivity. Qed.

Lemma only_lost_chunks_are_repeated_witness :
  ∃ s r, run_transfer first_two ticking (enough Run.D) 0 Refilling Run.s0 Run.r0 = Some (s, r) ∧
    ♯(c_sent_pkt s) = 3 ∧
    (∀ i j o, (i < j)%nat → c_sent_pkt s !! i = Some o → c_sent_pkt s !! j = Some o → first_two i = true) ∧
    (∀ o, o ∈ c_sent_pkt s → transmissions s o <= priority_of s o + 1) ∧ ♯(c_sent_pkt s) <= 4 * ♯Run.D.
Proof.
  destruct (run_transfer first_two ticking (enough Run.D) 0 Refilling Run.s0 Run.r0) as [[s r]|] eqn:E;
    [|pose proof first_two_lost as Hf; rewrite E in Hf; discriminate].
  exists s, r. split; [reflexivity|]. split.
  - pose proof first_two_lost as Hf. rewrite E in Hf. cbn in Hf. injection Hf as -> _. reflexivity.
  - apply (only_lost_chunks_are_repeated first_two ticking Run.D Run.st_start (enough Run.D) s r Run.run_starts run_loaded);
      [intros k; unfold ticking; lia|exact E].
Defined.

Lemma every_transfer_can_complete_witness :
  ∃ st', rtc step Run.st_start st' ∧ complete Run.D (sys_sender st') (sys_receiver st').
Proof. apply (every_transfer_can_complete Run.D Run.st_start Run.run_starts run_loaded). Defined.
End ProgressSamples.
