(* ===== verification/Reading.v ===== *)
(** * Reading: what the receiving application gets after a transfer

    The composition of [Driver] with [RecvBuf::emit]: the transfer is over and
    the receiver reads for the first time, into a buffer that can hold
    everything. *)
From Stdlib Require Import SpecFloat.
From S2P Require Import Prelude Effects Octets Packet OMap SoftFloat RangeBuf RecvBuf SendBuf Recovery Connection AckPath DataPath Sender Receiver System Driver Flow Progress.

(** ** Entries in the order of the data *)

Lemma tiles_order D lo l hi c c' :
  Forall (chunk_of D) l → tiles lo l hi → c ∈ l → c' ∈ l → chunk_end c < chunk_end c' →
  chunk_end c <= rg_off c'.
Proof.
  intros Hl. revert lo. induction Hl as [|x l [[_ Hx] _] Hl IH]; intros lo Ht; [by intros ?%elem_of_nil|].
  destruct Ht as [<- Ht]. destruct (tiles_bounds D _ _ _ Hl Ht) as [_ Hb].
  intros [->|Hc]%elem_of_cons [->|Hc']%elem_of_cons He; [lia| | |by eapply IH].
  - by destruct (Hb c' Hc').
  - destruct (Hb c Hc). rewrite Forall_forall in Hl. destruct (Hl c Hc) as [[_ ?] _]. unfold chunk_end in *. lia.
Qed.

Lemma sorted_ordered lm (es : omap RangeBuf) :
  om_sorted es → (∀ e, e ∈ es → lm <= rg_off e.2) →
  (∀ e e', e ∈ es → e' ∈ es → e.1 < e'.1 → chunk_end e.2 <= rg_off e'.2) → ordered_from lm es.
Proof.
  unfold om_sorted. revert lm. induction es as [|[k b] es IH]; intros lm Hs Hlm Ho; [done|].
  rewrite om_keys_cons in Hs. apply StronglySorted_cons in Hs as [Hk Hs]. rewrite Forall_forall in Hk. cbn. split.
  - apply (Hlm (k, b)). by left.
  - apply IH; [done| |].
    + intros e He. apply (Ho (k, b) e); [by left|by right|]. apply Hk. by apply list_elem_of_fmap_2.
    + intros e e' He He'. apply Ho; by right.
Qed.

(** The gaps are not negative. *)
Lemma payload_le lm es : ordered_from lm es → lm + payload es <= span_end lm es.
Proof.
  revert lm. induction es as [|[k b] es IH]; intros lm; cbn; [lia|]. intros [Hb Ho]. specialize (IH _ Ho).
  unfold chunk_end in *. lia.
Qed.

Lemma span_end_le lm hi (es : omap RangeBuf) :
  lm <= hi → Forall (λ e, chunk_end e.2 <= hi) es → span_end lm es <= hi.
Proof. intros Hl Hes. revert lm Hl. induction Hes as [|[k b] es Hb _ IH]; intros lm Hl; cbn; [done|]. by apply IH. Qed.

(** Without gaps every chunk is put at the start of the buffer. *)
Lemma placed_no_gaps lm es out :
  ordered_from lm es → span_end lm es = lm + payload es → Forall (λ e, 0 < ♯(rg_data e.2) <= 1024) es →
  payload es <= ♯out → Forall (λ e, rg_len e.2 = ♯(rg_data e.2)) es →
  drop 1024 (placed lm 0 es out) = drop 1024 out.
Proof.
  intros Ho Hs Hd. revert lm out Ho Hs. induction Hd as [|[k b] es Hb Hd IH]; intros lm out; cbn [ordered_from
    span_end payload placed snd] in *; [done|].
  intros [Hlo Ho] Hs Hp [Hl Hls]%Forall_cons. pose proof (payload_le _ _ Ho) as Hle. cbn in Hl.
  assert (Hes0 : 0 <= payload es).
  { clear -Hls. induction Hls as [|[k b] es Hl _ IH]; cbn in *; [done|]. pose_len. lia. }
  unfold chunk_end in Hle, Hs. assert (rg_off b = lm) as <- by lia.
  rewrite Z.sub_diag, !Z.add_0_l. change (Z.to_nat 0) with 0%nat. rewrite take_0, app_nil_l.
  rewrite IH; [|done|unfold chunk_end; lia|zlia|done].
  rewrite drop_app_ge by (unfold zlen in *; lia). rewrite drop_drop. f_equal. unfold zlen in *. lia.
Qed.

Section Reading.
Context {P : Profile} {O : OctetsOps} {HO : OctetsSpec O} {HI : HashOrder} {HIS : HashOrderSpec HI}.

(** What is in the receive buffer when a transfer is over. *)
Lemma received_entries lost D all s r :
  ends_ok D all s r → flow lost D s r →
  let es := rb_data (c_rec_buffer r) in
  entries_ok es ∧ ordered_from 0 es ∧
  Forall (λ e, chunk_end e.2 <= ♯D ∧ 0 < ♯(rg_data e.2) <= 1024 ∧ rg_len e.2 = ♯(rg_data e.2)) es.
Proof.
  intros Hok F es. pose proof Hok as [[_ L] Hr]. pose proof (le_chunks _ _ _ _ L) as Hc.
  pose proof (le_tiles _ _ _ _ L) as Ht.
  destruct (fl_delivery _ _ _ _ F) as [_ _ _ Hso Hen _ _]. pose proof (ri_buffer _ _ Hr) as Hcp.
  rewrite Forall_forall in Hen, Hcp.
  assert (He : ∀ e, e ∈ es → fresh e.2 ∧ 0 < ♯(rg_data e.2) <= 1024 ∧ rg_len e.2 = ♯(rg_data e.2) ∧
    e.1 = chunk_end e.2 ∧ ∃ ch, ch ∈ all ∧ rg_off e.2 = rg_off ch ∧ chunk_end e.2 = chunk_end ch).
  { intros e Hin. pose proof (Hen e Hin) as Ee. destruct (Hcp e Hin) as (ch & [_ Hch]%list_elem_of_filter & E1 & E2).
    destruct (chunk_in_data D all s r ch Hok (fl_counters _ _ _ _ F) Hch) as (_ & Ho & Hend & [[(_ & _ & Hl & _ & Hu) _] Hlen]).
    unfold SEND_BUFFER_SIZE in Hlen.
    assert (Hb : e.2 = from (rg_data ch) (rg_off ch)) by (rewrite Ee at 1; cbn; by rewrite E1, E2).
    assert (Hk : e.1 = rg_off ch + ♯(rg_data ch)) by (rewrite Ee at 1; cbn; by rewrite E1, E2).
    unfold chunk_end in *. rewrite Hb, Hk. split; [apply from_fresh; lia|]. cbn. split; [lia|]. split; [done|].
    split; [done|]. exists ch. split; [done|]. split; [done|]. lia. }
  split; [|split].
  - apply Forall_forall. intros e Hin. destruct (He e Hin) as (? & ? & -> & _). split; [done|lia].
  - apply sorted_ordered; [done| |].
    + intros e Hin. destruct (He e Hin) as (_ & _ & _ & _ & ch & Hch & -> & _).
      destruct (chunk_in_data D all s r ch Hok (fl_counters _ _ _ _ F) Hch) as (_ & ? & _). lia.
    + intros e e' Hin Hin' Hlt. destruct (He e Hin) as (_ & _ & _ & K1 & ch & Hch & _ & C1).
      destruct (He e' Hin') as (_ & _ & _ & K2 & ch' & Hch' & -> & C2). rewrite C1.
      apply (tiles_order D 0 all (c_written_data s) ch ch' Hc Ht Hch Hch'). lia.
  - apply Forall_forall. intros e Hin. destruct (He e Hin) as (_ & ? & ? & _ & ch & Hch & _ & ->).
    destruct (chunk_in_data D all s r ch Hok (fl_counters _ _ _ _ F) Hch) as (_ & _ & ? & _). done.
Qed.

Lemma payload_concat es :
  Forall (λ e, rg_len e.2 = ♯(rg_data e.2)) es → payload es = ♯(concat (rg_data <$> es.*2)).
Proof.
  induction 1 as [|[k b] es Hb _ IH]; [done|]. rewrite !fmap_cons. cbn [payload concat snd] in *.
  rewrite zlen_app, Hb, IH. done.
Qed.

(** C28: read_after_transfer.  When the application reads for the first time
    after a transfer that delivered something, into a buffer with room for the
    data, the read
    succeeds and empties the receive buffer, and the count it returns is the
    number of bytes that were not delivered before the last delivered
    chunk.  When nothing was lost the count is 0, and nothing beyond the first
    1024 bytes of the application's buffer was written, whatever the size of
    the data. *)
Theorem read_after_transfer lost clock D st n s r out :
  starts D st → loaded D (sys_sender st) → (∀ k, clock k 1%nat < clock k 5%nat) →
  run_transfer lost clock n 0 Refilling (sys_sender st) (sys_receiver st) = Some (s, r) →
  rb_data (c_rec_buffer r) ≠ [] → ♯D <= ♯out < u64_bound →
  ∃ count out' r', read out r = Ok (count, out') r' ∧ rb_data (c_rec_buffer r') = [] ∧
    count + ♯(concat (rg_data <$> (rb_data (c_rec_buffer r)).*2)) = span_end 0 (rb_data (c_rec_buffer r)) ∧
    ((∀ i, lost i = false) → count = 0 ∧ drop 1024 out' = drop 1024 out).
Proof.
  intros H0 Hl Hc E Hne Ho. destruct (starts_ends lost clock D st H0 Hl Hc) as (s' & r' & all & E' & _ & Hok & F & Hw & Hd).
  pose proof (run_transfer_unique _ _ _ _ _ _ _ _ _ _ E E') as [= <- <-].
  destruct (received_entries lost D all s r Hok F) as (Hes & Hord & Hch). cbv zeta in *.
  set (es := rb_data (c_rec_buffer r)) in *.
  assert (Hlen : Forall (λ e, rg_len e.2 = ♯(rg_data e.2)) es) by (eapply Forall_impl; [exact Hch|]; tauto).
  assert (Hsp : span_end 0 es <= ♯D).
  { apply span_end_le; [apply zlen_nonneg|]. eapply Forall_impl; [exact Hch|]. tauto. }
  pose proof (de_unread _ _ _ (fl_delivery _ _ _ _ F)) as Hlm.
  pose proof (emit_drains es (c_rec_buffer r) out) as Ee. rewrite Hlm in Ee.
  specialize (Ee Hes Hord ltac:(lia) Hne ltac:(lia) ltac:(lia) eq_refl).
  eexists _, _, _. split; [unfold read, on_rec_buffer; by apply (zoom_Ok c_rec_buffer set_rec_buffer)|].
  rewrite <-payload_concat by done. split; [done|]. split; [lia|]. intros Hnl.
  pose proof (payload_le 0 es Hord) as Hple.
  destruct (ended lost D all s r Hok F Hw Hd) as (Ht & Hcc & Hall).
  assert (Hpay : payload es = ♯D).
  { rewrite payload_concat by done. f_equal. by apply (none_lost_data lost D all s r). }
  split; [lia|]. apply placed_no_gaps; try done; try lia. eapply Forall_impl; [exact Hch|]. tauto.
Qed.
End Reading.

Module ReadingSamples.
#[local] Existing Instances debug_x86 ListOctets.ops ListOctets.spec map_order map_order_spec.
Import ProgressSamples.

Definition nothing (i : nat) : bool := false.

(** Three bytes arrive, and the read returns 0. *)
Lemma read_after_transfer_witness :
  ∃ s r, run_transfer nothing ticking (enough Run.D) 0 Refilling Run.s0 Run.r0 = Some (s, r) ∧
  ∃ count out' r', read (replicate 5 0) r = Ok (count, out') r' ∧ rb_data (c_rec_buffer r') = [] ∧
    count + ♯(concat (rg_data <$> (rb_data (c_rec_buffer r)).*2)) = span_end 0 (rb_data (c_rec_buffer r)) ∧
    ((∀ i, nothing i = false) → count = 0 ∧ drop 1024 out' = drop 1024 (replicate 5 0)).
Proof.
  assert (Hrun : (λ x, rb_data (c_rec_buffer x.2)) <$>
    run_transfer nothing ticking (enough Run.D) 0 Refilling Run.s0 Run.r0 = Some [(3, from Run.D 0)])
    by (vm_compute; reflexivity).
  destruct (run_transfer nothing ticking (enough Run.D) 0 Refilling Run.s0 Run.r0) as [[s r]|] eqn:E; [|discriminate].
  exists s, r. split; [reflexivity|].
  apply (read_after_transfer nothing ticking Run.D Run.st_start (enough Run.D) s r (replicate 5 0)
    Run.run_starts run_loaded); [intros k; unfold ticking; lia|exact E| |].
  - cbn in Hrun. injection Hrun as ->. discriminate.
  - vm_compute. split; congruence.
Defined.
End ReadingSamples.
