(* ===== verification/Pipeline.v ===== *)
(** * Pipeline: from the text of a model to the receive buffer

    The composition of the whole crate: the two ends are made with [accept] and
    [connect], [data_send] loads the text of a model into the sender, and the
    application of [Driver] runs the transfer. *)
From Stdlib Require Import SpecFloat.
From S2P Require Import Prelude Effects Octets Packet OMap SoftFloat RangeBuf RecvBuf SendBuf Recovery Connection AckPath DataPath Ingest Sender Receiver System Driver Flow Progress.

(** A tensor whose last block gets a norm: it ends at a block, or one float
    before. *)
Definition whole_blocks (bits : list Z) : Prop := ♯bits mod 256 = 0 ∨ ♯bits mod 256 = 255.

Lemma whole_blocks_norms bss :
  Forall whole_blocks bss → ♯(concat bss) <= 256 * ♯(bss ≫= norms_of).
Proof.
  induction 1 as [|bs bss Hb _ IH]; [done|]. rewrite bind_cons. cbn [concat].
  rewrite !zlen_app, norms_of_length. enough (♯bs <= 256 * ((♯bs + 1) / 256)) by lia.
  pose proof (Z.div_mod (♯bs) 256 ltac:(lia)). pose proof (Z.div_mod (♯bs + 1) 256 ltac:(lia)).
  pose proof (Z.mod_pos_bound (♯bs + 1) 256 ltac:(lia)). unfold whole_blocks in Hb. lia.
Qed.

Lemma norms_le bss : ♯(bss ≫= norms_of) <= ♯(concat bss).
Proof.
  induction bss as [|bs bss IH]; [done|]. rewrite bind_cons. cbn [concat]. rewrite !zlen_app, norms_of_length.
  enough ((♯bs + 1) / 256 <= ♯bs) by lia. pose proof (zlen_nonneg bs).
  pose proof (Z.div_mod (♯bs + 1) 256 ltac:(lia)). pose proof (Z.mod_pos_bound (♯bs + 1) 256 ltac:(lia)). lia.
Qed.

Section Pipeline.
Context {P : Profile} {O : OctetsOps} {HO : OctetsSpec O} {HI : HashOrder} {HIS : HashOrderSpec HI}.

(** The congestion control of a new connection. *)
Definition fresh_window (r : Recovery) : Prop :=
  former_win_vecter r = [] ∧ max_datagram_size r = PACKET_SIZE ∧ incre_win r = 0 ∧ decre_win r = 0.

Lemma new_connection here there srv now config :
  is_u64 (cfg_max_send_udp_payload_size config * 8) →
  ∃ rec, Connection.new here there srv now config = Ok (initial here there rec srv now) config ∧ fresh_window rec.
Proof.
  destruct config as [[] size idle]. intros Hc. cbn in Hc.
  unfold Connection.new, Recovery.new, new_with_config, umul. rewrite get_bind. unfold mbind, M_bind.
  change (rc_max_send_udp_payload_size _ * INITIAL_WINDOW_PACKETS) with (size * 8).
  rewrite (checked_ok _ _ Hc). by eexists.
Qed.

(** C4: model_is_transferred.  From the text of a model to the receive buffer:
    connections made with [accept] and [connect] (the initial window fits 64
    bits) succeed, [data_send] loads a text whose tensors parse, have at least
    one norm and no NaN among them, end at a block or one float before, and
    come to fewer than 2^47 bytes, and the application, whose clock moves during
    the handshake, brings the transfer to its end whatever data packets are
    lost.  Every chunk of the floats' bytes is then
    in the receive buffer or was given up, all its packets lost; when nothing
    is lost, the receive buffer is the bytes of all floats in order. *)
Theorem model_is_transferred config here there t0 t1 input bss lost clock :
  is_u64 (cfg_max_send_udp_payload_size config * 8) →
  parses input bss → (bss ≫= norms_of) ≠ [] → Forall (λ x, SFeqb x x = true) (bss ≫= norms_of) →
  Forall whole_blocks bss → 4 * ♯(concat bss) < max_transfer → (∀ k, clock k 1%nat < clock k 5%nat) →
  let D := concat bss ≫= ne_bytes in
  ∃ s0 r0 s1 s r,
    accept here there t0 config = Ok s0 config ∧ connect there here t1 config = Ok r0 config ∧
    data_send input s0 = Ok tt s1 ∧
    run_transfer lost clock (enough D) 0 Refilling s1 r0 = Some (s, r) ∧
    (∃ all, tiles 0 all (♯D) ∧ concat (rg_data <$> all) = D ∧
      ∀ ch, ch ∈ all → stored r ch ∨ given_up lost s ch) ∧
    ((∀ i, lost i = false) → concat (rg_data <$> (rb_data (c_rec_buffer r)).*2) = D).
Proof.
  intros Hcfg Hp Hne Hnan Hwb Hsz Hclk D.
  destruct (new_connection here there true t0 config Hcfg) as (rec_s & Es & Hh & Hm & Hin & Hde).
  destruct (new_connection there here false t1 config Hcfg) as (rec_r & Er & _).
  pose proof (norms_le bss) as Hnl. pose proof (whole_blocks_norms bss Hwb) as Hcov.
  unfold max_transfer in Hsz. destruct (data_send_result input bss (initial here there rec_s true t0) Hp Hne (no_nan_sortable _ Hnan))
    as (low & high & _ & _ & Ed); [unfold u64_bound; lia|].
  assert (HD : ♯D = 4 * ♯(concat bss)) by apply zlen_all_bytes.
  assert (H0 : starts D (mkSystem (set_send_data D (set_norm2_vec (bss ≫= norms_of) (set_low_split_point low
    (set_high_split_point high (initial here there rec_s true t0))))) (initial there here rec_r false t1) [] []))
    by (apply starts_with; [unfold u64_bound; lia|done]).
  destruct (starts_ends lost clock D _ H0) as (s & r & all & E & _ & Hok & F & Hw & Hd); [|done|].
  { unfold loaded. cbn [sys_sender]. unfold max_transfer. split_and!; (done || lia || idtac). cbn. lia. }
  do 5 eexists. split; [exact Es|]. split; [exact Er|]. split; [exact Ed|]. split; [exact E|].
  split; [exists all; by apply ended|]. intros Hno. by apply (none_lost_data lost D all s r).
Qed.
End Pipeline.

Module PipelineSamples.
#[local] Existing Instances debug_x86 ListOctets.ops ListOctets.spec map_order map_order_spec.
Import ProgressSamples IngestSamples.

Lemma model_is_transferred_witness :
  let D := concat [replicate 256 one] ≫= ne_bytes in
  ∃ s0 r0 s1 s r,
    accept Samples.here Samples.there 0 Config.new = Ok s0 Config.new ∧
    connect Samples.there Samples.here 0 Config.new = Ok r0 Config.new ∧
    data_send (ones 256) s0 = Ok tt s1 ∧
    run_transfer first_two ticking (enough D) 0 Refilling s1 r0 = Some (s, r) ∧
    (∃ all, tiles 0 all (♯D) ∧ concat (rg_data <$> all) = D ∧
      ∀ ch, ch ∈ all → stored r ch ∨ given_up first_two s ch) ∧
    ((∀ i, first_two i = false) → concat (rg_data <$> (rb_data (c_rec_buffer r)).*2) = D).
Proof.
  apply (model_is_transferred Config.new Samples.here Samples.there 0 0 (ones 256) [replicate 256 one] first_two ticking).
  - vm_compute. split; congruence.
  - constructor; [|constructor]. split; vm_compute; reflexivity.
  - vm_compute. congruence.
  - vm_compute. repeat constructor.
  - repeat constructor.
  - vm_compute. reflexivity.
  - intros k. unfold ticking. lia.
Defined.
End PipelineSamples.
