(* ===== verification/Relate.v ===== *)
(** * Relate: what reading cannot influence

    The application reads the receive buffer whenever it likes.  The only part
    of a connection that reading changes is the buffer, and the only thing the
    protocol takes from the buffer is [max_ack], which travels in the ACKs and
    ends in [max_off], a field nothing looks at ([recv_and_drop] ignores its
    argument).  This file is a small relational logic for the monad [M]
    ([agree]): two connections that are equal up to these fields ([blind]) go
    through the same calls with the same results. *)
From Stdlib Require Import SpecFloat.
From S2P Require Import Prelude Effects Octets Packet OMap SoftFloat RangeBuf RecvBuf SendBuf Recovery Connection AckPath DataPath Sender Receiver System Driver.

(** ** Related computations *)

Definition rel_outcome {S A} (R : S → S → Prop) (V : A → A → Prop) (o1 o2 : outcome S A) : Prop :=
  match o1, o2 with
  | Ok a s1, Ok b s2 => V a b ∧ R s1 s2
  | Err e s1, Err e' s2 => e = e' ∧ R s1 s2
  | Panicked p, Panicked p' => p = p'
  | _, _ => False
  end.

(** From related states both computations give the same result and leave
    related states, or fail alike. *)
Definition agree {S A} (R : S → S → Prop) (m1 m2 : M S A) : Prop :=
  ∀ s1 s2, R s1 s2 → rel_outcome R eq (m1 s1) (m2 s2).

Section Agree.
Context {S : Type} (R : S → S → Prop).

Lemma agree_bind {A B} (m1 m2 : M S A) (k1 k2 : A → M S B) :
  agree R m1 m2 → (∀ a, agree R (k1 a) (k2 a)) → agree R (m1 ≫= k1) (m2 ≫= k2).
Proof.
  intros Hm Hk s1 s2 Hs. specialize (Hm s1 s2 Hs). unfold mbind, M_bind.
  destruct (m1 s1), (m2 s2); cbn in Hm; try done. destruct Hm as [<- Hs']. by apply Hk.
Qed.
Lemma agree_get {B} (k1 k2 : S → M S B) :
  (∀ s1 s2, R s1 s2 → agree R (k1 s1) (k2 s2)) → agree R (get ≫= k1) (get ≫= k2).
Proof. intros Hk s1 s2 Hs. rewrite !get_bind. by apply Hk. Qed.
Lemma agree_ret {A} (a : A) : agree R (mret a) (mret a).
Proof. by intros s1 s2 Hs. Qed.
Lemma agree_fail {A} e : agree R (fail e : M S A) (fail e).
Proof. by intros s1 s2 Hs. Qed.
Lemma agree_panicking {A} p : agree R (panicking p : M S A) (panicking p).
Proof. by intros s1 s2 Hs. Qed.
Lemma agree_modify f1 f2 : (∀ s1 s2, R s1 s2 → R (f1 s1) (f2 s2)) → agree R (modify f1) (modify f2).
Proof. intros Hf s1 s2 Hs. split; [done|]. by apply Hf. Qed.
Lemma agree_or_panic {A} p (o : option A) : agree R (or_panic p o) (or_panic p o).
Proof. destruct o; [apply agree_ret|apply agree_panicking]. Qed.
Lemma agree_some {A B} p (a b : A) (k1 k2 : A → M S B) :
  agree R (k1 a) (k2 b) → agree R (or_panic p (Some a) ≫= k1) (or_panic p (Some b) ≫= k2).
Proof. done. Qed.
Lemma agree_checked {P : Profile} z : agree R (checked z) (checked z).
Proof.
  unfold checked. case_decide; [apply agree_ret|].
  destruct overflow_checks; [apply agree_panicking|apply agree_ret].
Qed.
Lemma agree_unwrap {A} (m1 m2 : M S A) : agree R m1 m2 → agree R (unwrap m1) (unwrap m2).
Proof.
  intros Hm s1 s2 Hs. specialize (Hm s1 s2 Hs). unfold unwrap. by destruct (m1 s1), (m2 s2).
Qed.
Lemma agree_local {T A} (t : T) (m : M T A) : agree R (local t m) (local t m).
Proof. intros s1 s2 Hs. unfold local. by destruct (m t). Qed.
Lemma agree_if {A} (b : bool) (m1 m2 n1 n2 : M S A) :
  agree R m1 m2 → agree R n1 n2 → agree R (if b then m1 else n1) (if b then m2 else n2).
Proof. by destruct b. Qed.
Lemma agree_zoom {T A} (U : T → T → Prop) (proj : S → T) inj (m1 m2 : M T A) :
  (∀ s1 s2, R s1 s2 → U (proj s1) (proj s2)) →
  (∀ s1 s2 t1 t2, R s1 s2 → U t1 t2 → R (inj t1 s1) (inj t2 s2)) →
  agree U m1 m2 → agree R (zoom proj inj m1) (zoom proj inj m2).
Proof.
  intros Hp Hi Hm s1 s2 Hs. specialize (Hm _ _ (Hp _ _ Hs)). unfold zoom.
  destruct (m1 (proj s1)), (m2 (proj s2)); cbn in *; try done; (split; [apply Hm|]; by apply Hi, Hm).
Qed.
End Agree.

(** Composition with different relations before and after. *)
Lemma rel_bind {S A B} (R Q : S → S → Prop) (m1 m2 : M S A) (k1 k2 : A → M S B) s1 s2 :
  rel_outcome R eq (m1 s1) (m2 s2) → (∀ t1 t2, R t1 t2 → Q t1 t2) →
  (∀ a t1 t2, R t1 t2 → rel_outcome Q eq (k1 a t1) (k2 a t2)) →
  rel_outcome Q eq ((m1 ≫= k1) s1) ((m2 ≫= k2) s2).
Proof.
  unfold mbind, M_bind. intros Hm HQ Hk. destruct (m1 s1), (m2 s2); cbn in Hm |- *; try done.
  - destruct Hm as [<- Hm]. by apply Hk.
  - split; [apply Hm|]. by apply HQ, Hm.
Qed.

Lemma rel_weaken {S A} (R Q : S → S → Prop) (V : A → A → Prop) o1 o2 :
  rel_outcome R V o1 o2 → (∀ t1 t2, R t1 t2 → Q t1 t2) → rel_outcome Q V o1 o2.
Proof. intros Ho HQ. destruct o1, o2; cbn in Ho |- *; try done; (split; [apply Ho|]; by apply HQ, Ho). Qed.

Lemma rel_checked {P : Profile} {S B} (Q : S → S → Prop) z (k1 k2 : Z → M S B) s1 s2 :
  (∀ v, rel_outcome Q eq (k1 v s1) (k2 v s2)) →
  rel_outcome Q eq ((checked z ≫= k1) s1) ((checked z ≫= k2) s2).
Proof.
  intros Hk. destruct (checked_cases z) as [(v & Hv)|(p & Hp)].
  - rewrite !(bind_Ok _ _ _ _ _ (Hv _ _)). apply Hk.
  - by rewrite !(bind_Panicked _ _ _ _ (Hp _ _)).
Qed.

Lemma agree_eq {S A} (m : M S A) : agree eq m m.
Proof. intros s ? <-. by destruct (m s). Qed.

(** Which lemma to use, by the head of the computation. *)
Ltac agree_step :=
  lazymatch goal with
  | |- agree _ (mbind _ get) (mbind _ get) => apply agree_get; intros ? ? ?
  | |- agree _ (mbind _ _) (mbind _ _) => apply agree_bind; [|intros ?]
  | |- agree _ (mret _) (mret _) => apply agree_ret
  | |- agree _ (fail _) (fail _) => apply agree_fail
  | |- agree _ (panicking _) (panicking _) => apply agree_panicking
  | |- agree _ (or_panic _ _) (or_panic _ _) => apply agree_or_panic
  | |- agree _ (checked _) (checked _) => apply agree_checked
  | |- agree _ (uadd _ _) (uadd _ _) => apply agree_checked
  | |- agree _ (usub _ _) (usub _ _) => apply agree_checked
  | |- agree _ (umul _ _) (umul _ _) => apply agree_checked
  | |- agree _ (unwrap _) (unwrap _) => apply agree_unwrap
  | |- agree _ (local _ _) (local _ _) => apply agree_local
  | |- agree _ (modify _) (modify _) => apply agree_modify
  | |- agree _ (if _ then _ else _) (if _ then _ else _) => apply agree_if
  end.

(** ** Connections equal up to what reading changes *)

Definition blind (c1 c2 : Connection) : Prop := ∃ m b, c2 = set_max_off m (set_rec_buffer b c1).

#[export] Instance blind_equivalence : Equivalence blind.
Proof.
  split.
  - intros []. by eexists _, _.
  - intros [] ? (m & b & ->). by eexists _, _.
  - intros ? ? ? (m & b & ->) (m' & b' & ->). by exists m', b'.
Qed.

(** A setter of another field respects [blind]. *)
Ltac blind_set := intros ? ? (? & ? & ->); by eexists _, _.

Section Methods.
Context {P : Profile} {O : OctetsOps} {HI : HashOrder}.

Lemma blind_sub {T A} (proj : Connection → T) inj (m : M T A) :
  (∀ c1 c2, blind c1 c2 → proj c1 = proj c2) →
  (∀ c1 c2 t, blind c1 c2 → blind (inj t c1) (inj t c2)) →
  agree blind (zoom proj inj m) (zoom proj inj m).
Proof.
  intros Hp Hi. apply agree_zoom with (U := eq); [done| |apply agree_eq].
  intros c1 c2 t ? Hc <-. by apply Hi.
Qed.
Lemma blind_send_buffer {A} (m : M SendBuf A) : agree blind (on_send_buffer m) (on_send_buffer m).
Proof. apply blind_sub; [by intros ? ? (? & ? & ->)|]. intros ? ? ? (? & ? & ->). by eexists _, _. Qed.
Lemma blind_recovery {A} (m : M Recovery A) : agree blind (on_recovery m) (on_recovery m).
Proof. apply blind_sub; [by intros ? ? (? & ? & ->)|]. intros ? ? ? (? & ? & ->). by eexists _, _. Qed.
Lemma blind_rec_buffer {A} (m : M RecvBuf A) :
  agree (λ _ _, True) m m → agree blind (on_rec_buffer m) (on_rec_buffer m).
Proof.
  intros Hm. apply agree_zoom with (U := λ _ _, True); [done| |exact Hm]. intros ? ? ? ? (? & ? & ->) _. by eexists _, _.
Qed.

(** Storing a packet succeeds or panics whatever the buffer holds. *)
Lemma recv_write_agree out o : agree (λ _ _, True) (RecvBuf.write out o) (RecvBuf.write out o).
Proof.
  unfold RecvBuf.write, RangeBuf.len, RangeBuf.max_off, RangeBuf.off, RangeBuf.len. repeat agree_step; try done.
  intros ? ? ?. destruct (last _) as [[k ?]|], (last (rb_data _)) as [[k' ?]|];
    try destruct (k =? _); try destruct (k' =? _); done.
Qed.

Ltac blind_step :=
  lazymatch goal with
  | |- agree _ (mbind _ get) (mbind _ get) => apply agree_get; intros ? ? (? & ? & ->)
  | |- agree _ (modify _) (modify _) => apply agree_modify; blind_set
  | |- agree _ (on_send_buffer _) (on_send_buffer _) => apply blind_send_buffer
  | |- agree _ (on_recovery _) (on_recovery _) => apply blind_recovery
  | |- agree _ (on_rec_buffer _) (on_rec_buffer _) => apply blind_rec_buffer
  | _ => agree_step
  end.
Ltac blind_steps := repeat (blind_step; cbv beta).

Lemma blind_priority off : agree blind (priority_calculation off) (priority_calculation off).
Proof. unfold priority_calculation. blind_steps. Qed.

Lemma blind_send_all now : agree blind (send_all now) (send_all now).
Proof.
  assert (Hw : agree blind write_and_count write_and_count).
  { unfold write_and_count, write. blind_steps. }
  unfold send_all, set_handshake_now. blind_steps; done.
Qed.

Lemma blind_write_pkt_type : agree blind write_pkt_type write_pkt_type.
Proof. unfold write_pkt_type. blind_steps. Qed.

Lemma blind_note_sent off prio : agree blind (note_sent off prio) (note_sent off prio).
Proof.
  unfold note_sent. blind_step. cbn [c_sent_dic set_max_off set_rec_buffer].
  destruct (c_sent_dic _ !! off); blind_steps.
Qed.

Lemma blind_ack_entry o p w : agree blind (process_ack_entry o p w) (process_ack_entry o p w).
Proof.
  unfold process_ack_entry. blind_step. blind_step.
  { cbn [c_sent_dic set_max_off set_rec_buffer]. destruct (c_sent_dic _ !! o); blind_steps. }
  blind_steps; try apply blind_priority.
Qed.

(** *** Packets *)

(** ACKs that differ in [max_ack] (bytes 26 to 33) only. *)
Definition ack_like (p1 p2 : list Z) : Prop :=
  length p1 = length p2 ∧ take 26 p1 = take 26 p2 ∧ drop 34 p1 = drop 34 p2.
Definition same_packet (p1 p2 : list Z) : Prop :=
  p1 = p2 ∨ ack_like p1 p2 ∧ head p1 = Some (Header.byte_of_ty ACK).

Lemma ack_like_refl p : ack_like p p.
Proof. done. Qed.

Lemma slice_tail (l1 l2 : list Z) a b :
  8 <= a → length l1 = length l2 → drop 8 l1 = drop 8 l2 → slice l1 a b = slice l2 a b.
Proof.
  intros Ha Hl Hd. unfold slice. replace (♯l2) with (♯l1) by (unfold zlen; lia).
  destruct (_ && _); [|done]. do 2 f_equal. replace (Z.to_nat a) with (8 + (Z.to_nat a - 8))%nat by lia.
  by rewrite <-!drop_drop, Hd.
Qed.

Lemma blind_ack_loop fuel l1 l2 start w :
  8 <= start → length l1 = length l2 → drop 8 l1 = drop 8 l2 →
  agree blind (process_ack_loop fuel l1 start w) (process_ack_loop fuel l2 start w).
Proof.
  intros Hs Hl Hd. revert start w Hs. induction fuel as [|fuel IH]; intros start w Hs; cbn [process_ack_loop]; [apply agree_ret|].
  replace (♯l2) with (♯l1) by (unfold zlen; lia). unfold be_u64_at.
  rewrite (slice_tail l1 l2 start), (slice_tail l1 l2 (start + 8)) by (done || lia).
  blind_steps; [apply blind_ack_entry|]. apply IH. lia.
Qed.

(** Which of the two values of [max_ack] is stored does not matter. *)
Lemma blind_max_off m1 m2 :
  agree blind (c ← get; if c_max_off c <? m1 then modify (set_max_off m1) else mret tt)
              (c ← get; if c_max_off c <? m2 then modify (set_max_off m2) else mret tt).
Proof.
  intros ? ? (m & b & ->). rewrite !get_bind.
  destruct (_ <? m1), (_ <? m2); (split; [done|]); by eexists _, _.
Qed.

Lemma blind_process_ack p1 p2 : ack_like p1 p2 → agree blind (process_ack p1) (process_ack p2).
Proof.
  intros (Hl & _ & Hd). unfold process_ack.
  destruct (decide (26 <= ♯p1)) as [H26|H26].
  2:{ unfold slice_from, slice. replace (♯p2) with (♯p1) by (unfold zlen; lia).
      destruct (Z.leb_spec 26 (♯p1)); [lia|]. by intros c1 c2 _. }
  rewrite !slice_from_Some by (unfold zlen in *; lia). apply agree_some. change (Z.to_nat 26) with 26%nat.
  set (u1 := drop 26 p1). set (u2 := drop 26 p2).
  assert (Hu : length u1 = length u2) by (unfold u1, u2; rewrite !length_drop; lia).
  assert (Hu8 : drop 8 u1 = drop 8 u2) by (unfold u1, u2; rewrite !drop_drop; exact Hd).
  replace (length u2) with (length u1) by lia. replace (♯u2) with (♯u1) by (unfold zlen; lia).
  unfold be_u64_at at 1 2, slice. replace (♯u2) with (♯u1) by (unfold zlen; lia).
  destruct (_ && _); [|by intros c1 c2 _]. intros c1 c2 Hc.
  refine (agree_bind blind _ _ _ _ (blind_max_off _ _) _ c1 c2 Hc). intros _.
  apply agree_bind; [by apply blind_ack_loop; [lia|..]|]. intros w. apply blind_recovery.
Qed.

Lemma blind_check_loss fuel (b : OctetsMut) : agree blind (check_loss_loop fuel b) (check_loss_loop fuel b).
Proof.
  revert b. induction fuel as [|fuel IH]; intros b; cbn [check_loss_loop]; [apply agree_ret|].
  blind_step; [apply agree_ret|]. blind_step; [apply agree_local|]. blind_steps. apply IH.
Qed.

Lemma blind_dispatch p1 p2 h now :
  p1 = p2 ∨ ack_like p1 p2 ∧ Header.ty h = ACK → agree blind (recv_dispatch p1 h now) (recv_dispatch p2 h now).
Proof.
  intros Hp. assert (Ha : ack_like p1 p2) by (destruct Hp as [->|[? _]]; done).
  pose proof (blind_process_ack p1 p2 Ha) as Hack.
  destruct Hp as [->|[_ Hty]]; unfold recv_dispatch, recv_elict, recv_application, update_rtt, duration_checked, check_loss, be_u64_at.
  - blind_steps; try done; try apply recv_write_agree; try apply blind_check_loss.
  - rewrite Hty. decide_types. blind_steps; done.
Qed.
End Methods.

(** ** Whole calls *)

Lemma decode_prefix (l : list Z) : (26 <= length l)%nat → Header.decode l = Header.decode (take 26 l).
Proof.
  intros Hl. rewrite <-(take_drop 26 l) at 1. assert (Ht : length (take 26 l) = 26%nat) by (rewrite length_take; lia).
  generalize dependent (take 26 l). intros x Hx. unfold Header.decode.
  by rewrite !app_nth1, !drop_app_le, !take_app_le by (rewrite ?length_drop; lia).
Qed.

Section Calls.
Context {P : Profile} {O : OctetsOps} {HO : OctetsSpec O} {HI : HashOrder}.

Lemma blind_recv_slice p1 p2 now :
  same_packet p1 p2 → agree blind (recv_slice p1 now) (recv_slice p2 now).
Proof.
  intros Hp. assert (Ha : ack_like p1 p2) by (destruct Hp as [->|[? _]]; done). destruct Ha as (Hl & Ht & _).
  unfold recv_slice. replace (♯p2) with (♯p1) by (unfold zlen; lia). agree_step; [apply agree_fail|].
  apply agree_get. intros ? ? (? & ? & ->). apply agree_bind; [apply agree_checked|]. intros n.
  apply agree_bind; [apply agree_modify; blind_set|]. intros _ c1 c2 Hc. unfold mbind, M_bind.
  rewrite !Header.from_slice_total, <-Hl. case_decide as H26; [|done].
  assert (Hd : Header.decode p2 = Header.decode p1) by (rewrite !(decode_prefix p1), !(decode_prefix p2), Ht; done || lia).
  rewrite Hd. apply blind_dispatch; [|done]. destruct Hp as [->|[Hal Hh]]; [by left|right]. split; [done|].
  unfold Header.decode. cbn [Header.ty]. destruct p1 as [|y p1]; [done|]. injection Hh as ->. reflexivity.
Qed.

(** The two ends of [send_data]: equal up to reading, with the same buffer. *)
Definition sending (s1 s2 : Connection * list Z) : Prop := blind s1.1 s2.1 ∧ s1.2 = s2.2.

Lemma sending_on_conn {A} (m : M Connection A) : agree blind m m → agree sending (on_conn m) (on_conn m).
Proof.
  apply agree_zoom; [by intros ? ? [? _]|]. intros ? ? ? ? [_ Ho] Hc. by split.
Qed.
Lemma sending_on_out {A} (m : M OctetsMut A) : agree sending (on_out m) (on_out m).
Proof.
  apply agree_zoom with (U := eq); [by intros ? ? [_ ->]| |apply agree_eq]. intros ? ? ? ? [Hc _] <-. by split.
Qed.

Ltac sending_step :=
  lazymatch goal with
  | |- agree blind (modify _) (modify _) => apply agree_modify; blind_set
  | |- agree _ (mbind _ get) (mbind _ get) =>
      apply agree_get; intros [? ?] [? ?] [Hc Ho]; cbn [fst snd] in Hc, Ho |- *;
      destruct Hc as (? & ? & ->); subst
  | |- agree _ (modify _) (modify _) =>
      apply agree_modify; intros [? ?] [? ?] [Hc Ho]; cbn in Hc, Ho |- *; subst; by split
  | |- agree _ (on_conn _) (on_conn _) => apply sending_on_conn
  | |- agree _ (on_out _) (on_out _) => apply sending_on_out
  | |- agree _ (put_header _) (put_header _) => apply sending_on_out
  | |- agree _ (if _ then _ else _) _ => apply agree_if
  | |- agree _ (match ?x with _ => _ end) _ => destruct x as [[[? ?] ?] ?]
  | _ => agree_step
  end.
Ltac sending_steps := repeat (sending_step; cbv beta).

Lemma sending_elict : agree sending send_elict_packet send_elict_packet.
Proof. unfold send_elict_packet. sending_steps. Qed.

Lemma sending_application : agree sending send_application send_application.
Proof.
  unfold send_application, on_send_buffer. sending_steps; try apply blind_send_buffer; try apply blind_priority; try apply blind_note_sent.
Qed.

(** *** The ACK *)

(** Cursors over two ACKs, behind [max_ack]. *)
Definition cursors (o1 o2 : OctetsMut) : Prop :=
  ∃ l1 l2 r, at_cursor o1 l1 r ∧ at_cursor o2 l2 r ∧ ack_like l1 l2 ∧ (34 <= length l1)%nat ∧
    head l1 = Some (Header.byte_of_ty ACK).

Lemma ack_like_app l1 l2 x : ack_like l1 l2 → (34 <= length l1)%nat → ack_like (l1 ++ x) (l2 ++ x).
Proof.
  intros (Hl & Ht & Hd) H. unfold ack_like. rewrite !length_app, !take_app_le, !drop_app_le by lia.
  by rewrite Hl, Ht, Hd.
Qed.
Lemma head_app_Some (l x : list Z) a : head l = Some a → head (l ++ x) = Some a.
Proof. by destruct l. Qed.

Lemma cursors_put v : agree cursors (put_u64 v) (put_u64 v).
Proof.
  intros o1 o2 (l1 & l2 & r & H1 & H2 & Ha & Hl & Hh).
  destruct (decide (length r < 8)%nat) as [Hs|Hs].
  { rewrite (put_u64_short o1 l1 r), (put_u64_short o2 l2 r) by done. split; [done|]. by exists l1, l2, r. }
  rewrite <-(take_drop 8 r) in H1, H2. assert (H8 : length (take 8 r) = 8%nat) by (rewrite length_take; lia).
  destruct (put_u64_at o1 l1 _ _ v H1 H8) as (o1' & -> & C1).
  destruct (put_u64_at o2 l2 _ _ v H2 H8) as (o2' & -> & C2). split; [done|].
  eexists _, _, _. split; [exact C1|]. split; [exact C2|]. split; [by apply ack_like_app|].
  split; [rewrite length_app; lia|by apply head_app_Some].
Qed.
Lemma cursors_put_pairs l : agree cursors (put_pairs l) (put_pairs l).
Proof.
  induction l as [|[k v] l IH]; cbn [put_pairs]; [apply agree_ret|].
  repeat (apply agree_bind; [apply cursors_put|intros _]). exact IH.
Qed.

Lemma ack_body h v1 v2 l out :
  Header.ty h = ACK → is_u8 (Header.priority h) → 34 <= ♯out →
  rel_outcome cursors eq ((Header.to_bytes h;; put_u64 v1;; put_pairs l) (with_slice out))
                         ((Header.to_bytes h;; put_u64 v2;; put_pairs l) (with_slice out)).
Proof.
  intros Ht Hp Ho. destruct (Header.to_bytes_at_u8 h _ _ _ Hp (at_cursor_with_slice out)) as (o & E & C);
    [unfold zlen in *; lia|]. cbn [app] in C. rewrite !(bind_Ok _ _ _ _ _ E).
  rewrite <-(take_drop 8 (drop 26 out)) in C.
  assert (H8 : length (take 8 (drop 26 out)) = 8%nat) by (rewrite length_take, length_drop; unfold zlen in *; lia).
  destruct (put_u64_at o _ _ _ v1 C H8) as (o1 & E1 & C1). destruct (put_u64_at o _ _ _ v2 C H8) as (o2 & E2 & C2).
  rewrite (bind_Ok _ _ _ _ _ E1), (bind_Ok _ _ _ _ _ E2). apply cursors_put_pairs.
  eexists _, _, _. split; [exact C1|]. split; [exact C2|].
  assert (Hlen : ∀ v, length (Header.encode h ++ be_bytes 8 v) = 34%nat)
    by (intros; by rewrite length_app, Header.encode_length, be_bytes_length).
  split; [|split; [by rewrite Hlen|by unfold Header.encode; rewrite Ht]].
  unfold ack_like. rewrite !Hlen, !take_app_length', !drop_ge by (rewrite ?Hlen, ?Header.encode_length; done || lia).
  done.
Qed.

(** Equal up to reading, with packets that differ in [max_ack] only. *)
Definition sent_alike (s1 s2 : Connection * list Z) : Prop :=
  blind s1.1 s2.1 ∧ same_packet s1.2 s2.2.

Lemma sending_alike s1 s2 : sending s1 s2 → sent_alike s1 s2.
Proof. intros [Hc Ho]. split; [done|by left]. Qed.

Lemma alike_on_conn {A} (m : M Connection A) : agree blind m m → agree sent_alike (on_conn m) (on_conn m).
Proof. apply agree_zoom; [by intros ? ? [? _]|]. intros ? ? ? ? [_ Ho] Hc. by split. Qed.

Lemma alike_on_out {A} (m1 m2 : M OctetsMut A) c1 c2 out :
  blind c1 c2 → rel_outcome cursors eq (m1 (with_slice out)) (m2 (with_slice out)) →
  rel_outcome sent_alike eq (on_out m1 (c1, out)) (on_out m2 (c2, out)).
Proof.
  intros Hc Hm.
  assert (Hx : ∀ o1 o2, cursors o1 o2 → sent_alike (c1, o_buf o1) (c2, o_buf o2)).
  { intros o1 o2 (l1 & l2 & r & [-> _] & [-> _] & Ha & Hl & Hh). split; [done|]. right.
    split; [by apply ack_like_app|by apply head_app_Some]. }
  unfold on_out, zoom. cbn [snd]. destruct (m1 _), (m2 _); cbn in Hm |- *; try done;
    (split; [apply Hm|]; by apply Hx, Hm).
Qed.

Lemma alike_ack c1 c2 out :
  blind c1 c2 → 34 <= ♯out →
  rel_outcome sent_alike eq (send_ack_packet (c1, out)) (send_ack_packet (c2, out)).
Proof.
  intros Hc Ho. unfold send_ack_packet. rewrite !on_conn_modify, !get_bind. cbn [fst].
  destruct Hc as (m & b & ->). cbn [c_recv_hashmap c_send_num set_max_off set_rec_buffer set_feed_back].
  unfold umul, uadd. do 3 (apply rel_checked; intros ?).
  set (h := Header.mkHeader _ _ _ _ _). set (l := hash_iter _).
  eapply (rel_bind sent_alike); [|done|intros _ s1 s2 Hs].
  - apply alike_on_out; [by eexists _, _|]. by apply ack_body.
  - eapply (agree_bind sent_alike); [apply alike_on_conn, agree_modify; blind_set| |exact Hs].
    intros _. apply agree_ret.
Qed.

Lemma finish_agree R psize info t2 :
  (∀ c1 c2 o1 o2, R (c1, o1) (c2, o2) → blind c1 c2) → agree R (on_conn (modify (set_handshake t2))) (on_conn (modify (set_handshake t2))) →
  agree R (finish_send psize info t2) (finish_send psize info t2).
Proof.
  intros HR Hm. unfold finish_send. apply agree_get. intros [c1 o1] [c2 o2] (m & b & ->)%HR.
  agree_step; [apply agree_fail|]. agree_step; [done|]. repeat agree_step.
Qed.

(** [send_data] produces the same packets up to [max_ack]. *)
Lemma blind_send_data t1 t2 c1 c2 out :
  blind c1 c2 → 34 <= ♯out →
  rel_outcome sent_alike eq (send_data t1 t2 (c1, out)) (send_data t1 t2 (c2, out)).
Proof.
  intros Hc Ho. unfold send_data. rewrite !get_bind. cbn [fst snd].
  destruct (Z.eqb_spec (♯out) 0) as [|_]; [lia|].
  replace (c_localaddr c2) with (c_localaddr c1) by by destruct Hc as (? & ? & ->).
  replace (c_peeraddr c2) with (c_peeraddr c1) by by destruct Hc as (? & ? & ->).
  replace (c_server c2) with (c_server c1) by by destruct Hc as (? & ? & ->).
  set (info := mkSendInfo _ _). apply (rel_bind (λ s1 s2, blind s1.1 s2.1 ∧ s1.2 = out ∧ s2.2 = out)).
  - pose proof (blind_write_pkt_type c1 c2 Hc) as Ht. unfold on_conn, zoom. cbn [fst snd].
    destruct (write_pkt_type c1), (write_pkt_type c2); cbn in Ht |- *; try done; (split; [apply Ht|]; split; [apply Ht|done]).
  - intros [? ?] [? ?] (? & E1 & E2). cbn in *. subst. split; [done|by left].
  - intros ty [c1' o1] [c2' o2] (Hb & E1 & E2). cbn in Hb, E1, E2. subst. destruct (decide (ty = ACK)) as [->|Hty].
    + decide_types. rewrite !ret_bind. eapply rel_bind; [by apply alike_ack|done|]. intros n s1 s2 Hs.
      decide_types. rewrite !ret_bind. decide_types. apply (finish_agree sent_alike); [by intros ? ? ? ? []| |done].
      apply alike_on_conn, agree_modify. blind_set.
    + rewrite (bool_decide_eq_false_2 (ty = ACK)) by done.
      eapply rel_weaken; [|exact sending_alike].
      match goal with |- rel_outcome _ _ (?m1 (_, out)) (?m2 (_, out)) => enough (agree sending m1 m2) as Ha end.
      { by apply Ha. }
      unfold send_handshake_server, send_handshake_client, set_handshake_now, send_stop_packet.
      sending_steps; try apply sending_elict; try apply sending_application.
      apply finish_agree; [by intros ? ? ? ? []|]. apply sending_on_conn, agree_modify. blind_set.
Qed.

(** ** The application of [Driver] *)

Context (lost : nat → bool) (clock : nat → nat → Z).

Definition rel_progress (p1 p2 : progress) : Prop :=
  match p1, p2 with
  | Going ph1 s1 r1, Going ph2 s2 r2 => ph1 = ph2 ∧ blind s1 s2 ∧ blind r1 r2
  | Finished s1 r1, Finished s2 r2 => blind s1 s2 ∧ blind r1 r2
  | Stuck, Stuck => True
  | _, _ => False
  end.

Lemma same_packet_take n p1 p2 : same_packet p1 p2 → same_packet (take n p1) (take n p2).
Proof.
  intros [->|[(Hl & Ht & Hd) Hh]]; [by left|]. destruct (decide (n <= 26)%nat).
  { left. replace n with (n `min` 26)%nat by lia. by rewrite <-!take_take, Ht. }
  right. split; [|destruct p1, n; (done || lia)]. split; [by rewrite !length_take, Hl|].
  split; [|by rewrite !skipn_firstn_comm, Hd]. rewrite !take_take. replace (26 `min` n)%nat with 26%nat by lia. done.
Qed.

Lemma same_packet_carries p1 p2 : same_packet p1 p2 → carries_data p1 = carries_data p2.
Proof.
  intros [->|[(_ & Ht & _) Hh]]; [done|]. destruct p1 as [|x p1]; [done|]. destruct p2 as [|y p2]; [done|].
  cbn in Ht. by injection Ht as -> _.
Qed.

Lemma blind_deliver k b p1 p2 r1 r2 :
  same_packet p1 p2 → blind r1 r2 →
  match deliver clock k b p1 r1, deliver clock k b p2 r2 with
  | Some r1', Some r2' => blind r1' r2'
  | None, None => True
  | _, _ => False
  end.
Proof.
  intros Hp Hr. unfold deliver. rewrite (same_packet_carries p1 p2 Hp). destruct (_ && _); [done|].
  pose proof (blind_recv_slice p1 p2 (clock k 2) Hp r1 r2 Hr) as H.
  destruct (recv_slice p1 _ r1), (recv_slice p2 _ r2); cbn in H; tauto.
Qed.

Lemma blind_answer k s1 s2 r1 r2 :
  blind s1 s2 → blind r1 r2 →
  match answer clock k s1 r1, answer clock k s2 r2 with
  | Some (s1', r1'), Some (s2', r2') => blind s1' s2' ∧ blind r1' r2'
  | None, None => True
  | _, _ => False
  end.
Proof.
  intros Hs Hr. unfold answer. replace (send_ack r2) with (send_ack r1) by by destruct Hr as (? & ? & ->).
  destruct (send_ack r1); [|done].
  pose proof (blind_send_data (clock k 3) (clock k 4) r1 r2 out_buf Hr ltac:(by rewrite zlen_out_buf)) as H.
  destruct (send_data _ _ (r1, _)) as [[n1 i1] [r1' o1]| |], (send_data _ _ (r2, _)) as [[n2 i2] [r2' o2]| |];
    cbn in H; try tauto. destruct H as ([= -> ->] & Hb & Hp). cbn in Hb, Hp.
  pose proof (blind_recv_slice _ _ (clock k 5) (same_packet_take (Z.to_nat n2) o1 o2 Hp) s1 s2 Hs) as H.
  destruct (recv_slice _ _ s1), (recv_slice _ _ s2); cbn in H; tauto.
Qed.

(** A turn does not depend on what was read. *)
Lemma blind_turn k ph s1 s2 r1 r2 :
  blind s1 s2 → blind r1 r2 → rel_progress (turn lost clock k ph s1 r1) (turn lost clock k ph s2 r2).
Proof.
  intros Hs Hr. destruct ph; unfold turn.
  { pose proof (blind_send_all (clock k 0) s1 s2 Hs) as H.
    destruct (send_all _ s1) as [[] ?| |], (send_all _ s2) as [[] ?| |]; cbn in H |- *; (tauto || by destruct H). }
  pose proof (blind_send_data (clock k 0) (clock k 1) s1 s2 out_buf Hs ltac:(by rewrite zlen_out_buf)) as H.
  replace (c_sent_pkt s2) with (c_sent_pkt s1) by by destruct Hs as (? & ? & ->).
  destruct (send_data _ _ (s1, _)) as [[n1 i1] [s1' o1]|e1 [s1' o1]|], (send_data _ _ (s2, _)) as [[n2 i2] [s2' o2]|e2 [s2' o2]|];
    cbn in H |- *; try done.
  - destruct H as ([= -> ->] & Hb & Hp). cbn in Hb, Hp.
    pose proof (blind_deliver k (lost (length (c_sent_pkt s1))) _ _ r1 r2 (same_packet_take (Z.to_nat n2) o1 o2 Hp) Hr) as Hd.
    destruct (deliver _ _ _ _ r1) as [r1'|], (deliver _ _ _ _ r2) as [r2'|]; try done.
    pose proof (blind_answer k s1' s2' r1' r2' Hb Hd) as Ha.
    destruct (answer _ _ s1' _) as [[s1'' r1'']|], (answer _ _ s2' _) as [[s2'' r2'']|]; try done.
    destruct Ha as [Ha1 Ha2]. split; [|done]. by destruct Ha1 as (? & ? & ->).
  - destruct H as [<- [Hb _]]. by destruct e1.
Qed.
End Calls.
