(* ===== verification/Interleaved.v ===== *)
(** * Interleaved: reading while a transfer runs

    The application of [Driver] again, with a receiver that reads between the
    turns, as often and into buffers as large as it likes.  Reading does not
    influence the transfer ([reads_do_not_interfere], by [Relate]), and no read
    panics when the build does not check for overflows.  When nothing is lost no
    read panics in any build, but every read reports 0 bytes
    ([reads_without_loss]). *)
From Stdlib Require Import SpecFloat.
From S2P Require Import Prelude Effects Octets Packet OMap SoftFloat RangeBuf RecvBuf RecvQueue SendBuf Recovery Connection AckPath DataPath Sender Receiver System Driver Flow Progress Relate.

(** What became of a transfer with reads; [got] are the results of the reads
    that returned [Ok], the count and the buffer of the application. *)
Inductive reading :=
| Completed (s r : Connection) (got : list (Z * list Z))
| ReadPanicked (k : nat) (p : panic)
| Unfinished.

Section Runs.
Context {P : Profile} {O : OctetsOps} {HI : HashOrder}.
Context (lost : nat → bool) (clock : nat → nat → Z).

(** [reads k]: the buffer the application reads into after the turn [k]. *)
Context (reads : nat → option (list Z)).

Fixpoint run_reading (n k : nat) (ph : phase) (s r : Connection) (got : list (Z * list Z)) : reading :=
  match n with
  | 0%nat => Unfinished
  | S n' =>
      match turn lost clock k ph s r with
      | Going ph' s' r' =>
          match reads k with
          | None => run_reading n' (S k) ph' s' r' got
          | Some out =>
              match read out r' with
              | Ok g r'' => run_reading n' (S k) ph' s' r'' (got ++ [g])
              | Err _ r'' => run_reading n' (S k) ph' s' r'' got
              | Panicked p => ReadPanicked k p
              end
          end
      | Finished s' r' => Completed s' r' got
      | Stuck => Unfinished
      end
  end.

(** Reading changes the buffer only. *)
Lemma read_blind out r :
  match read out r with Ok _ r' | Err _ r' => blind r r' | Panicked _ => True end.
Proof.
  unfold read, on_rec_buffer, zoom. destruct (RecvBuf.emit out (c_rec_buffer r)) as [? b|? b|]; try done;
    (exists (c_max_off r), b; by destruct r).
Qed.

Context {HO : OctetsSpec O}.

Lemma run_reading_blind n k ph s r s2 r2 got s' r' :
  blind s s2 → blind r r2 → run_transfer lost clock n k ph s r = Some (s', r') →
  match run_reading n k ph s2 r2 got with
  | Completed s2' r2' _ => blind s' s2' ∧ blind r' r2'
  | ReadPanicked _ _ => True
  | Unfinished => False
  end.
Proof.
  revert k ph s r s2 r2 got. induction n as [|n IH]; intros k ph s r s2 r2 got Hs Hr; cbn [run_transfer run_reading]; [done|].
  pose proof (blind_turn lost clock k ph s s2 r r2 Hs Hr) as Ht.
  destruct (turn _ _ _ _ s r) as [ph1 s1 r1|s1 r1|], (turn _ _ _ _ s2 r2) as [ph1' s1' r1'|s1' r1'|]; try done.
  - destruct Ht as (<- & Hs1 & Hr1). intros E. destruct (reads k) as [out|]; [|by apply (IH _ _ s1 r1)].
    pose proof (read_blind out r1') as Hb. destruct (read out r1') as [g r''|e r''|p]; [| |done];
      (apply (IH _ _ s1 r1); [done|by etrans|done]).
  - by intros [= <- <-].
Qed.
End Runs.

(** ** What leaves the receive buffer alone *)

(** [m] does not change the part [K] of the state. *)
Definition framed {S T A} (K : S → T) (m : M S A) : Prop :=
  ∀ s, wlp m s (λ _ s', K s' = K s) (λ s', K s' = K s).

Section Framed.
Context {S T : Type} (K : S → T).

Lemma framed_bind {A B} (m : M S A) (k : A → M S B) :
  framed K m → (∀ a, framed K (k a)) → framed K (m ≫= k).
Proof.
  intros Hm Hk s. eapply wlp_bind_mono; [apply Hm| |done]. intros a s' <-. apply Hk.
Qed.
Lemma framed_ret {A} (a : A) : framed K (mret a).
Proof. by intros s. Qed.
Lemma framed_get : framed K get.
Proof. by intros s. Qed.
Lemma framed_fail {A} e : framed K (fail e : M S A).
Proof. by intros s. Qed.
Lemma framed_panicking {A} p : framed K (panicking p : M S A).
Proof. by intros s. Qed.
Lemma framed_or_panic {A} p (o : option A) : framed K (or_panic p o).
Proof. by destruct o. Qed.
Lemma framed_checked {P : Profile} z : framed K (checked z).
Proof. intros s. by apply wlp_checked. Qed.
Lemma framed_modify f : (∀ s, K (f s) = K s) → framed K (modify f).
Proof. intros Hf s. apply Hf. Qed.
Lemma framed_unwrap {A} (m : M S A) : framed K m → framed K (unwrap m).
Proof. intros Hm s. apply wlp_unwrap. by eapply wlp_mono; [apply Hm| |]. Qed.
Lemma framed_local {U A} (t : U) (m : M U A) : framed K (local t m).
Proof. intros s. unfold wlp, local. by destruct (m t). Qed.
Lemma framed_if {A} (b : bool) (m n : M S A) : framed K m → framed K n → framed K (if b then m else n).
Proof. by destruct b. Qed.
Lemma framed_zoom {U A} (proj : S → U) inj (m : M U A) :
  (∀ u s, K (inj u s) = K s) → framed K (zoom proj inj m).
Proof. intros Hi s. unfold wlp, zoom. destruct (m (proj s)); (done || apply Hi). Qed.
End Framed.

Ltac framed_step :=
  lazymatch goal with
  | |- framed _ (mbind _ _) => apply framed_bind; [|intros ?]
  | |- framed _ (mret _) => apply framed_ret
  | |- framed _ get => apply framed_get
  | |- framed _ (fail _) => apply framed_fail
  | |- framed _ (panicking _) => apply framed_panicking
  | |- framed _ (or_panic _ _) => apply framed_or_panic
  | |- framed _ (checked _) => apply framed_checked
  | |- framed _ (uadd _ _) => apply framed_checked
  | |- framed _ (usub _ _) => apply framed_checked
  | |- framed _ (umul _ _) => apply framed_checked
  | |- framed _ (modify _) => apply framed_modify; intros; reflexivity
  | |- framed _ (unwrap _) => apply framed_unwrap
  | |- framed _ (local _ _) => apply framed_local
  | |- framed _ (on_send_buffer _) => apply framed_zoom; intros; reflexivity
  | |- framed _ (on_recovery _) => apply framed_zoom; intros; reflexivity
  | |- framed _ (on_out _) => apply framed_zoom; intros; reflexivity
  | |- framed _ (put_header _) => apply framed_zoom; intros; reflexivity
  | |- framed _ (if _ then _ else _) => apply framed_if
  | |- framed _ (match ?x with _ => _ end) => destruct x
  end.
Ltac framed_steps := repeat (framed_step; cbv beta).

Section Frames.
Context {P : Profile} {O : OctetsOps} {HI : HashOrder}.

Lemma framed_on_conn {A} (m : M Connection A) :
  framed c_rec_buffer m → framed (λ s : Connection * list Z, c_rec_buffer s.1) (on_conn m).
Proof. intros Hm s. apply wlp_zoom. eapply wlp_mono; [apply Hm| |]; by intros. Qed.

Lemma send_keeps_buffer t1 t2 :
  framed (λ s : Connection * list Z, c_rec_buffer s.1) (send_data t1 t2).
Proof.
  unfold send_data, write_pkt_type, send_handshake_server, send_handshake_client, set_handshake_now, send_ack_packet,
    send_elict_packet, send_application, note_sent, priority_calculation, send_stop_packet, finish_send.
  repeat (first [framed_step | apply framed_on_conn]; cbv beta).
Qed.

Lemma ack_keeps_buffer fuel l start w : framed c_rec_buffer (process_ack_loop fuel l start w).
Proof.
  revert start w. induction fuel as [|fuel IH]; intros start w; cbn [process_ack_loop]; [apply framed_ret|].
  unfold be_u64_at, process_ack_entry, priority_calculation. framed_steps; apply IH.
Qed.
Lemma check_keeps_buffer fuel (b : OctetsMut) : framed c_rec_buffer (check_loss_loop fuel b).
Proof.
  revert b. induction fuel as [|fuel IH]; intros b; cbn [check_loss_loop]; framed_steps; apply IH.
Qed.

Lemma dispatch_keeps_buffer p h now :
  Header.ty h ≠ Application → framed c_rec_buffer (recv_dispatch p h now).
Proof.
  intros Hty. unfold recv_dispatch. rewrite (bool_decide_eq_false_2 (Header.ty h = Application)) by done.
  unfold update_rtt, duration_checked, process_ack, recv_elict, check_loss, be_u64_at.
  framed_steps; try apply ack_keeps_buffer; apply check_keeps_buffer.
Qed.

Context {HO : OctetsSpec O}.

Lemma recv_keeps_buffer p now :
  Header.ty (Header.decode p) ≠ Application → framed c_rec_buffer (recv_slice p now).
Proof.
  intros Hty. unfold recv_slice. framed_step; [apply framed_fail|]. do 3 (framed_step; [framed_step|]).
  intros s. unfold wlp, mbind, M_bind. rewrite Header.from_slice_total. case_decide; [|done].
  by apply dispatch_keeps_buffer.
Qed.
End Frames.

(** ** Reads without overflow checks *)

Section Readable.
Context {P : Profile} {O : OctetsOps} {HO : OctetsSpec O} {HI : HashOrder}.
Context (lost : nat → bool) (clock : nat → nat → Z) (reads : nat → option (list Z)).

Lemma recv_readable p now r :
  readable (c_rec_buffer r) →
  wlp (recv_slice p now) r (λ _ r', readable (c_rec_buffer r')) (λ r', readable (c_rec_buffer r')).
Proof.
  intros Hr. destruct (decide (Header.ty (Header.decode p) = Application)) as [Ha|Hn].
  2:{ eapply wlp_mono; [by apply recv_keeps_buffer|..]; cbn; intros; congruence. }
  unfold recv_slice. destruct (_ =? 0); [done|]. wlp_steps. unfold wlp at 1. rewrite Header.from_slice_total.
  case_decide; [|done].
  unfold recv_dispatch. rewrite Ha. decide_types. unfold recv_application, on_rec_buffer. wlp_steps.
  eapply wlp_mono; [by apply (write_readable _ _ _ (λ _, True))|..]; by intros.
Qed.

Lemma answer_readable k s r s' r' :
  readable (c_rec_buffer r) → answer clock k s r = Some (s', r') → readable (c_rec_buffer r').
Proof.
  unfold answer. intros Hr. destruct (send_ack r); [|by intros [= _ <-]].
  pose proof (send_keeps_buffer (clock k 3) (clock k 4) (r, out_buf)) as Hf. unfold wlp in Hf.
  destruct (send_data _ _ (r, _)) as [[n i] [r1 o]| |]; [|done|done]. cbn in Hf.
  destruct (recv_slice _ _ s); [|done|done]. intros [= _ <-]. by rewrite Hf.
Qed.

Lemma turn_readable k ph s r :
  readable (c_rec_buffer r) →
  match turn lost clock k ph s r with
  | Going _ _ r' | Finished _ r' => readable (c_rec_buffer r')
  | Stuck => True
  end.
Proof.
  intros Hr. unfold turn. destruct ph; [by destruct (send_all _ s) as [[]| |]|].
  destruct (send_data _ _ (s, _)) as [[n i] [s1 o]|[] [s1 o]|]; try done.
  destruct (deliver _ _ _ _ r) as [r1|] eqn:Ed; [|done]. destruct (answer _ _ s1 r1) as [[s2 r2]|] eqn:Ea; [|done].
  eapply answer_readable; [|exact Ea]. unfold deliver in Ed. destruct (_ && _); [by injection Ed as <-|].
  pose proof (recv_readable (take (Z.to_nat n) o) (clock k 2) r Hr) as Hw. unfold wlp in Hw.
  destruct (recv_slice _ _ r); [|done|done]. by injection Ed as <-.
Qed.

(** No read of a release build panics. *)
Lemma run_reading_returns n k ph s r got k' p :
  overflow_checks = false → readable (c_rec_buffer r) →
  run_reading lost clock reads n k ph s r got ≠ ReadPanicked k' p.
Proof.
  intros Ho. revert k ph s r got. induction n as [|n IH]; intros k ph s r got Hr; cbn [run_reading]; [done|].
  pose proof (turn_readable k ph s r Hr) as Ht. destruct (turn lost clock k ph s r) as [ph1 s1 r1| |]; [|done|done].
  destruct (reads k) as [out|]; [|by apply IH]. pose proof (emit_wraps out _ Ho Ht) as Hw.
  unfold wp in Hw. unfold read, on_rec_buffer, zoom.
  destruct (RecvBuf.emit out (c_rec_buffer r1)); [by apply IH|by apply IH|done].
Qed.
End Readable.

(** ** Transfers without losses *)

Lemma tiles_at D lo l hi p :
  Forall (chunk_of D) l → tiles lo l hi → lo <= p < hi → ∃ c, c ∈ l ∧ rg_off c <= p < chunk_end c.
Proof.
  intros Hl. revert lo. induction Hl as [|c l Hc Hl IH]; intros lo; cbn; [lia|].
  intros [<- Ht] Hp. destruct (decide (p < chunk_end c)) as [|Hge].
  - exists c. split; [by left|lia].
  - destruct (IH _ Ht) as (c' & Hin & ?); [lia|]. exists c'. split; [by right|done].
Qed.

(** Two chunks of the ledger that share a byte are the same. *)
Lemma tiles_disjoint D lo l hi c c' p :
  Forall (chunk_of D) l → tiles lo l hi → c ∈ l → c' ∈ l →
  rg_off c <= p < chunk_end c → rg_off c' <= p < chunk_end c' → c = c'.
Proof.
  intros Hl. revert lo. induction Hl as [|x l Hx Hl IH]; intros lo Ht; [by intros ?%elem_of_nil|].
  destruct Ht as [<- Ht]. destruct (tiles_bounds D _ _ _ Hl Ht) as [_ Hb].
  intros [->|Hc]%elem_of_cons [->|Hc']%elem_of_cons Hp Hp'; [done| | |by eapply IH].
  - destruct (Hb c' Hc'). lia.
  - destruct (Hb c Hc). lia.
Qed.

(** The chunks before the position of the window were sent. *)
Definition passed (s : Connection) : Prop :=
  ∀ ch, ch ∈ take (Z.to_nat (sb_pos (c_send_buffer s))) (sb_data (c_send_buffer s)) → rg_off ch ∈ c_sent_pkt s.

Section InOrder.
Context {P : Profile} {O : OctetsOps} {HO : OctetsSpec O} {HI : HashOrder} {HIS : HashOrderSpec HI}.
Context (lost : nat → bool) (clock : nat → nat → Z) (no_loss : ∀ i, lost i = false).

Lemma sent_arrives s r o : delivery lost s r → o ∈ c_sent_pkt s → is_Some (c_recv_dic r !! o).
Proof. intros De [i Hi]%list_elem_of_lookup. by apply (de_got _ _ _ De i). Qed.

(** What is in the receive buffer is a chunk of the ledger that arrived. *)
Lemma stored_chunk D all s r k b :
  ends_ok D all s r → delivery lost s r → (k, b) ∈ rb_data (c_rec_buffer r) →
  ∃ c, c ∈ all ∧ rg_off c = rg_off b ∧ chunk_end c = chunk_end b ∧ is_Some (c_recv_dic r !! rg_off c).
Proof.
  intros [[_ L] Hr] De Hin. pose proof (ri_buffer _ _ Hr) as Hb. rewrite Forall_forall in Hb.
  destruct (Hb _ Hin) as (c & [Hs Hc]%list_elem_of_filter & E1 & E2). cbn in E1, E2. exists c.
  pose proof (de_ends _ _ _ De) as He. rewrite Forall_forall in He. specialize (He _ Hin). cbn in He. injection He as _ Hbe.
  pose proof (le_chunks _ _ _ _ L) as Hcs. rewrite Forall_forall in Hcs. destruct (Hcs c Hc) as [[[(_ & _ & Hl & _) _] _] _].
  split; [done|]. split; [done|]. split; [|by eapply sent_arrives].
  unfold chunk_end. rewrite Hbe. cbn. rewrite Hl, E1, E2. done.
Qed.

(** The chunk that is sent next is the one the receiver needs next. *)
Lemma next_in_order D all s r ch l m :
  ends_ok D all s r → flow lost D s r → window s → rest s = ch :: l → passed s →
  queue 0 m (rb_data (c_rec_buffer r)) → rg_off ch = m.
Proof.
  intros Hok F W Hr Hp Hq. pose proof Hok as [[Hi L] _]. pose proof (fl_delivery _ _ _ _ F) as De.
  pose proof (le_chunks _ _ _ _ L) as Hcs. pose proof (le_tiles _ _ _ _ L) as Ht.
  destruct (rest_chunk s ch l (si_buf _ _ Hi) Hr) as [Hin Hne]. pose proof (le_buffered _ _ _ _ L ch Hin) as Hch.
  destruct (chunk_in_data D all s r ch Hok (fl_counters _ _ _ _ F) Hch) as (Hd & Ho & _ & [_ Hlen]).
  destruct (wi_fresh _ W ch) as [Hk Hu]; [rewrite Hr; by left|].
  pose proof (de_again _ _ _ De ch Hk Hu) as Hno. pose proof (queue_le _ _ _ Hq) as Hm0.
  destruct (Z.lt_trichotomy (rg_off ch) m) as [Hlt|[?|Hgt]]; [exfalso|done|exfalso].
  - destruct (queue_at 0 m _ (rg_off ch) Hq) as (k & b & Hb & Hrange); [lia|].
    destruct (stored_chunk D all s r k b Hok De Hb) as (c & Hc & E1 & E2 & [x Hx]).
    assert (c = ch) as -> by (eapply (tiles_disjoint D 0 all _ c ch (rg_off ch)); try done; unfold chunk_end in *; lia).
    congruence.
  - destruct (tiles_at D 0 all _ m Hcs Ht) as (c & Hc & Hrange); [lia|].
    assert (Hnr : c_recv_dic r !! rg_off c = None).
    { destruct (c_recv_dic r !! rg_off c) eqn:E; [exfalso|done].
      destruct (received_stored lost D all s r c Hok F Hc ltac:(by eexists)) as (k & b & Hb & E1 & E2).
      destruct (queue_entry _ _ _ _ _ Hq Hb) as ((_ & _ & Hbl & _) & _ & Hbe & _).
      rewrite Forall_forall in Hcs. destruct (Hcs c Hc) as [[[(_ & _ & Hl & _) _] _] _].
      unfold chunk_end in *. rewrite Hbl, E1, E2 in Hbe. lia. }
    assert (Hns : rg_off c ∉ c_sent_pkt s) by (intros Hs; destruct (sent_arrives s r _ De Hs); congruence).
    destruct (le_accounted _ _ _ _ L c Hc) as [Hkc|[[y Hy]|Hg]]; [|congruence|].
    + apply Hns, Hp. unfold kept in Hkc. apply list_elem_of_filter in Hkc as [_ Hkc].
      pose proof (si_buf _ _ Hi) as (Hc1 & Hc2 & _). pose proof (laid_out_sorted _ _ _ Hc1 Hc2) as Hs.
      rewrite <-(take_drop (Z.to_nat (sb_pos (c_send_buffer s))) (sb_data (c_send_buffer s))) in Hkc, Hs.
      fold (rest s) in Hkc, Hs. apply elem_of_app in Hkc as [?|Hkc]; [done|exfalso]. rewrite Hr in Hkc, Hs.
      rewrite fmap_app, fmap_cons in Hs. apply StronglySorted_app in Hs as (_ & _ & Hs).
      apply StronglySorted_cons in Hs as [Hs _]. rewrite Forall_forall in Hs.
      apply elem_of_cons in Hkc as [->|Hkc]; [lia|]. specialize (Hs (rg_off c) (list_elem_of_fmap_2 _ _ _ Hkc)). lia.
    + destruct (chunk_in_data D all s r c Hok (fl_counters _ _ _ _ F) Hc) as (Hdc & _).
      destruct (priority_calculation_Ok _ _ Hdc) as [_ Hpr]. apply Hns, transmissions_pos. lia.
Qed.

(** *** The window moves over what was sent *)

Lemma passed_data s t ch l : rest s = ch :: l → passed s → passed (after_data_sent t ch s).
Proof.
  intros Hr Hp. destruct (data_sent_fields t ch s) as (_ & _ & _ & E4 & _ & _ & E7 & _).
  unfold passed. rewrite E4, E7. cbn [emitted sb_pos sb_data]. intros c Hc. rewrite elem_of_app.
  destruct (last_of_window _ _); [by apply elem_of_nil in Hc|].
  destruct (decide (0 <= sb_pos (c_send_buffer s))) as [H0|H0]; [|by rewrite Z2Nat.nonpos in Hc by lia; apply elem_of_nil in Hc].
  rewrite Z2Nat.inj_add, Nat.add_1_r in Hc by lia.
  assert (Hl : sb_data (c_send_buffer s) !! Z.to_nat (sb_pos (c_send_buffer s)) = Some ch).
  { rewrite <-(Nat.add_0_r (Z.to_nat _)), <-lookup_drop. unfold rest in Hr. by rewrite Hr. }
  rewrite (take_S_r _ _ _ Hl), elem_of_app, list_elem_of_singleton in Hc.
  destruct Hc as [Hc| ->]; [left; by apply Hp|right; by left].
Qed.

Lemma passed_same s s' :
  sb_pos (c_send_buffer s') = sb_pos (c_send_buffer s) → sb_data (c_send_buffer s') = sb_data (c_send_buffer s) →
  c_sent_pkt s' = c_sent_pkt s → passed s → passed s'.
Proof. unfold passed. by intros -> -> ->. Qed.
Lemma passed_0 s : sb_pos (c_send_buffer s) = 0 → passed s.
Proof. unfold passed. intros ->. by intros ch ?%elem_of_nil. Qed.

(** *** A transfer and the same transfer with reads, in step *)

Record twin (m : Z) (s r s2 r2 : Connection) : Prop := {
  tw_sender : blind s s2;
  tw_receiver : blind r r2;
  tw_passed : passed s;
  tw_queue : queued m (c_rec_buffer r);
  tw_queue2 : queued m (c_rec_buffer r2);
}.

Definition in_step (p p2 : progress) : Prop :=
  match p, p2 with
  | Going ph s r, Going ph2 s2 r2 => ph = ph2 ∧ ∃ m, twin m s r s2 r2
  | Finished s r, Finished s2 r2 => ∃ m, twin m s r s2 r2
  | _, _ => False
  end.

(** A packet other than an ACK is the same in both runs. *)
Lemma twin_packet t1 t2 s s2 n i s1 o p :
  blind s s2 → send_data t1 t2 (s, out_buf) = Ok (n, i) (s1, o) → take (Z.to_nat n) o = p →
  head p ≠ Some (Header.byte_of_ty ACK) →
  ∃ s1' o', send_data t1 t2 (s2, out_buf) = Ok (n, i) (s1', o') ∧ take (Z.to_nat n) o' = p ∧ blind s1 s1'.
Proof.
  intros Hb E Ht Hh. pose proof (blind_send_data t1 t2 s s2 out_buf Hb ltac:(by rewrite zlen_out_buf)) as H.
  rewrite E in H. destruct (send_data t1 t2 (s2, out_buf)) as [v [s1' o']| |]; cbn in H; try done.
  destruct H as (<- & Hs & Hp). exists s1', o'. split; [done|].
  destruct (same_packet_take (Z.to_nat n) _ _ Hp) as [He|[_ Ha]]; cbn [snd] in *; [|by rewrite Ht in Ha].
  by rewrite <-He.
Qed.

(** A turn without a data packet leaves the receive buffer alone. *)
Lemma turn_keeps_buffer k s r n i s1 o ph' s' r' :
  send_data (clock k 0) (clock k 1) (s, out_buf) = Ok (n, i) (s1, o) →
  Header.ty (Header.decode (take (Z.to_nat n) o)) ≠ Application →
  turn lost clock k Sending s r = Going ph' s' r' → c_rec_buffer r' = c_rec_buffer r.
Proof.
  intros E Hty. unfold turn. rewrite E. destruct (deliver _ _ _ _ r) as [r1|] eqn:Ed; [|done].
  assert (H1 : c_rec_buffer r1 = c_rec_buffer r).
  { unfold deliver in Ed. destruct (_ && _); [by injection Ed as ->|].
    pose proof (recv_keeps_buffer _ (clock k 2) Hty r) as Hf. unfold wlp in Hf.
    destruct (recv_slice _ _ r); [|done|done]. by injection Ed as <-. }
  destruct (answer _ _ _ r1) as [[s2 r2]|] eqn:Ea; [|done]. intros [= _ _ <-]. rewrite <-H1.
  unfold answer in Ea. destruct (send_ack r1); [|by injection Ea as _ <-].
  pose proof (send_keeps_buffer (clock k 3) (clock k 4) (r1, out_buf)) as Hf. unfold wlp in Hf.
  destruct (send_data _ _ (r1, _)) as [[n2 i2] [r2' o2]| |]; [|done|done].
  destruct (recv_slice _ _ s1); [|done|done]. by injection Ea as _ <-.
Qed.

Lemma twin_step_keeps m k s r s2 r2 n i s1 o p ph' s' r' :
  twin m s r s2 r2 → send_data (clock k 0) (clock k 1) (s, out_buf) = Ok (n, i) (s1, o) →
  take (Z.to_nat n) o = p → head p ≠ Some (Header.byte_of_ty ACK) → Header.ty (Header.decode p) ≠ Application →
  turn lost clock k Sending s r = Going ph' s' r' → passed s' →
  in_step (turn lost clock k Sending s r) (turn lost clock k Sending s2 r2).
Proof.
  intros [Hs Hr _ Hq Hq2] E Ht Hh Hty Hgo Hp'.
  destruct (twin_packet _ _ s s2 n i s1 o p Hs E Ht Hh) as (s1' & o' & E2 & Ht2 & _).
  pose proof (blind_turn lost clock k Sending s s2 r r2 Hs Hr) as Hb. rewrite Hgo in Hb |- *.
  destruct (turn lost clock k Sending s2 r2) as [ph2 s2' r2'| |] eqn:Hgo2; cbn in Hb; try done.
  destruct Hb as (<- & Hb1 & Hb2). split; [done|]. exists m.
  rewrite <-Ht in Hty. pose proof (turn_keeps_buffer k s r n i s1 o _ _ _ E Hty Hgo) as K1.
  rewrite Ht, <-Ht2 in Hty. pose proof (turn_keeps_buffer k s2 r2 n i s1' o' _ _ _ E2 Hty Hgo2) as K2.
  by constructor; rewrite ?K1, ?K2.
Qed.

(** A data packet that arrives. *)
Lemma turn_delivers k s r n i s1 o pn prio off data :
  send_data (clock k 0) (clock k 1) (s, out_buf) = Ok (n, i) (s1, o) →
  take (Z.to_nat n) o = data_packet pn prio off data → is_u64 pn → 1 <= prio <= 3 → is_u64 off →
  off + ♯data < u64_bound → 0 <= c_recv_count r < u64_bound - 2 → send_ack r = false →
  turn lost clock k Sending s r = Going (if is_stopped s1 then Refilling else Sending) s1
    (after_data_received pn prio off data r).
Proof.
  intros E Ht Hpn Hpr Ho Hb Hc Ha. unfold turn, deliver. rewrite E, Ht, data_packet_carries, no_loss. cbn [andb].
  rewrite recv_data_Ok; try done; [|unfold is_u8, u8_bound; lia]. unfold answer.
  by replace (send_ack (after_data_received pn prio off data r)) with false.
Qed.

Lemma after_data_queued m pn prio data r :
  queued m (c_rec_buffer r) → 0 < ♯data → m + ♯data < u64_bound →
  queued (m + ♯data) (c_rec_buffer (after_data_received pn prio m data r)).
Proof.
  intros Hq Hd Hb. destruct (write_queued data m _ Hq Hd Hb) as (b & E & Hq'). pose proof Hq as (H0 & _ & Hle%queue_le).
  rewrite recv_write_Ok in E by lia. injection E as <-. exact Hq'.
Qed.

Lemma twin_data D all m s r s2 r2 k :
  ends_ok D all s r → flow lost D s r → c_rtt s ≠ 0 → window s → c_sent_count s < 8 → twin m s r s2 r2 →
  in_step (turn lost clock k Sending s r) (turn lost clock k Sending s2 r2).
Proof.
  intros Hok F Hrtt W Hsc [Hs Hr Hp Hq Hq2]. destruct (rest s) as [|ch l] eqn:Hl; [by destruct (wi_rest _ W)|].
  destruct (sent_data lost clock D all s r k ch l Hok F W Hl Hrtt Hsc) as ((n & i & o & E & Ht) & Hch & Hpn & Hpr).
  destruct (chunk_in_data D all s r ch Hok (fl_counters _ _ _ _ F) Hch) as ([Ho _] & _ & Hend & [[(_ & _ & Hdl & _) _] Hlen]).
  assert (rg_off ch = m) as Hm.
  { eapply next_in_order; try done. destruct Hq as (_ & _ & Hq). by rewrite (de_unread _ _ _ (fl_delivery _ _ _ _ F)) in Hq. }
  destruct (twin_packet _ _ s s2 n i _ o _ Hs E Ht ltac:(done)) as (s1' & o' & E2 & Ht2 & Hb).
  pose proof (co_size _ _ _ (fl_counters _ _ _ _ F)) as Hsz. pose proof (co_sent _ _ _ (fl_counters _ _ _ _ F)) as Hsn.
  pose proof (co_recv_r _ _ _ (fl_counters _ _ _ _ F)) as Hrc. destruct Hok as [[Hi _] _].
  pose proof (si_batch _ _ Hi) as (Hap & _).
  assert (Hcnt : 0 <= c_recv_count r < u64_bound - 2).
  { unfold max_transfer, greeting, u64_bound in *. destruct (_ =? 0); lia. }
  assert (Hfit : rg_off ch + ♯(rg_data ch) < u64_bound) by (unfold max_transfer, chunk_end, u64_bound in *; lia).
  assert (Ha : send_ack r = false) by apply (fl_idle _ _ _ _ F).
  pose proof (turn_delivers k s r n i _ o _ _ _ _ E Ht Hpn Hpr Ho Hfit Hcnt Ha) as G1.
  assert (Hcnt2 : c_recv_count r2 = c_recv_count r) by (by destruct Hr as (? & ? & ->)).
  assert (Ha2 : send_ack r2 = false) by (destruct Hr as (? & ? & ->); exact Ha).
  rewrite <-Hcnt2 in Hcnt. pose proof (turn_delivers k s2 r2 n i _ o' _ _ _ _ E2 Ht2 Hpn Hpr Ho Hfit Hcnt Ha2) as G2.
  pose proof (blind_turn lost clock k Sending s s2 r r2 Hs Hr) as Hbt. rewrite G1, G2 in Hbt |- *.
  destruct Hbt as (Hph & Hbs & Hbr). split; [exact Hph|]. exists (m + ♯(rg_data ch)). rewrite Hm in *.
  constructor; [done|done|by eapply passed_data|apply after_data_queued; try done; lia|apply after_data_queued; try done; lia].
Qed.

Lemma twin_turn D all ph m s r s2 r2 k :
  ends_ok D all s r → flow lost D s r → at_phase ph s → clock k 1 < clock k 5 → twin m s r s2 r2 →
  in_step (turn lost clock k ph s r) (turn lost clock k ph s2 r2).
Proof.
  intros Hok F Hph Hc T. pose proof T as [Hs Hr Hp Hq Hq2]. pose proof Hok as [[Hi _] _].
  pose proof (blind_turn lost clock k ph s s2 r r2 Hs Hr) as Hb.
  pose proof (si_batch _ _ Hi) as (B1 & B2 & B3). unfold ELICT_FLAG in B3.
  assert (Hreport : c_rtt s ≠ 0 → 1 <= c_sent_count s → c_sent_count s = 8 ∨ c_stop_flag s = true →
    in_step (turn lost clock k Sending s r) (turn lost clock k Sending s2 r2)).
  { intros Hrtt H1 Hdue. destruct (sent_report lost clock D all s r k Hok F Hrtt Hdue) as (n & i & o & E & Ht).
    eapply (twin_step_keeps m); [done|exact E|exact Ht|done|done|by apply (turn_report lost clock D all)|].
    destruct (acked_sender_fields s r) as (_ & _ & _ & E4 & _ & _ & E7 & _).
    apply (passed_same s); rewrite ?E7; done. }
  destruct ph.
  { destruct (turn_refill lost clock D s r k Hi (fl_counters _ _ _ _ F)) as [(_ & _ & G)|(_ & w & rec' & _ & G)]; rewrite G in Hb |- *.
    - cbn [turn rel_progress] in Hb. unfold turn in Hb |- *. destruct (send_all _ s2) as [[] s2'| |]; cbn in Hb; try done.
      exists m. destruct Hb. by constructor.
    - unfold turn in Hb |- *. destruct (send_all _ s2) as [[] s2'| |]; cbn in Hb; try done. destruct Hb as (_ & Hb1 & Hb2).
      split; [done|]. exists m. constructor; try done. apply passed_0. by apply reopened_buffer; [|apply Hph]. }
  destruct (decide (c_rtt s = 0)) as [Hrtt|Hrtt].
  { assert (Hst : c_stop_flag s = false) by (destruct Hph as [W|[(? & _)|(_ & _ & _ & ? & _)]]; [apply W|done|done]).
    destruct (sent_greet clock D all s r k Hok Hrtt Hst) as (n & i & o & E & Ht).
    eapply (twin_step_keeps m); [done|exact E|exact Ht|done|done|by apply (turn_greet lost clock D all)|done]. }
  destruct Hph as [W|[(_ & Hst & _ & _ & H1 & _)|Hd]].
  - destruct (decide (c_sent_count s = 8)) as [H8|H8]; [apply Hreport; [done|lia|by left]|].
    eapply twin_data; try done. lia.
  - apply Hreport; [done|done|by right].
  - destruct (sent_drained clock D all s r k Hok Hrtt Hd) as (b' & o & E & _ & Hpos).
    pose proof (blind_send_data (clock k 0) (clock k 1) s s2 out_buf Hs ltac:(by rewrite zlen_out_buf)) as He.
    unfold turn in Hb |- *. rewrite E in He, Hb |- *.
    destruct (send_data _ _ (s2, _)) as [| e [s2' o']|]; cbn in He; try done. destruct He as [<- _].
    destruct Hb as (_ & Hb1 & Hb2). split; [done|]. exists m. constructor; try done. by apply passed_0.
Qed.

(** *** Whole runs *)

Context (reads : nat → option (list Z)) (fits : ∀ k out, reads k = Some out → ♯out < u64_bound).

(** A read of a queue reports 0 bytes or [Done]. *)
Lemma read_queued m out r :
  queued m (c_rec_buffer r) → ♯out < u64_bound →
  match read out r with
  | Ok g r' => g.1 = 0 ∧ queued m (c_rec_buffer r')
  | Err _ r' => queued m (c_rec_buffer r')
  | Panicked _ => False
  end.
Proof.
  intros Hq Ho. pose proof (emit_queued m out _ Hq Ho) as He. unfold read, on_rec_buffer, zoom.
  destruct (RecvBuf.emit out (c_rec_buffer r)) as [[n o] b|e b|]; [done| |done]. by destruct He as [_ ->].
Qed.

Lemma run_twin D n :
  (∀ k, clock k 1 < clock k 5) →
  ∀ k ph s r s2 r2 m got down up, reachable D (mkSystem s r down up) → flow lost D s r → at_phase ph s →
  measure D ph s < Z.of_nat n → twin m s r s2 r2 → Forall (λ g, g.1 = 0) got →
  ∃ s' r' s2' r2' m' got', run_transfer lost clock n k ph s r = Some (s', r') ∧
    run_reading lost clock reads n k ph s2 r2 got = Completed s2' r2' got' ∧
    Forall (λ g, g.1 = 0) got' ∧ twin m' s' r' s2' r2'.
Proof.
  intros Hc. induction n as [|n IH]; intros k ph s r s2 r2 m got down up Hst F Hph Hn T Hg;
    destruct (reachable_ends D s r down up Hst) as (all & Hok).
  { pose proof (measure_nonneg D ph s (proj1 (proj1 Hok)) (fl_budgets _ _ _ _ F)). lia. }
  cbn [run_transfer run_reading]. pose proof (turn_progresses lost clock D all ph s r k Hok F Hph (Hc k)) as Ht.
  pose proof (turn_reach lost clock k ph s r) as Hr. pose proof (twin_turn D all ph m s r s2 r2 k Hok F Hph (Hc k) T) as Ti.
  destruct (turn lost clock k ph s r) as [ph' s' r'|s' r'|], (turn lost clock k ph s2 r2) as [ph2 s2' r2'|s2' r2'|];
    cbn in Ti; try done.
  - destruct Ti as (<- & m' & T'). destruct Ht as (F' & Hph' & Hm).
    destruct (reachable_reach D s r s' r' down up Hst Hr) as (d & u & Hst').
    destruct (reads k) as [out|] eqn:Ek; [|eapply (IH (S k) ph' s' r'); try done; lia].
    destruct T' as [T1 T2 T3 T4 T5]. pose proof (read_queued m' out r2' T5 (fits k out Ek)) as Hq.
    pose proof (read_blind out r2') as Hb. destruct (read out r2') as [g r3|e r3|]; [destruct Hq as [Hg0 Hq]| |done].
    + eapply (IH (S k) ph' s' r'); try done; [lia|constructor; [done|by etrans|done|done|exact Hq]|].
      apply Forall_app. split; [done|]. by apply Forall_singleton.
    + eapply (IH (S k) ph' s' r'); try done; [lia|]. constructor; [done|by etrans|done|done|exact Hq].
  - destruct Ti as (m' & T'). by exists s', r', s2', r2', m', got.
Qed.

(** At the end the queue reaches to the end of the data. *)
Lemma queue_complete D all s r m :
  ends_ok D all s r → flow lost D s r → c_written_data s = ♯D → sb_data (c_send_buffer s) = [] →
  queued m (c_rec_buffer r) → m = ♯D.
Proof.
  intros Hok F Hw Hd (_ & _ & Hq). pose proof (fl_delivery _ _ _ _ F) as De. rewrite (de_unread _ _ _ De) in Hq.
  pose proof (queue_le _ _ _ Hq). pose proof (zlen_nonneg D). pose proof Hok as [[Hi L] _].
  pose proof (le_chunks _ _ _ _ L) as Hcs.
  destruct (ended lost D all s r Hok F Hw Hd) as (Ht & _ & _).
  destruct (Z.lt_trichotomy m (♯D)) as [Hlt|[?|Hgt]]; [exfalso|done|exfalso].
  - destruct (tiles_at D 0 all _ m Hcs Ht) as (c & Hc & Hrange); [lia|].
    destruct (none_lost_stored lost D all s r c no_loss Hok F Hw Hd Hc) as (k & b & Hb & E1 & E2).
    destruct (queue_entry _ _ _ _ _ Hq Hb) as ((_ & _ & Hbl & _) & _ & Hbe & _).
    rewrite Forall_forall in Hcs. destruct (Hcs c Hc) as [[[(_ & _ & Hl & _) _] _] _].
    unfold chunk_end in *. rewrite Hbl, E1, E2 in Hbe. lia.
  - destruct (queue_at 0 m _ (♯D) Hq) as (k & b & Hb & Hrange); [lia|].
    destruct (stored_chunk D all s r k b Hok De Hb) as (c & Hc & E1 & E2 & _).
    destruct (chunk_in_data D all s r c Hok (fl_counters _ _ _ _ F) Hc) as (_ & _ & He & _). lia.
Qed.
End InOrder.

(** ** Properties *)

Section Properties.
Context {P : Profile} {O : OctetsOps} {HO : OctetsSpec O} {HI : HashOrder} {HIS : HashOrderSpec HI}.
Context (lost : nat → bool) (clock : nat → nat → Z) (reads : nat → option (list Z)).

(** Every run with reads is a run of [System]. *)
Lemma run_reading_steps n k ph s r got s' r' got' :
  run_reading lost clock reads n k ph s r got = Completed s' r' got' → reach s r s' r'.
Proof.
  revert k ph s r got. induction n as [|n IH]; intros k ph s r got; cbn [run_reading]; [done|].
  pose proof (turn_reach lost clock k ph s r) as Ht. destruct (turn lost clock k ph s r) as [ph1 s1 r1|s1 r1|]; [| |done].
  - destruct (reads k) as [out|]; [|intros E; eapply reach_trans; [exact Ht|by eapply IH]].
    assert (Hread : ∀ r2, leaves (read out) r1 r2 → reach s1 r1 s1 r2).
    { intros r2 Hl down up. exists down, up. by eapply rtc_once, receiver_reads. }
    destruct (read out r1) as [g r2|e r2|] eqn:Er; [| |done]; intros E;
      (eapply reach_trans; [exact Ht|]; eapply reach_trans; [apply Hread|by eapply IH]).
    + left. by exists g.
    + right. by exists e.
  - by intros [= <- <- _].
Qed.

(** C7: reads_do_not_interfere.  Reading during a transfer does not influence
    it: for every pattern of lost data packets and every sequence of reads, the
    run ends as the one without reads does, both ends equal up to the receive
    buffers and the unused [max_off].  Or a read panics, which is possible only
    when the build checks for overflows. *)
Theorem reads_do_not_interfere D st :
  starts D st → loaded D (sys_sender st) → (∀ k, clock k 1%nat < clock k 5%nat) →
  ∃ s r, run_transfer lost clock (enough D) 0 Refilling (sys_sender st) (sys_receiver st) = Some (s, r) ∧
    match run_reading lost clock reads (enough D) 0 Refilling (sys_sender st) (sys_receiver st) [] with
    | Completed s' r' _ => blind s s' ∧ blind r r'
    | ReadPanicked _ _ => overflow_checks = true
    | Unfinished => False
    end.
Proof.
  intros H0 Hl Hc. destruct (starts_ends lost clock D st H0 Hl Hc) as (s & r & all & E & _).
  exists s, r. split; [done|].
  assert (Hr0 : readable (c_rec_buffer (sys_receiver st))) by (destruct H0; constructor).
  pose proof (run_reading_blind lost clock reads (enough D) 0 Refilling _ _ _ _ [] s r (reflexivity _) (reflexivity _) E) as Hb.
  destruct (run_reading _ _ _ _ _ _ _ _ _) as [| k p|] eqn:Er; [done| |done].
  destruct overflow_checks eqn:Ho; [done|]. by apply run_reading_returns in Er.
Qed.

(** C29: reads_without_loss.  When no data packet is lost, the application may
    read between the turns, as often and into buffers of any size: no read
    panics and the transfer ends, every chunk sent once.  But every read that
    returns reports 0 bytes.  What is left in the receive buffer is the end of
    the data from the read position on, without a gap. *)
Theorem reads_without_loss D st :
  (∀ i, lost i = false) → (∀ k out, reads k = Some out → ♯out < u64_bound) →
  starts D st → loaded D (sys_sender st) → (∀ k, clock k 1%nat < clock k 5%nat) →
  ∃ s r got, run_reading lost clock reads (enough D) 0 Refilling (sys_sender st) (sys_receiver st) [] =
      Completed s r got ∧ Forall (λ g, g.1 = 0) got ∧ NoDup (c_sent_pkt s) ∧ queued (♯D) (c_rec_buffer r) ∧
    ∀ k b, (k, b) ∈ rb_data (c_rec_buffer r) → rg_data b = take (length (rg_data b)) (drop (Z.to_nat (rg_off b)) D).
Proof.
  intros Hnl Hfit H0 Hl Hc. destruct (starts_ends lost clock D st H0 Hl Hc) as (s & r & all & E & _ & Hok & F & Hw & Hd).
  destruct (start_flow lost D st H0 Hl) as (F0 & Q & Hm). destruct st as [s0 r0 down up]. cbn [sys_sender sys_receiver] in *.
  assert (Hst : reachable D (mkSystem s0 r0 down up)) by (eexists; by split; [|apply rtc_refl]).
  assert (T : twin 0 s0 r0 s0 r0) by (inversion H0; subst; constructor; [done|done|by apply passed_0|by repeat split..]).
  destruct (run_twin lost clock Hnl reads Hfit D (enough D) Hc 0%nat Refilling s0 r0 s0 r0 0 [] down up Hst F0 Q) as
    (s' & r' & s2 & r2 & m & got & E' & E2 & Hg & [T1 _ _ T4 T5]); try done.
  { rewrite Hm. unfold enough. pose proof (zlen_nonneg D). lia. }
  rewrite E in E'. injection E' as <- <-. rewrite (queue_complete lost Hnl D all s r m Hok F Hw Hd T4) in T5.
  exists s2, r2, got. split; [done|]. split; [done|]. split; [|split; [done|]].
  - destruct T1 as (mo & b & ->). apply NoDup_alt. intros i j o Hi Hj.
    pose proof (de_lost _ _ _ (fl_delivery _ _ _ _ F)) as Hlost.
    destruct (Nat.lt_trichotomy i j) as [H|[H|H]]; [specialize (Hlost i j o H Hi Hj)|done|specialize (Hlost j i o H Hj Hi)];
      by rewrite Hnl in Hlost.
  - intros k b Hb. destruct (reachable_reach D s0 r0 s2 r2 down up Hst (run_reading_steps _ _ _ _ _ _ _ _ _ E2)) as (d & u & Hst2).
    destruct (reachable_ok D _ Hst2) as (all2 & [[_ L2] Hr2 _ _]). pose proof (ri_buffer _ _ Hr2) as Hcp.
    rewrite Forall_forall in Hcp. exact (copy_bytes D all2 _ b (le_chunks _ _ _ _ L2) (Hcp _ Hb)).
Qed.
End Properties.

(** ** Witnesses *)

Module InterleavedSamples.
#[local] Existing Instances debug_x86 ListOctets.ops ListOctets.spec map_order map_order_spec.
Import ProgressSamples.

(** A buffer of two bytes after every turn. *)
Definition every_turn (k : nat) : option (list Z) := Some [0; 0].

Lemma reads_do_not_interfere_witness :
  ∃ s r, run_transfer first_two ticking (enough Run.D) 0 Refilling Run.s0 Run.r0 = Some (s, r) ∧
    match run_reading first_two ticking every_turn (enough Run.D) 0 Refilling Run.s0 Run.r0 [] with
    | Completed s' r' _ => blind s s' ∧ blind r r'
    | ReadPanicked _ _ => overflow_checks = true
    | Unfinished => False
    end.
Proof.
  apply (reads_do_not_interfere first_two ticking every_turn Run.D Run.st_start Run.run_starts run_loaded).
  intros k. unfold ticking. lia.
Defined.

(** That run completes; the application is told of no byte, and gets the first
    one again as the third. *)
Example reads_of_first_two :
  match run_reading first_two ticking every_turn (enough Run.D) 0 Refilling Run.s0 Run.r0 [] with
  | Completed _ _ got => got = [(0, [1; 2]); (0, [1; 0])]
  | _ => False
  end.
Proof. vm_compute. reflexivity. Qed.

Lemma reads_without_loss_witness :
  ∃ s r got, run_reading (λ _, false) ticking every_turn (enough Run.D) 0 Refilling Run.s0 Run.r0 [] = Completed s r got ∧
    Forall (λ g, g.1 = 0) got ∧ NoDup (c_sent_pkt s) ∧ queued (♯Run.D) (c_rec_buffer r) ∧
    ∀ k b, (k, b) ∈ rb_data (c_rec_buffer r) → rg_data b = take (length (rg_data b)) (drop (Z.to_nat (rg_off b)) Run.D).
Proof.
  apply (reads_without_loss (λ _, false) ticking every_turn Run.D Run.st_start).
  - reflexivity.
  - intros k out [= <-]. vm_compute. reflexivity.
  - exact Run.run_starts.
  - exact run_loaded.
  - intros k. unfold ticking. lia.
Defined.
End InterleavedSamples.
